(* ===== verification/_CoqProject ===== *)
-Q . S2P
Prelude.v
Mem.v
Machine.v
Multiboot.v
Pmm.v
Klib.v
Vga.v
Fmt.v
Stack.v
Panic.v
Paging.v
PagingSpec.v
PagingOps.v
AddressSpace.v
Inspect.v
Heap.v
HeapSpec.v
HeapOps.v
HeapCalls.v
HeapEnv.v
Kmalloc.v
Allocator.v
Calm.v
Payload.v
BootMem.v
Start.v
Gdt.v
Segments.v
Idt.v
Exceptions.v
Probe.v
ProbeSpec.v
Boot.v
BootSpec.v
Fixtures.v
Os.v
Keyboard.v
Shell.v
Console.v
Kmain.v
Ready.v
SelfTest.v
Prompt.v
Startup.v
Power.v
