(* ===== verification/Prelude.v ===== *)
(** * kfs-3: a verification of the 42-kfs kernel

    The program is a 32-bit x86 kernel in Rust (src/kernel/src) with a boot
    stub (src/boot/boot.asm) and a linker script.  It is built in release
    mode, so integer arithmetic wraps: every operation below is written with
    its wrap-around ([+u], [-u], [*u] on 32 bits).

    ** The program

    boot.asm builds two page tables, turns paging on and calls kmain
    (lib.rs).  kmain installs the segments (gdt.rs), clears the screen
    (vga.rs), installs the exception gates (idt.rs), brings memory up
    (mem::init in mem.rs: multiboot.rs reads the loader's map, pmm.rs keeps a
    bitmap of frames, paging.rs installs the kernel's page tables, heap.rs
    gets a window of contiguous frames) and runs the shell (shell.rs) on
    keyboard.rs, for ever.  A page fault in the demand region maps a frame and
    goes on; a request the kernel refuses is a recovered panic (panic.rs), a
    fault it cannot resolve stops the processor.

    ** The model

    Code is a function of the monad [M] on a state: it returns, is cut short
    by a page fault of the processor, stops the processor, or is still running
    when the fuel of a loop is spent.  Statics of the source are fields of the
    state, one operation of the source is one definition of the same name, and
    the line above a definition names the file and lines it translates.

    - [Prelude]: machine integers, the monad, tactics, shared lemmas.
    - [Mem]: constants and address classes of mem.rs.
    - [Machine]: physical memory byte by byte, the two-level page walk, a TLB
      that never forgets on its own, CR0, CR2, CR3.  Every [read_volatile] and
      [write_volatile] of paging.rs, heap.rs and shell.rs is a load or a store
      of this machine.
    - [Multiboot], [Probe]: multiboot.rs.  [Pmm]: pmm.rs.  [Klib]: klib.rs.
      [Vga]: vga.rs, on a text buffer kept apart from memory (it stays mapped,
      and no frame of conventional memory is ever handed out).  [Fmt]: core::fmt
      and printk.rs, the state [sys], and the linker's symbols (class
      [Linker]).  [Stack]: stack.rs.  [Panic]: panic.rs.
    - [Paging]: paging.rs.  [PagingSpec]: pages as a partial map, the
      invariant [vm_ok] of tables, allocator and TLB.  [PagingOps]: what each
      operation does to them.  [AddressSpace]: the theorems.  [Inspect]: the
      printers of paging.rs.
    - [Heap]: heap.rs over an interface (class [Env]).  [HeapSpec]: what the
      interface promises (class [EnvLaws]) and the blocks that tile a heap.
      [HeapOps], [HeapCalls]: what each method does to the blocks.
      [HeapEnv]: the kernel satisfies the interface.  [Kmalloc]: the two
      heaps and the kernel state.  [Allocator]: the theorems.  [Calm],
      [Payload]: steps between two calls, and the bytes of a block in use.
    - [BootMem]: memory under the tables of boot.asm, and the guarantees of
      the linker script (class [LinkerOk]).  [Start]: boot.asm, instruction by
      instruction; where the assembler puts the code is the class [Assembled].
      [Gdt], [Segments]: gdt.rs and the descriptor decoder of shell.rs.
      [Idt], [Exceptions]: idt.rs, the assembler stubs, faults and fatal
      panics.  [ProbeSpec]: the memory map.  [Boot], [BootSpec]: the rest of
      mem.rs, and memory from boot.asm to two well-formed heaps.
    - [Os]: the whole state, with I/O ports.  [Keyboard]: keyboard.rs.
      [Shell]: shell.rs.  [Console]: the line editor and dispatch.  [Kmain]:
      lib.rs.  [Fixtures]: what no command may change.  [Ready]: the
      invariant of the shell and the calls a command makes.  [SelfTest]: the
      command [alloc].  [Prompt]: every command and the loop that reads lines.
      [Startup]: kmain on the machine of boot.asm.  [Power]: boot.asm and
      kmain together.

    ** What the theorems show

    - Frames (Pmm): the bitmap is a finite set; allocation takes the lowest
      frame, or the lowest run that fits, or halves its request; freeing
      undoes it; the counters never drift.
    - Pages (AddressSpace): [map_page] is insertion into a partial map,
      through the directory mapped into itself, with the TLB never stale;
      [unmap_page], [protect], [map_new], [translate] and the fault handler
      likewise, on pages outside the two windows on low memory and the window
      of the tables; any sequence of them keeps [vm_ok] and keeps kernel space
      closed to user mode, since the directory never gets the user bit there;
      [dump] prints the map (Inspect).
    - Heaps (Allocator): every call on either heap returns; live blocks never
      overlap and keep their words; a null pointer or a break that moves less
      than asked means there was no room and the heap cannot grow;
      from two empty heaps on, kmalloc memory is physically contiguous.
    - The whole system (Power, Startup, Prompt): from the first instruction of
      boot.asm on, whatever the keyboard sends, no fault goes unhandled and
      kmain never returns; [stands] says where the shell is: before a line, in
      a line without its Enter, in [reboot] before a busy controller, or
      stopped by [fault], [panic], [reboot] or [halt]; every other
      command brings the invariant back; the code, the
      read-only data, the segment descriptors and the gates are never altered,
      and no page that is handed out shares a frame with them.
    - The self-test (SelfTest): the fourteen checks of the command [alloc]
      can only fail for want of memory, whatever both heaps hold, and a heap
      is then indeed exhausted.
    - Entry (Start): the entry code calls kmain with the loader's values, and
      each of its instructions is where the processor looks for it, paging off
      and on.
    - Start-up (Startup, BootSpec, ProbeSpec, Segments, Exceptions): kmain
      reaches the shell or the processor stops for want of memory; the memory map is
      read as the multiboot specification lays it out; the page tables protect
      the kernel's code; [mem::init] ends with both heaps ready or the
      processor stopped; gates and segment registers are as declared.
    - Faults (Exceptions): a demand access faults once and succeeds; any other
      fault stops the processor; the stubs build and unwind the frame exactly.
    - Segments: the [gdt] command shows the addresses that the limit check of
      the processor allows, except for what the theorem excludes (segments
      that wrap, and those that expand down from another base or to 64 kb).
    - Console: [read_line] refines an abstract line editor for every answer of
      the keyboard controller; a line runs the command it names.
    - Screen and strings (Vga, Klib): no read or write outside the buffer, scrolling,
      the three screens, decimal printing and number parsing.

    ** Fuel

    Loops over a heap get one turn per 8 bytes of it, which is enough since a
    block is at least 16 bytes ([walk_fuel], used in every theorem of HeapOps
    and HeapCalls).  [carve] halves a 20-bit number: 32 turns.  The stack dump
    gets one turn per byte.  The entry code takes 4118 instructions, 4096 of
    them in its loop.  [read_line] gets one turn per byte the ports
    still have to give.  The loop of [probe] is bounded by nothing in the
    source, and its fuel is an argument: one turn per entry is enough for a
    map as the specification lays it out, and no fuel is enough for one with
    an entry of size 0xfffffffc ([probe_loop_stuck]).

    ** Bounds

    The theorems about the whole kernel are for machines of at most 96 mb:
    then the physical window of the kernel heap ends below the address that
    the command [fault kernel] writes to.  On a larger machine that address
    could belong to a block of the heap.

    ** Not modelled

    The accessed and dirty bits, ring 3, the kernel's stack as memory (its
    contents matter only to the dump), protection checks of segment loads,
    interrupts (the kernel keeps them off), the timing of the 8042 and of the
    screen, and the encoding of instructions (their lengths and places are
    parameters, the fields of [Assembled]).  The build files and the linker
    script are not code of the kernel; the script's guarantees are the fields
    of [LinkerOk] and [AssembledOk]. *)

From Stdlib Require Export ZArith Lia Bool.
From stdpp Require Export base numbers list gmap strings tactics.
#[global] Open Scope Z_scope.

(** ** Machine integers

    The kernel is compiled with [cargo build --release] (Makefile, target
    [cargo]), so the arithmetic of [u32], [usize] and [u64] wraps.  A
    [w]-bit unsigned integer is a [Z]; every operation that can leave the
    range is written with its wrap-around. *)

Declare Scope word_scope.
Delimit Scope word_scope with word.

Definition wrap8 (x : Z) : Z := x mod 256.
Definition wrap16 (x : Z) : Z := x mod 65536.
Definition wrap32 (x : Z) : Z := x mod 4294967296.
Definition wrap64 (x : Z) : Z := x mod 18446744073709551616.

Definition U32_MAX : Z := 4294967295.
Definition U64_MAX : Z := 18446744073709551615.

(** [!x] on a [u32]. *)
Definition not32 (x : Z) : Z := Z.lxor x U32_MAX.

Notation "x +u y" := (wrap32 (x + y)) (at level 50, left associativity) : word_scope.
Notation "x -u y" := (wrap32 (x - y)) (at level 50, left associativity) : word_scope.
Notation "x *u y" := (wrap32 (x * y)) (at level 40, left associativity) : word_scope.
#[global] Open Scope word_scope.

Definition is_u8 (x : Z) : Prop := 0 <= x < 256.
Definition is_u32 (x : Z) : Prop := 0 <= x < 4294967296.

#[global] Instance is_u8_dec x : Decision (is_u8 x).
Proof. unfold is_u8. apply _. Defined.
#[global] Instance is_u32_dec x : Decision (is_u32 x).
Proof. unfold is_u32. apply _. Defined.

(** [u32::trailing_zeros]: 32 on zero. *)
Fixpoint pos_trailing_zeros (p : positive) : Z :=
  match p with
  | xO q => 1 + pos_trailing_zeros q
  | _ => 0
  end.

Definition trailing_zeros (x : Z) : Z :=
  match x with
  | Zpos p => pos_trailing_zeros p
  | _ => 32
  end.

(** [core::cmp::min] and the saturating operations the kernel calls. *)
Definition saturating_add32 (x y : Z) : Z := Z.min (x + y) U32_MAX.
Definition saturating_add64 (x y : Z) : Z := Z.min (x + y) U64_MAX.
Definition saturating_sub32 (x y : Z) : Z := Z.max 0 (x - y).

(** ** Running kernel code

    A piece of kernel code runs on a state [S] and either returns, is cut
    short by a page fault the CPU raises (the address is what [cr2] holds,
    the error is the code the CPU pushes), stops the processor for good
    ([cli; hlt] in a loop, where every fatal panic ends), or is still
    running when the fuel of a loop is spent.  The last case exists only
    because Rocq functions are total; the theorems about loops state that
    the fuel given is enough. *)
Inductive outcome (S A : Type) : Type :=
| Done (a : A) (s : S)
| Fault (addr error : Z) (s : S)
| Halted (s : S)
| OutOfFuel.
Arguments Done {S A} a s.
Arguments Fault {S A} addr error s.
Arguments Halted {S A} s.
Arguments OutOfFuel {S A}.

Definition M (S A : Type) : Type := S -> outcome S A.

Definition ret {S A} (a : A) : M S A := fun s => Done a s.

Definition bind {S A B} (c : M S A) (k : A -> M S B) : M S B := fun s =>
  match c s with
  | Done a s' => k a s'
  | Fault addr error s' => Fault addr error s'
  | Halted s' => Halted s'
  | OutOfFuel => OutOfFuel
  end.

(** Reading and replacing the state, and running out of fuel. *)
Definition get {S} : M S S := fun s => Done s s.
Definition put {S} (s : S) : M S unit := fun _ => Done tt s.
Definition gets {S A} (f : S -> A) : M S A := fun s => Done (f s) s.
Definition modify {S} (f : S -> S) : M S unit := fun s => Done tt (f s).
Definition starve {S A} : M S A := fun _ => OutOfFuel.

Declare Scope monad_scope.
Delimit Scope monad_scope with monad.
Notation "x <- c ;; k" := (bind c (fun x => k))
  (at level 100, c at next level, right associativity) : monad_scope.
Notation "c ;; k" := (bind c (fun _ => k))
  (at level 100, right associativity) : monad_scope.
#[global] Open Scope monad_scope.

(** Code of a part [T] of the state [S]. *)
Definition zoom {S T A} (part : S -> T) (put_back : T -> S -> S) (c : M T A) : M S A := fun s =>
  match c (part s) with
  | Done a t => Done a (put_back t s)
  | Fault addr error t => Fault addr error (put_back t s)
  | Halted t => Halted (put_back t s)
  | OutOfFuel => OutOfFuel
  end.

(** [for i in l { body(i) }] over an already computed list of indices. *)
Fixpoint for_each {S A} (l : list A) (body : A -> M S unit) : M S unit :=
  match l with
  | [] => ret tt
  | i :: l => body i ;; for_each l body
  end.

(** ** Automation *)

Create HintDb kfs.

Ltac split_ifs :=
  repeat match goal with
  | |- context [if ?b then _ else _] => destruct b eqn:?
  end.

(** Turn boolean comparisons on [Z] into propositions. *)
Ltac breflect :=
  repeat match goal with
  | H : _ && _ = true |- _ => apply andb_true_iff in H as [? ?]
  | H : _ && _ = false |- _ => apply andb_false_iff in H
  | H : _ || _ = false |- _ => apply orb_false_iff in H as [? ?]
  | H : _ || _ = true |- _ => apply orb_true_iff in H
  | H : negb _ = true |- _ => apply negb_true_iff in H
  | H : negb _ = false |- _ => apply negb_false_iff in H
  | H : (_ =? _) = true |- _ => apply Z.eqb_eq in H
  | H : (_ =? _) = false |- _ => apply Z.eqb_neq in H
  | H : (_ <? _) = true |- _ => apply Z.ltb_lt in H
  | H : (_ <? _) = false |- _ => apply Z.ltb_ge in H
  | H : (_ <=? _) = true |- _ => apply Z.leb_le in H
  | H : (_ <=? _) = false |- _ => apply Z.leb_gt in H
  | H : (_ >=? _) = true |- _ => apply Z.geb_le in H
  | H : (_ >=? _) = false |- _ => rewrite Z.geb_leb in H; apply Z.leb_gt in H
  | H : (_ >? _) = true |- _ => rewrite Z.gtb_ltb in H; apply Z.ltb_lt in H
  | H : (_ >? _) = false |- _ => rewrite Z.gtb_ltb in H; apply Z.ltb_ge in H
  end.

(** Linear arithmetic with [/] and [mod] by constants. *)
Ltac dlia := Z.to_euclidean_division_equations; lia.

(** [lia] with the range predicates and the wrap-around opened. *)
Ltac word_lia :=
  unfold is_u8, is_u32, wrap8, wrap16, wrap32, wrap64, U32_MAX, U64_MAX in *;
  Z.to_euclidean_division_equations; lia.

(** Decide a closed proposition by evaluation. *)
Ltac by_decide := apply (bool_decide_unpack _); vm_compute; exact I.

(** ** Generic lemmas *)

Lemma wrap32_small x : is_u32 x -> wrap32 x = x.
Proof. unfold is_u32, wrap32. intros. apply Z.mod_small. lia. Qed.

Lemma wrap32_range x : is_u32 (wrap32 x).
Proof. unfold is_u32, wrap32. apply Z.mod_pos_bound. lia. Qed.

Lemma wrap32_idemp x : wrap32 (wrap32 x) = wrap32 x.
Proof. apply wrap32_small, wrap32_range. Qed.

#[export] Hint Resolve wrap32_range : kfs.

(** *** Bits *)

Lemma testbit_high x n k : 0 <= x < 2 ^ n -> n <= k -> Z.testbit x k = false.
Proof.
  intros Hx Hk. destruct (Z.eq_dec x 0) as [->|Hne]; [apply Z.bits_0|].
  apply Z.bits_above_log2; [lia|].
  assert (Z.log2 x < n); [apply Z.log2_lt_pow2; lia|lia].
Qed.

Lemma range_of_bits x n :
  0 <= n -> 0 <= x -> (forall k, n <= k -> Z.testbit x k = false) -> x < 2 ^ n.
Proof.
  intros Hn Hx Hb. destruct (Z.eq_dec x 0) as [->|Hne]; [lia|].
  apply Z.log2_lt_pow2; [lia|].
  destruct (Z.lt_ge_cases (Z.log2 x) n) as [|Hge]; [done|].
  specialize (Hb _ Hge). rewrite Z.bit_log2 in Hb; [done|lia].
Qed.

Lemma land_range x y n : 0 <= n -> 0 <= x < 2 ^ n -> 0 <= y -> 0 <= Z.land x y < 2 ^ n.
Proof.
  intros Hn Hx Hy. split; [apply Z.land_nonneg; lia|].
  apply range_of_bits; [lia|apply Z.land_nonneg; lia|].
  intros k Hk. rewrite Z.land_spec, (testbit_high x n) by lia. done.
Qed.

Lemma lor_range x y n :
  0 <= n -> 0 <= x < 2 ^ n -> 0 <= y < 2 ^ n -> 0 <= Z.lor x y < 2 ^ n.
Proof.
  intros Hn Hx Hy. split; [apply Z.lor_nonneg; lia|].
  apply range_of_bits; [lia|apply Z.lor_nonneg; lia|].
  intros k Hk. rewrite Z.lor_spec, (testbit_high x n), (testbit_high y n) by lia. done.
Qed.

Lemma testbit_not32 x k :
  0 <= k -> Z.testbit (not32 x) k = xorb (Z.testbit x k) (k <? 32).
Proof.
  intros Hk. unfold not32. rewrite Z.lxor_spec. f_equal.
  change U32_MAX with (Z.ones 32). rewrite Z.testbit_ones by lia.
  rewrite Zle_imp_le_bool by lia. done.
Qed.

Lemma not32_range x : is_u32 x -> is_u32 (not32 x).
Proof.
  unfold is_u32. change 4294967296 with (2 ^ 32). intros Hx.
  assert (0 <= not32 x) by (apply Z.lxor_nonneg; unfold U32_MAX; lia).
  split; [done|]. apply range_of_bits; [lia|done|].
  intros k Hk. rewrite testbit_not32 by lia. rewrite (testbit_high x 32) by lia.
  destruct (Z.ltb_spec k 32); [lia|done].
Qed.

(** Disjoint bits: [lor] adds. *)
Lemma lor_add a b n : 0 <= n -> 0 <= a < 2 ^ n -> Z.lor a (b * 2 ^ n) = a + b * 2 ^ n.
Proof.
  intros Hn Ha. rewrite <- Z.lxor_lor, <- Z.add_nocarry_lxor; [done| |].
  all: apply Z.bits_inj'; intros k Hk; rewrite Z.land_spec, Z.bits_0;
    destruct (Z.lt_ge_cases k n);
    [rewrite Z.mul_pow2_bits, (Z.testbit_neg_r b) by lia; apply andb_false_r
    |rewrite (testbit_high a n) by lia; done].
Qed.

(** A single-bit mask tests that bit. *)
Lemma land_bit_zero x k :
  0 <= k -> (Z.land x (Z.shiftl 1 k) =? 0) = negb (Z.testbit x k).
Proof.
  intros Hk. destruct (Z.testbit x k) eqn:Hb; cbn.
  - apply Z.eqb_neq. intros H0. apply (f_equal (fun z => Z.testbit z k)) in H0.
    rewrite Z.land_spec, Z.shiftl_spec, Hb, Z.sub_diag, Z.bits_0 in H0 by lia. done.
  - apply Z.eqb_eq, Z.bits_inj'. intros i Hi.
    rewrite Z.land_spec, Z.shiftl_1_l, Z.pow2_bits_eqb, Z.bits_0 by lia.
    destruct (Z.eqb_spec k i) as [->|]; [by rewrite Hb|apply andb_false_r].
Qed.

Lemma pos_trailing_zeros_nonneg p : 0 <= pos_trailing_zeros p.
Proof. induction p; cbn [pos_trailing_zeros]; lia. Qed.

(** The bit [trailing_zeros] names is set and every lower bit is clear. *)
Lemma trailing_zeros_spec x :
  0 < x ->
  0 <= trailing_zeros x /\ Z.testbit x (trailing_zeros x) = true /\
  forall i, 0 <= i < trailing_zeros x -> Z.testbit x i = false.
Proof.
  destruct x as [|p|p]; [lia| |lia]. intros _. cbn [trailing_zeros].
  split; [apply pos_trailing_zeros_nonneg|].
  induction p as [p _|p [IHt IHl]|]; cbn [pos_trailing_zeros].
  - split; [done|lia].
  - pose proof (pos_trailing_zeros_nonneg p). rewrite Pos2Z.inj_xO.
    replace (1 + pos_trailing_zeros p) with (Z.succ (pos_trailing_zeros p)) by lia.
    split; [by rewrite Z.double_bits_succ|]. intros i Hi.
    destruct (Z.eq_dec i 0) as [->|]; [apply Z.testbit_even_0|].
    replace i with (Z.succ (Z.pred i)) by lia. rewrite Z.double_bits_succ. apply IHl; lia.
  - split; [done|lia].
Qed.

Lemma trailing_zeros_lt x n : 0 < x < 2 ^ n -> trailing_zeros x < n.
Proof.
  intros Hx. destruct (trailing_zeros_spec x) as (H0 & Hb & _); [lia|].
  destruct (Z.lt_ge_cases (trailing_zeros x) n) as [|Hge]; [done|].
  rewrite (testbit_high x n) in Hb; [done|lia|lia].
Qed.

Lemma half_le x : 0 <= x -> 0 <= x / 2 <= x.
Proof. intros. dlia. Qed.

(** *** Lists *)

Lemma Forall_elem_of {A} (P : A -> Prop) (l : list A) :
  Forall P l <-> forall x, x ∈ l -> P x.
Proof. rewrite List.Forall_forall. by setoid_rewrite list_elem_of_In. Qed.

Lemma Exists_elem_of {A} (P : A -> Prop) (l : list A) :
  Exists P l <-> exists x, x ∈ l /\ P x.
Proof. rewrite List.Exists_exists. by setoid_rewrite list_elem_of_In. Qed.

(** *** Loops over ranges *)

Lemma foldl_seqZ_ind {A} (P : Z -> A -> Prop) (f : A -> Z -> A) lo hi a :
  P lo a ->
  (forall i b, lo <= i < hi -> P i b -> P (i + 1) (f b i)) ->
  lo <= hi ->
  P hi (foldl f a (seqZ lo (hi - lo))).
Proof.
  intros Ha Hstep Hle. remember (Z.to_nat (hi - lo)) as n eqn:Hn.
  revert lo a Ha Hstep Hle Hn. induction n as [|n IH]; intros.
  - rewrite seqZ_nil by lia. cbn. by replace hi with lo by lia.
  - rewrite seqZ_cons by lia. cbn [foldl].
    replace (Z.pred (hi - lo)) with (hi - (lo + 1)) by lia.
    replace (Z.succ lo) with (lo + 1) by lia.
    apply IH; [apply Hstep; [lia|done]| |lia|lia]. intros; apply Hstep; [lia|done].
Qed.

Lemma bind_Done {S A B} (c : M S A) (k : A -> M S B) s a s' :
  c s = Done a s' -> bind c k s = k a s'.
Proof. unfold bind. by intros ->. Qed.

Lemma bind_Done_inv {S A B} (c : M S A) (k : A -> M S B) s b s'' :
  bind c k s = Done b s'' -> exists a s', c s = Done a s' /\ k a s' = Done b s''.
Proof. unfold bind. destruct (c s) as [a s'| | |]; try done. intros H. by exists a, s'. Qed.
