(* ===== verification/Mem.v ===== *)
(** * The address-space layout (kernel/src/mem.rs)

    The constants, the classification of addresses and the printed layout
    table of [mem.rs].  [mem::init], which calls every other component, is in
    [Boot.v]. *)

From S2P Require Import Prelude.


(** mem.rs 8-11: PAGE_SIZE *)
Definition PAGE_SIZE : Z := 4096.
(** mem.rs 9-9: PAGE_SHIFT *)
Definition PAGE_SHIFT : Z := 12.
(** mem.rs 10-10: ENTRIES *)
Definition ENTRIES : Z := 1024.
(** mem.rs 11-11: TABLE_SPAN *)
Definition TABLE_SPAN : Z := PAGE_SIZE * ENTRIES.
(** mem.rs 13-13: LOW_WINDOW *)
Definition LOW_WINDOW : Z := 0x00000000.
(** mem.rs 14-14: LOW_WINDOW_END *)
Definition LOW_WINDOW_END : Z := 0x00400000.
(** mem.rs 22-22: KERNEL_SPACE *)
Definition KERNEL_SPACE : Z := 0xC0000000.
(** mem.rs 23-23: KERNEL_WINDOW_END *)
Definition KERNEL_WINDOW_END : Z := KERNEL_SPACE + TABLE_SPAN.
(** mem.rs 16-16: USER_BASE *)
Definition USER_BASE : Z := LOW_WINDOW_END.
(** mem.rs 17-17: USER_END *)
Definition USER_END : Z := KERNEL_SPACE.
(** mem.rs 19-19: DEMAND_BASE *)
Definition DEMAND_BASE : Z := 0x00800000.
(** mem.rs 20-20: DEMAND_END *)
Definition DEMAND_END : Z := 0x00900000.
(** mem.rs 25-25: KHEAP_BASE *)
Definition KHEAP_BASE : Z := 0xD0000000.
(** mem.rs 26-26: KHEAP_LIMIT *)
Definition KHEAP_LIMIT : Z := KHEAP_BASE + 0x02000000.
(** mem.rs 28-28: VMALLOC_BASE *)
Definition VMALLOC_BASE : Z := 0xE0000000.
(** mem.rs 29-29: VMALLOC_LIMIT *)
Definition VMALLOC_LIMIT : Z := VMALLOC_BASE + 0x10000000.
(** mem.rs 31-31: TABLE_WINDOW *)
Definition TABLE_WINDOW : Z := 0xFFC00000.
(** mem.rs 33-33: BIOS_END *)
Definition BIOS_END : Z := 0x00100000.

(** mem.rs 35-40: Space *)
Inductive Space : Type := Low | User | Kernel.

#[global] Instance Space_eq_dec : EqDecision Space.
Proof. solve_decision. Defined.

(** mem.rs 42-50: Space::name *)
Definition space_name (s : Space) : string :=
  match s with
  | Low => "kernel"
  | User => "user"
  | Kernel => "kernel"
  end.

(** mem.rs 52-58: Named *)
Record Named : Type := mkNamed {
  nm_name : string;
  nm_base : Z;
  nm_last : Z;
  nm_space : Space;
  nm_holds : string;
}.

(** mem.rs 60-117: LAYOUT *)
Definition LAYOUT : list Named := [
  mkNamed "low window" LOW_WINDOW (LOW_WINDOW_END - 1) Low
    "identity: gdt, vga, kernel image";
  mkNamed "user space" USER_BASE (DEMAND_BASE - 1) User "free for user pages";
  mkNamed "user demand" DEMAND_BASE (DEMAND_END - 1) User
    "paged in by the fault handler";
  mkNamed "user space" DEMAND_END (USER_END - 1) User "free for user pages";
  mkNamed "kernel image" KERNEL_SPACE (KERNEL_WINDOW_END - 1) Kernel
    "ram 0..4mb, kernel code read only";
  mkNamed "kernel heap" KHEAP_BASE (KHEAP_LIMIT - 1) Kernel
    "kmalloc, contiguous physical";
  mkNamed "vmalloc" VMALLOC_BASE (VMALLOC_LIMIT - 1) Kernel
    "vmalloc, scattered frames";
  mkNamed "page tables" TABLE_WINDOW U32_MAX Kernel
    "the directory mapped into itself"
].

(** mem.rs 136-142: Image *)
Record Image : Type := mkImage {
  im_start : Z;
  im_code_end : Z;
  im_readonly_end : Z;
  im_end : Z;
}.

(** mem.rs 153-161: space_of *)
Definition space_of (addr : Z) : Space :=
  if addr <? LOW_WINDOW_END then Low
  else if addr <? KERNEL_SPACE then User
  else Kernel.

(** mem.rs 163-165: is_kernel *)
Definition is_kernel (addr : Z) : bool :=
  negb (bool_decide (space_of addr = User)).

(** mem.rs 167-169: is_demand *)
Definition is_demand (addr : Z) : bool :=
  (addr >=? DEMAND_BASE) && (addr <? DEMAND_END).

(** mem.rs 171-173: kernel_phys *)
Definition kernel_phys (addr : Z) : Z := addr -u KERNEL_SPACE.

(** mem.rs 175-177: page_of *)
Definition page_of (addr : Z) : Z := Z.land addr (not32 (PAGE_SIZE - 1)).

(** ** The layout table and the address classes *)

(** An address belongs to a printed region. *)
Definition in_region (r : Named) (addr : Z) : bool :=
  (nm_base r <=? addr) && (addr <=? nm_last r).

Ltac layout_consts :=
  unfold PAGE_SIZE, PAGE_SHIFT, ENTRIES, TABLE_SPAN, LOW_WINDOW, LOW_WINDOW_END,
    KERNEL_SPACE, KERNEL_WINDOW_END, USER_BASE, USER_END, DEMAND_BASE, DEMAND_END,
    KHEAP_BASE, KHEAP_LIMIT, VMALLOC_BASE, VMALLOC_LIMIT, TABLE_WINDOW, BIOS_END,
    PAGE_SIZE, ENTRIES, U32_MAX in *.

Lemma is_kernel_false addr :
  is_kernel addr = false <-> LOW_WINDOW_END <= addr < KERNEL_SPACE.
Proof.
  unfold is_kernel, space_of. layout_consts. split.
  - split_ifs; breflect; case_bool_decide; try done; lia.
  - intros H. rewrite (proj2 (Z.ltb_ge _ _)), (proj2 (Z.ltb_lt _ _)) by lia.
    by rewrite bool_decide_true.
Qed.

Lemma is_demand_true addr : is_demand addr = true <-> DEMAND_BASE <= addr < DEMAND_END.
Proof. unfold is_demand. rewrite andb_true_iff, Z.geb_le, Z.ltb_lt. lia. Qed.

(** Masking with [!(PAGE_SIZE - 1)] rounds down to a page. *)
Lemma page_of_eq addr : is_u32 addr -> page_of addr = addr - addr mod 4096.
Proof.
  intros Ha. unfold page_of. layout_consts. apply Z.bits_inj'. intros k Hk.
  replace (addr - addr mod 4096) with (Z.shiftl (Z.shiftr addr 12) 12)
    by (rewrite Z.shiftl_mul_pow2, Z.shiftr_div_pow2 by lia; change (2 ^ 12) with 4096; dlia).
  rewrite Z.land_spec, testbit_not32, Z.shiftl_spec by lia.
  change (4096 - 1) with (Z.ones 12). rewrite Z.testbit_ones by lia.
  destruct (Z.ltb_spec k 12).
  - rewrite Zle_imp_le_bool by lia. destruct (Z.ltb_spec k 32); [|lia]. cbn.
    rewrite andb_false_r, Z.testbit_neg_r by lia. done.
  - rewrite andb_false_r, xorb_false_l, Z.shiftr_spec by lia.
    replace (k - 12 + 12) with k by lia.
    destruct (Z.ltb_spec k 32); [by rewrite andb_true_r|].
    by rewrite (testbit_high addr 32) by (unfold is_u32 in Ha; lia).
Qed.
