(* ===== verification/Machine.v ===== *)
(** * The machine: physical memory, MMU, TLB and control registers

    What the kernel relies on of the processor, as the kernel's documents
    state it (docs/PAGING.md): 32-bit paging with 4 kb pages, [CR0.WP], a
    TLB that keeps a translation until [invlpg] or a [CR3] reload drops it.
    The TLB of the model caches every translation it performs and never
    evicts one on its own, the hardest case for the code that must
    invalidate.  The accessed and dirty bits are not set.  Paging is always
    on (boot.asm enables it before any Rust code runs) and the processor is
    in ring 0. *)

From S2P Require Import Prelude.
From S2P Require Import Mem.

(** ** Physical memory, byte by byte, little endian *)

Definition pread8 (ram : gmap Z Z) (a : Z) : Z := wrap8 (default 0 (ram !! a)).

Definition pread32 (ram : gmap Z Z) (a : Z) : Z :=
  pread8 ram a + 256 * pread8 ram (a + 1) + 65536 * pread8 ram (a + 2)
  + 16777216 * pread8 ram (a + 3).

Definition pwrite8 (a v : Z) (ram : gmap Z Z) : gmap Z Z := <[a := wrap8 v]> ram.

Definition pwrite32 (a v : Z) (ram : gmap Z Z) : gmap Z Z :=
  pwrite8 (a + 3) (v / 16777216) (pwrite8 (a + 2) (v / 65536)
    (pwrite8 (a + 1) (v / 256) (pwrite8 a v ram))).

(** ** Translation *)

(** A translation: the frame, and whether both levels allow writing. *)
Record trans : Type := mkTrans {
  t_frame : Z;
  t_writable : bool;
}.

Record machine : Type := mkMachine {
  m_ram : gmap Z Z;
  m_tlb : gmap Z trans;
  m_cr0 : Z;
  m_cr2 : Z;
  m_cr3 : Z;
}.

Definition set_ram (f : gmap Z Z -> gmap Z Z) (m : machine) : machine :=
  mkMachine (f (m_ram m)) (m_tlb m) (m_cr0 m) (m_cr2 m) (m_cr3 m).
Definition set_tlb (f : gmap Z trans -> gmap Z trans) (m : machine) : machine :=
  mkMachine (m_ram m) (f (m_tlb m)) (m_cr0 m) (m_cr2 m) (m_cr3 m).
Definition set_cr0 (v : Z) (m : machine) : machine :=
  mkMachine (m_ram m) (m_tlb m) v (m_cr2 m) (m_cr3 m).
Definition set_cr2 (v : Z) (m : machine) : machine :=
  mkMachine (m_ram m) (m_tlb m) (m_cr0 m) v (m_cr3 m).

(** The frame field of an entry. *)
Definition entry_frame (e : Z) : Z := Z.land e 0xfffff000.
Definition entry_present (e : Z) : bool := Z.testbit e 0.
Definition entry_writable (e : Z) : bool := Z.testbit e 1.

Definition dir_base (m : machine) : Z := entry_frame (m_cr3 m).
Definition pde (m : machine) (dir : Z) : Z := pread32 (m_ram m) (dir_base m + 4 * dir).
Definition pte (m : machine) (dir index : Z) : Z :=
  pread32 (m_ram m) (entry_frame (pde m dir) + 4 * index).

(** The walk the hardware performs for a linear address. *)
Definition walk (m : machine) (va : Z) : option trans :=
  let dir := va / 4194304 in
  let index := (va / 4096) mod 1024 in
  if entry_present (pde m dir) then
    if entry_present (pte m dir index) then
      Some (mkTrans (entry_frame (pte m dir index))
              (entry_writable (pde m dir) && entry_writable (pte m dir index)))
    else None
  else None.

Definition write_protect (m : machine) : bool := Z.testbit (m_cr0 m) 16.

(** A translation is used: a write through it may be refused. *)
Definition use_trans (t : trans) (va : Z) (write : bool) : M machine Z := fun m =>
  if write && negb (t_writable t) && write_protect m
  then Fault va 3 (set_cr2 va m)
  else Done (t_frame t + va mod 4096) m.

(** One access to a linear address: the physical address, or a page fault
    with its error code (bit 0 present, bit 1 write). *)
Definition access (va : Z) (write : bool) : M machine Z := fun m =>
  match m_tlb m !! (va / 4096) with
  | Some t => use_trans t va write m
  | None =>
      match walk m va with
      | None => Fault va (if write then 2 else 0) (set_cr2 va m)
      | Some t => use_trans t va write (set_tlb <[va / 4096 := t]> m)
      end
  end.

Definition vload8 (va : Z) : M machine Z :=
  p <- access va false ;; gets (fun m => pread8 (m_ram m) p).

Definition vstore8 (va v : Z) : M machine unit :=
  p <- access va true ;; modify (set_ram (pwrite8 p v)).

(** A 32-bit access inside one page is one translation; one that crosses a
    page is made byte by byte. *)
Definition vload32 (va : Z) : M machine Z :=
  if va mod 4096 <=? 4092
  then p <- access va false ;; gets (fun m => pread32 (m_ram m) p)
  else
    b0 <- vload8 va ;; b1 <- vload8 (va +u 1) ;;
    b2 <- vload8 (va +u 2) ;; b3 <- vload8 (va +u 3) ;;
    ret (b0 + 256 * b1 + 65536 * b2 + 16777216 * b3).

Definition vstore32 (va v : Z) : M machine unit :=
  if va mod 4096 <=? 4092
  then p <- access va true ;; modify (set_ram (pwrite32 p v))
  else
    vstore8 va v ;; vstore8 (va +u 1) (v / 256) ;;
    vstore8 (va +u 2) (v / 65536) ;; vstore8 (va +u 3) (v / 16777216).

(** A [u64] in memory: two accesses, low word first. *)
Definition pread64 (ram : gmap Z Z) (a : Z) : Z :=
  pread32 ram a + 4294967296 * pread32 ram (a + 4).
Definition vload64 (a : Z) : M machine Z :=
  lo <- vload32 a ;; hi <- vload32 (a +u 4) ;; ret (lo + 4294967296 * hi).
Definition vstore64 (a v : Z) : M machine unit :=
  vstore32 a (wrap32 v) ;; vstore32 (a +u 4) (wrap32 (v / 4294967296)).

(** Elements [i], [i + 1], ... of an array of [u64] at [a]. *)
Fixpoint store_list (a i : Z) (vs : list Z) : M machine unit :=
  match vs with
  | [] => ret tt
  | v :: vs => vstore64 (a +u 8 * i) v ;; store_list a (i + 1) vs
  end.

(** [invlpg] drops one page, a write to [CR3] the whole TLB. *)
Definition invlpg (va : Z) : M machine unit := modify (set_tlb (delete (va / 4096))).
Definition reload_cr3 : M machine unit := modify (set_tlb (fun _ => ∅)).

(** ** Memory lemmas *)

Lemma pread8_range ram a : is_u8 (pread8 ram a).
Proof. unfold pread8, is_u8, wrap8. apply Z.mod_pos_bound. lia. Qed.

Lemma pread32_range ram a : is_u32 (pread32 ram a).
Proof.
  unfold pread32, is_u32.
  pose proof (pread8_range ram a). pose proof (pread8_range ram (a + 1)).
  pose proof (pread8_range ram (a + 2)). pose proof (pread8_range ram (a + 3)).
  unfold is_u8 in *. lia.
Qed.

Lemma pread8_write8 ram a b v :
  pread8 (pwrite8 a v ram) b = if decide (a = b) then wrap8 v else pread8 ram b.
Proof.
  unfold pread8, pwrite8. rewrite lookup_insert. case_decide; [|done].
  cbn. apply Z.mod_small. apply Z.mod_pos_bound. lia.
Qed.

Lemma pread32_write32 ram a v : is_u32 v -> pread32 (pwrite32 a v ram) a = v.
Proof.
  intros Hv. unfold pread32, pwrite32. rewrite !pread8_write8.
  repeat case_decide; try lia. word_lia.
Qed.

(** Two words whose bytes do not overlap. *)
Lemma pread32_write32_ne ram a b v :
  a + 4 <= b \/ b + 4 <= a -> pread32 (pwrite32 a v ram) b = pread32 ram b.
Proof.
  intros Hne. unfold pread32, pwrite32. rewrite !pread8_write8.
  repeat case_decide; try lia.
Qed.

Lemma pread32_write8_ne ram a b v :
  a < b \/ b + 4 <= a -> pread32 (pwrite8 a v ram) b = pread32 ram b.
Proof.
  intros Hne. unfold pread32. rewrite !pread8_write8. repeat case_decide; try lia.
Qed.

(** ** Entries *)

Lemma entry_frame_eq e : is_u32 e -> entry_frame e = e - e mod 4096.
Proof. intros He. rewrite <- page_of_eq by done. done. Qed.

Lemma entry_frame_aligned e : is_u32 e -> entry_frame e mod 4096 = 0.
Proof. intros. rewrite entry_frame_eq by done. dlia. Qed.

Lemma entry_frame_range e : is_u32 e -> is_u32 (entry_frame e).
Proof. intros. rewrite entry_frame_eq by done. word_lia. Qed.

(** The bit-0 test of the kernel sources. *)
Lemma land_present e : (Z.land e 1 =? 0) = negb (entry_present e).
Proof. unfold entry_present. rewrite <- land_bit_zero by lia. done. Qed.
