(* ===== verification/Multiboot.v ===== *)
(** * The multiboot memory map (kernel/src/multiboot.rs)

    The loader describes RAM in a structure in low memory; [probe] reads it
    into at most twelve regions.  The records and [Ram::push] are here;
    [probe], whose reads go through the MMU, is in [Probe.v]. *)

From S2P Require Import Prelude.

(** multiboot.rs 3-3: BOOT_MAGIC *)
Definition BOOT_MAGIC : Z := 0x2BADB002.
(** multiboot.rs 5-5: FLAG_MEMORY *)
Definition FLAG_MEMORY : Z := Z.shiftl 1 0.
(** multiboot.rs 6-6: FLAG_MMAP *)
Definition FLAG_MMAP : Z := Z.shiftl 1 6.
(** multiboot.rs 8-8: AVAILABLE *)
Definition MMAP_AVAILABLE : Z := 1.
(** multiboot.rs 10-10: MAX_REGIONS *)
Definition MAX_REGIONS : Z := 12.
(** multiboot.rs 12-12: REACHABLE *)
Definition REACHABLE : Z := 0x00400000.

(** Byte offsets of the fields [probe] reads of [Info], which is [repr(C)]. *)
(** multiboot.rs 14-26: Info *)
Definition info_flags : Z := 0.
(** multiboot.rs 14-26: Info *)
Definition info_mem_lower : Z := 4.
(** multiboot.rs 14-26: Info *)
Definition info_mem_upper : Z := 8.
(** multiboot.rs 14-26: Info *)
Definition info_mmap_length : Z := 44.
(** multiboot.rs 14-26: Info *)
Definition info_mmap_addr : Z := 48.

(** Byte offsets of the fields of [MmapEntry], which is [repr(C, packed)]. *)
(** multiboot.rs 28-34: MmapEntry *)
Definition entry_size : Z := 0.
(** multiboot.rs 28-34: MmapEntry *)
Definition entry_base : Z := 4.
(** multiboot.rs 28-34: MmapEntry *)
Definition entry_length : Z := 12.
(** multiboot.rs 28-34: MmapEntry *)
Definition entry_kind : Z := 20.

(** multiboot.rs 36-40: Region *)
Record Region : Type := mkRegion {
  rg_base : Z;
  rg_end : Z;
}.

#[global] Instance Region_eq_dec : EqDecision Region.
Proof. solve_decision. Defined.

(** multiboot.rs 42-42: EMPTY *)
Definition EMPTY : Region := mkRegion 0 0.

(** multiboot.rs 44-51: Ram *)
Record Ram : Type := mkRam {
  ram_regions : list Region;
  ram_count : Z;
  ram_usable : Z;
  ram_highest : Z;
  ram_source : string;
}.

(** multiboot.rs 53-59: NOTHING *)
Definition NOTHING : Ram :=
  mkRam (replicate (Z.to_nat MAX_REGIONS) EMPTY) 0 0 0 "none".

(** multiboot.rs 62-81: Ram::push *)
Definition push (ram : Ram) (base length : Z) : Ram :=
  if (ram_count ram =? MAX_REGIONS) || (length =? 0) then ram
  else
    let top := saturating_add64 base length in
    if base >=? U32_MAX then ram
    else
      let end_ := if top >? U32_MAX then Z.land U32_MAX (not32 0xfff) else top in
      if end_ <=? base then ram
      else
        mkRam (<[Z.to_nat (ram_count ram) := mkRegion base end_]> (ram_regions ram))
          (ram_count ram + 1)
          (wrap64 (ram_usable ram + (end_ - base)))
          (if end_ >? ram_highest ram then end_ else ram_highest ram)
          (ram_source ram).

(** Replace the [source] field, as [ram.source = ...] does. *)
(** multiboot.rs 98-98: probe *)
Definition with_source (source : string) (ram : Ram) : Ram :=
  mkRam (ram_regions ram) (ram_count ram) (ram_usable ram) (ram_highest ram) source.

(** The two regions of the QEMU machine of docs/MEMORY.md. *)
Definition qemu_ram : Ram := push (push NOTHING 0 0x9fc00) 0x100000 0x7ee0000.
