(* ===== verification/Pmm.v ===== *)
(** * The physical frame allocator (kernel/src/pmm.rs)

    The bitmap [FREE] holds one bit per 4 kb frame, set when the frame is
    free; [TOTAL] and [AVAILABLE] count frames.  The operations below are
    the functions of [pmm.rs] on these three statics.  The second half
    relates them to a finite set of free frames: the abstract allocator. *)

From S2P Require Import Prelude.
From S2P Require Import Mem.
From S2P Require Import Multiboot.

(** pmm.rs 4-4: MAX_FRAMES *)
Definition MAX_FRAMES : Z := 1048576.
(** pmm.rs 5-5: WORDS *)
Definition WORDS : Z := 32768.

(** The statics.  [FREE] is zero-initialised, so a word the map does not
    hold is 0.  Indices are always below [WORDS], see [free_bit]. *)
(** pmm.rs 7-9: FREE, TOTAL, AVAILABLE *)
Record pmm : Type := mkPmm {
  FREE : gmap Z Z;
  TOTAL : Z;
  AVAILABLE : Z;
}.

(** pmm.rs 7-9: FREE, TOTAL, AVAILABLE *)
Definition pmm_zero : pmm := mkPmm ∅ 0 0.

Definition word_at (p : pmm) (i : Z) : Z := default 0 (FREE p !! i).

(** pmm.rs 11-13: frame_of *)
Definition frame_of (phys : Z) : Z := Z.shiftr phys PAGE_SHIFT.

(** pmm.rs 15-17: address_of *)
Definition address_of (frame : Z) : Z := wrap32 (Z.shiftl frame PAGE_SHIFT).

(** pmm.rs 19-21: free_bit *)
Definition free_bit (p : pmm) (frame : Z) : bool :=
  (frame <? MAX_FRAMES) &&
  negb (Z.land (word_at p (frame / 32)) (Z.shiftl 1 (frame mod 32)) =? 0).

(** pmm.rs 23-31: set_free *)
Definition set_free (frame : Z) (p : pmm) : pmm :=
  if (frame >=? MAX_FRAMES) || free_bit p frame then p
  else mkPmm
    (<[frame / 32 := Z.lor (word_at p (frame / 32)) (Z.shiftl 1 (frame mod 32))]> (FREE p))
    (TOTAL p) (AVAILABLE p +u 1).

(** pmm.rs 33-41: set_used *)
Definition set_used (frame : Z) (p : pmm) : pmm :=
  if (frame >=? MAX_FRAMES) || negb (free_bit p frame) then p
  else mkPmm
    (<[frame / 32 :=
        Z.land (word_at p (frame / 32)) (not32 (Z.shiftl 1 (frame mod 32)))]> (FREE p))
    (TOTAL p) (AVAILABLE p -u 1).

(** The inner loop of [init], [for frame in first..last], with its break. *)
(** pmm.rs 47-55: init *)
Fixpoint init_frames (n : nat) (frame : Z) (p : pmm) : pmm :=
  match n with
  | O => p
  | S n =>
      if frame >=? MAX_FRAMES then p
      else init_frames n (frame + 1)
        (if free_bit p frame then p
         else set_free frame (mkPmm (FREE p) (TOTAL p +u 1) (AVAILABLE p)))
  end.

(** pmm.rs 44-56: init *)
Definition init_region (p : pmm) (r : Region) : pmm :=
  let first := frame_of ((rg_base r +u PAGE_SIZE) -u 1) in
  let last := frame_of (rg_end r) in
  init_frames (Z.to_nat (last - first)) first p.

(** pmm.rs 43-57: init *)
Definition init (ram : Ram) (p : pmm) : pmm :=
  foldl init_region p (take (Z.to_nat (ram_count ram)) (ram_regions ram)).

(** pmm.rs 59-65: reserve *)
Definition reserve (start end_ : Z) (p : pmm) : pmm :=
  let first := frame_of start in
  let last := frame_of ((end_ +u PAGE_SIZE) -u 1) in
  foldl (fun p frame => set_used frame p) p (seqZ first (last - first)).

(** pmm.rs 67-69: total_frames *)
Definition total_frames (p : pmm) : Z := TOTAL p.
(** pmm.rs 71-73: free_frames *)
Definition free_frames (p : pmm) : Z := AVAILABLE p.
(** pmm.rs 75-77: used_frames *)
Definition used_frames (p : pmm) : Z := total_frames p -u free_frames p.

(** pmm.rs 80-88: alloc_frame *)
Fixpoint alloc_scan (n : nat) (word : Z) (p : pmm) : option Z * pmm :=
  match n with
  | O => (None, p)
  | S n =>
      let bits := word_at p word in
      if bits =? 0 then alloc_scan n (word + 1) p
      else
        let frame := word * 32 + trailing_zeros bits in
        (Some (address_of frame), set_used frame p)
  end.

(** pmm.rs 79-90: alloc_frame *)
Definition alloc_frame (p : pmm) : option Z * pmm :=
  alloc_scan (Z.to_nat WORDS) 0 p.

(** [while span < count && free_bit(frame + span)] *)
(** pmm.rs 141-144: find_run *)
Fixpoint run_span (fuel : nat) (p : pmm) (frame count span : Z) : option Z :=
  match fuel with
  | O => None
  | S fuel =>
      if (span <? count) && free_bit p (frame +u span)
      then run_span fuel p frame count (span +u 1)
      else Some span
  end.

(** The outer loop of [find_run].  [None] is "out of fuel", [Some r] a
    finished search with result [r]. *)
(** pmm.rs 135-150: find_run *)
Fixpoint find_run_loop (fuel : nat) (p : pmm) (count frame : Z) : option (option Z) :=
  match fuel with
  | O => None
  | S fuel =>
      if (frame +u count) <=? MAX_FRAMES then
        if negb (free_bit p frame) then find_run_loop fuel p count (frame +u 1)
        else
          match run_span (Z.to_nat MAX_FRAMES) p frame count 1 with
          | None => None
          | Some span =>
              if span =? count then Some (Some frame)
              else find_run_loop fuel p count (frame +u (span +u 1))
          end
      else Some None
  end.

(** The outcome of [find_run]; the fuel is one more than the number of
    frames, see [find_run_terminates]. *)
(** pmm.rs 131-151: find_run *)
Definition find_run (p : pmm) (count : Z) : option (option Z) :=
  if count =? 0 then Some None
  else find_run_loop (S (Z.to_nat MAX_FRAMES)) p count 0.

(** pmm.rs 92-98: alloc_range *)
Definition alloc_range (count : Z) (p : pmm) : option (option Z * pmm) :=
  match find_run p count with
  | None => None
  | Some None => Some (None, p)
  | Some (Some base) =>
      Some (Some (address_of base),
            foldl (fun p frame => set_used frame p) p
              (seqZ base ((base +u count) - base)))
  end.

(** pmm.rs 100-102: free_frame *)
Definition free_frame (phys : Z) (p : pmm) : pmm := set_free (frame_of phys) p.

(** pmm.rs 106-111: carve *)
Fixpoint carve_loop (fuel : nat) (pages : Z) (p : pmm) : option (option (Z * Z) * pmm) :=
  match fuel with
  | O => None
  | S fuel =>
      if pages >=? 16 then
        match alloc_range pages p with
        | None => None
        | Some (Some base, p') => Some (Some (base, base +u (pages *u PAGE_SIZE)), p')
        | Some (None, p') => carve_loop fuel (pages / 2) p'
        end
      else Some (None, p)
  end.

(** A [u32] halves to below 16 in fewer than 32 steps. *)
(** pmm.rs 104-113: carve *)
Definition carve (size : Z) (p : pmm) : option (option (Z * Z) * pmm) :=
  carve_loop 32 (size / PAGE_SIZE) p.

(** pmm.rs 118-127: largest_run *)
Definition largest_run_step (p : pmm) (acc : Z * Z) (frame : Z) : Z * Z :=
  let '(best, run) := acc in
  if free_bit p frame
  then (if best <? run + 1 then run + 1 else best, run + 1)
  else (best, 0).

(** pmm.rs 115-129: largest_run *)
Definition largest_run (p : pmm) : Z :=
  fst (foldl (largest_run_step p) (0, 0) (seqZ 0 MAX_FRAMES)).

(** ** The abstract allocator: a finite set of free frames *)

Definition free_set (p : pmm) : gset Z :=
  list_to_set (filter (fun f => free_bit p f = true) (seqZ 0 MAX_FRAMES)).

(** Words are 32-bit and the counter counts the free frames. *)
Record pmm_wf (p : pmm) : Prop := {
  wf_words : forall i w, FREE p !! i = Some w -> is_u32 w;
  wf_available : AVAILABLE p = Z.of_nat (size (free_set p));
}.

Lemma MAX_FRAMES_pos : 0 < MAX_FRAMES.
Proof. done. Qed.

#[global] Opaque MAX_FRAMES WORDS.

Lemma MAX_FRAMES_val : MAX_FRAMES = 1048576.
Proof. done. Qed.
Lemma WORDS_val : WORDS = 32768.
Proof. done. Qed.

Ltac frames_lia := rewrite ?MAX_FRAMES_val, ?WORDS_val in *; lia.

Lemma elem_of_free_set p f :
  f ∈ free_set p <-> 0 <= f < MAX_FRAMES /\ free_bit p f = true.
Proof.
  unfold free_set. rewrite elem_of_list_to_set, list_elem_of_filter, elem_of_seqZ.
  rewrite Z.add_0_l. tauto.
Qed.

(** The set depends on the bitmap only. *)
Lemma free_set_FREE F T A T' A' : free_set (mkPmm F T A) = free_set (mkPmm F T' A').
Proof. done. Qed.

#[global] Opaque free_set.

Lemma free_bit_testbit p f :
  0 <= f ->
  free_bit p f = (f <? MAX_FRAMES) && Z.testbit (word_at p (f / 32)) (f mod 32).
Proof.
  intros Hf. unfold free_bit. rewrite land_bit_zero, negb_involutive; [done|].
  apply Z.mod_pos_bound. lia.
Qed.

Lemma word_at_range p i : pmm_wf p -> is_u32 (word_at p i).
Proof.
  intros [Hw _]. unfold word_at. destruct (FREE p !! i) eqn:E; [by eapply Hw|].
  cbn. unfold is_u32. lia.
Qed.

Lemma frame_split f g : 0 <= f -> 0 <= g -> f / 32 = g / 32 -> f mod 32 = g mod 32 -> f = g.
Proof. intros. dlia. Qed.

(** What one update of a word does to every bit. *)
Lemma free_bit_insert F T A f w g p :
  0 <= f -> 0 <= g -> F = FREE p ->
  free_bit (mkPmm (<[f / 32 := w]> F) T A) g =
  (g <? MAX_FRAMES) &&
  (if decide (f / 32 = g / 32) then Z.testbit w (g mod 32)
   else Z.testbit (word_at p (g / 32)) (g mod 32)).
Proof.
  intros Hf Hg ->. rewrite free_bit_testbit by done. unfold word_at. cbn.
  rewrite lookup_insert. case_decide; done.
Qed.

Lemma set_free_spec p f g :
  0 <= f < MAX_FRAMES -> 0 <= g ->
  free_bit (set_free f p) g = free_bit p g || (f =? g).
Proof.
  intros Hf Hg. unfold set_free.
  destruct (Z.geb_spec f MAX_FRAMES); [lia|]. cbn [orb].
  destruct (free_bit p f) eqn:Hb.
  - destruct (Z.eqb_spec f g) as [->|]; [by rewrite Hb|by rewrite orb_false_r].
  - rewrite (free_bit_insert _ _ _ _ _ _ p) by (done || lia).
    rewrite (free_bit_testbit p g) by done.
    destruct (Z.eqb_spec f g) as [<-|Hne].
    + rewrite decide_True, Z.lor_spec, Z.shiftl_1_l by done.
      rewrite Z.pow2_bits_true by (apply Z.mod_pos_bound; lia).
      rewrite !orb_true_r. destruct (Z.ltb_spec f MAX_FRAMES); [done|lia].
    + rewrite orb_false_r. f_equal. case_decide as He; [|done].
      rewrite Z.lor_spec, Z.shiftl_1_l, Z.pow2_bits_false, orb_false_r; [by rewrite He|].
      intros Hm. apply Hne, frame_split; lia.
Qed.

Lemma set_used_spec p f g :
  0 <= f -> 0 <= g ->
  free_bit (set_used f p) g = free_bit p g && negb (f =? g).
Proof.
  intros Hf Hg. unfold set_used.
  destruct (free_bit p f) eqn:Hb; cycle 1.
  { rewrite orb_true_r. destruct (Z.eqb_spec f g) as [->|]; [by rewrite Hb|].
    by rewrite andb_true_r. }
  destruct (Z.geb_spec f MAX_FRAMES).
  { rewrite free_bit_testbit in Hb by done. breflect. lia. }
  cbn [orb negb]. rewrite (free_bit_insert _ _ _ _ _ _ p) by (done || lia).
  rewrite (free_bit_testbit p g) by done.
  pose proof (Z.mod_pos_bound f 32). pose proof (Z.mod_pos_bound g 32).
  destruct (Z.eqb_spec f g) as [<-|Hne]; cbn [negb].
  - rewrite decide_True, Z.land_spec, testbit_not32, Z.shiftl_1_l by (done || lia).
    rewrite Z.pow2_bits_true by lia. destruct (Z.ltb_spec (f mod 32) 32); [|lia].
    by rewrite !andb_false_r.
  - rewrite andb_true_r. f_equal. case_decide as He; [|done].
    rewrite Z.land_spec, testbit_not32, Z.shiftl_1_l by lia.
    rewrite Z.pow2_bits_false by (intros Hm; apply Hne, frame_split; lia).
    destruct (Z.ltb_spec (g mod 32) 32); [|lia]. by rewrite andb_true_r, He.
Qed.

Lemma set_free_set p f :
  0 <= f < MAX_FRAMES -> free_set (set_free f p) = {[f]} ∪ free_set p.
Proof.
  intros Hf. apply set_eq. intros g.
  rewrite elem_of_union, elem_of_singleton, !elem_of_free_set.
  destruct (decide (0 <= g < MAX_FRAMES)); [|naive_solver lia].
  rewrite set_free_spec, orb_true_iff, Z.eqb_eq by lia. naive_solver.
Qed.

Lemma set_used_set p f :
  0 <= f -> free_set (set_used f p) = free_set p ∖ {[f]}.
Proof.
  intros Hf. apply set_eq. intros g.
  rewrite elem_of_difference, elem_of_singleton, !elem_of_free_set.
  destruct (decide (0 <= g < MAX_FRAMES)); [|naive_solver lia].
  rewrite set_used_spec, andb_true_iff, negb_true_iff, Z.eqb_neq by lia. naive_solver.
Qed.

Lemma free_set_size p : Z.of_nat (size (free_set p)) <= MAX_FRAMES.
Proof.
  assert (free_set p ⊆ list_to_set (seqZ 0 MAX_FRAMES)) as Hsub.
  { intros f. rewrite elem_of_free_set, elem_of_list_to_set, elem_of_seqZ. lia. }
  apply subseteq_size in Hsub.
  rewrite size_list_to_set, length_seqZ in Hsub by apply NoDup_seqZ. frames_lia.
Qed.

Lemma free_set_nonempty p f : f ∈ free_set p -> (1 <= size (free_set p))%nat.
Proof.
  intros Hf. rewrite <- (size_singleton f (C := gset Z)). apply subseteq_size.
  by apply singleton_subseteq_l.
Qed.

Lemma free_set_minus p f :
  f ∈ free_set p -> size (free_set p ∖ {[f]}) = (size (free_set p) - 1)%nat.
Proof.
  intros Hf. rewrite size_difference, size_singleton by (by apply singleton_subseteq_l). done.
Qed.

Lemma set_free_wf p f : pmm_wf p -> 0 <= f -> pmm_wf (set_free f p).
Proof.
  intros Hwf Hf. destruct (decide (f < MAX_FRAMES)) as [Hlt|]; cycle 1.
  { unfold set_free. by destruct (Z.geb_spec f MAX_FRAMES); [|lia]. }
  pose proof (set_free_set p f ltac:(lia)) as Hset.
  pose proof (free_set_size (set_free f p)) as Hsize.
  unfold set_free in *. destruct (Z.geb_spec f MAX_FRAMES); [lia|]. cbn [orb] in *.
  destruct (free_bit p f) eqn:Hb; [done|]. split; cbn.
  - intros i w. rewrite lookup_insert. case_decide; [|apply Hwf].
    intros [= <-]. apply (lor_range _ _ 32); [lia|apply word_at_range; done|].
    rewrite Z.shiftl_1_l. pose proof (Z.mod_pos_bound f 32).
    split; [lia|apply Z.pow_lt_mono_r; lia].
  - assert ({[f]} ## free_set p) as Hdisj.
    { intros ?. rewrite elem_of_singleton, elem_of_free_set. intros -> [_ Hb']. congruence. }
    rewrite Hset in *. rewrite size_union, size_singleton in Hsize by done.
    rewrite size_union, size_singleton, (wf_available p) by done.
    rewrite wrap32_small; [lia|]. unfold is_u32. frames_lia.
Qed.

Lemma set_used_wf p f : pmm_wf p -> 0 <= f -> pmm_wf (set_used f p).
Proof.
  intros Hwf Hf. pose proof (set_used_set p f ltac:(lia)) as Hset.
  unfold set_used in *. destruct (Z.geb_spec f MAX_FRAMES); [done|]. cbn [orb] in *.
  destruct (free_bit p f) eqn:Hb; [|done]. cbn [negb] in *. split; cbn.
  - intros i w. rewrite lookup_insert. case_decide; [|apply Hwf].
    intros [= <-]. apply (land_range _ _ 32); [lia|apply word_at_range; done|].
    rewrite Z.shiftl_1_l. pose proof (Z.mod_pos_bound f 32).
    apply not32_range. split; [lia|]. change 4294967296 with (2 ^ 32).
    apply Z.pow_lt_mono_r; lia.
  - assert (f ∈ free_set p) as Hin by (apply elem_of_free_set; auto with lia).
    rewrite Hset. rewrite (wf_available p) by done.
    pose proof (free_set_minus p f Hin). pose proof (free_set_size p).
    assert (1 <= size (free_set p))%nat.
    { by apply free_set_nonempty in Hin. }
    rewrite wrap32_small; [lia|]. unfold is_u32. frames_lia.
Qed.

#[export] Hint Resolve set_free_wf set_used_wf : kfs.

Lemma pmm_zero_free_set : free_set pmm_zero = ∅.
Proof.
  apply set_eq. intros f. rewrite elem_of_free_set. split; [|set_solver].
  intros [Hf Hb]. rewrite free_bit_testbit in Hb by lia. breflect.
  cbn in *. by rewrite Z.bits_0 in *.
Qed.

Lemma pmm_zero_wf : pmm_wf pmm_zero.
Proof. split; [done|]. rewrite pmm_zero_free_set. done. Qed.

(** ** Addresses and frames *)

Lemma frame_of_eq a : frame_of a = a / 4096.
Proof. unfold frame_of, PAGE_SHIFT. rewrite Z.shiftr_div_pow2 by lia. done. Qed.

Lemma address_of_eq f : 0 <= f < MAX_FRAMES -> address_of f = f * 4096.
Proof.
  intros Hf. unfold address_of, PAGE_SHIFT. rewrite Z.shiftl_mul_pow2 by lia.
  change (2 ^ 12) with 4096. apply wrap32_small. unfold is_u32. frames_lia.
Qed.

Lemma frame_of_address_of f : 0 <= f < MAX_FRAMES -> frame_of (address_of f) = f.
Proof. intros Hf. rewrite address_of_eq, frame_of_eq by done. apply Z.div_mul. lia. Qed.

(** ** Single frames *)

Lemma alloc_scan_spec n word p :
  pmm_wf p -> 0 <= word -> Z.of_nat n + word = WORDS ->
  (forall f, f ∈ free_set p -> word * 32 <= f) ->
  match alloc_scan n word p with
  | (None, p') => p' = p /\ free_set p = ∅
  | (Some a, p') =>
      exists f, f ∈ free_set p /\ (forall g, g ∈ free_set p -> f <= g) /\
      a = f * 4096 /\ p' = set_used f p
  end.
Proof.
  intros Hwf. revert word. induction n as [|n IH]; intros word H0 Hn Hbelow; cbn [alloc_scan].
  - split; [done|]. apply set_eq. intros f. split; [|set_solver]. intros Hin.
    pose proof (Hbelow f Hin). apply elem_of_free_set in Hin. frames_lia.
  - destruct (Z.eqb_spec (word_at p word) 0) as [Hz|Hnz].
    + apply IH; [lia|lia|]. intros f Hin. pose proof (Hbelow f Hin).
      apply elem_of_free_set in Hin as [Hf Hb]. rewrite free_bit_testbit in Hb by lia.
      destruct (decide (f / 32 = word)) as [He|]; [|dlia].
      rewrite He, Hz, Z.bits_0, andb_false_r in Hb. done.
    + pose proof (word_at_range p word Hwf) as Hw. unfold is_u32 in Hw.
      destruct (trailing_zeros_spec (word_at p word)) as (Ht0 & Htb & Htl); [lia|].
      pose proof (trailing_zeros_lt (word_at p word) 32 ltac:(lia)) as Ht.
      set (t := trailing_zeros (word_at p word)) in *.
      assert ((word * 32 + t) / 32 = word) as Hdiv by dlia.
      assert ((word * 32 + t) mod 32 = t) as Hmod by dlia.
      exists (word * 32 + t). split_and!.
      * apply elem_of_free_set. split; [frames_lia|].
        rewrite free_bit_testbit, Hdiv, Hmod, Htb, andb_true_r by lia.
        apply Z.ltb_lt. frames_lia.
      * intros g Hg. pose proof (Hbelow g Hg). apply elem_of_free_set in Hg as [Hg Hb].
        destruct (Z.lt_ge_cases g (word * 32 + t)); [|lia].
        rewrite free_bit_testbit in Hb by lia.
        replace (g / 32) with word in Hb by dlia.
        rewrite Htl, andb_false_r in Hb by dlia. done.
      * apply address_of_eq. frames_lia.
      * done.
Qed.

(** ** Ranges *)

Lemma fold_set_used_spec l p :
  pmm_wf p -> Forall (fun f => 0 <= f) l ->
  pmm_wf (foldl (fun p f => set_used f p) p l) /\
  free_set (foldl (fun p f => set_used f p) p l) = free_set p ∖ list_to_set l.
Proof.
  revert p. induction l as [|f l IH]; intros p Hwf Hl; cbn [foldl list_to_set].
  - split; [done|]. set_solver.
  - inversion_clear Hl. destruct (IH (set_used f p)) as [Hw Hs]; [auto with kfs|done|].
    split; [done|]. rewrite Hs, set_used_set by done. set_solver.
Qed.

Lemma fold_set_used_TOTAL l p : TOTAL (foldl (fun p f => set_used f p) p l) = TOTAL p.
Proof.
  revert p. induction l as [|f l IH]; intros p; [done|]. cbn [foldl]. rewrite IH.
  unfold set_used. by destruct (_ || _).
Qed.

Lemma set_free_TOTAL f p : TOTAL (set_free f p) = TOTAL p.
Proof. unfold set_free. by destruct (_ || _). Qed.

(** During [init] every known frame is free: [TOTAL = AVAILABLE]. *)
Lemma init_frames_spec n frame p :
  0 <= frame -> pmm_wf p -> TOTAL p = AVAILABLE p ->
  let p' := init_frames n frame p in
  pmm_wf p' /\ TOTAL p' = AVAILABLE p' /\
  forall f, f ∈ free_set p' <->
    f ∈ free_set p \/ frame <= f < Z.min (frame + Z.of_nat n) MAX_FRAMES.
Proof.
  revert frame p. induction n as [|n IH]; intros frame p Hf Hwf HT; cbn [init_frames].
  { split_and!; [done|done|]. intros f. intuition lia. }
  destruct (Z.geb_spec frame MAX_FRAMES) as [|Hlt].
  { split_and!; [done|done|]. intros f. intuition lia. }
  destruct (free_bit p frame) eqn:Hb.
  - destruct (IH (frame + 1) p) as (Hw & Ht & Hs); [lia|done|done|].
    split_and!; [done|done|]. intros f. rewrite Hs, !elem_of_free_set.
    destruct (decide (f = frame)) as [->|]; [naive_solver lia|intuition lia].
  - set (q := mkPmm (FREE p) (TOTAL p +u 1) (AVAILABLE p)).
    assert (free_set q = free_set p) as Hq by (destruct p; apply free_set_FREE).
    assert (pmm_wf q) as Hwq by (split; [apply Hwf|rewrite Hq; apply Hwf]).
    destruct (IH (frame + 1) (set_free frame q)) as (Hw & Ht & Hs); [lia|auto with kfs| |].
    { rewrite set_free_TOTAL. unfold set_free. cbn [FREE TOTAL].
      destruct (Z.geb_spec frame MAX_FRAMES); [lia|].
      change (free_bit q frame) with (free_bit p frame). rewrite Hb. cbn. by rewrite HT. }
    split_and!; [done|done|]. intros f.
    rewrite Hs, set_free_set, Hq, elem_of_union, elem_of_singleton by lia. intuition lia.
Qed.

(** The frames a region covers entirely. *)
Definition covers (r : Region) (f : Z) : Prop :=
  rg_base r <= f * 4096 /\ (f + 1) * 4096 <= rg_end r.

(** A region whose base can be rounded up without wrapping. *)
Definition region_ok (r : Region) : Prop :=
  0 <= rg_base r /\ rg_base r + 4095 < 4294967296 /\ is_u32 (rg_end r).

#[global] Instance region_ok_dec r : Decision (region_ok r).
Proof. unfold region_ok. apply _. Defined.

Lemma init_region_spec r p :
  region_ok r -> pmm_wf p -> TOTAL p = AVAILABLE p ->
  let p' := init_region p r in
  pmm_wf p' /\ TOTAL p' = AVAILABLE p' /\
  forall f, f ∈ free_set p' <-> f ∈ free_set p \/ covers r f.
Proof.
  intros (Hb & Ho & He) Hwf HT. unfold init_region. layout_consts.
  assert (((rg_base r +u 4096) -u 1) = rg_base r + 4095) as ->.
  { unfold wrap32. rewrite Zminus_mod_idemp_l, Z.mod_small by lia. lia. }
  rewrite !frame_of_eq.
  set (first := (rg_base r + 4095) / 4096). set (last := rg_end r / 4096).
  destruct (init_frames_spec (Z.to_nat (last - first)) first p) as (Hw & Ht & Hs);
    [subst first; dlia|done|done|].
  split_and!; [done|done|]. intros f. rewrite Hs. unfold covers.
  subst first last. unfold is_u32 in He. split; intros [Hin|Hin]; auto; right.
  - dlia.
  - assert (rg_end r / 4096 <= MAX_FRAMES) by (rewrite MAX_FRAMES_val; dlia). dlia.
Qed.

Lemma init_regions_spec l p :
  Forall region_ok l -> pmm_wf p -> TOTAL p = AVAILABLE p ->
  let p' := foldl init_region p l in
  pmm_wf p' /\ TOTAL p' = AVAILABLE p' /\
  forall f, f ∈ free_set p' <-> f ∈ free_set p \/ exists r, r ∈ l /\ covers r f.
Proof.
  revert p. induction l as [|r l IH]; intros p Hl Hwf HT; cbn [foldl].
  { split_and!; [done|done|]. set_solver. }
  inversion_clear Hl. destruct (init_region_spec r p) as (Hw & Ht & Hs); [done..|].
  destruct (IH (init_region p r)) as (Hw' & Ht' & Hs'); [done..|].
  split_and!; [done|done|]. intros f. rewrite Hs', Hs. setoid_rewrite elem_of_cons.
  clear. naive_solver.
Qed.

(** ** Runs of free frames *)

Definition is_run (p : pmm) (b c : Z) : Prop :=
  forall i, b <= i < b + c -> free_bit p i = true.

(** The run [b, b + c) lies in the bitmap. *)
Definition fits (p : pmm) (b c : Z) : Prop := 0 <= b /\ b + c <= MAX_FRAMES /\ is_run p b c.

Lemma run_span_spec fuel p frame count span :
  0 <= frame -> 1 <= span <= count -> frame + count <= MAX_FRAMES ->
  count - span < Z.of_nat fuel -> is_run p frame span ->
  exists s, run_span fuel p frame count span = Some s /\
    1 <= s <= count /\ is_run p frame s /\ (s < count -> free_bit p (frame + s) = false).
Proof.
  revert span. induction fuel as [|fuel IH]; intros span H0 Hs Hm Hfuel Hrun; [lia|].
  cbn [run_span]. rewrite (wrap32_small (frame + span)) by (unfold is_u32; frames_lia).
  destruct (Z.ltb_spec span count) as [Hlt|]; cbn [andb].
  - destruct (free_bit p (frame + span)) eqn:Hb.
    + rewrite (wrap32_small (span + 1)) by (unfold is_u32; frames_lia).
      apply IH; try lia. intros i Hi.
      destruct (decide (i = frame + span)) as [->|]; [done|apply Hrun; lia].
    + exists span. done.
  - exists span. split_and!; [done|lia|lia|done|lia].
Qed.

Lemma find_run_loop_spec fuel p count frame :
  1 <= count <= MAX_FRAMES -> 0 <= frame <= MAX_FRAMES ->
  MAX_FRAMES - frame < Z.of_nat fuel ->
  (forall b, fits p b count -> frame <= b) ->
  exists r, find_run_loop fuel p count frame = Some r /\
    match r with
    | Some b => fits p b count /\ forall b', fits p b' count -> b <= b'
    | None => forall b, ~ fits p b count
    end.
Proof.
  intros Hc. revert frame. induction fuel as [|fuel IH]; intros frame H0 Hfuel Hbelow; [lia|].
  cbn [find_run_loop]. rewrite (wrap32_small (frame + count)) by (unfold is_u32; frames_lia).
  destruct (Z.leb_spec (frame + count) MAX_FRAMES) as [Hle|Hgt]; cycle 1.
  { exists None. split; [done|]. intros b Hb. specialize (Hbelow b Hb).
    destruct Hb as (? & ? & _). lia. }
  destruct (free_bit p frame) eqn:Hb; cbn [negb]; cycle 1.
  { rewrite wrap32_small by (unfold is_u32; frames_lia). apply IH; [lia|lia|].
    intros b Hfit. specialize (Hbelow b Hfit). destruct (decide (b = frame)) as [->|]; [|lia].
    destruct Hfit as (_ & _ & Hrun). rewrite Hrun in Hb by lia. done. }
  destruct (run_span_spec (Z.to_nat MAX_FRAMES) p frame count 1) as (s & -> & Hs & Hrun & Hstop);
    [lia|lia|lia|lia| |].
  { intros i Hi. by replace i with frame by lia. }
  destruct (Z.eqb_spec s count) as [->|Hne].
  - exists (Some frame). split; [done|]. split; [|done]. unfold fits. split_and!; [lia|lia|done].
  - rewrite (wrap32_small (s + 1)), wrap32_small by (unfold is_u32; frames_lia).
    apply IH; [lia|lia|]. intros b Hfit. specialize (Hbelow b Hfit).
    destruct (Z.lt_ge_cases b (frame + (s + 1))); [|lia].
    destruct Hfit as (_ & _ & Hr). rewrite Hr in Hstop by lia. naive_solver lia.
Qed.

Lemma find_run_spec p count :
  1 <= count <= MAX_FRAMES ->
  exists r, find_run p count = Some r /\
    match r with
    | Some b => fits p b count /\ forall b', fits p b' count -> b <= b'
    | None => forall b, ~ fits p b count
    end.
Proof.
  intros Hc. unfold find_run. destruct (Z.eqb_spec count 0); [lia|].
  apply find_run_loop_spec; [lia|frames_lia|lia|]. by intros b [? _].
Qed.

(** The loop invariant of [largest_run] at frame [i]. *)
Definition largest_inv (p : pmm) (i : Z) (acc : Z * Z) : Prop :=
  let '(best, run) := acc in
  0 <= run <= best /\ run <= i /\ is_run p (i - run) run /\
  (run < i -> free_bit p (i - run - 1) = false) /\
  (exists b, 0 <= b /\ b + best <= i /\ is_run p b best) /\
  (forall b c, 0 <= b -> b + c <= i -> is_run p b c -> c <= best).

Lemma largest_inv_step p i acc :
  0 <= i -> largest_inv p i acc -> largest_inv p (i + 1) (largest_run_step p acc i).
Proof.
  intros Hi. destruct acc as [best run]. unfold largest_run_step.
  intros ((H0 & Hrb) & Hri & Hrun & Hstop & (b0 & Hb0 & Hbi & Hb) & Hmax).
  destruct (free_bit p i) eqn:Hf.
  - assert (is_run p (i - run) (run + 1)) as Hrun'.
    { intros j Hj. destruct (decide (j = i)) as [->|]; [done|apply Hrun; lia]. }
    assert (forall b c, 0 <= b -> b + c <= i + 1 -> is_run p b c ->
              c <= best \/ c <= run + 1) as Hmax'.
    { intros b c Hb1 Hc Hr. destruct (Z.lt_ge_cases (i - run - 1) b); [right; lia|].
      destruct (decide (run < i)); [|right; lia].
      destruct (Z.lt_ge_cases (b + c) (i + 1)); [left; eapply Hmax; [done|lia|done]|].
      specialize (Hr (i - run - 1) ltac:(lia)). rewrite Hstop in Hr; [done|lia]. }
    destruct (Z.ltb_spec best (run + 1)); unfold largest_inv;
      replace (i + 1 - (run + 1)) with (i - run) by lia; split_and!; try lia; try done.
    + intros. apply Hstop. lia.
    + exists (i - run). split_and!; [lia|lia|done].
    + intros b c ? ? ?. destruct (Hmax' b c); lia || done.
    + intros. apply Hstop. lia.
    + exists b0. split_and!; [lia|lia|done].
    + intros b c ? ? ?. destruct (Hmax' b c); lia || done.
  - unfold largest_inv. split_and!; try lia.
    + intros j Hj. lia.
    + intros _. by replace (i + 1 - 0 - 1) with i by lia.
    + exists b0. split_and!; [lia|lia|done].
    + intros b c Hb1 Hc Hr. destruct (Z.lt_ge_cases (b + c) (i + 1)); [eapply Hmax; [done|lia|done]|].
      destruct (Z.lt_ge_cases 0 c); [|lia]. rewrite Hr in Hf by lia. done.
Qed.

Lemma largest_run_spec p :
  (exists b, fits p b (largest_run p)) /\ 0 <= largest_run p /\
  forall b c, fits p b c -> c <= largest_run p.
Proof.
  pose proof (foldl_seqZ_ind (largest_inv p) (largest_run_step p) 0 MAX_FRAMES (0, 0)) as H.
  rewrite Z.sub_0_r in H. unfold largest_run.
  destruct (foldl _ _ _) as [best run]. cbn [fst].
  destruct H as ((H0 & Hrb) & _ & _ & _ & (b & Hb0 & Hb & Hr) & Hmax).
  - split_and!; try lia.
    + intros j Hj. lia.
    + exists 0. split_and!; [lia|lia|]. intros j Hj. lia.
  - intros i acc Hi. apply largest_inv_step. lia.
  - pose proof MAX_FRAMES_pos. lia.
  - split_and!; [|lia|].
    + exists b. done.
    + intros b' c (? & ? & ?). eapply Hmax; done.
Qed.

#[global] Opaque largest_run.

Lemma fits_shorter p b c c' : c' <= c -> fits p b c -> fits p b c'.
Proof.
  intros Hc (H0 & Hm & Hr). split_and!; [done|lia|]. intros i Hi. apply Hr. lia.
Qed.

(** The frames of a run, as a set. *)
Definition run_set (b c : Z) : gset Z := list_to_set (seqZ b c).

Lemma elem_of_run_set b c f : f ∈ run_set b c <-> b <= f < b + c.
Proof. unfold run_set. rewrite elem_of_list_to_set. apply elem_of_seqZ. Qed.

Lemma run_set_eq b c : run_set b c = list_to_set (seqZ b c).
Proof. done. Qed.

#[global] Opaque run_set.

(** What taking the frames of the first fitting run leaves behind. *)
Definition took_run (p : pmm) (b c : Z) (p' : pmm) : Prop :=
  fits p b c /\ pmm_wf p' /\ TOTAL p' = TOTAL p /\ free_set p' = free_set p ∖ run_set b c.

Lemma alloc_range_spec count p :
  1 <= count <= MAX_FRAMES -> pmm_wf p ->
  exists r p', alloc_range count p = Some (r, p') /\
    match r with
    | Some a =>
        exists b, a = b * 4096 /\ took_run p b count p' /\
          forall b', fits p b' count -> b <= b'
    | None => p' = p /\ largest_run p < count
    end.
Proof.
  intros Hc Hwf. unfold alloc_range.
  destruct (find_run_spec p count Hc) as ([b|] & -> & Hr).
  - destruct Hr as [Hfit Hfirst]. pose proof Hfit as (H0 & Hm & _).
    rewrite (wrap32_small (b + count)) by (unfold is_u32; frames_lia).
    replace (b + count - b) with count by lia.
    destruct (fold_set_used_spec (seqZ b count) p) as [Hw Hs]; [done| |].
    { apply Forall_seqZ. lia. }
    do 2 eexists. split; [done|]. exists b. split; [apply address_of_eq; lia|].
    split; [|done]. split_and!; [done|done|apply fold_set_used_TOTAL|]. by rewrite run_set_eq.
  - do 2 eexists. split; [done|]. split; [done|].
    destruct (largest_run_spec p) as ((b & Hfit) & _ & _).
    destruct (Z.lt_ge_cases (largest_run p) count) as [|Hge]; [done|].
    destruct (Hr b). eapply fits_shorter; done.
Qed.

Lemma carve_loop_spec fuel pages p :
  (0 < fuel)%nat -> 0 <= pages <= MAX_FRAMES -> pages < 2 ^ (Z.of_nat fuel + 3) ->
  pmm_wf p ->
  exists r p', carve_loop fuel pages p = Some (r, p') /\
    match r with
    | Some (base, end_) =>
        exists k b, 0 <= k /\ 16 <= pages / 2 ^ k /\
          (0 < k -> largest_run p < pages / 2 ^ (k - 1)) /\
          base = b * 4096 /\ end_ = wrap32 ((b + pages / 2 ^ k) * 4096) /\
          took_run p b (pages / 2 ^ k) p'
    | None => p' = p /\ forall k, 0 <= k -> 16 <= pages / 2 ^ k -> largest_run p < pages / 2 ^ k
    end.
Proof.
  revert pages. induction fuel as [|fuel IH]; intros pages Hf Hp Hlt Hwf; [lia|].
  cbn [carve_loop]. destruct (Z.geb_spec pages 16) as [Hge|Hsmall]; cycle 1.
  { do 2 eexists. split; [done|]. split; [done|]. intros k Hk H16.
    assert (pages / 2 ^ k <= pages) by (apply Z.div_le_upper_bound; nia). lia. }
  destruct (alloc_range_spec pages p) as ([a|] & p' & -> & Hr); [lia|done|..].
  - destruct Hr as (b & -> & Htook & _). do 2 eexists. split; [done|]. exists 0, b.
    rewrite Z.pow_0_r, Z.div_1_r. split_and!; [lia|lia|lia|done| |done].
    layout_consts. unfold wrap32. rewrite Zplus_mod_idemp_r. f_equal. lia.
  - destruct Hr as [-> Hlarge]. destruct fuel as [|fuel]; [cbn in Hlt; lia|].
    pose proof (half_le pages ltac:(lia)).
    destruct (IH (pages / 2)) as (r & p'' & -> & Hr); [lia|lia| |done|].
    { replace (Z.of_nat (S (S fuel)) + 3) with (1 + (Z.of_nat (S fuel) + 3)) in Hlt by lia.
      rewrite Z.pow_add_r in Hlt by lia. apply Z.div_lt_upper_bound; lia. }
    assert (forall k, 0 <= k -> pages / 2 / 2 ^ k = pages / 2 ^ (k + 1)) as Hhalf.
    { intros k Hk. rewrite Z.div_div by lia. f_equal. rewrite Z.pow_add_r by lia. lia. }
    do 2 eexists. split; [done|]. destruct r as [[base end_]|].
    + destruct Hr as (k & b & Hk & H16 & Hbig & -> & -> & Htook).
      exists (k + 1), b. rewrite Hhalf in * by lia.
      split_and!; [lia|done| |done|done|done]. intros _.
      replace (k + 1 - 1) with k by lia. destruct (decide (k = 0)) as [->|]; [by rewrite Z.div_1_r|].
      replace k with (k - 1 + 1) by lia. rewrite <- Hhalf by lia. apply Hbig. lia.
    + destruct Hr as [-> Hnone]. split; [done|]. intros k Hk H16.
      destruct (decide (k = 0)) as [->|]; [by rewrite Z.div_1_r|].
      replace k with (k - 1 + 1) in * by lia. rewrite <- Hhalf in * by lia. apply Hnone; lia.
Qed.

(** ** Every sequence of calls *)

(** One call to the allocator by the rest of the kernel. *)
Inductive pmm_step : pmm -> pmm -> Prop :=
| step_init ram p : Forall region_ok (take (Z.to_nat (ram_count ram)) (ram_regions ram)) ->
    pmm_step p (init ram p)
| step_reserve start end_ p : is_u32 start -> is_u32 end_ -> pmm_step p (reserve start end_ p)
| step_alloc p : pmm_step p (snd (alloc_frame p))
| step_free a p : is_u32 a -> pmm_step p (free_frame a p)
| step_alloc_range count r p p' : 1 <= count <= MAX_FRAMES ->
    alloc_range count p = Some (r, p') -> pmm_step p p'
| step_carve size r p p' : is_u32 size -> carve size p = Some (r, p') -> pmm_step p p'.

Lemma init_frames_wf n frame p : 0 <= frame -> pmm_wf p -> pmm_wf (init_frames n frame p).
Proof.
  revert frame p. induction n as [|n IH]; intros frame p Hf Hwf; cbn [init_frames]; [done|].
  split_ifs; [done|apply IH; [lia|done]|]. apply IH; [lia|].
  apply set_free_wf; [|done]. split; [apply Hwf|].
  destruct p. cbn [AVAILABLE FREE]. rewrite (free_set_FREE _ _ _ TOTAL0 AVAILABLE0). apply Hwf.
Qed.

Lemma init_wf ram p :
  Forall region_ok (take (Z.to_nat (ram_count ram)) (ram_regions ram)) ->
  pmm_wf p -> pmm_wf (init ram p).
Proof.
  unfold init. generalize (take (Z.to_nat (ram_count ram)) (ram_regions ram)). intros l.
  revert p. induction l as [|r l IH]; intros p Hl Hwf; cbn [foldl]; [done|].
  inversion_clear Hl. apply IH; [done|]. unfold init_region. rewrite !frame_of_eq.
  apply init_frames_wf; [|done]. apply Z.div_pos; [apply wrap32_range|lia].
Qed.

Lemma reserve_spec start end_ p :
  is_u32 start -> pmm_wf p ->
  pmm_wf (reserve start end_ p) /\
  free_set (reserve start end_ p) =
    free_set p ∖ run_set (start / 4096) (((end_ +u 4096) -u 1) / 4096 - start / 4096).
Proof.
  intros Hs Hwf. unfold reserve. rewrite !frame_of_eq, run_set_eq. apply fold_set_used_spec; [done|].
  apply Forall_seqZ. unfold is_u32 in Hs. dlia.
Qed.

Lemma alloc_frame_spec p :
  pmm_wf p ->
  match alloc_frame p with
  | (None, p') => p' = p /\ free_set p = ∅
  | (Some a, p') =>
      exists f, f ∈ free_set p /\ (forall g, g ∈ free_set p -> f <= g) /\
      a = f * 4096 /\ p' = set_used f p
  end.
Proof.
  intros Hwf. apply alloc_scan_spec; [done|lia|frames_lia|].
  intros f Hf. apply elem_of_free_set in Hf. lia.
Qed.

Lemma pmm_step_wf p p' : pmm_step p p' -> pmm_wf p -> pmm_wf p'.
Proof.
  intros Hs Hwf. destruct Hs as [ram p Hok|s e p Hs _|p|a p Ha|count r p p' Hc E|size r p p' Hs E].
  - by apply init_wf.
  - by apply reserve_spec.
  - pose proof (alloc_frame_spec p Hwf) as H. destruct (alloc_frame p) as [[a|] p'].
    + destruct H as (f & Hf & _ & _ & ->). apply elem_of_free_set in Hf. cbn. auto with kfs lia.
    + by destruct H as [-> _].
  - apply set_free_wf; [done|]. rewrite frame_of_eq. unfold is_u32 in Ha. dlia.
  - destruct (alloc_range_spec count p Hc Hwf) as (r' & q & E' & H).
    rewrite E in E'. injection E' as <- <-. destruct r; [|by destruct H as [-> _]].
    by destruct H as (b & _ & (_ & ? & _) & _).
  - unfold carve in E. layout_consts. unfold is_u32 in Hs.
    destruct (carve_loop_spec 32 (size / 4096) p) as (r' & q & E' & H);
      [lia|rewrite MAX_FRAMES_val; dlia|cbn; dlia|done|].
    rewrite E in E'. injection E' as <- <-. destruct r as [[? ?]|]; [|by destruct H as [-> _]].
    destruct H as (k & b & _ & _ & _ & _ & _ & (_ & ? & _)). done.
Qed.

Lemma alloc_frame_full p :
  pmm_wf p ->
  match alloc_frame p with
  | (Some a, p') =>
      exists f, f ∈ free_set p /\ (forall g, g ∈ free_set p -> f <= g) /\
        a = f * 4096 /\ pmm_wf p' /\ free_set p' = free_set p ∖ {[f]} /\
        AVAILABLE p' = AVAILABLE p - 1 /\ TOTAL p' = TOTAL p
  | (None, p') => p' = p /\ free_set p = ∅ /\ AVAILABLE p = 0
  end.
Proof.
  intros Hwf. pose proof (alloc_frame_spec p Hwf) as H. destruct (alloc_frame p) as [[a|] p'].
  - destruct H as (f & Hf & Hlow & -> & ->). pose proof Hf as [H0 Hb]%elem_of_free_set.
    exists f. assert (pmm_wf (set_used f p)) as Hwf' by auto with kfs lia.
    assert (free_set (set_used f p) = free_set p ∖ {[f]}) as Hset by (apply set_used_set; lia).
    split_and!; [done..| |].
    + rewrite (wf_available _ Hwf'), (wf_available _ Hwf), Hset.
      pose proof (free_set_minus p f Hf).
      apply free_set_nonempty in Hf. lia.
    + apply (fold_set_used_TOTAL [f]).
  - destruct H as [-> Hempty]. split_and!; [done|done|].
    by rewrite (wf_available _ Hwf), Hempty.
Qed.

(** ** Properties *)

(** C29: On a well-formed bitmap [alloc_frame] returns the physical address of
    the lowest free frame, makes exactly that frame used, and lowers the
    free counter by one; it returns [None], changing nothing, only when no
    frame is free. *)
Theorem alloc_frame_lowest p :
  pmm_wf p ->
  match alloc_frame p with
  | (Some a, p') =>
      exists f, f ∈ free_set p /\ (forall g, g ∈ free_set p -> f <= g) /\
        a = f * 4096 /\ pmm_wf p' /\ free_set p' = free_set p ∖ {[f]} /\
        AVAILABLE p' = AVAILABLE p - 1 /\ TOTAL p' = TOTAL p
  | (None, p') => p' = p /\ free_set p = ∅ /\ AVAILABLE p = 0
  end.
Proof. apply alloc_frame_full. Qed.

(** Two free frames, 5 and 7. *)
Definition two_frames : pmm := set_free 5 (set_free 7 pmm_zero).

Lemma two_frames_wf : pmm_wf two_frames.
Proof. repeat apply set_free_wf; (apply pmm_zero_wf || lia). Qed.

Lemma alloc_frame_lowest_witness :
  pmm_wf two_frames /\ fst (alloc_frame two_frames) = Some (5 * 4096) /\
  AVAILABLE (snd (alloc_frame two_frames)) = AVAILABLE two_frames - 1.
Proof.
  split; [exact two_frames_wf|]. pose proof (alloc_frame_lowest two_frames two_frames_wf) as H.
  split; [vm_compute; reflexivity|].
  replace (alloc_frame two_frames)
    with (Some (5 * 4096), snd (alloc_frame two_frames)) in H by (vm_compute; reflexivity).
  destruct H as (f & _ & _ & _ & _ & _ & H & _). exact H.
Defined.

(** Freeing the frame [alloc_frame] just handed out restores the set of
    free frames and both counters. *)
Lemma free_frame_undoes_alloc p a p' :
  pmm_wf p -> alloc_frame p = (Some a, p') ->
  pmm_wf (free_frame a p') /\ free_set (free_frame a p') = free_set p /\
  AVAILABLE (free_frame a p') = AVAILABLE p /\ TOTAL (free_frame a p') = TOTAL p.
Proof.
  intros Hwf E. pose proof (alloc_frame_full p Hwf) as H. rewrite E in H.
  destruct H as (f & Hf & _ & -> & Hwf' & Hset & _ & HT). pose proof Hf as [H0 _]%elem_of_free_set.
  unfold free_frame. rewrite <- address_of_eq, frame_of_address_of by done.
  assert (free_set (set_free f p') = free_set p) as Hback.
  { rewrite set_free_set, Hset by done. rewrite <- union_difference_L; [done|set_solver]. }
  assert (pmm_wf (set_free f p')) as Hwf'' by (apply set_free_wf; [done|lia]).
  split_and!; [done|done| |].
  - by rewrite (wf_available _ Hwf''), (wf_available _ Hwf), Hback.
  - by rewrite set_free_TOTAL.
Qed.

(** C31: For 1 to 2^20 frames the search of [alloc_range] ends; it succeeds
    exactly when the count is at most [largest_run], it then returns the
    lowest run of free frames that fits and makes exactly those frames used;
    a failed call changes nothing. *)
Theorem alloc_range_first_fit count p :
  1 <= count <= MAX_FRAMES -> pmm_wf p ->
  exists r p', alloc_range count p = Some (r, p') /\
    (is_Some r <-> count <= largest_run p) /\
    match r with
    | Some a =>
        exists b, a = b * 4096 /\ took_run p b count p' /\
          forall b', fits p b' count -> b <= b'
    | None => p' = p
    end.
Proof.
  intros Hc Hwf. destruct (alloc_range_spec count p Hc Hwf) as (r & p' & E & H).
  exists r, p'. split; [done|]. destruct r as [a|].
  - split; [|done]. split; [|done]. intros _. destruct H as (b & _ & (Hfit & _) & _).
    by eapply largest_run_spec.
  - destruct H as [-> Hlt]. split; [|done]. split.
    + intros [? Hs]. discriminate Hs.
    + intros Hle. lia.
Qed.

Lemma alloc_range_first_fit_witness :
  1 <= 1 <= MAX_FRAMES /\
  exists r p', alloc_range 1 two_frames = Some (r, p') /\
    (is_Some r <-> 1 <= largest_run two_frames).
Proof.
  assert (1 <= 1 <= MAX_FRAMES) as H by (rewrite MAX_FRAMES_val; lia).
  split; [exact H|].
  destruct (alloc_range_first_fit 1 two_frames H two_frames_wf) as (r & p' & E & Hr & _).
  exists r, p'. split; [exact E|exact Hr].
Defined.

(** C30: [carve] ends for every [u32] size: it takes the first halving of the
    page count (at least 16 pages) that fits a run of free frames, every
    larger halving was longer than the largest free run, it returns the
    physical bounds of that run and makes exactly its frames used; it fails,
    changing nothing, only when no halving down to 16 pages fits. *)
Theorem carve_takes_a_run size p :
  is_u32 size -> pmm_wf p ->
  exists r p', carve size p = Some (r, p') /\
    match r with
    | Some (base, end_) =>
        exists k b, 0 <= k /\ 16 <= size / 4096 / 2 ^ k /\
          (0 < k -> largest_run p < size / 4096 / 2 ^ (k - 1)) /\
          base = b * 4096 /\ end_ = wrap32 (base + size / 4096 / 2 ^ k * 4096) /\
          took_run p b (size / 4096 / 2 ^ k) p'
    | None =>
        p' = p /\ forall k, 0 <= k -> 16 <= size / 4096 / 2 ^ k ->
                    largest_run p < size / 4096 / 2 ^ k
    end.
Proof.
  intros Hs Hwf. unfold carve, is_u32 in *. layout_consts.
  destruct (carve_loop_spec 32 (size / 4096) p) as (r & p' & E & H);
    [lia|rewrite MAX_FRAMES_val; dlia|cbn; dlia|done|].
  exists r, p'. split; [done|]. destruct r as [[base end_]|]; [|done].
  destruct H as (k & b & ? & ? & ? & -> & -> & ?). clear E. exists k, b.
  split_and!; try assumption; [reflexivity|]. f_equal. lia.
Qed.

(** Sixteen free frames from frame 256 on. *)
Definition sixteen_frames : pmm :=
  init (push NOTHING 0x100000 0x10000) pmm_zero.

Lemma sixteen_frames_wf : pmm_wf sixteen_frames.
Proof.
  apply init_wf; [by_decide|apply pmm_zero_wf].
Qed.

Lemma carve_takes_a_run_witness :
  is_u32 0x10000 /\
  exists k b, 16 <= 16 / 2 ^ k /\ (0 < k -> largest_run sixteen_frames < 16 / 2 ^ (k - 1)) /\
    fst <$> carve 0x10000 sixteen_frames = Some (Some (b * 4096, 0x110000)).
Proof.
  assert (is_u32 0x10000) as Hs by (unfold is_u32; lia). split; [exact Hs|].
  destruct (carve_takes_a_run 0x10000 sixteen_frames Hs sixteen_frames_wf) as (r & p' & E & H).
  assert (fst <$> carve 0x10000 sixteen_frames = Some (Some (0x100000, 0x110000))) as E'
    by (vm_compute; reflexivity).
  rewrite E in E' |- *. cbn [fmap option_fmap option_map fst] in E' |- *.
  injection E' as E'. rewrite E' in H |- *.
  destruct H as (k & b & _ & H1 & H2 & H3 & _). exists k, b.
  split; [exact H1|]. split; [exact H2|]. rewrite H3. reflexivity.
Defined.

(** C32: For regions whose base rounds up without wrapping, [init] marks free
    exactly the frames that lie entirely inside a region of the memory map,
    counts each once even when regions overlap, and reports no frame used. *)
Theorem init_frees_whole_frames ram :
  Forall region_ok (take (Z.to_nat (ram_count ram)) (ram_regions ram)) ->
  let p := init ram pmm_zero in
  pmm_wf p /\ TOTAL p = Z.of_nat (size (free_set p)) /\ used_frames p = 0 /\
  forall f, f ∈ free_set p <->
    exists r, r ∈ take (Z.to_nat (ram_count ram)) (ram_regions ram) /\ covers r f.
Proof.
  intros Hok p.
  destruct (init_regions_spec _ pmm_zero Hok pmm_zero_wf eq_refl) as (Hw & HT & Hs).
  fold (init ram pmm_zero) in *. fold p in Hw, HT, Hs. split_and!; [done| | |].
  - rewrite HT. apply Hw.
  - unfold used_frames, total_frames, free_frames. by rewrite HT, Z.sub_diag.
  - intros f. rewrite Hs, pmm_zero_free_set. clear. set_solver.
Qed.

Lemma init_frees_whole_frames_witness :
  let ram := push NOTHING 0x100000 0x10800 in
  Forall region_ok (take (Z.to_nat (ram_count ram)) (ram_regions ram)) /\
  256 ∈ free_set (init ram pmm_zero) /\ 272 ∉ free_set (init ram pmm_zero).
Proof.
  cbv zeta. set (ram := push NOTHING 0x100000 0x10800).
  assert (Forall region_ok (take (Z.to_nat (ram_count ram)) (ram_regions ram))) as Hok.
  { by_decide. }
  split; [exact Hok|].
  destruct (init_frees_whole_frames ram Hok) as (_ & _ & _ & H).
  split; [apply H|intros Hin; apply H in Hin];
    change (take (Z.to_nat (ram_count ram)) (ram_regions ram))
      with [mkRegion 0x100000 0x110800] in *.
  - exists (mkRegion 0x100000 0x110800). split; [by left|]. split; cbn; lia.
  - destruct Hin as (r & Hr & _ & Hc). apply list_elem_of_singleton in Hr as ->. cbn in Hc. lia.
Defined.

(** C33: A memory-map region that starts in the last page below 4 GB wraps the
    round-up of its base: [push] accepts [0xfffff400..0xfffffc00], which
    covers no whole frame, and [init] then marks every frame from 0 to
    0xffffe free. *)
Theorem init_wraps_at_top_of_memory :
  let ram := push NOTHING 0xfffff400 0x800 in
  take (Z.to_nat (ram_count ram)) (ram_regions ram) = [mkRegion 0xfffff400 0xfffffc00] /\
  free_set (init ram pmm_zero) = run_set 0 0xfffff.
Proof.
  split; [vm_compute; reflexivity|].
  unfold init. set (ram := push _ _ _).
  replace (take (Z.to_nat (ram_count ram)) (ram_regions ram))
    with [mkRegion 0xfffff400 0xfffffc00] by (vm_compute; reflexivity).
  cbn [foldl]. unfold init_region. cbn [rg_base rg_end].
  change (frame_of ((0xfffff400 +u PAGE_SIZE) -u 1)) with 0.
  change (frame_of 0xfffffc00) with 0xfffff.
  destruct (init_frames_spec (Z.to_nat (0xfffff - 0)) 0 pmm_zero) as (_ & _ & H);
    [lia|apply pmm_zero_wf|done|].
  apply set_eq. intros f. rewrite H, pmm_zero_free_set, elem_of_run_set.
  rewrite Z2Nat.id, MAX_FRAMES_val by lia. rewrite Z.min_l by lia. clear. set_solver by lia.
Qed.

(** After any sequence of calls to the allocator from the zeroed statics
    the free counter equals the number of set bits, so it cannot drift or
    wrap. *)
Lemma pmm_reachable_wf p :
  rtc pmm_step pmm_zero p -> pmm_wf p /\ AVAILABLE p <= MAX_FRAMES.
Proof.
  intros Hr. assert (pmm_wf p) as Hwf.
  { revert Hr. generalize pmm_zero_wf. generalize pmm_zero. intros q Hq Hr.
    induction Hr as [|q q' p Hs _ IH]; [done|]. apply IH. by eapply pmm_step_wf. }
  split; [done|]. rewrite (wf_available _ Hwf). apply free_set_size.
Qed.
