(* ===== verification/Klib.v ===== *)
(** * Text helpers (kernel/src/klib.rs)

    A [&str] is the list of its bytes.  Every text the kernel handles is
    ASCII (docs/SHELL.md: the keyboard tables only produce bytes below
    0x80), and [trim] is modelled on ASCII text. *)

From S2P Require Import Prelude.

(** The bytes of a Rust string literal. *)
Definition bytes (s : string) : list Z :=
  map (fun c => Z.of_N (Ascii.N_of_ascii c)) (String.list_ascii_of_string s).

(** [char::is_whitespace] on ASCII. *)
Definition is_whitespace (b : Z) : bool := ((9 <=? b) && (b <=? 13)) || (b =? 32).

Fixpoint trim_start (s : list Z) : list Z :=
  match s with
  | b :: s' => if is_whitespace b then trim_start s' else s
  | [] => []
  end.

(** [str::trim] *)
Definition trim (s : list Z) : list Z := rev (trim_start (rev (trim_start s))).

(** [str::strip_prefix] *)
Fixpoint strip_prefix (pre s : list Z) : option (list Z) :=
  match pre, s with
  | [], _ => Some s
  | a :: pre', b :: s' => if a =? b then strip_prefix pre' s' else None
  | _ :: _, [] => None
  end.

(** The loop of [strlen]: memory is a function from addresses to bytes. *)
(** klib.rs 4-6: strlen *)
Fixpoint strlen_loop (fuel : nat) (mem : Z -> Z) (s n : Z) : option Z :=
  match fuel with
  | O => None
  | S fuel => if mem (s + n) =? 0 then Some n else strlen_loop fuel mem s (n + 1)
  end.

(** klib.rs 1-8: strlen *)
Definition strlen (fuel : nat) (mem : Z -> Z) (s : Z) : option Z := strlen_loop fuel mem s 0.

(** klib.rs 12-19: strcmp *)
Fixpoint strcmp_loop (fuel : nat) (mem : Z -> Z) (a b i : Z) : option Z :=
  match fuel with
  | O => None
  | S fuel =>
      let ca := mem (a + i) in
      let cb := mem (b + i) in
      if negb (ca =? cb) || (ca =? 0) then Some (ca - cb)
      else strcmp_loop fuel mem a b (i + 1)
  end.

(** klib.rs 10-20: strcmp *)
Definition strcmp (fuel : nat) (mem : Z -> Z) (a b : Z) : option Z := strcmp_loop fuel mem a b 0.

(** The loop of [utoa].  [None] is the panic of an index out of bounds
    ([i -= 1] wraps at zero and [buf[i]] is then refused). *)
(** klib.rs 22-31: utoa *)
Fixpoint utoa_loop (fuel : nat) (i n : Z) (buf : list Z) : option (Z * list Z) :=
  match fuel with
  | O => None
  | S fuel =>
      let i := i -u 1 in
      if i <? Z.of_nat (length buf) then
        let buf := <[Z.to_nat i := 48 + wrap8 (n mod 10)]> buf in
        let n := n / 10 in
        if n =? 0 then Some (i, buf) else utoa_loop fuel i n buf
      else None
  end.

(** klib.rs 22-33: utoa *)
Definition utoa (n : Z) (buf : list Z) : option (list Z) :=
  match utoa_loop 11 (Z.of_nat (length buf)) n buf with
  | Some (i, buf) => Some (drop (Z.to_nat i) buf)
  | None => None
  end.

(** klib.rs 46-51: parse_u32 *)
Definition digit_of (byte : Z) : option Z :=
  if (48 <=? byte) && (byte <=? 57) then Some (byte - 48)
  else if (97 <=? byte) && (byte <=? 102) then Some (byte - 97 + 10)
  else if (65 <=? byte) && (byte <=? 70) then Some (byte - 65 + 10)
  else None.

(** [value.checked_mul(radix)?.checked_add(digit)?] *)
(** klib.rs 55-55: parse_u32 *)
Definition push_digit (value radix digit : Z) : option Z :=
  if value * radix <=? U32_MAX then
    if value * radix + digit <=? U32_MAX then Some (value * radix + digit) else None
  else None.

(** klib.rs 44-57: parse_u32 *)
Fixpoint parse_digits (radix value : Z) (digits : list Z) : option Z :=
  match digits with
  | [] => Some value
  | byte :: rest =>
      match digit_of byte with
      | None => None
      | Some digit =>
          if digit >=? radix then None
          else
            match push_digit value radix digit with
            | None => None
            | Some value => parse_digits radix value rest
            end
      end
  end.

(** klib.rs 35-58: parse_u32 *)
Definition parse_u32 (text : list Z) : option Z :=
  let text := trim text in
  let '(digits, radix) :=
    match strip_prefix (bytes "0x") text with
    | Some rest => (rest, 16)
    | None =>
        match strip_prefix (bytes "0X") text with
        | Some rest => (rest, 16)
        | None => (text, 10)
        end
    end in
  match digits with
  | [] => None
  | _ => parse_digits radix 0 digits
  end.

(** ** The value of a digit string *)

(** The number a list of digits stands for, most significant first. *)
Definition value_of (radix : Z) (ds : list Z) : Z := foldl (fun v d => v * radix + d) 0 ds.

(** A byte is a digit below [radix], with its value: its place among the
    sixteen digits, in lower or upper case. *)
Definition is_digit (radix byte digit : Z) : Prop :=
  0 <= digit < radix /\
  (bytes "0123456789abcdef" !! Z.to_nat digit = Some byte \/
   bytes "0123456789ABCDEF" !! Z.to_nat digit = Some byte).

Lemma digit_of_places :
  Forall (fun b => match digit_of b with
                   | Some d => bytes "0123456789abcdef" !! Z.to_nat d = Some b \/
                               bytes "0123456789ABCDEF" !! Z.to_nat d = Some b
                   | None => True
                   end) (seqZ 0 128) /\
  Forall (fun d => Forall (fun b => digit_of b = Some d)
    (option_list (bytes "0123456789abcdef" !! Z.to_nat d) ++ option_list (bytes "0123456789ABCDEF" !! Z.to_nat d)))
    (seqZ 0 16).
Proof.
  split; (apply Forall_elem_of; intros x Hx; apply elem_of_seqZ in Hx;
    assert (x = Z.of_nat (Z.to_nat x)) as -> by lia; assert (Z.to_nat x < 128)%nat as Hn by lia).
  - revert Hn. generalize (Z.to_nat x). clear. intros n Hn.
    do 128 (destruct n as [|n]; [vm_compute; auto|]). lia.
  - assert (Z.to_nat x < 16)%nat as Hm by lia. revert Hm. generalize (Z.to_nat x). clear. intros n Hn.
    do 16 (destruct n as [|n]; [repeat constructor|]). lia.
Qed.

Lemma digit_of_range b d : digit_of b = Some d -> 0 <= d < 16.
Proof. unfold digit_of. intros H. repeat case_match; breflect; simplify_eq; lia. Qed.

Lemma digit_of_ascii b d : digit_of b = Some d -> 0 <= b < 128.
Proof. unfold digit_of. intros H. repeat case_match; breflect; simplify_eq; lia. Qed.

Lemma is_digit_of radix b d : is_digit radix b d <-> digit_of b = Some d /\ d < radix.
Proof.
  destruct digit_of_places as [H1 H2]. rewrite Forall_elem_of in H1, H2. split.
  - intros [Hd Hb]. split; [|lia]. assert (d < 16).
    { assert (Z.to_nat d < 16)%nat; [|lia]. destruct Hb as [Hb|Hb]; apply lookup_lt_Some in Hb; exact Hb. }
    specialize (H2 d ltac:(apply elem_of_seqZ; lia)). rewrite Forall_elem_of in H2. apply H2, elem_of_app.
    destruct Hb as [->| ->]; [left|right]; by left.
  - intros [Hd Hr]. pose proof (digit_of_range _ _ Hd). split; [lia|].
    pose proof (digit_of_ascii _ _ Hd). specialize (H1 b ltac:(apply elem_of_seqZ; lia)). by rewrite Hd in H1.
Qed.

Lemma foldl_value_ge radix ds v :
  1 <= radix -> 0 <= v -> Forall (fun d => 0 <= d) ds ->
  v <= foldl (fun v d => v * radix + d) v ds.
Proof.
  revert v. induction ds as [|d ds IH]; intros v Hr Hv Hds; cbn [foldl]; [lia|].
  inversion_clear Hds. transitivity (v * radix + d); [nia|]. apply IH; [lia|nia|done].
Qed.

(** What the digit loop accepts, and its value. *)
Lemma parse_digits_spec radix v0 text v :
  1 <= radix -> 0 <= v0 <= U32_MAX ->
  parse_digits radix v0 text = Some v <->
  exists ds, Forall2 (is_digit radix) text ds /\
    v = foldl (fun v d => v * radix + d) v0 ds /\ v <= U32_MAX.
Proof.
  intros Hr. revert v0. induction text as [|b text IH]; intros v0 Hv0; cbn [parse_digits].
  { split.
    - intros [= <-]. exists []. split_and!; [constructor|done|lia].
    - intros (ds & Hf & -> & _). inversion Hf. done. }
  destruct (digit_of b) as [d|] eqn:Hd; cycle 1.
  { split; [done|]. intros (ds & Hf & _). inversion Hf as [|? ? ? ? He]. apply is_digit_of in He as [? _]. congruence. }
  pose proof (digit_of_range _ _ Hd) as Hd0.
  assert (forall ds, Forall2 (is_digit radix) text ds -> Forall (fun d => 0 <= d) ds) as Hpos.
  { intros ds Hf. clear -Hf. induction Hf as [|? ? ? ? He]; constructor; [destruct He; lia|done]. }
  destruct (Z.geb_spec d radix) as [|Hlt].
  { split; [done|]. intros (ds & Hf & _). inversion Hf as [|? ? ? ? He]. apply is_digit_of in He as [? ?]. simplify_eq. lia. }
  unfold push_digit. destruct (Z.leb_spec (v0 * radix) U32_MAX); cycle 1.
  { split; [done|]. intros (ds & Hf & -> & Hle). inversion Hf as [|? d' ? ds' He Hf']. apply is_digit_of in He as [? ?]. subst.
    simplify_eq. cbn [foldl] in Hle.
    pose proof (foldl_value_ge radix ds' (v0 * radix + d) Hr ltac:(nia) (Hpos _ Hf')). lia. }
  destruct (Z.leb_spec (v0 * radix + d) U32_MAX); cycle 1.
  { split; [done|]. intros (ds & Hf & -> & Hle). inversion Hf as [|? d' ? ds' He Hf']. apply is_digit_of in He as [? ?]. subst.
    simplify_eq. cbn [foldl] in Hle.
    pose proof (foldl_value_ge radix ds' (v0 * radix + d) Hr ltac:(nia) (Hpos _ Hf')). lia. }
  rewrite IH by nia. split.
  - intros (ds & Hf & -> & Hle). exists (d :: ds). split_and!; [constructor; [by apply is_digit_of|done]|done|done].
  - intros (ds & Hf & -> & Hle). inversion Hf as [|? d' ? ds' He Hf']. apply is_digit_of in He as [? ?]. subst. simplify_eq.
    exists ds'. done.
Qed.

(** ** Digits of a number *)

(** The decimal digits of [n], most significant first. *)
Fixpoint decimal (fuel : nat) (n : Z) : list Z :=
  match fuel with
  | O => []
  | S fuel => if n / 10 =? 0 then [n mod 10] else decimal fuel (n / 10) ++ [n mod 10]
  end.

Lemma value_of_snoc radix ds d : value_of radix (ds ++ [d]) = value_of radix ds * radix + d.
Proof. unfold value_of. by rewrite foldl_app. Qed.

Lemma decimal_spec fuel n :
  0 <= n < 10 ^ Z.of_nat fuel -> (0 < fuel)%nat ->
  value_of 10 (decimal fuel n) = n /\ Forall (fun d => 0 <= d < 10) (decimal fuel n) /\
  (0 < length (decimal fuel n) <= fuel)%nat /\
  (0 < n -> exists d ds, decimal fuel n = d :: ds /\ 0 < d).
Proof.
  revert n. induction fuel as [|fuel IH]; intros n Hn Hf; [lia|]. cbn [decimal].
  destruct (Z.eqb_spec (n / 10) 0) as [Hz|Hnz].
  - assert (n mod 10 = n) as -> by dlia. split_and!; [unfold value_of; cbn; lia| |cbn; lia..|].
    + constructor; [dlia|constructor].
    + intros Hpos. exists n, []. split; [done|lia].
  - assert (0 < fuel)%nat as Hf'.
    { destruct fuel; [|lia]. change (10 ^ Z.of_nat 1) with 10 in Hn. dlia. }
    assert (0 <= n / 10 < 10 ^ Z.of_nat fuel) as Hn'.
    { split; [dlia|]. replace (Z.of_nat (S fuel)) with (1 + Z.of_nat fuel) in Hn by lia.
      rewrite Z.pow_add_r in Hn by lia. apply Z.div_lt_upper_bound; lia. }
    destruct (IH (n / 10) Hn' Hf') as (Hv & Hd & Hl & Hh).
    split_and!.
    + rewrite value_of_snoc, Hv. dlia.
    + apply Forall_app. split; [done|]. constructor; [dlia|constructor].
    + rewrite length_app. cbn. lia.
    + rewrite length_app. cbn. lia.
    + intros _. destruct Hh as (d & ds & -> & Hpos); [dlia|]. by exists d, (ds ++ [n mod 10]).
Qed.

(** The loop writes the digits right-aligned in front of index [i]. *)
Lemma utoa_loop_spec fuel i n buf :
  0 <= n < 10 ^ Z.of_nat fuel -> (0 < fuel)%nat ->
  (length (decimal fuel n) <= i <= length buf)%nat -> Z.of_nat (length buf) < 4294967296 ->
  utoa_loop fuel (Z.of_nat i) n buf =
    Some (Z.of_nat (i - length (decimal fuel n)),
          take (i - length (decimal fuel n)) buf ++ map (Z.add 48) (decimal fuel n) ++ drop i buf).
Proof.
  revert i n buf. induction fuel as [|fuel IH]; intros i n buf Hn Hf Hi Hlen; [lia|].
  pose proof (decimal_spec (S fuel) n Hn Hf) as (_ & _ & Hdl & _).
  cbn [utoa_loop]. rewrite wrap32_small by (unfold is_u32; lia).
  destruct (Z.ltb_spec (Z.of_nat i - 1) (Z.of_nat (length buf))); [|lia].
  replace (wrap8 (n mod 10)) with (n mod 10) by word_lia.
  replace (Z.to_nat (Z.of_nat i - 1)) with (i - 1)%nat by lia.
  assert (<[(i - 1)%nat:=48 + n mod 10]> buf
          = take (i - 1) buf ++ (48 + n mod 10) :: drop i buf) as Hins.
  { rewrite insert_take_drop by lia. by replace (S (i - 1)) with i by lia. }
  cbn [decimal] in *. destruct (Z.eqb_spec (n / 10) 0) as [Hz|Hnz].
  - cbn [length map app]. replace (Z.of_nat i - 1) with (Z.of_nat (i - 1)) by lia. by rewrite Hins.
  - assert (0 < fuel)%nat as Hf'.
    { destruct fuel; [|lia]. change (10 ^ Z.of_nat 1) with 10 in Hn. dlia. }
    assert (0 <= n / 10 < 10 ^ Z.of_nat fuel) as Hn'.
    { split; [dlia|]. replace (Z.of_nat (S fuel)) with (1 + Z.of_nat fuel) in Hn by lia.
      rewrite Z.pow_add_r in Hn by lia. apply Z.div_lt_upper_bound; lia. }
    rewrite length_app in *. cbn [length] in *.
    replace (Z.of_nat i - 1) with (Z.of_nat (i - 1)) by lia.
    rewrite IH; [|done|done|rewrite length_insert; lia|rewrite length_insert; lia].
    replace (i - 1 - length (decimal fuel (n / 10)))%nat
      with (i - (length (decimal fuel (n / 10)) + 1))%nat by lia.
    f_equal. f_equal. rewrite map_app, <- !app_assoc. f_equal; [by rewrite take_insert_ge by lia|].
    f_equal. rewrite Hins, drop_app_length' by (rewrite length_take; lia). done.
Qed.

Lemma utoa_spec n buf :
  is_u32 n -> length buf = 10%nat -> utoa n buf = Some (map (Z.add 48) (decimal 10 n)).
Proof.
  intros Hn Hbuf. unfold utoa.
  assert (decimal 11 n = decimal 10 n) as H11.
  { assert (forall f m, (0 < f)%nat -> 0 <= m < 10 ^ Z.of_nat f ->
      decimal (S f) m = decimal f m) as H; [|apply H; [lia|change (10 ^ Z.of_nat 10) with 10000000000; word_lia]].
    clear. induction f as [|f IH]; intros m Hf Hm; [lia|].
    cbn [decimal]. destruct (Z.eqb_spec (m / 10) 0); [done|].
    f_equal. apply IH.
    - destruct f; [|lia]. change (10 ^ Z.of_nat 1) with 10 in Hm. dlia.
    - split; [dlia|]. replace (Z.of_nat (S f)) with (1 + Z.of_nat f) in Hm by lia.
      rewrite Z.pow_add_r in Hm by lia. apply Z.div_lt_upper_bound; lia. }
  destruct (decimal_spec 10 n) as (_ & _ & Hl & _);
    [change (10 ^ Z.of_nat 10) with 10000000000; word_lia|lia|].
  rewrite utoa_loop_spec; rewrite ?H11; [|change (10 ^ Z.of_nat 11) with 100000000000; word_lia|lia..].
  rewrite Nat2Z.id, drop_app_length' by (rewrite length_take; lia).
  rewrite drop_ge by lia. by rewrite app_nil_r.
Qed.

(** ** Text around a number *)

Lemma trim_start_id s : Forall (fun b => is_whitespace b = false) s -> trim_start s = s.
Proof. destruct s as [|b s]; [done|]. intros H. inversion_clear H. cbn. by rewrite H0. Qed.

Lemma trim_id s : Forall (fun b => is_whitespace b = false) s -> trim s = s.
Proof.
  intros H. unfold trim. rewrite (trim_start_id s) by done.
  rewrite trim_start_id, rev_involutive; [done|]. apply Forall_rev. done.
Qed.

Lemma strip_prefix_Some pre s rest : strip_prefix pre s = Some rest <-> s = pre ++ rest.
Proof.
  revert s. induction pre as [|a pre IH]; intros s; cbn [strip_prefix app].
  - split; [by intros [= ->]|by intros ->].
  - destruct s as [|b s]; [done|]. destruct (Z.eqb_spec a b) as [->|Hne].
    + rewrite IH. split; [by intros ->|by intros [= ->]].
    + split; [done|]. congruence.
Qed.

(** How the text splits into a radix and digits. *)
Definition number_syntax (t : list Z) (radix : Z) (digits : list Z) : Prop :=
  (radix = 16 /\ (t = bytes "0x" ++ digits \/ t = bytes "0X" ++ digits)) \/
  (radix = 10 /\ t = digits /\ forall rest, t <> bytes "0x" ++ rest /\ t <> bytes "0X" ++ rest).

Lemma parse_u32_accepts_iff text v :
  parse_u32 text = Some v <->
  exists radix digits ds, number_syntax (trim text) radix digits /\ digits <> [] /\
    Forall2 (is_digit radix) digits ds /\ v = value_of radix ds /\ v <= U32_MAX.
Proof.
  assert (forall radix digits, 1 <= radix ->
    (match digits with [] => None | _ => parse_digits radix 0 digits end) = Some v <->
    exists ds, digits <> [] /\ Forall2 (is_digit radix) digits ds /\
      v = value_of radix ds /\ v <= U32_MAX) as Hdig.
  { intros radix [|b digits] Hr; [split; [done|by intros (? & ? & _)]|].
    rewrite parse_digits_spec by (unfold U32_MAX; lia).
    split; intros (ds & H); exists ds; naive_solver. }
  unfold parse_u32, number_syntax. generalize (trim text). clear text. intros t.
  destruct (strip_prefix (bytes "0x") t) as [rest|] eqn:E1;
    [|destruct (strip_prefix (bytes "0X") t) as [rest|] eqn:E2]; rewrite Hdig by lia.
  - apply strip_prefix_Some in E1 as ->. split.
    + intros (ds & H). exists 16, rest, ds. auto 6.
    + intros (radix & digits & ds & [[-> [He|He]]|(_ & _ & Hno)] & H);
        [|discriminate He|by destruct (Hno rest)].
      apply app_inv_head in He as ->. exists ds. done.
  - apply strip_prefix_Some in E2 as ->. split.
    + intros (ds & H). exists 16, rest, ds. naive_solver.
    + intros (radix & digits & ds & [[-> [He|He]]|(_ & _ & Hno)] & H);
        [discriminate He| |by destruct (Hno rest)].
      apply app_inv_head in He as ->. exists ds. done.
  - split.
    + intros (ds & H). exists 10, t, ds. split; [|exact H]. right. split; [done|]. split; [done|].
      intros rest. split; intros He; apply strip_prefix_Some in He; congruence.
    + intros (radix & digits & ds & [[-> [He|He]]|(-> & <- & _)] & H).
      * apply strip_prefix_Some in He. congruence.
      * apply strip_prefix_Some in He. congruence.
      * exists ds. done.
Qed.

(** ** Properties *)



(** C39: [parse_u32] accepts exactly the texts that are, after trimming, a
    non-empty digit string in radix 16 after [0x] or [0X], or in radix 10
    otherwise, whose value fits 32 bits, and returns that value; every other
    text, an overflow included, gives [None].  The value of a digit is its
    place in 0123456789abcdef or 0123456789ABCDEF. *)
Theorem parse_u32_accepts text v :
  parse_u32 text = Some v <->
  exists radix digits ds, number_syntax (trim text) radix digits /\ digits <> [] /\
    Forall2 (is_digit radix) digits ds /\ v = value_of radix ds /\ v <= U32_MAX.
Proof. apply parse_u32_accepts_iff. Qed.

Lemma parse_u32_accepts_witness : parse_u32 (bytes " 0xaFc9") = Some 45001.
Proof.
  apply (parse_u32_accepts (bytes " 0xaFc9") 45001). exists 16, (bytes "aFc9"), [10; 15; 12; 9].
  split; [left; split; [reflexivity|left; reflexivity]|]. split; [discriminate|]. split; [|by_decide].
  unfold bytes. cbn [String.list_ascii_of_string map].
  repeat (constructor; [split; [lia|first [left; reflexivity|right; reflexivity]]|]). constructor.
Defined.

(** C40: Parsing what [utoa] printed gives the number back. *)
Theorem parse_u32_utoa n buf text :
  is_u32 n -> length buf = 10%nat -> utoa n buf = Some text -> parse_u32 text = Some n.
Proof.
  intros Hn Hbuf. rewrite utoa_spec by done. intros [= <-].
  destruct (decimal_spec 10 n) as (Hv & Hd & Hl & _);
    [change (10 ^ Z.of_nat 10) with 10000000000; word_lia|lia|].
  apply parse_u32_accepts_iff. exists 10, (map (Z.add 48) (decimal 10 n)), (decimal 10 n).
  rewrite Forall_elem_of in Hd.
  assert (forall x, x ∈ map (Z.add 48) (decimal 10 n) -> 48 <= x < 58) as Hx.
  { intros x Hx. apply list_elem_of_fmap in Hx as (d & -> & Hin). specialize (Hd d Hin). lia. }
  rewrite trim_id; cycle 1.
  { apply Forall_elem_of. intros x Hin. specialize (Hx x Hin). unfold is_whitespace.
    destruct (Z.leb_spec 9 x), (Z.leb_spec x 13), (Z.eqb_spec x 32); cbn; lia. }
  assert (forall c rest, 58 <= c -> map (Z.add 48) (decimal 10 n) <> 48 :: c :: rest) as Hno.
  { intros c rest Hc He. specialize (Hx c). rewrite He in Hx. specialize (Hx ltac:(right; left)). lia. }
  split_and!.
  - right. split; [done|]. split; [done|]. intros rest.
    split; intros He; revert He; apply Hno; vm_compute; discriminate.
  - intros He. apply map_eq_nil in He. rewrite He in Hl. cbn in Hl. lia.
  - apply Forall2_fmap_l. apply Forall_Forall2_diag. apply Forall_elem_of. intros d Hin.
    specialize (Hd d Hin). change (is_digit 10 (48 + d) d). apply is_digit_of. unfold digit_of.
    destruct (Z.leb_spec 48 (48 + d)), (Z.leb_spec (48 + d) 57); cbn [andb]; try lia.
    split; [f_equal; lia|lia].
  - done.
  - word_lia.
Qed.

Lemma parse_u32_utoa_witness :
  utoa 4294967295 (replicate 10 0) = Some (bytes "4294967295") /\
  parse_u32 (bytes "4294967295") = Some 4294967295.
Proof.
  assert (utoa 4294967295 (replicate 10 0) = Some (bytes "4294967295")) as E by reflexivity.
  split; [exact E|]. apply (parse_u32_utoa 4294967295 (replicate 10 0)); [unfold is_u32; lia|reflexivity|exact E].
Defined.
