(* ===== verification/Vga.v ===== *)
(** * The screen driver (kernel/src/vga.rs)

    The text buffer is device memory of 2000 cells; the three virtual
    screens, the cursor and the colour are statics.  The blinking cursor is
    a pair of CRT-controller registers behind two I/O ports, modelled with
    the controller's index register. *)

From S2P Require Import Prelude.
From S2P Require Import Klib.

(** vga.rs 5-5: BUFFER *)
Definition BUFFER : Z := 0xc00b8000.
(** vga.rs 6-6: WIDTH *)
Definition WIDTH : Z := 80.
(** vga.rs 7-7: HEIGHT *)
Definition HEIGHT : Z := 25.
(** vga.rs 8-8: CELLS *)
Definition CELLS : Z := WIDTH * HEIGHT.

(** vga.rs 10-30: Color *)
Inductive Color : Type :=
| Black | Blue | Green | Cyan | Red | Magenta | Brown | LightGrey
| DarkGrey | BrightBlue | BrightGreen | BrightCyan | BrightRed | BrightMagenta
| Yellow | White.

(** vga.rs 10-30: Color *)
Definition color_code (c : Color) : Z :=
  match c with
  | Black => 0 | Blue => 1 | Green => 2 | Cyan => 3 | Red => 4 | Magenta => 5
  | Brown => 6 | LightGrey => 7 | DarkGrey => 8 | BrightBlue => 9
  | BrightGreen => 10 | BrightCyan => 11 | BrightRed => 12 | BrightMagenta => 13
  | Yellow => 14 | White => 15
  end.

(** vga.rs 32-32: DEFAULT_ATTR *)
Definition DEFAULT_ATTR : Z := wrap16 (Z.shiftl (color_code White) 8).

(** vga.rs 37-37: NB_SCREENS *)
Definition NB_SCREENS : Z := 3.

(** vga.rs 39-43: Screen *)
Record Screen : Type := mkScreen {
  sc_cells : list Z;
  sc_cursor : Z;
  sc_attr : Z;
}.

(** vga.rs 45-49: ZERO *)
Definition ZERO : Screen := mkScreen (replicate (Z.to_nat CELLS) 0) 0 0.

(** The statics, the text buffer and the CRT controller.  [wild] records a
    read or a write of a cell outside the buffer, which the raw pointer would make. *)
(** vga.rs 34-52: CURSOR, ATTR, SCREENS, USED, ACTIVE *)
Record vga : Type := mkVga {
  cells : list Z;
  CURSOR : Z;
  ATTR : Z;
  SCREENS : list Screen;
  USED : list bool;
  ACTIVE : Z;
  crtc_index : Z;
  crtc : gmap Z Z;
  wild : bool;
}.

Definition set_cells (f : list Z -> list Z) (v : vga) : vga :=
  mkVga (f (cells v)) (CURSOR v) (ATTR v) (SCREENS v) (USED v) (ACTIVE v)
    (crtc_index v) (crtc v) (wild v).

(** vga.rs 54-56: cursor *)
Definition cursor (v : vga) : Z := CURSOR v.

(** vga.rs 58-60: set_cursor *)
Definition set_cursor (i : Z) (v : vga) : vga :=
  mkVga (cells v) i (ATTR v) (SCREENS v) (USED v) (ACTIVE v) (crtc_index v) (crtc v) (wild v).

(** vga.rs 62-64: attr *)
Definition attr (v : vga) : Z := ATTR v.

Definition set_attr (a : Z) (v : vga) : vga :=
  mkVga (cells v) (CURSOR v) a (SCREENS v) (USED v) (ACTIVE v) (crtc_index v) (crtc v) (wild v).

(** vga.rs 66-68: set_color *)
Definition set_color (fg bg : Color) (v : vga) : vga :=
  set_attr (Z.lor (wrap16 (Z.shiftl (color_code bg) 12)) (wrap16 (Z.shiftl (color_code fg) 8))) v.

Definition set_wild (v : vga) : vga :=
  mkVga (cells v) (CURSOR v) (ATTR v) (SCREENS v) (USED v) (ACTIVE v) (crtc_index v) (crtc v) true.

(** vga.rs 70-73: put_cell *)
Definition put_cell (i cell : Z) (v : vga) : vga :=
  if (0 <=? i) && (i <? CELLS) then set_cells (fun c => <[Z.to_nat i := cell]> c) v
  else set_wild v.

(** vga.rs 75-78: read_cell *)
Definition read_cell (i : Z) (v : vga) : Z * vga :=
  if (0 <=? i) && (i <? CELLS) then (nth (Z.to_nat i) (cells v) 0, v) else (0, set_wild v).

(** vga.rs 170-171: CRTC_INDEX, CRTC_DATA *)
Definition CRTC_INDEX : Z := 0x3D4.
(** vga.rs 170-171: CRTC_INDEX, CRTC_DATA *)
Definition CRTC_DATA : Z := 0x3D5.

(** A byte written to a port of the CRT controller. *)
Definition outb (port val : Z) (v : vga) : vga :=
  if port =? CRTC_INDEX then
    mkVga (cells v) (CURSOR v) (ATTR v) (SCREENS v) (USED v) (ACTIVE v) val (crtc v) (wild v)
  else if port =? CRTC_DATA then
    mkVga (cells v) (CURSOR v) (ATTR v) (SCREENS v) (USED v) (ACTIVE v)
      (crtc_index v) (<[crtc_index v := val]> (crtc v)) (wild v)
  else v.

(** vga.rs 173-181: sync_hw_cursor *)
Definition sync_hw_cursor (v : vga) : vga :=
  let pos := wrap16 (cursor v) in
  let v := outb CRTC_INDEX 0x0F v in
  let v := outb CRTC_DATA (wrap8 pos) v in
  let v := outb CRTC_INDEX 0x0E v in
  outb CRTC_DATA (wrap8 (Z.shiftr pos 8)) v.

(** vga.rs 80-86: clear *)
Definition clear (v : vga) : vga :=
  let v := foldl (fun v i => put_cell i (Z.lor (attr v) 32) v) v (seqZ 0 CELLS) in
  sync_hw_cursor (set_cursor 0 v).

(** vga.rs 161-168: scroll *)
Definition scroll (v : vga) : vga :=
  let v := foldl (fun v i => let '(cell, v) := read_cell (i + WIDTH) v in put_cell i cell v) v
             (seqZ 0 (CELLS - WIDTH)) in
  foldl (fun v i => put_cell i (Z.lor (attr v) 32) v) v
    (seqZ (CELLS - WIDTH) (CELLS - (CELLS - WIDTH))).

(** vga.rs 147-159: putb *)
Definition putb (b : Z) (v : vga) : vga :=
  let v :=
    if b =? 10 then set_cursor (cursor v - cursor v mod WIDTH + WIDTH) v
    else
      let v := put_cell (cursor v) (Z.lor (attr v) b) v in
      set_cursor (cursor v + 1) v in
  if cursor v >=? CELLS then set_cursor (CELLS - WIDTH) (scroll v) else v.

(** vga.rs 88-93: print *)
Definition print (s : list Z) (v : vga) : vga :=
  sync_hw_cursor (foldl (fun v b => putb b v) v s).

(** vga.rs 95-98: put_char *)
Definition put_char (b : Z) (v : vga) : vga := sync_hw_cursor (putb b v).

(** vga.rs 100-106: backspace *)
Definition backspace (v : vga) : vga :=
  if cursor v >? 0 then
    let v := set_cursor (cursor v - 1) v in
    sync_hw_cursor (put_cell (cursor v) (Z.lor (attr v) 32) v)
  else v.

(** [SCREENS[a] = f(SCREENS[a])] and [USED[a] = true] on the statics. *)
Definition alter_screen (a : Z) (f : Screen -> Screen) (v : vga) : vga :=
  mkVga (cells v) (CURSOR v) (ATTR v) (alter f (Z.to_nat a) (SCREENS v)) (USED v) (ACTIVE v)
    (crtc_index v) (crtc v) (wild v).
Definition mark_used (a : Z) (v : vga) : vga :=
  mkVga (cells v) (CURSOR v) (ATTR v) (SCREENS v) (<[Z.to_nat a := true]> (USED v)) (ACTIVE v)
    (crtc_index v) (crtc v) (wild v).
Definition set_active (n : Z) (v : vga) : vga :=
  mkVga (cells v) (CURSOR v) (ATTR v) (SCREENS v) (USED v) n (crtc_index v) (crtc v) (wild v).

Definition screen_of (v : vga) (n : Z) : Screen := nth (Z.to_nat n) (SCREENS v) ZERO.

(** vga.rs 114-119: switch_screen *)
Definition save_screen (a : Z) (v : vga) : vga :=
  let v := foldl (fun v i =>
      let '(cell, v) := read_cell i v in
      alter_screen a (fun s =>
        mkScreen (<[Z.to_nat i := cell]> (sc_cells s)) (sc_cursor s) (sc_attr s)) v)
    v (seqZ 0 CELLS) in
  let v := alter_screen a (fun s => mkScreen (sc_cells s) (CURSOR v) (sc_attr s)) v in
  let v := alter_screen a (fun s => mkScreen (sc_cells s) (sc_cursor s) (ATTR v)) v in
  mark_used a v.

(** vga.rs 120-132: switch_screen *)
Definition load_screen (n : Z) (v : vga) : vga :=
  if nth (Z.to_nat n) (USED v) false then
    let v := foldl (fun v i => put_cell i (nth (Z.to_nat i) (sc_cells (screen_of v n)) 0) v) v
               (seqZ 0 CELLS) in
    let v := set_cursor (sc_cursor (screen_of v n)) v in
    set_attr (sc_attr (screen_of v n)) v
  else
    let v := set_attr DEFAULT_ATTR v in
    let v := set_cursor 0 v in
    foldl (fun v i => put_cell i (Z.lor DEFAULT_ATTR 32) v) v (seqZ 0 CELLS).

(** vga.rs 108-136: switch_screen *)
Definition switch_screen (n : Z) (v : vga) : vga :=
  if (n >=? NB_SCREENS) || (n =? ACTIVE v) then v
  else
    let v := save_screen (ACTIVE v) v in
    let v := load_screen n v in
    let v := set_active n v in
    sync_hw_cursor v.

(** ** Well-formed driver states *)

Definition screen_ok (s : Screen) : Prop :=
  length (sc_cells s) = Z.to_nat CELLS /\ 0 <= sc_cursor s < CELLS.

Record vga_wf (v : vga) : Prop := {
  wf_cells : length (cells v) = Z.to_nat CELLS;
  wf_cursor : 0 <= CURSOR v < CELLS;
  wf_screens : length (SCREENS v) = Z.to_nat NB_SCREENS /\ Forall screen_ok (SCREENS v);
  wf_used : length (USED v) = Z.to_nat NB_SCREENS;
  wf_active : 0 <= ACTIVE v < NB_SCREENS;
  wf_tame : wild v = false;
}.

(** The hardware cursor stands where the driver writes next. *)
Definition synced (v : vga) : Prop :=
  crtc v !! 0x0F = Some (CURSOR v mod 256) /\ crtc v !! 0x0E = Some (CURSOR v / 256).

Lemma CELLS_val : CELLS = 2000.
Proof. done. Qed.
Lemma WIDTH_val : WIDTH = 80.
Proof. done. Qed.
Lemma NB_SCREENS_val : NB_SCREENS = 3.
Proof. done. Qed.
#[global] Opaque CELLS WIDTH NB_SCREENS.
Ltac vga_lia := rewrite ?CELLS_val, ?WIDTH_val, ?NB_SCREENS_val in *; dlia.

(** *** The hardware cursor *)

(** The three things a screen shows, and the statics behind a switch. *)
Definition shown (v : vga) : Screen := mkScreen (cells v) (CURSOR v) (ATTR v).
Definition saved (v : vga) : list Screen * list bool * Z := (SCREENS v, USED v, ACTIVE v).

Lemma sync_hw_cursor_frame v :
  sync_hw_cursor v =
  mkVga (cells v) (CURSOR v) (ATTR v) (SCREENS v) (USED v) (ACTIVE v)
    (crtc_index (sync_hw_cursor v)) (crtc (sync_hw_cursor v)) (wild v).
Proof. done. Qed.

Lemma sync_hw_cursor_shown v : shown (sync_hw_cursor v) = shown v.
Proof. done. Qed.
Lemma sync_hw_cursor_saved v : saved (sync_hw_cursor v) = saved v.
Proof. done. Qed.

Lemma sync_hw_cursor_synced v : 0 <= CURSOR v < 65536 -> synced (sync_hw_cursor v).
Proof.
  intros Hc. unfold synced, sync_hw_cursor, outb, cursor. cbn.
  unfold wrap16, wrap8. rewrite (Z.mod_small (CURSOR v) 65536), Z.shiftr_div_pow2 by lia.
  change (2 ^ 8) with 256. rewrite (Z.mod_small (CURSOR v / 256)) by dlia.
  split; by simplify_map_eq.
Qed.

Lemma sync_hw_cursor_wf v : vga_wf v -> vga_wf (sync_hw_cursor v) /\ synced (sync_hw_cursor v).
Proof.
  intros Hwf. split.
  - split; apply Hwf.
  - apply sync_hw_cursor_synced. pose proof (wf_cursor v Hwf). vga_lia.
Qed.

#[global] Opaque sync_hw_cursor.

(** *** Loops over cells *)

Lemma put_cell_in i x v :
  0 <= i < CELLS -> put_cell i x v = set_cells (fun c => <[Z.to_nat i := x]> c) v.
Proof.
  intros Hi. unfold put_cell.
  destruct (Z.leb_spec 0 i), (Z.ltb_spec i CELLS); (done || lia).
Qed.

(** What a cell holds. *)
Definition cell_at (i : Z) (v : vga) : Z := nth (Z.to_nat i) (cells v) 0.

Lemma read_cell_in i v : 0 <= i < CELLS -> read_cell i v = (cell_at i v, v).
Proof.
  intros Hi. unfold read_cell.
  destruct (Z.leb_spec 0 i), (Z.ltb_spec i CELLS); (done || lia).
Qed.

Lemma foldl_in_range (f g : vga -> Z -> vga) lo n v :
  (forall v i, lo <= i < lo + n -> f v i = g v i) -> foldl f v (seqZ lo n) = foldl g v (seqZ lo n).
Proof.
  intros Hfg. assert (Forall (fun i => lo <= i < lo + n) (seqZ lo n)) as Hl by (apply Forall_seqZ; lia).
  revert v. induction Hl as [|i l Hi _ IH]; intros v; cbn [foldl]; [done|]. by rewrite Hfg, IH.
Qed.

(** The reads of [scroll] are inside the buffer. *)
Lemma scroll_cells v :
  scroll v =
    (let v := foldl (fun v i => put_cell i (cell_at (i + WIDTH) v) v) v (seqZ 0 (CELLS - WIDTH)) in
     foldl (fun v i => put_cell i (Z.lor (attr v) 32) v) v (seqZ (CELLS - WIDTH) (CELLS - (CELLS - WIDTH)))).
Proof.
  unfold scroll. cbv zeta.
  rewrite (foldl_in_range _ (fun v i => put_cell i (cell_at (i + WIDTH) v) v) 0 (CELLS - WIDTH) v); [reflexivity|].
  intros w i Hi. rewrite read_cell_in by vga_lia. reflexivity.
Qed.

(** A loop of in-range writes is a loop on the list of cells. *)
Lemma foldl_put_cell (F : vga -> Z -> Z) (G : list Z -> Z -> Z) v l :
  Forall (fun i => 0 <= i < CELLS) l ->
  (forall c i, F (set_cells (fun _ => c) v) i = G c i) ->
  foldl (fun v i => put_cell i (F v i) v) v l =
  set_cells (fun c => foldl (fun c i => <[Z.to_nat i := G c i]> c) c l) v.
Proof.
  intros Hl HF.
  assert (forall c, foldl (fun v i => put_cell i (F v i) v) (set_cells (fun _ => c) v) l =
    set_cells (fun _ => foldl (fun c i => <[Z.to_nat i := G c i]> c) c l) v) as H.
  { induction l as [|i l IH]; intros c; cbn [foldl]; [done|].
    inversion_clear Hl. rewrite put_cell_in, HF by done.
    change (set_cells _ (set_cells (fun _ => c) v))
      with (set_cells (fun _ => <[Z.to_nat i := G c i]> c) v). by apply IH. }
  specialize (H (cells v)). by destruct v.
Qed.

(** Filling the range [lo, hi) with [g]. *)
Lemma fill_lookup (g : Z -> Z) lo hi c k :
  0 <= lo <= hi -> hi <= Z.of_nat (length c) ->
  foldl (fun c i => <[Z.to_nat i := g i]> c) c (seqZ lo (hi - lo)) !! k =
  if decide (lo <= Z.of_nat k < hi) then Some (g (Z.of_nat k)) else c !! k.
Proof.
  intros Hlo Hhi.
  pose proof (foldl_seqZ_ind (fun i (b : list Z) => length b = length c /\
    forall k, b !! k = if decide (lo <= Z.of_nat k < i) then Some (g (Z.of_nat k)) else c !! k)
    (fun c i => <[Z.to_nat i := g i]> c) lo hi c) as H. apply H; [| |lia].
  - split; [done|]. intros j. rewrite decide_False by lia. done.
  - intros i b Hi [Hlen Hb]. split; [by rewrite length_insert|]. intros j.
    destruct (decide (j = Z.to_nat i)) as [->|Hne].
    + rewrite list_lookup_insert_eq, decide_True by lia. by rewrite Z2Nat.id by lia.
    + rewrite list_lookup_insert_ne, Hb by lia. repeat case_decide; (done || lia).
Qed.

Lemma fill_length (g : list Z -> Z -> Z) l c :
  length (foldl (fun c i => <[Z.to_nat i := g c i]> c) c l) = length c.
Proof.
  revert c. induction l as [|i l IH]; intros c; cbn [foldl]; [done|].
  by rewrite IH, length_insert.
Qed.

(** Moving the cells one row up, in place and in increasing order. *)
Lemma shift_lookup w n c k :
  0 < w -> 0 <= n -> n + w <= Z.of_nat (length c) ->
  foldl (fun c i => <[Z.to_nat i := nth (Z.to_nat (i + w)) c 0]> c) c (seqZ 0 n) !! k =
  if decide (Z.of_nat k < n) then c !! (k + Z.to_nat w)%nat else c !! k.
Proof.
  intros Hw Hn Hlen.
  pose proof (foldl_seqZ_ind (fun i (b : list Z) => length b = length c /\
    forall k, b !! k = if decide (Z.of_nat k < i) then c !! (k + Z.to_nat w)%nat else c !! k)
    (fun c i => <[Z.to_nat i := nth (Z.to_nat (i + w)) c 0]> c) 0 n c) as H.
  rewrite Z.sub_0_r in H. apply H; [| |lia].
  - split; [done|]. intros j. rewrite decide_False by lia. done.
  - intros i b Hi [Hlb Hb]. split; [by rewrite length_insert|]. intros j.
    destruct (decide (j = Z.to_nat i)) as [->|Hne].
    + rewrite list_lookup_insert_eq, decide_True by lia.
      rewrite nth_lookup, Hb, decide_False by lia.
      replace (Z.to_nat (i + w)) with (Z.to_nat i + Z.to_nat w)%nat by lia.
      destruct (lookup_lt_is_Some_2 c (Z.to_nat i + Z.to_nat w)) as [x ->]; [lia|done].
    + rewrite list_lookup_insert_ne, Hb by lia. repeat case_decide; (done || lia).
Qed.

(** Filling the whole buffer from [g]. *)
Lemma fill_all (g : Z -> Z) c c' :
  length c = Z.to_nat CELLS -> length c' = Z.to_nat CELLS ->
  (forall k, Z.of_nat k < CELLS -> c' !! k = Some (g (Z.of_nat k))) ->
  foldl (fun c i => <[Z.to_nat i := g i]> c) c (seqZ 0 CELLS) = c'.
Proof.
  intros Hc Hc' Hg. apply list_eq. intros k.
  pose proof (fill_lookup g 0 CELLS c k) as H. rewrite Z.sub_0_r in H.
  rewrite H by vga_lia. clear H. case_decide as Hk.
  - rewrite Hg by lia. done.
  - rewrite !lookup_ge_None_2 by lia. done.
Qed.

Lemma seqZ_cells_range lo n : 0 <= lo -> lo + n <= CELLS ->
  Forall (fun i => 0 <= i < CELLS) (seqZ lo n).
Proof. intros. apply Forall_seqZ. lia. Qed.

Lemma scroll_eq v :
  length (cells v) = Z.to_nat CELLS ->
  scroll v = set_cells (fun c =>
    drop (Z.to_nat WIDTH) c ++ replicate (Z.to_nat WIDTH) (Z.lor (ATTR v) 32)) v.
Proof.
  intros Hlen. rewrite scroll_cells. cbv zeta.
  rewrite (foldl_put_cell (fun v i => cell_at (i + WIDTH) v)
    (fun c i => nth (Z.to_nat (i + WIDTH)) c 0)); [|apply seqZ_cells_range; vga_lia|done].
  rewrite (foldl_put_cell (fun v i => Z.lor (attr v) 32) (fun _ _ => Z.lor (ATTR v) 32));
    [|apply seqZ_cells_range; vga_lia|done].
  destruct v as [c ? ? ? ? ? ? ? ?]; unfold set_cells; cbn [cells ATTR] in *; f_equal.
  apply list_eq. intros k.
  rewrite (fill_lookup (fun _ => _) (CELLS - WIDTH) CELLS); cycle 1.
  { vga_lia. }
  { rewrite (fill_length (fun c i => nth (Z.to_nat (i + WIDTH)) c 0)). vga_lia. }
  assert (length (drop (Z.to_nat WIDTH) c) = Z.to_nat (CELLS - WIDTH)) as Hd
    by (rewrite length_drop; vga_lia).
  case_decide as Hk.
  - rewrite lookup_app_r, lookup_replicate_2; [done|vga_lia|vga_lia].
  - rewrite shift_lookup by vga_lia. case_decide as Hk'.
    + rewrite lookup_app_l, lookup_drop by lia. f_equal. lia.
    + rewrite !lookup_ge_None_2; [done| |vga_lia].
      rewrite length_app, length_replicate, Hd. vga_lia.
Qed.

Lemma blank_fill (a : Z) (c : list Z) :
  length c = Z.to_nat CELLS ->
  foldl (fun c i => <[Z.to_nat i := a]> c) c (seqZ 0 CELLS) = replicate (Z.to_nat CELLS) a.
Proof.
  intros Hc. apply (fill_all (fun _ => a)); [done|by rewrite length_replicate|].
  intros k Hk. apply lookup_replicate_2. lia.
Qed.

Lemma clear_eq v :
  length (cells v) = Z.to_nat CELLS ->
  clear v = sync_hw_cursor (set_cursor 0
    (set_cells (fun _ => replicate (Z.to_nat CELLS) (Z.lor (ATTR v) 32)) v)).
Proof.
  intros Hlen. unfold clear.
  rewrite (foldl_put_cell (fun v i => Z.lor (attr v) 32) (fun _ _ => Z.lor (ATTR v) 32));
    [|apply seqZ_cells_range; vga_lia|done].
  unfold set_cells. by rewrite blank_fill.
Qed.

(** Saving writes the whole screen into its slot. *)
Lemma save_loop a v l :
  foldl (fun v i =>
      alter_screen a (fun s =>
        mkScreen (<[Z.to_nat i := cell_at i v]> (sc_cells s)) (sc_cursor s) (sc_attr s)) v) v l =
  alter_screen a (fun s =>
    mkScreen (foldl (fun c i => <[Z.to_nat i := nth (Z.to_nat i) (cells v) 0]> c) (sc_cells s) l)
      (sc_cursor s) (sc_attr s)) v.
Proof.
  revert v. induction l as [|i l IH]; intros v; cbn [foldl].
  - destruct v. unfold alter_screen. cbn. f_equal.
    symmetry. apply list_alter_id. by intros [].
  - rewrite IH. unfold alter_screen. cbn [SCREENS cells]. f_equal.
    rewrite list_alter_alter_eq. done.
Qed.

Lemma copy_all c0 c :
  length c0 = Z.to_nat CELLS -> length c = Z.to_nat CELLS ->
  foldl (fun b i => <[Z.to_nat i := nth (Z.to_nat i) c 0]> b) c0 (seqZ 0 CELLS) = c.
Proof.
  intros H0 Hc. apply (fill_all (fun i => nth (Z.to_nat i) c 0)); [done|done|].
  intros k Hk. rewrite Nat2Z.id, nth_lookup.
  destruct (lookup_lt_is_Some_2 c k) as [x ->]; [vga_lia|done].
Qed.

Lemma save_screen_eq a v :
  vga_wf v -> 0 <= a < NB_SCREENS ->
  save_screen a v =
    mkVga (cells v) (CURSOR v) (ATTR v) (<[Z.to_nat a := shown v]> (SCREENS v))
      (<[Z.to_nat a := true]> (USED v)) (ACTIVE v) (crtc_index v) (crtc v) (wild v).
Proof.
  intros Hwf Ha. unfold save_screen.
  rewrite (foldl_in_range _ (fun v i => alter_screen a (fun s =>
    mkScreen (<[Z.to_nat i := cell_at i v]> (sc_cells s)) (sc_cursor s) (sc_attr s)) v))
    by (intros w i Hi; by rewrite read_cell_in by lia).
  rewrite save_loop.
  unfold mark_used, alter_screen. cbn. f_equal.
  rewrite !list_alter_alter_eq. destruct (wf_screens v Hwf) as [Hl Hok].
  destruct (lookup_lt_is_Some_2 (SCREENS v) (Z.to_nat a)) as [s Hs]; [vga_lia|].
  rewrite Forall_lookup in Hok. destruct (Hok _ _ Hs) as [Hsc _].
  apply list_eq. intros k. destruct (decide (k = Z.to_nat a)) as [->|Hk]; cycle 1.
  { by rewrite list_lookup_alter_ne, list_lookup_insert_ne by done. }
  rewrite list_lookup_alter_eq, list_lookup_insert_eq, Hs by (by eapply lookup_lt_Some).
  cbn. rewrite copy_all by (done || apply Hwf). done.
Qed.

Lemma load_screen_used n v :
  length (cells v) = Z.to_nat CELLS -> length (sc_cells (screen_of v n)) = Z.to_nat CELLS ->
  nth (Z.to_nat n) (USED v) false = true ->
  load_screen n v =
    set_attr (sc_attr (screen_of v n)) (set_cursor (sc_cursor (screen_of v n))
      (set_cells (fun _ => sc_cells (screen_of v n)) v)).
Proof.
  intros Hc Hs Hu. unfold load_screen. rewrite Hu.
  rewrite (foldl_put_cell (fun v i => nth (Z.to_nat i) (sc_cells (screen_of v n)) 0)
    (fun _ i => nth (Z.to_nat i) (sc_cells (screen_of v n)) 0));
    [|apply seqZ_cells_range; vga_lia|done].
  unfold set_attr, set_cursor, set_cells, screen_of in *. cbn [cells SCREENS].
  by rewrite (copy_all (cells v)).
Qed.

Lemma load_screen_fresh n v :
  length (cells v) = Z.to_nat CELLS -> nth (Z.to_nat n) (USED v) false = false ->
  load_screen n v =
    set_cells (fun _ => replicate (Z.to_nat CELLS) (Z.lor DEFAULT_ATTR 32))
      (set_cursor 0 (set_attr DEFAULT_ATTR v)).
Proof.
  intros Hc Hu. unfold load_screen. rewrite Hu.
  rewrite (foldl_put_cell (fun v i => Z.lor DEFAULT_ATTR 32) (fun _ _ => Z.lor DEFAULT_ATTR 32));
    [|apply seqZ_cells_range; vga_lia|done].
  unfold set_cells, set_cursor, set_attr. cbn [cells]. by rewrite blank_fill.
Qed.

(** *** Every operation keeps the driver well formed *)

(** Rebuild [vga_wf] of a state that differs in cells, cursor or colour. *)
Ltac solve_wf Hwf :=
  destruct Hwf; split; try done; cbn in *;
  rewrite ?length_app, ?length_drop, ?length_replicate, ?length_insert; vga_lia.

Lemma putb_wf b v : vga_wf v -> vga_wf (putb b v).
Proof.
  intros Hwf. pose proof (wf_cursor v Hwf) as Hc. unfold putb.
  assert (forall w, vga_wf (set_cursor 0 w) -> 0 <= cursor w ->
    vga_wf (if cursor w >=? CELLS then set_cursor (CELLS - WIDTH) (scroll w) else w)) as Hend.
  { intros w Hw Hcw. destruct (Z.geb_spec (cursor w) CELLS) as [|Hlt].
    - rewrite scroll_eq by apply Hw. solve_wf Hw.
    - unfold cursor in *. solve_wf Hw. }
  destruct (Z.eqb_spec b 10).
  - apply Hend; [|unfold cursor in *; cbn; vga_lia]. solve_wf Hwf.
  - rewrite put_cell_in by done. apply Hend; [|unfold cursor in *; cbn; lia].
    solve_wf Hwf.
Qed.

Lemma putbs_wf s v : vga_wf v -> vga_wf (foldl (fun v b => putb b v) v s).
Proof. revert v. induction s as [|b s IH]; intros v Hv; [done|]. apply IH. by apply putb_wf. Qed.

Lemma clear_wf v : vga_wf v -> vga_wf (clear v).
Proof.
  intros Hwf. rewrite clear_eq by apply Hwf. apply sync_hw_cursor_wf.
  solve_wf Hwf.
Qed.

Lemma backspace_wf v : vga_wf v -> vga_wf (backspace v).
Proof.
  intros Hwf. pose proof (wf_cursor v Hwf). unfold backspace.
  destruct (cursor v >? 0) eqn:E; [|done]. apply sync_hw_cursor_wf. breflect.
  unfold cursor in *. rewrite put_cell_in by (cbn; lia).
  solve_wf Hwf.
Qed.

Lemma screen_of_ok v n : vga_wf v -> 0 <= n < NB_SCREENS -> screen_ok (screen_of v n).
Proof.
  intros Hwf Hn. destruct (wf_screens v Hwf) as [Hl Hok]. unfold screen_of.
  rewrite nth_lookup. destruct (lookup_lt_is_Some_2 (SCREENS v) (Z.to_nat n)) as [s Hs];
    [vga_lia|]. rewrite Hs. rewrite Forall_lookup in Hok. by eapply Hok.
Qed.

(** What a switch shows: the saved screen, or a blank one the first time. *)
Definition screen_or_blank (v : vga) (n : Z) : Screen :=
  if nth (Z.to_nat n) (USED v) false then screen_of v n
  else mkScreen (replicate (Z.to_nat CELLS) (Z.lor DEFAULT_ATTR 32)) 0 DEFAULT_ATTR.

Lemma switch_screen_spec n v :
  vga_wf v -> 0 <= n < NB_SCREENS -> n <> ACTIVE v ->
  let v' := switch_screen n v in
  shown v' = screen_or_blank v n /\
  saved v' = (<[Z.to_nat (ACTIVE v) := shown v]> (SCREENS v),
              <[Z.to_nat (ACTIVE v) := true]> (USED v), n) /\
  vga_wf v' /\ synced v'.
Proof.
  intros Hwf Hn Hne. pose proof (wf_active v Hwf) as Ha. unfold switch_screen.
  destruct (Z.geb_spec n NB_SCREENS); [lia|]. destruct (Z.eqb_spec n (ACTIVE v)); [done|].
  cbn [orb]. rewrite save_screen_eq by done.
  set (w := mkVga _ _ _ _ _ _ _ _ _).
  pose proof (screen_of_ok v n Hwf Hn) as [Hsl Hsc].
  assert (screen_of w n = screen_of v n) as Hscr.
  { unfold screen_of, w. cbn [SCREENS]. rewrite !nth_lookup.
    rewrite list_lookup_insert_ne; [done|]. rewrite ?NB_SCREENS_val in *. lia. }
  assert (nth (Z.to_nat n) (USED w) false = nth (Z.to_nat n) (USED v) false) as Hused.
  { unfold w. cbn [USED]. rewrite !nth_lookup. rewrite list_lookup_insert_ne; [done|lia]. }
  assert (vga_wf w) as Hw.
  { destruct Hwf as [? ? [? ?] ? ? ?]. split; try done.
    - cbn. split; [by rewrite length_insert|]. by apply Forall_insert.
    - cbn. by rewrite length_insert. }
  assert (load_screen n w = mkVga (sc_cells (screen_or_blank v n)) (sc_cursor (screen_or_blank v n))
    (sc_attr (screen_or_blank v n)) (SCREENS w) (USED w) (ACTIVE w) (crtc_index w) (crtc w) (wild w))
    as Hload.
  { unfold screen_or_blank. rewrite <- Hused. destruct (nth _ _ _) eqn:Hu.
    - rewrite load_screen_used by (rewrite ?Hscr; done || apply Hw). by rewrite Hscr.
    - rewrite load_screen_fresh by (done || apply Hw). done. }
  rewrite Hload. split_and!.
  - rewrite sync_hw_cursor_shown. unfold shown. cbn. by destruct (screen_or_blank v n).
  - by rewrite sync_hw_cursor_saved.
  - apply sync_hw_cursor_wf. destruct Hw. split; try done; cbn.
    + unfold screen_or_blank. case_match; [done|]. cbn. by rewrite length_replicate.
    + unfold screen_or_blank. case_match; [done|]. cbn. vga_lia.
  - apply sync_hw_cursor_synced. unfold screen_or_blank. case_match; cbn; vga_lia.
Qed.

Lemma switch_screen_refused n v :
  n >= NB_SCREENS \/ n = ACTIVE v -> switch_screen n v = v.
Proof.
  intros H. unfold switch_screen. destruct (Z.geb_spec n NB_SCREENS); [done|].
  destruct (Z.eqb_spec n (ACTIVE v)); [done|]. lia.
Qed.

(** The calls the rest of the kernel makes. *)
Inductive vga_op : Type :=
| OpClear | OpPrint (s : list Z) | OpPutChar (b : Z) | OpBackspace
| OpColor (fg bg : Color) | OpSwitch (n : Z).

Definition run_op (v : vga) (o : vga_op) : vga :=
  match o with
  | OpClear => clear v
  | OpPrint s => print s v
  | OpPutChar b => put_char b v
  | OpBackspace => backspace v
  | OpColor fg bg => set_color fg bg v
  | OpSwitch n => switch_screen n v
  end.

Definition op_ok (o : vga_op) : Prop := match o with OpSwitch n => 0 <= n | _ => True end.
Definition op_stays (o : vga_op) : Prop := match o with OpSwitch _ => False | _ => True end.

Lemma run_op_wf o v : op_ok o -> vga_wf v -> vga_wf (run_op v o).
Proof.
  intros Ho Hwf. destruct o as [|s|b| |fg bg|n]; cbn [run_op].
  - by apply clear_wf.
  - apply sync_hw_cursor_wf. by apply putbs_wf.
  - apply sync_hw_cursor_wf. by apply putb_wf.
  - by apply backspace_wf.
  - destruct Hwf; split; done.
  - destruct (decide (n < NB_SCREENS /\ n <> ACTIVE v)) as [[Hn Hne]|].
    + by apply switch_screen_spec.
    + rewrite switch_screen_refused; [done|]. lia.
Qed.

Lemma run_op_synced o v : op_ok o -> vga_wf v -> synced v -> synced (run_op v o).
Proof.
  intros Ho Hwf Hs. pose proof (wf_cursor v Hwf). destruct o as [|s|b| |fg bg|n]; cbn [run_op].
  - unfold clear. apply sync_hw_cursor_synced. cbn. lia.
  - by apply sync_hw_cursor_wf, putbs_wf.
  - by apply sync_hw_cursor_wf, putb_wf.
  - unfold backspace. destruct (cursor v >? 0) eqn:E; [|done]. breflect. unfold cursor in *.
    apply sync_hw_cursor_synced. rewrite put_cell_in by (cbn; lia). cbn. vga_lia.
  - done.
  - destruct (decide (n < NB_SCREENS /\ n <> ACTIVE v)) as [[Hn Hne]|].
    + by apply switch_screen_spec.
    + rewrite switch_screen_refused; [done|]. lia.
Qed.

(** Only a switch touches the saved screens. *)

Lemma set_cursor_saved i v : saved (set_cursor i v) = saved v.
Proof. done. Qed.

Lemma put_cell_saved i x v : saved (put_cell i x v) = saved v.
Proof. unfold put_cell. by destruct (_ && _). Qed.

Lemma foldl_put_cell_saved (F : vga -> Z -> Z) l v :
  saved (foldl (fun v i => put_cell i (F v i) v) v l) = saved v.
Proof.
  revert v. induction l as [|i l IH]; intros v; cbn [foldl]; [done|].
  by rewrite IH, put_cell_saved.
Qed.

Lemma putb_saved b v : saved (putb b v) = saved v.
Proof.
  assert (forall w, saved (if cursor w >=? CELLS then set_cursor (CELLS - WIDTH) (scroll w) else w)
    = saved w) as Hend.
  { intros w. destruct (_ >=? _); [|done]. rewrite scroll_cells. cbv zeta.
    rewrite set_cursor_saved.
    rewrite (foldl_put_cell_saved (fun v _ => Z.lor (attr v) 32)).
    apply (foldl_put_cell_saved (fun v i => cell_at (i + WIDTH) v)). }
  unfold putb. rewrite Hend. destruct (_ =? _); [done|].
  rewrite set_cursor_saved. apply put_cell_saved.
Qed.

Lemma putbs_saved s v : saved (foldl (fun v b => putb b v) v s) = saved v.
Proof. revert v. induction s as [|b s IH]; intros v; [done|]. cbn [foldl]. by rewrite IH, putb_saved. Qed.

Lemma run_op_saved o v : op_stays o -> saved (run_op v o) = saved v.
Proof.
  intros Ho. destruct o as [|s|b| |fg bg|n]; cbn [run_op]; [| | | |done|done].
  - unfold clear. rewrite sync_hw_cursor_saved. rewrite set_cursor_saved.
    apply (foldl_put_cell_saved (fun v _ => Z.lor (attr v) 32)).
  - unfold print. rewrite sync_hw_cursor_saved. apply putbs_saved.
  - unfold put_char. rewrite sync_hw_cursor_saved. apply putb_saved.
  - unfold backspace. destruct (_ >? _); [|done]. rewrite sync_hw_cursor_saved.
    by rewrite put_cell_saved.
Qed.

Lemma run_ops_wf ops v : Forall op_ok ops -> vga_wf v -> vga_wf (foldl run_op v ops).
Proof.
  revert v. induction ops as [|o ops IH]; intros v Hok Hwf; [done|]. inversion_clear Hok.
  apply IH; [done|]. by apply run_op_wf.
Qed.

Lemma run_ops_saved ops v : Forall op_stays ops -> saved (foldl run_op v ops) = saved v.
Proof.
  revert v. induction ops as [|o ops IH]; intros v Hok; [done|]. inversion_clear Hok.
  cbn [foldl]. by rewrite IH, run_op_saved.
Qed.

Lemma op_stays_ok ops : Forall op_stays ops -> Forall op_ok ops.
Proof. induction 1 as [|o ops Ho _ IH]; constructor; [by destruct o|done]. Qed.

(** ** Properties *)

(** A driver state at boot: a blank buffer and the zeroed statics. *)
Definition vga_boot : vga :=
  mkVga (replicate (Z.to_nat CELLS) 0) 0 DEFAULT_ATTR [ZERO; ZERO; ZERO]
    [false; false; false] 0 0 ∅ false.

Lemma vga_boot_wf : vga_wf vga_boot.
Proof.
  split; try done.
  assert (screen_ok ZERO) by (split; [done|cbn; vga_lia]).
  split; [done|]. by repeat constructor.
Qed.

(** ** Printing in pieces

    [core::fmt] writes a format string piece by piece, and each piece ends
    with the hardware cursor being moved: one write of the whole text leaves
    the same state. *)

Definition with_crtc (i : Z) (c : gmap Z Z) (v : vga) : vga :=
  mkVga (cells v) (CURSOR v) (ATTR v) (SCREENS v) (USED v) (ACTIVE v) i c (wild v).

Lemma put_cell_crtc i c k x v : put_cell k x (with_crtc i c v) = with_crtc i c (put_cell k x v).
Proof. unfold put_cell. destruct (_ && _); done. Qed.

Lemma foldl_put_crtc i c (f : vga -> Z -> Z) l : forall v,
  (forall v k, f (with_crtc i c v) k = f v k) ->
  foldl (fun v k => put_cell k (f v k) v) (with_crtc i c v) l =
  with_crtc i c (foldl (fun v k => put_cell k (f v k) v) v l).
Proof.
  induction l as [|k l IH]; intros v Hf; cbn [foldl]; [done|].
  rewrite Hf, put_cell_crtc. by apply IH.
Qed.

Lemma scroll_crtc i c v : scroll (with_crtc i c v) = with_crtc i c (scroll v).
Proof.
  rewrite !scroll_cells. cbv zeta. rewrite (foldl_put_crtc i c (fun v k => cell_at (k + WIDTH) v)) by done.
  apply (foldl_put_crtc i c (fun v _ => Z.lor (attr v) 32)). done.
Qed.

Lemma set_cursor_crtc i c k v : set_cursor k (with_crtc i c v) = with_crtc i c (set_cursor k v).
Proof. reflexivity. Qed.

Lemma wrap_crtc i c (v : vga) :
  (if cursor (with_crtc i c v) >=? CELLS then set_cursor (CELLS - WIDTH) (scroll (with_crtc i c v))
   else with_crtc i c v) =
  with_crtc i c (if cursor v >=? CELLS then set_cursor (CELLS - WIDTH) (scroll v) else v).
Proof.
  change (cursor (with_crtc i c v)) with (cursor v). destruct (cursor v >=? CELLS); [|reflexivity].
  rewrite scroll_crtc. apply set_cursor_crtc.
Qed.

Lemma putb_crtc i c b v : putb b (with_crtc i c v) = with_crtc i c (putb b v).
Proof.
  unfold putb. rewrite put_cell_crtc, !set_cursor_crtc. destruct (b =? 10); apply wrap_crtc.
Qed.

Lemma puts_crtc i c s : forall v,
  foldl (fun v b => putb b v) (with_crtc i c v) s = with_crtc i c (foldl (fun v b => putb b v) v s).
Proof. induction s as [|b s IH]; intros v; cbn [foldl]; [done|]. by rewrite putb_crtc, IH. Qed.

Lemma puts_keep_crtc s v : crtc (foldl (fun v b => putb b v) v s) = crtc v.
Proof.
  pose proof (puts_crtc (crtc_index v) (crtc v) s v) as H.
  assert (with_crtc (crtc_index v) (crtc v) v = v) as E by by destruct v.
  rewrite E in H. rewrite H. done.
Qed.

Lemma sync_eq v :
  sync_hw_cursor v = with_crtc 0x0E
    (<[0x0E := wrap8 (Z.shiftr (wrap16 (cursor v)) 8)]> (<[0x0F := wrap8 (wrap16 (cursor v))]> (crtc v))) v.
Proof. with_strategy transparent [sync_hw_cursor] reflexivity. Qed.

Lemma print_app s t v : print (s ++ t) v = print t (print s v).
Proof.
  unfold print. rewrite foldl_app. set (w := foldl _ v s). rewrite (sync_eq w), puts_crtc.
  pose proof (puts_keep_crtc t w) as Hc. set (u := foldl _ w t) in *. rewrite !sync_eq.
  change (cursor (with_crtc 14 ?c u)) with (cursor u). unfold with_crtc at 2 3.
  cbn [crtc cursor CURSOR]. unfold with_crtc. cbn [cells CURSOR ATTR SCREENS USED ACTIVE wild crtc]. f_equal. rewrite Hc.
  apply map_eq. intros k. rewrite !lookup_insert. repeat case_decide; done.
Qed.

(** C34: Through any sequence of driver calls no cell outside the 80x25
    buffer is read or written, the cursor of the live and of every saved screen stays
    below 2000, and the hardware cursor keeps standing at the driver's
    cursor. *)
Theorem vga_ops_in_bounds ops v :
  Forall op_ok ops -> vga_wf v -> synced v ->
  vga_wf (foldl run_op v ops) /\ synced (foldl run_op v ops).
Proof.
  intros Hok Hwf Hs. split; [by apply run_ops_wf|].
  revert v Hwf Hs. induction ops as [|o ops IH]; intros v Hwf Hs; [done|].
  inversion_clear Hok. cbn [foldl]. apply IH; [done|by apply run_op_wf|by apply run_op_synced].
Qed.

Lemma vga_ops_in_bounds_witness :
  let v := clear vga_boot in
  let ops := [OpPrint (bytes "kfs"); OpPutChar 10; OpBackspace; OpSwitch 2; OpPutChar 65] in
  Forall op_ok ops /\ vga_wf v /\ synced v /\ synced (foldl run_op v ops).
Proof.
  cbv zeta. set (ops := [_; _; _; _; _]).
  assert (Forall op_ok ops) as Hok by (repeat constructor; cbn; lia).
  pose proof (clear_wf _ vga_boot_wf) as Hwf.
  assert (synced (clear vga_boot)) as Hs by (apply sync_hw_cursor_synced; cbn; lia).
  split; [exact Hok|]. split; [exact Hwf|]. split; [exact Hs|].
  exact (proj2 (vga_ops_in_bounds ops (clear vga_boot) Hok Hwf Hs)).
Defined.

(** C35: The three screens are independent: after a switch to another screen
    and any calls that do not switch, going back shows the cells, the cursor
    and the colour exactly as they were left, and leaves the driver well
    formed. *)
Theorem switch_screen_restores n ops v :
  vga_wf v -> 0 <= n < NB_SCREENS -> n <> ACTIVE v -> Forall op_stays ops ->
  let v' := switch_screen (ACTIVE v) (foldl run_op (switch_screen n v) ops) in
  shown v' = shown v /\ ACTIVE v' = ACTIVE v /\ vga_wf v'.
Proof.
  intros Hwf Hn Hne Hops. pose proof (wf_active v Hwf) as Ha.
  destruct (switch_screen_spec n v Hwf Hn Hne) as (_ & Hsaved & Hw1 & _).
  set (v1 := switch_screen n v) in *.
  pose proof (run_ops_wf ops v1 (op_stays_ok _ Hops) Hw1) as Hw2.
  pose proof (run_ops_saved ops v1 Hops) as Hs2. rewrite Hsaved in Hs2.
  set (v2 := foldl run_op v1 ops) in *. injection Hs2 as HS HU HA.
  destruct (switch_screen_spec (ACTIVE v) v2 Hw2 Ha) as (Hshow & Hsaved' & Hw3 & _); [lia|].
  cbv zeta. split_and!; [|by injection Hsaved' as _ _ ->|done].
  rewrite Hshow. unfold screen_or_blank, screen_of. rewrite HS, HU, !nth_lookup.
  destruct (wf_screens v Hwf) as [Hl _]. pose proof (wf_used v Hwf) as Hlu.
  rewrite !list_lookup_insert_eq by vga_lia. done.
Qed.

Lemma switch_screen_restores_witness :
  vga_wf vga_boot /\ 1 <> ACTIVE vga_boot /\
  shown (switch_screen 0
    (foldl run_op (switch_screen 1 vga_boot) [OpPrint (bytes "other"); OpClear]))
  = shown vga_boot.
Proof.
  assert (1 <> ACTIVE vga_boot) as Hne by (cbn; lia).
  split; [exact vga_boot_wf|]. split; [exact Hne|].
  refine (proj1 (switch_screen_restores 1 [OpPrint (bytes "other"); OpClear] vga_boot vga_boot_wf _ Hne _)).
  - rewrite NB_SCREENS_val. lia.
  - repeat constructor.
Defined.
