(* ===== verification/Fmt.v ===== *)
(** * Formatting, and the state most of the kernel runs on

    [printk!] formats with [core::fmt] and writes the pieces to the screen
    ([printk.rs]).  The conversions the kernel uses are [{}], [{:N}],
    [{:#0Nx}] and [{:0Nx}] on unsigned integers, and [{}] and [{:N}] on
    strings.  A formatted text is the list of its bytes. *)

From S2P Require Import Prelude.
From S2P Require Import Mem.
From S2P Require Import Klib.
From S2P Require Import Vga.
From S2P Require Import Machine.
From S2P Require Import Multiboot.
From S2P Require Import Pmm.

(** ** Integers and padding *)

(** [{}] on an unsigned integer of at most 64 bits. *)
Definition dec (n : Z) : list Z := map (Z.add 48) (decimal 20 n).

Definition hex_digit (d : Z) : Z := if d <? 10 then 48 + d else 87 + d.

Fixpoint hexadecimal (fuel : nat) (n : Z) : list Z :=
  match fuel with
  | O => []
  | S fuel => if n / 16 =? 0 then [n mod 16] else hexadecimal fuel (n / 16) ++ [n mod 16]
  end.

Definition hex (n : Z) : list Z := map hex_digit (hexadecimal 16 n).

(** Fill on the left with [c], to at least [width] bytes. *)
Definition pad_left (width : Z) (c : Z) (s : list Z) : list Z :=
  replicate (Z.to_nat (width - Z.of_nat (length s))) c ++ s.

(** [{:N}] on an integer is right-aligned, on a string left-aligned. *)
Definition dec_w (width n : Z) : list Z := pad_left width 32 (dec n).
Definition str_w (width : Z) (s : list Z) : list Z :=
  s ++ replicate (Z.to_nat (width - Z.of_nat (length s))) 32.

(** [{:0Nx}] and [{:#0Nx}]; the prefix counts in the width. *)
Definition hex_w (width n : Z) : list Z := pad_left width 48 (hex n).
Definition hex_alt (width n : Z) : list Z := bytes "0x" ++ pad_left (width - 2) 48 (hex n).

Definition newline : list Z := [10].

(** ** Symbols of the linker

    Addresses the linker script and the assembler sources define.  Their
    values are not known to the Rust code. *)
(** mem.rs 119-130: BOOT_START, KERNEL_START, KERNEL_CODE_END, KERNEL_READONLY_END, KERNEL_END *)
Class Linker : Type := {
  boot_start : Z;
  kernel_start : Z;
  kernel_code_end : Z;
  kernel_readonly_end : Z;
  kernel_end : Z;
  boot_directory : Z;        (* of boot.asm *)
  boot_low_table : Z;        (* of boot.asm *)
  stack_bottom : Z;
  stack_top : Z;
  kernel_table : Z;          (* the static KERNEL_TABLE of paging.rs *)
  idt_table : Z;             (* the static TABLE of idt.rs *)
  isr_table : Z;             (* of idt.rs, in the read-only data *)
  isr_addr : Z -> Z;         (* the stubs isr0, isr1, ... of idt.rs *)
}.

(** ** The state *)

(** The machine, the frame allocator, the screen and the panic counter.
    [s_esp] is what [mov reg, esp] reads. *)
Record sys : Type := mkSys {
  s_machine : machine;
  s_pmm : pmm;
  s_vga : vga;
  s_oops : Z;
  s_esp : Z;
}.

Definition with_machine (m : machine) (s : sys) : sys :=
  mkSys m (s_pmm s) (s_vga s) (s_oops s) (s_esp s).
Definition with_pmm (p : pmm) (s : sys) : sys :=
  mkSys (s_machine s) p (s_vga s) (s_oops s) (s_esp s).
Definition with_vga (v : vga) (s : sys) : sys :=
  mkSys (s_machine s) (s_pmm s) v (s_oops s) (s_esp s).
Definition with_oops (n : Z) (s : sys) : sys :=
  mkSys (s_machine s) (s_pmm s) (s_vga s) n (s_esp s).

(** Machine code run on the machine part. *)
Definition on_machine {A} (c : M machine A) : M sys A := fun s =>
  match c (s_machine s) with
  | Done a m => Done a (with_machine m s)
  | Fault addr error m => Fault addr error (with_machine m s)
  | Halted m => Halted (with_machine m s)
  | OutOfFuel => OutOfFuel
  end.

(** Allocator calls run on the allocator part. *)
Definition on_pmm {A} (f : pmm -> A * pmm) : M sys A := fun s =>
  let '(a, p) := f (s_pmm s) in Done a (with_pmm p s).

Definition on_vga (f : vga -> vga) : M sys unit := modify (fun s => with_vga (f (s_vga s)) s).

(** vga.rs 138-145: Writer::write_str *)
Definition write_str (s : list Z) : M sys unit := on_vga (Vga.print s).

(** [core::fmt] writes the pieces of a format string one after the other. *)
Definition write_fmt (pieces : list (list Z)) : M sys unit := for_each pieces write_str.

(** The formatted text in one piece; [write_fmt_joined] shows that the screen
    does not tell the difference. *)
(** printk.rs 1-11: printk, print *)
Definition printk (text : list Z) : M sys unit := write_str text.

Lemma write_fmt_joined pieces : forall piece s,
  write_fmt (piece :: pieces) s = printk (concat (piece :: pieces)) s.
Proof.
  unfold write_fmt. induction pieces as [|q pieces IH]; intros piece s.
  - cbn [for_each concat]. by rewrite app_nil_r.
  - change (for_each (piece :: q :: pieces) write_str s) with
      (for_each (q :: pieces) write_str (with_vga (Vga.print piece (s_vga s)) s)).
    rewrite IH. change (concat (piece :: q :: pieces)) with (piece ++ concat (q :: pieces)).
    unfold printk, write_str, on_vga, modify. rewrite Vga.print_app. by destruct s.
Qed.
