(* ===== verification/Stack.v ===== *)
(** * The stack dump (kernel/src/stack.rs) *)

From S2P Require Import Prelude.
From S2P Require Import Klib.
From S2P Require Import Machine.
From S2P Require Import Fmt.

Section Stack.
Context {L : Linker}.

(** stack.rs 13-13: WINDOW *)
Definition WINDOW : Z := 256.
(** stack.rs 15-15: PER_ROW *)
Definition PER_ROW : Z := 16.

(** stack.rs 17-22: esp *)
Definition esp : M sys Z := gets s_esp.
(** stack.rs 24-26: top *)
Definition top : Z := stack_top.
(** stack.rs 28-30: bottom *)
Definition bottom : Z := stack_bottom.

(** [read_volatile] of consecutive bytes. *)
(** stack.rs 34-36: snapshot *)
Fixpoint read_bytes (n : nat) (from : Z) : M sys (list Z) :=
  match n with
  | O => ret []
  | S n => b <- on_machine (vload8 from) ;; rest <- read_bytes n (from +u 1) ;; ret (b :: rest)
  end.

(** [len] is the length of the buffer the bytes are copied to. *)
(** stack.rs 32-38: snapshot *)
Definition snapshot (from len : Z) : M sys (list Z) :=
  read_bytes (Z.to_nat (Z.min (saturating_sub32 top from) len)) from.

(** One cell of the hex part of a row. *)
(** stack.rs 67-75: render *)
Definition render_byte (chunk : list Z) (i : nat) : list Z :=
  (match chunk !! i with
   | Some b => hex_w 2 b ++ bytes " "
   | None => bytes "   "
   end) ++ (if Nat.eqb i 7 then bytes " " else []).

(** stack.rs 76-79: render *)
Definition render_char (b : Z) : Z := if (0x20 <=? b) && (b <? 0x7f) then b else 46.

(** stack.rs 66-81: render *)
Definition render_row (at_ : Z) (chunk : list Z) : list Z :=
  hex_w 8 at_ ++ bytes "  " ++ concat (map (render_byte chunk) (seq 0 (Z.to_nat PER_ROW)))
  ++ bytes "|" ++ map render_char chunk ++ bytes "|" ++ newline.

(** [bytes.chunks(PER_ROW)], with the row number. *)
(** stack.rs 64-83: render *)
Fixpoint render (fuel : nat) (base : Z) (row : Z) (data : list Z) : M sys unit :=
  match fuel with
  | O => starve
  | S fuel =>
      match data with
      | [] => ret tt
      | _ =>
          printk (render_row (base +u (row * PER_ROW)) (take (Z.to_nat PER_ROW) data)) ;;
          render fuel base (row + 1) (drop (Z.to_nat PER_ROW) data)
      end
  end.

(** stack.rs 53-61: print *)
Fixpoint print_loop (fuel : nat) (at_ left_ : Z) : M sys unit :=
  match fuel with
  | O => starve
  | S fuel =>
      if left_ >? 0 then
        got <- snapshot at_ (Z.min left_ WINDOW) ;;
        match got with
        | [] => ret tt
        | _ =>
            render (S (length got)) at_ 0 got ;;
            print_loop fuel (at_ +u Z.of_nat (length got)) (left_ - Z.of_nat (length got))
        end
      else ret tt
  end.

(** stack.rs 40-62: print *)
Definition print (esp count : Z) : M sys unit :=
  printk (bytes "stack: esp " ++ hex_alt 10 esp ++ bytes " -> top " ++ hex_alt 10 top ++
    bytes ", " ++ dec (saturating_sub32 top esp) ++ bytes " of " ++ dec (top -u bottom) ++
    bytes " bytes in use" ++ newline) ;;
  let left_ := Z.min count (saturating_sub32 top esp) in
  print_loop (S (Z.to_nat left_)) esp left_.

End Stack.
