(* ===== verification/Panic.v ===== *)
(** * Recovered and fatal panics (kernel/src/panic.rs) *)

From S2P Require Import Prelude.
From S2P Require Import Klib.
From S2P Require Import Vga.
From S2P Require Import Machine.
From S2P Require Import Fmt.
From S2P Require Stack.

(** panic.rs 23-27: OOPS, oops_count *)
Definition oops_count : M sys Z := gets s_oops.

(** panic.rs 29-34: oops *)
Definition oops (args : list Z) : M sys unit :=
  modify (fun s => with_oops (s_oops s +u 1) s) ;;
  on_vga (set_color Yellow Black) ;;
  n <- oops_count ;;
  printk (bytes "kernel oops " ++ dec n ++ bytes ": " ++ args ++ newline) ;;
  on_vga (set_color White Black).

(** panic.rs 15-19: koops *)
Definition koops (args : list Z) : M sys unit := oops args.

(** panic.rs 96-101: stop *)
Definition stop {A} : M sys A := fun s => Halted s.

Section Fatal.
Context {L : Linker}.

(** panic.rs 81-94: machine *)
Definition report_machine : M sys unit :=
  m <- gets s_machine ;;
  n <- oops_count ;;
  printk (bytes "  cr0 " ++ hex_alt 10 (m_cr0 m) ++ bytes " cr2 " ++ hex_alt 10 (m_cr2 m) ++
    bytes " cr3 " ++ hex_alt 10 (m_cr3 m) ++ bytes ", " ++ dec n ++
    bytes " recovered before this one" ++ newline) ;;
  esp <- Stack.esp ;;
  (if (esp >=? Stack.bottom) && (esp <? Stack.top) then Stack.print esp 64 else ret tt) ;;
  printk (bytes "the kernel is stopped" ++ newline).

(** panic.rs 36-41: fatal *)
Definition fatal {A} (args : list Z) : M sys A :=
  on_vga (set_color BrightRed Black) ;;
  printk (newline ++ bytes "KERNEL PANIC: " ++ args ++ newline) ;;
  report_machine ;;
  stop.

(** panic.rs 9-13: kpanic *)
Definition kpanic {A} (args : list Z) : M sys A := fatal args.

End Fatal.

(** A recovered panic returns, and changes the screen and the counter only. *)
Lemma oops_spec args s :
  exists v, oops args s =
    Done tt (mkSys (s_machine s) (s_pmm s) v (s_oops s +u 1) (s_esp s)).
Proof. eexists. reflexivity. Qed.
