(* ===== verification/Paging.v ===== *)
(** * Paging (kernel/src/paging.rs): the definitions

    Every [read_volatile] and [write_volatile] of the source is a load or a
    store through the MMU of [Machine.v], at the virtual address the source
    uses: the page directory at [0xfffff000] and the tables at
    [TABLE_WINDOW], which work only because the directory is mapped into
    itself.  The proofs are in [PagingSpec.v] and [PagingOps.v]. *)

From S2P Require Import Prelude.
From S2P Require Import Mem.
From S2P Require Import Klib.
From S2P Require Import Machine.
From S2P Require Import Pmm.
From S2P Require Import Fmt.
From S2P Require Import Panic.

(** [read_volatile] and [write_volatile] of a [u32]. *)
Definition load32 (a : Z) : M sys Z := on_machine (vload32 a).
Definition store32 (a v : Z) : M sys unit := on_machine (vstore32 a v).

(** paging.rs 9-9: PRESENT *)
Definition PRESENT : Z := Z.shiftl 1 0.
(** paging.rs 10-10: WRITABLE *)
Definition WRITABLE : Z := Z.shiftl 1 1.
(** paging.rs 11-11: USER *)
Definition USER : Z := Z.shiftl 1 2.
(** paging.rs 12-12: WRITE_THROUGH *)
Definition WRITE_THROUGH : Z := Z.shiftl 1 3.
(** paging.rs 13-13: NO_CACHE *)
Definition NO_CACHE : Z := Z.shiftl 1 4.
(** paging.rs 14-14: ACCESSED *)
Definition ACCESSED : Z := Z.shiftl 1 5.
(** paging.rs 15-15: DIRTY *)
Definition DIRTY : Z := Z.shiftl 1 6.
(** paging.rs 16-16: LARGE *)
Definition LARGE : Z := Z.shiftl 1 7.
(** paging.rs 17-17: GLOBAL *)
Definition GLOBAL : Z := Z.shiftl 1 8.

(** paging.rs 19-19: KERNEL_PAGE *)
Definition KERNEL_PAGE : Z := Z.lor PRESENT WRITABLE.
(** paging.rs 20-20: KERNEL_READONLY *)
Definition KERNEL_READONLY : Z := PRESENT.
(** paging.rs 21-21: USER_PAGE *)
Definition USER_PAGE : Z := Z.lor (Z.lor PRESENT WRITABLE) USER.
(** paging.rs 22-22: USER_READONLY *)
Definition USER_READONLY : Z := Z.lor PRESENT USER.

(** paging.rs 24-24: FLAGS *)
Definition FLAGS : Z := 0xfff.
(** paging.rs 25-25: FRAME *)
Definition FRAME : Z := not32 0xfff.
(** paging.rs 27-27: PAGING_ON *)
Definition PAGING_ON : Z := Z.shiftl 1 31.
(** paging.rs 28-28: WRITE_PROTECT *)
Definition WRITE_PROTECT : Z := Z.shiftl 1 16.
(** paging.rs 30-30: DIRECTORY *)
Definition DIRECTORY : Z := 0xfffff000.

(** paging.rs 37-39: dir_index *)
Definition dir_index (addr : Z) : Z := Z.shiftr addr 22.
(** paging.rs 41-43: table_index *)
Definition table_index (addr : Z) : Z := Z.land (Z.shiftr addr 12) 0x3ff.
(** paging.rs 45-47: offset *)
Definition offset (addr : Z) : Z := Z.land addr (PAGE_SIZE - 1).
(** paging.rs 49-51: table *)
Definition table (dir : Z) : Z := TABLE_WINDOW +u dir *u PAGE_SIZE.

(** paging.rs 53-57: cr0 *)
Definition cr0 : M sys Z := gets (fun s => m_cr0 (s_machine s)).
(** paging.rs 59-63: cr2 *)
Definition cr2 : M sys Z := gets (fun s => m_cr2 (s_machine s)).
(** paging.rs 65-69: cr3 *)
Definition cr3 : M sys Z := gets (fun s => m_cr3 (s_machine s)).

(** paging.rs 71-73: enabled *)
Definition enabled : M sys bool := v <- cr0 ;; ret (negb (Z.land v PAGING_ON =? 0)).
(** paging.rs 75-77: write_protected *)
Definition write_protected : M sys bool := v <- cr0 ;; ret (negb (Z.land v WRITE_PROTECT =? 0)).
(** paging.rs 79-81: directory_phys *)
Definition directory_phys : M sys Z := v <- cr3 ;; ret (Z.land v FRAME).

(** paging.rs 83-85: invalidate *)
Definition invalidate (addr : Z) : M sys unit := on_machine (invlpg addr).
(** [mov cr3, cr3]: the register keeps its value, the TLB is emptied. *)
(** paging.rs 87-90: flush *)
Definition flush : M sys unit := on_machine reload_cr3.

(** Element [i] of an array of [u32] at [base]: [base.add(i)]. *)
Definition word_ptr (base i : Z) : Z := base +u 4 * i.

Section Init.
Context {L : Linker}.

(** One entry of the table that maps the kernel window. *)
(** paging.rs 95-99: init *)
Definition kernel_entry (image : Image) (i : Z) : Z :=
  let virt := KERNEL_SPACE +u i *u PAGE_SIZE in
  let phys := i *u PAGE_SIZE in
  let readonly := (virt >=? im_start image) && (virt <? im_readonly_end image) in
  let flags := if readonly then KERNEL_READONLY else KERNEL_PAGE in
  Z.lor phys flags.

(** paging.rs 92-106: init *)
Definition init (image : Image) : M sys unit :=
  let table := kernel_table in
  for_each (seqZ 0 ENTRIES) (fun i => store32 (word_ptr table i) (kernel_entry image i)) ;;
  let phys := kernel_phys kernel_table in
  store32 (word_ptr DIRECTORY (dir_index KERNEL_SPACE)) (Z.lor phys KERNEL_PAGE) ;;
  flush ;;
  v <- cr0 ;;
  on_machine (modify (set_cr0 (Z.lor v WRITE_PROTECT))).

End Init.

(** paging.rs 108-110: directory_entry *)
Definition directory_entry (dir : Z) : M sys Z := load32 (word_ptr DIRECTORY dir).

(** paging.rs 112-131: get_page *)
Definition get_page (addr : Z) (create : bool) : M sys (option Z) :=
  let dir := dir_index addr in
  let found := Some (word_ptr (table dir) (table_index addr)) in
  e <- directory_entry dir ;;
  if Z.land e PRESENT =? 0 then
    if negb create then ret None
    else
      got <- on_pmm Pmm.alloc_frame ;;
      match got with
      | None => ret None
      | Some frame =>
          let flags := if negb (is_kernel addr) then Z.lor KERNEL_PAGE USER else KERNEL_PAGE in
          store32 (word_ptr DIRECTORY dir) (Z.lor frame flags) ;;
          invalidate (table dir) ;;
          let fresh := table dir in
          for_each (seqZ 0 ENTRIES) (fun i => store32 (word_ptr fresh i) 0) ;;
          ret found
      end
  else ret found.

(** paging.rs 133-140: entry_of *)
Definition entry_of (addr : Z) : M sys (option Z) :=
  got <- get_page addr false ;;
  match got with
  | None => ret None
  | Some entry =>
      value <- load32 entry ;;
      if Z.land value PRESENT =? 0 then ret None else ret (Some value)
  end.

(** paging.rs 142-144: translate *)
Definition translate (addr : Z) : M sys (option Z) :=
  got <- entry_of addr ;;
  match got with
  | None => ret None
  | Some value => ret (Some (Z.lor (Z.land value FRAME) (offset addr)))
  end.

(** paging.rs 146-165: map_page *)
Definition map_page (addr frame flags : Z) : M sys bool :=
  if negb (Z.land flags USER =? 0) && is_kernel addr then
    koops (hex_alt 10 addr ++ bytes " is kernel space, it takes no user page") ;;
    ret false
  else
    got <- get_page addr true ;;
    match got with
    | None =>
        koops (bytes "no free frame for the page table of " ++ hex_alt 10 addr) ;;
        ret false
    | Some entry =>
        value <- load32 entry ;;
        if negb (Z.land value PRESENT =? 0) then
          koops (hex_alt 10 addr ++ bytes " is mapped already") ;;
          ret false
        else
          store32 entry (Z.lor (Z.lor (Z.land frame FRAME) flags) PRESENT) ;;
          invalidate addr ;;
          ret true
    end.

(** paging.rs 183-192: unmap_page *)
Definition unmap_page (addr : Z) : M sys (option Z) :=
  got <- get_page addr false ;;
  match got with
  | None => ret None
  | Some entry =>
      value <- load32 entry ;;
      if Z.land value PRESENT =? 0 then ret None
      else
        store32 entry 0 ;;
        invalidate addr ;;
        ret (Some (Z.land value FRAME))
  end.

(** paging.rs 194-206: protect *)
Definition protect (addr flags : Z) : M sys bool :=
  got <- get_page addr false ;;
  match got with
  | None => ret false
  | Some entry =>
      value <- load32 entry ;;
      if Z.land value PRESENT =? 0 then ret false
      else
        store32 entry (Z.lor (Z.lor (Z.land value FRAME) flags) PRESENT) ;;
        invalidate addr ;;
        ret true
  end.

(** paging.rs 167-181: map_new *)
Definition map_new (addr flags : Z) : M sys (option Z) :=
  got <- on_pmm Pmm.alloc_frame ;;
  match got with
  | None => ret None
  | Some frame =>
      mapped <- map_page addr frame (Z.lor flags WRITABLE) ;;
      if negb mapped then
        on_pmm (fun p => (tt, Pmm.free_frame frame p)) ;;
        ret None
      else
        let page := page_of addr in
        for_each (seqZ 0 (PAGE_SIZE / 4)) (fun i => store32 (word_ptr page i) 0) ;;
        (if Z.land flags WRITABLE =? 0
         then protect addr flags ;; ret tt
         else ret tt) ;;
        ret (Some frame)
  end.

(** paging.rs 208-215: rights *)
Definition rights (entry : Z) : string :=
  match negb (Z.land entry WRITABLE =? 0), negb (Z.land entry USER =? 0) with
  | true, true => "rw user"
  | false, true => "r  user"
  | true, false => "rw kernel"
  | false, false => "r  kernel"
  end.

(** paging.rs 217-223: handle_fault *)
Definition handle_fault (addr error : Z) : M sys bool :=
  if negb (Z.land error PRESENT =? 0) || negb (is_demand addr) then ret false
  else
    let page := page_of addr in
    got <- map_new page USER_PAGE ;;
    ret (bool_decide (is_Some got)).

(** ** Printing *)

(** paging.rs 240-242: bit *)
Definition bit (entry mask : Z) : Z := if negb (Z.land entry mask =? 0) then 1 else 0.

(** paging.rs 225-238: print_flags *)
Definition print_flags (entry : Z) : M sys unit :=
  printk (bytes "    p " ++ dec (bit entry PRESENT) ++ bytes " rw " ++ dec (bit entry WRITABLE) ++
    bytes " us " ++ dec (bit entry USER) ++ bytes " a " ++ dec (bit entry ACCESSED) ++
    bytes " d " ++ dec (bit entry DIRTY) ++ bytes " ps " ++ dec (bit entry LARGE) ++
    bytes " g " ++ dec (bit entry GLOBAL) ++ bytes " pwt " ++ dec (bit entry WRITE_THROUGH) ++
    bytes " pcd " ++ dec (bit entry NO_CACHE) ++ newline).

(** paging.rs 244-256: summary *)
Definition summary (addr : Z) : M sys unit :=
  printk (bytes " " ++ hex_alt 10 addr ++ bytes "  " ++ dec_w 4 (dir_index addr) ++ bytes " " ++
    dec_w 5 (table_index addr) ++ bytes " " ++ dec_w 6 (offset addr) ++ bytes " ") ;;
  got <- entry_of addr ;;
  match got with
  | Some entry =>
      printk (hex_alt 10 (Z.lor (Z.land entry FRAME) (offset addr)) ++ bytes "  " ++
        bytes (rights entry) ++ newline)
  | None => printk (bytes "nothing      not mapped" ++ newline)
  end.

(** paging.rs 258-284: describe *)
Definition describe (addr : Z) : M sys unit :=
  let dir := dir_index addr in
  let index := table_index addr in
  printk (hex_alt 10 addr ++ bytes ": directory " ++ dec dir ++ bytes " table " ++ dec index ++
    bytes " offset " ++ dec (offset addr) ++ bytes " in " ++
    bytes (space_name (space_of addr)) ++ bytes " space" ++ newline) ;;
  pde <- directory_entry dir ;;
  if Z.land pde PRESENT =? 0 then
    printk (bytes "  directory entry " ++ hex_alt 10 pde ++ bytes ", not present" ++ newline)
  else
    printk (bytes "  directory entry " ++ hex_alt 10 pde ++ bytes " -> table at " ++
      hex_alt 10 (Z.land pde FRAME) ++ bytes ", " ++ bytes (rights pde) ++ newline) ;;
    print_flags pde ;;
    pte <- load32 (word_ptr (table dir) index) ;;
    if Z.land pte PRESENT =? 0 then
      printk (bytes "  table entry     " ++ hex_alt 10 pte ++ bytes ", not present" ++ newline)
    else
      printk (bytes "  table entry     " ++ hex_alt 10 pte ++ bytes " -> frame at " ++
        hex_alt 10 (Z.land pte FRAME) ++ bytes ", " ++ bytes (rights pte) ++ newline) ;;
      print_flags pte ;;
      printk (bytes "  physical        " ++
        hex_alt 10 (Z.lor (Z.land pte FRAME) (offset addr)) ++ newline).

(** A run of pages that [dump] prints as one line: virtual start, physical
    start, flags, pages. *)
Definition run : Type := Z * Z * Z * Z.

(** paging.rs 338-348: print_run *)
Definition print_run (virt phys flags pages : Z) : M sys unit :=
  let span := pages *u PAGE_SIZE in
  printk (bytes " " ++ hex_alt 10 virt ++ bytes ".." ++ hex_alt 10 (virt +u (span -u 1)) ++
    bytes " " ++ hex_alt 10 phys ++ bytes "  " ++ dec_w 5 pages ++ bytes "  " ++
    bytes (rights flags) ++ newline).

(** paging.rs 320-322: extend_run *)
Definition follows (r : run) (next : Z * Z * Z) : bool :=
  let '(virt, phys, flags, pages) := r in
  let '(at_, frame, bits) := next in
  (at_ =? virt +u pages *u PAGE_SIZE) && (frame =? phys +u pages *u PAGE_SIZE) &&
  (Z.land bits (Z.lor WRITABLE USER) =? Z.land flags (Z.lor WRITABLE USER)).

(** paging.rs 314-336: extend_run *)
Definition extend_run (r : option run) (next : option (Z * Z * Z)) : M sys (option run) :=
  match r, next with
  | Some (virt, phys, flags, pages), Some (at_, frame, bits) =>
      if follows (virt, phys, flags, pages) (at_, frame, bits)
      then ret (Some (virt, phys, flags, pages +u 1))
      else print_run virt phys flags pages ;; ret (Some (at_, frame, bits, 1))
  | Some (virt, phys, flags, pages), None => print_run virt phys flags pages ;; ret None
  | None, Some (at_, frame, bits) => ret (Some (at_, frame, bits, 1))
  | None, None => ret None
  end.

(** The inner loop of [dump], over the indices of one table. *)
(** paging.rs 301-309: dump *)
Fixpoint dump_table (dir : Z) (indices : list Z) (r : option run) : M sys (option run) :=
  match indices with
  | [] => ret r
  | index :: indices =>
      pte <- load32 (word_ptr (table dir) index) ;;
      let virt := Z.lor (wrap32 (Z.shiftl dir 22)) (wrap32 (Z.shiftl index 12)) in
      r <- extend_run r
             (if Z.land pte PRESENT =? 0 then None
              else Some (virt, Z.land pte FRAME, Z.land pte FLAGS)) ;;
      dump_table dir indices r
  end.

(** The outer loop, over the directory. *)
(** paging.rs 295-310: dump *)
Fixpoint dump_dirs (dirs : list Z) (r : option run) : M sys (option run) :=
  match dirs with
  | [] => ret r
  | dir :: dirs =>
      pde <- directory_entry dir ;;
      r <- (if Z.land pde PRESENT =? 0 then extend_run r None
            else dump_table dir (seqZ 0 ENTRIES) r) ;;
      dump_dirs dirs r
  end.

(** paging.rs 286-312: dump *)
Definition dump : M sys unit :=
  phys <- directory_phys ;; on <- enabled ;; wp <- write_protected ;;
  printk (bytes "cr3 " ++ hex_alt 10 phys ++ bytes ", paging " ++
    bytes (if on : bool then "on" else "off") ++ bytes ", write protect " ++
    bytes (if wp : bool then "on" else "off") ++ newline) ;;
  printk (bytes " virtual                  physical      pages  rights" ++ newline) ;;
  r <- dump_dirs (seqZ 0 ENTRIES) None ;;
  extend_run r None ;;
  ret tt.
