(* ===== verification/PagingSpec.v ===== *)
(** * The address space as a map of pages: invariant and MMU lemmas

    [page_entry] reads the two-level tables as one map from page numbers to
    entries.  [vm_ok] is what every operation of paging.rs relies on and
    keeps: the directory maps itself, page tables are distinct and belong to
    no free frame, pages of the managed ranges have frames of their own, and
    the TLB holds nothing the tables no longer say. *)

From S2P Require Import Prelude.
From S2P Require Import Mem.
From S2P Require Import Machine.
From S2P Require Import Pmm.

(** ** Machines up to the TLB *)

#[global] Instance machine_equiv : Equiv machine := fun m m' =>
  m_ram m = m_ram m' /\ m_cr0 m = m_cr0 m' /\ m_cr2 m = m_cr2 m' /\ m_cr3 m = m_cr3 m'.

#[global] Instance machine_equivalence : Equivalence (≡@{machine}).
Proof.
  split.
  - done.
  - intros ?? (? & ? & ? & ?). split_and!; done.
  - intros ??? (? & ? & ? & ?) (? & ? & ? & ?). split_and!; congruence.
Qed.

#[global] Instance m_ram_proper : Proper ((≡) ==> eq) m_ram.
Proof. by intros m m' []. Qed.

#[global] Instance pde_proper : Proper ((≡) ==> eq ==> eq) pde.
Proof. intros m m' (Hr & _ & _ & H3) d _ <-. unfold pde, dir_base. congruence. Qed.

#[global] Instance pte_proper : Proper ((≡) ==> eq ==> eq ==> eq) pte.
Proof.
  intros m m' E d _ <- i _ <-. unfold pte. rewrite (pde_proper _ _ E d d) by done.
  destruct E as [-> _]. done.
Qed.

#[global] Instance walk_proper : Proper ((≡) ==> eq ==> eq) walk.
Proof. intros m m' E va _ <-. unfold walk. by rewrite !E. Qed.

#[global] Instance dir_base_proper : Proper ((≡) ==> eq) dir_base.
Proof. intros m m' (_ & _ & _ & H3). unfold dir_base. congruence. Qed.

(** ** Pages *)

Definition table_frame (m : machine) (d : Z) : Z := entry_frame (pde m d).

(** The entry of page number [n], when both levels are present. *)
Definition page_entry (m : machine) (n : Z) : option Z :=
  if entry_present (pde m (n / 1024)) then
    if entry_present (pte m (n / 1024) (n mod 1024))
    then Some (pte m (n / 1024) (n mod 1024)) else None
  else None.

Definition trans_of (e : Z) : trans := mkTrans (entry_frame e) (entry_writable e).

(** Frame [f] holds the directory or a page table. *)
Definition is_table (m : machine) (f : Z) : Prop :=
  exists d, 0 <= d < 1024 /\ entry_present (pde m d) = true /\ table_frame m d = f * 4096.

(** The pages outside the two windows on low memory and the table window. *)
Definition managed (n : Z) : Prop := 1024 <= n < 1047552 /\ n / 1024 <> 768.

#[global] Instance table_frame_proper : Proper ((≡) ==> eq ==> eq) table_frame.
Proof. intros m m' E d _ <-. unfold table_frame. by rewrite E. Qed.

#[global] Instance page_entry_proper : Proper ((≡) ==> eq ==> eq) page_entry.
Proof. intros m m' E n _ <-. unfold page_entry. by rewrite !E. Qed.

#[global] Instance is_table_proper : Proper ((≡) ==> eq ==> iff) is_table.
Proof. intros m m' E f _ <-. unfold is_table. by setoid_rewrite E. Qed.

(** Everything the TLB holds is what a walk gives. *)
Definition tlb_ok (m : machine) : Prop :=
  forall n t, m_tlb m !! n = Some t -> 0 <= n < 1048576 /\ walk m (n * 4096) = Some t.

(** The directory and the tables. *)
Record tables_ok (m : machine) : Prop := {
  tb_present : entry_present (pde m 1023) = true;
  tb_self : table_frame m 1023 = dir_base m;
  tb_writable : forall d, 0 <= d < 1024 ->
    entry_present (pde m d) = true -> entry_writable (pde m d) = true;
  tb_distinct : forall d d', 0 <= d < 1024 -> 0 <= d' < 1024 ->
    entry_present (pde m d) = true -> entry_present (pde m d') = true ->
    table_frame m d = table_frame m d' -> d = d';
}.

Lemma tables_ok_equiv m m' : m ≡ m' -> tables_ok m -> tables_ok m'.
Proof.
  intros E [H1 H2 H3 H4]. split.
  - by rewrite <- E.
  - by rewrite <- !E.
  - intros d. rewrite <- E. apply H3.
  - intros d d'. rewrite <- !E. apply H4.
Qed.

#[global] Instance tables_ok_proper : Proper ((≡) ==> iff) tables_ok.
Proof. intros m m' E. split; apply tables_ok_equiv; done. Qed.

(** The tables and the frame allocator together. *)
Record vm_ok (m : machine) (p : pmm) : Prop := {
  vm_pmm : pmm_wf p;
  vm_tables : tables_ok m;
  vm_tables_used : forall f, is_table m f -> f ∉ free_set p;
  vm_leaf : forall n e, managed n -> page_entry m n = Some e ->
    ~ is_table m (entry_frame e / 4096) /\ entry_frame e / 4096 ∉ free_set p;
  vm_leaf_own : forall n n' e e', managed n -> managed n' ->
    page_entry m n = Some e -> page_entry m n' = Some e' ->
    entry_frame e = entry_frame e' -> n = n';
  vm_tlb : tlb_ok m;
}.

(** ** Arithmetic of pages and entries *)

Lemma page_split n : n = n / 1024 * 1024 + n mod 1024 /\ 0 <= n mod 1024 < 1024.
Proof. dlia. Qed.

Lemma table_frame_aligned m d : table_frame m d mod 4096 = 0.
Proof. apply entry_frame_aligned, pread32_range. Qed.

Lemma table_frame_range m d : is_u32 (table_frame m d).
Proof. apply entry_frame_range, pread32_range. Qed.

Lemma is_table_intro m d :
  0 <= d < 1024 -> entry_present (pde m d) = true -> is_table m (table_frame m d / 4096).
Proof.
  intros Hd Hp. exists d. split_and!; [lia|lia|done|].
  pose proof (table_frame_aligned m d). dlia.
Qed.

(** The walk depends on the page only. *)
Lemma walk_page m va : walk m (va / 4096 * 4096) = walk m va.
Proof.
  unfold walk. replace (va / 4096 * 4096 / 4096) with (va / 4096) by dlia.
  replace (va / 4096 * 4096 / 4194304) with (va / 4194304) by dlia. done.
Qed.

Lemma walk_page_entry m va :
  tables_ok m -> is_u32 va -> walk m va = trans_of <$> page_entry m (va / 4096).
Proof.
  intros Ht Hva. unfold walk, page_entry, is_u32 in *.
  replace (va / 4194304) with (va / 4096 / 1024) by dlia.
  destruct (entry_present (pde m _)) eqn:Hp; [|done].
  rewrite (tb_writable _ Ht) by (done || dlia).
  destruct (entry_present (pte m _ _)); done.
Qed.

(** With the directory mapped into itself, the entries of "table 1023" are
    the directory's own. *)
Lemma pte_self m j : tables_ok m -> pte m 1023 j = pde m j.
Proof.
  intros Ht. unfold pte. fold (table_frame m 1023). by rewrite (tb_self _ Ht).
Qed.

(** Frame addresses of two page-aligned frames do not overlap. *)
Lemma frames_apart a b x y :
  a mod 4096 = 0 -> b mod 4096 = 0 -> a <> b -> 0 <= x < 1024 -> 0 <= y < 1024 ->
  a + 4 * x + 4 <= b + 4 * y \/ b + 4 * y + 4 <= a + 4 * x.
Proof. intros. dlia. Qed.

(** ** Accesses *)

(** What an access leaves in the TLB. *)
Definition touch (va : Z) (m : machine) : machine :=
  match m_tlb m !! (va / 4096), walk m va with
  | None, Some t => set_tlb <[va / 4096 := t]> m
  | _, _ => m
  end.

Lemma touch_equiv va m : touch va m ≡ m.
Proof. unfold touch. destruct (m_tlb m !! _), (walk m va); done. Qed.

Lemma touch_ram va m : m_ram (touch va m) = m_ram m.
Proof. apply touch_equiv. Qed.

Lemma touch_tlb_ok va m : is_u32 va -> tlb_ok m -> tlb_ok (touch va m).
Proof.
  intros Hva Hok n t. rewrite (walk_proper _ _ (touch_equiv va m) _ _ eq_refl).
  unfold touch. destruct (m_tlb m !! (va / 4096)) eqn:E; [apply Hok|].
  destruct (walk m va) as [t'|] eqn:Ew; [|apply Hok]. cbn. rewrite lookup_insert_Some.
  intros [[<- <-]|[_ H]]; [|by apply Hok].
  rewrite walk_page. split; [unfold is_u32 in Hva; dlia|done].
Qed.

(** The TLB agrees with the tables on the page of [va]. *)
Definition tlb_at (m : machine) (va : Z) : Prop :=
  forall t, m_tlb m !! (va / 4096) = Some t -> walk m va = Some t.

Lemma tlb_ok_at m va : tlb_ok m -> tlb_at m va.
Proof. intros Hok t Ht. destruct (Hok _ _ Ht) as [_ Hw]. by rewrite walk_page in Hw. Qed.

#[export] Hint Resolve tlb_ok_at : kfs.

(** The page is in the TLB afterwards; no other page is added. *)
Lemma touch_lookup va m t :
  tlb_at m va -> walk m va = Some t -> m_tlb (touch va m) !! (va / 4096) = Some t.
Proof.
  intros Hok Hw. unfold touch. destruct (m_tlb m !! (va / 4096)) as [t'|] eqn:E.
  - pose proof (Hok _ E) as Ht. rewrite Hw in Ht. by rewrite E, Ht.
  - rewrite Hw. cbn. by rewrite lookup_insert_eq.
Qed.

Lemma touch_lookup_ne va m n : n <> va / 4096 -> m_tlb (touch va m) !! n = m_tlb m !! n.
Proof.
  intros Hne. unfold touch. destruct (m_tlb m !! (va / 4096)), (walk m va); try done.
  cbn. by rewrite lookup_insert_ne.
Qed.

Lemma access_ok va write m t :
  tlb_at m va -> walk m va = Some t -> write = false \/ t_writable t = true ->
  access va write m = Done (t_frame t + va mod 4096) (touch va m).
Proof.
  intros Hok Hw Hwr. unfold access, touch.
  assert (forall m', use_trans t va write m' = Done (t_frame t + va mod 4096) m') as Hu.
  { intros m'. unfold use_trans. destruct Hwr as [->| ->]; [done|].
    by rewrite andb_false_r. }
  destruct (m_tlb m !! (va / 4096)) as [t'|] eqn:E.
  - pose proof (Hok _ E) as Ht. rewrite Hw in Ht. injection Ht as <-. apply Hu.
  - rewrite Hw. apply Hu.
Qed.

Lemma vload32_ok va m t :
  tlb_at m va -> walk m va = Some t -> va mod 4096 <= 4092 ->
  vload32 va m = Done (pread32 (m_ram m) (t_frame t + va mod 4096)) (touch va m).
Proof.
  intros Hok Hw Hva. unfold vload32. rewrite (proj2 (Z.leb_le _ _)) by done.
  rewrite (bind_Done _ _ _ _ _ (access_ok va false m t Hok Hw (or_introl eq_refl))).
  unfold gets. by rewrite touch_ram.
Qed.

Lemma vstore32_ok va v m t :
  tlb_at m va -> walk m va = Some t -> t_writable t = true -> va mod 4096 <= 4092 ->
  vstore32 va v m =
    Done tt (set_ram (pwrite32 (t_frame t + va mod 4096) v) (touch va m)).
Proof.
  intros Hok Hw Hwr Hva. unfold vstore32. rewrite (proj2 (Z.leb_le _ _)) by done.
  by rewrite (bind_Done _ _ _ _ _ (access_ok va true m t Hok Hw (or_intror Hwr))).
Qed.

(** ** The recursive window *)

(** Virtual address of entry [i] of table [d]; table 1023 is the directory. *)
Definition win (d i : Z) : Z := 4290772992 + 4096 * d + 4 * i.

Lemma win_arith d i :
  0 <= d < 1024 -> 0 <= i < 1024 ->
  is_u32 (win d i) /\ win d i / 4096 = 1047552 + d /\ win d i mod 4096 = 4 * i.
Proof. unfold win, is_u32. intros. split_and!; dlia. Qed.

Lemma walk_win m d i :
  tables_ok m -> 0 <= d < 1024 -> 0 <= i < 1024 -> entry_present (pde m d) = true ->
  walk m (win d i) = Some (mkTrans (table_frame m d) true).
Proof.
  intros Ht Hd Hi Hp. destruct (win_arith d i Hd Hi) as (Hu & Hn & _).
  rewrite walk_page_entry, Hn by done. unfold page_entry.
  replace ((1047552 + d) / 1024) with 1023 by dlia.
  replace ((1047552 + d) mod 1024) with d by dlia.
  rewrite (tb_present _ Ht), (pte_self _ _ Ht), Hp. cbn. unfold trans_of.
  by rewrite (tb_writable _ Ht d Hd Hp).
Qed.

Lemma vload32_win m d i :
  tables_ok m -> tlb_ok m -> 0 <= d < 1024 -> 0 <= i < 1024 ->
  entry_present (pde m d) = true ->
  vload32 (win d i) m = Done (pte m d i) (touch (win d i) m).
Proof.
  intros Ht Hok Hd Hi Hp. destruct (win_arith d i Hd Hi) as (_ & _ & Hm).
  erewrite vload32_ok by (done || eauto using walk_win with kfs || lia). by rewrite Hm.
Qed.

Lemma vstore32_win m d i v :
  tables_ok m -> tlb_ok m -> 0 <= d < 1024 -> 0 <= i < 1024 ->
  entry_present (pde m d) = true ->
  vstore32 (win d i) v m =
    Done tt (set_ram (pwrite32 (table_frame m d + 4 * i) v) (touch (win d i) m)).
Proof.
  intros Ht Hok Hd Hi Hp. destruct (win_arith d i Hd Hi) as (_ & _ & Hm).
  erewrite vstore32_ok by (done || eauto using walk_win with kfs || lia). by rewrite Hm.
Qed.

(** ** Writing one entry of a page table *)

(** [m'] has the memory of [m] but for entry [i] of table [d]. *)
Definition wrote_entry (d i v : Z) (m m' : machine) : Prop :=
  m_ram m' = pwrite32 (table_frame m d + 4 * i) v (m_ram m) /\
  m_cr0 m' = m_cr0 m /\ m_cr2 m' = m_cr2 m /\ m_cr3 m' = m_cr3 m.

Section WroteEntry.
Context (m m' : machine) (d i v : Z).
Hypothesis (Ht : tables_ok m) (Hd : 0 <= d < 1023) (Hi : 0 <= i < 1024).
Hypothesis (Hp : entry_present (pde m d) = true) (Hv : is_u32 v).
Hypothesis Hw : wrote_entry d i v m m'.

Lemma wrote_entry_pde j : 0 <= j < 1024 -> pde m' j = pde m j.
Proof.
  intros Hj. destruct Hw as (Hr & _ & _ & H3). unfold pde, dir_base. rewrite Hr, H3.
  fold (dir_base m). apply pread32_write32_ne.
  rewrite <- (tb_self _ Ht). apply frames_apart; try apply table_frame_aligned; try lia.
  intros E. apply (tb_distinct _ Ht) in E; [lia|lia|lia|done|apply (tb_present _ Ht)].
Qed.

Lemma wrote_entry_pte d' j :
  0 <= d' < 1024 -> 0 <= j < 1024 -> entry_present (pde m d') = true ->
  pte m' d' j = if decide (d' = d /\ j = i) then v else pte m d' j.
Proof.
  intros Hd' Hj Hp'. unfold pte. rewrite wrote_entry_pde by done.
  fold (table_frame m d'). destruct Hw as (-> & _).
  case_decide as Heq; [destruct Heq as [-> ->]; by apply pread32_write32|].
  apply pread32_write32_ne. destruct (decide (d' = d)) as [->|Hne].
  - assert (j <> i) by tauto. lia.
  - apply frames_apart; try apply table_frame_aligned; try lia.
    intros E. apply (tb_distinct _ Ht) in E; [lia|lia|lia|done|done].
Qed.

Lemma wrote_entry_page_entry n :
  0 <= n < 1048576 ->
  page_entry m' n =
    if decide (n = d * 1024 + i) then (if entry_present v then Some v else None)
    else page_entry m n.
Proof.
  intros Hn. unfold page_entry. destruct (page_split n).
  rewrite wrote_entry_pde by dlia. destruct (entry_present (pde m (n / 1024))) eqn:Hp'.
  - rewrite wrote_entry_pte by (done || dlia).
    destruct (decide (n / 1024 = d /\ _)), (decide (n = _)); try done; dlia.
  - case_decide; [|done]. replace (n / 1024) with d in Hp' by dlia. congruence.
Qed.

Lemma wrote_entry_is_table f : is_table m' f <-> is_table m f.
Proof.
  unfold is_table, table_frame. split; intros (j & Hj & H); exists j;
    rewrite (wrote_entry_pde j) in * by lia; done.
Qed.

Lemma wrote_entry_tables : tables_ok m'.
Proof.
  destruct Ht as [H1 H2 H3 H4]. unfold table_frame in *. split; unfold table_frame.
  - by rewrite wrote_entry_pde by lia.
  - rewrite wrote_entry_pde by lia. destruct Hw as (_ & _ & _ & E).
    unfold dir_base in *. by rewrite E.
  - intros j Hj. rewrite wrote_entry_pde by lia. by apply H3.
  - intros j j' Hj Hj'. rewrite !wrote_entry_pde by lia. by apply H4.
Qed.

(** Bytes outside the table are untouched. *)
Lemma wrote_entry_bytes a :
  ~ is_table m (a / 4096) -> pread8 (m_ram m') a = pread8 (m_ram m) a.
Proof.
  intros Hn. destruct Hw as (-> & _). unfold pwrite32. rewrite !pread8_write8.
  pose proof (table_frame_aligned m d) as Ha.
  assert (~ table_frame m d <= a < table_frame m d + 4096) as Hout.
  { intros Hin. apply Hn. exists d. split_and!; [lia|lia|done|dlia]. }
  repeat case_decide; try lia.
Qed.

End WroteEntry.

(** The store and the [invlpg] that follows it: the tables are updated and
    the TLB agrees with them again. *)
Lemma set_entry_spec m d i v addr :
  tables_ok m -> tlb_ok m -> 0 <= d < 1023 -> 0 <= i < 1024 ->
  entry_present (pde m d) = true -> is_u32 v -> addr / 4096 = d * 1024 + i ->
  exists m', (vstore32 (win d i) v ;; invlpg addr) m = Done tt m' /\
    wrote_entry d i v m m' /\ tlb_ok m'.
Proof.
  intros Ht Hok Hd Hi Hp Hv Ha.
  assert (0 <= d < 1024) as Hd' by lia. destruct (win_arith d i Hd' Hi) as (Hu & _).
  rewrite (bind_Done _ _ _ _ _ (vstore32_win m d i v Ht Hok Hd' Hi Hp)).
  set (m1 := set_ram _ _). unfold invlpg, modify. exists (set_tlb (delete (addr / 4096)) m1).
  assert (wrote_entry d i v m (set_tlb (delete (addr / 4096)) m1)) as Hw.
  { destruct (touch_equiv (win d i) m) as (Hr & ? & ? & ?). split_and!; try done.
    cbn. by rewrite Hr. }
  split; [done|]. split; [exact Hw|]. intros n t. cbn [m_tlb set_tlb].
  rewrite lookup_delete_Some. intros [Hne H].
  destruct (touch_tlb_ok (win d i) m Hu Hok n t H) as [Hn Hwk].
  rewrite (touch_equiv (win d i) m) in Hwk. split; [done|].
  assert (tables_ok (set_tlb (delete (addr / 4096)) m1)) 
    by exact (wrote_entry_tables m _ d i v Ht Hd Hi Hp Hw).
  rewrite walk_page_entry, Z.div_mul in Hwk |- * by (done || unfold is_u32; lia).
  rewrite (wrote_entry_page_entry m _ d i v) by done. by rewrite decide_False by lia.
Qed.

(** ** Clearing a page through its mapping *)

Definition zero_words (base : Z) (l : list Z) (ram : gmap Z Z) : gmap Z Z :=
  foldl (fun r i => pwrite32 (base + 4 * i) 0 r) ram l.

Lemma zero_words_bytes base l ram a :
  pread8 (zero_words base l ram) a =
    if decide (Exists (fun i => base + 4 * i <= a < base + 4 * i + 4) l) then 0
    else pread8 ram a.
Proof.
  revert ram. induction l as [|i l IH]; intros ram.
  { rewrite decide_False; [done|by inversion 1]. }
  change (zero_words base (i :: l) ram)
    with (zero_words base l (pwrite32 (base + 4 * i) 0 ram)).
  rewrite IH. destruct (decide (Exists _ l)) as [He|He].
  { rewrite decide_True; [done|]. by apply Exists_cons_tl. }
  unfold pwrite32. rewrite !pread8_write8.
  destruct (decide (Exists _ (i :: l))) as [Hx|Hx]; rewrite Exists_cons in Hx.
  - destruct Hx as [Hx|]; [|done]. repeat case_decide; try done; lia.
  - assert (~ (base + 4 * i <= a < base + 4 * i + 4)) by tauto. repeat case_decide; try done; lia.
Qed.

Definition zero_page (base : Z) : gmap Z Z -> gmap Z Z := zero_words base (seqZ 0 1024).

Lemma zero_page_bytes base ram a :
  pread8 (zero_page base ram) a =
    if decide (base <= a < base + 4096) then 0 else pread8 ram a.
Proof.
  unfold zero_page. rewrite zero_words_bytes.
  destruct (decide (Exists _ _)) as [H|H], (decide (base <= _ < _)) as [H'|H']; try done.
  - apply Exists_elem_of in H as (i & Hi & Ha). apply elem_of_seqZ in Hi. lia.
  - destruct H. apply Exists_elem_of. exists ((a - base) / 4).
    rewrite elem_of_seqZ. dlia.
Qed.

Lemma zero_page_in base ram a :
  base <= a -> a + 4 <= base + 4096 -> pread32 (zero_page base ram) a = 0.
Proof.
  intros. unfold pread32. rewrite !zero_page_bytes. repeat case_decide; try lia.
Qed.

Lemma zero_page_out base ram a :
  a + 4 <= base \/ base + 4096 <= a -> pread32 (zero_page base ram) a = pread32 ram a.
Proof.
  intros. unfold pread32. rewrite !zero_page_bytes. repeat case_decide; try lia.
Qed.

(** Stores to one page whose translation is in the TLB. *)
Lemma zero_loop va l m t :
  va mod 4096 = 0 -> Forall (fun i => 0 <= i < 1024) l ->
  m_tlb m !! (va / 4096) = Some t -> t_writable t = true ->
  for_each l (fun i => vstore32 (va + 4 * i) 0) m =
    Done tt (set_ram (zero_words (t_frame t) l) m).
Proof.
  intros Hva Hl. revert m. induction Hl as [|i l Hi Hl IH]; intros m Htlb Hwr.
  { by destruct m. }
  cbn [for_each]. unfold vstore32 at 1. rewrite (proj2 (Z.leb_le _ _)) by dlia.
  assert (access (va + 4 * i) true m = Done (t_frame t + 4 * i) m) as Ha.
  { unfold access. replace ((va + 4 * i) / 4096) with (va / 4096) by dlia. rewrite Htlb.
    unfold use_trans. rewrite Hwr, andb_false_r. cbn. repeat f_equal. dlia. }
  unfold bind at 1. rewrite (bind_Done _ _ _ _ _ Ha). unfold modify.
  rewrite IH by done. by destruct m.
Qed.

Lemma zero_page_ok va m t :
  is_u32 va -> va mod 4096 = 0 -> tlb_at m va -> walk m va = Some t -> t_writable t = true ->
  for_each (seqZ 0 1024) (fun i => vstore32 (va + 4 * i) 0) m =
    Done tt (set_ram (zero_page (t_frame t)) (touch va m)).
Proof.
  intros Hu Hva Hok Hw Hwr. rewrite (seqZ_cons 0 1024) by lia. cbn [for_each].
  rewrite Z.mul_0_r, Z.add_0_r.
  erewrite bind_Done by (apply vstore32_ok; [done|done|done|lia]).
  erewrite zero_loop; [| done | | |done].
  - unfold zero_page. rewrite (seqZ_cons 0 1024) by lia. rewrite Hva.
    by destruct (touch va m).
  - apply Forall_elem_of. intros i Hi. apply elem_of_seqZ in Hi. lia.
  - cbn [m_tlb set_ram]. by apply touch_lookup.
Qed.

#[global] Opaque zero_page.

(** ** Installing a fresh page table *)

(** [m'] is [m] with frame [f], cleared, installed by entry [v] of the
    directory as table [d]. *)
Definition new_table (d v f : Z) (m m' : machine) : Prop :=
  m_ram m' = zero_page (f * 4096) (pwrite32 (dir_base m + 4 * d) v (m_ram m)) /\
  m_cr0 m' = m_cr0 m /\ m_cr2 m' = m_cr2 m /\ m_cr3 m' = m_cr3 m.

Section NewTable.
Context (m m' : machine) (d v f : Z).
Hypothesis (Ht : tables_ok m) (Hd : 0 <= d < 1023).
Hypothesis Hp : entry_present (pde m d) = false.
Hypothesis (Hv : is_u32 v) (Hvp : entry_present v = true) (Hvw : entry_writable v = true).
Hypothesis (Hvf : entry_frame v = f * 4096) (Hf : ~ is_table m f).
Hypothesis Hw : new_table d v f m m'.

Lemma table_not_new j : 0 <= j < 1024 -> entry_present (pde m j) = true ->
  table_frame m j <> f * 4096.
Proof. intros Hj Hpj E. apply Hf. by exists j. Qed.

Lemma new_table_pde j : 0 <= j < 1024 -> pde m' j = if decide (j = d) then v else pde m j.
Proof.
  intros Hj. destruct Hw as (Hr & _ & _ & H3). unfold pde, dir_base. rewrite Hr, H3.
  fold (dir_base m). rewrite zero_page_out.
  - case_decide as E; [subst; by apply pread32_write32|]. apply pread32_write32_ne. lia.
  - pose proof (table_frame_aligned m 1023).
    pose proof (table_not_new 1023 ltac:(lia) (tb_present _ Ht)).
    rewrite (tb_self _ Ht) in *. dlia.
Qed.

Lemma new_table_pte j i : 0 <= j < 1023 -> 0 <= i < 1024 ->
  j = d \/ entry_present (pde m j) = true ->
  pte m' j i = if decide (j = d) then 0 else pte m j i.
Proof.
  intros Hj Hi Hjd. unfold pte. rewrite new_table_pde by lia.
  destruct Hw as (-> & _). case_decide as E.
  - rewrite Hvf. apply zero_page_in; lia.
  - destruct Hjd as [|Hpj]; [done|]. fold (table_frame m j).
    pose proof (table_frame_aligned m j). pose proof (table_not_new j ltac:(lia) Hpj).
    rewrite zero_page_out by dlia. apply pread32_write32_ne.
    rewrite <- (tb_self _ Ht). apply frames_apart; try apply table_frame_aligned; try lia.
    intros E'. apply (tb_distinct _ Ht) in E'; [lia|lia|lia|apply (tb_present _ Ht)|done].
Qed.

Lemma new_table_page_entry n :
  0 <= n < 1047552 -> page_entry m' n = page_entry m n.
Proof.
  intros Hn. unfold page_entry. destruct (page_split n).
  rewrite new_table_pde by dlia. case_decide as E.
  - rewrite Hvp, E, Hp, new_table_pte by (dlia || auto). by rewrite decide_True.
  - destruct (entry_present (pde m (n / 1024))) eqn:Hpn; [|done].
    rewrite new_table_pte by (dlia || auto). by rewrite decide_False.
Qed.

Lemma new_table_is_table g : is_table m' g <-> is_table m g \/ g = f.
Proof.
  unfold is_table, table_frame. split.
  - intros (j & Hj & H). rewrite new_table_pde in H by lia. case_decide.
    + right. lia.
    + left. by exists j.
  - intros [(j & Hj & Hpj & E)| ->].
    + exists j. rewrite new_table_pde by lia. case_decide; [subst; congruence|done].
    + exists d. rewrite new_table_pde by lia. rewrite decide_True by done. split_and!; lia || done.
Qed.

Lemma new_table_tables : tables_ok m'.
Proof.
  split; unfold table_frame.
  - rewrite new_table_pde, decide_False by lia. apply (tb_present _ Ht).
  - rewrite new_table_pde, decide_False by lia. destruct Hw as (_ & _ & _ & E).
    unfold dir_base. rewrite E. apply (tb_self _ Ht).
  - intros j Hj. rewrite new_table_pde by lia. case_decide; [done|]. by apply (tb_writable _ Ht).
  - intros j j' Hj Hj'. rewrite !new_table_pde by lia.
    repeat case_decide; subst; try done.
    + intros _ Hpj E. rewrite Hvf in E. by apply table_not_new in Hpj.
    + intros Hpj _ E. rewrite Hvf in E. by apply table_not_new in Hpj.
    + by apply (tb_distinct _ Ht).
Qed.

Lemma new_table_bytes a :
  ~ is_table m (a / 4096) -> a / 4096 <> f -> pread8 (m_ram m') a = pread8 (m_ram m) a.
Proof.
  intros Hna Hnf. destruct Hw as (-> & _). rewrite zero_page_bytes.
  rewrite decide_False by dlia. unfold pwrite32. rewrite !pread8_write8.
  pose proof (table_frame_aligned m 1023) as Ha. rewrite (tb_self _ Ht) in Ha.
  assert (~ dir_base m <= a < dir_base m + 4096) as Hout.
  { intros Hin. apply Hna. exists 1023. rewrite (tb_self _ Ht).
    split_and!; [lia|lia|apply (tb_present _ Ht)|dlia]. }
  repeat case_decide; try lia.
Qed.

(** What the TLB held of the old tables still holds. *)
Lemma new_table_walk n t :
  0 <= n < 1048576 -> walk m (n * 4096) = Some t -> walk m' (n * 4096) = Some t.
Proof.
  intros Hn. rewrite !walk_page_entry, Z.div_mul
    by (done || apply new_table_tables || unfold is_u32; lia).
  destruct (decide (n < 1047552)); [by rewrite new_table_page_entry by lia|].
  unfold page_entry. replace (n / 1024) with 1023 by dlia.
  rewrite new_table_pde, decide_False, (tb_present _ Ht) by lia.
  rewrite !pte_self, new_table_pde by (done || apply new_table_tables || dlia).
  case_decide as E; [by rewrite E, Hp|done].
Qed.

End NewTable.

Lemma new_table_spec m d v f :
  tables_ok m -> tlb_ok m -> 0 <= d < 1023 -> entry_present (pde m d) = false ->
  is_u32 v -> entry_present v = true -> entry_writable v = true ->
  entry_frame v = f * 4096 -> ~ is_table m f ->
  exists m', (vstore32 (win 1023 d) v ;; invlpg (win d 0) ;;
              for_each (seqZ 0 1024) (fun i => vstore32 (win d 0 + 4 * i) 0)) m = Done tt m' /\
    new_table d v f m m' /\ tlb_ok m'.
Proof.
  intros Ht Hok Hd Hp Hv Hvp Hvw Hvf Hf.
  rewrite (bind_Done _ _ _ _ _
    (vstore32_win m 1023 d v Ht Hok ltac:(lia) ltac:(lia) (tb_present _ Ht))).
  rewrite (tb_self _ Ht). set (m1 := set_ram _ _). unfold invlpg, modify, bind.
  set (m2 := set_tlb _ m1).
  destruct (win_arith d 0) as (Hu & Hn & Hm); [lia..|].
  destruct (win_arith 1023 d) as (Hu' & _ & _); [lia..|].
  destruct (touch_equiv (win 1023 d) m) as (Hr & H0 & H2 & H3).
  assert (walk m2 (win d 0) = Some (mkTrans (f * 4096) true)) as Hwalk.
  { unfold walk. rewrite Hn. replace (win d 0 / 4194304) with 1023 by (unfold win; dlia).
    replace ((1047552 + d) mod 1024) with d by dlia.
    assert (pde m2 1023 = pde m 1023) as E1.
    { unfold pde, dir_base. cbn. rewrite H3, Hr. apply pread32_write32_ne.
      unfold dir_base. lia. }
    assert (pte m2 1023 d = v) as E2.
    { unfold pte. rewrite E1. fold (table_frame m 1023). rewrite (tb_self _ Ht). cbn.
      by apply pread32_write32. }
    rewrite E1, E2, (tb_present _ Ht), Hvp, Hvf, Hvw.
    by rewrite (tb_writable _ Ht 1023 ltac:(lia) (tb_present _ Ht)). }
  assert (tlb_at m2 (win d 0)) as Hat.
  { intros t. cbn. by rewrite lookup_delete_eq. }
  exists (set_ram (zero_page (f * 4096)) (touch (win d 0) m2)). split.
  { rewrite (zero_page_ok _ _ _ Hu ltac:(lia) Hat Hwalk eq_refl). done. }
  assert (new_table d v f m (set_ram (zero_page (f * 4096)) (touch (win d 0) m2))) as Hw.
  { destruct (touch_equiv (win d 0) m2) as (Hr2 & E0 & E2 & E3).
    split_and!; cbn; [by rewrite Hr2; cbn; rewrite Hr|by rewrite E0|by rewrite E2|by rewrite E3]. }
  split; [exact Hw|]. intros n t. cbn [m_tlb set_ram].
  destruct (decide (n = win d 0 / 4096)) as [->|Hne].
  - rewrite (touch_lookup _ _ _ Hat Hwalk), Hn. intros [= <-]. split; [lia|].
    rewrite <- Hn, walk_page, walk_win; [|by apply (new_table_tables m _ d v f)|lia|lia|].
    + unfold table_frame. rewrite (new_table_pde m _ d v f) by (done || lia).
      by rewrite decide_True, Hvf.
    + rewrite (new_table_pde m _ d v f) by (done || lia). by rewrite decide_True.
  - rewrite touch_lookup_ne by done. cbn. rewrite lookup_delete_Some. intros [_ H].
    destruct (touch_tlb_ok _ _ Hu' Hok n t H) as [Hnr Hwk]. split; [done|].
    rewrite (touch_equiv _ m) in Hwk. by apply (new_table_walk m _ d v f).
Qed.
