(* ===== verification/PagingOps.v ===== *)
(** * The operations of paging.rs on a well-formed address space

    Each operation of [Paging.v], run on a state that satisfies [vm_ok],
    returns (it never faults and never stops the machine), leaves a state
    that satisfies [vm_ok], and changes the map of pages as its abstract
    counterpart says. *)

From S2P Require Import Prelude.
From S2P Require Import Mem.
From S2P Require Import Machine.
From S2P Require Import Pmm.
From S2P Require Import Fmt.
From S2P Require Import Panic.
From S2P Require Import Paging.
From S2P Require Import PagingSpec.

(** ** Running machine code inside the kernel state *)

Lemma on_machine_Done {A} (c : M machine A) s a m :
  c (s_machine s) = Done a m -> on_machine c s = Done a (with_machine m s).
Proof. unfold on_machine. by intros ->. Qed.

Lemma on_machine_bind {A B} (c : M machine A) (k : A -> M machine B) s :
  on_machine (bind c k) s = bind (on_machine c) (fun a => on_machine (k a)) s.
Proof. unfold on_machine, bind. destruct (c (s_machine s)); done. Qed.

Lemma with_machine_id s : with_machine (s_machine s) s = s.
Proof. by destruct s. Qed.

Lemma for_each_on_machine {A} (l : list A) (c : A -> M machine unit) s :
  for_each l (fun i => on_machine (c i)) s = on_machine (for_each l c) s.
Proof.
  revert s. induction l as [|i l IH]; intros s.
  - unfold on_machine. cbn. unfold ret. by rewrite with_machine_id.
  - cbn [for_each]. rewrite on_machine_bind. unfold bind.
    destruct (on_machine (c i) s); done.
Qed.

Lemma for_each_ext {S A} (l : list A) (c c' : A -> M S unit) s :
  (forall i, i ∈ l -> c i = c' i) -> for_each l c s = for_each l c' s.
Proof.
  revert s. induction l as [|i l IH]; intros s H; [done|]. cbn [for_each].
  rewrite (H i) by set_solver. unfold bind. destruct (c' i s); try done.
  apply IH. intros j Hj. apply H. set_solver.
Qed.

(** ** Addresses *)

Lemma dir_index_eq addr : dir_index addr = addr / 4194304.
Proof. unfold dir_index. by rewrite Z.shiftr_div_pow2 by lia. Qed.

Lemma table_index_eq addr : table_index addr = (addr / 4096) mod 1024.
Proof.
  unfold table_index. change 0x3ff with (Z.ones 10).
  by rewrite Z.land_ones, Z.shiftr_div_pow2 by lia.
Qed.

Lemma offset_eq addr : offset addr = addr mod 4096.
Proof.
  unfold offset. layout_consts. change (4096 - 1) with (Z.ones 12). by rewrite Z.land_ones by lia.
Qed.

Lemma indices_range addr :
  is_u32 addr -> 0 <= dir_index addr < 1024 /\ 0 <= table_index addr < 1024 /\
    addr / 4096 = dir_index addr * 1024 + table_index addr.
Proof. unfold is_u32. rewrite dir_index_eq, table_index_eq. intros. dlia. Qed.

Lemma word_ptr_table d i : 0 <= d < 1024 -> 0 <= i < 1024 -> word_ptr (table d) i = win d i.
Proof. intros. unfold word_ptr, table, win. layout_consts. word_lia. Qed.

Lemma word_ptr_directory d : 0 <= d < 1024 -> word_ptr DIRECTORY d = win 1023 d.
Proof. intros. unfold word_ptr, DIRECTORY, win. word_lia. Qed.

Lemma table_win d : 0 <= d < 1024 -> table d = win d 0.
Proof. intros. unfold table, win. layout_consts. word_lia. Qed.

(** ** Entries *)

Lemma land_PRESENT e : (Z.land e PRESENT =? 0) = negb (entry_present e).
Proof. apply land_present. Qed.

Lemma land_FRAME e : Z.land e FRAME = entry_frame e.
Proof. done. Qed.

Lemma testbit_frame_low f k : 0 <= k < 12 -> Z.testbit (f * 4096) k = false.
Proof. intros. change 4096 with (2 ^ 12). rewrite Z.mul_pow2_bits, Z.testbit_neg_r by lia. done. Qed.

(** A frame with flags: the fields read back. *)
Lemma entry_make f flags :
  0 <= f < 1048576 -> 0 <= flags < 4096 ->
  let e := Z.lor (f * 4096) flags in
  is_u32 e /\ entry_frame e = f * 4096 /\ (forall k, 0 <= k < 12 -> Z.testbit e k = Z.testbit flags k).
Proof.
  intros Hf Hfl e.
  assert (is_u32 e) as Hu by (apply (lor_range _ _ 32); lia).
  assert (e mod 4096 = flags) as Hm.
  { subst e. change 4096 with (2 ^ 12). rewrite <- Z.land_ones, Z.land_lor_distr_l by lia.
    rewrite !Z.land_ones, Z.mod_mul, Z.lor_0_l, Z.mod_small by lia. done. }
  assert (e / 4096 = f) as Hq.
  { subst e. change 4096 with (2 ^ 12). rewrite <- Z.shiftr_div_pow2, Z.shiftr_lor by lia.
    rewrite !Z.shiftr_div_pow2, Z.div_mul, (Z.div_small flags) by lia. apply Z.lor_0_r. }
  split_and!; [apply Hu..| |].
  - rewrite entry_frame_eq by done. dlia.
  - intros k Hk. subst e. rewrite Z.lor_spec, testbit_frame_low by lia. done.
Qed.

Lemma entry_frame_number e : is_u32 e ->
  exists f, 0 <= f < 1048576 /\ entry_frame e = f * 4096 /\ f = entry_frame e / 4096.
Proof.
  intros He. exists (entry_frame e / 4096). rewrite entry_frame_eq by done.
  unfold is_u32 in He. dlia.
Qed.

(** The entry [map_page] and [protect] write. *)
Definition leaf (frame flags : Z) : Z := Z.lor (Z.lor (Z.land frame FRAME) flags) PRESENT.

Lemma leaf_fields frame flags :
  is_u32 frame -> 0 <= flags < 4096 ->
  is_u32 (leaf frame flags) /\ entry_frame (leaf frame flags) = entry_frame frame /\
  entry_present (leaf frame flags) = true /\
  entry_writable (leaf frame flags) = Z.testbit flags 1 /\
  Z.testbit (leaf frame flags) 2 = Z.testbit flags 2.
Proof.
  intros Hfr Hfl. unfold leaf. rewrite land_FRAME, <- Z.lor_assoc.
  destruct (entry_frame_number frame Hfr) as (f & Hf & -> & _).
  assert (0 <= Z.lor flags PRESENT < 4096) as Hfl'
    by (apply (lor_range flags PRESENT 12); [lia|lia|by_decide]).
  destruct (entry_make f _ Hf Hfl') as (Hu & He & Hb). split_and!; [apply Hu..|done| | |].
  - unfold entry_present. rewrite Hb, Z.lor_spec by lia. apply orb_true_r.
  - unfold entry_writable. rewrite Hb, Z.lor_spec by lia. apply orb_false_r.
  - rewrite Hb, Z.lor_spec by lia. apply orb_false_r.
Qed.

(** ** How operations may change memory *)

(** The directory lets user mode into the 4 mb of its entry [d]. *)
Definition user_dir (m : machine) (d : Z) : Prop :=
  entry_present (pde m d) = true /\ Z.testbit (pde m d) 2 = true.

(** User mode reaches no page of kernel space: the directory denies it,
    whatever the tables say. *)
Definition kernel_sealed (m : machine) : Prop :=
  forall d, 0 <= d < 1024 -> is_kernel (d * 4194304) = true -> ~ user_dir m d.

(** User mode may use page [n]: both levels of the tables have the user bit. *)
Definition open_to_user (m : machine) (n : Z) : Prop :=
  user_dir m (n / 1024) /\ exists e, page_entry m n = Some e /\ Z.testbit e 2 = true.

(** Tables are only added, in frames that were free, and not opened to user
    mode in kernel space; frames only leave the free set; no byte outside
    tables and free frames changes. *)
Record evolves (m : machine) (p : pmm) (m' : machine) (p' : pmm) : Prop := {
  ev_tables : forall f, is_table m' f -> is_table m f \/ f ∈ free_set p;
  ev_kept : forall f, is_table m f -> is_table m' f;
  ev_free : free_set p' ⊆ free_set p;
  ev_bytes : forall a, ~ is_table m (a / 4096) -> a / 4096 ∉ free_set p ->
    pread8 (m_ram m') a = pread8 (m_ram m) a;
  ev_cr : m_cr0 m' = m_cr0 m /\ m_cr2 m' = m_cr2 m /\ m_cr3 m' = m_cr3 m;
  ev_user : forall d, 0 <= d < 1024 -> is_kernel (d * 4194304) = true -> user_dir m' d -> user_dir m d;
}.

Lemma evolves_equiv m p m' : m' ≡ m -> evolves m p m' p.
Proof.
  intros E. split.
  - intros f. rewrite E. auto.
  - intros f. by rewrite E.
  - done.
  - intros a _ _. by rewrite E.
  - by destruct E as (_ & ? & ? & ?).
  - intros d _ _. unfold user_dir. by rewrite E.
Qed.

Lemma evolves_trans m p m1 p1 m2 p2 :
  evolves m p m1 p1 -> evolves m1 p1 m2 p2 -> evolves m p m2 p2.
Proof.
  intros [A1 A2 A3 A4 A5 A6] [B1 B2 B3 B4 B5 B6]. split.
  - intros f [H|H]%B1; [by apply A1|right; by apply A3].
  - auto.
  - set_solver.
  - intros a Ht Hf. rewrite B4; [by apply A4| |].
    + intros [H|H]%A1; done.
    + intros H. by apply Hf, A3.
  - destruct A5 as (? & ? & ?), B5 as (? & ? & ?). split_and!; congruence.
  - auto.
Qed.

Lemma sealed_evolves m p m' p' : evolves m p m' p' -> kernel_sealed m -> kernel_sealed m'.
Proof. intros Hev Hs d Hd Hk Hu. by eapply Hs, (ev_user _ _ _ _ Hev). Qed.

Lemma sealed_equiv m m' : m' ≡ m -> kernel_sealed m -> kernel_sealed m'.
Proof. intros E. by apply (sealed_evolves m Pmm.pmm_zero m' Pmm.pmm_zero), evolves_equiv. Qed.

(** ** Keeping the invariant *)

Lemma vm_ok_equiv m m' p : m' ≡ m -> tlb_ok m' -> vm_ok m p -> vm_ok m' p.
Proof.
  intros E Htlb [H1 H2 H3 H4 H5 H6]. split; [done|by rewrite E| | | |done].
  - intros f. rewrite E. apply H3.
  - intros n e. rewrite !E. apply H4.
  - intros n n' e e'. rewrite !E. apply H5.
Qed.

Lemma managed_range n : managed n ->
  0 <= n < 1047552 /\ 0 <= n / 1024 < 1023 /\ 0 <= n mod 1024 < 1024 /\
  n = n / 1024 * 1024 + n mod 1024.
Proof. unfold managed. intros []. dlia. Qed.

(** Writing a leaf entry keeps the invariant when the entry's frame is not a
    table, not free, and not that of another page. *)
Lemma vm_ok_wrote m m' p n v :
  vm_ok m p -> managed n -> entry_present (pde m (n / 1024)) = true -> is_u32 v ->
  wrote_entry (n / 1024) (n mod 1024) v m m' -> tlb_ok m' ->
  (entry_present v = true ->
     ~ is_table m (entry_frame v / 4096) /\ (entry_frame v / 4096 ∉ free_set p) /\
     (forall k e, managed k -> k <> n -> page_entry m k = Some e ->
        entry_frame e <> entry_frame v)) ->
  vm_ok m' p.
Proof.
  intros [H1 H2 H3 H4 H5 H6] Hn Hp Hv Hw Htlb Hown.
  destruct (managed_range n Hn) as (Hn' & Hd & Hi & En).
  assert (forall k, managed k -> page_entry m' k =
    if decide (k = n) then (if entry_present v then Some v else None) else page_entry m k) as Hpe.
  { intros k Hk. destruct (managed_range k Hk).
    rewrite (wrote_entry_page_entry m _ (n / 1024) (n mod 1024) v), <- En by (done || lia). done. }
  split; [done| | | | |done].
  - by apply (wrote_entry_tables m _ (n / 1024) (n mod 1024) v).
  - intros f. rewrite (wrote_entry_is_table m) by done. apply H3.
  - intros k e Hk. rewrite (wrote_entry_is_table m), (Hpe k Hk) by done.
    case_decide; [|by apply H4]. destruct (entry_present v); [|done]. intros [= <-].
    by destruct Hown as (? & ? & _).
  - intros k k' e e' Hk Hk'. rewrite (Hpe k Hk), (Hpe k' Hk').
    repeat case_decide; subst; try done.
    + destruct (entry_present v); [|done]. intros [= <-] Hk1 E. symmetry in E.
      destruct Hown as (_ & _ & Hx); [done|]. exfalso. by apply (Hx k' e').
    + destruct (entry_present v); [|done]. intros Hk1 [= <-] E.
      destruct Hown as (_ & _ & Hx); [done|]. exfalso. by apply (Hx k e).
    + by apply H5.
Qed.

Lemma vm_ok_new_table m m' p p' d v f :
  vm_ok m p -> 0 <= d < 1023 -> entry_present (pde m d) = false -> is_u32 v ->
  entry_present v = true -> entry_writable v = true -> entry_frame v = f * 4096 ->
  f ∈ free_set p -> pmm_wf p' -> free_set p' = free_set p ∖ {[f]} ->
  (is_kernel (d * 4194304) = true -> Z.testbit v 2 = false) ->
  new_table d v f m m' -> tlb_ok m' -> vm_ok m' p' /\ evolves m p m' p'.
Proof.
  intros [H1 H2 H3 H4 H5 H6] Hd Hp Hv Hvp Hvw Hvf Hf Hwf Hset Hvu Hw Htlb.
  assert (~ is_table m f) as Hnt by (intros Hx; by apply H3 in Hx).
  assert (forall k, managed k -> page_entry m' k = page_entry m k) as Hpe.
  { intros k Hk. apply managed_range in Hk as [Hk _]. by apply (new_table_page_entry m _ d v f). }
  split; split.
  - done.
  - by apply (new_table_tables m _ d v f).
  - intros g. rewrite (new_table_is_table m m' d v f), Hset, elem_of_difference by done.
    rewrite elem_of_singleton. intros [Hg| ->]; [|tauto]. apply H3 in Hg. tauto.
  - intros n e Hn. rewrite (Hpe n Hn), (new_table_is_table m m' d v f), Hset by done.
    intros He. apply H4 in He as [Ha Hb]; [|done]. rewrite elem_of_difference.
    split; [|tauto]. intros [Hc|Hc]; [done|]. by rewrite Hc in Hb.
  - intros n n' e e' Hn Hn'. rewrite (Hpe n Hn), (Hpe n' Hn'). by apply H5.
  - done.
  - intros g. rewrite (new_table_is_table m m' d v f) by done. intros [Hg| ->]; auto.
  - intros g. rewrite (new_table_is_table m m' d v f) by done. auto.
  - rewrite Hset. apply subseteq_difference_l. done.
  - intros a Ha Hb. apply (new_table_bytes m _ d v f); try done. intros E. apply Hb. by rewrite E.
  - by destruct Hw as (_ & ? & ? & ?).
  - intros j Hj Hk. unfold user_dir. rewrite (new_table_pde m m' d v f) by done.
    case_decide as E; [subst j; rewrite (Hvu Hk); by intros []|done].
Qed.

(** ** get_page *)

Lemma dir_is_kernel addr : is_u32 addr -> is_kernel (dir_index addr * 4194304) = is_kernel addr.
Proof.
  intros Hu. unfold is_u32 in Hu. rewrite dir_index_eq. destruct (is_kernel addr) eqn:E.
  - apply not_false_iff_true. intros H. apply is_kernel_false in H.
    apply not_false_iff_true in E. apply E, is_kernel_false. layout_consts. dlia.
  - apply is_kernel_false in E. apply is_kernel_false. layout_consts. dlia.
Qed.

Lemma sealed_closed m va :
  kernel_sealed m -> is_u32 va -> is_kernel va = true -> ~ open_to_user m (va / 4096).
Proof.
  intros Hs Hu Hk [Hd _]. destruct (indices_range va Hu) as (Hr & _).
  apply (Hs (dir_index va) Hr); [by rewrite dir_is_kernel|].
  unfold is_u32 in Hu. by replace (dir_index va) with (va / 4096 / 1024) by (rewrite dir_index_eq; dlia).
Qed.

Lemma absent_dir m d : tables_ok m -> entry_present (pde m d) = false -> d <> 1023.
Proof. intros Ht Hp ->. by rewrite (tb_present _ Ht) in Hp. Qed.

Lemma directory_entry_spec s d :
  vm_ok (s_machine s) (s_pmm s) -> 0 <= d < 1024 ->
  exists m', directory_entry d s = Done (pde (s_machine s) d) (with_machine m' s) /\
    m' ≡ s_machine s /\ vm_ok m' (s_pmm s).
Proof.
  intros Hok Hd. destruct (win_arith 1023 d) as (Hu & _); [lia..|].
  exists (touch (win 1023 d) (s_machine s)). split_and!.
  - unfold directory_entry, load32. rewrite word_ptr_directory by done.
    apply on_machine_Done. rewrite vload32_win; [by rewrite pte_self by apply Hok|
      apply Hok|apply Hok|lia|lia|apply (tb_present _ (vm_tables _ _ Hok))].
  - apply touch_equiv.
  - eapply vm_ok_equiv; [apply touch_equiv|apply touch_tlb_ok; [done|apply Hok]|done].
Qed.

Lemma new_table_equiv d v f m m1 m2 : m1 ≡ m -> new_table d v f m1 m2 -> new_table d v f m m2.
Proof.
  intros E (Hr & H0 & H2 & H3). rewrite E in Hr. destruct E as (_ & E0 & E2 & E3).
  split_and!; congruence.
Qed.

(** The three steps that install a table, inside the kernel state. *)
Lemma install_table {A} s d v m2 (k : M sys A) :
  0 <= d < 1024 ->
  (vstore32 (win 1023 d) v ;; invlpg (win d 0) ;;
   for_each (seqZ 0 1024) (fun i => vstore32 (win d 0 + 4 * i) 0)) (s_machine s) = Done tt m2 ->
  (store32 (word_ptr DIRECTORY d) v ;; invalidate (table d) ;;
   for_each (seqZ 0 ENTRIES) (fun i => store32 (word_ptr (table d) i) 0) ;; k) s
  = k (with_machine m2 s).
Proof.
  intros Hd E. apply bind_Done_inv in E as ([] & ma & Ea & E).
  apply bind_Done_inv in E as ([] & mb & Eb & Ec).
  rewrite word_ptr_directory, table_win by done. unfold store32 at 1, invalidate.
  rewrite (bind_Done _ _ _ _ _ (on_machine_Done _ s _ _ Ea)).
  rewrite (bind_Done _ _ _ _ _ (on_machine_Done _ (with_machine ma s) _ _ Eb)).
  assert (for_each (seqZ 0 ENTRIES) (fun i => store32 (word_ptr (win d 0) i) 0)
            (with_machine mb s) = Done tt (with_machine m2 s)) as Hf.
  { rewrite (for_each_ext _ _ (fun i => on_machine (vstore32 (win d 0 + 4 * i) 0))).
    - rewrite for_each_on_machine. by apply (on_machine_Done _ (with_machine mb s)).
    - intros i Hi. apply elem_of_seqZ in Hi. unfold ENTRIES in Hi. unfold store32, word_ptr.
      rewrite wrap32_small; [done|]. unfold win, is_u32. lia. }
  by rewrite (bind_Done _ _ _ _ _ Hf).
Qed.

(** What [get_page] did: the state is the same up to the TLB, or a table was
    added for the address in the lowest free frame. *)
Inductive got_table (addr : Z) (create : bool) (m : machine) (p : pmm) :
  option Z -> machine -> pmm -> Prop :=
| got_found m' : m' ≡ m ->
    entry_present (pde m (dir_index addr)) = true ->
    got_table addr create m p (Some (win (dir_index addr) (table_index addr))) m' p
| got_none m' : m' ≡ m ->
    entry_present (pde m (dir_index addr)) = false ->
    create = false \/ free_set p = ∅ ->
    got_table addr create m p None m' p
| got_created m' p' f : create = true ->
    entry_present (pde m (dir_index addr)) = false ->
    f ∈ free_set p -> (forall g, g ∈ free_set p -> f <= g) ->
    free_set p' = free_set p ∖ {[f]} -> p' = snd (Pmm.alloc_frame p) ->
    new_table (dir_index addr)
      (Z.lor (f * 4096) (if is_kernel addr then KERNEL_PAGE else Z.lor KERNEL_PAGE USER)) f m m' ->
    got_table addr create m p (Some (win (dir_index addr) (table_index addr))) m' p'.

Lemma get_page_spec addr create s :
  vm_ok (s_machine s) (s_pmm s) -> is_u32 addr ->
  exists r m' p', get_page addr create s = Done r (with_pmm p' (with_machine m' s)) /\
    vm_ok m' p' /\ evolves (s_machine s) (s_pmm s) m' p' /\
    got_table addr create (s_machine s) (s_pmm s) r m' p'.
Proof.
  intros Hok Hu. destruct (indices_range addr Hu) as (Hd & Hi & _).
  destruct (directory_entry_spec s (dir_index addr) Hok Hd) as (m1 & E1 & Q1 & Hok1).
  unfold get_page. rewrite (bind_Done _ _ _ _ _ E1), land_PRESENT, word_ptr_table by done.
  assert (with_pmm (s_pmm s) (with_machine m1 s) = with_machine m1 s) as Eid by by destruct s.
  destruct (entry_present (pde (s_machine s) (dir_index addr))) eqn:Hp; cbn [negb].
  { exists (Some (win (dir_index addr) (table_index addr))), m1, (s_pmm s). unfold ret. rewrite Eid.
    split_and!; [done|done|by apply evolves_equiv|by apply got_found]. }
  pose proof (absent_dir _ _ (vm_tables _ _ Hok) Hp) as Hne.
  destruct create; cbn [negb]; cycle 1.
  { exists None, m1, (s_pmm s). unfold ret. rewrite Eid.
    split_and!; [done|done|by apply evolves_equiv|apply got_none; auto]. }
  pose proof (alloc_frame_full (s_pmm s) (vm_pmm _ _ Hok)) as Hal.
  unfold bind at 1, on_pmm. change (s_pmm (with_machine m1 s)) with (s_pmm s).
  destruct (Pmm.alloc_frame (s_pmm s)) as [[a|] p1] eqn:Ea; cycle 1.
  { destruct Hal as (-> & Hempty & _). exists None, m1, (s_pmm s).
    split_and!; [done|done|by apply evolves_equiv|apply got_none; auto]. }
  destruct Hal as (f & Hf & Hlow & -> & Hwf & Hset & _).
  set (v := Z.lor (f * 4096) (if negb (is_kernel addr) then Z.lor KERNEL_PAGE USER else KERNEL_PAGE)).
  set (s1 := with_pmm p1 (with_machine m1 s)).
  pose proof Hf as Hf'. apply elem_of_free_set in Hf' as [Hfr _]. rewrite MAX_FRAMES_val in Hfr.
  assert (is_u32 v /\ entry_frame v = f * 4096 /\ entry_present v = true /\ entry_writable v = true)
    as (Hv & Hvf & Hvp & Hvw).
  { subst v. destruct (entry_make f (if negb (is_kernel addr) then Z.lor KERNEL_PAGE USER
      else KERNEL_PAGE)) as (Hx & Hy & Hz); [done|by destruct (is_kernel addr)|].
    split_and!; [apply Hx..|done| |]; unfold entry_present, entry_writable;
      rewrite Hz by lia; by destruct (is_kernel addr). }
  destruct (new_table_spec m1 (dir_index addr) v f) as (m2 & E2 & Hw & Htlb); try assumption.
  { apply Hok1. } { apply Hok1. } { lia. } { by rewrite Q1. }
  { intros Ht. rewrite Q1 in Ht. by apply (vm_tables_used _ _ Hok) in Ht. }
  exists (Some (win (dir_index addr) (table_index addr))), m2, p1. split.
  { by rewrite (install_table s1 _ _ m2) by done. }
  apply (new_table_equiv _ _ _ _ _ _ Q1) in Hw.
  assert (is_kernel (dir_index addr * 4194304) = true -> Z.testbit v 2 = false) as Hvu.
  { rewrite dir_is_kernel by done. intros Hk. subst v. rewrite Hk. cbn [negb].
    destruct (entry_make f KERNEL_PAGE) as (_ & _ & Hz); [done|by_decide|]. by rewrite Hz by lia. }
  destruct (vm_ok_new_table (s_machine s) m2 (s_pmm s) p1 (dir_index addr) v f)
    as [Hok2 Hev]; [done|lia|done..|].
  split_and!; [assumption|assumption|]. eapply got_created; try eassumption; [reflexivity| |].
  - by rewrite Ea.
  - subst v. destruct (is_kernel addr); done.
Qed.

(** ** Reading and writing an entry *)

Lemma pte_equiv m m' d i : m' ≡ m -> pte m' d i = pte m d i.
Proof. intros E. by rewrite E. Qed.

Lemma load_entry s d i :
  vm_ok (s_machine s) (s_pmm s) -> 0 <= d < 1024 -> 0 <= i < 1024 ->
  entry_present (pde (s_machine s) d) = true ->
  exists m', load32 (win d i) s = Done (pte (s_machine s) d i) (with_machine m' s) /\
    m' ≡ s_machine s /\ vm_ok m' (s_pmm s).
Proof.
  intros Hok Hd Hi Hp. destruct (win_arith d i Hd Hi) as (Hu & _).
  exists (touch (win d i) (s_machine s)). split_and!.
  - apply on_machine_Done. by apply vload32_win; try apply Hok.
  - apply touch_equiv.
  - eapply vm_ok_equiv; [apply touch_equiv|apply touch_tlb_ok; [done|apply Hok]|done].
Qed.

Lemma evolves_wrote m m' p n v :
  vm_ok m p -> managed n -> entry_present (pde m (n / 1024)) = true ->
  wrote_entry (n / 1024) (n mod 1024) v m m' -> evolves m p m' p.
Proof.
  intros Hok Hn Hp Hw. destruct (managed_range n Hn) as (_ & Hd & Hi & _).
  pose proof (vm_tables _ _ Hok) as Ht. split.
  - intros f. rewrite (wrote_entry_is_table m m' (n / 1024) (n mod 1024) v) by done. auto.
  - intros f. by rewrite (wrote_entry_is_table m m' (n / 1024) (n mod 1024) v).
  - done.
  - intros a Ha _. by apply (wrote_entry_bytes m m' (n / 1024) (n mod 1024) v).
  - by destruct Hw as (_ & ? & ? & ?).
  - intros d Hd' _. unfold user_dir. by rewrite (wrote_entry_pde m m' (n / 1024) (n mod 1024) v) by (done || lia).
Qed.

(** The frame [f] may be given to page [n]. *)
Definition frame_ok (m : machine) (p : pmm) (n f : Z) : Prop :=
  ~ is_table m f /\ (f ∉ free_set p) /\
  forall k e, managed k -> k <> n -> page_entry m k = Some e -> entry_frame e / 4096 <> f.

Lemma store_entry {A} s addr v (k : M sys A) :
  let n := addr / 4096 in
  vm_ok (s_machine s) (s_pmm s) -> managed n -> is_u32 addr ->
  entry_present (pde (s_machine s) (dir_index addr)) = true -> is_u32 v ->
  (entry_present v = true -> frame_ok (s_machine s) (s_pmm s) n (entry_frame v / 4096)) ->
  exists m', (store32 (win (dir_index addr) (table_index addr)) v ;; invalidate addr ;; k) s
      = k (with_machine m' s) /\
    vm_ok m' (s_pmm s) /\ evolves (s_machine s) (s_pmm s) m' (s_pmm s) /\
    forall j, 0 <= j < 1047552 -> page_entry m' j =
      if decide (j = n) then (if entry_present v then Some v else None)
      else page_entry (s_machine s) j.
Proof.
  intros n Hok Hn Hu Hp Hv Hown. destruct (managed_range n Hn) as (Hr & Hd & Hi & En).
  assert (dir_index addr = n / 1024) as Ed by (rewrite dir_index_eq; subst n; dlia).
  assert (table_index addr = n mod 1024) as Ei by (rewrite table_index_eq; done).
  rewrite Ed, Ei in *.
  destruct (set_entry_spec (s_machine s) (n / 1024) (n mod 1024) v addr) as (m' & E & Hw & Htlb);
    try done; try apply Hok.
  exists m'. split_and!.
  - apply bind_Done_inv in E as ([] & ma & Ea & Eb).
    unfold store32, invalidate.
    rewrite (bind_Done _ _ _ _ _ (on_machine_Done _ s _ _ Ea)).
    by rewrite (bind_Done _ _ _ _ _ (on_machine_Done _ (with_machine ma s) _ _ Eb)).
  - eapply (vm_ok_wrote (s_machine s) m' _ n v); try done.
    intros Hvp. destruct (Hown Hvp) as (? & ? & Hk). split_and!; [done..|].
    intros j e Hj Hjn Hje E'. by apply (Hk j e); [| | |rewrite E'].
  - by apply (evolves_wrote _ _ _ n v).
  - intros j Hj.
    rewrite (wrote_entry_page_entry (s_machine s) m' (n / 1024) (n mod 1024) v), <- En;
      (done || lia || apply Hok).
Qed.

Lemma kernel_entry_flags (b : bool) f :
  0 <= f < 1048576 ->
  let v := Z.lor (f * 4096) (if b then KERNEL_PAGE else Z.lor KERNEL_PAGE USER) in
  is_u32 v /\ entry_frame v = f * 4096 /\ entry_present v = true /\ entry_writable v = true.
Proof.
  intros Hf v. destruct (entry_make f (if b then KERNEL_PAGE else Z.lor KERNEL_PAGE USER))
    as (Hx & Hy & Hz); [done|by destruct b|].
  split_and!; [apply Hx..|done| |]; unfold entry_present, entry_writable;
    rewrite Hz by lia; by destruct b.
Qed.

(** Whatever [get_page] did, the pages are those of before. *)
Lemma got_table_pages addr create m p r m' p' :
  vm_ok m p -> is_u32 addr -> got_table addr create m p r m' p' ->
  (forall k, 0 <= k < 1047552 -> page_entry m' k = page_entry m k) /\
  match r with
  | Some w => w = win (dir_index addr) (table_index addr) /\
              entry_present (pde m' (dir_index addr)) = true
  | None => entry_present (pde m (dir_index addr)) = false
  end.
Proof.
  intros Hok Hu Hg. destruct (indices_range addr Hu) as (Hd & _).
  destruct Hg as [m' Q Hp|m' Q Hp Hc|m' p' f Hc Hp Hf Hlow Hset Hp' Hw].
  - split; [intros k _; by rewrite Q|]. split; [done|by rewrite Q].
  - split; [intros k _; by rewrite Q|done].
  - pose proof Hf as Hfr. apply elem_of_free_set in Hfr as [Hfr _]. rewrite MAX_FRAMES_val in Hfr.
    assert (~ is_table m f) as Hnt by (intros Hx; by apply (vm_tables_used _ _ Hok) in Hx).
    destruct (kernel_entry_flags (is_kernel addr) f Hfr) as (Hv & Hvf & Hvp & Hvw).
    pose proof (vm_tables _ _ Hok) as Ht.
    set (v := Z.lor (f * 4096) _) in *.
    pose proof (absent_dir _ _ (vm_tables _ _ Hok) Hp). assert (0 <= dir_index addr < 1023) by lia. split.
    + intros k Hk. by apply (new_table_page_entry m m' (dir_index addr) v f).
    + split; [done|]. rewrite (new_table_pde m m' (dir_index addr) v f) by done.
      by rewrite decide_True.
Qed.

Lemma page_entry_pte m addr :
  is_u32 addr -> entry_present (pde m (dir_index addr)) = true ->
  page_entry m (addr / 4096) =
    if entry_present (pte m (dir_index addr) (table_index addr))
    then Some (pte m (dir_index addr) (table_index addr)) else None.
Proof.
  intros Hu Hp. unfold is_u32 in Hu. unfold page_entry.
  replace (addr / 4096 / 1024) with (dir_index addr) by (rewrite dir_index_eq; dlia).
  by rewrite <- table_index_eq, Hp.
Qed.

Lemma page_entry_absent m addr :
  is_u32 addr -> entry_present (pde m (dir_index addr)) = false ->
  page_entry m (addr / 4096) = None.
Proof.
  intros Hu Hp. unfold is_u32 in Hu. unfold page_entry.
  replace (addr / 4096 / 1024) with (dir_index addr) by (rewrite dir_index_eq; dlia).
  by rewrite Hp.
Qed.

Lemma page_entry_u32 m n e : page_entry m n = Some e -> is_u32 e /\ entry_present e = true.
Proof.
  unfold page_entry. destruct (entry_present (pde _ _)); [|done].
  destruct (entry_present (pte _ _ _)) eqn:E; [|done]. intros [= <-].
  split; [apply pread32_range|done].
Qed.

(** ** entry_of and translate *)

Lemma entry_of_spec s addr :
  vm_ok (s_machine s) (s_pmm s) -> is_u32 addr ->
  exists m', entry_of addr s = Done (page_entry (s_machine s) (addr / 4096)) (with_machine m' s) /\
    m' ≡ s_machine s /\ vm_ok m' (s_pmm s).
Proof.
  intros Hok Hu. destruct (indices_range addr Hu) as (Hd & Hi & _).
  destruct (get_page_spec addr false s Hok Hu) as (r & m1 & p1 & E & Hok1 & _ & Hg).
  unfold entry_of. rewrite (bind_Done _ _ _ _ _ E).
  destruct Hg as [m1 Q Hp|m1 Q Hp _|]; [| |done].
  - destruct (load_entry (with_pmm (s_pmm s) (with_machine m1 s)) (dir_index addr) (table_index addr))
      as (m2 & E2 & Q2 & Hok2); try done; [cbn; by rewrite Q|]. cbn in Q2.
    exists m2. rewrite (bind_Done _ _ _ _ _ E2). cbn [s_machine with_pmm with_machine].
    rewrite (pte_equiv _ _ _ _ Q), land_PRESENT, page_entry_pte by done.
    destruct (entry_present (pte _ _ _)); (split_and!; [by destruct s|by rewrite Q2|done]).
  - exists m1. rewrite page_entry_absent by done. split_and!; [by destruct s|done|done].
Qed.

Lemma translate_spec s addr :
  vm_ok (s_machine s) (s_pmm s) -> is_u32 addr ->
  exists m', translate addr s = Done
      ((fun e => entry_frame e + addr mod 4096) <$> page_entry (s_machine s) (addr / 4096))
      (with_machine m' s) /\
    m' ≡ s_machine s /\ vm_ok m' (s_pmm s).
Proof.
  intros Hok Hu. destruct (entry_of_spec s addr Hok Hu) as (m' & E & Q & Hok').
  exists m'. split_and!; [|done|done]. unfold translate. rewrite (bind_Done _ _ _ _ _ E).
  destruct (page_entry _ _) as [e|] eqn:Ee; [|done]. cbn [fmap option_fmap option_map].
  unfold ret. do 2 f_equal. apply page_entry_u32 in Ee as [He _].
  rewrite land_FRAME, offset_eq. destruct (entry_frame_number e He) as (f & Hf & -> & _).
  rewrite <- Z.lxor_lor, <- Z.add_nocarry_lxor; [done| |].
  all: apply Z.bits_inj'; intros k Hk; rewrite Z.land_spec, Z.bits_0;
    destruct (Z.lt_ge_cases k 12);
    [by rewrite testbit_frame_low by lia|
     rewrite (testbit_high (addr mod 4096) 12), andb_false_r; [done|dlia|lia]].
Qed.

(** ** map_page *)

(** When [map_page] agrees to map. *)
Definition map_allowed (m : machine) (p : pmm) (addr flags : Z) : bool :=
  negb (Z.testbit flags 2 && is_kernel addr) &&
  (entry_present (pde m (dir_index addr)) || negb (bool_decide (free_set p = ∅))) &&
  bool_decide (page_entry m (addr / 4096) = None).

Lemma map_allowed_user m p addr flags :
  is_kernel addr = false -> free_set p <> ∅ -> page_entry m (addr / 4096) = None ->
  map_allowed m p addr flags = true.
Proof.
  intros Hk Hf Hp. unfold map_allowed.
  by rewrite Hk, (andb_false_r (Z.testbit _ _)), bool_decide_false, orb_true_r, bool_decide_true.
Qed.

Lemma koops_spec args s :
  exists v, koops args s = Done tt (mkSys (s_machine s) (s_pmm s) v (s_oops s +u 1) (s_esp s)).
Proof. apply oops_spec. Qed.

Lemma land_USER flags : negb (Z.land flags USER =? 0) = Z.testbit flags 2.
Proof. unfold USER. rewrite land_bit_zero by lia. apply negb_involutive. Qed.

Lemma frame_ok_evolves addr create m p r m' p' n f :
  vm_ok m p -> is_u32 addr ->
  evolves m p m' p' -> got_table addr create m p r m' p' ->
  frame_ok m p n f -> frame_ok m' p' n f.
Proof.
  intros Hok Hu Hev Hg (H1 & H2 & H3).
  destruct (got_table_pages addr create m p r m' p') as [Hpe _]; try done. split_and!.
  - intros [Ht|Ht]%(ev_tables _ _ _ _ Hev); done.
  - intros Hf. by apply H2, (ev_free _ _ _ _ Hev).
  - intros k e Hk Hkn. rewrite Hpe by (apply managed_range in Hk; lia). by apply H3.
Qed.

Lemma frame_ok_equiv m m' p n f : m' ≡ m -> frame_ok m p n f -> frame_ok m' p n f.
Proof.
  intros E (H1 & H2 & H3). split_and!; [by rewrite E|done|].
  intros k e Hk Hn. rewrite E. by apply H3.
Qed.

(** The end of [map_page]: the table is there. *)
Definition enter (addr frame flags entry : Z) : M sys bool :=
  value <- load32 entry ;;
  if negb (Z.land value PRESENT =? 0) then
    koops (hex_alt 10 addr ++ Klib.bytes " is mapped already") ;;
    ret false
  else
    store32 entry (leaf frame flags) ;;
    invalidate addr ;;
    ret true.

Lemma enter_spec s addr frame flags :
  let m := s_machine s in let p := s_pmm s in let n := addr / 4096 in
  vm_ok m p -> is_u32 addr -> managed n -> is_u32 frame -> 0 <= flags < 4096 ->
  frame_ok m p n (entry_frame frame / 4096) -> entry_present (pde m (dir_index addr)) = true ->
  if decide (page_entry m n = None) then
    exists m', enter addr frame flags (win (dir_index addr) (table_index addr)) s = Done true (with_machine m' s) /\
      vm_ok m' p /\ evolves m p m' p /\
      forall k, 0 <= k < 1047552 -> page_entry m' k =
        if decide (k = n) then Some (leaf frame flags) else page_entry m k
  else
    exists m' v, enter addr frame flags (win (dir_index addr) (table_index addr)) s =
        Done false (mkSys m' p v (s_oops s +u 1) (s_esp s)) /\ vm_ok m' p /\ m' ≡ m.
Proof.
  intros m p n Hok Hu Hn Hfr Hfl Hown Hp. destruct (indices_range addr Hu) as (Hd & Hi & _).
  destruct (load_entry s (dir_index addr) (table_index addr) Hok Hd Hi Hp) as (m2 & E2 & Q2 & Hok2).
  unfold enter. rewrite (bind_Done _ _ _ _ _ E2), land_PRESENT, negb_involutive.
  subst n. rewrite (page_entry_pte m addr Hu Hp).
  fold m. destruct (entry_present (pte m (dir_index addr) (table_index addr))).
  { rewrite decide_False by done.
    destruct (koops_spec (hex_alt 10 addr ++ Klib.bytes " is mapped already") (with_machine m2 s)) as (v & Ek).
    rewrite (bind_Done _ _ _ _ _ Ek). by exists m2, v. }
  rewrite decide_True by done. destruct (leaf_fields frame flags Hfr Hfl) as (Hlu & Hlf & Hlp & _).
  destruct (store_entry (with_machine m2 s) addr (leaf frame flags) (ret true))
    as (m3 & E3 & Hok3 & Hev3 & Hpe3); try done.
  { cbn. by rewrite Q2. }
  { intros _. rewrite Hlf. eapply frame_ok_equiv; [exact Q2|done]. }
  exists m3. split_and!; [exact E3|done|eapply evolves_trans; [by apply evolves_equiv|exact Hev3]|].
  intros k Hk. rewrite Hpe3, Hlp by done. case_decide; [done|]. cbn. by rewrite Q2.
Qed.

(** A table is there, or there is a frame for it. *)
Lemma got_table_room addr m p w m' p' :
  got_table addr true m p (Some w) m' p' ->
  entry_present (pde m (dir_index addr)) || negb (bool_decide (free_set p = ∅)) = true /\
  p' = (if entry_present (pde m (dir_index addr)) then p else snd (Pmm.alloc_frame p)).
Proof.
  intros Hg. inversion Hg as [m1' Q Hp|m1' Q Hp Hc|m1' p1' f Hc Hp Hf Hlow Hset Hp' Hw]; subst; rewrite Hp.
  - done.
  - split; [|done]. rewrite bool_decide_false; [done|]. intros Hx. rewrite Hx in Hf. set_solver.
Qed.

Lemma map_page_spec s addr frame flags :
  let m := s_machine s in let p := s_pmm s in let n := addr / 4096 in
  vm_ok m p -> is_u32 addr -> managed n -> is_u32 frame -> 0 <= flags < 4096 ->
  frame_ok m p n (entry_frame frame / 4096) ->
  if map_allowed m p addr flags then
    exists m' p', map_page addr frame flags s = Done true (with_pmm p' (with_machine m' s)) /\
      vm_ok m' p' /\ evolves m p m' p' /\
      p' = (if entry_present (pde m (dir_index addr)) then p else snd (Pmm.alloc_frame p)) /\
      forall k, 0 <= k < 1047552 -> page_entry m' k =
        if decide (k = n) then Some (leaf frame flags) else page_entry m k
  else
    exists m' v, map_page addr frame flags s =
        Done false (mkSys m' p v (s_oops s +u 1) (s_esp s)) /\
      vm_ok m' p /\ m' ≡ m.
Proof.
  intros m p n Hok Hu Hn Hfr Hfl Hown. unfold map_allowed, map_page. rewrite land_USER.
  destruct (Z.testbit flags 2 && is_kernel addr); cbn [negb andb].
  { destruct (koops_spec (hex_alt 10 addr ++ Klib.bytes " is kernel space, it takes no user page") s)
      as (v & E). exists m, v. by rewrite (bind_Done _ _ _ _ _ E). }
  destruct (get_page_spec addr true s Hok Hu) as (r & m1 & p1 & E & Hok1 & Hev & Hg).
  rewrite (bind_Done _ _ _ _ _ E). fold m p in Hev, Hg.
  destruct (got_table_pages addr true m p r m1 p1 Hok Hu Hg) as [Hpe Hr].
  destruct r as [w|]; cycle 1.
  { (* no frame for the table *)
    inversion Hg as [|m1' Q Hp Hc|]; subst.
    destruct Hc as [|Hempty]; [done|]. rewrite Hp, bool_decide_true by done. cbn [orb negb andb].
    destruct (koops_spec (Klib.bytes "no free frame for the page table of " ++ hex_alt 10 addr)
      (with_pmm p (with_machine m1 s))) as (v & Ek).
    exists m1, v. by rewrite (bind_Done _ _ _ _ _ Ek). }
  destruct Hr as [-> Hp1], (got_table_room _ _ _ _ _ _ Hg) as [-> Hp1p].
  pose proof (enter_spec (with_pmm p1 (with_machine m1 s)) addr frame flags Hok1 Hu Hn Hfr Hfl
    (frame_ok_evolves _ _ _ _ _ _ _ _ _ Hok Hu Hev Hg Hown) Hp1) as Hent.
  change (s_machine (with_pmm p1 (with_machine m1 s))) with m1 in Hent. fold n in Hent.
  rewrite Hpe in Hent by (apply managed_range in Hn; lia).
  cbn [andb]. fold n. destruct (decide (page_entry m n = None)) as [Hnone|Hsome].
  - rewrite bool_decide_true by done. destruct Hent as (m3 & E3 & Hok3 & Hev3 & Hpe3).
    exists m3, p1. split_and!; [exact E3|done|by eapply evolves_trans|done|].
    intros k Hk. rewrite Hpe3 by done. case_decide; [done|by apply Hpe].
  - rewrite bool_decide_false by done. destruct Hent as (m3 & v & E3 & Hok3 & Q3). exists m3, v.
    destruct (entry_present (pde m (dir_index addr))) eqn:Hp0; cycle 1.
    { by destruct Hsome; apply page_entry_absent. }
    subst p1. split_and!; [exact E3|exact Hok3|]. rewrite Q3. by inversion Hg; congruence.
Qed.

(** ** Memory outside the tables *)

(** [m'] differs from [m] in bytes outside the directory and the tables. *)
Definition same_tables (m m' : machine) : Prop :=
  m_cr3 m' = m_cr3 m /\
  forall a, is_table m (a / 4096) -> pread8 (m_ram m') a = pread8 (m_ram m) a.

Section SameTables.
Context (m m' : machine).
Hypothesis (Ht : tables_ok m) (Hs : same_tables m m').

Lemma same_tables_word d i :
  0 <= d < 1024 -> entry_present (pde m d) = true -> 0 <= i < 1024 ->
  pread32 (m_ram m') (table_frame m d + 4 * i) = pread32 (m_ram m) (table_frame m d + 4 * i).
Proof.
  intros Hd Hp Hi. destruct Hs as [_ Hb]. pose proof (table_frame_aligned m d).
  assert (forall x, 0 <= x < 4096 -> pread8 (m_ram m') (table_frame m d + x)
            = pread8 (m_ram m) (table_frame m d + x)) as Hx.
  { intros x Hx. apply Hb. exists d. split_and!; [lia|lia|done|dlia]. }
  unfold pread32. rewrite <- !Z.add_assoc, !Hx by lia. done.
Qed.

Lemma same_tables_pde d : 0 <= d < 1024 -> pde m' d = pde m d.
Proof.
  intros Hd. unfold pde. replace (dir_base m') with (dir_base m)
    by (unfold dir_base; by destruct Hs as [-> _]).
  rewrite <- (tb_self _ Ht). apply same_tables_word; [lia|apply (tb_present _ Ht)|lia].
Qed.

Lemma same_tables_pte d i :
  0 <= d < 1024 -> entry_present (pde m d) = true -> 0 <= i < 1024 -> pte m' d i = pte m d i.
Proof. intros. unfold pte. rewrite same_tables_pde by done. by apply same_tables_word. Qed.

Lemma same_tables_page_entry n : 0 <= n < 1048576 -> page_entry m' n = page_entry m n.
Proof.
  intros Hn. unfold page_entry. rewrite same_tables_pde by dlia.
  destruct (entry_present (pde m (n / 1024))) eqn:Hp; [|done].
  by rewrite same_tables_pte by (done || dlia).
Qed.

Lemma same_tables_is_table f : is_table m' f <-> is_table m f.
Proof.
  unfold is_table, table_frame. split; intros (j & Hj & H); exists j;
    rewrite (same_tables_pde j) in * by lia; done.
Qed.

Lemma same_tables_ok : tables_ok m'.
Proof.
  destruct Ht as [H1 H2 H3 H4]. unfold table_frame in *. split; unfold table_frame.
  - by rewrite same_tables_pde by lia.
  - rewrite same_tables_pde by lia. unfold dir_base. by destruct Hs as [-> _].
  - intros j Hj. rewrite same_tables_pde by lia. by apply H3.
  - intros j j' Hj Hj'. rewrite !same_tables_pde by lia. by apply H4.
Qed.

Lemma same_tables_tlb : tlb_ok m -> m_tlb m' = m_tlb m -> tlb_ok m'.
Proof.
  intros Hok E n t. rewrite E. intros H. destruct (Hok n t H) as [Hn Hw]. split; [done|].
  rewrite walk_page_entry, Z.div_mul in Hw |- *
    by (apply same_tables_ok || done || unfold is_u32; lia).
  by rewrite same_tables_page_entry by done.
Qed.

End SameTables.

Lemma vm_ok_same_tables m m' p :
  vm_ok m p -> same_tables m m' -> m_tlb m' = m_tlb m -> vm_ok m' p.
Proof.
  intros [H1 H2 H3 H4 H5 H6] Hs Htlb. split.
  - done.
  - by apply (same_tables_ok m).
  - intros f. rewrite (same_tables_is_table m m') by done. apply H3.
  - intros n e Hn. rewrite (same_tables_is_table m m'), (same_tables_page_entry m m')
      by (done || apply managed_range in Hn; lia). by apply H4.
  - intros n n' e e' Hn Hn'. pose proof (managed_range n Hn). pose proof (managed_range n' Hn').
    rewrite !(same_tables_page_entry m m') by (done || lia). by apply H5.
  - by apply (same_tables_tlb m).
Qed.

(** Giving back a frame no table and no page uses. *)
Lemma vm_ok_free m p f :
  vm_ok m p -> 0 <= f < 1048576 -> ~ is_table m f ->
  (forall k e, managed k -> page_entry m k = Some e -> entry_frame e / 4096 <> f) ->
  vm_ok m (Pmm.free_frame (f * 4096) p).
Proof.
  intros [H1 H2 H3 H4 H5 H6] Hf Hnt Hown. unfold Pmm.free_frame.
  rewrite frame_of_eq, Z.div_mul by lia.
  assert (free_set (set_free f p) = {[f]} ∪ free_set p) as Hset
    by (apply set_free_set; rewrite MAX_FRAMES_val; lia).
  split; [apply set_free_wf; [done|lia]|done| | |done|done].
  - intros g Hg. rewrite Hset, elem_of_union, elem_of_singleton. intros [->|Hx]; [done|].
    by apply H3 in Hg.
  - intros n e Hn He. destruct (H4 n e Hn He) as [Ha Hb]. split; [done|].
    rewrite Hset, elem_of_union, elem_of_singleton. intros [Hx|Hx]; [|done].
    by apply (Hown n e).
Qed.

(** ** unmap_page and protect *)

(** An existing entry is found, and can be replaced. *)
Lemma found_entry s addr :
  let n := addr / 4096 in
  vm_ok (s_machine s) (s_pmm s) -> is_u32 addr -> managed n ->
  exists r m1, get_page addr false s = Done r (with_machine m1 s) /\
    m1 ≡ s_machine s /\ vm_ok m1 (s_pmm s) /\
    match r with
    | None => page_entry (s_machine s) n = None
    | Some w => w = win (dir_index addr) (table_index addr) /\
        entry_present (pde (s_machine s) (dir_index addr)) = true /\
        exists m2, load32 w (with_machine m1 s) =
            Done (pte (s_machine s) (dir_index addr) (table_index addr)) (with_machine m2 s) /\
          m2 ≡ s_machine s /\ vm_ok m2 (s_pmm s)
    end.
Proof.
  intros n Hok Hu Hn.
  destruct (indices_range addr Hu) as (Hd & Hi & _).
  destruct (get_page_spec addr false s Hok Hu) as (r & m1 & p1 & E & Hok1 & _ & Hg).
  exists r, m1. destruct Hg as [m1 Q Hp|m1 Q Hp _|]; [| |done].
  - replace (with_pmm (s_pmm s) (with_machine m1 s)) with (with_machine m1 s) in E by by destruct s.
    split_and!; [done|done|done|done|done|].
    destruct (load_entry (with_machine m1 s) (dir_index addr) (table_index addr))
      as (m2 & E2 & Q2 & Hok2); try done; [cbn; by rewrite Q|].
    exists m2. cbn [s_machine with_machine] in *. rewrite E2, (pte_equiv _ _ _ _ Q).
    split_and!; [done|by rewrite Q2|done].
  - replace (with_pmm (s_pmm s) (with_machine m1 s)) with (with_machine m1 s) in E by by destruct s.
    split_and!; [done|done|done|by apply page_entry_absent].
Qed.

(** A page of its own: its frame may be given to the page again. *)
Lemma own_frame_ok m p n e :
  vm_ok m p -> managed n -> page_entry m n = Some e -> frame_ok m p n (entry_frame e / 4096).
Proof.
  intros Hok Hn He. destruct (vm_leaf _ _ Hok n e Hn He) as [H1 H2]. split_and!; [done|done|].
  intros k e' Hk Hkn He' E. apply Hkn.
  destruct (page_entry_u32 _ _ _ He) as [Hu _], (page_entry_u32 _ _ _ He') as [Hu' _].
  apply (vm_leaf_own _ _ Hok k n e' e); try done.
  pose proof (entry_frame_aligned e Hu). pose proof (entry_frame_aligned e' Hu'). dlia.
Qed.

Lemma unmap_page_spec s addr :
  let m := s_machine s in let n := addr / 4096 in
  vm_ok m (s_pmm s) -> is_u32 addr -> managed n ->
  exists m', unmap_page addr s = Done (entry_frame <$> page_entry m n) (with_machine m' s) /\
    vm_ok m' (s_pmm s) /\ evolves m (s_pmm s) m' (s_pmm s) /\
    forall k, 0 <= k < 1047552 -> page_entry m' k = if decide (k = n) then None else page_entry m k.
Proof.
  intros m n Hok Hu Hn. destruct (found_entry s addr Hok Hu Hn) as (r & m1 & E & Q & Hok1 & Hr).
  unfold unmap_page. rewrite (bind_Done _ _ _ _ _ E). destruct r as [w|]; cycle 1.
  { exists m1. fold m n in Hr. rewrite Hr. split_and!; [done|done|by apply evolves_equiv|].
    intros k Hk. rewrite Q. by case_decide; subst. }
  destruct Hr as (-> & Hp & m2 & E2 & Q2 & Hok2).
  pose proof (page_entry_pte m addr Hu Hp) as Hent. fold n in Hent.
  rewrite (bind_Done _ _ _ _ _ E2), land_PRESENT. fold m.
  destruct (entry_present (pte m (dir_index addr) (table_index addr))) eqn:Hpp; cbn [negb].
  - destruct (store_entry (with_machine m2 s) addr 0
        (ret (Some (Z.land (pte m (dir_index addr) (table_index addr)) FRAME))))
      as (m3 & E3 & Hok3 & Hev3 & Hpe3); try done; [cbn; by rewrite Q2|].
    exists m3. rewrite E3, Hent. split_and!; [done|done| |].
    + eapply evolves_trans; [by apply evolves_equiv|done].
    + intros k Hk. rewrite Hpe3 by done. cbn [s_machine with_machine]. fold n.
      destruct (decide (k = n)); [done|by rewrite Q2].
  - exists m2. rewrite Hent. split_and!; [done|done|by apply evolves_equiv|].
    intros k Hk. rewrite Q2. by case_decide; subst.
Qed.

Lemma protect_spec s addr flags :
  let m := s_machine s in let n := addr / 4096 in
  vm_ok m (s_pmm s) -> is_u32 addr -> managed n -> 0 <= flags < 4096 ->
  exists m', protect addr flags s =
      Done (bool_decide (is_Some (page_entry m n))) (with_machine m' s) /\
    vm_ok m' (s_pmm s) /\ evolves m (s_pmm s) m' (s_pmm s) /\
    forall k, 0 <= k < 1047552 -> page_entry m' k =
      if decide (k = n) then (fun e => leaf e flags) <$> page_entry m n else page_entry m k.
Proof.
  intros m n Hok Hu Hn Hfl. destruct (found_entry s addr Hok Hu Hn) as (r & m1 & E & Q & Hok1 & Hr).
  unfold protect. rewrite (bind_Done _ _ _ _ _ E). destruct r as [w|]; cycle 1.
  { exists m1. fold m n in Hr. rewrite Hr. split_and!; [done|done|by apply evolves_equiv|].
    intros k Hk. rewrite Q. by case_decide; subst. }
  destruct Hr as (-> & Hp & m2 & E2 & Q2 & Hok2).
  pose proof (page_entry_pte m addr Hu Hp) as Hent. fold n in Hent.
  rewrite (bind_Done _ _ _ _ _ E2), land_PRESENT. fold m.
  set (e := pte m (dir_index addr) (table_index addr)) in *.
  destruct (entry_present e) eqn:Hpp; cbn [negb].
  - assert (is_u32 e) as He by apply pread32_range.
    destruct (leaf_fields e flags He Hfl) as (Hlu & Hlf & Hlp & _).
    destruct (store_entry (with_machine m2 s) addr (leaf e flags) (ret true))
      as (m3 & E3 & Hok3 & Hev3 & Hpe3); try done; [cbn; by rewrite Q2| |].
    { intros _. rewrite Hlf. eapply frame_ok_equiv; [exact Q2|]. by apply own_frame_ok. }
    exists m3. unfold leaf in E3. rewrite E3, Hent. split_and!; [done|done| |].
    + eapply evolves_trans; [by apply evolves_equiv|done].
    + intros k Hk. rewrite Hpe3, Hlp by done. cbn [s_machine with_machine]. fold n.
      destruct (decide (k = n)); [done|by rewrite Q2].
  - exists m2. rewrite Hent. split_and!; [done|done|by apply evolves_equiv|].
    intros k Hk. rewrite Q2. by case_decide; subst.
Qed.

(** ** map_new *)

Lemma vm_ok_shrink m p p1 :
  vm_ok m p -> pmm_wf p1 -> free_set p1 ⊆ free_set p -> vm_ok m p1.
Proof.
  intros [H1 H2 H3 H4 H5 H6] Hwf Hsub. split; try done.
  - intros f Hf Hx. apply H3 in Hf. by apply Hf, Hsub.
  - intros n e Hn He. destruct (H4 n e Hn He) as [Ha Hb]. split; [done|].
    intros Hx. by apply Hb, Hsub.
Qed.

(** A frame just allocated belongs to nobody. *)
Lemma alloc_frame_ok m p a p1 :
  vm_ok m p -> Pmm.alloc_frame p = (Some a, p1) ->
  exists f, a = f * 4096 /\ 0 <= f < 1048576 /\ f ∈ free_set p /\
    free_set p1 = free_set p ∖ {[f]} /\ vm_ok m p1 /\ evolves m p m p1 /\
    forall n, frame_ok m p1 n f.
Proof.
  intros Hok E. pose proof (alloc_frame_full p (vm_pmm _ _ Hok)) as H. rewrite E in H.
  destruct H as (f & Hf & Hlow & -> & Hwf & Hset & _). exists f.
  pose proof Hf as Hfr. apply elem_of_free_set in Hfr as [Hfr _]. rewrite MAX_FRAMES_val in Hfr.
  assert (free_set p1 ⊆ free_set p) as Hsub by (rewrite Hset; by apply subseteq_difference_l).
  split_and!; [done|lia|lia|done|done|by apply (vm_ok_shrink m p)| |].
  - split; try done. auto.
  - intros n. split_and!.
    + intros Ht. by apply (vm_tables_used _ _ Hok) in Ht.
    + rewrite Hset, elem_of_difference, elem_of_singleton. tauto.
    + intros k e Hk _ He E'. apply (vm_leaf _ _ Hok) in He as [_ Hx]; [|done].
      by rewrite E' in Hx.
Qed.

(** Bytes written in a frame that was free before. *)
Lemma evolves_fill m p m1 p1 m2 f :
  evolves m p m1 p1 -> f ∈ free_set p -> tables_ok m1 -> same_tables m1 m2 ->
  m_cr0 m2 = m_cr0 m1 -> m_cr2 m2 = m_cr2 m1 ->
  (forall a, a / 4096 <> f -> pread8 (m_ram m2) a = pread8 (m_ram m1) a) ->
  evolves m p m2 p1.
Proof.
  intros [H1 H2 H3 H4 H5 H6] Hf Ht Hs E0 E2 Hb. split.
  - intros g. rewrite (same_tables_is_table m1 m2) by done. apply H1.
  - intros g Hg. rewrite (same_tables_is_table m1 m2) by done. by apply H2.
  - done.
  - intros a Ha Hx. rewrite Hb; [by apply H4|]. intros E. apply Hx. by rewrite E.
  - destruct Hs as [E3 _]. destruct H5 as (? & ? & ?). split_and!; congruence.
  - intros d Hd Hk. unfold user_dir. rewrite (same_tables_pde m1 m2) by done. by apply H6.
Qed.

(** Clearing a page that was just mapped writable to frame [f]. *)
Lemma clear_page s addr f e :
  let n := addr / 4096 in let m := s_machine s in
  vm_ok m (s_pmm s) -> is_u32 addr -> managed n -> page_entry m n = Some e ->
  entry_frame e = f * 4096 -> entry_writable e = true -> 
  exists m', for_each (seqZ 0 (PAGE_SIZE / 4)) (fun i => store32 (word_ptr (page_of addr) i) 0) s
      = Done tt (with_machine m' s) /\
    vm_ok m' (s_pmm s) /\ same_tables m m' /\ m_cr0 m' = m_cr0 m /\ m_cr2 m' = m_cr2 m /\
    (forall a, pread8 (m_ram m') a = if decide (a / 4096 = f) then 0 else pread8 (m_ram m) a).
Proof.
  intros n m Hok Hu Hn He Hf Hw.
  assert (page_of addr = n * 4096) as Hpg by (rewrite page_of_eq by done; subst n; dlia).
  assert (is_u32 (n * 4096)) as Hun.
  { unfold is_u32 in *. apply managed_range in Hn. lia. }
  assert (walk m (n * 4096) = Some (mkTrans (f * 4096) true)) as Hwalk.
  { rewrite walk_page_entry, Z.div_mul, He by (done || apply Hok). cbn. unfold trans_of.
    by rewrite Hf, Hw. }
  set (m' := set_ram (zero_page (f * 4096)) (touch (n * 4096) m)).
  assert (forall a, pread8 (m_ram m') a = if decide (a / 4096 = f) then 0 else pread8 (m_ram m) a)
    as Hb.
  { intros a. subst m'. cbn. rewrite zero_page_bytes, touch_ram.
    destruct (decide (a / 4096 = f)), (decide (f * 4096 <= a < _)); try done; dlia. }
  destruct (touch_equiv (n * 4096) m) as (_ & E0 & E2 & E3).
  assert (same_tables m m') as Hst.
  { split; [done|]. intros a Ha. rewrite Hb, decide_False; [done|]. intros E.
    destruct (vm_leaf _ _ Hok n e Hn He) as [Hx _]. apply Hx. by rewrite Hf, Z.div_mul, <- E. }
  exists m'. split_and!; [| |done|done|done|done].
  - rewrite Hpg, (for_each_ext _ _ (fun i => on_machine (vstore32 (n * 4096 + 4 * i) 0))).
    + rewrite for_each_on_machine. apply on_machine_Done.
      exact (zero_page_ok _ _ _ Hun ltac:(dlia) (tlb_ok_at _ _ (vm_tlb _ _ Hok)) Hwalk eq_refl).
    + intros i Hi. apply elem_of_seqZ in Hi. unfold store32, word_ptr.
      rewrite wrap32_small; [done|]. change (PAGE_SIZE / 4) with 1024 in Hi.
      unfold is_u32. apply managed_range in Hn. lia.
  - apply (vm_ok_same_tables (touch (n * 4096) m)); [|split; [done|]|done].
    + eapply vm_ok_equiv; [apply touch_equiv|apply touch_tlb_ok; [done|apply Hok]|done].
    + intros a. rewrite (touch_equiv (n * 4096) m). by apply Hst.
Qed.

Lemma leaf_again frame flags :
  is_u32 frame -> 0 <= flags < 4096 -> Z.testbit flags 1 = false ->
  leaf (leaf frame (Z.lor flags WRITABLE)) flags = leaf frame flags.
Proof.
  intros Hf Hfl Hw.
  assert (0 <= Z.lor flags WRITABLE < 4096) as Hfl'
    by (apply (lor_range flags WRITABLE 12); [lia|lia|by_decide]).
  destruct (leaf_fields frame _ Hf Hfl') as (_ & E & _).
  unfold leaf at 1. by rewrite land_FRAME, E, <- land_FRAME.
Qed.

Lemma land_WRITABLE flags : (Z.land flags WRITABLE =? 0) = negb (Z.testbit flags 1).
Proof. unfold WRITABLE. by rewrite land_bit_zero by lia. Qed.

Lemma lor_WRITABLE_id flags : Z.testbit flags 1 = true -> Z.lor flags WRITABLE = flags.
Proof.
  intros H. apply Z.bits_inj'. intros k Hk. rewrite Z.lor_spec. unfold WRITABLE.
  rewrite Z.shiftl_1_l, Z.pow2_bits_eqb by lia.
  destruct (Z.eqb_spec 1 k) as [<-|]; [by rewrite H|apply orb_false_r].
Qed.

(** The page mapped, its frame cleared. *)
Definition mapped_new (m : machine) (p : pmm) (n frame flags : Z) (m' : machine) (p' : pmm) : Prop :=
  vm_ok m' p' /\ evolves m p m' p' /\
  (forall k, 0 <= k < 1047552 -> page_entry m' k =
     if decide (k = n) then Some (leaf frame flags) else page_entry m k) /\
  p' = (let p1 := snd (Pmm.alloc_frame p) in
        if entry_present (pde m (n / 1024)) then p1 else snd (Pmm.alloc_frame p1)) /\
  forall a, a / 4096 = frame / 4096 -> pread8 (m_ram m') a = 0.

(** The end of [map_new]: the page is mapped to the frame [f], writable. *)
Definition finish_new (addr flags frame : Z) : M sys (option Z) :=
  for_each (seqZ 0 (PAGE_SIZE / 4)) (fun i => store32 (word_ptr (page_of addr) i) 0) ;;
  (if Z.land flags WRITABLE =? 0 then protect addr flags ;; ret tt else ret tt) ;;
  ret (Some frame).

Lemma finish_new_spec s addr flags f :
  let m := s_machine s in let p := s_pmm s in let n := addr / 4096 in
  vm_ok m p -> is_u32 addr -> managed n -> 0 <= flags < 4096 -> 0 <= f < 1048576 ->
  page_entry m n = Some (leaf (f * 4096) (Z.lor flags WRITABLE)) ->
  exists m', finish_new addr flags (f * 4096) s = Done (Some (f * 4096)) (with_machine m' s) /\ vm_ok m' p /\
    (exists m3, vm_ok m3 p /\ same_tables m m3 /\ m_cr0 m3 = m_cr0 m /\ m_cr2 m3 = m_cr2 m /\ evolves m3 p m' p /\
       forall x, x / 4096 <> f -> pread8 (m_ram m3) x = pread8 (m_ram m) x) /\
    (forall k, 0 <= k < 1047552 -> page_entry m' k =
       if decide (k = n) then Some (leaf (f * 4096) flags) else page_entry m k) /\
    forall x, x / 4096 = f -> pread8 (m_ram m') x = 0.
Proof.
  intros m p n Hok Hu Hn Hfl Hf He.
  assert (is_u32 (f * 4096)) as Hau by (unfold is_u32; lia).
  assert (entry_frame (f * 4096) = f * 4096) as Hef by (rewrite entry_frame_eq by done; dlia).
  assert (0 <= Z.lor flags WRITABLE < 4096) as Hfl'
    by (apply (lor_range flags WRITABLE 12); [lia|lia|by_decide]).
  destruct (leaf_fields (f * 4096) _ Hau Hfl') as (_ & Hlf & Hlp & Hlw & _). rewrite Hef in Hlf.
  destruct (clear_page s addr f (leaf (f * 4096) (Z.lor flags WRITABLE)))
    as (m3 & E3 & Hok3 & Hst & E0 & Ec2 & Hb); try done.
  { rewrite Hlw, Z.lor_spec. apply orb_true_r. }
  fold m in Hst, E0, Ec2, Hb. pose proof (managed_range n Hn) as Hr.
  assert (forall k, 0 <= k < 1047552 -> page_entry m3 k = page_entry m k) as Hpe
    by (intros k Hk; apply (same_tables_page_entry _ _ (vm_tables _ _ Hok) Hst); lia).
  assert (forall x, x / 4096 <> f -> pread8 (m_ram m3) x = pread8 (m_ram m) x) as Hout
    by (intros x Hx; by rewrite Hb, decide_False).
  unfold finish_new. rewrite (bind_Done _ _ _ _ _ E3), land_WRITABLE.
  destruct (Z.testbit flags 1) eqn:Hw1; cbn [negb].
  - exists m3. split; [done|]. split; [done|]. split; [exists m3; split_and!; try done; by apply evolves_equiv|]. split.
    + intros k Hk. rewrite Hpe by done. case_decide; [subst k; by rewrite He, lor_WRITABLE_id|done].
    + intros x Hx. by rewrite Hb, decide_True.
  - destruct (protect_spec (with_machine m3 s) addr flags) as (m4 & E4 & Hok4 & Hev4 & Hpe4); try done.
    cbn [s_machine s_pmm with_machine] in *. fold n p in Hpe4, Hev4, Hok4.
    exists m4. split; [|split; [done|split; [by exists m3|split]]].
    + by rewrite (bind_Done _ _ _ tt (with_machine m4 s)) by (by rewrite (bind_Done _ _ _ _ _ E4)).
    + intros k Hk. rewrite Hpe4, !Hpe, He by lia. cbn [fmap option_fmap option_map]. by rewrite leaf_again.
    + intros x Hx. destruct (vm_leaf _ _ Hok3 n _ Hn (eq_trans (Hpe n ltac:(lia)) He)) as [H1 H2].
      rewrite Hlf, Z.div_mul in H1, H2 by lia.
      rewrite (ev_bytes _ _ _ _ Hev4); rewrite ?Hx; [by rewrite Hb, decide_True|done|done].
Qed.

(** The frame of a refused page goes back. *)
Lemma give_back m p p1 m2 f :
  vm_ok m2 p1 -> m2 ≡ m -> 0 <= f < 1048576 -> f ∈ free_set p -> free_set p1 = free_set p ∖ {[f]} ->
  frame_ok m p1 0 f ->
  vm_ok m2 (Pmm.free_frame (f * 4096) p1) /\ free_set (Pmm.free_frame (f * 4096) p1) = free_set p.
Proof.
  intros Hok Q Hf Hfree Hset (Ht & _ & Hk). split.
  - apply vm_ok_free; [done|lia|by rewrite Q|]. intros k e Hm. rewrite Q. apply Hk; [done|destruct Hm; lia].
  - unfold Pmm.free_frame. rewrite frame_of_eq, Z.div_mul by lia.
    rewrite set_free_set, Hset by (rewrite MAX_FRAMES_val; lia).
    apply set_eq. intros g. rewrite elem_of_union, elem_of_difference, elem_of_singleton.
    destruct (decide (g = f)); intuition congruence.
Qed.

Lemma map_new_spec s addr flags :
  let m := s_machine s in let p := s_pmm s in let n := addr / 4096 in
  vm_ok m p -> is_u32 addr -> managed n -> 0 <= flags < 4096 ->
  match Pmm.alloc_frame p with
  | (None, _) => map_new addr flags s = Done None s
  | (Some frame, p1) =>
      if map_allowed m p1 addr flags then
        exists m' p', map_new addr flags s = Done (Some frame) (with_pmm p' (with_machine m' s)) /\
          mapped_new m p n frame flags m' p'
      else
        exists m' p' v, map_new addr flags s =
            Done None (mkSys m' p' v (s_oops s +u 1) (s_esp s)) /\
          vm_ok m' p' /\ m' ≡ m /\ free_set p' = free_set p
  end.
Proof.
  intros m p n Hok Hu Hn Hfl.
  destruct (Pmm.alloc_frame p) as [[a|] p1] eqn:Ea; cycle 1.
  { pose proof (alloc_frame_full p (vm_pmm _ _ Hok)) as H. rewrite Ea in H.
    destruct H as (-> & _). unfold map_new, bind, on_pmm. fold p. rewrite Ea.
    unfold ret. by destruct s. }
  destruct (alloc_frame_ok m p a p1 Hok Ea) as (f & -> & Hf & Hfree & Hset & Hok1 & Hev1 & Hown).
  assert (is_u32 (f * 4096)) as Hau by (unfold is_u32; lia).
  assert (entry_frame (f * 4096) = f * 4096) as Hef by (rewrite entry_frame_eq by done; dlia).
  assert (0 <= Z.lor flags WRITABLE < 4096) as Hfl'
    by (apply (lor_range flags WRITABLE 12); [lia|lia|by_decide]).
  pose proof (map_page_spec (with_pmm p1 s) addr (f * 4096) (Z.lor flags WRITABLE) Hok1 Hu Hn Hau Hfl') as Hmap.
  cbn [s_machine s_pmm with_pmm] in Hmap. fold m n in Hmap.
  assert (map_allowed m p1 addr (Z.lor flags WRITABLE) = map_allowed m p1 addr flags) as Eal.
  { unfold map_allowed. rewrite Z.lor_spec. by rewrite orb_false_r. }
  rewrite Eal in Hmap. specialize (Hmap ltac:(rewrite Hef, Z.div_mul by lia; apply Hown)).
  unfold map_new. rewrite (bind_Done _ _ s (Some (f * 4096)) (with_pmm p1 s))
    by (unfold on_pmm; fold p; by rewrite Ea).
  destruct (map_allowed m p1 addr flags).
  - destruct Hmap as (m2 & p2 & E2 & Hok2 & Hev2 & Hp2 & Hpe2). rewrite (bind_Done _ _ _ _ _ E2). cbn [negb].
    destruct (finish_new_spec (with_pmm p2 (with_machine m2 s)) addr flags f) as (m4 & E4 & Hok4 & H3 & Hpe4 & Hz); try done.
    { cbn. rewrite Hpe2 by (apply managed_range in Hn; subst n; lia). by rewrite decide_True. }
    cbn [s_machine s_pmm with_pmm with_machine] in *. destruct H3 as (m3 & Hok3 & Hst & E0 & Ec2 & Hev4 & Hout).
    exists m4, p2. split; [exact E4|]. split_and!; [done| | | |].
    + eapply evolves_trans; [|exact Hev4]. apply (evolves_fill m p m2 p2 m3 f); try done; [by eapply evolves_trans|apply Hok2].
    + intros k Hk. rewrite Hpe4, Hpe2 by done. fold n. by case_decide.
    + rewrite Ea. cbn [snd]. replace (n / 1024) with (dir_index addr); [done|].
      rewrite dir_index_eq. unfold is_u32 in Hu. subst n. dlia.
    + intros x. rewrite Z.div_mul by lia. apply Hz.
  - destruct Hmap as (m2 & v & E2 & Hok2 & Q2). rewrite (bind_Done _ _ _ _ _ E2). cbn [negb].
    destruct (give_back m p p1 m2 f Hok2 Q2 Hf Hfree Hset (Hown 0)) as [H1 H2].
    exists m2, (Pmm.free_frame (f * 4096) p1), v. by split_and!.
Qed.

(** ** Data accesses to mapped pages *)

(** The physical address behind a mapped address. *)
Definition phys (m : machine) (va : Z) : option Z :=
  (fun e => entry_frame e + va mod 4096) <$> page_entry m (va / 4096).

Lemma data_load32 s va pa :
  let m := s_machine s in
  vm_ok m (s_pmm s) -> is_u32 va -> va mod 4096 <= 4092 -> phys m va = Some pa ->
  exists m', load32 va s = Done (pread32 (m_ram m) pa) (with_machine m' s) /\
    m' ≡ m /\ vm_ok m' (s_pmm s).
Proof.
  intros m Hok Hu Hva Hpa. unfold phys in Hpa.
  apply fmap_Some in Hpa as (e & He & ->).
  exists (touch va m). split_and!; [|apply touch_equiv|].
  - apply on_machine_Done. apply (vload32_ok va _ (trans_of e)); [|  |done].
    + apply tlb_ok_at, Hok.
    + rewrite walk_page_entry by (done || apply Hok). fold m. by rewrite He.
  - eapply vm_ok_equiv; [apply touch_equiv|apply touch_tlb_ok; [done|apply Hok]|done].
Qed.

Lemma data_store32 s va v e :
  let m := s_machine s in let pa := entry_frame e + va mod 4096 in
  vm_ok m (s_pmm s) -> is_u32 va -> managed (va / 4096) -> va mod 4096 <= 4092 ->
  page_entry m (va / 4096) = Some e -> entry_writable e = true ->
  exists m', store32 va v s = Done tt (with_machine m' s) /\
    vm_ok m' (s_pmm s) /\ same_tables m m' /\
    m_ram m' = pwrite32 pa v (m_ram m) /\
    m_cr0 m' = m_cr0 m /\ m_cr2 m' = m_cr2 m.
Proof.
  intros m pa Hok Hu Hn Hva He Hw.
  set (m' := set_ram (pwrite32 pa v) (touch va m)).
  destruct (touch_equiv va m) as (Er & E0 & E2 & E3).
  assert (m_ram m' = pwrite32 pa v (m_ram m)) as Hram by (subst m'; cbn; by rewrite Er).
  assert (same_tables m m') as Hst.
  { split; [done|]. intros a Ha. rewrite Hram. unfold pwrite32. rewrite !pread8_write8.
    destruct (vm_leaf _ _ Hok _ e Hn He) as [Hx _].
    destruct (page_entry_u32 _ _ _ He) as [Heu _]. pose proof (entry_frame_aligned e Heu).
    assert (a / 4096 <> entry_frame e / 4096) by (intros E; by rewrite E in Ha).
    repeat case_decide; subst pa; try done; dlia. }
  exists m'. split_and!; [| |done|done|done|done].
  - apply on_machine_Done. apply (vstore32_ok va v _ (trans_of e)); [|  |done|done].
    + apply tlb_ok_at, Hok.
    + rewrite walk_page_entry by (done || apply Hok). fold m. by rewrite He.
  - apply (vm_ok_same_tables (touch va m)); [|split; [done|]|done].
    + eapply vm_ok_equiv; [apply touch_equiv|apply touch_tlb_ok; [done|apply Hok]|done].
    + intros a. rewrite (touch_equiv va m). by apply Hst.
Qed.
