(* ===== verification/AddressSpace.v ===== *)
(** * The address space: theorems about paging.rs

    Demand paging, the operations as steps on the map of pages, and what
    they guarantee together. *)

From S2P Require Import Prelude.
From S2P Require Import Mem.
From S2P Require Import Machine.
From S2P Require Import Pmm.
From S2P Require Import Fmt.
From S2P Require Import Panic.
From S2P Require Import Paging.
From S2P Require Import PagingSpec.
From S2P Require Import PagingOps.

(** ** Demand paging *)

Lemma demand_managed addr :
  is_demand addr = true ->
  is_u32 addr /\ is_u32 (page_of addr) /\ page_of addr / 4096 = addr / 4096 /\
  managed (addr / 4096) /\ is_kernel (page_of addr) = false /\
  dir_index (page_of addr) = 2.
Proof.
  intros Hd. apply is_demand_true in Hd. layout_consts.
  assert (is_u32 addr) as Hu by (unfold is_u32; lia).
  pose proof (page_of_eq addr Hu) as E. split; [done|].
  assert (page_of addr / 4096 = addr / 4096) as En by (rewrite E; dlia).
  split; [rewrite E; word_lia|]. split; [done|]. split; [unfold managed; dlia|]. split.
  - apply is_kernel_false. layout_consts. rewrite E. dlia.
  - rewrite dir_index_eq, E. dlia.
Qed.

(** When the handler can resolve a fault. *)
Definition resolvable (m : machine) (p : pmm) (addr error : Z) : bool :=
  negb (Z.testbit error 0) && is_demand addr && negb (bool_decide (free_set p = ∅)) &&
  (entry_present (pde m 2) || negb (bool_decide (free_set (snd (Pmm.alloc_frame p)) = ∅))) &&
  bool_decide (page_entry m (addr / 4096) = None).

Lemma resolvable_true m p addr error :
  Z.testbit error 0 = false -> is_demand addr = true -> free_set p <> ∅ ->
  entry_present (pde m 2) = true \/ free_set (snd (Pmm.alloc_frame p)) <> ∅ ->
  page_entry m (addr / 4096) = None -> resolvable m p addr error = true.
Proof.
  intros He Hd Hf Hroom Hp. unfold resolvable.
  rewrite He, Hd, (bool_decide_false (free_set p = ∅)), (bool_decide_true (page_entry _ _ = None))
    by assumption.
  destruct Hroom as [->|Hx]; [done|]. rewrite bool_decide_false by assumption.
  by rewrite orb_true_r.
Qed.

Lemma handle_fault_spec s addr error :
  let m := s_machine s in let p := s_pmm s in
  vm_ok m p ->
  if resolvable m p addr error then
    exists frame m' p', handle_fault addr error s = Done true (with_pmm p' (with_machine m' s)) /\
      fst (Pmm.alloc_frame p) = Some frame /\
      mapped_new m p (addr / 4096) frame USER_PAGE m' p'
  else
    exists m' p' v o, handle_fault addr error s = Done false (mkSys m' p' v o (s_esp s)) /\
      vm_ok m' p' /\ m' ≡ m /\ free_set p' = free_set p.
Proof.
  intros m p Hok. unfold resolvable, handle_fault. rewrite land_PRESENT, negb_involutive.
  unfold entry_present. destruct (Z.testbit error 0); cbn [negb orb andb].
  { exists m, p, (s_vga s), (s_oops s). split_and!; [by destruct s|done|done|done]. }
  destruct (is_demand addr) eqn:Hd; cbn [negb orb andb]; cycle 1.
  { exists m, p, (s_vga s), (s_oops s). split_and!; [by destruct s|done|done|done]. }
  destruct (demand_managed addr Hd) as (Hu & Hup & En & Hn & Hk & Hdir).
  pose proof (map_new_spec s (page_of addr) USER_PAGE Hok Hup) as Hmap.
  cbv zeta in Hmap. fold m p in Hmap. rewrite En in Hmap.
  specialize (Hmap Hn ltac:(by_decide)).
  pose proof (alloc_frame_full p (vm_pmm _ _ Hok)) as Hal.
  destruct (Pmm.alloc_frame p) as [[frame|] p1] eqn:Ea.
  - destruct Hal as (f & Hf & _). rewrite (bool_decide_false (free_set p = ∅)) by
      (intros Hx; rewrite Hx in Hf; set_solver).
    unfold map_allowed in Hmap. rewrite Hk, andb_false_r, Hdir, En in Hmap.
    cbn [negb andb snd fst] in *. unfold entry_present in Hmap.
    destruct (_ && _).
    + destruct Hmap as (m' & p' & E & Hnew). exists frame, m', p'.
      by rewrite (bind_Done _ _ _ _ _ E).
    + destruct Hmap as (m' & p' & v & E & H1 & H2 & H3). exists m', p', v, (s_oops s +u 1).
      rewrite (bind_Done _ _ _ _ _ E). done.
  - destruct Hal as (-> & Hempty & _). rewrite (bool_decide_true (free_set p = ∅)) by done.
    cbn [negb andb]. exists m, p, (s_vga s), (s_oops s).
    rewrite (bind_Done _ _ _ _ _ Hmap). split_and!; [by destruct s|done|done|done].
Qed.

(** ** Releasing a page *)

(** What the shell does to drop a page: unmap it, give its frame back. *)
(** shell.rs 329-331: cmd_user *)
Definition release (addr : Z) : M sys unit :=
  got <- unmap_page addr ;;
  match got with
  | Some frame => on_pmm (fun p => (tt, Pmm.free_frame frame p))
  | None => ret tt
  end.

Lemma release_spec s addr :
  let m := s_machine s in let n := addr / 4096 in
  vm_ok m (s_pmm s) -> is_u32 addr -> managed n ->
  exists m' p', release addr s = Done tt (with_pmm p' (with_machine m' s)) /\
    vm_ok m' p' /\
    (forall k, 0 <= k < 1047552 -> page_entry m' k = if decide (k = n) then None else page_entry m k) /\
    free_set p' = match page_entry m n with
                  | Some e => {[entry_frame e / 4096]} ∪ free_set (s_pmm s)
                  | None => free_set (s_pmm s)
                  end /\
    (kernel_sealed m -> kernel_sealed m').
Proof.
  intros m n Hok Hu Hn. destruct (unmap_page_spec s addr Hok Hu Hn) as (m' & E & Hok' & Hev & Hpe).
  fold m n in E, Hpe, Hev. pose proof (sealed_evolves _ _ _ _ Hev) as Hseal. unfold release. rewrite (bind_Done _ _ _ _ _ E).
  destruct (page_entry m n) as [e|] eqn:He; cbn [fmap option_fmap option_map]; cycle 1.
  { exists m', (s_pmm s). split; [by destruct s|]. split; [assumption|]. split; [assumption|]. split; [reflexivity|exact Hseal]. }
  destruct (page_entry_u32 _ _ _ He) as [Heu _].
  destruct (entry_frame_number e Heu) as (f & Hf & Ef & _).
  exists m', (Pmm.free_frame (entry_frame e) (s_pmm s)). rewrite Ef, Z.div_mul by lia.
  destruct (own_frame_ok m (s_pmm s) n e Hok Hn He) as (Ht & _ & Hown).
  rewrite Ef, Z.div_mul in Ht, Hown by lia.
  split; [reflexivity|]. split; [|split; [assumption|split; [|exact Hseal]]].
  - apply vm_ok_free; [assumption|lia| |].
    + intros Hx. apply (ev_tables _ _ _ _ Hev) in Hx as [Hx|Hx]; [contradiction|].
      apply (vm_leaf _ _ Hok n e Hn) in He as [_ He]. by rewrite Ef, Z.div_mul in He by lia.
    + intros k e' Hk. pose proof (managed_range k Hk). rewrite Hpe by lia.
      case_decide; [done|]. by apply Hown.
  - unfold Pmm.free_frame. rewrite frame_of_eq, Z.div_mul by lia.
    by rewrite set_free_set by (rewrite MAX_FRAMES_val; lia).
Qed.

(** ** A state to run on *)

(** A machine whose directory holds only its own mapping, with three free
    frames. *)
Definition demo_machine : machine :=
  mkMachine (pwrite32 (4096 + 4 * 1023) 4099 ∅) ∅ 0x80010011 0 4096.
Definition demo_pmm : pmm := set_free 5 (set_free 6 (set_free 7 pmm_zero)).
Definition demo : sys := mkSys demo_machine demo_pmm Vga.vga_boot 0 0.

Lemma demo_pde d : 0 <= d < 1024 -> pde demo_machine d = if decide (d = 1023) then 4099 else 0.
Proof.
  intros Hd. unfold pde. change (dir_base demo_machine) with 4096. cbn [m_ram demo_machine].
  case_decide as E; [subst; by apply pread32_write32|].
  rewrite pread32_write32_ne by lia. unfold pread32, pread8. by rewrite !lookup_empty.
Qed.

Lemma demo_is_table f : is_table demo_machine f <-> f = 1.
Proof.
  unfold is_table, table_frame. split.
  - intros (d & Hd & H). rewrite demo_pde in H by lia. case_decide; [|by destruct H].
    destruct H as [_ H]. change (entry_frame 4099) with 4096 in H. lia.
  - intros ->. exists 1023. by rewrite demo_pde by lia.
Qed.

Lemma demo_free : free_set demo_pmm = {[5; 6; 7]}.
Proof.
  unfold demo_pmm. rewrite !set_free_set, pmm_zero_free_set by (rewrite MAX_FRAMES_val; lia).
  set_solver.
Qed.

Lemma demo_alloc : Pmm.alloc_frame demo_pmm = (Some 0x5000, set_used 5 demo_pmm).
Proof. vm_compute. reflexivity. Qed.

Lemma demo_some : free_set demo_pmm <> ∅.
Proof. rewrite demo_free. set_solver. Qed.

Lemma demo_more : free_set (set_used 5 demo_pmm) <> ∅.
Proof. rewrite set_used_set, demo_free by lia. set_solver. Qed.

Lemma demo_page_entry n : managed n -> page_entry demo_machine n = None.
Proof.
  intros Hn. pose proof (managed_range n Hn). unfold page_entry.
  rewrite demo_pde by lia. by rewrite decide_False by lia.
Qed.

Lemma demo_ok : vm_ok demo_machine demo_pmm.
Proof.
  split.
  - unfold demo_pmm. repeat (apply set_free_wf; [|lia]). apply pmm_zero_wf.
  - split; unfold table_frame.
    + by rewrite demo_pde.
    + by rewrite demo_pde.
    + intros d Hd. rewrite demo_pde by lia. by case_decide.
    + intros d d' Hd Hd'. rewrite !demo_pde by lia. repeat case_decide; try done. lia.
  - intros f. rewrite demo_is_table, demo_free. intros ->. set_solver.
  - intros n e Hn. by rewrite demo_page_entry.
  - intros n n' e e' Hn _. by rewrite demo_page_entry.
  - intros n t. cbn. by rewrite lookup_empty.
Qed.

Lemma demo_frame_ok n : frame_ok demo_machine demo_pmm n 9.
Proof.
  split_and!.
  - by rewrite demo_is_table.
  - rewrite demo_free. set_solver.
  - intros k e Hk _. by rewrite demo_page_entry.
Qed.

Lemma demo_managed : managed (0xC00000 / 4096).
Proof. unfold managed. by_decide. Qed.

Lemma demo_allowed flags : map_allowed demo_machine demo_pmm 0xC00000 flags = true.
Proof.
  apply map_allowed_user; [reflexivity| |by apply demo_page_entry, demo_managed].
  rewrite demo_free. set_solver.
Qed.

(** ** Properties *)

(** C5: [map_page] is the insertion of one page into the map of pages.  On a
    well-formed address space, for an address outside the two 4 mb windows on
    low memory and the window of the tables (there an entry is an entry of the
    directory), flags within the low 12 bits, and a frame that is no table,
    not free and not that of another page, it maps [addr] to [frame] exactly when the page
    is free, user flags do not meet a kernel address, and a page table exists
    or can be allocated; then only that page changes, no byte outside the
    tables and the free frames changes, and at most one frame is taken.  When
    it refuses, it counts one recovered panic and changes neither memory nor
    the allocator.  It never faults. *)
Theorem map_page_inserts s addr frame flags :
  let m := s_machine s in let p := s_pmm s in let n := addr / 4096 in
  vm_ok m p -> is_u32 addr -> managed n -> is_u32 frame -> 0 <= flags < 4096 ->
  frame_ok m p n (entry_frame frame / 4096) ->
  if map_allowed m p addr flags then
    exists m' p', map_page addr frame flags s = Done true (with_pmm p' (with_machine m' s)) /\
      vm_ok m' p' /\ evolves m p m' p' /\
      p' = (if entry_present (pde m (dir_index addr)) then p else snd (Pmm.alloc_frame p)) /\
      forall k, 0 <= k < 1047552 -> page_entry m' k =
        if decide (k = n) then Some (leaf frame flags) else page_entry m k
  else
    exists m' v, map_page addr frame flags s =
        Done false (mkSys m' p v (s_oops s +u 1) (s_esp s)) /\
      vm_ok m' p /\ m' ≡ m.
Proof. exact (map_page_spec s addr frame flags). Qed.

Lemma map_page_inserts_witness :
  exists m' p', map_page 0xC00000 0x9000 USER_PAGE demo = Done true (with_pmm p' (with_machine m' demo)) /\
    vm_ok m' p' /\ page_entry m' 0xC00 = Some 0x9007.
Proof.
  pose proof (map_page_inserts demo 0xC00000 0x9000 USER_PAGE demo_ok ltac:(by_decide) demo_managed
    ltac:(by_decide) ltac:(by_decide) (demo_frame_ok _)) as H. cbv zeta in H.
  cbn [s_machine s_pmm demo] in H. rewrite demo_allowed in H.
  destruct H as (m' & p' & E & Hok & _ & _ & Hpe). exists m', p'. split; [exact E|].
  split; [exact Hok|]. rewrite Hpe by by_decide. reflexivity.
Defined.

(** C15: Outside the two windows on low memory and the window of the tables,
    [map_new] maps the lowest free frame and hands out a page of zeros:
    after it returns the frame, the page has the requested rights, every
    byte of the frame reads zero, no other page changed, and every byte of a
    frame that was in use kept its value.  When it returns nothing, memory
    and the set of free frames are what they were. *)
Theorem map_new_clears s addr flags :
  let m := s_machine s in let p := s_pmm s in let n := addr / 4096 in
  vm_ok m p -> is_u32 addr -> managed n -> 0 <= flags < 4096 ->
  match Pmm.alloc_frame p with
  | (None, _) => map_new addr flags s = Done None s
  | (Some frame, p1) =>
      if map_allowed m p1 addr flags then
        exists m' p', map_new addr flags s = Done (Some frame) (with_pmm p' (with_machine m' s)) /\
          mapped_new m p n frame flags m' p'
      else
        exists m' p' v, map_new addr flags s =
            Done None (mkSys m' p' v (s_oops s +u 1) (s_esp s)) /\
          vm_ok m' p' /\ m' ≡ m /\ free_set p' = free_set p
  end.
Proof. exact (map_new_spec s addr flags). Qed.

Lemma map_new_clears_witness :
  exists m' p', map_new 0xC00000 USER_READONLY demo = Done (Some 0x5000) (with_pmm p' (with_machine m' demo)) /\
    mapped_new demo_machine demo_pmm (0xC00000 / 4096) 0x5000 USER_READONLY m' p'.
Proof.
  pose proof (map_new_clears demo 0xC00000 USER_READONLY demo_ok ltac:(by_decide) demo_managed
    ltac:(by_decide)) as H. cbv zeta in H. cbn [s_machine s_pmm demo] in H.
  rewrite demo_alloc in H.
  assert (map_allowed demo_machine (set_used 5 demo_pmm) 0xC00000 USER_READONLY = true) as E.
  { apply map_allowed_user; [reflexivity| |by apply demo_page_entry, demo_managed].
    exact demo_more. }
  rewrite E in H. exact H.
Defined.

(** C21: Mapping a fresh page outside the windows on low memory and the window
    of the tables, and releasing it again, gives back the map of
    pages and, when the page table existed before, the set of free frames:
    nothing leaks. *)
Theorem map_new_release_roundtrip s addr flags frame s1 :
  let m := s_machine s in let p := s_pmm s in let n := addr / 4096 in
  vm_ok m p -> is_u32 addr -> managed n -> 0 <= flags < 4096 ->
  map_new addr flags s = Done (Some frame) s1 ->
  exists s2, release addr s1 = Done tt s2 /\ vm_ok (s_machine s2) (s_pmm s2) /\
    (forall k, 0 <= k < 1047552 -> page_entry (s_machine s2) k = page_entry m k) /\
    free_set (s_pmm s2) ⊆ free_set p /\
    (entry_present (pde m (dir_index addr)) = true -> free_set (s_pmm s2) = free_set p).
Proof.
  intros m p n Hok Hu Hn Hfl E. pose proof (map_new_spec s addr flags Hok Hu Hn Hfl) as H.
  cbv zeta in H. fold m p n in H.
  pose proof (alloc_frame_full p (vm_pmm _ _ Hok)) as Hal.
  destruct (Pmm.alloc_frame p) as [[a|] p1] eqn:Ea; [|by rewrite H in E].
  destruct (map_allowed m p1 addr flags) eqn:Hallow;
    [|destruct H as (? & ? & ? & H & _); by rewrite H in E].
  destruct H as (m1 & p2 & E1 & Hok1 & Hev & Hpe & Hp2 & _).
  rewrite E1 in E. injection E as -> <-.
  destruct Hal as (f & Hf & _ & -> & _ & Hset & _).
  pose proof Hf as Hfr. apply elem_of_free_set in Hfr as [Hfr _]. rewrite MAX_FRAMES_val in Hfr.
  destruct (leaf_fields (f * 4096) flags) as (_ & Hlf & _); [unfold is_u32; lia|lia|].
  rewrite (entry_frame_eq (f * 4096)), Z.mod_mul, Z.sub_0_r in Hlf by (unfold is_u32; lia).
  pose proof (managed_range n Hn) as (Hr & _).
  destruct (release_spec (with_pmm p2 (with_machine m1 s)) addr) as (m2 & p3 & E2 & Hok2 & Hpe2 & Hfs & _);
    [exact Hok1|done|done|].
  cbn [s_machine s_pmm with_pmm with_machine] in *. fold n in Hpe2, Hfs.
  rewrite Hpe, decide_True, Hlf, Z.div_mul in Hfs by (lia || done).
  exists (with_pmm p3 (with_machine m2 (with_pmm p2 (with_machine m1 s)))).
  split_and!; [exact E2|exact Hok2| | |]; cbn [s_machine s_pmm with_pmm with_machine].
  - intros k Hk. rewrite Hpe2, Hpe by done. case_decide; [subst k|done].
    unfold map_allowed in Hallow. apply andb_true_iff in Hallow as [_ Hx].
    apply bool_decide_eq_true in Hx. symmetry. exact Hx.
  - rewrite Hfs. apply union_subseteq. split; [by apply singleton_subseteq_l|apply Hev].
  - intros Hp. rewrite Hfs, Hp2, Ea. cbn [snd].
    assert (n / 1024 = dir_index addr) as ->
      by (rewrite dir_index_eq; unfold is_u32 in Hu; subst n; dlia).
    rewrite Hp, Hset. rewrite <- union_difference_L; [done|]. by apply singleton_subseteq_l.
Qed.

(** A directory with a table for the demo page. *)
Lemma map_new_release_roundtrip_witness :
  exists s1 s2, map_new 0xC00000 KERNEL_PAGE demo = Done (Some 0x5000) s1 /\
    release 0xC00000 s1 = Done tt s2 /\ vm_ok (s_machine s2) (s_pmm s2) /\
    free_set (s_pmm s2) ⊆ {[5; 6; 7]}.
Proof.
  pose proof (map_new_spec demo 0xC00000 KERNEL_PAGE demo_ok ltac:(by_decide) demo_managed
    ltac:(by_decide)) as H. cbv zeta in H. cbn [s_machine s_pmm demo] in H.
  rewrite demo_alloc, (map_allowed_user demo_machine (set_used 5 demo_pmm)) in H
    by (reflexivity || exact demo_more || apply demo_page_entry, demo_managed).
  destruct H as (m' & p' & E & _). exists (with_pmm p' (with_machine m' demo)).
  destruct (map_new_release_roundtrip demo 0xC00000 KERNEL_PAGE 0x5000 _ demo_ok ltac:(by_decide)
    demo_managed ltac:(by_decide) E) as (s2 & E2 & Hok2 & _ & Hsub & _).
  exists s2. split; [exact E|]. split; [exact E2|]. split; [exact Hok2|].
  rewrite <- demo_free. exact Hsub.
Defined.

(** [protect] changes the rights of a mapped page and nothing else: the
    frame stays, the other pages stay, no byte of memory outside the tables
    changes; on an absent page it returns [false].  The TLB holds no stale
    right afterwards. *)
Lemma protect_changes_rights s addr flags :
  let m := s_machine s in let n := addr / 4096 in
  vm_ok m (s_pmm s) -> is_u32 addr -> managed n -> 0 <= flags < 4096 ->
  exists m', protect addr flags s =
      Done (bool_decide (is_Some (page_entry m n))) (with_machine m' s) /\
    vm_ok m' (s_pmm s) /\ evolves m (s_pmm s) m' (s_pmm s) /\
    forall k, 0 <= k < 1047552 -> page_entry m' k =
      if decide (k = n) then (fun e => leaf e flags) <$> page_entry m n else page_entry m k.
Proof. exact (protect_spec s addr flags). Qed.

Lemma protect_changes_rights_witness :
  exists s1 m', map_new 0xC00000 USER_PAGE demo = Done (Some 0x5000) s1 /\
    protect 0xC00000 USER_READONLY s1 = Done true (with_machine m' s1) /\
    page_entry m' 0xC00 = Some 0x5005.
Proof.
  pose proof (map_new_spec demo 0xC00000 USER_PAGE demo_ok ltac:(by_decide) demo_managed
    ltac:(by_decide)) as H. cbv zeta in H. cbn [s_machine s_pmm demo] in H.
  rewrite demo_alloc, (map_allowed_user demo_machine (set_used 5 demo_pmm)) in H
    by (reflexivity || exact demo_more || apply demo_page_entry, demo_managed).
  destruct H as (m1 & p1 & E & Hok & _ & Hpe & _).
  exists (with_pmm p1 (with_machine m1 demo)).
  destruct (protect_changes_rights (with_pmm p1 (with_machine m1 demo)) 0xC00000 USER_READONLY
    Hok ltac:(by_decide) demo_managed ltac:(by_decide)) as (m' & E' & _ & _ & Hpe').
  exists m'. cbn [s_machine s_pmm with_pmm with_machine] in *.
  change (0xC00000 / 4096) with 0xC00 in *.
  assert (page_entry m1 0xC00 = Some 0x5007) as E1 by (rewrite Hpe by by_decide; reflexivity).
  rewrite E1 in E', Hpe'. split; [exact E|]. split; [exact E'|].
  rewrite Hpe' by by_decide. reflexivity.
Defined.

(** C20: [translate] agrees with the MMU: it returns the physical address a
    read of [addr] reaches, and nothing exactly when that read faults on an
    absent page.  It holds on every address, the table window included. *)
Theorem translate_matches_mmu s addr :
  let m := s_machine s in
  vm_ok m (s_pmm s) -> is_u32 addr ->
  exists r m', translate addr s = Done r (with_machine m' s) /\ m' ≡ m /\
    match access addr false m with
    | Done pa _ => r = Some pa
    | Fault a error _ => r = None /\ a = addr /\ error = 0
    | _ => False
    end.
Proof.
  intros m Hok Hu. destruct (translate_spec s addr Hok Hu) as (m' & E & Q & _).
  fold m in E. eexists _, m'. split_and!; [exact E|exact Q|].
  pose proof (walk_page_entry m addr (vm_tables _ _ Hok) Hu) as Hw.
  destruct (page_entry m (addr / 4096)) as [e|]; cbn in Hw |- *.
  - rewrite (access_ok addr false m (trans_of e)); [done|apply tlb_ok_at, Hok|done|by left].
  - unfold access. destruct (m_tlb m !! (addr / 4096)) as [t|] eqn:Et.
    + apply (tlb_ok_at m addr (vm_tlb _ _ Hok)) in Et. congruence.
    + by rewrite Hw.
Qed.

Lemma translate_matches_mmu_witness :
  exists r m', translate 0xFFFFF004 demo = Done r (with_machine m' demo) /\ r = Some 0x1004.
Proof.
  destruct (translate_matches_mmu demo 0xFFFFF004 demo_ok ltac:(by_decide)) as (r & m' & E & _ & H).
  exists r, m'. split; [exact E|]. vm_compute in H. exact H.
Defined.

(** C16: The page-fault handler resolves a fault exactly when the page is
    absent, the address is in the demand range and frames are left for the
    page and, if needed, its table; it then maps a zeroed user page there,
    and the access that faulted, retried, succeeds.  Otherwise it says no and
    leaves pages and free frames alone. *)
Theorem handle_fault_resolves s addr error :
  let m := s_machine s in let p := s_pmm s in
  vm_ok m p ->
  if resolvable m p addr error then
    exists frame m' p', handle_fault addr error s = Done true (with_pmm p' (with_machine m' s)) /\
      fst (Pmm.alloc_frame p) = Some frame /\
      mapped_new m p (addr / 4096) frame USER_PAGE m' p' /\
      forall write, exists m'', access addr write m' = Done (frame + addr mod 4096) m''
  else
    exists m' p' v o, handle_fault addr error s = Done false (mkSys m' p' v o (s_esp s)) /\
      vm_ok m' p' /\ m' ≡ m /\ free_set p' = free_set p.
Proof.
  intros m p Hok. pose proof (handle_fault_spec s addr error Hok) as H. cbv zeta in H.
  fold m p in H. destruct (resolvable m p addr error) eqn:Hr; [|exact H].
  destruct H as (frame & m' & p' & E & Ea & Hnew). exists frame, m', p'.
  split; [exact E|]. split; [exact Ea|]. split; [exact Hnew|]. intros write.
  destruct Hnew as (Hok' & _ & Hpe & _).
  destruct (is_demand addr) eqn:Hd; [|by unfold resolvable in Hr; rewrite Hd, andb_false_r in Hr].
  destruct (demand_managed addr Hd) as (Hu & _ & _ & Hn & _).
  pose proof (alloc_frame_full p (vm_pmm _ _ Hok)) as Hal.
  destruct (Pmm.alloc_frame p) as [[a|] p1]; [|done]. cbn in Ea. injection Ea as ->.
  destruct Hal as (f & Hf & _ & -> & _). apply elem_of_free_set in Hf as [Hf _].
  rewrite MAX_FRAMES_val in Hf.
  destruct (leaf_fields (f * 4096) USER_PAGE) as (_ & Hlf & _ & Hlw & _);
    [unfold is_u32; lia|by_decide|].
  exists (touch addr m'). rewrite (access_ok addr write m' (trans_of (leaf (f * 4096) USER_PAGE))).
  - cbn. rewrite Hlf, entry_frame_eq, Z.mod_mul by (unfold is_u32; lia). f_equal. lia.
  - apply tlb_ok_at, Hok'.
  - pose proof (managed_range _ Hn). rewrite walk_page_entry, Hpe by (done || apply Hok' || lia).
    by rewrite decide_True.
  - right. cbn [t_writable trans_of]. by rewrite Hlw.
Qed.

Lemma handle_fault_resolves_witness :
  exists m' p', handle_fault 0x00800123 2 demo = Done true (with_pmm p' (with_machine m' demo)) /\
    mapped_new demo_machine demo_pmm 0x800 0x5000 USER_PAGE m' p' /\
    exists m'', access 0x00800123 true m' = Done 0x5123 m''.
Proof.
  pose proof (handle_fault_resolves demo 0x00800123 2 demo_ok) as H. cbv zeta in H.
  cbn [s_machine s_pmm demo] in H.
  assert (resolvable demo_machine demo_pmm 0x00800123 2 = true) as E.
  { apply resolvable_true; [reflexivity|reflexivity| | |apply demo_page_entry; unfold managed; by_decide].
    - exact demo_some.
    - right. rewrite demo_alloc. exact demo_more. }
  rewrite E, demo_alloc in H. destruct H as (frame & m' & p' & E1 & E2 & H1 & H2).
  injection E2 as <-. exists m', p'. split; [exact E1|]. split; [exact H1|]. apply (H2 true).
Defined.

(** ** Histories *)

(** What the kernel does with the address space: the operations of paging.rs
    on pages outside the windows, with any flags, a frame for [map_page] that
    nothing else uses, a store to a page, a frame taken for another use. *)
Inductive vm_step : sys -> sys -> Prop :=
| step_map addr frame flags r s s' :
    is_u32 addr -> managed (addr / 4096) -> is_u32 frame -> 0 <= flags < 4096 ->
    frame_ok (s_machine s) (s_pmm s) (addr / 4096) (entry_frame frame / 4096) ->
    map_page addr frame flags s = Done r s' -> vm_step s s'
| step_map_new addr flags r s s' :
    is_u32 addr -> managed (addr / 4096) -> 0 <= flags < 4096 ->
    map_new addr flags s = Done r s' -> vm_step s s'
| step_release addr s s' :
    is_u32 addr -> managed (addr / 4096) -> release addr s = Done tt s' -> vm_step s s'
| step_protect addr flags r s s' :
    is_u32 addr -> managed (addr / 4096) -> 0 <= flags < 4096 ->
    protect addr flags s = Done r s' -> vm_step s s'
| step_fault addr error r s s' : handle_fault addr error s = Done r s' -> vm_step s s'
| step_store va v e s s' :
    is_u32 va -> managed (va / 4096) -> va mod 4 = 0 ->
    page_entry (s_machine s) (va / 4096) = Some e -> entry_writable e = true ->
    store32 va v s = Done tt s' -> vm_step s s'
| step_take s : vm_step s (with_pmm (snd (Pmm.alloc_frame (s_pmm s))) s).

Definition safe (s : sys) : Prop :=
  vm_ok (s_machine s) (s_pmm s) /\ kernel_sealed (s_machine s).

Lemma step_map_safe addr frame flags r s s' :
  is_u32 addr -> managed (addr / 4096) -> is_u32 frame -> 0 <= flags < 4096 ->
  frame_ok (s_machine s) (s_pmm s) (addr / 4096) (entry_frame frame / 4096) ->
  map_page addr frame flags s = Done r s' -> safe s -> safe s'.
Proof.
  intros Hu Hn Hf Hfl Hown E [Hok Hs].
  pose proof (map_page_spec s addr frame flags Hok Hu Hn Hf Hfl Hown) as H. cbv zeta in H.
  destruct (map_allowed _ _ addr flags).
  - destruct H as (m' & p' & E' & Hok' & Hev & _). rewrite E in E'. injection E' as -> ->.
    split; [exact Hok'|exact (sealed_evolves _ _ _ _ Hev Hs)].
  - destruct H as (m' & v & E' & Hok' & Q). rewrite E in E'. injection E' as -> ->.
    split; [exact Hok'|exact (sealed_equiv _ _ Q Hs)].
Qed.

Lemma step_map_new_safe addr flags r s s' :
  is_u32 addr -> managed (addr / 4096) -> 0 <= flags < 4096 ->
  map_new addr flags s = Done r s' -> safe s -> safe s'.
Proof.
  intros Hu Hn Hfl E [Hok Hs].
  pose proof (map_new_spec s addr flags Hok Hu Hn Hfl) as H. cbv zeta in H.
  destruct (Pmm.alloc_frame (s_pmm s)) as [[a|] p1]; cycle 1.
  { rewrite E in H. injection H as _ ->. by split. }
  destruct (map_allowed _ _ addr flags).
  - destruct H as (m' & p' & E' & Hok' & Hev & _). rewrite E in E'. injection E' as -> ->.
    split; [exact Hok'|exact (sealed_evolves _ _ _ _ Hev Hs)].
  - destruct H as (m' & p' & v & E' & Hok' & Q & _). rewrite E in E'. injection E' as -> ->.
    split; [exact Hok'|exact (sealed_equiv _ _ Q Hs)].
Qed.

Lemma step_protect_safe addr flags r s s' :
  is_u32 addr -> managed (addr / 4096) -> 0 <= flags < 4096 ->
  protect addr flags s = Done r s' -> safe s -> safe s'.
Proof.
  intros Hu Hn Hfl E [Hok Hs].
  destruct (protect_spec s addr flags Hok Hu Hn Hfl) as (m' & E' & Hok' & Hev & _).
  rewrite E in E'. injection E' as -> ->. split; [exact Hok'|exact (sealed_evolves _ _ _ _ Hev Hs)].
Qed.

Lemma step_fault_safe addr error r s s' :
  handle_fault addr error s = Done r s' -> safe s -> safe s'.
Proof.
  intros E [Hok Hs]. pose proof (handle_fault_spec s addr error Hok) as H. cbv zeta in H.
  destruct (resolvable _ _ addr error).
  - destruct H as (frame & m' & p' & E' & _ & Hok' & Hev & _).
    rewrite E in E'. injection E' as -> ->. split; [exact Hok'|exact (sealed_evolves _ _ _ _ Hev Hs)].
  - destruct H as (m' & p' & v & o & E' & Hok' & Q & _).
    rewrite E in E'. injection E' as -> ->. split; [exact Hok'|exact (sealed_equiv _ _ Q Hs)].
Qed.

Lemma vm_step_safe s s' : vm_step s s' -> safe s -> safe s'.
Proof.
  intros Hstep Hsafe. pose proof Hsafe as [Hok Hs].
  destruct Hstep as [addr frame flags r s s' Hu Hn Hf Hfl Hown E|addr flags r s s' Hu Hn Hfl E
    |addr s s' Hu Hn E|addr flags r s s' Hu Hn Hfl E|addr error r s s' E
    |va v e s s' Hu Hn Hal He Hw E|s].
  - by apply (step_map_safe addr frame flags r s).
  - by apply (step_map_new_safe addr flags r s).
  - destruct (release_spec s addr Hok Hu Hn) as (m' & p' & E' & Hok' & _ & _ & Hseal).
    rewrite E in E'. injection E' as ->. split; [exact Hok'|exact (Hseal Hs)].
  - by apply (step_protect_safe addr flags r s).
  - by apply (step_fault_safe addr error r s).
  - destruct (data_store32 s va v e) as (m' & E' & Hok' & Hst & _); try assumption; [dlia|].
    rewrite E in E'. injection E' as ->. split; [exact Hok'|].
    intros d Hd Hk. unfold user_dir. cbn [s_machine with_machine].
    rewrite (same_tables_pde _ _ (vm_tables _ _ Hok) Hst d Hd). exact (Hs d Hd Hk).
  - pose proof (alloc_frame_full _ (vm_pmm _ _ Hok)) as Hal.
    destruct (Pmm.alloc_frame (s_pmm s)) as [[a|] p1] eqn:Ea.
    + destruct (alloc_frame_ok _ _ a p1 Hok Ea) as (f & _ & _ & _ & _ & Hok1 & _).
      split; [exact Hok1|exact Hs].
    + destruct Hal as (-> & _). destruct s. by split.
Qed.

(** C9: Along every history of [map_page], [map_new], [unmap_page] with the
    frame given back, [protect] and page faults, with any of the 12 flag bits, of stores to
    mapped pages and of frame allocations, the address space stays well
    formed: the directory maps itself, no table and no mapped page lies in a
    free frame, no frame backs two pages, the TLB is never stale; and no
    address of kernel space becomes open to user mode, not even by [protect],
    which does not check: the directory never gets the user bit there.  The
    history starts in such a state, works on pages outside the windows on low
    memory and on the tables, and calls [map_page], which takes its frame
    from the caller, with frames that nothing else uses. *)
Theorem vm_reachable_safe s s' :
  vm_ok (s_machine s) (s_pmm s) -> kernel_sealed (s_machine s) -> rtc vm_step s s' ->
  vm_ok (s_machine s') (s_pmm s') /\ kernel_sealed (s_machine s') /\
  forall va, is_u32 va -> is_kernel va = true -> ~ open_to_user (s_machine s') (va / 4096).
Proof.
  intros Hok Hs Hr. assert (safe s) as Hsafe by by split. clear Hok Hs.
  assert (safe s') as [Hok' Hs'].
  { induction Hr as [s|s1 s2 s3 Hstep _ IH]; [exact Hsafe|]. apply IH. exact (vm_step_safe s1 s2 Hstep Hsafe). }
  split; [exact Hok'|]. split; [exact Hs'|]. intros va. by apply sealed_closed.
Qed.

Lemma map_allowed_kernel m p addr flags :
  Z.testbit flags 2 = false -> free_set p <> ∅ -> page_entry m (addr / 4096) = None ->
  map_allowed m p addr flags = true.
Proof.
  intros Hk Hf Hp. unfold map_allowed.
  by rewrite Hk, bool_decide_false, orb_true_r, bool_decide_true.
Qed.

(** A page of kernel space mapped and then given the user bit. *)
Lemma vm_reachable_safe_witness :
  exists s', rtc vm_step demo s' /\ page_entry (s_machine s') 0xE0000 = Some 0x5007 /\
    ~ open_to_user (s_machine s') 0xE0000.
Proof.
  assert (managed (0xE0000000 / 4096)) as Hn by (unfold managed; by_decide).
  pose proof (map_new_spec demo 0xE0000000 KERNEL_PAGE demo_ok ltac:(by_decide) Hn
    ltac:(by_decide)) as H. cbv zeta in H. cbn [s_machine s_pmm demo] in H.
  assert (map_allowed demo_machine (set_used 5 demo_pmm) 0xE0000000 KERNEL_PAGE = true) as Ha.
  { exact (map_allowed_kernel demo_machine (set_used 5 demo_pmm) 0xE0000000 KERNEL_PAGE eq_refl demo_more
      (demo_page_entry _ Hn)). }
  rewrite demo_alloc, Ha in H. destruct H as (m1 & p1 & E & Hok & _ & Hpe & _).
  set (s1 := with_pmm p1 (with_machine m1 demo)) in *.
  destruct (protect_spec s1 0xE0000000 USER_PAGE Hok ltac:(by_decide) Hn ltac:(by_decide))
    as (m2 & E2 & _ & _ & Hpe2). cbv zeta in Hpe2.
  assert (rtc vm_step demo (with_machine m2 s1)) as Hr.
  { eapply rtc_l; [apply (step_map_new 0xE0000000 KERNEL_PAGE (Some 0x5000)); [by_decide|exact Hn|by_decide|exact E]|].
    apply rtc_once. eapply (step_protect 0xE0000000 USER_PAGE); [by_decide|exact Hn|by_decide|exact E2]. }
  exists (with_machine m2 s1). split; [exact Hr|]. split.
  - change (s_machine (with_machine m2 s1)) with m2. change (s_machine s1) with m1 in Hpe2.
    change (0xE0000000 / 4096) with 0xE0000 in *. rewrite Hpe2 by by_decide. rewrite Hpe by by_decide.
    reflexivity.
  - refine (proj2 (proj2 (vm_reachable_safe demo (with_machine m2 s1) demo_ok _ Hr)) 0xE0000000 _ _); [|by_decide|reflexivity].
    intros d Hd Hk [_ Hu]. change (s_machine demo) with demo_machine in Hu. rewrite demo_pde in Hu by lia.
    case_decide; discriminate.
Defined.
