(* ===== verification/Inspect.v ===== *)
(** * Reading the page tables back: describe, summary and dump

    The three printers of paging.rs only look, and [dump] prints the map of
    pages as a list of runs. *)

From S2P Require Import Prelude.
From S2P Require Import Mem.
From S2P Require Import Klib.
From S2P Require Import Machine.
From S2P Require Import Pmm.
From S2P Require Vga.
From S2P Require Import Fmt.
From S2P Require Import Paging.
From S2P Require Import PagingSpec.
From S2P Require Import PagingOps.
From S2P Require Import AddressSpace.

(** ** Code that looks and prints *)

(** From [s] to [s'] the texts [ts] were printed, one after the other; the
    memory is the same up to the TLB. *)
Record showed (ts : list (list Z)) (s s' : sys) : Prop := {
  sw_machine : s_machine s' ≡ s_machine s;
  sw_ok : vm_ok (s_machine s') (s_pmm s');
  sw_pmm : s_pmm s' = s_pmm s;
  sw_vga : s_vga s' = foldl (fun v t => Vga.print t v) (s_vga s) ts;
  sw_oops : s_oops s' = s_oops s;
  sw_esp : s_esp s' = s_esp s;
}.

Lemma showed_refl s : vm_ok (s_machine s) (s_pmm s) -> showed [] s s.
Proof. by split. Qed.

Lemma showed_trans ts us s1 s2 s3 : showed ts s1 s2 -> showed us s2 s3 -> showed (ts ++ us) s1 s3.
Proof.
  intros [A1 A2 A3 A4 A5 A6] [B1 B2 B3 B4 B5 B6].
  split; [by etrans|exact B2|congruence| |congruence|congruence]. by rewrite B4, A4, foldl_app.
Qed.

Lemma showed_look m' s : m' ≡ s_machine s -> vm_ok m' (s_pmm s) -> showed [] s (with_machine m' s).
Proof. intros Q Hok. split; [exact Q|exact Hok|reflexivity..]. Qed.

(** [c] returns from [s], and what it returned and printed satisfies [Q]. *)
Definition shows {A} (c : M sys A) (s : sys) (Q : A -> list (list Z) -> Prop) : Prop :=
  exists a ts s', c s = Done a s' /\ showed ts s s' /\ Q a ts.

Section Shows.
Context {A B : Type}.
Implicit Types (s : sys).

Lemma shows_ret (a : A) s (Q : A -> list (list Z) -> Prop) :
  vm_ok (s_machine s) (s_pmm s) -> Q a [] -> shows (ret a) s Q.
Proof. intros Hok HQ. exists a, [], s. split; [reflexivity|]. split; [by apply showed_refl|exact HQ]. Qed.

(** A register is read. *)
Lemma shows_ask (c : M sys A) a s (Q : A -> list (list Z) -> Prop) :
  c s = Done a s -> vm_ok (s_machine s) (s_pmm s) -> Q a [] -> shows c s Q.
Proof. intros E Hok HQ. exists a, [], s. split; [exact E|]. split; [by apply showed_refl|exact HQ]. Qed.

Lemma shows_bind (c : M sys A) (k : A -> M sys B) s (Q : B -> list (list Z) -> Prop) :
  shows c s (fun a ts => forall s1, showed ts s s1 -> shows (k a) s1 (fun b us => Q b (ts ++ us))) ->
  shows (bind c k) s Q.
Proof.
  intros (a & ts & s1 & E & H1 & Hk). destruct (Hk s1 H1) as (b & us & s2 & E2 & H2 & HQ).
  exists b, (ts ++ us), s2. rewrite (bind_Done _ _ _ _ _ E). split; [exact E2|].
  split; [by eapply showed_trans|exact HQ].
Qed.

Lemma shows_weaken (c : M sys A) s (P Q : A -> list (list Z) -> Prop) :
  shows c s P -> (forall a ts, P a ts -> Q a ts) -> shows c s Q.
Proof. intros (a & ts & s' & E & H & HP) HPQ. exists a, ts, s'. eauto. Qed.

End Shows.

Lemma shows_printk text s (Q : unit -> list (list Z) -> Prop) :
  vm_ok (s_machine s) (s_pmm s) -> Q tt [text] -> shows (printk text) s Q.
Proof.
  intros Hok HQ. exists tt, [text]. eexists. split; [reflexivity|]. split; [|exact HQ].
  split; [reflexivity|exact Hok|reflexivity..].
Qed.

Lemma shows_directory_entry d s (Q : Z -> list (list Z) -> Prop) :
  vm_ok (s_machine s) (s_pmm s) -> 0 <= d < 1024 -> Q (pde (s_machine s) d) [] ->
  shows (directory_entry d) s Q.
Proof.
  intros Hok Hd HQ. destruct (directory_entry_spec s d Hok Hd) as (m' & E & Qm & Hok').
  exists (pde (s_machine s) d), [], (with_machine m' s). split; [exact E|].
  split; [by apply showed_look|exact HQ].
Qed.

Lemma shows_table_entry d i s (Q : Z -> list (list Z) -> Prop) :
  vm_ok (s_machine s) (s_pmm s) -> 0 <= d < 1024 -> 0 <= i < 1024 ->
  entry_present (pde (s_machine s) d) = true -> Q (pte (s_machine s) d i) [] ->
  shows (load32 (word_ptr (table d) i)) s Q.
Proof.
  intros Hok Hd Hi Hp HQ. rewrite word_ptr_table by done.
  destruct (load_entry s d i Hok Hd Hi Hp) as (m' & E & Qm & Hok').
  exists (pte (s_machine s) d i), [], (with_machine m' s). split; [exact E|].
  split; [by apply showed_look|exact HQ].
Qed.

Lemma shows_entry_of addr s (Q : option Z -> list (list Z) -> Prop) :
  vm_ok (s_machine s) (s_pmm s) -> is_u32 addr -> Q (page_entry (s_machine s) (addr / 4096)) [] ->
  shows (entry_of addr) s Q.
Proof.
  intros Hok Hu HQ. destruct (entry_of_spec s addr Hok Hu) as (m' & E & Qm & Hok').
  eexists _, [], (with_machine m' s). split; [exact E|]. split; [by apply showed_look|exact HQ].
Qed.

(** One step of a sequence that prints. *)
Ltac show_print s H := apply shows_bind, shows_printk; [eauto using sw_ok|]; intros s H.

(** ** summary and describe *)

Lemma summary_shows addr s :
  vm_ok (s_machine s) (s_pmm s) -> is_u32 addr -> shows (summary addr) s (fun _ ts => length ts = 2%nat).
Proof.
  intros Hok Hu. unfold summary. show_print s0 Hs0.
  apply shows_bind, shows_entry_of; [by eapply sw_ok|done|]. intros s1 Hs1.
  destruct (page_entry _ _); (apply shows_printk; [by eapply sw_ok|reflexivity]).
Qed.

Lemma describe_shows addr s :
  vm_ok (s_machine s) (s_pmm s) -> is_u32 addr ->
  shows (describe addr) s (fun _ ts =>
    length ts = if entry_present (pde (s_machine s) (dir_index addr)) then
                  if page_entry (s_machine s) (addr / 4096) is Some _ then 6%nat else 4%nat
                else 2%nat).
Proof.
  intros Hok Hu. destruct (indices_range addr Hu) as (Hd & Hi & _). unfold describe, print_flags. show_print s0 Hs0.
  apply shows_bind, shows_directory_entry; [by eapply sw_ok|done|]. intros s1 Hs1.
  rewrite (sw_machine _ _ _ Hs0), land_PRESENT.
  destruct (entry_present (pde (s_machine s) (dir_index addr))) eqn:Hp; cbn [negb]; cycle 1.
  { apply shows_printk; [by eapply sw_ok|reflexivity]. }
  show_print s2 Hs2. show_print s3 Hs3.
  assert (s_machine s3 ≡ s_machine s) as Q3.
  { etrans; [apply Hs3|]. etrans; [apply Hs2|]. etrans; [apply Hs1|apply Hs0]. }
  apply shows_bind, shows_table_entry; [by eapply sw_ok|done|done|by rewrite Q3|]. intros s4 Hs4.
  rewrite land_PRESENT, Q3, page_entry_pte by done.
  destruct (entry_present (pte _ _ _)); cbn [negb]; cycle 1.
  { apply shows_printk; [by eapply sw_ok|reflexivity]. }
  show_print s5 Hs5. show_print s6 Hs6. apply shows_printk; [by eapply sw_ok|reflexivity].
Qed.

(** ** dump *)

(** First page of a run, the page after its last, and what it starts with. *)
Definition run_first (r : run) : Z := r.1.1.1 / 4096.
Definition run_stop (r : run) : Z := run_first r + r.2.
Definition run_start (r : run) : Z * Z * Z := r.1.

(** The line [print_run] prints for it. *)
Definition line (r : run) : list Z :=
  let '(virt, phys, flags, pages) := r in
  bytes " " ++ hex_alt 10 virt ++ bytes ".." ++ hex_alt 10 (virt +u (pages *u PAGE_SIZE -u 1)) ++
  bytes " " ++ hex_alt 10 phys ++ bytes "  " ++ dec_w 5 pages ++ bytes "  " ++
  bytes (rights flags) ++ newline.

(** A run speaks the truth: each of its pages is mapped, to the frame at the
    same distance from the run's first frame, with the run's rights. *)
Definition run_ok (m : machine) (r : run) : Prop :=
  let '(virt, phys, flags, pages) := r in
  0 <= virt /\ virt mod 4096 = 0 /\ 1 <= pages /\ run_stop r <= 1048576 /\ is_u32 phys /\
  forall i, 0 <= i < pages -> exists e, page_entry m (run_first r + i) = Some e /\
    entry_frame e = phys +u i * 4096 /\ rights e = rights flags.

(** Two neighbours: in order, and not one run cut in two. *)
Definition apart (q r : run) : Prop := run_stop q <= run_first r /\ follows q (run_start r) = false.

Definition chain (rs : list run) : Prop :=
  forall i q r, rs !! i = Some q -> rs !! S i = Some r -> apart q r.

(** The runs describe the map of pages below page [n]. *)
Record lists (m : machine) (n : Z) (rs : list run) : Prop := {
  ls_true : Forall (run_ok m) rs;
  ls_chain : chain rs;
  ls_all : forall k e, 0 <= k < n -> page_entry m k = Some e ->
    Exists (fun r => run_first r <= k < run_stop r) rs;
}.

(** [extend_run] without the printing: the open run, and the run it closed. *)
Definition emit (r : option run) (next : option (Z * Z * Z)) : option run * list run :=
  match r, next with
  | Some r, Some (at_, frame, bits) =>
      if follows r (at_, frame, bits)
      then (Some (r.1, r.2 +u 1), [])
      else (Some (at_, frame, bits, 1), [r])
  | Some r, None => (None, [r])
  | None, Some (at_, frame, bits) => (Some (at_, frame, bits, 1), [])
  | None, None => (None, [])
  end.

Lemma extend_run_shows r next s (Q : option run -> list (list Z) -> Prop) :
  vm_ok (s_machine s) (s_pmm s) -> Q (emit r next).1 (map line (emit r next).2) ->
  shows (extend_run r next) s Q.
Proof.
  intros Hok. destruct r as [[[[virt phys] flags] pages]|], next as [[[at_ frame] bits]|]; cbn [extend_run emit].
  - destruct (follows _ _); intros HQ; [by apply shows_ret|].
    apply shows_bind, shows_printk; [done|]. intros s1 H1. apply shows_ret; [by eapply sw_ok|exact HQ].
  - intros HQ. apply shows_bind, shows_printk; [done|]. intros s1 H1. apply shows_ret; [by eapply sw_ok|exact HQ].
  - intros HQ. by apply shows_ret.
  - intros HQ. by apply shows_ret.
Qed.

Definition open_run (r : option run) : list run := match r with Some r => [r] | None => [] end.

(** What the scan knows after the pages below [n]: the printed runs and the
    open one list them; the open run ends at [n]. *)
Record scanned (m : machine) (n : Z) (r : option run) (rs : list run) : Prop := {
  sc_lists : lists m n (rs ++ open_run r);
  sc_open : match r with
            | Some r => run_stop r = n
            | None => forall q, list.last rs = Some q -> run_stop q < n
            end;
}.

Lemma chain_snoc rs r : chain rs -> (forall q, list.last rs = Some q -> apart q r) -> chain (rs ++ [r]).
Proof.
  intros Hc Hl i q r'. rewrite !lookup_app_Some, !list_lookup_singleton_Some.
  intros [Hi|[Hi Hq]] [Hj|[Hj Hr]]; [by eapply Hc| | |lia].
  - destruct Hr as [Hr <-]. apply lookup_lt_Some in Hi as Hlt. apply Hl. rewrite last_lookup.
    by replace (pred (length rs)) with i by lia.
  - apply lookup_lt_Some in Hj. lia.
Qed.

Lemma chain_last rs r q : chain (rs ++ [r]) -> list.last rs = Some q -> apart q r.
Proof.
  rewrite last_lookup. intros Hc Hq. apply lookup_lt_Some in Hq as Hlt.
  apply (Hc (pred (length rs))); [by rewrite lookup_app_l|].
  replace (S (pred (length rs))) with (length rs) by lia. by rewrite list_lookup_middle.
Qed.

Lemma chain_init rs r : chain (rs ++ [r]) -> chain rs.
Proof.
  intros Hc i q r' Hi Hj. apply (Hc i); (by rewrite lookup_app_l by (by eapply lookup_lt_Some)).
Qed.

(** The rights are two bits. *)
Lemma rights_bits a b :
  Z.land a (Z.lor WRITABLE USER) = Z.land b (Z.lor WRITABLE USER) -> rights a = rights b.
Proof.
  intros E. assert (forall x, rights x = rights (Z.land x (Z.lor WRITABLE USER))) as Hx.
  { intros x. unfold rights. by rewrite <- !Z.land_assoc. }
  by rewrite (Hx a), (Hx b), E.
Qed.

Lemma rights_FLAGS e : rights (Z.land e FLAGS) = rights e.
Proof. apply rights_bits. by rewrite <- Z.land_assoc. Qed.

(** What [dump] sees of page [n]. *)
Definition seen (m : machine) (n : Z) : option (Z * Z * Z) :=
  (fun e => (n * 4096, entry_frame e, Z.land e FLAGS)) <$> page_entry m n.

(** A run of one page. *)
Lemma run_ok_one m n e :
  0 <= n < 1048576 -> page_entry m n = Some e ->
  run_ok m (n * 4096, entry_frame e, Z.land e FLAGS, 1).
Proof.
  intros Hn He. destruct (page_entry_u32 _ _ _ He) as [Hu _].
  pose proof (entry_frame_range e Hu) as Hf. unfold run_ok, run_stop, run_first. cbn [fst snd].
  rewrite Z.div_mul by lia. split_and!; try lia; try apply Hf; [by apply Z.mod_mul|].
  intros i Hi. replace i with 0 by lia. exists e. rewrite Z.add_0_r, Z.mul_0_l, Z.add_0_r.
  split; [done|]. split; [by rewrite wrap32_small|by rewrite rights_FLAGS].
Qed.

(** A run and the page after it. *)
Lemma run_ok_extend m n e r :
  0 <= n < 1048576 -> page_entry m n = Some e -> run_ok m r -> run_stop r = n ->
  follows r (n * 4096, entry_frame e, Z.land e FLAGS) = true -> run_ok m (r.1, r.2 +u 1).
Proof.
  intros Hn He. destruct r as [[[virt phys] flags] pages]. unfold run_ok, run_stop, run_first. cbn [fst snd].
  intros (H1 & H2 & H3 & H4 & H5 & H6) Hs Hf. unfold follows in Hf. rewrite !andb_true_iff, !Z.eqb_eq in Hf.
  destruct Hf as [[_ Hp] Hr]. rewrite wrap32_small by (unfold is_u32; dlia).
  split_and!; try done; try lia; try apply H5.
  intros i Hi. destruct (Z.eq_dec i pages) as [->|Hne]; [|apply H6; lia].
  exists e. rewrite Hs. split; [done|]. split.
  - rewrite Hp. layout_consts. unfold wrap32. by rewrite Zplus_mod_idemp_r.
  - rewrite <- rights_FLAGS. by apply rights_bits.
Qed.

(** The list goes on with a run of its own, or its last run grows. *)
Lemma lists_snoc m n rs r :
  lists m n rs -> run_ok m r -> (forall q, list.last rs = Some q -> apart q r) ->
  run_first r = n -> run_stop r = n + 1 -> lists m (n + 1) (rs ++ [r]).
Proof.
  intros [Ht Hc Ha] Hr Hl H1 H2. split.
  - apply Forall_app. split; [done|by apply Forall_singleton].
  - by apply chain_snoc.
  - intros k e Hk He. apply Exists_app. destruct (Z.eq_dec k n) as [->|Hne].
    + right. constructor. lia.
    + left. apply (Ha k e); [lia|done].
Qed.

Lemma lists_grow m n rs r r' :
  lists m n (rs ++ [r]) -> run_ok m r' -> run_start r' = run_start r ->
  run_first r <= n -> run_stop r = n -> run_stop r' = n + 1 -> lists m (n + 1) (rs ++ [r']).
Proof.
  intros [Ht Hc Ha] Hr Hst H1 H2 H3. apply Forall_app in Ht as [Ht _].
  assert (run_first r' = run_first r) as Hf by (unfold run_first; unfold run_start in Hst; by rewrite Hst).
  split.
  - apply Forall_app. split; [done|by apply Forall_singleton].
  - apply chain_snoc; [by eapply chain_init|]. intros q Hq. destruct (chain_last _ _ _ Hc Hq) as [A1 A2].
    split; [by rewrite Hf|by rewrite Hst].
  - intros k e Hk He. apply Exists_app. destruct (Z.eq_dec k n) as [->|Hne].
    + right. constructor. lia.
    + destruct (proj1 (Exists_app _ _ _) (Ha k e ltac:(lia) He)) as [Hin|Hin]; [by left|right].
      apply Exists_cons in Hin as [Hin|Hin]; [|by inversion Hin]. constructor. lia.
Qed.

(** No page follows a run that ends before it. *)
Lemma follows_gap m q n frame bits :
  run_ok m q -> run_stop q < n -> n < 1048576 -> follows q (n * 4096, frame, bits) = false.
Proof.
  destruct q as [[[v p] f] k]. unfold run_ok, run_stop, run_first, follows. cbn [fst snd].
  intros (H1 & H2 & H3 & H4 & _) Hs Hn. layout_consts.
  assert ((n * 4096 =? v +u k *u 4096) = false) as ->; [|done]. apply Z.eqb_neq.
  unfold wrap32. rewrite Zplus_mod_idemp_r, Z.mod_small; dlia.
Qed.

(** The scan goes on by one page that is mapped, or over a gap. *)
Lemma scanned_page m n e r rs :
  scanned m n r rs -> 0 <= n < 1048576 -> page_entry m n = Some e ->
  scanned m (n + 1) (emit r (seen m n)).1 (rs ++ (emit r (seen m n)).2).
Proof.
  intros [Hl Ho] Hn He. unfold seen. rewrite He. cbn [fmap option_fmap option_map].
  pose proof (run_ok_one m n e Hn He) as Hone.
  assert (run_first (n * 4096, entry_frame e, Z.land e FLAGS, 1) = n) as Hfirst
    by (unfold run_first; cbn; by rewrite Z.div_mul).
  assert (run_stop (n * 4096, entry_frame e, Z.land e FLAGS, 1) = n + 1) as Hstop
    by (unfold run_stop; by rewrite Hfirst).
  pose proof (ls_true _ _ _ Hl) as Ht. destruct r as [r|]; cbn [emit open_run] in *.
  - apply Forall_app in Ht as [Ht Hr]. rewrite Forall_singleton in Hr.
    destruct (follows r _) eqn:Ef; cbn [fst snd].
    + pose proof (run_ok_extend m n e r Hn He Hr Ho Ef) as Hx. rewrite app_nil_r.
      assert (run_stop (r.1, r.2 +u 1) = n + 1 /\ run_first r <= n) as [Hs Hle].
      { destruct r as [[[v p] f] k]. unfold run_ok, run_stop, run_first in *. cbn [fst snd] in *.
        rewrite wrap32_small; [lia|]. unfold is_u32. dlia. }
      split; [|exact Hs]. by apply (lists_grow m n rs r).
    + split; [|exact Hstop]. apply lists_snoc; try done.
      intros q. rewrite last_snoc. intros [= <-]. split; [lia|exact Ef].
  - rewrite app_nil_r in *. split; [|exact Hstop]. apply lists_snoc; try done.
    intros q Hq. specialize (Ho q Hq). split; [lia|]. apply (follows_gap m); [|done|lia].
    rewrite Forall_elem_of in Ht. apply Ht. rewrite last_lookup in Hq. by eapply list_elem_of_lookup_2.
Qed.

Lemma scanned_gap m n g r rs :
  scanned m n r rs -> 1 <= g -> (forall k, n <= k < n + g -> page_entry m k = None) ->
  scanned m (n + g) (emit r None).1 (rs ++ (emit r None).2).
Proof.
  intros [[Ht Hc Ha] Ho] Hg Hno.
  assert (forall k e, 0 <= k < n + g -> page_entry m k = Some e -> 0 <= k < n) as Hk.
  { intros k e Hk He. destruct (Z.lt_ge_cases k n); [lia|]. rewrite Hno in He by lia. done. }
  destruct r as [r|]; cbn [emit open_run fst snd] in *.
  - split; [split|]; cbn [open_run]; rewrite ?app_nil_r; [done|done|intros; eapply Ha; eauto|].
    intros q. rewrite last_snoc. intros [= <-]. lia.
  - rewrite app_nil_r in *. split; [split|]; cbn [open_run]; rewrite ?app_nil_r; [done|done| |].
    + intros; eapply Ha; eauto.
    + intros q Hq. specialize (Ho q Hq). lia.
Qed.

(** Whatever page [n] is. *)
Lemma scanned_step m n r rs :
  scanned m n r rs -> 0 <= n < 1048576 ->
  scanned m (n + 1) (emit r (seen m n)).1 (rs ++ (emit r (seen m n)).2).
Proof.
  intros Hs Hn. destruct (page_entry m n) as [e|] eqn:He; [by eapply scanned_page|].
  unfold seen. rewrite He. apply scanned_gap; [done|lia|]. intros k Hk. by replace k with n by lia.
Qed.

Lemma page_virt d i :
  0 <= d < 1024 -> 0 <= i < 1024 ->
  Z.lor (wrap32 (Z.shiftl d 22)) (wrap32 (Z.shiftl i 12)) = (d * 1024 + i) * 4096.
Proof.
  intros Hd Hi. rewrite !Z.shiftl_mul_pow2, !wrap32_small by (lia || (unfold is_u32; lia)).
  rewrite Z.lor_comm, lor_add by lia. lia.
Qed.

Lemma page_entry_at m d i :
  0 <= i < 1024 -> entry_present (pde m d) = true ->
  page_entry m (d * 1024 + i) = if entry_present (pte m d i) then Some (pte m d i) else None.
Proof.
  intros Hi Hp. unfold page_entry. replace ((d * 1024 + i) / 1024) with d by dlia.
  replace ((d * 1024 + i) mod 1024) with i by dlia. by rewrite Hp.
Qed.

Lemma seen_entry m d i :
  0 <= d < 1024 -> 0 <= i < 1024 -> entry_present (pde m d) = true ->
  (if Z.land (pte m d i) PRESENT =? 0 then None
   else Some (Z.lor (wrap32 (Z.shiftl d 22)) (wrap32 (Z.shiftl i 12)), Z.land (pte m d i) FRAME,
              Z.land (pte m d i) FLAGS)) = seen m (d * 1024 + i).
Proof.
  intros Hd Hi Hp. unfold seen. rewrite page_entry_at, land_PRESENT, page_virt by done.
  by destruct (entry_present (pte m d i)).
Qed.

Section Dump.
Context (m : machine).

(** What a part of the scan promises: it prints the runs it closed. *)
Definition scans (c : M sys (option run)) (s : sys) (n : Z) (rs : list run) : Prop :=
  shows c s (fun r ts => exists out, ts = map line out /\ scanned m n r (rs ++ out)).

Lemma dump_table_scans d k : forall i r rs s,
  0 <= d < 1024 -> 0 <= i -> i + Z.of_nat k <= 1024 -> entry_present (pde m d) = true ->
  s_machine s ≡ m -> vm_ok (s_machine s) (s_pmm s) -> scanned m (d * 1024 + i) r rs ->
  scans (dump_table d (seqZ i (Z.of_nat k)) r) s (d * 1024 + i + Z.of_nat k) rs.
Proof.
  induction k as [|k IH]; intros i r rs s Hd Hi Hk Hp Q Hok Hs.
  { apply shows_ret; [exact Hok|]. exists []. rewrite app_nil_r. by rewrite Z.add_0_r. }
  rewrite Nat2Z.inj_succ, seqZ_cons by lia. cbn [dump_table].
  apply shows_bind, shows_table_entry; [exact Hok|done|lia|by rewrite Q|]. intros s1 H1.
  cbv beta zeta. rewrite (pte_equiv _ _ d i Q), seen_entry by (done || lia).
  apply shows_bind, extend_run_shows; [by eapply sw_ok|]. intros s2 H2.
  rewrite Z.pred_succ. unfold Z.succ.
  pose proof (scanned_step m (d * 1024 + i) r rs Hs ltac:(lia)) as Hstep.
  rewrite <- Z.add_assoc in Hstep.
  eapply shows_weaken; [apply (IH (i + 1) _ (rs ++ (emit r (seen m (d * 1024 + i))).2))|];
    [done|lia|lia|done| |by eapply sw_ok|exact Hstep|].
  - etrans; [apply H2|]. etrans; [apply H1|exact Q].
  - intros r' ts (out & -> & Hout). exists ((emit r (seen m (d * 1024 + i))).2 ++ out).
    rewrite app_nil_l, map_app, app_assoc. split; [done|].
    by replace (d * 1024 + i + (Z.of_nat k + 1)) with (d * 1024 + (i + 1) + Z.of_nat k) by lia.
Qed.

Lemma dump_dirs_scans k : forall d r rs s,
  0 <= d -> d + Z.of_nat k <= 1024 ->
  s_machine s ≡ m -> vm_ok (s_machine s) (s_pmm s) -> scanned m (d * 1024) r rs ->
  scans (dump_dirs (seqZ d (Z.of_nat k)) r) s ((d + Z.of_nat k) * 1024) rs.
Proof.
  induction k as [|k IH]; intros d r rs s Hd Hk Q Hok Hs.
  { apply shows_ret; [exact Hok|]. exists []. rewrite app_nil_r. by rewrite Z.add_0_r. }
  rewrite Nat2Z.inj_succ, seqZ_cons by lia. cbn [dump_dirs].
  apply shows_bind, shows_directory_entry; [exact Hok|lia|]. intros s1 H1. rewrite Q, land_PRESENT.
  assert (s_machine s1 ≡ m) as Q1 by (etrans; [apply H1|exact Q]).
  apply shows_bind. eapply (shows_weaken _ _ (fun r' ts => exists out, ts = map line out /\
    scanned m (d * 1024 + 1024) r' (rs ++ out))).
  - destruct (entry_present (pde m d)) eqn:Hp; cbn [negb].
    + pose proof (dump_table_scans d 1024 0 r rs s1) as Ht. rewrite Z.add_0_r in Ht.
      apply Ht; [lia|lia|lia|exact Hp|exact Q1|by eapply sw_ok|exact Hs].
    + apply extend_run_shows; [by eapply sw_ok|]. eexists. split; [reflexivity|].
      apply scanned_gap; [done|lia|]. intros n Hn. unfold page_entry.
      replace (n / 1024) with d by dlia. by rewrite Hp.
  - intros r' ts (out & -> & Hout) s2 H2.
    rewrite Z.pred_succ. unfold Z.succ.
    eapply shows_weaken; [apply (IH (d + 1) r' (rs ++ out))|]; [lia|lia| |by eapply sw_ok| |].
    + etrans; [apply H2|exact Q1].
    + by replace ((d + 1) * 1024) with (d * 1024 + 1024) by lia.
    + intros r'' us (out' & -> & Hout'). exists (out ++ out'). rewrite app_nil_l, map_app, app_assoc.
      split; [done|]. by replace (d + (Z.of_nat k + 1)) with (d + 1 + Z.of_nat k) by lia.
Qed.

End Dump.

Lemma dump_spec s :
  vm_ok (s_machine s) (s_pmm s) ->
  exists h1 h2 rs s', dump s = Done tt s' /\ showed (h1 :: h2 :: map line rs) s s' /\
    lists (s_machine s) 1048576 rs.
Proof.
  intros Hok. set (m := s_machine s).
  assert (scanned m 0 None []) as H0.
  { split; [split|]; cbn; [constructor| |lia|done]. intros i q r Hi. by rewrite lookup_nil in Hi. }
  assert (shows dump s (fun _ ts => exists h1 h2 rs, ts = h1 :: h2 :: map line rs /\ lists m 1048576 rs))
    as (u & ts & s' & E & Hs & h1 & h2 & rs & -> & Hl); [|by exists h1, h2, rs, s'; destruct u].
  unfold dump. do 3 (apply shows_bind; eapply shows_ask; [reflexivity|by eauto using sw_ok|]; intros ? ?).
  show_print s4 H4. show_print s5 H5.
  assert (s_machine s5 ≡ m) as Q5.
  { etrans; [apply H5|]. etrans; [apply H4|]. etrans; [apply H2|]. etrans; [apply H1|apply H]. }
  apply shows_bind. eapply shows_weaken; [apply (dump_dirs_scans m 1024 0 None [] s5)|];
    [lia|lia|exact Q5|by eapply sw_ok|exact H0|].
  cbn [app]. intros r ts (rs & -> & Hsc) s6 H6. apply shows_bind, extend_run_shows; [by eapply sw_ok|].
  intros s7 H7. apply shows_ret; [by eapply sw_ok|]. eexists _, _, (rs ++ open_run r).
  split; [|exact (sc_lists _ _ _ _ Hsc)]. cbn [app]. rewrite map_app. do 2 f_equal.
  by destruct r; cbn [emit snd open_run]; rewrite ?app_nil_r.
Qed.

(** C28: The shell's [pages] command tells the truth: [dump] returns, changes
    nothing but the screen and the TLB, and after its two heading lines
    prints one line per run, where the runs are in the order of their
    addresses, every mapped page (the table window included) is in one of
    them, every page of a run is mapped to the frame and with the rights its
    line says, and no two neighbouring lines could have been one. *)
Theorem dump_prints_map s :
  vm_ok (s_machine s) (s_pmm s) ->
  exists h1 h2 rs s', dump s = Done tt s' /\ showed (h1 :: h2 :: map line rs) s s' /\
    lists (s_machine s) 1048576 rs.
Proof. exact (dump_spec s). Qed.

(** The demo machine maps one page only, the directory itself: it is listed. *)
Lemma dump_prints_map_witness :
  exists h1 h2 rs s', dump demo = Done tt s' /\ showed (h1 :: h2 :: map line rs) demo s' /\
    Exists (fun r => run_first r <= 1048575 < run_stop r) rs.
Proof.
  destruct (dump_prints_map demo demo_ok) as (h1 & h2 & rs & s' & E & Hs & Hl).
  exists h1, h2, rs, s'. split; [exact E|]. split; [exact Hs|].
  apply (ls_all _ _ _ Hl 1048575 4099); [lia|reflexivity].
Defined.
