(* ===== verification/Heap.v ===== *)
(** * The heaps (kernel/src/heap.rs): interface and definitions

    The heap runs on whatever gives it memory, pages and frames.  [Env] is
    that interface: loads and stores of the words of its blocks, the calls
    heap.rs makes to paging.rs and pmm.rs, and [koops!].  [EnvLaws] states
    what the heap relies on; [HeapEnv.v] shows that the paging and frame
    code of this kernel satisfies it.  The proofs about the heap, in
    [HeapSpec.v] and [HeapOps.v], use the interface only. *)

From S2P Require Import Prelude.
From S2P Require Import Mem.
From S2P Require Import Klib.
From S2P Require Import Fmt.

(** ** What the heap is given *)

Class Env (E : Type) : Type := {
  load32 : Z -> M E Z;
  store32 : Z -> Z -> M E unit;
  map_page : Z -> Z -> Z -> M E bool;
  unmap_page : Z -> M E (option Z);
  alloc_frame : M E (option Z);
  free_frame : Z -> M E unit;
  koops : list Z -> M E unit;
}.

(** heap.rs 8-8: HEADER *)
Definition HEADER : Z := 8.
(** heap.rs 9-9: ALIGN *)
Definition ALIGN : Z := 8.
(** heap.rs 10-10: SMALLEST *)
Definition SMALLEST : Z := 8.

(** heap.rs 12-16: Backing *)
Inductive Backing : Type := Contiguous | Scattered.

#[global] Instance Backing_eq_dec : EqDecision Backing.
Proof. solve_decision. Defined.

(** heap.rs 18-27: Heap *)
Record Heap : Type := mkHeap {
  h_name : string;
  h_base : Z;
  h_limit : Z;
  h_brk : Z;
  h_backing : Backing;
  h_phys_base : Z;
  h_phys_end : Z;
  h_flags : Z;
}.

Definition with_brk (b : Z) (h : Heap) : Heap :=
  mkHeap (h_name h) (h_base h) (h_limit h) b (h_backing h) (h_phys_base h) (h_phys_end h) (h_flags h).

(** heap.rs 29-42: Stats *)
Record Stats : Type := mkStats {
  st_name : string;
  st_base : Z;
  st_brk : Z;
  st_limit : Z;
  st_used : Z;
  st_free : Z;
  st_blocks : Z;
  st_live : Z;
  st_contiguous : bool;
  st_phys_base : Z;
  st_phys_end : Z;
}.

(** heap.rs 60-63: round_up *)
Definition round_up (size : Z) : Z :=
  let size := if size <? SMALLEST then SMALLEST else size in
  Z.land (size +u ALIGN -u 1) (not32 (ALIGN - 1)).

(** heap.rs 66-74: Heap::new *)
Definition new (name : string) (base limit : Z) (backing : Backing) (flags : Z) : Heap :=
  mkHeap name base limit base backing 0 0 flags.

(** heap.rs 76-79: Heap::attach *)
Definition attach (window : Z * Z) (h : Heap) : Heap :=
  mkHeap (h_name h) (h_base h) (h_limit h) (h_brk h) (h_backing h) window.1 window.2 (h_flags h).

Section Heap.
Context {E : Type} {EnvE : Env E}.

(** A method runs on [self] and the environment. *)
Definition lift {A} (c : M E A) : M (Heap * E) A := fun '(h, e) =>
  match c e with
  | Done a e' => Done a (h, e')
  | Fault addr error e' => Fault addr error (h, e')
  | Halted e' => Halted (h, e')
  | OutOfFuel => OutOfFuel
  end.

Definition self : M (Heap * E) Heap := gets fst.
Definition set_brk (b : Z) : M (Heap * E) unit := modify (fun '(h, e) => (with_brk b h, e)).

(** heap.rs 44-46: size_at *)
Definition size_at (at_ : Z) : M (Heap * E) Z := lift (load32 at_).

(** heap.rs 48-51: used_at *)
Definition used_at (at_ : Z) : M (Heap * E) bool :=
  flag <- lift (load32 (at_ +u 4)) ;; ret (negb (flag =? 0)).

(** heap.rs 53-58: write_header *)
Definition write_header (at_ size : Z) (used : bool) : M (Heap * E) unit :=
  lift (store32 at_ size) ;; lift (store32 (at_ +u 4) (if used then 1 else 0)).

(** heap.rs 81-99: Heap::frame_for *)
Definition frame_for (at_ : Z) : M (Heap * E) (option Z) :=
  h <- self ;;
  match h_backing h with
  | Contiguous =>
      let frame := h_phys_base h +u (at_ -u h_base h) in
      if frame +u PAGE_SIZE >? h_phys_end h then
        lift (koops (bytes (h_name h) ++ bytes " ran out of its physical block")) ;; ret None
      else ret (Some frame)
  | Scattered =>
      got <- lift alloc_frame ;;
      match got with
      | Some frame => ret (Some frame)
      | None =>
          lift (koops (bytes (h_name h) ++ bytes " found no free physical frame")) ;; ret None
      end
  end.

(** The loop body that walks to the end of a run of blocks. *)
(** heap.rs 181-189: Heap::last_block *)
Fixpoint last_loop (fuel : nat) (end_ at_ : Z) (last : option Z) : M (Heap * E) (option Z) :=
  match fuel with
  | O => starve
  | S fuel =>
      if at_ +u HEADER <=? end_ then
        size <- size_at at_ ;;
        last_loop fuel end_ (at_ +u (HEADER +u size)) (Some at_)
      else ret last
  end.

(** Blocks are at least a header long, so this is enough steps for a walk. *)
Definition walk_fuel (h : Heap) : nat := S (Z.to_nat ((h_brk h - h_base h) / HEADER)).

(** heap.rs 181-189: Heap::last_block *)
Definition last_block (end_ : Z) : M (Heap * E) (option Z) :=
  h <- self ;; last_loop (walk_fuel h) end_ (h_base h) None.

(** heap.rs 193-198: Heap::find_block *)
Fixpoint find_loop (fuel : nat) (payload at_ : Z) : M (Heap * E) (option Z) :=
  match fuel with
  | O => starve
  | S fuel =>
      h <- self ;;
      if at_ +u HEADER <=? h_brk h then
        if at_ +u HEADER =? payload then ret (Some at_)
        else size <- size_at at_ ;; find_loop fuel payload (at_ +u (HEADER +u size))
      else ret None
  end.

(** heap.rs 191-200: Heap::find_block *)
Definition find_block (payload : Z) : M (Heap * E) (option Z) :=
  h <- self ;; find_loop (walk_fuel h) payload (h_base h).

(** The loop that joins the free blocks after [at]. *)
(** heap.rs 207-214: Heap::first_fit *)
Fixpoint merge_loop (fuel : nat) (at_ size : Z) : M (Heap * E) Z :=
  match fuel with
  | O => starve
  | S fuel =>
      h <- self ;;
      let next := at_ +u HEADER +u size in
      if next +u HEADER >? h_brk h then ret size
      else
        used <- used_at next ;;
        if used : bool then ret size
        else
          more <- size_at next ;;
          let size := size +u (HEADER +u more) in
          write_header at_ size false ;;
          merge_loop fuel at_ size
  end.

(** heap.rs 204-221: Heap::first_fit *)
Fixpoint fit_loop (fuel : nat) (need at_ : Z) : M (Heap * E) (option Z) :=
  match fuel with
  | O => starve
  | S fuel =>
      h <- self ;;
      if at_ +u HEADER <=? h_brk h then
        size <- size_at at_ ;;
        used <- used_at at_ ;;
        if negb used then
          size <- merge_loop (walk_fuel h) at_ size ;;
          if size >=? need then ret (Some at_)
          else fit_loop fuel need (at_ +u (HEADER +u size))
        else fit_loop fuel need (at_ +u (HEADER +u size))
      else ret None
  end.

(** heap.rs 202-222: Heap::first_fit *)
Definition first_fit (need : Z) : M (Heap * E) (option Z) :=
  h <- self ;; fit_loop (walk_fuel h) need (h_base h).

(** heap.rs 224-233: Heap::take *)
Definition take (block need : Z) : M (Heap * E) Z :=
  size <- size_at block ;;
  (if size >=? need +u HEADER +u SMALLEST then
     write_header block need true ;;
     write_header (block +u HEADER +u need) (size -u need -u HEADER) false
   else write_header block size true) ;;
  ret (block +u HEADER).

(** The loop of [grow]: pages are mapped until one cannot be. *)
(** heap.rs 104-120: Heap::grow *)
Fixpoint grow_loop (pages : nat) (at_ : Z) : M (Heap * E) Z :=
  match pages with
  | O => ret at_
  | S pages =>
      h <- self ;;
      if at_ +u PAGE_SIZE >? h_limit h then
        lift (koops (bytes (h_name h) ++ bytes " reached the end of its address range")) ;; ret at_
      else
        got <- frame_for at_ ;;
        match got with
        | None => ret at_
        | Some frame =>
            ok <- lift (map_page at_ frame (h_flags h)) ;;
            if negb ok then
              (if bool_decide (h_backing h = Scattered) then lift (free_frame frame) else ret tt) ;;
              ret at_
            else grow_loop pages (at_ +u PAGE_SIZE)
        end
  end.

(** heap.rs 101-133: Heap::grow *)
Definition grow (pages : Z) : M (Heap * E) bool :=
  h <- self ;;
  let start := h_brk h in
  at_ <- grow_loop (Z.to_nat pages) start ;;
  if at_ =? start then ret false
  else
    tail <- last_block start ;;
    set_brk at_ ;;
    free_tail <- (match tail with
                  | Some block => used <- used_at block ;; ret (negb used)
                  | None => ret false
                  end) ;;
    (match tail, free_tail with
     | Some block, true =>
         size <- size_at block ;; write_header block (size +u (at_ -u start)) false
     | _, _ => write_header start ((at_ -u start) -u HEADER) false
     end) ;;
    ret true.

(** The loop of [shrink] that unmaps the pages above the new break. *)
(** heap.rs 154-162: Heap::shrink *)
Fixpoint unmap_loop (fuel : nat) (at_ : Z) : M (Heap * E) unit :=
  match fuel with
  | O => starve
  | S fuel =>
      h <- self ;;
      if at_ <? h_brk h then
        got <- lift (unmap_page at_) ;;
        (match got with
         | Some frame =>
             if bool_decide (h_backing h = Scattered) then lift (free_frame frame) else ret tt
         | None => ret tt
         end) ;;
        unmap_loop fuel (at_ +u PAGE_SIZE)
      else ret tt
  end.

(** The three ways out of the checks of [shrink]. *)
(** heap.rs 141-153: Heap::shrink *)
Definition shrink_top (target : Z) : M (Heap * E) bool :=
  h <- self ;;
  got <- last_block (h_brk h) ;;
  match got with
  | None => ret true
  | Some block =>
      used <- used_at block ;;
      if used || (target <? block) then
        lift (koops (bytes "the top of " ++ bytes (h_name h) ++ bytes " is in use, it cannot shrink")) ;;
        ret false
      else if target >? block then
        if target <? block +u HEADER +u SMALLEST then
          lift (koops (bytes "the free top of " ++ bytes (h_name h) ++
            bytes " is too small to give back")) ;;
          ret false
        else write_header block (target -u block -u HEADER) false ;; ret true
      else ret true
  end.

(** heap.rs 135-165: Heap::shrink *)
Definition shrink (pages : Z) : M (Heap * E) bool :=
  h <- self ;;
  let span := Z.min (pages *u PAGE_SIZE) (h_brk h -u h_base h) in
  let target := h_brk h -u span in
  if span =? 0 then ret true
  else
    ok <- shrink_top target ;;
    if negb ok then ret false
    else
      unmap_loop (S (Z.to_nat (span / PAGE_SIZE + 1))) target ;;
      set_brk target ;;
      ret true.

(** [delta] is an [i32]; the result is an address, 0 for a null pointer. *)
(** heap.rs 167-179: Heap::brk *)
Definition brk (delta : Z) : M (Heap * E) Z :=
  h <- self ;;
  let was := h_brk h in
  if delta =? 0 then ret was
  else
    let pages := (Z.abs delta +u PAGE_SIZE -u 1) / PAGE_SIZE in
    moved <- (if delta >? 0 then grow pages else shrink pages) ;;
    if moved : bool then ret was else ret 0.

(** heap.rs 235-255: Heap::alloc *)
Definition alloc (want : Z) : M (Heap * E) Z :=
  h <- self ;;
  if want =? 0 then ret 0
  else if want >? h_limit h -u h_base h -u HEADER then
    lift (koops (dec want ++ bytes " bytes is more than " ++ bytes (h_name h) ++
      bytes " can ever hold")) ;;
    ret 0
  else
    let need := round_up want in
    got <- first_fit need ;;
    match got with
    | Some block => take block need
    | None =>
        let pages := (need +u HEADER +u PAGE_SIZE -u 1) / PAGE_SIZE in
        grown <- grow pages ;;
        if negb grown then ret 0
        else
          got <- first_fit need ;;
          match got with
          | Some block => take block need
          | None => ret 0
          end
    end.

(** heap.rs 257-274: Heap::free *)
Definition free (pointer : Z) : M (Heap * E) unit :=
  if pointer =? 0 then ret tt
  else
    h <- self ;;
    let payload := pointer in
    got <- find_block payload ;;
    match got with
    | None =>
        lift (koops (hex_alt 10 payload ++ bytes " did not come from " ++ bytes (h_name h)))
    | Some block =>
        used <- used_at block ;;
        if negb used then
          lift (koops (hex_alt 10 payload ++ bytes " is freed twice in " ++ bytes (h_name h)))
        else
          size <- size_at block ;; write_header block size false
    end.

(** heap.rs 276-288: Heap::size *)
Definition size (pointer : Z) : M (Heap * E) Z :=
  if pointer =? 0 then ret 0
  else
    h <- self ;;
    let payload := pointer in
    got <- find_block payload ;;
    match got with
    | Some block => size_at block
    | None =>
        lift (koops (hex_alt 10 payload ++ bytes " did not come from " ++ bytes (h_name h))) ;;
        ret 0
    end.

(** The loop of [stats]. *)
(** heap.rs 305-315: Heap::stats *)
Fixpoint stats_loop (fuel : nat) (at_ : Z) (st : Stats) : M (Heap * E) Stats :=
  match fuel with
  | O => starve
  | S fuel =>
      h <- self ;;
      if at_ +u HEADER <=? h_brk h then
        size <- size_at at_ ;;
        used <- used_at at_ ;;
        let blocks := st_blocks st +u 1 in
        let st :=
          if used : bool
          then mkStats (st_name st) (st_base st) (st_brk st) (st_limit st) (st_used st +u size)
                 (st_free st) blocks (st_live st +u 1) (st_contiguous st) (st_phys_base st)
                 (st_phys_end st)
          else mkStats (st_name st) (st_base st) (st_brk st) (st_limit st) (st_used st)
                 (st_free st +u size) blocks (st_live st) (st_contiguous st) (st_phys_base st)
                 (st_phys_end st) in
        stats_loop fuel (at_ +u (HEADER +u size)) st
      else ret st
  end.

(** heap.rs 290-317: Heap::stats *)
Definition stats : M (Heap * E) Stats :=
  h <- self ;;
  stats_loop (walk_fuel h) (h_base h)
    (mkStats (h_name h) (h_base h) (h_brk h) (h_limit h) 0 0 0 0
       (bool_decide (h_backing h = Contiguous)) (h_phys_base h) (h_phys_end h)).

End Heap.
