(* ===== verification/HeapSpec.v ===== *)
(** * What the heap relies on, and the block list

    The laws of the interface [Env], the heap as a list of blocks, and the
    read-only walks of heap.rs over it. *)

From S2P Require Import Prelude.
From S2P Require Import Mem.
From S2P Require Import PagingSpec.
From S2P Require Import Paging.
From S2P Require Import Heap.

(** ** Laws of the environment *)

(** A page number maps to a frame number and a right to write. *)
Class View (E : Type) : Type := {
  env_ok : E -> Prop;
  page : E -> Z -> option (Z * bool);
  word : E -> Z -> Z;
  spare : E -> Z -> Prop;      (* a frame that is neither free nor in use *)
  frames_left : E -> Z;               (* how many frames are free *)
  oopses : E -> Z;
}.

Section View.
Context {E : Type} {V : View E}.

(** The address [a] is an aligned word of a mapped page. *)
Definition mapped (e : E) (a : Z) : Prop :=
  is_u32 a /\ a mod 4 = 0 /\ managed (a / 4096) /\ exists f, page e (a / 4096) = Some (f, true).

(** Pages, words and spare frames are those of [e], and no frame was freed. *)
Record keeps (e e' : E) : Prop := {
  kp_ok : env_ok e';
  kp_page : forall n, managed n -> page e' n = page e n;
  kp_word : forall a, mapped e a -> word e' a = word e a;
  kp_spare : forall f, spare e f -> spare e' f;
  kp_left : frames_left e' <= frames_left e;
}.

(** The same, and no panic was reported. *)
Definition quiet (e e' : E) : Prop := keeps e e' /\ oopses e' = oopses e.

(** One panic was reported. *)
Definition complained (e e' : E) : Prop := keeps e e' /\ oopses e' = oopses e +u 1.

End View.

Class EnvLaws (E : Type) {EnvE : Env E} {V : View E} : Prop := {
  word_u32 : forall e a, is_u32 (word e a);
  load_law : forall e a, env_ok e -> mapped e a ->
    exists e', load32 a e = Done (word e a) e' /\ quiet e e';
  store_law : forall e a v, env_ok e -> mapped e a -> is_u32 v ->
    exists e', store32 a v e = Done tt e' /\ env_ok e' /\ oopses e' = oopses e /\
      (forall n, managed n -> page e' n = page e n) /\
      (forall b, mapped e b -> word e' b = if decide (b = a) then v else word e b) /\
      (forall f, spare e f -> spare e' f) /\ frames_left e' <= frames_left e;
  map_law : forall e a f, env_ok e -> is_u32 a -> managed (a / 4096) ->
    page e (a / 4096) = None -> spare e f -> is_kernel a = true ->
    exists ok e', map_page a (f * 4096) KERNEL_PAGE e = Done ok e' /\
      (if ok : bool then
        env_ok e' /\ oopses e' = oopses e /\
        (forall n, managed n ->
           page e' n = if decide (n = a / 4096) then Some (f, true) else page e n) /\
        (forall b, mapped e b -> word e' b = word e b) /\
        (forall g, spare e g -> g <> f -> spare e' g)
      else keeps e e' /\ frames_left e' <= 0);
  unmap_law : forall e a f w, env_ok e -> is_u32 a -> managed (a / 4096) ->
    page e (a / 4096) = Some (f, w) ->
    exists e', unmap_page a e = Done (Some (f * 4096)) e' /\ env_ok e' /\
      oopses e' = oopses e /\
      (forall n, managed n -> page e' n = if decide (n = a / 4096) then None else page e n) /\
      (forall b, mapped e b -> b / 4096 <> a / 4096 -> word e' b = word e b) /\
      spare e' f /\ (forall g, spare e g -> spare e' g);
  alloc_law : forall e, env_ok e ->
    exists r e', alloc_frame e = Done r e' /\ quiet e e' /\
      match r with
      | None => frames_left e' <= 0
      | Some a => exists f, a = f * 4096 /\ spare e' f /\ ~ spare e f
      end;
  page_law : forall e n f w, env_ok e -> managed n -> page e n = Some (f, w) -> ~ spare e f;
  free_law : forall e f, env_ok e -> spare e f ->
    exists e', free_frame (f * 4096) e = Done tt e' /\ env_ok e' /\ oopses e' = oopses e /\
      (forall n, managed n -> page e' n = page e n) /\
      (forall b, mapped e b -> word e' b = word e b) /\
      (forall g, spare e g -> g <> f -> spare e' g) /\ frames_left e' <= frames_left e + 1;
  koops_law : forall e text, env_ok e ->
    exists e', koops text e = Done tt e' /\ complained e e';
}.

Section Keeps.
Context {E : Type} {V : View E}.

Lemma mapped_pages (e e' : E) a :
  (forall n, managed n -> page e' n = page e n) -> mapped e a <-> mapped e' a.
Proof.
  intros Hp. unfold mapped. split; intros (? & ? & Hn & f & Hf); split_and!; try done;
    exists f; [by rewrite Hp|by rewrite <- Hp].
Qed.

Lemma keeps_mapped (e e' : E) a : keeps e e' -> mapped e a <-> mapped e' a.
Proof. intros Hk. apply mapped_pages, Hk. Qed.

Lemma keeps_refl (e : E) : env_ok e -> keeps e e.
Proof. by split. Qed.

Lemma keeps_trans (e1 e2 e3 : E) : keeps e1 e2 -> keeps e2 e3 -> keeps e1 e3.
Proof.
  intros H1 H2. pose proof H1 as [A1 A2 A3 A4 A5]. destruct H2 as [B1 B2 B3 B4 B5]. split.
  - done.
  - intros n Hn. by rewrite B2, A2.
  - intros a Ha. rewrite B3, A3; [done|done|by apply (keeps_mapped e1)].
  - auto.
  - lia.
Qed.

Lemma quiet_refl (e : E) : env_ok e -> quiet e e.
Proof. intros H. split; [by apply keeps_refl|done]. Qed.

Lemma quiet_trans (e1 e2 e3 : E) : quiet e1 e2 -> quiet e2 e3 -> quiet e1 e3.
Proof.
  intros [H1 E1] [H2 E2]. split; [by eapply keeps_trans|congruence].
Qed.

Lemma quiet_complained (e1 e2 e3 : E) : quiet e1 e2 -> complained e2 e3 -> complained e1 e3.
Proof.
  intros [H1 E1] [H2 E2]. split; [by eapply keeps_trans|congruence].
Qed.

End Keeps.

#[export] Hint Resolve keeps_refl quiet_refl : kfs.

(** ** Blocks *)

(** A block: the size of its payload, and whether it is in use. *)
Definition block : Type := Z * bool.

(** The bytes a list of blocks covers, headers included. *)
Fixpoint span (bs : list block) : Z :=
  match bs with
  | [] => 0
  | (sz, _) :: bs => HEADER + sz + span bs
  end.

Definition block_ok (b : block) : Prop := 8 <= b.1 /\ b.1 mod 8 = 0.

(** The headers in memory from [a] to [z] are those of [bs]. *)
Fixpoint tiles (w : Z -> Z) (a : Z) (bs : list block) (z : Z) : Prop :=
  match bs with
  | [] => a = z
  | (sz, used) :: bs =>
      block_ok (sz, used) /\ w a = sz /\ w (a + 4) = (if used : bool then 1 else 0) /\
      tiles w (a + HEADER + sz) bs z
  end.

Lemma span_app bs bs' : span (bs ++ bs') = span bs + span bs'.
Proof. induction bs as [|[sz u] bs IH]; cbn [span app]; [done|]. rewrite IH. lia. Qed.

Lemma tiles_span w a bs z : tiles w a bs z -> z = a + span bs.
Proof.
  revert a. induction bs as [|[sz u] bs IH]; intros a; cbn [tiles span].
  - intros ->. lia.
  - intros (_ & _ & _ & H). apply IH in H. lia.
Qed.

Lemma tiles_ok w a bs z : tiles w a bs z -> Forall block_ok bs.
Proof.
  revert a. induction bs as [|[sz u] bs IH]; intros a; cbn [tiles]; [constructor|].
  intros (Hb & _ & _ & H). constructor; [done|]. by eapply IH.
Qed.

Lemma span_nonneg bs : Forall block_ok bs -> 0 <= span bs /\ span bs mod 8 = 0.
Proof.
  induction 1 as [|[sz u] bs [Hb Hm] _ IH]; cbn [span]; [done|]. unfold HEADER.
  cbn in Hb, Hm. split; [lia|]. dlia.
Qed.

Lemma tiles_app w a bs bs' z :
  tiles w a (bs ++ bs') z <-> tiles w a bs (a + span bs) /\ tiles w (a + span bs) bs' z.
Proof.
  revert a. induction bs as [|[sz u] bs IH]; intros a; cbn [tiles span app].
  - rewrite Z.add_0_r. naive_solver.
  - rewrite IH. replace (a + (HEADER + sz + span bs)) with (a + HEADER + sz + span bs) by lia.
    tauto.
Qed.

(** The headers are all that matters. *)
Lemma tiles_ext w w' a bs z :
  (forall x, a <= x < z -> (x - a) mod 8 = 0 -> w' x = w x /\ w' (x + 4) = w (x + 4)) ->
  tiles w a bs z -> tiles w' a bs z.
Proof.
  revert a. induction bs as [|[sz u] bs IH]; intros a Hw; cbn [tiles]; [done|].
  intros (Hb & H1 & H2 & H3). pose proof (tiles_span _ _ _ _ H3) as Hz.
  pose proof (span_nonneg bs (tiles_ok _ _ _ _ H3)) as [Hs _].
  split; [exact Hb|]. destruct Hb as [Hb Hm]. cbn in Hb, Hm. unfold HEADER in *.
  destruct (Hw a) as [E1 E2]; [lia|by rewrite Z.sub_diag|].
  split; [congruence|]. split; [congruence|].
  apply IH; [|done]. intros x Hx Hxm. apply Hw; [lia|dlia].
Qed.

(** ** Memory steps *)

(** Only words of [P] were written. *)
Record writes {E} {V : View E} (P : Z -> Prop) (e e' : E) : Prop := {
  wr_ok : env_ok e';
  wr_page : forall n, managed n -> page e' n = page e n;
  wr_word : forall a, mapped e a -> ~ P a -> word e' a = word e a;
  wr_spare : forall f, spare e f -> spare e' f;
  wr_oops : oopses e' = oopses e;
  wr_left : frames_left e' <= frames_left e;
}.

Section Steps.
Context {E : Type} {EnvE : Env E} {V : View E} {Laws : EnvLaws E}.
Implicit Types (h : Heap) (e : E).

Lemma writes_quiet (P : Z -> Prop) e e' : quiet e e' -> writes P e e'.
Proof. intros [[H1 H2 H3 H4 H6] H5]. split; auto. Qed.

Lemma writes_weaken (P Q : Z -> Prop) e e' :
  (forall a, P a -> Q a) -> writes P e e' -> writes Q e e'.
Proof. intros HPQ [H1 H2 H3 H4 H5 H6]. split; auto. Qed.

Lemma writes_mapped P e e' a : writes P e e' -> mapped e a <-> mapped e' a.
Proof. intros Hw. apply mapped_pages, Hw. Qed.

Lemma writes_trans (P : Z -> Prop) e1 e2 e3 : writes P e1 e2 -> writes P e2 e3 -> writes P e1 e3.
Proof.
  intros H1 H2. pose proof H1 as [A1 A2 A3 A4 A5 A6]. destruct H2 as [B1 B2 B3 B4 B5 B6]. split.
  - done.
  - intros n Hn. by rewrite B2, A2.
  - intros a Ha HP. rewrite B3, A3; [done|done|done|by apply (writes_mapped P e1)|done].
  - auto.
  - congruence.
  - lia.
Qed.

Lemma lift_Done {A} (c : M E A) h e a e' : c e = Done a e' -> lift c (h, e) = Done a (h, e').
Proof. unfold lift. by intros ->. Qed.

Lemma size_at_spec h e a :
  env_ok e -> mapped e a ->
  exists e', size_at a (h, e) = Done (word e a) (h, e') /\ quiet e e'.
Proof.
  intros Hok Hm. destruct (load_law e a Hok Hm) as (e' & Ee & Hq).
  exists e'. split; [by apply lift_Done|done].
Qed.

(** A header: two words in mapped pages, below the top of memory. *)
Definition header_at e (a : Z) : Prop := mapped e a /\ mapped e (a + 4) /\ a + 8 < 4294967296.

Lemma used_at_spec h e a :
  env_ok e -> header_at e a ->
  exists e', used_at a (h, e) = Done (negb (word e (a + 4) =? 0)) (h, e') /\ quiet e e'.
Proof.
  intros Hok (_ & Hm & _). destruct (load_law e (a + 4) Hok Hm) as (e' & Ee & Hq).
  exists e'. split; [|done]. unfold used_at. rewrite wrap32_small by apply Hm.
  by rewrite (bind_Done _ _ _ _ _ (lift_Done _ h _ _ _ Ee)).
Qed.

Lemma write_header_spec h e a sz used :
  env_ok e -> header_at e a -> is_u32 sz ->
  exists e', write_header a sz used (h, e) = Done tt (h, e') /\
    writes (fun x => a <= x < a + 8) e e' /\
    word e' a = sz /\ word e' (a + 4) = (if used : bool then 1 else 0).
Proof.
  intros Hok (Hm & Hm4 & _) Hsz.
  destruct (store_law e a sz Hok Hm Hsz) as (e1 & E1 & Hok1 & O1 & P1 & W1 & S1 & L1).
  assert (mapped e1 (a + 4)) as Hm1 by by apply (mapped_pages e e1).
  destruct (store_law e1 (a + 4) (if used then 1 else 0) Hok1 Hm1)
    as (e2 & E2 & Hok2 & O2 & P2 & W2 & S2 & L2); [by destruct used|].
  assert (forall b, mapped e b -> mapped e1 b) as Hup by (intros b; apply (mapped_pages e e1); done).
  exists e2. split; [|split; [split|]].
  - unfold write_header. rewrite (bind_Done _ _ _ _ _ (lift_Done _ h _ _ _ E1)).
    rewrite wrap32_small by apply Hm4. by apply lift_Done.
  - done.
  - intros n Hn. by rewrite P2, P1.
  - intros b Hb Hnot. rewrite W2, W1 by auto. rewrite !decide_False by lia. done.
  - auto.
  - congruence.
  - lia.
  - rewrite !W2, W1 by auto. rewrite (decide_False (P := a = a + 4)), !decide_True by lia. done.
Qed.

(** ** Walks *)

(** Every block of the stretch has a readable header. *)
Definition stretch e (a z : Z) : Prop :=
  a mod 8 = 0 /\ 0 <= a /\ z <= 4290772992 /\
  forall x, a <= x -> x + 8 <= z -> x mod 8 = 0 -> header_at e x.

Lemma stretch_skip e a z sz :
  stretch e a z -> 0 <= sz -> sz mod 8 = 0 -> stretch e (a + HEADER + sz) z.
Proof.
  unfold HEADER. intros (H1 & H2 & H3 & H4) Hs Hm. split_and!; [dlia|lia|done|].
  intros x Hx. apply H4. lia.
Qed.

Lemma header_at_writes P e e' a : writes P e e' -> header_at e a -> header_at e' a.
Proof.
  intros Hw (H1 & H2 & H3). split_and!; [by apply (writes_mapped P e)..|done].
Qed.

Lemma stretch_writes P e e' a z : writes P e e' -> stretch e a z -> stretch e' a z.
Proof.
  intros Hw (H1 & H2 & H3 & H4). split_and!; [done..|].
  intros x Hx Hz Hm. by apply (header_at_writes P e), H4.
Qed.

(** Writes elsewhere leave the headers alone. *)
Lemma tiles_writes P e e' a bs z :
  writes P e e' -> stretch e a z ->
  (forall x, a <= x < z -> ~ P x) -> tiles (word e) a bs z -> tiles (word e') a bs z.
Proof.
  intros Hw Hs Hno Ht. pose proof (tiles_span _ _ _ _ Ht) as Hz.
  destruct (span_nonneg bs (tiles_ok _ _ _ _ Ht)) as [_ Hm8].
  destruct Hs as (Ha & _ & _ & Hh). revert Ht. apply tiles_ext.
  intros x Hx Hm. assert (x mod 8 = 0) by dlia. assert (x + 8 <= z) by dlia.
  destruct (Hh x) as (Hm0 & Hm4 & _); [lia|lia|done|].
  split; apply (wr_word _ _ _ Hw); try done; apply Hno; lia.
Qed.

Lemma tiles_quiet e e' a bs z :
  quiet e e' -> stretch e a z -> tiles (word e) a bs z -> tiles (word e') a bs z.
Proof.
  intros Hq Hs. apply (tiles_writes (fun _ => False)); [by apply writes_quiet|done|auto].
Qed.

Lemma stretch_quiet e e' a z : quiet e e' -> stretch e a z -> stretch e' a z.
Proof. intros Hq. apply (stretch_writes (fun _ => False)). by apply writes_quiet. Qed.

Lemma first_block e a sz u bs z :
  stretch e a z -> tiles (word e) a ((sz, u) :: bs) z ->
  header_at e a /\ word e a = sz /\ word e (a + 4) = (if u : bool then 1 else 0) /\
  8 <= sz /\ sz mod 8 = 0 /\ a + HEADER + sz + span bs = z /\ 0 <= span bs /\
  stretch e (a + HEADER + sz) z /\ tiles (word e) (a + HEADER + sz) bs z.
Proof.
  intros Hs (Hb & H1 & H2 & Ht). pose proof (tiles_span _ _ _ _ Ht) as Hz.
  destruct (span_nonneg bs (tiles_ok _ _ _ _ Ht)) as [Hn _]. destruct Hb as [Hb Hm].
  cbn in Hb, Hm. pose proof Hs as (Ha & Ha0 & Hz0 & Hh). unfold HEADER in *.
  split; [apply Hh; lia|]. split_and!; try done; try lia.
  change (stretch e (a + HEADER + sz) z). apply stretch_skip; (done || lia).
Qed.

Lemma stretch_end e a z : stretch e a z -> a = z -> (a +u HEADER <=? z) = false.
Proof.
  intros (_ & Ha & Hz & _) ->. apply Z.leb_gt. unfold HEADER.
  rewrite wrap32_small by (unfold is_u32; lia). lia.
Qed.

Lemma stretch_step e a sz u bs z :
  stretch e a z -> tiles (word e) a ((sz, u) :: bs) z ->
  (a +u HEADER <=? z) = true /\ a +u HEADER = a + HEADER /\
  a +u (HEADER +u sz) = a + HEADER + sz /\ a +u HEADER +u sz = a + HEADER + sz.
Proof.
  intros Hs Ht. destruct (first_block _ _ _ _ _ _ Hs Ht) as (_ & _ & _ & Hsz & _ & Hz & Hn & _).
  destruct Hs as (_ & Ha & Hz0 & _). unfold HEADER in *.
  rewrite (wrap32_small (8 + sz)) by (unfold is_u32; lia).
  rewrite (wrap32_small (a + 8)) by (unfold is_u32; lia).
  rewrite !wrap32_small by (unfold is_u32; lia).
  split_and!; [apply Z.leb_le; lia|lia|lia|lia].
Qed.

(** Address of the last block, [last] when there is none. *)
Fixpoint last_addr (a : Z) (bs : list block) (last : option Z) : option Z :=
  match bs with
  | [] => last
  | (sz, _) :: bs => last_addr (a + HEADER + sz) bs (Some a)
  end.

Lemma last_loop_spec fuel h e a bs z last :
  env_ok e -> stretch e a z -> tiles (word e) a bs z -> (length bs < fuel)%nat ->
  exists e', last_loop fuel z a last (h, e) = Done (last_addr a bs last) (h, e') /\ quiet e e'.
Proof.
  revert e a bs last. induction fuel as [|fuel IH]; intros e a bs last Hok Hs Ht Hf; [lia|].
  cbn [last_loop]. destruct bs as [|[sz u] bs].
  { rewrite (stretch_end _ _ _ Hs Ht). exists e. auto with kfs. }
  destruct (stretch_step _ _ _ _ _ _ Hs Ht) as (-> & _ & Enext & _).
  destruct (first_block _ _ _ _ _ _ Hs Ht) as (Hh & Hw & _ & _ & _ & _ & _ & Hs' & Ht').
  destruct (size_at_spec h e a Hok) as (e1 & E1 & Q1); [apply Hh|].
  rewrite (bind_Done _ _ _ _ _ E1), Hw, Enext.
  destruct (IH e1 (a + HEADER + sz) bs (Some a)) as (e2 & E2 & Q2);
    [apply Q1|by apply (stretch_quiet e)|by apply (tiles_quiet e)|cbn in Hf; lia|].
  exists e2. split; [exact E2|]. by apply (quiet_trans e e1).
Qed.

(** The block whose payload starts at [payload]. *)
Fixpoint find_addr (payload a : Z) (bs : list block) : option Z :=
  match bs with
  | [] => None
  | (sz, _) :: bs =>
      if a + HEADER =? payload then Some a else find_addr payload (a + HEADER + sz) bs
  end.

Lemma find_loop_spec fuel h e a bs payload :
  env_ok e -> stretch e a (h_brk h) -> tiles (word e) a bs (h_brk h) -> (length bs < fuel)%nat ->
  exists e', find_loop fuel payload a (h, e) = Done (find_addr payload a bs) (h, e') /\ quiet e e'.
Proof.
  revert e a bs. induction fuel as [|fuel IH]; intros e a bs Hok Hs Ht Hf; [lia|].
  cbn [find_loop]. rewrite (bind_Done self _ (h, e) h (h, e)) by done.
  destruct bs as [|[sz u] bs].
  { rewrite (stretch_end _ _ _ Hs Ht). exists e. auto with kfs. }
  destruct (stretch_step _ _ _ _ _ _ Hs Ht) as (-> & Eh & Enext & _).
  destruct (first_block _ _ _ _ _ _ Hs Ht) as (Hh & Hw & _ & _ & _ & _ & _ & Hs' & Ht').
  rewrite Eh. cbn [find_addr]. destruct (a + HEADER =? payload).
  { exists e. auto with kfs. }
  destruct (size_at_spec h e a Hok) as (e1 & E1 & Q1); [apply Hh|].
  rewrite (bind_Done _ _ _ _ _ E1), Hw, Enext.
  destruct (IH e1 (a + HEADER + sz) bs) as (e2 & E2 & Q2);
    [apply Q1|by apply (stretch_quiet e)|by apply (tiles_quiet e)|cbn in Hf; lia|].
  exists e2. split; [exact E2|]. by apply (quiet_trans e e1).
Qed.

(** ** Joining free blocks *)

Fixpoint absorb (sz : Z) (bs : list block) : Z * list block :=
  match bs with
  | (more, false) :: bs => absorb (sz + HEADER + more) bs
  | _ => (sz, bs)
  end.

Lemma merge_loop_spec fuel h e a sz bs :
  env_ok e -> stretch e a (h_brk h) -> tiles (word e) a ((sz, false) :: bs) (h_brk h) ->
  (length bs < fuel)%nat ->
  exists e', merge_loop fuel a sz (h, e) = Done (fst (absorb sz bs)) (h, e') /\
    writes (fun x => a <= x < a + 8) e e' /\
    tiles (word e') a ((fst (absorb sz bs), false) :: snd (absorb sz bs)) (h_brk h).
Proof.
  revert e sz bs. induction fuel as [|fuel IH]; intros e sz bs Hok Hs Ht Hf; [lia|].
  cbn [merge_loop]. rewrite (bind_Done self _ (h, e) h (h, e)) by done.
  destruct (stretch_step _ _ _ _ _ _ Hs Ht) as (_ & _ & _ & ->).
  destruct (first_block _ _ _ _ _ _ Hs Ht) as (Hh & _ & _ & Hsz & Hsm & Hz & Hn & Hs' & Ht').
  rewrite Z.gtb_ltb, Z.ltb_antisym. destruct bs as [|[more u] bs].
  { rewrite (stretch_end _ _ _ Hs' Ht'). exists e. split; [done|].
    split; [by apply writes_quiet, quiet_refl|done]. }
  destruct (stretch_step _ _ _ _ _ _ Hs' Ht') as (-> & _ & _ & _). cbn [negb].
  destruct (first_block _ _ _ _ _ _ Hs' Ht') as (Hh' & Hw & Hu & Hsz' & Hsm' & Hz' & Hn' & Hs'' & Ht'').
  destruct (used_at_spec h e (a + HEADER + sz) Hok Hh') as (e1 & E1 & Q1).
  rewrite (bind_Done _ _ _ _ _ E1), Hu. destruct u; cbn [absorb negb Z.eqb fst snd].
  { exists e1. split; [done|]. split; [by apply writes_quiet|by apply (tiles_quiet e)]. }
  destruct (size_at_spec h e1 (a + HEADER + sz)) as (e2 & E2 & Q2);
    [apply Q1|by apply (keeps_mapped e e1); [apply Q1|apply Hh']|].
  rewrite (bind_Done _ _ _ _ _ E2).
  rewrite (kp_word _ _ (proj1 Q1) _ (proj1 Hh')), Hw.
  pose proof (quiet_trans _ _ _ Q1 Q2) as Q. 
  assert (sz +u (HEADER +u more) = sz + HEADER + more) as ->.
  { destruct Hs as (_ & ? & ? & _). unfold HEADER in *.
    rewrite (wrap32_small (8 + more)) by (unfold is_u32; lia). rewrite wrap32_small; unfold is_u32; lia. }
  destruct (write_header_spec h e2 a (sz + HEADER + more) false) as (e3 & E3 & W3 & Hs3 & Hu3).
  { apply Q. } { by apply (header_at_writes (fun _ => False) e); [apply writes_quiet|]. }
  { destruct Hs as (_ & ? & ? & _). unfold is_u32, HEADER in *. lia. }
  rewrite (bind_Done _ _ _ _ _ E3).
  assert (writes (fun x => a <= x < a + 8) e e3) as W.
  { apply (writes_trans _ e e2); [by apply writes_quiet|done]. }
  destruct (IH e3 (sz + HEADER + more) bs) as (e4 & E4 & W4 & Ht4).
  - apply W.
  - by apply (stretch_writes _ _ _ _ _ W).
  - split; [split; cbn; unfold HEADER; [lia|dlia]|]. split_and!; [done|done|].
    replace (a + HEADER + (sz + HEADER + more)) with (a + HEADER + sz + HEADER + more) by lia.
    apply (tiles_writes _ _ _ _ _ _ W); [done| |done]. intros x Hx. unfold HEADER in Hx. lia.
  - cbn in Hf. lia.
  - exists e4. split; [exact E4|]. split; [by apply (writes_trans _ e e3)|done].
Qed.

(** The bytes of the free blocks, headers included. *)
Fixpoint free_area (a : Z) (bs : list block) (x : Z) : Prop :=
  match bs with
  | [] => False
  | (sz, used) :: bs =>
      (used = false /\ a <= x < a + HEADER + sz) \/ free_area (a + HEADER + sz) bs x
  end.

(** The payloads handed out: address and size. *)
Fixpoint live (a : Z) (bs : list block) : list (Z * Z) :=
  match bs with
  | [] => []
  | (sz, used) :: bs =>
      (if used : bool then [(a + HEADER, sz)] else []) ++ live (a + HEADER + sz) bs
  end.

(** Joining moves no byte between free and used, and keeps what is live. *)
Lemma absorb_spec sz bs :
  Forall block_ok bs -> 8 <= sz -> sz mod 8 = 0 ->
  let '(sz', bs') := absorb sz bs in
  sz <= sz' /\ sz' mod 8 = 0 /\ Forall block_ok bs' /\ sz' + span bs' = sz + span bs /\
  (length bs' <= length bs)%nat /\
  (forall a, live (a + HEADER + sz') bs' = live (a + HEADER + sz) bs) /\
  (forall a x, (a <= x < a + HEADER + sz') \/ free_area (a + HEADER + sz') bs' x <->
               (a <= x < a + HEADER + sz) \/ free_area (a + HEADER + sz) bs x).
Proof.
  intros Hbs. revert sz. induction Hbs as [|[more u] bs [Hb Hm] Hbs IH]; intros sz Hsz Hsm.
  { cbn. split_and!; (done || lia || constructor). }
  cbn in Hb, Hm. destruct u; cbn [absorb].
  { split_and!; try done; try lia. by constructor. }
  specialize (IH (sz + HEADER + more)). destruct (absorb (sz + HEADER + more) bs) as [sz' bs'].
  unfold HEADER in *. destruct IH as (H1 & H2 & H3 & H4 & H5 & H6 & H7); [lia|dlia|].
  cbn [span length live free_area app]. unfold HEADER.
  split_and!; [lia|done|done|lia|lia| |].
  - intros a. rewrite H6. f_equal. lia.
  - intros a x. rewrite H7.
    replace (a + 8 + (sz + 8 + more)) with (a + 8 + sz + 8 + more) by lia.
    split; [|intuition lia]. intros [Hx|Hx]; [|tauto].
    destruct (Z.lt_ge_cases x (a + 8 + sz)); [left; lia|right; left; split; [done|lia]].
Qed.

(** What the first-fit search does to the list of blocks. *)
Inductive fit_rel (need : Z) : Z -> list block -> option Z -> list block -> Prop :=
| fit_end a : fit_rel need a [] None []
| fit_used a sz bs r bs' :
    fit_rel need (a + HEADER + sz) bs r bs' ->
    fit_rel need a ((sz, true) :: bs) r ((sz, true) :: bs')
| fit_found a sz bs sz' bs' :
    absorb sz bs = (sz', bs') -> need <= sz' ->
    fit_rel need a ((sz, false) :: bs) (Some a) ((sz', false) :: bs')
| fit_small a sz bs sz' bs1 r bs' :
    absorb sz bs = (sz', bs1) -> sz' < need ->
    fit_rel need (a + HEADER + sz') bs1 r bs' ->
    fit_rel need a ((sz, false) :: bs) r ((sz', false) :: bs').

Lemma walk_fuel_enough h e a bs :
  h_base h <= a -> tiles (word e) a bs (h_brk h) -> (length bs < walk_fuel h)%nat.
Proof.
  intros Ha Ht. pose proof (tiles_span _ _ _ _ Ht) as Hz.
  assert (8 * Z.of_nat (length bs) <= span bs) as Hl.
  { pose proof (tiles_ok _ _ _ _ Ht) as Hok. clear -Hok. unfold HEADER.
    induction Hok as [|[sz u] bs [Hb _] _ IH]; cbn [span length]; [lia|].
    cbn in Hb. unfold HEADER. lia. }
  unfold walk_fuel, HEADER. assert (Z.of_nat (length bs) <= (h_brk h - h_base h) / 8) by dlia. lia.
Qed.

Lemma free_area_range a bs x :
  Forall block_ok bs -> free_area a bs x -> a <= x < a + span bs.
Proof.
  intros Hbs. revert a. induction Hbs as [|[sz u] bs [Hb _] Hbs IH]; intros a; cbn [free_area span]; [done|].
  cbn in Hb. pose proof (span_nonneg bs Hbs) as Hsn. unfold HEADER in *. intros [[_ H]|H]; [lia|].
  apply IH in H. lia.
Qed.

(** Putting back a block in front of a rewritten tail. *)
Lemma tiles_cons_writes P e e' a sz u bs bs' z :
  writes P e e' -> stretch e a z -> tiles (word e) a ((sz, u) :: bs) z ->
  (forall x, P x -> a + 8 <= x) ->
  tiles (word e') (a + HEADER + sz) bs' z -> tiles (word e') a ((sz, u) :: bs') z.
Proof.
  intros Hw Hs Ht HP Ht'. destruct (first_block _ _ _ _ _ _ Hs Ht) as ((Hm & Hm4 & _) & H1 & H2 & _).
  destruct Ht as (Hb & _). split; [exact Hb|].
  rewrite !(wr_word _ _ _ Hw) by (done || intros Hx%HP; lia). done.
Qed.

(** Reading the header of the first block. *)
Lemma read_block h e a sz u bs z :
  env_ok e -> stretch e a z -> tiles (word e) a ((sz, u) :: bs) z ->
  exists e', quiet e e' /\ forall A (k : Z -> bool -> M (Heap * E) A),
    (size <- size_at a ;; used <- used_at a ;; k size used) (h, e) = k sz u (h, e').
Proof.
  intros Hok Hs Ht. destruct (first_block _ _ _ _ _ _ Hs Ht) as (Hh & Hw & Hu & _).
  destruct (size_at_spec h e a Hok) as (e1 & E1 & Q1); [apply Hh|].
  destruct (used_at_spec h e1 a) as (e2 & E2 & Q2);
    [apply Q1|by apply (header_at_writes (fun _ => False) e); [apply writes_quiet|]|].
  exists e2. split; [by apply (quiet_trans e e1)|]. intros A k.
  rewrite (bind_Done _ _ _ _ _ E1), Hw, (bind_Done _ _ _ _ _ E2), (kp_word _ _ (proj1 Q1)), Hu by apply Hh.
  by destruct u.
Qed.

Lemma fit_loop_spec fuel h e a bs need :
  env_ok e -> h_base h <= a -> stretch e a (h_brk h) -> tiles (word e) a bs (h_brk h) ->
  (length bs < fuel)%nat ->
  exists r bs' e', fit_loop fuel need a (h, e) = Done r (h, e') /\ fit_rel need a bs r bs' /\
    tiles (word e') a bs' (h_brk h) /\ writes (free_area a bs) e e'.
Proof.
  revert e a bs. induction fuel as [|fuel IH]; intros e a bs Hok Hba Hs Ht Hf; [lia|].
  cbn [fit_loop]. rewrite (bind_Done self _ (h, e) h (h, e)) by done.
  destruct bs as [|[sz u] bs].
  { rewrite (stretch_end _ _ _ Hs Ht). exists None, [], e.
    split; [done|]. split; [constructor|]. split; [done|]. by apply writes_quiet, quiet_refl. }
  destruct (stretch_step _ _ _ _ _ _ Hs Ht) as (-> & _ & Enext & _).
  destruct (first_block _ _ _ _ _ _ Hs Ht) as (Hh & Hw & Hu & Hsz & Hsm & Hz & Hn & Hs' & Ht').
  destruct (read_block h e a sz u bs (h_brk h) Hok Hs Ht) as (e2 & Q & ->). cbn in Hf.
  destruct u; cbn [negb Z.eqb].
  - rewrite Enext.
    destruct (IH e2 (a + HEADER + sz) bs) as (r & bs' & e3 & E3 & Hr & Ht3 & W3);
      [apply Q|unfold HEADER; lia|by apply (stretch_quiet e)|by apply (tiles_quiet e)|lia|].
    exists r, ((sz, true) :: bs'), e3. split; [exact E3|]. split; [by constructor|].
    assert (writes (free_area (a + HEADER + sz) bs) e e3) as W.
    { apply (writes_trans _ e e2); [by apply writes_quiet|done]. }
    split; [|apply (writes_weaken (free_area (a + HEADER + sz) bs)); [by right|done]].
    apply (tiles_cons_writes _ _ _ _ _ _ bs _ _ W Hs Ht); [|done].
    intros x Hx. apply free_area_range in Hx; [|by eapply tiles_ok].
    unfold HEADER in Hx. lia.
  - destruct (merge_loop_spec (walk_fuel h) h e2 a sz bs) as (e3 & E3 & W3 & Ht3);
      [apply Q|by apply (stretch_quiet e)|by apply (tiles_quiet e)| |].
    { pose proof (walk_fuel_enough h e a _ Hba Ht) as Hl. exact (Nat.lt_succ_l _ _ Hl). }
    rewrite (bind_Done _ _ _ _ _ E3).
    pose proof (absorb_spec sz bs (tiles_ok _ _ _ _ Ht') Hsz Hsm) as Habs.
    destruct (absorb sz bs) as [sz' bs1] eqn:Eabs. cbn [fst snd] in *.
    destruct Habs as (Hle & _ & _ & _ & Hlen & _ & Harea).
    assert (writes (free_area a ((sz, false) :: bs)) e e3) as W.
    { apply (writes_trans _ e e2); [by apply writes_quiet|].
      revert W3. apply writes_weaken. intros x [Hx1 Hx2]. left. unfold HEADER. split; [done|lia]. }
    destruct (Z.geb_spec sz' need).
    { exists (Some a), ((sz', false) :: bs1), e3.
      split; [done|]. split; [by apply (fit_found _ _ _ bs)|]. by split. }
    pose proof (stretch_writes _ _ _ _ _ W Hs) as Hs3.
    destruct (stretch_step _ _ _ _ _ _ Hs3 Ht3) as (_ & _ & -> & _).
    destruct (first_block _ _ _ _ _ _ Hs3 Ht3) as (_ & _ & _ & _ & _ & _ & _ & Hs3' & Ht3').
    destruct (IH e3 (a + HEADER + sz') bs1) as (r & bs' & e4 & E4 & Hr & Ht4 & W4);
      [apply W|unfold HEADER; lia|done|done|lia|].
    exists r, ((sz', false) :: bs'), e4. split; [exact E4|].
    split; [by apply (fit_small _ _ _ bs _ bs1)|]. split.
    + apply (tiles_cons_writes _ _ _ _ _ _ bs1 _ _ W4 Hs3 Ht3); [|done].
      intros x Hx. apply free_area_range in Hx; [|by eapply tiles_ok].
      unfold HEADER in Hx. lia.
    + apply (writes_trans _ e e3); [done|]. revert W4. apply writes_weaken.
      intros x Hx. cbn [free_area].
      destruct (proj1 (Harea a x) (or_intror Hx)); [left; by split|by right].
Qed.

End Steps.
