(* ===== verification/HeapOps.v ===== *)
(** * The operations of heap.rs on a well-formed heap

    Against the interface of [HeapSpec.v] only.  [heap_ok] says that the
    blocks of a list tile the mapped part of the heap; each operation is
    shown to return, to keep [heap_ok], and to change the list of blocks as
    stated. *)

From S2P Require Import Prelude.
From S2P Require Import Mem.
From S2P Require Import PagingSpec.
From S2P Require Import Paging.
From S2P Require Import Heap.
From S2P Require Import HeapSpec.

(** ** The search *)

Lemma absorb_head sz bs :
  match snd (absorb sz bs) with (_, false) :: _ => False | _ => True end.
Proof.
  revert sz. induction bs as [|[more u] bs IH]; intros sz; cbn; [done|].
  destruct u; [done|apply IH].
Qed.

(** The search keeps the live blocks and the free bytes; what it finds is a
    free block that is large enough. *)
Lemma fit_rel_keeps need a bs r bs' :
  fit_rel need a bs r bs' -> Forall block_ok bs ->
  live a bs' = live a bs /\ (forall x, free_area a bs' x <-> free_area a bs x) /\
  match r with
  | None => True
  | Some b => exists pre sz post,
      bs' = pre ++ (sz, false) :: post /\ b = a + span pre /\ need <= sz
  end.
Proof.
  induction 1 as [a|a sz bs r bs' _ IH|a sz bs sz' bs' E Hle|a sz bs sz' bs1 r bs' E Hlt _ IH];
    intros Hok; [done|..]; apply Forall_cons_iff in Hok as [[Hb Hm] Hok]; cbn in Hb, Hm.
  - destruct (IH Hok) as (Hl & Hf & Hr). cbn [live free_area]. split_and!.
    + by rewrite Hl.
    + intros x. by rewrite Hf.
    + destruct r as [b|]; [|done]. destruct Hr as (pre & s & post & -> & -> & Hs).
      exists ((sz, true) :: pre), s, post. split_and!; [done|cbn [span]; lia|done].
  - pose proof (absorb_spec sz bs Hok Hb Hm) as Ha. rewrite E in Ha.
    destruct Ha as (_ & _ & _ & _ & _ & Hl & Hf). cbn [live free_area app]. split_and!.
    + apply Hl.
    + intros x. specialize (Hf a x). tauto.
    + exists [], sz', bs'. split_and!; [done|cbn; lia|done].
  - pose proof (absorb_spec sz bs Hok Hb Hm) as Ha. rewrite E in Ha.
    destruct Ha as (_ & _ & Hok1 & _ & _ & Hl1 & Hf1). destruct (IH Hok1) as (Hl & Hf & Hr).
    cbn [live free_area app]. split_and!.
    + by rewrite Hl.
    + intros x. specialize (Hf1 a x). rewrite Hf. tauto.
    + destruct r as [b|]; [|done]. destruct Hr as (pre & s & post & -> & -> & Hs).
      exists ((sz', false) :: pre), s, post. split_and!; [done|cbn [span]; lia|done].
Qed.

(** When it finds nothing, no stretch of free bytes could have held the
    request with its header. *)
Lemma fit_rel_none need a bs bs' x :
  fit_rel need a bs None bs' -> Forall block_ok bs -> 0 < need -> a <= x ->
  ~ (forall y, x <= y < x + HEADER + need -> free_area a bs y).
Proof.
  intros H. remember None as r eqn:Er. revert x Er.
  induction H as [a|a sz bs r bs' _ IH|a sz bs sz' bs' E Hle|a sz bs sz' bs1 r bs' E Hlt _ IH];
    intros x Er Hok Hneed Hx Hall; [|apply Forall_cons_iff in Hok as [[Hb Hm] Hok]; cbn in Hb, Hm..].
  - apply (Hall x). unfold HEADER. lia.
  - assert (free_area (a + HEADER + sz) bs x) as Hf.
    { destruct (Hall x) as [[? _]|]; [unfold HEADER; lia|done|done]. }
    apply free_area_range in Hf; [|done]. apply (IH x Er Hok Hneed); [lia|].
    intros y Hy. by destruct (Hall y Hy) as [[? _]|].
  - done.
  - pose proof (absorb_spec sz bs Hok Hb Hm) as Ha. rewrite E in Ha.
    destruct Ha as (Hsz & _ & Hok1 & _ & _ & _ & Hf1).
    assert (forall y, x <= y < x + HEADER + need ->
              a <= y < a + HEADER + sz' \/ free_area (a + HEADER + sz') bs1 y) as Hall1.
    { intros y Hy. apply Hf1. destruct (Hall y Hy) as [[_ ?]|]; auto. }
    destruct (Z.lt_ge_cases x (a + HEADER + sz')) as [Hlow|Hhigh].
    + destruct (Hall1 (a + HEADER + sz')) as [|Hf]; [lia|lia|].
      pose proof (absorb_head sz bs) as Hh. rewrite E in Hh. cbn in Hh.
      destruct bs1 as [|[s u] bs1]; [done|]. destruct u; [|done]. cbn [free_area] in Hf.
      apply Forall_cons_iff in Hok1 as [[Hs _] Hok1]. cbn in Hs.
      destruct Hf as [[? _]|Hf]; [done|]. apply free_area_range in Hf; [|done].
      unfold HEADER in *. lia.
    + apply (IH x Er Hok1 Hneed Hhigh). intros y Hy.
      destruct (Hall1 y Hy); [lia|done].
Qed.

(** ** Taking a block *)

(** A block of [sz] bytes cut for a request of [need]. *)
Definition cut (need sz : Z) : list block :=
  if need + HEADER + SMALLEST <=? sz then [(need, true); (sz - need - HEADER, false)]
  else [(sz, true)].

Lemma cut_span need sz : span (cut need sz) = HEADER + sz.
Proof. unfold cut. destruct (_ <=? _); cbn [span]; unfold HEADER; lia. Qed.

Section Ops.
Context {E : Type} {EnvE : Env E} {V : View E} {Laws : EnvLaws E}.
Implicit Types (h : Heap) (e : E).

Lemma stretch_tail e a b z : stretch e a z -> a <= b -> b mod 8 = 0 -> stretch e b z.
Proof.
  intros (H1 & H2 & H3 & H4) Hab Hb. split_and!; [done|lia|done|]. intros x Hx. apply H4. lia.
Qed.

(** Rewriting the blocks in the middle of the list. *)
Lemma tiles_replace (P : Z -> Prop) e e' a pre mid mid' post z :
  writes P e e' -> stretch e a z -> tiles (word e) a (pre ++ mid ++ post) z ->
  (forall x, P x -> a + span pre <= x < a + span pre + span mid) ->
  span mid' = span mid ->
  tiles (word e') (a + span pre) mid' (a + span pre + span mid) ->
  tiles (word e') a (pre ++ mid' ++ post) z.
Proof.
  intros Hw Hs Ht HP Hsp Hmid. rewrite !tiles_app in Ht. destruct Ht as (Hpre & Hm & Hpost).
  pose proof (tiles_span _ _ _ _ Hpost) as Hz.
  destruct (span_nonneg _ (tiles_ok _ _ _ _ Hpre)) as [H1 H1m].
  destruct (span_nonneg _ (tiles_ok _ _ _ _ Hm)) as [H2 H2m].
  destruct (span_nonneg _ (tiles_ok _ _ _ _ Hpost)) as [H3 H3m].
  rewrite !tiles_app, Hsp. split_and!.
  - apply (tiles_writes P e e'); [done| | |done].
    + destruct Hs as (S1 & S2 & S3 & S4). split_and!; [done|done|lia|].
      intros x Hx1 Hx2. apply S4; lia.
    + intros x Hx Hp. apply HP in Hp. lia.
  - exact Hmid.
  - apply (tiles_writes P e e'); [done| | |done].
    + apply (stretch_tail e a); [done|lia|]. destruct Hs as (S1 & _). dlia.
    + intros x Hx Hp. apply HP in Hp. lia.
Qed.

(** One header rewritten: the block keeps its place. *)
Lemma set_header h e a pre sz u post z sz' u' :
  env_ok e -> stretch e a z -> tiles (word e) a (pre ++ (sz, u) :: post) z ->
  sz' = sz ->
  exists e', write_header (a + span pre) sz' u' (h, e) = Done tt (h, e') /\
    writes (fun x => a + span pre <= x < a + span pre + 8) e e' /\
    tiles (word e') a (pre ++ (sz, u') :: post) z.
Proof.
  intros Hok Hs Ht ->. pose proof Ht as Ht0. rewrite tiles_app in Ht0. destruct Ht0 as [Hpre Hblk].
  destruct (span_nonneg _ (tiles_ok _ _ _ _ Hpre)) as [H1 H1m].
  assert (stretch e (a + span pre) z) as Hs1.
  { apply (stretch_tail e a); [done|lia|]. destruct Hs as (S1 & _). dlia. }
  destruct (first_block _ _ _ _ _ _ Hs1 Hblk) as (Hh & _ & _ & Hsz & Hsm & Hz & Hn & _).
  destruct (write_header_spec h e (a + span pre) sz u') as (e' & E' & W & Hw & Hu); [done|done| |].
  { destruct Hs1 as (_ & ? & ? & _). unfold is_u32, HEADER in *. lia. }
  exists e'. split; [done|]. split; [done|].
  apply (tiles_replace _ e e' a pre [(sz, u)] [(sz, u')] post z W Hs Ht).
  - intros x Hx. cbn [span]. unfold HEADER. cbn in Hx. lia.
  - done.
  - cbn [tiles span]. split; [by split|]. split; [done|]. split; [done|lia].
Qed.

(** A block split in two: both headers are written. *)
Lemma split_spec h e b need sz :
  env_ok e -> stretch e b (b + 8 + sz) -> 8 <= need -> need mod 8 = 0 -> sz mod 8 = 0 -> need + 16 <= sz ->
  exists e', (write_header b need true ;; write_header (b + 8 + need) (sz - need - 8) false) (h, e)
      = Done tt (h, e') /\
    writes (fun x => b <= x < b + 8 + sz) e e' /\
    tiles (word e') b [(need, true); (sz - need - 8, false)] (b + 8 + sz).
Proof.
  intros Hok (S1 & S2 & S3 & S4) Hn8 Hnm Hsm Hle.
  assert (header_at e b) as Hh by (apply S4; [lia|lia|done]).
  destruct (write_header_spec h e b need true) as (e2 & E2 & W2 & Hb1 & Hb2);
    [done|done|unfold is_u32; lia|].
  assert (header_at e2 (b + 8 + need)) as Hh2.
  { apply (header_at_writes _ _ _ _ W2), S4; [lia|lia|dlia]. }
  destruct (write_header_spec h e2 (b + 8 + need) (sz - need - 8) false)
    as (e3 & E3 & W3 & Hc1 & Hc2); [apply W2|done|unfold is_u32; lia|].
  exists e3. split; [by rewrite (bind_Done _ _ _ _ _ E2)|]. split.
  - apply (writes_trans _ e e2).
    + revert W2. apply writes_weaken. intros x []. lia.
    + revert W3. apply writes_weaken. intros x []. lia.
  - pose proof (writes_mapped _ _ _ b W2) as Hmb. pose proof (writes_mapped _ _ _ (b + 4) W2) as Hmb4.
    destruct Hh as (Hm1 & Hm2 & _). cbn [tiles]. unfold HEADER. split; [by split|].
    rewrite !(wr_word _ _ _ W3) by (tauto || lia). split; [done|]. split; [done|].
    split; [split; cbn; [lia|dlia]|]. split; [done|]. split; [done|lia].
Qed.

Lemma take_spec h e a pre sz post z need :
  env_ok e -> stretch e a z -> tiles (word e) a (pre ++ (sz, false) :: post) z ->
  8 <= need -> need mod 8 = 0 -> need <= sz ->
  exists e', take (a + span pre) need (h, e) = Done (a + span pre + HEADER) (h, e') /\
    writes (fun x => a + span pre <= x < a + span pre + HEADER + sz) e e' /\
    tiles (word e') a (pre ++ cut need sz ++ post) z.
Proof.
  intros Hok Hs Ht Hn8 Hnm Hle. pose proof Ht as Ht0. rewrite tiles_app in Ht0.
  destruct Ht0 as [Hpre Hblk]. destruct (span_nonneg _ (tiles_ok _ _ _ _ Hpre)) as [H1 H1m].
  set (b := a + span pre) in *.
  assert (stretch e b z) as Hs1.
  { apply (stretch_tail e a); [done|lia|]. destruct Hs as (S1 & _). subst b. dlia. }
  destruct (first_block _ _ _ _ _ _ Hs1 Hblk) as (Hh & Hw & _ & Hsz & Hsm & Hz & Hn & _).
  pose proof Hs1 as (Sm & S2 & S3 & S4). unfold HEADER in *.
  unfold take. destruct (size_at_spec h e b Hok (proj1 Hh)) as (e1 & E1 & Q1).
  rewrite (bind_Done _ _ _ _ _ E1), Hw. unfold HEADER, SMALLEST.
  rewrite (wrap32_small (need + 8)), (wrap32_small (need + 8 + 8)),
    (wrap32_small (b + 8)), (wrap32_small (b + 8 + need)), (wrap32_small (sz - need))
    by (unfold is_u32; lia).
  assert (exists e2, (if sz >=? need + 8 + 8 then
      write_header b need true ;; write_header (b + 8 + need) (sz - need -u 8) false
      else write_header b sz true) (h, e1) = Done tt (h, e2) /\
    writes (fun x => b <= x < b + 8 + sz) e1 e2 /\ tiles (word e2) b (cut need sz) (b + 8 + sz))
    as (e2 & E2 & W2 & Ht2).
  { unfold cut, HEADER, SMALLEST. rewrite Z.geb_leb. destruct (Z.leb_spec (need + 8 + 8) sz).
    - rewrite (wrap32_small (sz - need - 8)) by (unfold is_u32; lia).
      apply split_spec; [apply Q1|apply (stretch_quiet e); [done|]|lia..].
      split_and!; [done|lia|lia|]. intros x Hx1 Hx2. apply S4; lia.
    - destruct (write_header_spec h e1 b sz true) as (e2 & E2 & W2 & Hb1 & Hb2);
        [apply Q1|by apply (header_at_writes (fun _ => False) e); [apply writes_quiet|]|unfold is_u32; lia|].
      exists e2. split; [done|]. split; [revert W2; apply writes_weaken; intros x []; lia|].
      cbn [tiles]. unfold HEADER. split; [by split|]. split; [done|]. split; [done|lia]. }
  assert (writes (fun x => b <= x < b + 8 + sz) e e2) as W
    by (apply (writes_trans _ e e1); [by apply writes_quiet|done]).
  exists e2. split; [by rewrite (bind_Done _ _ _ _ _ E2)|]. split; [exact W|].
  apply (tiles_replace _ e e2 a pre [(sz, false)] _ post z W Hs Ht); cbn [span]; unfold HEADER.
  - intros x []. fold b. lia.
  - apply tiles_span in Ht2. lia.
  - fold b. by replace (b + (8 + sz + 0)) with (b + 8 + sz) by lia.
Qed.

(** ** A well-formed heap *)

Record geometry h : Prop := {
  g_flags : h_flags h = KERNEL_PAGE;
  g_align : h_base h mod 4096 = 0 /\ h_limit h mod 4096 = 0 /\ h_brk h mod 4096 = 0;
  g_range : 3225419776 <= h_base h /\ h_base h + 4096 <= h_limit h /\ h_limit h <= 4290772992;
  g_brk : h_base h <= h_brk h <= h_limit h;
  g_window : h_backing h = Contiguous ->
    h_phys_base h mod 4096 = 0 /\ h_phys_end h mod 4096 = 0 /\ 0 <= h_phys_base h /\
    h_phys_base h + (h_brk h - h_base h) <= h_phys_end h /\ h_phys_end h + 4096 < 4294967296;
}.

(** The pages below the break are mapped, those above are not; the frames of
    a contiguous heap follow each other, and those not yet used are spare. *)
Record pages_ok h e : Prop := {
  po_in : forall n, h_base h / 4096 <= n < h_brk h / 4096 -> exists f, page e n = Some (f, true);
  po_out : forall n, h_brk h / 4096 <= n < h_limit h / 4096 -> page e n = None;
  po_run : h_backing h = Contiguous ->
    forall n, h_base h / 4096 <= n < h_brk h / 4096 ->
      page e n = Some (h_phys_base h / 4096 + (n - h_base h / 4096), true);
  po_window : h_backing h = Contiguous ->
    forall f, h_phys_base h / 4096 + (h_brk h - h_base h) / 4096 <= f < h_phys_end h / 4096 ->
      spare e f;
}.

Record heap_ok h e (bs : list block) : Prop := {
  ho_env : env_ok e;
  ho_geometry : geometry h;
  ho_pages : pages_ok h e;
  ho_tiles : tiles (word e) (h_base h) bs (h_brk h);
}.

Lemma heap_managed h n :
  geometry h -> h_base h / 4096 <= n < h_limit h / 4096 -> managed n.
Proof. intros [_ _ (H1 & H2 & H3) _ _] Hn. unfold managed. dlia. Qed.

Lemma heap_mapped h e x :
  geometry h -> pages_ok h e -> h_base h <= x < h_brk h -> x mod 4 = 0 -> mapped e x.
Proof.
  intros Hg Hp Hx Hm. pose proof (g_range _ Hg) as (? & ? & ?).
  pose proof (g_align _ Hg) as (? & ? & ?). pose proof (g_brk _ Hg).
  assert (h_base h / 4096 <= x / 4096 < h_brk h / 4096) as Hn by dlia.
  split; [unfold is_u32; lia|]. split; [done|]. split; [|by apply (po_in h e)].
  apply (heap_managed h); [done|dlia].
Qed.

Lemma heap_stretch h e : geometry h -> pages_ok h e -> stretch e (h_base h) (h_brk h).
Proof.
  intros Hg Hp. pose proof (g_range _ Hg) as (? & ? & ?).
  pose proof (g_align _ Hg) as (? & ? & ?). pose proof (g_brk _ Hg).
  split_and!; [dlia|lia|lia|]. intros x Hx1 Hx2 Hm. split; [|split; [|lia]].
  - apply (heap_mapped h); [done|done|lia|dlia].
  - apply (heap_mapped h); [done|done|lia|dlia].
Qed.

Lemma pages_ok_pages h e e' :
  geometry h -> (forall n, managed n -> page e' n = page e n) ->
  (h_backing h = Contiguous -> forall f, spare e f -> spare e' f) ->
  pages_ok h e -> pages_ok h e'.
Proof.
  intros Hg Hp Hsp [H1 H2 H3 H4]. pose proof (g_brk _ Hg). split.
  - intros n Hn. rewrite Hp; [by apply H1|]. apply (heap_managed h); [done|dlia].
  - intros n Hn. rewrite Hp; [by apply H2|]. apply (heap_managed h); [done|dlia].
  - intros Hc n Hn. rewrite Hp; [by apply H3|]. apply (heap_managed h); [done|dlia].
  - intros Hc f Hf. by apply Hsp, H4.
Qed.

Lemma pages_ok_keeps h e e' : geometry h -> keeps e e' -> pages_ok h e -> pages_ok h e'.
Proof. intros Hg Hk. apply pages_ok_pages; [done|apply Hk|intros _; apply Hk]. Qed.

Lemma pages_ok_writes P h e e' : geometry h -> writes P e e' -> pages_ok h e -> pages_ok h e'.
Proof. intros Hg Hk. apply pages_ok_pages; [done|apply Hk|intros _; apply Hk]. Qed.

(** ** What an operation leaves alone *)

(** Nothing outside the address range of the heap changed. *)
Record stays h e e' : Prop := {
  sy_page : forall n, managed n -> ~ (h_base h / 4096 <= n < h_limit h / 4096) ->
    page e' n = page e n;
  sy_word : forall x, mapped e x -> ~ (h_base h / 4096 <= x / 4096 < h_limit h / 4096) ->
    word e' x = word e x;
  sy_spare : h_backing h = Scattered -> forall f, spare e f -> spare e' f;
}.

Lemma stays_mapped h e e' x :
  stays h e e' -> ~ (h_base h / 4096 <= x / 4096 < h_limit h / 4096) -> mapped e x -> mapped e' x.
Proof.
  intros Hs Hx (H1 & H2 & H3 & f & Hf). split_and!; try done. exists f.
  by rewrite (sy_page _ _ _ Hs).
Qed.

Lemma stays_trans h e1 e2 e3 : stays h e1 e2 -> stays h e2 e3 -> stays h e1 e3.
Proof.
  intros H1 H2. split.
  - intros n Hn Ho. by rewrite (sy_page _ _ _ H2), (sy_page _ _ _ H1).
  - intros x Hx Ho. rewrite (sy_word _ _ _ H2), (sy_word _ _ _ H1); try done.
    by apply (stays_mapped h e1).
  - intros Hb f Hf. by apply (sy_spare _ _ _ H2), (sy_spare _ _ _ H1).
Qed.

Lemma stays_keeps h e e' : keeps e e' -> stays h e e'.
Proof. intros [H1 H2 H3 H4 _]. split; auto. Qed.

Lemma stays_writes (P : Z -> Prop) h e e' :
  writes P e e' -> (forall x, P x -> h_base h / 4096 <= x / 4096 < h_limit h / 4096) -> stays h e e'.
Proof.
  intros [H1 H2 H3 H4 _ _] HP. split; [auto| |auto]. intros x Hx Ho. apply H3; [done|].
  intros Hp. by apply Ho, HP.
Qed.

(** ** Growing *)

(** The heap cannot grow by a page: its address range or its physical block
    is used up, or at most one frame is free. *)
Definition exhausted h e : Prop :=
  h_limit h < h_brk h + 4096 \/
  (h_backing h = Contiguous /\ h_phys_end h < h_phys_base h + (h_brk h - h_base h) + 4096) \/
  frames_left e <= 1.

Lemma exhausted_left h e e' : exhausted h e -> frames_left e' <= frames_left e -> exhausted h e'.
Proof. intros [Hx|[Hx|Hx]] Hl; [by left|right; by left|right; right; lia]. Qed.

Lemma frame_for_spec h e at_ :
  env_ok e -> geometry (with_brk at_ h) -> pages_ok (with_brk at_ h) e ->
  exists r e', frame_for at_ (h, e) = Done r (h, e') /\ keeps e e' /\
    match r with
    | None => exhausted (with_brk at_ h) e'
    | Some a => exists f, a = f * 4096 /\ spare e' f /\
        (h_backing h = Contiguous ->
           f = h_phys_base h / 4096 + (at_ - h_base h) / 4096 /\ f < h_phys_end h / 4096) /\
        (h_backing h = Scattered -> ~ spare e f)
    end.
Proof.
  intros Hok Hg Hp. unfold frame_for. rewrite (bind_Done self _ (h, e) h (h, e)) by done.
  destruct (h_backing h) eqn:Hb.
  - destruct (g_window _ Hg Hb) as (A1 & A2 & A3 & A4 & A5). destruct (g_align _ Hg) as (B1 & _ & B2).
    pose proof (g_brk _ Hg) as B3. pose proof (g_range _ Hg) as B4.
    cbn [with_brk h_base h_limit h_brk h_phys_base h_phys_end] in *.
    rewrite (wrap32_small (at_ - h_base h)), (wrap32_small (h_phys_base h + _)) by (unfold is_u32; lia).
    rewrite (wrap32_small (_ + PAGE_SIZE)) by (unfold is_u32, PAGE_SIZE; lia).
    rewrite Z.gtb_ltb. unfold PAGE_SIZE. destruct (Z.ltb_spec (h_phys_end h) (h_phys_base h + (at_ - h_base h) + 4096)).
    + destruct (koops_law e (Klib.bytes (h_name h) ++ Klib.bytes " ran out of its physical block") Hok)
        as (e1 & E1 & Hk & _).
      exists None, e1. rewrite (bind_Done _ _ _ _ _ (lift_Done _ h _ _ _ E1)). split; [done|]. split; [done|].
      right. by left.
    + eexists _, e. split; [reflexivity|]. split; [by apply keeps_refl|].
      exists (h_phys_base h / 4096 + (at_ - h_base h) / 4096). split; [dlia|].
      split; [|split; [split; [done|dlia]|done]].
      apply (po_window _ _ Hp Hb). cbn [with_brk h_base h_brk h_phys_base h_phys_end]. dlia.
  - destruct (alloc_law e Hok) as (r & e1 & E1 & Q1 & Hr).
    rewrite (bind_Done _ _ _ _ _ (lift_Done _ h _ _ _ E1)). destruct r as [a|].
    + exists (Some a), e1. split; [done|]. split; [apply Q1|].
      destruct Hr as (f & -> & Hf & Hns). exists f. done.
    + destruct (koops_law e1 (Klib.bytes (h_name h) ++ Klib.bytes " found no free physical frame"))
        as (e2 & E2 & Hk & _); [apply Q1|].
      exists None, e2. rewrite (bind_Done _ _ _ _ _ (lift_Done _ h _ _ _ E2)).
      split; [done|]. split; [eapply keeps_trans; [apply Q1|done]|].
      right. right. pose proof (kp_left _ _ Hk). lia.
Qed.

(** Words that were mapped keep their values. *)
Definition kept e e' : Prop := forall a, mapped e a -> mapped e' a /\ word e' a = word e a.

Lemma kept_refl e : kept e e.
Proof. by intros a. Qed.

Lemma kept_trans e1 e2 e3 : kept e1 e2 -> kept e2 e3 -> kept e1 e3.
Proof. intros H1 H2 a Ha. destruct (H1 a Ha) as [Hm <-]. by apply H2. Qed.

(** The same, for words outside [P]. *)
Definition kept_but (P : Z -> Prop) e e' : Prop :=
  forall a, mapped e a -> ~ P a -> mapped e' a /\ word e' a = word e a.

Lemma kept_but_trans P e1 e2 e3 : kept_but P e1 e2 -> kept_but P e2 e3 -> kept_but P e1 e3.
Proof. intros H1 H2 a Ha HP. destruct (H1 a Ha HP) as [Hm <-]. by apply H2. Qed.

Lemma kept_but_kept P e e' : kept e e' -> kept_but P e e'.
Proof. intros Hk a Ha _. by apply Hk. Qed.

Lemma kept_but_writes P e e' : writes P e e' -> kept_but P e e'.
Proof. intros W a Ha HP. split; [by apply (writes_mapped P e)|by apply (wr_word _ _ _ W)]. Qed.

Lemma kept_but_weaken (P Q : Z -> Prop) e e' :
  (forall a, mapped e a -> P a -> Q a) -> kept_but P e e' -> kept_but Q e e'.
Proof. intros HPQ Hk a Ha HQ. apply Hk; [done|]. intros HP. by apply HQ, HPQ. Qed.

Lemma kept_keeps e e' : keeps e e' -> kept e e'.
Proof. intros Hk a Ha. split; [by apply (keeps_mapped e)|by apply (kp_word _ _ Hk)]. Qed.

(** The page at [at_] is added. *)
Lemma pages_ok_grow h e e' at_ f :
  geometry (with_brk at_ h) -> pages_ok (with_brk at_ h) e -> at_ + 4096 <= h_limit h ->
  (h_backing h = Contiguous ->
     f = h_phys_base h / 4096 + (at_ - h_base h) / 4096 /\ f < h_phys_end h / 4096) ->
  (forall n, managed n -> page e' n = if decide (n = at_ / 4096) then Some (f, true) else page e n) ->
  (forall g, spare e g -> g <> f -> spare e' g) ->
  geometry (with_brk (at_ + 4096) h) /\ pages_ok (with_brk (at_ + 4096) h) e'.
Proof.
  intros Hg Hp Hlim Hf Hpg Hsp. destruct Hg as [G1 (A1 & A2 & A3) G3 G4 G5].
  destruct Hp as [P1 P2 P3 P4].
  cbn [with_brk h_base h_limit h_brk h_phys_base h_phys_end h_backing h_flags] in *.
  assert (geometry (with_brk (at_ + 4096) h)) as Hg'.
  { split; cbn [with_brk h_base h_limit h_brk h_phys_base h_phys_end h_backing h_flags];
      [done|split_and!; [done|done|dlia]|done|lia|].
    intros Hc. destruct (G5 Hc) as (? & ? & ? & ? & ?). destruct (Hf Hc) as (-> & ?).
    split_and!; try done. dlia. }
  assert (forall n, h_base h / 4096 <= n < h_limit h / 4096 -> managed n) as Hman.
  { intros n Hn. by apply (heap_managed _ n Hg'). }
  split; [done|]. split;
    cbn [with_brk h_base h_limit h_brk h_phys_base h_phys_end h_backing h_flags].
  - intros n Hn. rewrite Hpg by (apply Hman; dlia). case_decide; [by exists f|]. apply P1. dlia.
  - intros n Hn. rewrite Hpg by (apply Hman; dlia). rewrite decide_False by dlia. apply P2. dlia.
  - intros Hc n Hn. rewrite Hpg by (apply Hman; dlia). destruct (Hf Hc) as (-> & _).
    case_decide as En; [|apply P3; [done|dlia]]. subst n. do 2 f_equal. dlia.
  - intros Hc g Hgg. destruct (Hf Hc) as (-> & _). apply Hsp; [apply P4; [done|dlia]|dlia].
Qed.

(** A page of the heap is added; its frame was not spare before. *)
Lemma grow_mapped h e e1 e2 at_ f :
  keeps e e1 -> h_base h / 4096 <= at_ / 4096 < h_limit h / 4096 -> managed (at_ / 4096) ->
  (h_backing h = Scattered -> ~ spare e f) ->
  (forall n, managed n -> page e2 n = if decide (n = at_ / 4096) then Some (f, true) else page e1 n) ->
  (forall b, mapped e1 b -> word e2 b = word e1 b) -> (forall g, spare e1 g -> g <> f -> spare e2 g) ->
  kept e e2 /\ stays h e e2.
Proof.
  intros K Hat Hm Hns Hpg Hwd Hsp. split.
  - apply (kept_trans e e1); [by apply kept_keeps|].
    intros x Hx. split; [|by apply Hwd]. pose proof Hx as (? & ? & Hmx & g & Hgx).
    split_and!; try done. exists (if decide (x / 4096 = at_ / 4096) then f else g).
    rewrite Hpg by done. by case_decide.
  - split.
    + intros x Hx Ho. rewrite Hpg, decide_False by (done || dlia). by apply (kp_page _ _ K).
    + intros x Hx _. rewrite Hwd by by apply (keeps_mapped e). by apply (kp_word _ _ K).
    + intros Hb g Hgs. apply Hsp; [by apply (kp_spare _ _ K)|]. intros ->. by apply Hns in Hb.
Qed.

(** The frame of a refused page goes back. *)
Lemma grow_refused h e e1 e2 f :
  keeps e e1 -> (h_backing h = Scattered -> ~ spare e f) ->
  (forall n, managed n -> page e2 n = page e1 n) -> (forall b, mapped e1 b -> word e2 b = word e1 b) ->
  (forall g, spare e1 g -> g <> f -> spare e2 g) -> kept e e2 /\ stays h e e2.
Proof.
  intros K Hns Hpg Hwd Hsp. split.
  - apply (kept_trans e e1); [by apply kept_keeps|].
    intros x Hx. split; [by apply (mapped_pages e1)|by apply Hwd].
  - split.
    + intros x Hx _. rewrite Hpg by done. by apply (kp_page _ _ K).
    + intros x Hx _. rewrite Hwd by by apply (keeps_mapped e). by apply (kp_word _ _ K).
    + intros Hb g Hgs. apply Hsp; [by apply (kp_spare _ _ K)|]. intros ->. by apply Hns in Hb.
Qed.

Lemma grow_loop_spec n h e at_ :
  env_ok e -> geometry (with_brk at_ h) -> pages_ok (with_brk at_ h) e ->
  exists at' e', grow_loop n at_ (h, e) = Done at' (h, e') /\
    env_ok e' /\ geometry (with_brk at' h) /\ pages_ok (with_brk at' h) e' /\ kept e e' /\
    stays h e e' /\ at_ <= at' <= at_ + 4096 * Z.of_nat n /\
    (at' < at_ + 4096 * Z.of_nat n -> exhausted (with_brk at' h) e').
Proof.
  revert e at_. induction n as [|n IH]; intros e at_ Hok Hg Hp.
  { exists at_, e. split_and!; (done || lia || apply kept_refl || by apply stays_keeps, keeps_refl). }
  pose proof (g_range _ Hg) as B4. pose proof (g_brk _ Hg) as B3. pose proof (g_align _ Hg) as (B1 & _ & B2).
  cbn [with_brk h_base h_limit h_brk] in B1, B2, B3, B4.
  cbn [grow_loop]. rewrite (bind_Done self _ (h, e) h (h, e)) by done.
  rewrite (wrap32_small (at_ + PAGE_SIZE)) by (unfold is_u32, PAGE_SIZE; lia).
  unfold PAGE_SIZE. rewrite Z.gtb_ltb. destruct (Z.ltb_spec (h_limit h) (at_ + 4096)).
  { destruct (koops_law e (Klib.bytes (h_name h) ++
      Klib.bytes " reached the end of its address range") Hok) as (e1 & E1 & Hk & _).
    exists at_, e1. rewrite (bind_Done _ _ _ _ _ (lift_Done _ h _ _ _ E1)).
    split_and!; [done|apply Hk|done|by apply (pages_ok_keeps _ e)|by apply kept_keeps|by apply stays_keeps|lia|lia|].
    intros _. by left. }
  destruct (frame_for_spec h e at_ Hok Hg Hp) as (r & e1 & E1 & K1 & Hr).
  rewrite (bind_Done _ _ _ _ _ E1). destruct r as [a|]; cycle 1.
  { exists at_, e1. 
    split_and!; [done|apply K1|done|by apply (pages_ok_keeps _ e)|by apply kept_keeps|by apply stays_keeps|lia|lia|done]. }
  destruct Hr as (f & -> & Hf & Hc & Hns). pose proof (pages_ok_keeps _ _ _ Hg K1 Hp) as Hp1.
  assert (managed (at_ / 4096)) as Hm.
  { apply (heap_managed _ _ Hg). cbn [with_brk h_base h_limit]. dlia. }
  destruct (map_law e1 at_ f) as (ok & e2 & E2 & Hr);
    [apply K1|unfold is_u32; lia|done| |done| |].
  { apply (po_out _ _ Hp1). cbn [with_brk h_base h_limit h_brk]. dlia. }
  { apply not_false_iff_true. rewrite is_kernel_false. layout_consts. lia. }
  pose proof (g_flags _ Hg) as Hfl. cbn in Hfl. rewrite <- Hfl in E2.
  rewrite (bind_Done _ _ _ _ _ (lift_Done _ h _ _ _ E2)). destruct ok; cbn [negb].
  - destruct Hr as (Hok2 & _ & Hpg & Hwd & Hsp).
    destruct (pages_ok_grow h e1 e2 at_ f Hg Hp1) as [Hg2 Hp2]; [lia|done|done|done|].
    destruct (grow_mapped h e e1 e2 at_ f K1) as [K2 S2]; [dlia|done|done|done|done|done|].
    destruct (IH e2 (at_ + 4096)) as (at' & e3 & E3 & Hok3 & Hg3 & Hp3 & K3 & S3 & Hle & Hx); [done..|].
    exists at', e3. split_and!; [done|done|done|done|by apply (kept_trans e e2)|by apply (stays_trans h e e2)|lia|lia|].
    intros Hlt. apply Hx. lia.
  - destruct Hr as [Hr Hl]. pose proof (keeps_trans _ _ _ K1 Hr) as K2. destruct (bool_decide (h_backing h = Scattered)) eqn:Hb.
    + destruct (free_law e2 f) as (e3 & E3 & Hok3 & _ & Hpg & Hwd & Hsf & Hl3);
        [apply Hr|by apply (kp_spare _ _ Hr)|].
      exists at_, e3. unfold bind at 1. rewrite (lift_Done _ h _ _ _ E3).
      apply bool_decide_eq_true in Hb.
      destruct (grow_refused h e e2 e3 f K2 Hns Hpg Hwd Hsf) as [K3 S3].
      split_and!; [done|done|done| |done|done|lia|lia|intros _; right; right; lia].
      apply (pages_ok_pages _ e2); [done|done|cbn; congruence|]. by apply (pages_ok_keeps _ e1).
    + exists at_, e2. unfold bind at 1.
      split_and!; [done|apply Hr|done|by apply (pages_ok_keeps _ e1)|
        by apply kept_keeps|by apply stays_keeps|lia|lia|intros _; right; right; lia].
Qed.

(** [k] bytes more at the end: the last block grows if it is free, else a
    free block is added. *)
Fixpoint extend (bs : list block) (k : Z) : list block :=
  match bs with
  | [] => [(k - HEADER, false)]
  | [(sz, false)] => [(sz + k, false)]
  | b :: bs => b :: extend bs k
  end.

Lemma extend_snoc_free pre sz k : extend (pre ++ [(sz, false)]) k = pre ++ [(sz + k, false)].
Proof.
  induction pre as [|[s u] pre IH]; [done|]. cbn [extend app]. rewrite IH.
  by destruct pre, u.
Qed.

Lemma extend_snoc_used pre sz k :
  extend (pre ++ [(sz, true)]) k = pre ++ [(sz, true); (k - HEADER, false)].
Proof.
  induction pre as [|[s u] pre IH]; [done|]. cbn [extend app]. rewrite IH.
  by destruct pre, u.
Qed.

Lemma last_addr_snoc a pre sz u l : last_addr a (pre ++ [(sz, u)]) l = Some (a + span pre).
Proof.
  revert a l. induction pre as [|[s v] pre IH]; intros a l; cbn [last_addr app span].
  - f_equal. lia.
  - rewrite IH. f_equal. lia.
Qed.

Lemma list_end (bs : list block) : bs = [] \/ exists pre sz u, bs = pre ++ [(sz, u)].
Proof.
  destruct bs as [|[sz u] pre _] using rev_ind; [by left|right]. by exists pre, sz, u.
Qed.

Lemma with_brk_id h : with_brk (h_brk h) h = h.
Proof. by destruct h. Qed.

Lemma stretch_kept e e' a z : kept e e' -> stretch e a z -> stretch e' a z.
Proof.
  intros Hk (H1 & H2 & H3 & H4). split_and!; [done..|]. intros x Hx Hz Hm.
  destruct (H4 x Hx Hz Hm) as (Ha & Hb & Hc). split; [by apply Hk|split; [by apply Hk|done]].
Qed.

Lemma tiles_kept e e' a bs z :
  kept e e' -> stretch e a z -> tiles (word e) a bs z -> tiles (word e') a bs z.
Proof.
  intros Hk Hs Ht. pose proof (tiles_span _ _ _ _ Ht) as Hz.
  destruct (span_nonneg bs (tiles_ok _ _ _ _ Ht)) as [_ Hm8].
  destruct Hs as (Ha & _ & _ & Hh). revert Ht. apply tiles_ext. intros x Hx Hm.
  destruct (Hh x) as (Hm0 & Hm4 & _); [lia|dlia|dlia|]. split; by apply Hk.
Qed.

Lemma last_block_tiles h e bs :
  env_ok e -> stretch e (h_base h) (h_brk h) -> tiles (word e) (h_base h) bs (h_brk h) ->
  exists e', last_block (h_brk h) (h, e) = Done (last_addr (h_base h) bs None) (h, e') /\ quiet e e'.
Proof.
  intros H1 H2 H3. unfold last_block. rewrite (bind_Done self _ (h, e) h (h, e)) by done.
  apply last_loop_spec; [done|done|done|]. by apply (walk_fuel_enough h e (h_base h)).
Qed.

Lemma last_block_spec h e bs :
  heap_ok h e bs ->
  exists e', last_block (h_brk h) (h, e) = Done (last_addr (h_base h) bs None) (h, e') /\ quiet e e'.
Proof. intros [H1 H2 H3 H4]. apply last_block_tiles; [done|by apply heap_stretch|done]. Qed.

Lemma heap_ok_writes P h e e' bs bs' :
  heap_ok h e bs -> writes P e e' -> tiles (word e') (h_base h) bs' (h_brk h) -> heap_ok h e' bs'.
Proof.
  intros [H1 H2 H3 H4] Hw Ht. split; [apply Hw|done| |done]. by apply (pages_ok_writes P _ e).
Qed.

Lemma heap_ok_quiet h e e' bs : heap_ok h e bs -> quiet e e' -> heap_ok h e' bs.
Proof.
  intros Hh Hq. apply (heap_ok_writes (fun _ => False) _ e _ bs); [done|by apply writes_quiet|].
  apply (tiles_quiet e); [done|apply heap_stretch; apply Hh|apply Hh].
Qed.

Lemma heap_ok_keeps h e e' bs : heap_ok h e bs -> keeps e e' -> heap_ok h e' bs.
Proof.
  intros [H1 H2 H3 H4] Hk. split; [apply Hk|done|by apply (pages_ok_keeps h e)|].
  apply (tiles_kept e); [by apply kept_keeps|by apply heap_stretch|done].
Qed.

Lemma free_area_app a bs bs' x :
  free_area a (bs ++ bs') x <-> free_area a bs x \/ free_area (a + span bs) bs' x.
Proof.
  revert a. induction bs as [|[sz u] bs IH]; intros a; cbn [free_area app span].
  - rewrite Z.add_0_r. tauto.
  - rewrite IH. replace (a + (HEADER + sz + span bs)) with (a + HEADER + sz + span bs) by lia. tauto.
Qed.

(** A free block written at the old break. *)
Lemma grow_append h e bs at_ :
  env_ok e -> geometry (with_brk at_ h) -> pages_ok (with_brk at_ h) e ->
  geometry h -> tiles (word e) (h_base h) bs (h_brk h) -> h_brk h < at_ ->
  exists e', write_header (h_brk h) (at_ -u h_brk h -u HEADER) false (with_brk at_ h, e)
      = Done tt (with_brk at_ h, e') /\
    writes (fun x => h_brk h <= x < h_brk h + 8) e e' /\
    tiles (word e') (h_base h) (bs ++ [(at_ - h_brk h - HEADER, false)]) at_.
Proof.
  intros Hok Hg Hp Hg0 Ht Hlt. pose proof (heap_stretch _ _ Hg Hp) as Hs.
  cbn [with_brk h_base h_brk] in Hs. destruct (g_align _ Hg) as (_ & _ & A1).
  destruct (g_align _ Hg0) as (A0 & _ & A2). pose proof (g_range _ Hg). pose proof (g_brk _ Hg).
  pose proof (g_brk _ Hg0). cbn [with_brk h_base h_limit h_brk] in *.
  unfold HEADER. rewrite (wrap32_small (at_ - h_brk h)), (wrap32_small (at_ - h_brk h - 8))
    by (unfold is_u32; dlia).
  destruct (write_header_spec (with_brk at_ h) e (h_brk h) (at_ - h_brk h - 8) false)
    as (e' & E' & W & Hw & Hu); [done| |unfold is_u32; dlia|].
  { apply Hs; [lia|dlia|dlia]. }
  exists e'. split; [done|]. split; [done|].
  pose proof (tiles_span _ _ _ _ Ht) as Hz. rewrite tiles_app, <- Hz. split.
  - apply (tiles_writes _ _ _ _ _ _ W); [|cbn; lia|done].
    destruct Hs as (S1 & S2 & S3 & S4). split_and!; [done|done|lia|].
    intros x Hx1 Hx2. apply S4; lia.
  - cbn [tiles]. split; [split; cbn; dlia|]. split; [done|]. split; [done|]. unfold HEADER. lia.
Qed.

(** The free block at the end made longer. *)
Lemma grow_tail h e pre sz at_ :
  env_ok e -> geometry (with_brk at_ h) -> pages_ok (with_brk at_ h) e ->
  geometry h -> tiles (word e) (h_base h) (pre ++ [(sz, false)]) (h_brk h) -> h_brk h < at_ ->
  let b := h_base h + span pre in
  exists e', (size <- size_at b ;; write_header b (size +u (at_ -u h_brk h)) false) (with_brk at_ h, e)
      = Done tt (with_brk at_ h, e') /\
    writes (fun x => b <= x < b + 8) e e' /\
    tiles (word e') (h_base h) (pre ++ [(sz + (at_ - h_brk h), false)]) at_.
Proof.
  intros Hok Hg Hp Hg0 Ht Hlt b. pose proof (heap_stretch _ _ Hg Hp) as Hs.
  cbn [with_brk h_base h_brk] in Hs. destruct (g_align _ Hg) as (_ & _ & A1).
  destruct (g_align _ Hg0) as (A0 & _ & A2). pose proof (g_range _ Hg). pose proof (g_brk _ Hg).
  pose proof (g_brk _ Hg0). cbn [with_brk h_base h_limit h_brk] in *.
  rewrite tiles_app in Ht. destruct Ht as [Hpre Hblk]. fold b in Hpre, Hblk.
  destruct (span_nonneg _ (tiles_ok _ _ _ _ Hpre)) as [Hp0 Hpm].
  destruct Hblk as ([Hb Hm] & Hw & Hu & Hend). cbn in Hb, Hm, Hu, Hend. unfold HEADER in *.
  assert (header_at e b) as Hh by (apply Hs; subst b; [lia|lia|dlia]).
  destruct (size_at_spec (with_brk at_ h) e b Hok (proj1 Hh)) as (e1 & E1 & Q1).
  rewrite (bind_Done _ _ _ _ _ E1), Hw.
  rewrite (wrap32_small (at_ - h_brk h)), (wrap32_small (sz + _)) by (unfold is_u32; subst b; lia).
  destruct (write_header_spec (with_brk at_ h) e1 b (sz + (at_ - h_brk h)) false)
    as (e2 & E2 & W2 & Hw2 & Hu2); [apply Q1| |unfold is_u32; subst b; lia|].
  { by apply (header_at_writes (fun _ => False) e); [apply writes_quiet|]. }
  exists e2. split; [done|]. assert (writes (fun x => b <= x < b + 8) e e2) as W
    by (apply (writes_trans _ e e1); [by apply writes_quiet|done]).
  split; [done|]. rewrite tiles_app. fold b. split.
  - apply (tiles_writes _ _ _ _ _ _ W); [|cbn; lia|done].
    destruct Hs as (S1 & S2 & S3 & S4). split_and!; [done|done|subst b; lia|].
    intros x Hx1 Hx2. apply S4; subst b; lia.
  - cbn [tiles]. split; [split; cbn; dlia|]. split; [done|]. split; [done|]. unfold HEADER. lia.
Qed.

(** The end of [grow]: the new room becomes a free block, or part of the one
    at the end. *)
Definition grow_end (start at_ : Z) (tail : option Z) : M (Heap * E) bool :=
  free_tail <- (match tail with
                | Some block => used <- used_at block ;; ret (negb used)
                | None => ret false
                end) ;;
  (match tail, free_tail with
   | Some block, true =>
       size <- size_at block ;; write_header block (size +u (at_ -u start)) false
   | _, _ => write_header start ((at_ -u start) -u HEADER) false
   end) ;;
  ret true.

Lemma grow_end_spec h e bs at_ :
  env_ok e -> geometry (with_brk at_ h) -> pages_ok (with_brk at_ h) e ->
  geometry h -> stretch e (h_base h) (h_brk h) -> tiles (word e) (h_base h) bs (h_brk h) -> h_brk h + 8 <= at_ ->
  exists P e', grow_end (h_brk h) at_ (last_addr (h_base h) bs None) (with_brk at_ h, e)
      = Done true (with_brk at_ h, e') /\
    writes P e e' /\ tiles (word e') (h_base h) (extend bs (at_ - h_brk h)) at_ /\
    forall x, P x -> h_base h <= x < at_ /\ (h_brk h <= x < h_brk h + 8 \/ free_area (h_base h) bs x).
Proof.
  intros Hok Hg Hp Hg0 Hs Ht Hlt. pose proof (g_brk _ Hg0) as Hb0. unfold grow_end.
  destruct (list_end bs) as [->|(pre & sz & u & ->)].
  - destruct (grow_append h e [] at_) as (e3 & E3 & W3 & Ht3); [done..|lia|].
    eexists _, e3. split; [|split; [exact W3|split; [exact Ht3|intros x Hx; cbn in Hx; split; [lia|by left]]]].
    cbn [last_addr]. rewrite (bind_Done (ret false) _ _ false (with_brk at_ h, e)) by done.
    by rewrite (bind_Done _ _ _ _ _ E3).
  - rewrite last_addr_snoc. set (b := h_base h + span pre) in *.
    pose proof Ht as Hsplit. rewrite tiles_app in Hsplit. destruct Hsplit as [Hpre Hblk].
    destruct (span_nonneg _ (tiles_ok _ _ _ _ Hpre)) as [Hp0 Hpm].
    assert (stretch e b (h_brk h)) as Hsb.
    { apply (stretch_tail e (h_base h)); [done|lia|]. destruct Hs as (S1 & _). subst b. dlia. }
    destruct (first_block _ _ _ _ _ _ Hsb Hblk) as (Hh2 & Hw2 & Hu2 & Hsz & _ & Hz2 & _).
    destruct (used_at_spec (with_brk at_ h) e b Hok Hh2) as (e3 & E3 & Q3).
    rewrite (bind_Done _ _ _ (negb u) (with_brk at_ h, e3))
      by (rewrite (bind_Done _ _ _ _ _ E3), Hu2; by destruct u).
    pose proof (pages_ok_keeps _ _ _ Hg (proj1 Q3) Hp) as Hp3.
    pose proof (tiles_quiet _ _ _ _ _ Q3 Hs Ht) as Ht3. pose proof (kp_ok _ _ (proj1 Q3)) as Hok3.
    destruct u; cbn [negb].
    + destruct (grow_append h e3 (pre ++ [(sz, true)]) at_) as (e4 & E4 & W4 & Ht4); [done..|lia|].
      rewrite <- app_assoc in Ht4. cbn [app] in Ht4. rewrite <- extend_snoc_used in Ht4.
      eexists _, e4. split; [by rewrite (bind_Done _ _ _ _ _ E4)|].
      split; [by apply (writes_trans _ e e3); [by apply writes_quiet|exact W4]|]. split; [exact Ht4|].
      intros x Hx. cbn in Hx. split; [lia|by left].
    + destruct (grow_tail h e3 pre sz at_) as (e4 & E4 & W4 & Ht4); [done..|lia|]. fold b in E4, W4.
      rewrite <- extend_snoc_free in Ht4. eexists _, e4. split; [by rewrite (bind_Done _ _ _ _ _ E4)|].
      split; [by apply (writes_trans _ e e3); [by apply writes_quiet|exact W4]|]. split; [exact Ht4|].
      intros x Hx. cbn in Hx. cbn [span] in Hz2. unfold HEADER in Hz2. split; [subst b; lia|]. right.
      rewrite free_area_app. right. left. fold b. unfold HEADER. lia.
Qed.

Lemma grow_spec h e bs pages :
  heap_ok h e bs -> 0 <= pages ->
  exists k e', grow pages (h, e) = Done (negb (k =? 0)) (with_brk (h_brk h + k) h, e') /\
    0 <= k <= 4096 * pages /\
    heap_ok (with_brk (h_brk h + k) h) e' (if k =? 0 then bs else extend bs k) /\
    kept_but (free_area (h_base h) bs) e e' /\ stays h e e' /\
    (k < 4096 * pages -> exhausted (with_brk (h_brk h + k) h) e').
Proof.
  intros Hh Hpages. pose proof Hh as [Hok Hg Hp Ht]. unfold grow.
  rewrite (bind_Done self _ (h, e) h (h, e)) by done.
  destruct (grow_loop_spec (Z.to_nat pages) h e (h_brk h)) as (at_ & e1 & E1 & Hok1 & Hg1 & Hp1 & K1 & Hst1 & Hle & Hex);
    [done|by rewrite with_brk_id..|].
  rewrite (bind_Done _ _ _ _ _ E1). pose proof (heap_stretch _ _ Hg Hp) as Hs.
  pose proof (tiles_kept _ _ _ _ _ K1 Hs Ht) as Ht1.
  exists (at_ - h_brk h). replace (h_brk h + (at_ - h_brk h)) with at_ by lia.
  destruct (Z.eqb_spec at_ (h_brk h)) as [->|Hne].
  { rewrite Z.sub_diag, Z.eqb_refl in *. rewrite with_brk_id in *. exists e1.
    split_and!; [done|lia|lia|by split|by apply kept_but_kept|done|]. intros Hk. apply Hex. lia. }
  destruct (Z.eqb_spec (at_ - h_brk h) 0); [lia|]. cbn [negb].
  assert (stretch e1 (h_base h) (h_brk h)) as Hs1 by by apply (stretch_kept e).
  destruct (last_block_tiles h e1 bs Hok1 Hs1 Ht1) as (e2 & E2 & Q2).
  rewrite (bind_Done _ _ _ _ _ E2).
  rewrite (bind_Done (set_brk at_) _ (h, e2) tt (with_brk at_ h, e2)) by done.
  pose proof (pages_ok_keeps _ _ _ Hg1 (proj1 Q2) Hp1) as Hp2.
  pose proof (g_brk _ Hg) as Hb. pose proof (g_brk _ Hg1) as Hb1.
  pose proof (g_align _ Hg) as (A1 & A2 & A3). pose proof (g_align _ Hg1) as (_ & _ & A4).
  cbn [with_brk h_brk h_base h_limit] in Hb1, A4.
  destruct (grow_end_spec h e2 bs at_) as (P & e3 & E3 & W3 & Ht3 & HP);
    [apply Q2|done|done|done|by apply (stretch_quiet e1)|by apply (tiles_quiet e1)|dlia|].
  exists e3. split; [exact E3|]. split; [lia|].
  split; [split; [apply W3|done|by apply (pages_ok_writes P _ e2)|exact Ht3]|]. split; [|split].
  - apply (kept_but_weaken P).
    + intros x (_ & _ & _ & f & Hf) Hx. apply HP in Hx as [_ [Hx|Hx]]; [|exact Hx].
      rewrite (po_out _ _ Hp) in Hf; [done|dlia].
    + apply (kept_but_trans P e e2); [|by apply kept_but_writes].
      apply kept_but_kept, (kept_trans e e1); [done|apply kept_keeps, Q2].
  - apply (stays_trans h e e2); [apply (stays_trans h e e1); [done|by apply stays_keeps, Q2]|].
    apply (stays_writes P); [done|]. intros x Hx%HP. dlia.
  - intros Hk. apply (exhausted_left _ e1); [apply Hex; lia|].
    pose proof (kp_left _ _ (proj1 Q2)). pose proof (wr_left _ _ _ W3). lia.
Qed.

(** ** Live blocks *)

Lemma live_app a bs bs' : live a (bs ++ bs') = live a bs ++ live (a + span bs) bs'.
Proof.
  revert a. induction bs as [|[sz u] bs IH]; intros a; cbn [live app span].
  - by rewrite Z.add_0_r.
  - rewrite IH, <- app_assoc. do 3 f_equal. lia.
Qed.

Lemma live_extend a bs k : live a (extend bs k) = live a bs.
Proof.
  destruct (list_end bs) as [->|(pre & sz & u & ->)]; [done|].
  destruct u; [rewrite extend_snoc_used|rewrite extend_snoc_free]; by rewrite !live_app.
Qed.

(** The new bytes are all free. *)
Lemma free_area_extend a bs k x :
  Forall block_ok bs -> 0 < k -> free_area a (extend bs k) x <->
  free_area a bs x \/ a + span bs <= x < a + span bs + k.
Proof.
  intros Hok Hk. destruct (list_end bs) as [->|(pre & sz & u & ->)].
  { cbn. unfold HEADER. intuition lia. }
  apply Forall_app in Hok as [_ Hok]. apply Forall_cons_iff in Hok as [[Hb _] _]. cbn in Hb.
  destruct u; [rewrite extend_snoc_used|rewrite extend_snoc_free];
    rewrite !free_area_app, span_app; cbn [free_area span]; unfold HEADER; intuition lia.
Qed.

Lemma live_cut a need sz :
  exists s, live a (cut need sz) = [(a + HEADER, s)] /\ (need <= sz -> need <= s < need + 16).
Proof.
  unfold cut, HEADER, SMALLEST. destruct (Z.leb_spec (need + 8 + 8) sz).
  - exists need. split; [done|lia].
  - exists sz. split; [done|lia].
Qed.

(** ** Searching and taking *)

Lemma first_fit_spec h e bs need :
  heap_ok h e bs ->
  exists r bs' e', first_fit need (h, e) = Done r (h, e') /\ fit_rel need (h_base h) bs r bs' /\
    heap_ok h e' bs' /\ writes (free_area (h_base h) bs) e e'.
Proof.
  intros Hh. pose proof Hh as [H1 H2 H3 H4]. unfold first_fit.
  rewrite (bind_Done self _ (h, e) h (h, e)) by done.
  destruct (fit_loop_spec (walk_fuel h) h e (h_base h) bs need) as (r & bs' & e' & Ef & Hr & Ht & W);
    [done|lia|by apply heap_stretch|done|by apply (walk_fuel_enough h e (h_base h))|].
  exists r, bs', e'. split_and!; [done|done| |done]. by apply (heap_ok_writes _ _ e _ bs _ Hh W).
Qed.

Lemma round_up_spec want :
  0 < want < 4294967280 ->
  want <= round_up want < want + 16 /\ 8 <= round_up want /\ round_up want mod 8 = 0.
Proof.
  intros Hw. unfold round_up, SMALLEST, ALIGN. set (w := if want <? 8 then 8 else want).
  assert (want <= w < want + 8 /\ 8 <= w < 4294967280) as [Hw1 Hw2]
    by (subst w; destruct (Z.ltb_spec want 8); lia).
  rewrite (wrap32_small (w + 8)), (wrap32_small (w + 8 - 1)) by (unfold is_u32; lia).
  assert (Z.land (w + 8 - 1) (not32 (8 - 1)) = (w + 7) / 8 * 8) as ->; [|dlia].
  replace (w + 8 - 1) with (w + 7) by lia. apply Z.bits_inj'. intros k Hk.
  rewrite Z.land_spec, testbit_not32 by lia. change (8 - 1) with (Z.ones 3).
  rewrite Z.testbit_ones, Zle_imp_le_bool by lia. change 8 with (2 ^ 3).
  rewrite <- Z.shiftl_mul_pow2, <- Z.shiftr_div_pow2, Z.shiftl_spec by lia.
  destruct (Z.ltb_spec k 3); destruct (Z.ltb_spec k 32); try lia; cbn [xorb andb].
  - rewrite andb_false_r, (Z.testbit_neg_r _ (k - 3)) by lia. done.
  - rewrite Z.shiftr_spec by lia. replace (k - 3 + 3) with k by lia. apply andb_true_r.
  - rewrite Z.shiftr_spec by lia. replace (k - 3 + 3) with k by lia.
    rewrite (testbit_high (w + 7) 32) by lia. done.
Qed.

(** A block found by the search and taken. *)
Lemma take_found h e bs need b bs1 e1 :
  heap_ok h e1 bs1 -> 8 <= need -> need mod 8 = 0 ->
  fit_rel need (h_base h) bs (Some b) bs1 -> Forall block_ok bs ->
  writes (free_area (h_base h) bs) e e1 ->
  exists r sz bs2 e2, take b need (h, e1) = Done r (h, e2) /\ heap_ok h e2 bs2 /\
    writes (free_area (h_base h) bs) e e2 /\
    r = b + HEADER /\ r mod 8 = 0 /\ h_base h < r /\ need <= sz < need + 16 /\ r + sz <= h_brk h /\
    Permutation (live (h_base h) bs2) ((r, sz) :: live (h_base h) bs).
Proof.
  intros Hh Hn8 Hnm Hr Hbs W1. destruct (fit_rel_keeps _ _ _ _ _ Hr Hbs) as (Hl & Hf & Hp).
  destruct Hp as (pre & sz & post & -> & -> & Hle). pose proof Hh as [Ho1 Ho2 Ho3 Ho4].
  pose proof (heap_stretch _ _ Ho2 Ho3) as Hs.
  destruct (take_spec h e1 (h_base h) pre sz post (h_brk h) need) as (e2 & E2 & W2 & Ht2); [done..|].
  destruct (live_cut (h_base h + span pre) need sz) as (s & Hcut & Hsb). specialize (Hsb Hle).
  exists (h_base h + span pre + HEADER), s, (pre ++ cut need sz ++ post), e2.
  pose proof (tiles_span _ _ _ _ Ho4) as Hz. pose proof (tiles_ok _ _ _ _ Ho4) as Hok4.
  apply Forall_app in Hok4 as [Hokp Hok4]. apply Forall_cons_iff in Hok4 as [[Hsz Hszm] Hokq].
  cbn in Hsz, Hszm. destruct (span_nonneg _ Hokp), (span_nonneg _ Hokq).
  rewrite span_app in Hz. cbn [span] in Hz. destruct (g_align _ Ho2) as (Ab & _). unfold HEADER in *.
  split; [done|]. split; [by apply (heap_ok_writes _ _ e1 _ _ _ Hh W2)|]. split.
  { apply (writes_trans _ e e1); [done|]. revert W2. apply writes_weaken. intros x [Hx1 Hx2].
    apply Hf. rewrite free_area_app. right. left. unfold HEADER. split; [done|lia]. }
  split; [done|]. split; [dlia|]. split; [lia|]. split; [done|]. split.
  { assert (s <= sz); [|lia]. revert Hcut. unfold cut, HEADER, SMALLEST.
    destruct (Z.leb_spec (need + 8 + 8) sz); cbn; intros [= <-]; lia. }
  rewrite !live_app, cut_span, Hcut, <- Hl, live_app. cbn [live app]. unfold HEADER.
  replace (h_base h + span pre + (8 + sz)) with (h_base h + span pre + 8 + sz) by lia.
  symmetry. apply Permutation_middle.
Qed.

(** No stretch of free bytes holds [need] bytes and a header. *)
Definition no_room h bs (need : Z) : Prop :=
  forall x, h_base h <= x -> ~ (forall y, x <= y < x + HEADER + need -> free_area (h_base h) bs y).

(** The pages [alloc] asks [grow] for. *)
Definition pages_for (need : Z) : Z := (need + HEADER + 4095) / 4096.

(** What a call of [alloc] did. *)
Record allocated h e bs (want r : Z) h' e' bs' : Prop := {
  al_heap : heap_ok h' e' bs';
  al_grew : exists k, 0 <= k /\ h' = with_brk (h_brk h + k) h /\
    (r = 0 -> 0 < want <= h_limit h - h_base h - HEADER ->
       k < 4096 * pages_for (round_up want) /\ no_room h bs' (round_up want) /\ exhausted h' e');
  al_kept : kept_but (free_area (h_base h) bs) e e';
  al_stays : stays h e e';
  al_null : r = 0 -> live (h_base h) bs' = live (h_base h) bs;
  al_given : r <> 0 -> exists sz,
    want <= sz < want + 32 /\ r mod 8 = 0 /\ h_base h < r /\ r + sz <= h_brk h' /\
    Permutation (live (h_base h) bs') ((r, sz) :: live (h_base h) bs);
}.

Lemma heap_area_stays h e bs e' :
  geometry h -> Forall block_ok bs -> h_brk h = h_base h + span bs ->
  writes (free_area (h_base h) bs) e e' -> stays h e e'.
Proof.
  intros Hg Hbs Hz W. apply (stays_writes _ _ _ _ W). intros x Hx.
  apply free_area_range in Hx; [|done]. pose proof (g_align _ Hg). pose proof (g_brk _ Hg). dlia.
Qed.

Lemma heap_ok_ext h e bs : heap_ok h e bs -> Forall block_ok bs.
Proof. intros H. eapply tiles_ok, H. Qed.

(** ** The second search, on the grown heap *)

Section Retry.
Context (h : Heap) (e : E) (bs : list block) (e1 : E) (bs1 : list block) (want k : Z) (e2 : E).
Hypothesis (Hh : heap_ok h e bs) (Hw : 0 < want <= h_limit h - h_base h - HEADER)
  (Hr1 : fit_rel (round_up want) (h_base h) bs None bs1) (W1 : writes (free_area (h_base h) bs) e e1)
  (Hh1 : heap_ok h e1 bs1) (Hk : 0 < k <= 4096 * pages_for (round_up want))
  (Hh2 : heap_ok (with_brk (h_brk h + k) h) e2 (extend bs1 k))
  (Hout2 : kept_but (free_area (h_base h) bs1) e1 e2) (Hst2 : stays h e1 e2)
  (Hx2 : k < 4096 * pages_for (round_up want) -> exhausted (with_brk (h_brk h + k) h) e2).

Lemma retry_blocks : Forall block_ok bs /\ Forall block_ok bs1 /\ Forall block_ok (extend bs1 k).
Proof. split_and!; [by eapply heap_ok_ext..|by eapply heap_ok_ext]. Qed.

(** Words that were mapped before and are free now were free before. *)
Lemma retry_area x : mapped e x -> free_area (h_base h) (extend bs1 k) x -> free_area (h_base h) bs x.
Proof.
  destruct retry_blocks as (Hbs & Hbs1 & _). destruct (fit_rel_keeps _ _ _ _ _ Hr1 Hbs) as (_ & Hf1 & _).
  intros Hx. rewrite free_area_extend by (done || lia). rewrite Hf1. intros [|Hx']; [done|].
  pose proof (ho_tiles _ _ _ Hh1) as Ht1. apply tiles_span in Ht1. rewrite <- Ht1 in Hx'.
  destruct Hx as (_ & _ & _ & f & Hf). pose proof (g_brk _ (ho_geometry _ _ _ Hh2)) as B1.
  pose proof (g_align _ (ho_geometry _ _ _ Hh)) as (B2 & B3 & B4).
  cbn [with_brk h_brk h_base h_limit] in B1.
  rewrite (po_out _ _ (ho_pages _ _ _ Hh)) in Hf; [done|dlia].
Qed.

Lemma retry_kept e4 :
  writes (free_area (h_base h) (extend bs1 k)) e2 e4 -> kept_but (free_area (h_base h) bs) e e4.
Proof.
  destruct retry_blocks as (Hbs & Hbs1 & _). destruct (fit_rel_keeps _ _ _ _ _ Hr1 Hbs) as (_ & Hf1 & _).
  intros W4. apply (kept_but_weaken (free_area (h_base h) (extend bs1 k))); [exact retry_area|].
  apply (kept_but_trans _ e e2); [|by apply kept_but_writes].
  apply (kept_but_weaken (free_area (h_base h) bs)).
  { intros x _ Hx. rewrite free_area_extend, Hf1 by (done || lia). auto. }
  apply (kept_but_trans _ e e1); [by apply kept_but_writes|].
  revert Hout2. apply kept_but_weaken. intros x _. by rewrite Hf1.
Qed.

Lemma retry_stays e4 : writes (free_area (h_base h) (extend bs1 k)) e2 e4 -> stays h e e4.
Proof.
  destruct retry_blocks as (Hbs & _ & Hbs2). intros W4. apply (stays_trans h e e1).
  { apply (heap_area_stays h e bs); [apply Hh|done|by eapply tiles_span, Hh|done]. }
  apply (stays_trans h e1 e2); [done|].
  destruct (heap_area_stays (with_brk (h_brk h + k) h) e2 (extend bs1 k) e4) as [G1 G2 G3];
    [apply Hh2|done|by eapply (tiles_span (word e2)), Hh2|done|]. by split.
Qed.

(** Nothing fits the grown heap: it did not grow by all that was asked. *)
Lemma retry_short : no_room h (extend bs1 k) (round_up want) -> k < 4096 * pages_for (round_up want).
Proof.
  destruct retry_blocks as (_ & Hbs1 & _). intros Hnone.
  destruct (Z.eq_dec k (4096 * pages_for (round_up want))) as [Ek|]; [|lia]. exfalso.
  pose proof (tiles_span _ _ _ _ (ho_tiles _ _ _ Hh1)) as Hz.
  pose proof (g_brk _ (ho_geometry _ _ _ Hh)).
  apply (Hnone (h_brk h)); [lia|]. intros y Hy. rewrite free_area_extend by (done || lia).
  right. rewrite <- Hz. unfold pages_for, HEADER in *. dlia.
Qed.

Lemma alloc_retry :
  exists r h' e' bs',
    (got <- first_fit (round_up want) ;;
     match got with Some block => take block (round_up want) | None => ret 0 end)
      (with_brk (h_brk h + k) h, e2) = Done r (h', e') /\
    allocated h e bs want r h' e' bs'.
Proof.
  destruct retry_blocks as (Hbs & _ & Hbs2). destruct (fit_rel_keeps _ _ _ _ _ Hr1 Hbs) as (Hl1 & _ & _).
  pose proof (g_range _ (ho_geometry _ _ _ Hh)) as Hg.
  destruct (round_up_spec want) as (Hn1 & Hn8 & Hnm); [unfold HEADER in Hw; lia|].
  destruct (first_fit_spec _ e2 (extend bs1 k) (round_up want) Hh2) as (r & bs3 & e3 & E3 & Hr3 & Hh3 & W3).
  destruct (fit_rel_keeps _ _ _ _ _ Hr3 Hbs2) as (Hl3 & Hf3 & _).
  rewrite (bind_Done _ _ _ _ _ E3). destruct r as [b|].
  - destruct (take_found (with_brk (h_brk h + k) h) e2 (extend bs1 k) (round_up want) b bs3 e3) as
      (r & sz & bs4 & e4 & E4 & Hh4 & W4 & Hrb & Hrm & Hbr & Hsz & Hend & Hperm); [done..|].
    cbn [with_brk h_base h_brk] in W4, Hbr, Hperm, Hend. rewrite live_extend, Hl1 in Hperm.
    exists r, (with_brk (h_brk h + k) h), e4, bs4. split; [done|].
    split; [done|exists k; split; [lia|]; split; [done|lia]|by apply retry_kept|by apply retry_stays|lia|].
    intros _. exists sz. split_and!; [lia|lia|done|done|done|done].
  - exists 0, (with_brk (h_brk h + k) h), e3, bs3. split; [done|].
    split; [done| |by apply retry_kept|by apply retry_stays| |done].
    + exists k. split; [lia|]. split; [done|]. intros _ _.
      assert (no_room h (extend bs1 k) (round_up want)) as Hnone.
      { intros x Hx. apply (fit_rel_none (round_up want) _ _ bs3 x Hr3); (done || lia). }
      split; [by apply retry_short|]. split; [intros x Hx Hall; apply (Hnone x Hx); intros y Hy; by apply Hf3, Hall|].
      apply (exhausted_left _ e2); [by apply Hx2, retry_short|apply W3].
    + intros _. cbn [with_brk h_base] in Hl3. by rewrite Hl3, live_extend, Hl1.
Qed.

End Retry.

Lemma alloc_spec h e bs want :
  heap_ok h e bs -> is_u32 want ->
  exists r h' e' bs', alloc want (h, e) = Done r (h', e') /\ allocated h e bs want r h' e' bs'.
Proof.
  intros Hh Hu. pose proof (g_range _ (ho_geometry _ _ _ Hh)) as Hg.
  unfold alloc. rewrite (bind_Done self _ (h, e) h (h, e)) by done.
  assert (forall e', keeps e e' -> (want = 0 \/ h_limit h - h_base h - HEADER < want) ->
    allocated h e bs want 0 h e' bs) as Hnull.
  { intros e' Hk Hw. split; [by apply (heap_ok_keeps h e)| |by apply kept_but_kept, kept_keeps|by apply stays_keeps|done|done].
    exists 0. split; [done|]. split; [by rewrite Z.add_0_r, with_brk_id|]. lia. }
  destruct (Z.eqb_spec want 0) as [Hw0|Hw0].
  { exists 0, h, e, bs. split; [done|]. apply Hnull; [apply keeps_refl, Hh|by left]. }
  unfold is_u32 in Hu.
  rewrite (wrap32_small (h_limit h - h_base h)), (wrap32_small (h_limit h - h_base h - HEADER))
    by (unfold is_u32, HEADER; lia).
  rewrite Z.gtb_ltb. destruct (Z.ltb_spec (h_limit h - h_base h - HEADER) want) as [Hbig|Hfit].
  { destruct (koops_law e (Fmt.dec want ++ Klib.bytes " bytes is more than " ++
      Klib.bytes (h_name h) ++ Klib.bytes " can ever hold") (ho_env _ _ _ Hh)) as (e1 & E1 & Hk & _).
    exists 0, h, e1, bs. rewrite (bind_Done _ _ _ _ _ (lift_Done _ h _ _ _ E1)).
    split; [done|]. apply Hnull; [done|by right]. }
  destruct (round_up_spec want) as (Hn1 & Hn8 & Hnm); [unfold HEADER in Hfit; lia|].
  destruct (first_fit_spec h e bs (round_up want) Hh) as (r & bs1 & e1 & E1 & Hr1 & Hh1 & W1).
  rewrite (bind_Done _ _ _ _ _ E1). pose proof (heap_ok_ext _ _ _ Hh) as Hbs.
  destruct r as [b|].
  { destruct (take_found h e bs (round_up want) b bs1 e1) as
      (r & sz & bs2 & e2 & E2 & Hh2 & W2 & Hrb & Hrm & Hbr & Hsz & Hend & Hperm); [done..|].
    exists r, h, e2, bs2. split; [done|]. split; [done| |by apply kept_but_writes| |lia|].
    2: { apply (heap_area_stays h e bs); [apply Hh|done|by eapply tiles_span, Hh|done]. }
    - exists 0. split; [done|]. split; [by rewrite Z.add_0_r, with_brk_id|]. lia.
    - intros _. exists sz. split_and!; [lia|lia|done|done|done|done]. }
  assert ((round_up want +u HEADER +u PAGE_SIZE -u 1) / PAGE_SIZE = pages_for (round_up want)) as ->.
  { unfold pages_for, HEADER, PAGE_SIZE in *. rewrite (wrap32_small (round_up want + 8)),
      (wrap32_small (round_up want + 8 + 4096)), wrap32_small by (unfold is_u32; lia). f_equal. lia. }
  destruct (grow_spec h e1 bs1 (pages_for (round_up want)) Hh1) as (k & e2 & E2 & Hk & Hh2 & Hout2 & Hst2 & Hx2).
  { unfold pages_for, HEADER. dlia. }
  rewrite (bind_Done _ _ _ _ _ E2). destruct (Z.eqb_spec k 0) as [->|Hk0]; cbn [negb].
  - rewrite Z.add_0_r, with_brk_id in *. exists 0, h, e2, bs1. split; [done|].
    destruct (fit_rel_keeps _ _ _ _ _ Hr1 Hbs) as (Hl1 & Hf1 & _). split; [done| | | |done|done].
    + exists 0. split; [done|]. split; [by rewrite Z.add_0_r, with_brk_id|]. intros _ _.
      assert (0 < 4096 * pages_for (round_up want)) as Hlt by (unfold pages_for, HEADER in *; dlia).
      split; [exact Hlt|]. split; [|exact (Hx2 Hlt)]. intros x Hx Hall.
      apply (fit_rel_none _ _ _ bs1 x Hr1); [done|lia|done|]. intros y Hy. by apply Hf1, Hall.
    + apply (kept_but_trans _ e e1); [by apply kept_but_writes|].
      revert Hout2. apply kept_but_weaken. intros x _. by rewrite Hf1.
    + apply (stays_trans h e e1); [|done].
      apply (heap_area_stays h e bs); [apply Hh|done|by eapply tiles_span, Hh|done].
  - apply (alloc_retry h e bs e1 bs1 want k e2); (done || lia || (unfold HEADER in *; lia)).
Qed.
End Ops.
