(* ===== verification/HeapCalls.v ===== *)
(** * free, size, stats and brk of heap.rs

    The remaining operations on a well-formed heap, against the interface of
    [HeapSpec.v]. *)

From S2P Require Import Prelude.
From S2P Require Import Mem.
From S2P Require Import PagingSpec.
From S2P Require Import Paging.
From S2P Require Import Heap.
From S2P Require Import HeapSpec.
From S2P Require Import HeapOps.

(** ** Finding a block by its payload *)

Lemma find_addr_split p a bs :
  Forall block_ok bs ->
  match find_addr p a bs with
  | Some b => exists pre sz u post,
      bs = pre ++ (sz, u) :: post /\ b = a + span pre /\ p = b + HEADER
  | None => forall sz, (p, sz) ∉ live a bs
  end.
Proof.
  intros Hok. revert a. induction Hok as [|[sz u] bs [Hb _] Hok IH]; intros a; cbn [find_addr].
  { intros sz H. inversion H. }
  cbn in Hb. destruct (Z.eqb_spec (a + HEADER) p) as [<-|Hne].
  { exists [], sz, u, bs. cbn. split_and!; [done|lia|lia]. }
  specialize (IH (a + HEADER + sz)). destruct (find_addr p (a + HEADER + sz) bs) as [b|].
  - destruct IH as (pre & s & v & post & -> & -> & ->).
    exists ((sz, u) :: pre), s, v, post. cbn [span app]. split_and!; [done|lia|lia].
  - intros s. cbn [live]. rewrite elem_of_app. intros [H|H]; [|by apply (IH s)].
    destruct u; [|by inversion H]. apply list_elem_of_singleton in H. congruence.
Qed.

(** Payload addresses lie inside their stretch, in order. *)
Lemma live_range a bs p sz :
  Forall block_ok bs -> (p, sz) ∈ live a bs -> a + HEADER <= p /\ p + sz <= a + span bs /\ 8 <= sz.
Proof.
  intros Hok. revert a. induction Hok as [|[s u] bs [Hb _] Hok IH]; intros a; cbn [live span].
  { intros H. inversion H. }
  cbn in Hb. rewrite elem_of_app. pose proof (span_nonneg bs Hok) as [Hs _].
  intros [H|H].
  - destruct u; [|by inversion H]. apply list_elem_of_singleton in H. simplify_eq. lia.
  - apply IH in H. unfold HEADER in *. lia.
Qed.

(** The live block with a given payload is the one the walk finds. *)
Lemma live_found pre sz u post a p s :
  Forall block_ok (pre ++ (sz, u) :: post) ->
  p = a + span pre + HEADER -> (p, s) ∈ live a (pre ++ (sz, u) :: post) -> u = true /\ s = sz.
Proof.
  intros Hok -> Hin. apply Forall_app in Hok as [Hpre Hok].
  apply Forall_cons_iff in Hok as [[Hb _] Hpost]. cbn in Hb.
  rewrite live_app, elem_of_app in Hin. cbn [live] in Hin. rewrite elem_of_app in Hin.
  destruct (span_nonneg _ Hpre) as [Hp _]. unfold HEADER in *.
  destruct Hin as [H|[H|H]].
  - apply live_range in H; [|done]. unfold HEADER in H. lia.
  - destruct u; [|by inversion H]. apply list_elem_of_singleton in H. by simplify_eq.
  - apply live_range in H; [|done]. unfold HEADER in H. lia.
Qed.

Lemma live_aligned a bs p sz :
  Forall block_ok bs -> a mod 8 = 0 -> (p, sz) ∈ live a bs -> p mod 8 = 0.
Proof.
  intros Hok. revert a. induction Hok as [|[s u] bs [Hb Hm] Hok IH]; intros a Ha; cbn [live].
  { intros H. inversion H. }
  cbn in Hb, Hm. rewrite elem_of_app. unfold HEADER. intros [H|H].
  - destruct u; [|by inversion H]. apply list_elem_of_singleton in H. simplify_eq. dlia.
  - apply (IH (a + 8 + s)); [dlia|done].
Qed.

(** The live blocks are in the order of their addresses. *)
Lemma live_sorted a bs i j p s q t :
  Forall block_ok bs -> (i < j)%nat -> live a bs !! i = Some (p, s) -> live a bs !! j = Some (q, t) ->
  p + s <= q.
Proof.
  intros Hok. revert a i j. induction Hok as [|[z u] bs [Hb _] Hok IH]; intros a i j Hij; cbn [live];
    [done|]. destruct u; cbn [app]; [|apply IH; done].
  destruct i as [|i], j as [|j]; try lia; cbn.
  - intros [= <- <-] Hj. apply list_elem_of_lookup_2, live_range in Hj; [|done]. unfold HEADER in *. lia.
  - apply IH. lia.
Qed.

Section Calls.
Context {E : Type} {EnvE : Env E} {V : View E} {Laws : EnvLaws E}.
Implicit Types (h : Heap) (e : E).

Lemma find_block_spec h e bs p :
  heap_ok h e bs ->
  exists e', find_block p (h, e) = Done (find_addr p (h_base h) bs) (h, e') /\ quiet e e'.
Proof.
  intros [H1 H2 H3 H4]. unfold find_block. rewrite (bind_Done self _ (h, e) h (h, e)) by done.
  apply find_loop_spec; [done|by apply heap_stretch|done|]. by apply (walk_fuel_enough h e (h_base h)).
Qed.

Lemma block_header h e pre sz u post :
  heap_ok h e (pre ++ (sz, u) :: post) ->
  header_at e (h_base h + span pre) /\ word e (h_base h + span pre) = sz /\
  word e (h_base h + span pre + 4) = (if u : bool then 1 else 0).
Proof.
  intros [H1 H2 H3 H4]. rewrite tiles_app in H4. destruct H4 as [Hpre Hblk].
  destruct (span_nonneg _ (tiles_ok _ _ _ _ Hpre)) as [Hp Hpm].
  assert (stretch e (h_base h + span pre) (h_brk h)) as Hs.
  { apply (stretch_tail e (h_base h)); [by apply heap_stretch|lia|].
    destruct (g_align _ H2) as (A & _). dlia. }
  destruct (first_block _ _ _ _ _ _ Hs Hblk) as (Hh & Hw & Hu & _). done.
Qed.

Lemma free_spec h e bs p :
  heap_ok h e bs -> p <> 0 ->
  exists e', free p (h, e) = Done tt (h, e') /\
    ((exists pre sz post, bs = pre ++ (sz, true) :: post /\ p = h_base h + span pre + HEADER /\
        heap_ok h e' (pre ++ (sz, false) :: post) /\
        writes (fun x => p - HEADER <= x < p) e e') \/
     ((forall sz, (p, sz) ∉ live (h_base h) bs) /\ complained e e' /\ heap_ok h e' bs)).
Proof.
  intros Hh Hp0. unfold free. destruct (Z.eqb_spec p 0); [done|].
  rewrite (bind_Done self _ (h, e) h (h, e)) by done.
  destruct (find_block_spec h e bs p Hh) as (e1 & E1 & Q1). rewrite (bind_Done _ _ _ _ _ E1).
  pose proof (heap_ok_ext _ _ _ Hh) as Hok. pose proof (heap_ok_quiet _ _ _ _ Hh Q1) as Hh1.
  pose proof (find_addr_split p (h_base h) bs Hok) as Hf.
  destruct (find_addr p (h_base h) bs) as [b|].
  - destruct Hf as (pre & sz & u & post & -> & -> & Hp).
    destruct (block_header h e1 pre sz u post Hh1) as (Hhd & Hw & Hu).
    destruct (used_at_spec h e1 _ (ho_env _ _ _ Hh1) Hhd) as (e2 & E2 & Q2).
    rewrite (bind_Done _ _ _ _ _ E2), Hu. pose proof (heap_ok_quiet _ _ _ _ Hh1 Q2) as Hh2.
    pose proof (quiet_trans _ _ _ Q1 Q2) as Q12. destruct u; cbn [negb Z.eqb].
    + destruct (block_header h e2 pre sz true post Hh2) as (Hhd2 & Hw2 & _).
      destruct (size_at_spec h e2 _ (ho_env _ _ _ Hh2) (proj1 Hhd2)) as (e3 & E3 & Q3).
      rewrite (bind_Done _ _ _ _ _ E3), Hw2. pose proof (heap_ok_quiet _ _ _ _ Hh2 Q3) as Hh3.
      destruct (set_header h e3 (h_base h) pre sz true post (h_brk h) sz false)
        as (e4 & E4 & W4 & Ht4); [apply Hh3|apply heap_stretch; apply Hh3|apply Hh3|done|].
      exists e4. split; [done|]. left. exists pre, sz, post.
      split_and!; [done|done|by apply (heap_ok_writes _ _ e3 _ _ _ Hh3 W4)|].
      apply (writes_trans _ e e3); [by apply writes_quiet, (quiet_trans _ e2)|].
      revert W4. apply writes_weaken. intros x [Hx1 Hx2]. unfold HEADER in *. lia.
    + destruct (koops_law e2 (Fmt.hex_alt 10 p ++ Klib.bytes " is freed twice in " ++
        Klib.bytes (h_name h)) (ho_env _ _ _ Hh2)) as (e3 & E3 & K3).
      exists e3. split; [by apply lift_Done|]. right. split; [|split].
      * intros s Hin. by apply (live_found pre sz false post) in Hin as [? _].
      * by apply (quiet_complained e e2).
      * apply (heap_ok_keeps h e2); [done|apply K3].
  - destruct (koops_law e1 (Fmt.hex_alt 10 p ++ Klib.bytes " did not come from " ++
      Klib.bytes (h_name h)) (ho_env _ _ _ Hh1)) as (e2 & E2 & K2).
    exists e2. split; [by apply lift_Done|]. right. split; [done|].
    split; [by apply (quiet_complained e e1)|]. apply (heap_ok_keeps h e1); [done|apply K2].
Qed.


Lemma size_spec h e bs p :
  heap_ok h e bs -> p <> 0 ->
  exists r e', size p (h, e) = Done r (h, e') /\ heap_ok h e' bs /\
    (forall sz, (p, sz) ∈ live (h_base h) bs -> r = sz /\ quiet e e').
Proof.
  intros Hh Hp0. unfold size. destruct (Z.eqb_spec p 0); [done|].
  rewrite (bind_Done self _ (h, e) h (h, e)) by done.
  destruct (find_block_spec h e bs p Hh) as (e1 & E1 & Q1). rewrite (bind_Done _ _ _ _ _ E1).
  pose proof (heap_ok_ext _ _ _ Hh) as Hok. pose proof (heap_ok_quiet _ _ _ _ Hh Q1) as Hh1.
  pose proof (find_addr_split p (h_base h) bs Hok) as Hf.
  destruct (find_addr p (h_base h) bs) as [b|].
  - destruct Hf as (pre & sz & u & post & -> & -> & Hp).
    destruct (block_header h e1 pre sz u post Hh1) as (Hhd & Hw & _).
    destruct (size_at_spec h e1 _ (ho_env _ _ _ Hh1) (proj1 Hhd)) as (e2 & E2 & Q2).
    exists sz, e2. rewrite E2, Hw. split; [done|]. split; [by apply (heap_ok_quiet h e1)|].
    intros s Hin. destruct (live_found pre sz u post (h_base h) p s) as [_ ->]; [done..|].
    split; [done|by apply (quiet_trans _ e1)].
  - destruct (koops_law e1 (Fmt.hex_alt 10 p ++ Klib.bytes " did not come from " ++
      Klib.bytes (h_name h)) (ho_env _ _ _ Hh1)) as (e2 & E2 & K2).
    exists 0, e2. rewrite (bind_Done _ _ _ _ _ (lift_Done _ h _ _ _ E2)). split; [done|].
    split; [apply (heap_ok_keeps h e1); [done|apply K2]|]. intros sz Hin. by destruct (Hf sz).
Qed.

(** ** Counting *)

Fixpoint bytes_of (used : bool) (bs : list block) : Z :=
  match bs with
  | [] => 0
  | (sz, u) :: bs => (if Bool.eqb u used then sz else 0) + bytes_of used bs
  end.

Lemma bytes_of_nonneg u bs : Forall block_ok bs -> 0 <= bytes_of u bs.
Proof.
  induction 1 as [|[sz v] bs [Hb _] _ IH]; cbn [bytes_of]; [done|]. cbn in Hb.
  destruct (Bool.eqb v u); lia.
Qed.

(** The counters of [st] after the blocks [bs]. *)
Definition counted (st : Stats) (a : Z) (bs : list block) : Stats :=
  mkStats (st_name st) (st_base st) (st_brk st) (st_limit st)
    (st_used st + bytes_of true bs) (st_free st + bytes_of false bs)
    (st_blocks st + Z.of_nat (length bs)) (st_live st + Z.of_nat (length (live a bs)))
    (st_contiguous st) (st_phys_base st) (st_phys_end st).

Lemma stats_loop_spec fuel h e a bs st :
  env_ok e -> stretch e a (h_brk h) -> tiles (word e) a bs (h_brk h) -> (length bs < fuel)%nat ->
  0 <= st_used st -> 0 <= st_free st -> 0 <= st_blocks st -> 0 <= st_live st <= st_blocks st ->
  st_used st + st_free st + HEADER * st_blocks st + span bs < 4294967296 ->
  exists e', stats_loop fuel a st (h, e) = Done (counted st a bs) (h, e') /\ quiet e e'.
Proof.
  revert e a bs st. induction fuel as [|fuel IH]; intros e a bs st Hok Hs Ht Hf P1 P2 P3 P4 P5; [lia|].
  cbn [stats_loop]. rewrite (bind_Done self _ (h, e) h (h, e)) by done.
  destruct bs as [|[sz u] bs].
  { rewrite (stretch_end _ _ _ Hs Ht). exists e. split; [|by apply quiet_refl].
    unfold counted. cbn. rewrite !Z.add_0_r. by destruct st. }
  destruct (stretch_step _ _ _ _ _ _ Hs Ht) as (-> & _ & Enext & _).
  destruct (first_block _ _ _ _ _ _ Hs Ht) as (Hh & Hw & Hu & Hsz & Hsm & Hz & Hn & Hs' & Ht').
  destruct (read_block h e a sz u bs (h_brk h) Hok Hs Ht) as (e2 & Q & ->). cbn [span] in P5. unfold HEADER in P5.
  cbv zeta. rewrite Enext. cbn [length] in Hf.
  match goal with |- context [stats_loop fuel _ ?x] => set (st' := x) end.
  destruct (IH e2 (a + HEADER + sz) bs st') as (e3 & E3 & Q3);
    [apply Q|by apply (stretch_quiet e)|by apply (tiles_quiet e)|lia|..];
    subst st'; try (destruct u; cbn [negb Z.eqb st_used st_free st_blocks st_live];
      rewrite ?wrap32_small by (unfold is_u32; lia); unfold HEADER; lia).
  exists e3. split; [|by apply (quiet_trans _ e2)]. rewrite E3. unfold counted.
  destruct u; cbn [negb Z.eqb st_used st_free st_blocks st_live bytes_of Bool.eqb length live app
    st_name st_base st_brk st_limit st_contiguous st_phys_base st_phys_end];
    rewrite !wrap32_small by (unfold is_u32; lia); do 2 f_equal; lia.
Qed.

Lemma stats_spec h e bs :
  heap_ok h e bs ->
  exists e', stats (h, e) = Done
      (mkStats (h_name h) (h_base h) (h_brk h) (h_limit h) (bytes_of true bs) (bytes_of false bs)
         (Z.of_nat (length bs)) (Z.of_nat (length (live (h_base h) bs)))
         (bool_decide (h_backing h = Contiguous)) (h_phys_base h) (h_phys_end h)) (h, e') /\
    quiet e e'.
Proof.
  intros [H1 H2 H3 H4]. unfold stats. rewrite (bind_Done self _ (h, e) h (h, e)) by done.
  pose proof (tiles_span _ _ _ _ H4) as Hz. pose proof (g_range _ H2). pose proof (g_brk _ H2).
  destruct (stats_loop_spec (walk_fuel h) h e (h_base h) bs
    (mkStats (h_name h) (h_base h) (h_brk h) (h_limit h) 0 0 0 0
       (bool_decide (h_backing h = Contiguous)) (h_phys_base h) (h_phys_end h)))
    as (e' & E' & Q'); cbn [st_used st_free st_blocks st_live]; try lia;
    [done|by apply heap_stretch|done|by apply (walk_fuel_enough h e (h_base h))|].
  exists e'. split; [exact E'|done].
Qed.


(** ** Shrinking *)

(** The frame of an unmapped page goes back, unless it is of the window. *)
Lemma drop_frame_spec h e f :
  env_ok e -> spare e f ->
  exists e', (if bool_decide (h_backing h = Scattered) then lift (free_frame (f * 4096)) else ret tt) (h, e)
      = Done tt (h, e') /\ env_ok e' /\
    (forall n, managed n -> page e' n = page e n) /\
    (forall x, mapped e x -> word e' x = word e x) /\
    (h_backing h = Contiguous -> forall g, spare e g -> spare e' g) /\
    (h_backing h = Scattered -> forall g, spare e g -> g <> f -> spare e' g).
Proof.
  intros Hok Hs. case_bool_decide as Hb.
  - destruct (free_law e f Hok Hs) as (e2 & E2 & Hok2 & _ & Hp2 & Hw2 & Hf2 & _).
    exists e2. split_and!; [by apply lift_Done|done|done|done|congruence|done].
  - exists e. split_and!; done.
Qed.

(** Unmapping the pages from [at_] to the break. *)
Lemma unmap_loop_spec fuel h e at_ :
  env_ok e -> geometry h -> h_base h <= at_ <= h_brk h -> at_ mod 4096 = 0 ->
  (forall n, at_ / 4096 <= n < h_brk h / 4096 -> exists f, page e n = Some (f, true) /\
     (h_backing h = Contiguous -> f = h_phys_base h / 4096 + (n - h_base h / 4096))) ->
  (h_brk h - at_) / 4096 < Z.of_nat fuel ->
  exists e', unmap_loop fuel at_ (h, e) = Done tt (h, e') /\ env_ok e' /\
    (forall n, managed n -> page e' n =
       if decide (at_ / 4096 <= n < h_brk h / 4096) then None else page e n) /\
    (forall x, mapped e x -> ~ at_ <= x < h_brk h -> word e' x = word e x) /\
    (h_backing h = Contiguous -> (forall f, spare e f -> spare e' f) /\
       forall n, at_ / 4096 <= n < h_brk h / 4096 ->
         spare e' (h_phys_base h / 4096 + (n - h_base h / 4096))) /\
    (h_backing h = Scattered -> forall f, spare e f -> spare e' f).
Proof.
  revert e at_. induction fuel as [|fuel IH]; intros e at_ Hok Hg Hat Hm Hin Hf; [dlia|].
  pose proof (g_align _ Hg) as (A1 & A2 & A3). pose proof (g_range _ Hg) as A4. pose proof (g_brk _ Hg) as A5.
  cbn [unmap_loop]. rewrite (bind_Done self _ (h, e) h (h, e)) by done.
  destruct (Z.ltb_spec at_ (h_brk h)) as [Hlt|Hge]; cycle 1.
  { exists e. split_and!; [done|done| |done| |done].
    - intros n Hn. by rewrite decide_False by dlia.
    - intros _. split; [done|]. intros n Hn. dlia. }
  destruct (Hin (at_ / 4096)) as (f & Hpf & Hrun); [dlia|].
  assert (managed (at_ / 4096)) as Hman by (apply (heap_managed h); [done|dlia]).
  destruct (unmap_law e at_ f true) as (e1 & E1 & Hok1 & _ & Hp1 & Hw1 & Hs1 & Hsp1);
    [done|unfold is_u32; lia|done|done|].
  rewrite (bind_Done _ _ _ _ _ (lift_Done _ h _ _ _ E1)).
  destruct (drop_frame_spec h e1 f Hok1 Hs1) as (e2 & E2 & Hok2 & Hp2 & Hw2 & Hsp2 & Hss2).
  rewrite (bind_Done _ _ _ _ _ E2), (wrap32_small (at_ + PAGE_SIZE)) by (unfold is_u32, PAGE_SIZE; dlia).
  unfold PAGE_SIZE.
  assert (forall n, managed n -> page e2 n = if decide (n = at_ / 4096) then None else page e n) as Hp12.
  { intros n Hn. by rewrite Hp2, Hp1. }
  destruct (IH e2 (at_ + 4096)) as (e3 & E3 & Hok3 & Hp3 & Hw3 & Hsp3 & Hss3); [done|done|dlia|dlia| |dlia|].
  { intros n Hn. destruct (Hin n) as (g & Hg' & Hrn); [dlia|]. exists g. split; [|done].
    rewrite Hp12, decide_False; [done|dlia|]. apply (heap_managed h); [done|dlia]. }
  exists e3. split_and!; [done|done| | | |].
  - intros n Hn. rewrite Hp3, Hp12 by done. repeat case_decide; try done; dlia.
  - intros x Hx Hno. assert (x / 4096 <> at_ / 4096) by dlia.
    assert (mapped e1 x) as Hx1.
    { destruct Hx as (? & ? & Hmx & g & Hgx). split_and!; try done. exists g.
      by rewrite Hp1, decide_False. }
    assert (mapped e2 x) as Hx2 by by apply (mapped_pages e1).
    rewrite Hw3, Hw2, Hw1; [done|done|done|done|done|lia].
  - intros Hc. destruct (Hsp3 Hc) as [S1 S2]. split; [auto|]. intros n Hn.
    destruct (decide (n = at_ / 4096)) as [->|]; [|apply S2; dlia].
    apply S1, (Hsp2 Hc). by rewrite <- (Hrun Hc).
  - intros Hb g Hgs. apply (Hss3 Hb), (Hss2 Hb); [by apply Hsp1|]. intros ->.
    by apply (page_law e (at_ / 4096) f true).
Qed.

(** The blocks that stay below [target], the last one cut. *)
Definition trimmed (a : Z) (bs : list block) (target : Z) (bs' : list block) : Prop :=
  exists pre sz, bs = pre ++ [(sz, false)] /\
    ((target = a + span pre /\ bs' = pre) \/
     (a + span pre + HEADER + SMALLEST <= target /\
      bs' = pre ++ [(target - (a + span pre) - HEADER, false)])).

Lemma trimmed_live a bs target bs' : trimmed a bs target bs' -> live a bs' = live a bs.
Proof.
  intros (pre & sz & -> & [[_ ->]|[_ ->]]); rewrite !live_app; cbn [live app]; [by rewrite app_nil_r|done].
Qed.

(** The break can be lowered to [target]. *)
Definition trimmable (a : Z) (bs : list block) (target : Z) : Prop := exists bs', trimmed a bs target bs'.

(** What [grow] added can be given back. *)
Lemma extend_trimmable a bs k : Forall block_ok bs -> trimmable a (extend bs k) (a + span bs).
Proof.
  intros Hok. destruct (list_end bs) as [->|(pre & sz & u & ->)].
  { exists [], [], (k - HEADER). split; [done|]. by left. }
  apply Forall_app in Hok as [_ [[Hb _] _]%Forall_cons_iff]. cbn in Hb. rewrite span_app. cbn [span].
  destruct u.
  - rewrite extend_snoc_used. eexists _, (pre ++ [(sz, true)]), _. split; [by rewrite <- app_assoc|].
    left. split; [|done]. rewrite span_app. cbn [span]. lia.
  - rewrite extend_snoc_free. eexists _, pre, _. split; [done|]. right. split; [|done].
    unfold HEADER, SMALLEST in *. lia.
Qed.

(** Why it cannot. *)
Lemma not_trimmable a pre sz u target :
  u = true \/ target < a + span pre \/ a + span pre < target < a + span pre + HEADER + SMALLEST ->
  ~ trimmable a (pre ++ [(sz, u)]) target.
Proof.
  intros Hno (bs' & pre' & sz' & Eq & Htr). apply app_inj_tail in Eq as [<- Eq]. simplify_eq.
  unfold HEADER, SMALLEST in *. destruct Htr as [[-> _]|[? _]]; destruct Hno as [?|[?|?]]; (done || lia).
Qed.

(** The free block at the end made shorter. *)
Lemma cut_top h e pre sz target :
  let b := h_base h + span pre in
  heap_ok h e (pre ++ [(sz, false)]) -> b + 16 <= target < h_brk h -> target mod 4096 = 0 ->
  exists e', write_header b (target - b - 8) false (h, e) = Done tt (h, e') /\
    tiles (word e') (h_base h) (pre ++ [(target - b - 8, false)]) target /\
    writes (free_area (h_base h) (pre ++ [(sz, false)])) e e'.
Proof.
  intros b Hh Hb Hm. pose proof Hh as [Hok Hg Hp Htl].
  destruct (block_header h e pre sz false [] Hh) as (Hhd & _). fold b in Hhd.
  pose proof (g_align _ Hg) as (A1 & _ & A3). pose proof (g_range _ Hg) as A4. pose proof (g_brk _ Hg) as A5.
  pose proof (tiles_span _ _ _ _ Htl) as Hz. rewrite span_app in Hz. cbn [span] in Hz.
  rewrite tiles_app in Htl. destruct Htl as [Htp Hblk].
  destruct (span_nonneg _ (tiles_ok _ _ _ _ Htp)) as [Hs0 Hsm].
  destruct Hblk as ([Hsz Hszm] & _). cbn in Hsz, Hszm. unfold HEADER in *.
  destruct (write_header_spec h e b (target - b - 8) false) as (e3 & E3 & W3 & Hw3 & Hu3);
    [done|done|unfold is_u32; subst b; lia|].
  exists e3. split; [exact E3|]. split.
  - rewrite tiles_app. fold b. split.
    + apply (tiles_writes _ _ _ _ _ _ W3); [|cbn; lia|done].
      destruct (heap_stretch _ _ Hg Hp) as (S1 & S2 & S3 & S4).
      split_and!; [done|done|subst b; lia|]. intros x Hx1 Hx2. apply S4; subst b; lia.
    + cbn [tiles]. split; [split; cbn; subst b; [lia|dlia]|]. split; [done|]. split; [done|].
      unfold HEADER. lia.
  - revert W3. apply writes_weaken.
    intros x [Hx1 Hx2]. rewrite free_area_app. right. left. fold b. unfold HEADER. split; [done|lia].
Qed.

Lemma shrink_top_spec h e bs target :
  heap_ok h e bs -> h_base h <= target < h_brk h -> target mod 4096 = 0 ->
  exists ok e', shrink_top target (h, e) = Done ok (h, e') /\
    (if ok : bool then
       exists bs', trimmed (h_base h) bs target bs' /\ env_ok e' /\
         tiles (word e') (h_base h) bs' target /\ writes (free_area (h_base h) bs) e e'
     else complained e e' /\ ~ trimmable (h_base h) bs target).
Proof.
  intros Hh Ht Hm. pose proof Hh as [Hok Hg Hp Htl]. unfold shrink_top.
  rewrite (bind_Done self _ (h, e) h (h, e)) by done.
  destruct (last_block_spec h e bs Hh) as (e1 & E1 & Q1). rewrite (bind_Done _ _ _ _ _ E1).
  pose proof (heap_ok_quiet _ _ _ _ Hh Q1) as Hh1.
  destruct (list_end bs) as [->|(pre & sz & u & ->)]; [cbn in Htl; lia|].
  rewrite last_addr_snoc. set (b := h_base h + span pre) in *.
  destruct (block_header h e1 pre sz u [] Hh1) as (Hhd & Hw & Hu). fold b in Hhd, Hw, Hu.
  pose proof (tiles_span _ _ _ _ Htl) as Hz. rewrite span_app in Hz. cbn [span] in Hz.
  pose proof (tiles_ok _ _ _ _ Htl) as Hbs. apply Forall_app in Hbs as [Hpre Hblk].
  apply Forall_cons_iff in Hblk as [[Hb Hbm] _]. cbn in Hb, Hbm.
  destruct (span_nonneg _ Hpre) as [Hs0 Hsm]. pose proof (g_align _ Hg) as (A1 & _ & A3).
  pose proof (g_range _ Hg) as A4. pose proof (g_brk _ Hg) as A5.
  destruct (used_at_spec h e1 b (ho_env _ _ _ Hh1) Hhd) as (e2 & E2 & Q2).
  rewrite (bind_Done _ _ _ _ _ E2), Hu. pose proof (heap_ok_quiet _ _ _ _ Hh1 Q2) as Hh2.
  pose proof (quiet_trans _ _ _ Q1 Q2) as Q.
  assert (forall text, exists e3, (lift (koops text) ;; ret false) (h, e2) = Done false (h, e3) /\
    complained e e3) as Hno.
  { intros text. destruct (koops_law e2 text (ho_env _ _ _ Hh2)) as (e3 & E3 & K3).
    exists e3. rewrite (bind_Done _ _ _ _ _ (lift_Done _ h _ _ _ E3)). split; [done|].
    by apply (quiet_complained e e2). }
  assert (tiles (word e2) (h_base h) pre b) as Htp.
  { destruct Hh2 as [_ _ _ H]. rewrite tiles_app in H. apply H. }
  destruct u; cbn [negb Z.eqb orb].
  { destruct (Hno (Klib.bytes "the top of " ++ Klib.bytes (h_name h) ++
      Klib.bytes " is in use, it cannot shrink")) as (e3 & E3 & K3). exists false, e3.
    split; [exact E3|]. split; [exact K3|]. apply not_trimmable. by left. }
  destruct (Z.ltb_spec target b).
  { destruct (Hno (Klib.bytes "the top of " ++ Klib.bytes (h_name h) ++
      Klib.bytes " is in use, it cannot shrink")) as (e3 & E3 & K3). exists false, e3.
    split; [exact E3|]. split; [exact K3|]. apply not_trimmable. right. left. done. }
  unfold HEADER, SMALLEST in *. rewrite Z.gtb_ltb. destruct (Z.ltb_spec b target); cycle 1.
  { exists true, e2. split; [done|]. exists pre. split.
    - exists pre, sz. split; [done|]. left. split; [|done]. fold b. lia.
    - split; [apply Hh2|]. replace target with b by lia. split; [done|by apply writes_quiet]. }
  rewrite (wrap32_small (b + 8)), (wrap32_small (b + 8 + 8)) by (unfold is_u32; subst b; lia).
  destruct (Z.ltb_spec target (b + 8 + 8)).
  { destruct (Hno (Klib.bytes "the free top of " ++ Klib.bytes (h_name h) ++
      Klib.bytes " is too small to give back")) as (e3 & E3 & K3). exists false, e3.
    split; [exact E3|]. split; [exact K3|]. apply not_trimmable. right. right. fold b. unfold HEADER, SMALLEST. lia. }
  rewrite (wrap32_small (target - b)), (wrap32_small (target - b - 8)) by (unfold is_u32; subst b; lia).
  destruct (cut_top h e2 pre sz target Hh2) as (e3 & E3 & Ht3 & W3); [fold b; lia|done|]. fold b in E3, Ht3.
  exists true, e3. rewrite (bind_Done _ _ _ _ _ E3). split; [done|].
  exists (pre ++ [(target - b - 8, false)]). split.
  { exists pre, sz. split; [done|]. right. fold b. unfold HEADER, SMALLEST. split; [lia|done]. }
  split; [apply W3|]. split; [exact Ht3|]. by apply (writes_trans _ e e2); [apply writes_quiet|].
Qed.

(** The heap below the new break, when the pages above it are gone. *)
Lemma shrunk h e e' bs target :
  geometry h -> pages_ok h e -> tiles (word e) (h_base h) bs target ->
  h_base h <= target <= h_brk h -> target mod 4096 = 0 -> env_ok e' ->
  (forall n, managed n -> page e' n =
     if decide (target / 4096 <= n < h_brk h / 4096) then None else page e n) ->
  (forall x, mapped e x -> ~ target <= x < h_brk h -> word e' x = word e x) ->
  (h_backing h = Contiguous -> (forall f, spare e f -> spare e' f) /\
     forall n, target / 4096 <= n < h_brk h / 4096 ->
       spare e' (h_phys_base h / 4096 + (n - h_base h / 4096))) ->
  heap_ok (with_brk target h) e' bs.
Proof.
  intros Hg Hp Ht Htg Htm Hok Hp2 Hw2 Hsp2.
  pose proof (g_align _ Hg) as (A1 & A2 & A3). pose proof (g_brk _ Hg) as A5.
  assert (forall n, h_base h / 4096 <= n < h_limit h / 4096 -> managed n) as Hman
    by (intros n Hn; by apply (heap_managed h)).
  split; [done| | |].
  - destruct Hg as [G1 G2 G3 G4 G5]. split; cbn [with_brk h_base h_limit h_brk h_phys_base h_phys_end h_backing h_flags];
      [done|split_and!; done|done|lia|].
    intros Hc. destruct (G5 Hc) as (? & ? & ? & ? & ?). split_and!; try done. lia.
  - split; cbn [with_brk h_base h_limit h_brk h_phys_base h_phys_end h_backing h_flags].
    + intros n Hn. rewrite Hp2, decide_False by (dlia || (apply Hman; dlia)). apply (po_in _ _ Hp). dlia.
    + intros n Hn. rewrite Hp2 by (apply Hman; dlia). case_decide; [done|]. apply (po_out _ _ Hp). dlia.
    + intros Hc n Hn. rewrite Hp2, decide_False by (dlia || (apply Hman; dlia)). apply (po_run _ _ Hp Hc). dlia.
    + intros Hc f Hf. destruct (Hsp2 Hc) as [S1 S2].
      destruct (Z.lt_ge_cases f (h_phys_base h / 4096 + (h_brk h - h_base h) / 4096)) as [Hlt|Hge].
      * replace f with (h_phys_base h / 4096 + ((f - h_phys_base h / 4096 + h_base h / 4096) - h_base h / 4096)) by lia.
        apply S2. dlia.
      * apply S1, (po_window _ _ Hp Hc). lia.
  - cbn [with_brk h_base h_brk]. revert Ht. apply tiles_ext. intros x Hx Hxm.
    assert (forall y, h_base h <= y < target -> y mod 4 = 0 -> word e' y = word e y) as Hy.
    { intros y Hy Hym. apply Hw2; [|lia]. apply (heap_mapped h); [done|done|lia|done]. }
    split; apply Hy; dlia.
Qed.

Lemma shrink_spec h e bs pages :
  heap_ok h e bs -> 0 <= pages < 1048576 ->
  let sp := Z.min (pages * 4096) (h_brk h - h_base h) in
  exists ok h' e' bs', shrink pages (h, e) = Done ok (h', e') /\ heap_ok h' e' bs' /\
    live (h_base h) bs' = live (h_base h) bs /\ stays h e e' /\
    (if ok : bool then h' = with_brk (h_brk h - sp) h /\
       (forall x, mapped e x -> ~ free_area (h_base h) bs x -> ~ (h_brk h - sp <= x < h_brk h) ->
          word e' x = word e x)
     else h' = h /\ bs' = bs /\ complained e e' /\ ~ trimmable (h_base h) bs (h_brk h - sp)).
Proof.
  intros Hh Hpg sp. pose proof Hh as [Hok Hg Hp Ht]. unfold shrink.
  rewrite (bind_Done self _ (h, e) h (h, e)) by done.
  pose proof (g_align _ Hg) as (A1 & A2 & A3). pose proof (g_range _ Hg) as A4. pose proof (g_brk _ Hg) as A5.
  unfold PAGE_SIZE. rewrite (wrap32_small (pages * 4096)), (wrap32_small (h_brk h - h_base h))
    by (unfold is_u32; lia). fold sp.
  rewrite (wrap32_small (h_brk h - sp)) by (unfold is_u32; lia).
  assert (0 <= sp /\ sp mod 4096 = 0) as [Hsp0 Hspm] by (subst sp; dlia).
  destruct (Z.eqb_spec sp 0) as [Hz|Hnz].
  { exists true, h, e, bs. rewrite Hz, Z.sub_0_r, with_brk_id.
    split_and!; try done; by apply stays_keeps, keeps_refl. }
  destruct (shrink_top_spec h e bs (h_brk h - sp) Hh) as (ok & e1 & E1 & H1); [lia|dlia|].
  rewrite (bind_Done _ _ _ _ _ E1). destruct ok; cbn [negb]; cycle 1.
  { exists false, h, e1, bs. split; [done|]. destruct H1 as [H1 Hno].
    split; [apply (heap_ok_keeps h e); [done|apply H1]|]. split; [done|]. by split; [apply stays_keeps, H1|]. }
  destruct H1 as (bs' & Htr & Hok1 & Ht1 & W1).
  pose proof (pages_ok_writes _ _ _ _ Hg W1 Hp) as Hp1.
  destruct (unmap_loop_spec (S (Z.to_nat (sp / 4096 + 1))) h e1 (h_brk h - sp))
    as (e2 & E2 & Hok2 & Hp2 & Hw2 & Hsp2 & Hss2); [done|done|lia|dlia| |dlia|].
  { intros n Hn. destruct (po_in _ _ Hp1 n) as (f & Hf); [dlia|]. exists f. split; [done|].
    intros Hc. rewrite (po_run _ _ Hp1 Hc n) in Hf by dlia. congruence. }
  rewrite (bind_Done _ _ _ _ _ E2).
  rewrite (bind_Done (set_brk _) _ (h, e2) tt (with_brk (h_brk h - sp) h, e2)) by done.
  exists true, (with_brk (h_brk h - sp) h), e2, bs'. split; [done|].
  split; [apply (shrunk h e1); try done; [lia|dlia]|split; [by eapply trimmed_live|split; [|split; [done|]]]].
  - apply (stays_trans h e e1).
    { apply (heap_area_stays h e bs); [done|by eapply heap_ok_ext|by eapply tiles_span, Ht|done]. }
    split; [|intros x Hx Ho; apply Hw2; [done|dlia]|done].
    intros n Hn Ho. by rewrite Hp2, decide_False by (done || dlia).
  - intros x Hx Hno Hno2. rewrite Hw2; [by apply (wr_word _ _ _ W1)| |done].
    by apply (writes_mapped _ _ _ _ W1).
Qed.

End Calls.
