(* ===== verification/HeapEnv.v ===== *)
(** * The kernel gives the heap what it relies on

    The operations of paging.rs, pmm.rs and panic.rs, run on the kernel
    state, satisfy the laws of [HeapSpec.v]: every theorem of [HeapOps.v]
    and [HeapCalls.v] holds of the heaps of this kernel. *)

From S2P Require Import Prelude.
From S2P Require Import Mem.
From S2P Require Import Machine.
From S2P Require Import Pmm.
From S2P Require Import Fmt.
From S2P Require Panic.
From S2P Require Import Paging.
From S2P Require Import PagingSpec.
From S2P Require Import PagingOps.
From S2P Require Import Heap.
From S2P Require Import HeapSpec.

#[global] Instance sys_env : Env sys := {|
  Heap.load32 := Paging.load32;
  Heap.store32 := Paging.store32;
  Heap.map_page := Paging.map_page;
  Heap.unmap_page := Paging.unmap_page;
  Heap.alloc_frame := on_pmm Pmm.alloc_frame;
  Heap.free_frame := fun frame => on_pmm (fun p => (tt, Pmm.free_frame frame p));
  Heap.koops := Panic.koops;
|}.

#[global] Instance sys_view : View sys := {|
  env_ok := fun s => vm_ok (s_machine s) (s_pmm s);
  page := fun s n =>
    (fun e => (entry_frame e / 4096, entry_writable e)) <$> page_entry (s_machine s) n;
  word := fun s a => match phys (s_machine s) a with
                     | Some pa => pread32 (m_ram (s_machine s)) pa
                     | None => 0
                     end;
  spare := fun s f => 0 <= f < 1048576 /\ frame_ok (s_machine s) (s_pmm s) 0 f;
  frames_left := fun s => AVAILABLE (s_pmm s);
  oopses := s_oops;
|}.

#[global] Instance phys_proper : Proper ((≡) ==> eq ==> eq) phys.
Proof. intros m m' E va _ <-. unfold phys. by rewrite E. Qed.

(** A mapped word: its page entry and physical address. *)
Lemma mapped_entry (s : sys) a :
  mapped s a -> is_u32 a /\ a mod 4 = 0 /\ managed (a / 4096) /\
  exists e, page_entry (s_machine s) (a / 4096) = Some e /\ entry_writable e = true /\
    phys (s_machine s) a = Some (entry_frame e + a mod 4096) /\
    word s a = pread32 (m_ram (s_machine s)) (entry_frame e + a mod 4096).
Proof.
  intros (Hu & Hm & Hn & f & Hf). cbn in Hf. apply fmap_Some in Hf as (e & He & E).
  injection E as _ Ew.
  split_and!; [apply Hu..|done|done|]. exists e.
  assert (phys (s_machine s) a = Some (entry_frame e + a mod 4096)) as Hp
    by (unfold phys; by rewrite He).
  split_and!; [done|by symmetry|done|]. unfold word. cbn. by rewrite Hp.
Qed.

Lemma pread8_write32_out ram b v a :
  a < b \/ b + 4 <= a -> pread8 (pwrite32 b v ram) a = pread8 ram a.
Proof. intros Ha. unfold pwrite32. rewrite !pread8_write8. repeat case_decide; (done || lia). Qed.

(** What no operation of the interface changes: the pages of the two windows
    on low memory, CR0, the stack pointer, and the bytes of the frames of [F]
    that are neither free nor in use. *)
Record untouched (F : Z -> Prop) (s s' : sys) : Prop := {
  un_page : forall n, 0 <= n < 1047552 -> ~ managed n ->
    page_entry (s_machine s') n = page_entry (s_machine s) n;
  un_cr0 : m_cr0 (s_machine s') = m_cr0 (s_machine s);
  un_esp : s_esp s' = s_esp s;
  un_frame : forall f, F f -> frame_ok (s_machine s) (s_pmm s) 0 f ->
    frame_ok (s_machine s') (s_pmm s') 0 f;
  un_byte : forall a, F (a / 4096) -> frame_ok (s_machine s) (s_pmm s) 0 (a / 4096) ->
    pread8 (m_ram (s_machine s')) a = pread8 (m_ram (s_machine s)) a;
}.

Lemma untouched_refl F s : untouched F s s.
Proof. by split. Qed.

Lemma untouched_trans F s1 s2 s3 : untouched F s1 s2 -> untouched F s2 s3 -> untouched F s1 s3.
Proof.
  intros [A1 A2 A3 A4 A5] [B1 B2 B3 B4 B5]. split; [|congruence..| |].
  - intros n Hn Hm. by rewrite B1, A1.
  - intros f Hf Ho. by apply B4, A4.
  - intros a Hf Ho. rewrite B5, A5; [done|done|done|done|by apply A4].
Qed.

(** Fewer frames, or only those that matter. *)
Lemma untouched_weaken (F G : Z -> Prop) s s' :
  (forall f, F f -> frame_ok (s_machine s) (s_pmm s) 0 f -> G f) -> untouched G s s' -> untouched F s s'.
Proof. intros HF [A1 A2 A3 A4 A5]. split; [done..| |]; auto. Qed.

(** A frame no page of the interface has stays so when the tables change at
    one page, which gets another frame. *)
Lemma spare_evolves (s : sys) m' p' f :
  evolves (s_machine s) (s_pmm s) m' p' ->
  (forall k, 0 <= k < 1047552 -> page_entry m' k = page_entry (s_machine s) k \/
     exists e, page_entry m' k = Some e /\ entry_frame e / 4096 <> f \/ page_entry m' k = None) ->
  frame_ok (s_machine s) (s_pmm s) 0 f -> frame_ok m' p' 0 f.
Proof.
  intros Hev Hpe (H1 & H2 & H3). split_and!.
  - intros [Ht|Ht]%(ev_tables _ _ _ _ Hev); contradiction.
  - intros Hx. by apply H2, (ev_free _ _ _ _ Hev).
  - intros k e Hk Hk0 He. destruct (Hpe k) as [Hx|(e' & [[Hx Hne]|Hx])].
    + apply managed_range in Hk. lia.
    + rewrite Hx in He. by apply (H3 k).
    + congruence.
    + congruence.
Qed.

(** One managed page may change. *)
Lemma untouched_page F s m' p' v o n (x : option Z) :
  managed n -> evolves (s_machine s) (s_pmm s) m' p' ->
  (forall k, 0 <= k < 1047552 -> page_entry m' k = if decide (k = n) then x else page_entry (s_machine s) k) ->
  (forall e, x = Some e -> F (entry_frame e / 4096) -> ~ frame_ok (s_machine s) (s_pmm s) 0 (entry_frame e / 4096)) ->
  untouched F s (mkSys m' p' v o (s_esp s)).
Proof.
  intros Hn Hev Hpe Hx. split; cbn [s_machine s_pmm s_esp]; [|apply Hev|reflexivity| |].
  - intros k Hk Hm. rewrite Hpe by done. case_decide; [by subst|done].
  - intros f Hf Ho. apply (spare_evolves s); [done| |done]. intros k Hk. rewrite Hpe by done.
    case_decide; [|by left]. right. destruct x as [e|]; [|by exists 0; right].
    exists e. left. split; [done|]. intros <-. by eapply Hx.
  - intros a _ (H1 & H2 & _). by apply (ev_bytes _ _ _ _ Hev).
Qed.

(** The tables are the same; the bytes written belong to managed pages. *)
Lemma untouched_tables F s m' v o :
  tables_ok (s_machine s) -> same_tables (s_machine s) m' -> m_cr0 m' = m_cr0 (s_machine s) ->
  (forall a, (forall k e, managed k -> page_entry (s_machine s) k = Some e -> entry_frame e / 4096 <> a / 4096) ->
     pread8 (m_ram m') a = pread8 (m_ram (s_machine s)) a) ->
  untouched F s (mkSys m' (s_pmm s) v o (s_esp s)).
Proof.
  intros Ht Hst H0 Hb.
  assert (forall n, 0 <= n < 1047552 -> page_entry m' n = page_entry (s_machine s) n) as Hpe
    by (intros n Hn; apply (same_tables_page_entry _ _ Ht Hst); lia).
  split; cbn [s_machine s_pmm s_esp]; [by auto|exact H0|reflexivity| |].
  - intros f _ (H1 & H2 & H3). split_and!; [by rewrite (same_tables_is_table _ _ Ht Hst)|done|].
    intros k e Hk Hk0. pose proof (managed_range k Hk). rewrite Hpe by lia. by apply H3.
  - intros a _ (_ & _ & H3). apply Hb. intros k e Hk. apply H3; [done|destruct Hk; lia].
Qed.

(** A change of the TLB, and of the bitmap within what is not in use. *)
Lemma untouched_equiv F s m' p' v o :
  m' ≡ s_machine s ->
  (forall f, F f -> frame_ok (s_machine s) (s_pmm s) 0 f -> f ∉ free_set p') ->
  untouched F s (mkSys m' p' v o (s_esp s)).
Proof.
  intros Q Hp. split; cbn [s_machine s_pmm s_esp]; [|apply Q|reflexivity| |].
  - intros n _ _. by rewrite Q.
  - intros f Hf Ho. pose proof (Hp f Hf Ho). apply (frame_ok_equiv _ _ _ _ _ Q) in Ho as (H1 & _ & H3). by split.
  - intros a _ _. by destruct Q as [-> _].
Qed.

Lemma untouched_same F s m' v o : m' ≡ s_machine s -> untouched F s (mkSys m' (s_pmm s) v o (s_esp s)).
Proof. intros Q. apply untouched_equiv; [done|]. by intros f _ (_ & ? & _). Qed.

(** The state up to the TLB, with another screen and panic count. *)
Lemma keeps_equiv (s : sys) m' v o :
  vm_ok m' (s_pmm s) -> m' ≡ s_machine s ->
  keeps s (mkSys m' (s_pmm s) v o (s_esp s)).
Proof.
  intros Hok Q. split; cbn.
  - exact Hok.
  - intros n _. by rewrite Q.
  - intros a _. rewrite (phys_proper _ _ Q a a eq_refl). by destruct Q as [-> _].
  - intros f [Hf Hown]. split; [exact Hf|]. exact (frame_ok_equiv _ _ _ _ _ Q Hown).
  - reflexivity.
Qed.

Lemma quiet_equiv (s : sys) m' :
  vm_ok m' (s_pmm s) -> m' ≡ s_machine s -> quiet s (with_machine m' s).
Proof. intros Hok Q. split; [exact (keeps_equiv s m' (s_vga s) (s_oops s) Hok Q)|reflexivity]. Qed.

(** Words stay when the page entry and the bytes of the frame stay. *)
Lemma word_same (s s' : sys) a :
  vm_ok (s_machine s) (s_pmm s) -> mapped s a ->
  page_entry (s_machine s') (a / 4096) = page_entry (s_machine s) (a / 4096) ->
  (forall x, ~ is_table (s_machine s) (x / 4096) -> (x / 4096 ∉ free_set (s_pmm s)) ->
     pread8 (m_ram (s_machine s')) x = pread8 (m_ram (s_machine s)) x) ->
  word s' a = word s a.
Proof.
  intros Hok Hm Hpe Hb. destruct (mapped_entry s a Hm) as (Hu & Hma & Hn & e & He & _ & Hp & ->).
  unfold word. cbn. unfold phys. rewrite Hpe, He. cbn.
  destruct (vm_leaf _ _ Hok _ e Hn He) as [Ht Hf]. destruct (page_entry_u32 _ _ _ He) as [Heu _].
  pose proof (entry_frame_aligned e Heu) as Hal.
  assert (forall k, 0 <= k < 4096 -> pread8 (m_ram (s_machine s')) (entry_frame e + k)
            = pread8 (m_ram (s_machine s)) (entry_frame e + k)) as Hk.
  { intros k Hk. apply Hb; replace ((entry_frame e + k) / 4096) with (entry_frame e / 4096) by dlia;
      assumption. }
  unfold pread32. rewrite <- !Z.add_assoc, !Hk by dlia. done.
Qed.

(** ** The laws, one lemma each *)

Lemma sys_load (s : sys) a :
  env_ok s -> mapped s a -> exists s', Heap.load32 a s = Done (word s a) s' /\ quiet s s' /\ forall F, untouched F s s'.
Proof.
  intros Hok Hm. destruct (mapped_entry s a Hm) as (Hu & Hma & Hn & e & He & _ & Hp & ->).
  destruct (data_load32 s a _ Hok Hu ltac:(dlia) Hp) as (m' & E & Q & Hok').
  exists (with_machine m' s). split; [exact E|].
  split; [by apply quiet_equiv|intros F; by apply untouched_same].
Qed.

(** Two aligned words of mapped pages do not overlap. *)
Lemma words_apart (s : sys) a b ea eb :
  vm_ok (s_machine s) (s_pmm s) -> managed (a / 4096) -> managed (b / 4096) ->
  page_entry (s_machine s) (a / 4096) = Some ea -> page_entry (s_machine s) (b / 4096) = Some eb ->
  a mod 4 = 0 -> b mod 4 = 0 -> b <> a ->
  let pa := entry_frame ea + a mod 4096 in let pb := entry_frame eb + b mod 4096 in
  pa + 4 <= pb \/ pb + 4 <= pa.
Proof.
  intros Hok Ha Hb Hea Heb Hma Hmb Hne.
  destruct (page_entry_u32 _ _ _ Hea) as [Hua _], (page_entry_u32 _ _ _ Heb) as [Hub _].
  pose proof (entry_frame_aligned ea Hua) as A1. pose proof (entry_frame_aligned eb Hub) as A2.
  destruct (decide (a / 4096 = b / 4096)) as [E|E].
  - rewrite E, Heb in Hea. injection Hea as <-. dlia.
  - assert (entry_frame ea <> entry_frame eb) as Hfr.
    { intros Ef. apply E. by apply (vm_leaf_own _ _ Hok _ _ ea eb). }
    dlia.
Qed.

Lemma sys_store (s : sys) a v :
  env_ok s -> mapped s a -> is_u32 v ->
  exists s', Heap.store32 a v s = Done tt s' /\ env_ok s' /\ oopses s' = oopses s /\
    (forall n, managed n -> page s' n = page s n) /\
    (forall b, mapped s b -> word s' b = if decide (b = a) then v else word s b) /\
    (forall f, spare s f -> spare s' f) /\ frames_left s' <= frames_left s /\ forall F, untouched F s s'.
Proof.
  intros Hok Hm Hv. destruct (mapped_entry s a Hm) as (Hu & Hma & Hn & e & He & Hw & _ & _).
  destruct (data_store32 s a v e Hok Hu Hn ltac:(dlia) He Hw) as (m' & E & Hok' & Hst & Hram & H0 & _).
  pose proof (vm_tables _ _ Hok) as Ht.
  assert (forall n, managed n -> page_entry m' n = page_entry (s_machine s) n) as Hpe.
  { intros n Hmn. pose proof (managed_range n Hmn). apply (same_tables_page_entry _ _ Ht Hst). lia. }
  exists (with_machine m' s). split; [exact E|]. split; [exact Hok'|]. split; [done|].
  split; [intros n Hmn; cbn; by rewrite Hpe|]. split; [|split; [|split; [reflexivity|]]].
  - intros b Hb. destruct (mapped_entry s b Hb) as (_ & Hmb & Hnb & eb & Heb & _ & _ & ->).
    unfold word. cbn [s_machine with_machine sys_view]. unfold phys. rewrite Hpe, Heb by done.
    cbn [fmap option_fmap option_map]. rewrite Hram. case_decide as Eb.
    + subst b. rewrite He in Heb. injection Heb as <-. by apply pread32_write32.
    + apply pread32_write32_ne. by apply (words_apart s a b e eb).
  - intros f [Hf (H1 & H2 & H3)]. split; [exact Hf|]. cbn [s_machine s_pmm with_machine].
    split_and!; [by rewrite (same_tables_is_table _ _ Ht Hst)|assumption|].
    intros k e' Hk Hk0. rewrite Hpe by done. by apply H3.
  - intros F. apply untouched_tables; [done..|]. intros b Hb. rewrite Hram. apply pread8_write32_out.
    specialize (Hb _ _ Hn He). destruct (page_entry_u32 _ _ _ He) as [Heu _].
    pose proof (entry_frame_aligned e Heu). dlia.
Qed.

(** A kernel page that is not mapped is refused only when no frame is left. *)
Lemma map_refused_full m p a :
  map_allowed m p a KERNEL_PAGE = false -> page_entry m (a / 4096) = None -> free_set p = ∅.
Proof.
  unfold map_allowed. change (Z.testbit KERNEL_PAGE 2) with false. intros Hal Hn. revert Hal. rewrite Hn.
  cbn [andb negb]. rewrite (bool_decide_true (_ = None)), andb_true_r by done.
  case_bool_decide; [done|]. by rewrite orb_true_r.
Qed.

Lemma sys_map (s : sys) a f :
  env_ok s -> is_u32 a -> managed (a / 4096) -> page s (a / 4096) = None -> spare s f ->
  is_kernel a = true ->
  exists ok s', Heap.map_page a (f * 4096) KERNEL_PAGE s = Done ok s' /\
    (if ok : bool then
      env_ok s' /\ oopses s' = oopses s /\
      (forall n, managed n ->
         page s' n = if decide (n = a / 4096) then Some (f, true) else page s n) /\
      (forall b, mapped s b -> word s' b = word s b) /\
      (forall g, spare s g -> g <> f -> spare s' g)
    else keeps s s' /\ frames_left s' <= 0) /\ forall F, ~ F f -> untouched F s s'.
Proof.
  intros Hok Hu Hn Hnone [Hf Hown] _. cbn in Hnone. apply fmap_None in Hnone.
  assert (is_u32 (f * 4096)) as Hfu by (unfold is_u32; lia).
  assert (entry_frame (f * 4096) = f * 4096) as Hef by (rewrite entry_frame_eq by done; dlia).
  assert (frame_ok (s_machine s) (s_pmm s) (a / 4096) f) as Hfo.
  { destruct Hown as (H1 & H2 & H3). split_and!; [assumption..|].
    intros k e Hk _. apply H3; [assumption|]. destruct Hk. lia. }
  pose proof (map_page_spec s a (f * 4096) KERNEL_PAGE Hok Hu Hn Hfu ltac:(by_decide)) as Hmap.
  cbv zeta in Hmap. rewrite Hef, Z.div_mul in Hmap by lia. specialize (Hmap Hfo).
  destruct (map_allowed _ _ a KERNEL_PAGE) eqn:Hal; cycle 1.
  { destruct Hmap as (m' & v & E & Hok' & Q). exists false. eexists. split; [exact E|].
    split; [|intros F _; by apply untouched_same]. split; [by apply keeps_equiv|].
    cbn. by rewrite (wf_available _ (vm_pmm _ _ Hok)), (map_refused_full _ _ _ Hal Hnone). }
  destruct Hmap as (m' & p' & E & Hok' & Hev & _ & Hpe). exists true. eexists. split; [exact E|].
  destruct (leaf_fields (f * 4096) KERNEL_PAGE Hfu ltac:(by_decide)) as (_ & Hlf & _ & Hlw & _).
  split; cycle 1.
  { intros F HF. apply (untouched_page F s m' p' _ _ _ _ Hn Hev Hpe). intros e [= <-].
    rewrite Hlf, Hef, Z.div_mul by lia. done. }
  split; [exact Hok'|]. split; [reflexivity|]. split; [|split].
  - intros n Hmn. pose proof (managed_range n Hmn). cbn [page sys_view s_machine with_pmm with_machine].
    rewrite Hpe by lia. case_decide; [|done]. cbn [fmap option_fmap option_map].
    rewrite Hlf, Hlw, Hef, Z.div_mul by lia. done.
  - intros b Hb. apply word_same; [exact Hok|exact Hb| |apply Hev].
    destruct (mapped_entry s b Hb) as (_ & _ & Hnb & eb & Heb & _).
    pose proof (managed_range _ Hnb). cbn [s_machine with_pmm with_machine].
    rewrite Hpe by lia. case_decide as Ek; [congruence|done].
  - intros g [Hg Hgo] Hgf. split; [exact Hg|]. cbn [s_machine s_pmm with_pmm with_machine].
    apply (spare_evolves s); [exact Hev| |exact Hgo]. intros k Hk. rewrite Hpe by lia.
    case_decide; [|by left]. right. exists (leaf (f * 4096) KERNEL_PAGE). left. split; [done|].
    rewrite Hlf, Hef, Z.div_mul by lia. done.
Qed.

Lemma sys_unmap (s : sys) a f w :
  env_ok s -> is_u32 a -> managed (a / 4096) -> page s (a / 4096) = Some (f, w) ->
  exists s', Heap.unmap_page a s = Done (Some (f * 4096)) s' /\ env_ok s' /\
    oopses s' = oopses s /\
    (forall n, managed n -> page s' n = if decide (n = a / 4096) then None else page s n) /\
    (forall b, mapped s b -> b / 4096 <> a / 4096 -> word s' b = word s b) /\
    spare s' f /\ (forall g, spare s g -> spare s' g) /\ forall F, untouched F s s'.
Proof.
  intros Hok Hu Hn Hf. cbn in Hf. apply fmap_Some in Hf as (e & He & Efw). injection Efw as Ef Ew.
  destruct (page_entry_u32 _ _ _ He) as [Heu _].
  destruct (entry_frame_number e Heu) as (f' & Hf' & Ef' & E2). rewrite <- E2 in Ef. subst f'.
  destruct (unmap_page_spec s a Hok Hu Hn) as (m' & E & Hok' & Hev & Hpe).
  rewrite He in E. cbn [fmap option_fmap option_map] in E. rewrite Ef' in E.
  exists (with_machine m' s). split; [exact E|]. split; [exact Hok'|]. split; [reflexivity|].
  split; [|split; [|split; [|split;
    [|intros F; by apply (untouched_page F s m' (s_pmm s) _ _ _ _ Hn Hev Hpe)]]]].
  - intros n Hmn. pose proof (managed_range n Hmn). cbn [page sys_view s_machine with_machine].
    rewrite Hpe by lia. by case_decide.
  - intros b Hb Hne. apply word_same; [exact Hok|exact Hb| |apply Hev].
    destruct (mapped_entry s b Hb) as (_ & _ & Hnb & _).
    pose proof (managed_range _ Hnb). cbn [s_machine with_machine].
    rewrite Hpe by lia. by rewrite decide_False.
  - split; [exact Hf'|]. cbn [s_machine s_pmm with_machine].
    destruct (own_frame_ok _ _ _ e Hok Hn He) as (H1 & H2 & H3). rewrite <- E2 in H1, H2, H3.
    split_and!.
    + intros [Ht|Ht]%(ev_tables _ _ _ _ Hev); contradiction.
    + assumption.
    + intros k e' Hk _. pose proof (managed_range k Hk). rewrite Hpe by lia.
      case_decide; [done|]. by apply H3.
  - intros g [Hg Hgo]. split; [exact Hg|]. cbn [s_machine s_pmm with_machine].
    apply (spare_evolves s); [exact Hev| |exact Hgo]. intros k Hk. rewrite Hpe by lia.
    case_decide; [|by left]. right. exists 0. by right.
Qed.

Lemma sys_alloc (s : sys) :
  env_ok s ->
  exists r s', Heap.alloc_frame s = Done r s' /\ quiet s s' /\
    match r with
    | None => frames_left s' <= 0
    | Some a => exists f, a = f * 4096 /\ spare s' f /\ ~ spare s f
    end /\ forall F, untouched F s s'.
Proof.
  intros Hok. cbn. unfold on_pmm.
  pose proof (alloc_frame_full _ (vm_pmm _ _ Hok)) as Hal.
  destruct (Pmm.alloc_frame (s_pmm s)) as [[a|] p1] eqn:Ea; cycle 1.
  { destruct Hal as (-> & _ & Hnone). eexists None, _. split; [reflexivity|].
    split; [|split; [cbn; by rewrite Hnone|]].
    2: { intros F. apply untouched_equiv; [done|]. by intros f _ (_ & ? & _). }
    replace (with_pmm (s_pmm s) s) with s by by destruct s. by apply quiet_refl. }
  destruct (alloc_frame_ok _ _ a p1 Hok Ea) as (f & -> & Hf & Hfree & Hset & Hok1 & Hev & Hown).
  eexists (Some _), _. split; [reflexivity|]. split; cycle 1.
  { split; cycle 1.
    { intros F. apply untouched_equiv; [done|]. intros g _ (_ & Hg & _). rewrite Hset. by intros [? _]%elem_of_difference. }
    exists f. split; [reflexivity|]. split; [by split|]. intros [_ (_ & Hx & _)]. contradiction. }
  split; [|reflexivity]. split; cbn.
  - exact Hok1.
  - reflexivity.
  - reflexivity.
  - intros g [Hg Hgo]. split; [exact Hg|].
    apply (spare_evolves s); [exact Hev|by left|exact Hgo].
  - destruct Hal as (_ & _ & _ & _ & _ & _ & -> & _). lia.
Qed.

Lemma sys_free (s : sys) f :
  env_ok s -> spare s f ->
  exists s', Heap.free_frame (f * 4096) s = Done tt s' /\ env_ok s' /\ oopses s' = oopses s /\
    (forall n, managed n -> page s' n = page s n) /\
    (forall b, mapped s b -> word s' b = word s b) /\
    (forall g, spare s g -> g <> f -> spare s' g) /\ frames_left s' <= frames_left s + 1 /\
    forall F, ~ F f -> untouched F s s'.
Proof.
  intros Hok [Hf (H1 & H2 & H3)]. eexists. split; [reflexivity|].
  cbn [env_ok page word spare oopses frames_left sys_view s_machine s_pmm s_oops with_pmm].
  assert (free_set (Pmm.free_frame (f * 4096) (s_pmm s)) = {[f]} ∪ free_set (s_pmm s)) as Hfs.
  { unfold Pmm.free_frame. by rewrite frame_of_eq, Z.div_mul, set_free_set by (rewrite ?MAX_FRAMES_val; lia). }
  assert (vm_ok (s_machine s) (Pmm.free_frame (f * 4096) (s_pmm s))) as Hok'.
  { apply vm_ok_free; [exact Hok|exact Hf|exact H1|]. intros k e Hk He.
    apply (H3 k e Hk); [destruct Hk; lia|exact He]. }
  split; [exact Hok'|split; [reflexivity|split; [reflexivity|split; [reflexivity|split; [|split]]]]].
  - intros g [Hg (G1 & G2 & G3)] Hne. split; [exact Hg|]. split_and!; [exact G1| |exact G3].
    rewrite Hfs, elem_of_union, elem_of_singleton. intros [Hx|Hx]; contradiction.
  - rewrite (wf_available _ (vm_pmm _ _ Hok')), (wf_available _ (vm_pmm _ _ Hok)), Hfs.
    rewrite size_union, size_singleton by set_solver. lia.
  - intros F HF. apply untouched_equiv; [done|]. intros g Hg (_ & G2 & _).
    rewrite Hfs, elem_of_union, elem_of_singleton. intros [->|Hx]; contradiction.
Qed.

Lemma sys_koops (s : sys) text :
  env_ok s -> exists s', Heap.koops text s = Done tt s' /\ complained s s' /\ forall F, untouched F s s'.
Proof.
  intros Hok. destruct (koops_spec text s) as (v & E). eexists. split; [exact E|].
  split; [|intros F; by apply untouched_same]. split; [|reflexivity]. by apply keeps_equiv.
Qed.

Lemma sys_page (s : sys) n f w : env_ok s -> managed n -> page s n = Some (f, w) -> ~ spare s f.
Proof.
  intros Hok Hn Hf [_ (_ & _ & Hown)]. cbn in Hf. apply fmap_Some in Hf as (e & He & Ef).
  injection Ef as Ef _. apply (Hown n e Hn); [destruct Hn; lia|exact He|by symmetry].
Qed.

Lemma sys_word (s : sys) a : is_u32 (word s a).
Proof. cbn. destruct (phys _ _); [apply pread32_range|by_decide]. Qed.

#[global] Instance sys_laws : EnvLaws sys.
Proof.
  split.
  - exact sys_word.
  - intros s a H1 H2. destruct (sys_load s a H1 H2) as (s' & ? & ? & _). by exists s'.
  - intros s a v H1 H2 H3. destruct (sys_store s a v H1 H2 H3) as (s' & ? & ? & ? & ? & ? & ? & ? & _).
    by exists s'.
  - intros s a f H1 H2 H3 H4 H5 H6. destruct (sys_map s a f H1 H2 H3 H4 H5 H6) as (ok & s' & ? & ? & _).
    by exists ok, s'.
  - intros s a f w H1 H2 H3 H4. destruct (sys_unmap s a f w H1 H2 H3 H4) as (s' & ? & ? & ? & ? & ? & ? & ? & _).
    by exists s'.
  - intros s H1. destruct (sys_alloc s H1) as (r & s' & ? & ? & ? & _). by exists r, s'.
  - exact sys_page.
  - intros s f H1 H2. destruct (sys_free s f H1 H2) as (s' & ? & ? & ? & ? & ? & ? & ? & _). by exists s'.
  - intros s text H1. destruct (sys_koops s text H1) as (s' & ? & ? & _). by exists s'.
Qed.

(** ** What a whole call leaves untouched

    The same laws hold when the invariant also says that the state is [s0]
    up to what the interface may change, and the frames of [F] that were not
    in use are nobody's.  A theorem about the heap used with this view says so
    of a whole call. *)

Section From.
Context (F : Z -> Prop) (s0 : sys).

Definition guards (f : Z) : Prop := F f /\ frame_ok (s_machine s0) (s_pmm s0) 0 f.

Definition view_from : View sys := {|
  env_ok := fun s => vm_ok (s_machine s) (s_pmm s) /\ untouched guards s0 s;
  page := page;
  word := word;
  spare := fun s f => spare s f /\ ~ guards f;
  frames_left := frames_left;
  oopses := oopses;
|}.

Lemma keeps_from s s' : keeps s s' -> untouched guards s0 s' -> @keeps sys view_from s s'.
Proof. intros [H1 H2 H3 H4 H5] Hu. split; [by split|done|done| |done]. intros f [Hf Hg]. split; [by apply H4|done]. Qed.

(** A guarded frame is still nobody's. *)
Lemma guarded_free s f : untouched guards s0 s -> guards f -> frame_ok (s_machine s) (s_pmm s) 0 f.
Proof. intros Hu Hg. apply (un_frame _ _ _ Hu); [exact Hg|apply Hg]. Qed.

Lemma laws_from : @EnvLaws sys sys_env view_from.
Proof.
  split.
  - exact sys_word.
  - intros s a [H1 U] H2. destruct (sys_load s a H1 H2) as (s' & E & [K Ho] & U').
    exists s'. split; [exact E|]. split; [|exact Ho]. apply keeps_from; [exact K|by eapply untouched_trans].
  - intros s a v [H1 U] H2 H3. destruct (sys_store s a v H1 H2 H3) as (s' & E & A1 & A2 & A3 & A4 & A5 & A6 & U').
    exists s'. split; [exact E|]. split; [split; [exact A1|by eapply untouched_trans]|].
    split; [exact A2|]. split; [exact A3|]. split; [exact A4|]. split; [|exact A6].
    intros f [Hf Hg]. split; [by apply A5|exact Hg].
  - intros s a f [H1 U] H2 H3 H4 [H5 Hf] H6.
    destruct (sys_map s a f H1 H2 H3 H4 H5 H6) as (ok & s' & E & K & U').
    exists ok, s'. split; [exact E|]. pose proof (untouched_trans _ _ _ _ U (U' _ Hf)). destruct ok.
    + destruct K as (K1 & K2 & K3 & K4 & K5). split; [by split|]. split; [exact K2|]. split; [exact K3|].
      split; [exact K4|]. intros g [Hg1 Hg2] Hne. split; [by apply K5|exact Hg2].
    + destruct K as [K1 K2]. split; [by apply keeps_from|exact K2].
  - intros s a f w [H1 U] H2 H3 H4.
    destruct (sys_unmap s a f w H1 H2 H3 H4) as (s' & E & A1 & A2 & A3 & A4 & A5 & A6 & U').
    exists s'. split; [exact E|]. split; [split; [exact A1|by eapply untouched_trans]|].
    split; [exact A2|]. split; [exact A3|]. split; [exact A4|]. split; [split; [exact A5|]|].
    + intros Hg. apply (sys_page s _ f w H1 H3 H4). split; [apply A5|by apply guarded_free].
    + intros g [Hg1 Hg2]. split; [by apply A6|exact Hg2].
  - intros s [H1 U]. destruct (sys_alloc s H1) as (r & s' & E & [K Ho] & Hr & U').
    exists r, s'. split; [exact E|]. split; [split; [|exact Ho]; apply keeps_from; [exact K|by eapply untouched_trans]|].
    destruct r as [a|]; [|exact Hr]. destruct Hr as (f & -> & Hf & Hn). exists f. split; [done|].
    split; [split; [exact Hf|]|by intros [? _]]. intros Hg. apply Hn. split; [apply Hf|by apply guarded_free].
  - intros s n f w [H1 _] H2 H3 [H4 _]. by apply (sys_page s n f w).
  - intros s f [H1 U] [H2 Hf]. destruct (sys_free s f H1 H2) as (s' & E & A1 & A2 & A3 & A4 & A5 & A6 & U').
    exists s'. split; [exact E|]. split; [split; [exact A1|by eapply untouched_trans; [|apply U']]|].
    split; [exact A2|]. split; [exact A3|]. split; [exact A4|]. split; [|exact A6].
    intros g [Hg1 Hg2] Hne. split; [by apply A5|exact Hg2].
  - intros s text [H1 U]. destruct (sys_koops s text H1) as (s' & E & [K Ho] & U').
    exists s'. split; [exact E|]. split; [|exact Ho]. apply keeps_from; [exact K|by eapply untouched_trans].
Qed.

End From.
