(* ===== verification/Kmalloc.v ===== *)
(** * The two heaps of the kernel: kmalloc and vmalloc

    The statics of heap.rs and mem.rs, the wrappers around them, and the
    theorems about the allocator: on one heap, and on both heaps sharing one
    machine. *)

From S2P Require Import Prelude.
From S2P Require Import Mem.
From S2P Require Import Machine.
From S2P Require Import Multiboot.
From S2P Require Import Pmm.
From S2P Require Import Fmt.
From S2P Require Import Paging.
From S2P Require Import PagingSpec.
From S2P Require Import PagingOps.
From S2P Require Import AddressSpace.
From S2P Require Import Heap.
From S2P Require Import HeapSpec.
From S2P Require Import HeapOps.
From S2P Require Import HeapCalls.
From S2P Require Import HeapEnv.

(** ** The statics *)

(** heap.rs 320-326: KERNEL_HEAP *)
Definition KERNEL_HEAP : Heap := new "kmalloc" KHEAP_BASE KHEAP_LIMIT Contiguous KERNEL_PAGE.

(** heap.rs 328-334: VIRTUAL_HEAP *)
Definition VIRTUAL_HEAP : Heap := new "vmalloc" VMALLOC_BASE VMALLOC_LIMIT Scattered KERNEL_PAGE.

(** The kernel's own state: machine, allocator and screen, the two heaps,
    and the statics RAM and WINDOW of mem.rs. *)
(** mem.rs 179-180: RAM, WINDOW *)
Record kernel : Type := mkKernel {
  k_sys : sys;
  k_heap : Heap;
  v_heap : Heap;
  k_ram : Ram;
  k_window : Z * Z;
}.

Definition with_sys (s : sys) (k : kernel) : kernel :=
  mkKernel s (k_heap k) (v_heap k) (k_ram k) (k_window k).

(** Code that does not touch the heaps. *)
Definition on_sys {A} (c : M sys A) : M kernel A := fun k =>
  match c (k_sys k) with
  | Done a s => Done a (with_sys s k)
  | Fault addr error s => Fault addr error (with_sys s k)
  | Halted s => Halted (with_sys s k)
  | OutOfFuel => OutOfFuel
  end.

(** heap.rs 336-338: kernel_heap *)
Definition kernel_heap {A} (c : M (Heap * sys) A) : M kernel A := fun k =>
  let back '(h, s) := mkKernel s h (v_heap k) (k_ram k) (k_window k) in
  match c (k_heap k, k_sys k) with
  | Done a x => Done a (back x)
  | Fault addr error x => Fault addr error (back x)
  | Halted x => Halted (back x)
  | OutOfFuel => OutOfFuel
  end.

(** heap.rs 340-342: virtual_heap *)
Definition virtual_heap {A} (c : M (Heap * sys) A) : M kernel A := fun k =>
  let back '(h, s) := mkKernel s (k_heap k) h (k_ram k) (k_window k) in
  match c (v_heap k, k_sys k) with
  | Done a x => Done a (back x)
  | Fault addr error x => Fault addr error (back x)
  | Halted x => Halted (back x)
  | OutOfFuel => OutOfFuel
  end.

(** heap.rs 344-346: init *)
Definition init (window : Z * Z) : M kernel unit :=
  kernel_heap (modify (fun '(h, s) => (attach window h, s))).

(** heap.rs 348-350: kmalloc *)
Definition kmalloc (size : Z) : M kernel Z := kernel_heap (alloc size).
(** heap.rs 352-354: kfree *)
Definition kfree (pointer : Z) : M kernel unit := kernel_heap (free pointer).
(** heap.rs 356-358: ksize *)
Definition ksize (pointer : Z) : M kernel Z := kernel_heap (Heap.size pointer).
(** heap.rs 360-362: kbrk *)
Definition kbrk (delta : Z) : M kernel Z := kernel_heap (brk delta).
(** heap.rs 364-366: vmalloc *)
Definition vmalloc (size : Z) : M kernel Z := virtual_heap (alloc size).
(** heap.rs 368-370: vfree *)
Definition vfree (pointer : Z) : M kernel unit := virtual_heap (free pointer).
(** heap.rs 372-374: vsize *)
Definition vsize (pointer : Z) : M kernel Z := virtual_heap (Heap.size pointer).
(** heap.rs 376-378: vbrk *)
Definition vbrk (delta : Z) : M kernel Z := virtual_heap (brk delta).
(** heap.rs 380-382: kernel_stats *)
Definition kernel_stats : M kernel Stats := kernel_heap stats.
(** heap.rs 384-386: virtual_stats *)
Definition virtual_stats : M kernel Stats := virtual_heap stats.

(** ** brk on one heap *)

Section Brk.
Context {E : Type} {EnvE : Env E} {V : View E} {Laws : EnvLaws E}.

(** A payload contains no free byte and no header. *)
Lemma live_not_free a bs p sz x :
  Forall block_ok bs -> (p, sz) ∈ live a bs -> p <= x < p + sz -> ~ free_area a bs x.
Proof.
  intros Hok. revert a. induction Hok as [|[s u] bs [Hb _] Hok IH]; intros a; cbn [live free_area].
  { intros H. inversion H. }
  cbn in Hb. rewrite elem_of_app. intros [H|H] Hx.
  - destruct u; [|by inversion H]. apply list_elem_of_singleton in H. simplify_eq.
    intros [[? _]|Hf]; [done|]. apply free_area_range in Hf; [|done]. lia.
  - pose proof (live_range _ _ _ _ Hok H). unfold HEADER in *.
    intros [[_ Hf]|Hf]; [lia|]. by apply (IH (a + 8 + s)) in Hf.
Qed.

Lemma live_not_header a pre s u post p sz x :
  Forall block_ok (pre ++ (s, u) :: post) -> (p, sz) ∈ live a (pre ++ (s, u) :: post) ->
  p <= x < p + sz -> ~ (a + span pre <= x < a + span pre + HEADER).
Proof.
  intros Hok Hin Hx Hh. apply Forall_app in Hok as [Hpre Hok].
  apply Forall_cons_iff in Hok as [[Hb _] Hpost]. cbn in Hb.
  rewrite live_app, elem_of_app in Hin. cbn [live] in Hin. rewrite elem_of_app in Hin.
  unfold HEADER in *. destruct Hin as [H|[H|H]].
  - apply live_range in H; [|done]. lia.
  - destruct u; [|by inversion H]. apply list_elem_of_singleton in H. simplify_eq. lia.
  - apply live_range in H; [|done]. unfold HEADER in H. lia.
Qed.

(** The words of every live block are as they were. *)
Definition data_kept (h : Heap) (bs : list block) (e e' : E) : Prop :=
  forall p sz x, (p, sz) ∈ live (h_base h) bs -> p <= x < p + sz -> x mod 4 = 0 ->
    word e' x = word e x.

Lemma live_mapped h e bs p sz x :
  heap_ok h e bs -> (p, sz) ∈ live (h_base h) bs -> p <= x < p + sz -> x mod 4 = 0 -> mapped e x.
Proof.
  intros Hh Hin Hx Hm. pose proof (heap_ok_ext _ _ _ Hh) as Hok.
  apply live_range in Hin; [|done]. unfold HEADER in Hin.
  rewrite <- (tiles_span _ _ _ _ (ho_tiles _ _ _ Hh)) in Hin.
  apply (heap_mapped h); [apply Hh|apply Hh|lia|done].
Qed.

Lemma kept_but_data h e bs e' :
  heap_ok h e bs -> kept_but (free_area (h_base h) bs) e e' -> data_kept h bs e e'.
Proof.
  intros Hh Hk p sz x Hin Hx Hm. pose proof (heap_ok_ext _ _ _ Hh) as Hok.
  apply Hk; [by apply (live_mapped h e bs p sz)|]. by apply (live_not_free _ bs p sz).
Qed.

(** What a call of [brk] does to the blocks, and when it fails: the break
    grows by what could be mapped, which is all unless the heap is exhausted,
    and can be lowered to a free end only. *)
Record brk_blocks (delta : Z) (h : Heap) (e : E) (bs : list block) (h' : Heap) (e' : E) (bs' : list block) (r : Z) : Prop := {
  bb_same : delta = 0 -> r = h_brk h /\ h' = h /\ bs' = bs;
  bb_short : 0 < delta -> r = 0 \/ h_brk h' < h_brk h + (delta + 4095) / 4096 * 4096 -> exhausted h' e';
  bb_still : delta = 0 \/ (delta < 0 /\ r = 0) -> h' = h /\ frames_left e' <= frames_left e;
  bb_grown : 0 < delta -> r <> 0 -> bs' = extend bs (h_brk h' - h_brk h) /\
    h_brk h < h_brk h' <= h_brk h + (delta + 4095) / 4096 * 4096;
  bb_stuck : delta < 0 -> r = 0 -> ~ trimmable (h_base h) bs
    (h_brk h - Z.min ((- delta + 4095) / 4096 * 4096) (h_brk h - h_base h));
}.

(** What a call of [brk] with an [i32] does. *)
Lemma brk_spec (h : Heap) (e : E) bs delta :
  heap_ok h e bs -> -2147483648 <= delta < 2147483648 ->
  exists r h' e' bs', brk delta (h, e) = Done r (h', e') /\ heap_ok h' e' bs' /\
    live (h_base h) bs' = live (h_base h) bs /\ stays h e e' /\ data_kept h bs e e' /\
    (exists b, h' = with_brk b h) /\ (r = 0 \/ r = h_brk h) /\
    (r = 0 -> h_brk h' = h_brk h) /\
    (r <> 0 -> 0 < delta -> h_brk h < h_brk h') /\
    (r <> 0 -> delta < 0 ->
       h_brk h' = h_brk h - Z.min ((- delta + 4095) / 4096 * 4096) (h_brk h - h_base h)) /\
    brk_blocks delta h e bs h' e' bs' r.
Proof.
  intros Hh Hd. pose proof (g_range _ (ho_geometry _ _ _ Hh)) as Hr.
  pose proof (g_brk _ (ho_geometry _ _ _ Hh)) as Hb. unfold brk.
  rewrite (bind_Done self _ (h, e) h (h, e)) by done.
  destruct (Z.eqb_spec delta 0) as [->|Hne].
  { exists (h_brk h), h, e, bs. split_and!; try done; try lia; try (exists (h_brk h); by rewrite with_brk_id). }
  unfold PAGE_SIZE. rewrite (wrap32_small (Z.abs delta + 4096)), (wrap32_small (Z.abs delta + 4096 - 1))
    by (unfold is_u32; lia).
  replace (Z.abs delta + 4096 - 1) with (Z.abs delta + 4095) by lia.
  destruct (Z.gtb_spec delta 0).
  - destruct (grow_spec h e bs ((Z.abs delta + 4095) / 4096) Hh) as
      (k & e' & E' & Hk & Hh' & Hkept & Hst & Hx); [dlia|].
    rewrite (bind_Done _ _ _ _ _ E').
    exists (if negb (k =? 0) then h_brk h else 0), (with_brk (h_brk h + k) h), e', (if k =? 0 then bs else extend bs k).
    split; [by destruct (k =? 0)|]. split_and!; try done; try (by eexists).
    + destruct (k =? 0); [done|apply live_extend].
    + by apply kept_but_data.
    + destruct (k =? 0); [by left|by right].
    + destruct (Z.eqb_spec k 0); cbn; lia.
    + destruct (Z.eqb_spec k 0); cbn; lia.
    + lia.
    + rewrite Z.abs_eq in Hk, Hx by lia. split; [lia| |lia| |lia].
      * intros _ Hs. apply Hx. cbn [with_brk h_brk] in Hs. destruct (Z.eqb_spec k 0); cbn [negb] in Hs; dlia.
      * intros _ Hr0. cbn [with_brk h_brk]. destruct (Z.eqb_spec k 0); [done|].
        replace (h_brk h + k - h_brk h) with k by lia. split; [done|lia].
  - destruct (shrink_spec h e bs ((Z.abs delta + 4095) / 4096) Hh) as
      (ok & h' & e' & bs' & E' & Hh' & Hl & Hst & Hok); [dlia|].
    rewrite (bind_Done _ _ _ _ _ E').
    replace (Z.abs delta) with (- delta) in * by lia.
    exists (if ok then h_brk h else 0), h', e', bs'.
    split; [by destruct ok|]. destruct ok.
    + destruct Hok as [-> Hw]. split_and!; try done; try lia; try (by eexists); try (split; (lia || intros [?|[? ?]]; lia)).
      intros p sz x Hin Hx Hm. apply Hw.
      * by apply (live_mapped h e bs p sz).
      * apply (live_not_free _ bs p sz); [by eapply heap_ok_ext|done|done].
      * pose proof (tiles_span _ _ _ _ (ho_tiles _ _ _ Hh')) as Hz. cbn [with_brk h_base h_brk] in Hz.
        rewrite <- Hl in Hin. apply live_range in Hin; [|by eapply heap_ok_ext]. lia.
    + destruct Hok as (-> & -> & Hc & Hno). split_and!; try done; try lia.
      * apply kept_but_data; [done|apply kept_but_kept, kept_keeps, Hc].
      * exists (h_brk h). by rewrite with_brk_id.
      * split; [lia|lia| |lia|done]. intros _. split; [done|apply (kp_left _ _ (proj1 Hc))].
Qed.

(** Another heap's memory is not touched. *)
Lemma heap_ok_other (h h' : Heap) (e e' : E) bs :
  heap_ok h e bs -> stays h' e e' -> env_ok e' ->
  h_limit h <= h_base h' \/ h_limit h' <= h_base h ->
  h_base h' mod 4096 = 0 -> h_limit h' mod 4096 = 0 ->
  (h_backing h = Contiguous -> h_backing h' = Scattered) -> heap_ok h e' bs.
Proof.
  intros [H1 H2 H3 H4] Hst Hok Hdis Hb Hl Hback.
  pose proof (g_align _ H2) as (A1 & A2 & A3). pose proof (g_brk _ H2) as A4.
  assert (forall n, h_base h / 4096 <= n < h_limit h / 4096 -> page e' n = page e n) as Hp.
  { intros n Hn. apply (sy_page _ _ _ Hst); [by apply (heap_managed h)|dlia]. }
  split; [done|done| |].
  - destruct H3 as [P1 P2 P3 P4]. split.
    + intros n Hn. rewrite Hp by dlia. by apply P1.
    + intros n Hn. rewrite Hp by dlia. by apply P2.
    + intros Hc n Hn. rewrite Hp by dlia. by apply P3.
    + intros Hc f Hf. by apply (sy_spare _ _ _ Hst (Hback Hc)), P4.
  - revert H4. apply tiles_ext. intros x Hx Hxm.
    assert (forall y, h_base h <= y < h_brk h -> y mod 4 = 0 -> word e' y = word e y) as Hy.
    { intros y Hy Hym. apply (sy_word _ _ _ Hst); [by apply (heap_mapped h)|dlia]. }
    split; apply Hy; dlia.
Qed.

Lemma free_stays (h : Heap) (e e' : E) bs p :
  heap_ok h e bs -> free p (h, e) = Done tt (h, e') -> stays h e e'.
Proof.
  intros Hh E'. destruct (Z.eq_dec p 0) as [->|Hp].
  { injection E' as <-. apply stays_keeps, keeps_refl, Hh. }
  destruct (free_spec h e bs p Hh Hp) as (e1 & E1 & H). rewrite E' in E1. injection E1 as <-.
  destruct H as [(pre & sz & post & -> & -> & Hh' & W)|(_ & K & _)]; [|apply stays_keeps, K].
  apply (stays_writes _ _ _ _ W). intros x Hx.
  pose proof (g_align _ (ho_geometry _ _ _ Hh)). pose proof (g_brk _ (ho_geometry _ _ _ Hh)).
  pose proof (ho_tiles _ _ _ Hh) as Ht. pose proof (tiles_span _ _ _ _ Ht) as Hz.
  pose proof (tiles_ok _ _ _ _ Ht) as Hok. apply Forall_app in Hok as [Hpre Hok].
  apply Forall_cons_iff in Hok as [[Hb _] Hpost]. cbn in Hb.
  destruct (span_nonneg _ Hpre), (span_nonneg _ Hpost).
  rewrite span_app in Hz. cbn [span] in Hz. unfold HEADER in *. dlia.
Qed.


(** ** One call on one heap *)

Inductive call : Type := Malloc (want : Z) | Free (pointer : Z) | Brk (delta : Z).

(** Arguments are a [u32], any pointer, an [i32]. *)
Definition call_ok (c : call) : Prop :=
  match c with
  | Malloc want => is_u32 want
  | Free _ => True
  | Brk delta => -2147483648 <= delta < 2147483648
  end.

Definition run_call (c : call) : M (Heap * E) Z :=
  match c with
  | Malloc want => alloc want
  | Free pointer => free pointer ;; ret 0
  | Brk delta => brk delta
  end.

(** Live blocks other than the one freed stay live, with their contents. *)
Definition survive (c : call) (h : Heap) (bs bs' : list block) (e e' : E) : Prop :=
  forall p sz, (p, sz) ∈ live (h_base h) bs -> c <> Free p ->
    (p, sz) ∈ live (h_base h) bs' /\
    forall x, p <= x < p + sz -> x mod 4 = 0 -> word e' x = word e x.

(** What a call returned, and what it did to the live blocks. *)
Definition effect (c : call) (h : Heap) (e : E) (bs : list block) (h' : Heap) (e' : E) (bs' : list block) (r : Z) : Prop :=
  match c with
  | Malloc want =>
      (r = 0 -> live (h_base h) bs' = live (h_base h) bs /\
         (0 < want <= h_limit h - h_base h - HEADER -> exhausted h' e')) /\
      (r <> 0 -> exists sz, want <= sz /\ r mod 8 = 0 /\ 0 < r /\
         Permutation (live (h_base h) bs') ((r, sz) :: live (h_base h) bs))
  | Free p => r = 0 /\
      ((exists sz, Permutation (live (h_base h) bs) ((p, sz) :: live (h_base h) bs')) \/
       ((forall sz, (p, sz) ∉ live (h_base h) bs) /\ live (h_base h) bs' = live (h_base h) bs))
  | Brk delta => live (h_base h) bs' = live (h_base h) bs /\ brk_blocks delta h e bs h' e' bs' r
  end.

Lemma run_free_spec h e bs p :
  heap_ok h e bs ->
  exists e' bs', free p (h, e) = Done tt (h, e') /\ heap_ok h e' bs' /\ survive (Free p) h bs bs' e e' /\
    effect (Free p) h e bs h e' bs' 0.
Proof.
  intros Hh. pose proof (heap_ok_ext _ _ _ Hh) as Hok. destruct (Z.eq_dec p 0) as [->|Hp].
  { exists e, bs. split; [done|]. split; [done|]. split; [by intros q sz Hin _|]. split; [done|]. right. split; [|done].
    intros sz Hin. apply live_range in Hin; [|done]. pose proof (g_range _ (ho_geometry _ _ _ Hh)).
    unfold HEADER in Hin. lia. }
  destruct (free_spec h e bs p Hh Hp) as (e' & E' & H). exists e'.
  destruct H as [(pre & s & post & -> & -> & Hh' & W)|(H & K & Hh')].
  - exists (pre ++ (s, false) :: post). split; [done|]. split; [done|]. split; cycle 1.
    { split; [done|]. left. exists s. rewrite !live_app. cbn [live app]. by rewrite Permutation_middle. }
    intros q sz Hin Hne. split.
    + rewrite live_app, elem_of_app in Hin |- *. cbn [live app] in Hin |- *.
      rewrite elem_of_cons in Hin. destruct Hin as [|[Hin|]]; [by left| |by right].
      simplify_eq.
    + intros x Hx Hm. apply (wr_word _ _ _ W); [exact (live_mapped h e _ q sz x Hh Hin Hx Hm)|].
      intros Hw. apply (live_not_header _ pre s true post q sz x (heap_ok_ext _ _ _ Hh) Hin Hx).
      unfold HEADER in *. lia.
  - exists bs. split; [done|]. split; [done|]. split; cycle 1.
    { split; [done|]. by right. }
    intros q sz Hin _. split; [done|].
    intros x Hx Hm. apply (kp_word _ _ (proj1 K)). by apply (live_mapped h e bs q sz).
Qed.

Lemma run_call_spec h e bs c :
  heap_ok h e bs -> call_ok c ->
  exists r b e' bs', run_call c (h, e) = Done r (with_brk b h, e') /\ heap_ok (with_brk b h) e' bs' /\
    stays h e e' /\ survive c h bs bs' e e' /\ effect c h e bs (with_brk b h) e' bs' r.
Proof.
  intros Hh Hc. pose proof (g_range _ (ho_geometry _ _ _ Hh)) as Hr. destruct c as [want|p|delta]; cbn [run_call].
  - destruct (alloc_spec h e bs want Hh Hc) as (r & h' & e' & bs' & E' & Ha).
    destruct (al_grew _ _ _ _ _ _ _ _ Ha) as (k & _ & -> & Hnull).
    exists r, (h_brk h + k), e', bs'. split; [done|]. split; [apply Ha|]. split; [apply Ha|].
    split; cycle 1.
    { split; [intros Hr0; split; [exact (al_null _ _ _ _ _ _ _ _ Ha Hr0)|intros Hw; by apply Hnull]|]. intros Hr0.
      destruct (al_given _ _ _ _ _ _ _ _ Ha Hr0) as (s & Hs & H8 & Hlo & _ & Hperm).
      exists s. split; [lia|]. split; [exact H8|]. split; [lia|exact Hperm]. }
    intros p sz Hin _. split.
    + destruct (Z.eq_dec r 0) as [Hr0|Hr0]; [by rewrite (al_null _ _ _ _ _ _ _ _ Ha Hr0)|].
      destruct (al_given _ _ _ _ _ _ _ _ Ha Hr0) as (s & _ & _ & _ & _ & Hperm).
      rewrite Hperm. by right.
    + intros x Hx Hm. by apply (kept_but_data h e bs e' Hh (al_kept _ _ _ _ _ _ _ _ Ha) p sz).
  - destruct (run_free_spec h e bs p Hh) as (e' & bs' & E' & Hh' & Hs & He).
    exists 0, (h_brk h), e', bs'. rewrite with_brk_id. rewrite (bind_Done _ _ _ _ _ E').
    split; [done|]. split; [done|]. split; [by apply (free_stays h e e' bs p)|]. by split.
  - destruct (brk_spec h e bs delta Hh Hc) as (r & h' & e' & bs' & E' & Hh' & Hl & Hst & Hd & (b & ->) & _ & _ & _ & _ & Hbb).
    exists r, b, e', bs'. split; [done|]. split; [done|]. split; [done|]. split; [|by split].
    intros p sz Hin _. rewrite Hl. split; [done|]. intros x Hx Hm. by apply (Hd p sz).
Qed.

End Brk.

(** ** Both heaps on one machine *)

Record heaps_ok (k : kernel) (kb vb : list block) : Prop := {
  hp_k : heap_ok (k_heap k) (k_sys k) kb;
  hp_v : heap_ok (v_heap k) (k_sys k) vb;
  hp_kshape : h_base (k_heap k) = KHEAP_BASE /\ h_limit (k_heap k) = KHEAP_LIMIT /\
    h_backing (k_heap k) = Contiguous;
  hp_vshape : h_base (v_heap k) = VMALLOC_BASE /\ h_limit (v_heap k) = VMALLOC_LIMIT /\
    h_backing (v_heap k) = Scattered;
}.

(** The call [c] made to the kernel heap or to the virtual heap. *)
Definition kernel_call (virtual : bool) (c : call) : M kernel Z :=
  match virtual, c with
  | false, Malloc want => kmalloc want
  | false, Free pointer => kfree pointer ;; ret 0
  | false, Brk delta => kbrk delta
  | true, Malloc want => vmalloc want
  | true, Free pointer => vfree pointer ;; ret 0
  | true, Brk delta => vbrk delta
  end.

Lemma kernel_call_k c k :
  kernel_call false c k = kernel_heap (run_call c) k.
Proof.
  destruct c; try done. cbn. unfold kfree, kernel_heap, bind, ret.
  destruct (free pointer (k_heap k, k_sys k)) as [[] [h s]|? ? [h s]|[h s]|]; done.
Qed.

Lemma kernel_call_v c k :
  kernel_call true c k = virtual_heap (run_call c) k.
Proof.
  destruct c; try done. cbn. unfold vfree, virtual_heap, bind, ret.
  destruct (free pointer (v_heap k, k_sys k)) as [[] [h s]|? ? [h s]|[h s]|]; done.
Qed.

(** Live words of a heap whose range the other heap's call stays out of. *)
Lemma stays_survive (h h' : Heap) (s s' : sys) bs :
  heap_ok h s bs -> stays h' s s' -> h_limit h <= h_base h' \/ h_limit h' <= h_base h ->
  h_base h' mod 4096 = 0 -> h_limit h' mod 4096 = 0 -> data_kept h bs s s'.
Proof.
  intros Hh Hst Hdis Hb Hl p sz x Hin Hx Hm. apply (sy_word _ _ _ Hst).
  - by apply (live_mapped h s bs p sz).
  - pose proof (heap_ok_ext _ _ _ Hh) as Hok. apply live_range in Hin; [|done]. unfold HEADER in Hin.
    rewrite <- (tiles_span _ _ _ _ (ho_tiles _ _ _ Hh)) in Hin.
    pose proof (g_align _ (ho_geometry _ _ _ Hh)). pose proof (g_brk _ (ho_geometry _ _ _ Hh)). dlia.
Qed.

(** The frames that are not of the physical window of a heap. *)
Definition outside (h : Heap) (f : Z) : Prop :=
  h_backing h = Contiguous -> ~ (h_phys_base h / 4096 <= f < h_phys_end h / 4096).

(** The heap, seen with the invariant of [view_from]. *)
Lemma heap_from h (s : sys) bs : heap_ok h s bs -> @heap_ok sys (view_from (outside h) s) h s bs.
Proof.
  intros [H1 H2 [P1 P2 P3 P4] H4]. split; [split; [exact H1|apply untouched_refl]|exact H2| |exact H4].
  split; [exact P1|exact P2|exact P3|]. intros Hc f Hf. split; [by apply P4|].
  intros [Ho _]. apply (Ho Hc). pose proof (g_align _ H2). pose proof (g_brk _ H2).
  dlia.
Qed.

(** Inside a call, the guarded frames are those it found. *)
Lemma untouched_guards (F : Z -> Prop) s s' : untouched (guards F s) s s' -> untouched F s s'.
Proof. apply untouched_weaken. by split. Qed.

Lemma run_call_untouched c h (s : sys) bs r h' s' :
  heap_ok h s bs -> call_ok c -> run_call c (h, s) = Done r (h', s') -> untouched (outside h) s s'.
Proof.
  intros Hh Hc E.
  destruct (@run_call_spec sys sys_env (view_from (outside h) s) (laws_from (outside h) s) h s bs c (heap_from h s bs Hh) Hc)
    as (r' & b & e' & bs' & E' & Hh' & _).
  rewrite E in E'. injection E' as -> -> ->.
  apply untouched_guards, (proj2 (@ho_env _ (view_from (outside h) s) _ _ _ Hh')).
Qed.

(** A call returns, keeps both heaps well formed, keeps every other live
    block of either heap with its contents, and leaves the windows, the
    registers and the physical window of the kernel heap alone. *)
Lemma kernel_call_full k kb vb virtual c :
  heaps_ok k kb vb -> call_ok c ->
  exists r k' kb' vb', kernel_call virtual c k = Done r k' /\ heaps_ok k' kb' vb' /\
    (if virtual then survive c (v_heap k) vb vb' (k_sys k) (k_sys k') /\ kb' = kb /\
                     data_kept (k_heap k) kb (k_sys k) (k_sys k')
     else survive c (k_heap k) kb kb' (k_sys k) (k_sys k') /\ vb' = vb /\
          data_kept (v_heap k) vb (k_sys k) (k_sys k')) /\
    (if virtual then effect c (v_heap k) (k_sys k) vb (v_heap k') (k_sys k') vb' r
     else effect c (k_heap k) (k_sys k) kb (k_heap k') (k_sys k') kb' r) /\
    untouched (outside (k_heap k)) (k_sys k) (k_sys k') /\ (exists b, k_heap k' = with_brk b (k_heap k)).
Proof.
  intros [Hk Hv (K1 & K2 & K3) (V1 & V2 & V3)] Hc. destruct virtual.
  - rewrite kernel_call_v. destruct (run_call_spec _ _ _ _ Hv Hc) as (r & b & s' & bs' & E & Hh & Hst & Hs & Ho).
    pose proof (run_call_untouched _ _ _ _ _ _ _ Hv Hc E) as Hun.
    unfold virtual_heap. rewrite E. eexists r, _, kb, bs'. split; [reflexivity|].
    pose proof (g_align _ (ho_geometry _ _ _ Hv)) as (A1 & A2 & _).
    assert (h_limit (k_heap k) <= h_base (v_heap k) \/ h_limit (v_heap k) <= h_base (k_heap k)) as Hdis
      by (left; rewrite K2, V1; by_decide).
    split; [|split; [split; [done|split; [done|by apply (stays_survive _ (v_heap k))]]|split; [done|]]].
    2: { split; [|exists (h_brk (k_heap k)); by rewrite with_brk_id].
      revert Hun. apply untouched_weaken. intros f _ _ Hx. congruence. }
    split; cbn [k_heap v_heap k_sys]; [|done|done|done].
    apply (heap_ok_other _ (v_heap k) (k_sys k)); [done|done|apply Hh|done..].
  - rewrite kernel_call_k. destruct (run_call_spec _ _ _ _ Hk Hc) as (r & b & s' & bs' & E & Hh & Hst & Hs & Ho).
    pose proof (run_call_untouched _ _ _ _ _ _ _ Hk Hc E) as Hun.
    unfold kernel_heap. rewrite E. eexists r, _, bs', vb. split; [reflexivity|].
    pose proof (g_align _ (ho_geometry _ _ _ Hk)) as (A1 & A2 & _).
    assert (h_limit (v_heap k) <= h_base (k_heap k) \/ h_limit (k_heap k) <= h_base (v_heap k)) as Hdis
      by (right; rewrite K2, V1; by_decide).
    split; [|split; [split; [done|split; [done|by apply (stays_survive _ (k_heap k))]]|split; [done|]]].
    2: { split; [exact Hun|]. by exists b. }
    split; cbn [k_heap v_heap k_sys]; [done| |done|done].
    apply (heap_ok_other _ (k_heap k) (k_sys k)); [done|done|apply Hh|done..|congruence].
Qed.

Lemma kernel_call_spec k kb vb virtual c :
  heaps_ok k kb vb -> call_ok c ->
  exists r k' kb' vb', kernel_call virtual c k = Done r k' /\ heaps_ok k' kb' vb' /\
    (if virtual then survive c (v_heap k) vb vb' (k_sys k) (k_sys k') /\ kb' = kb /\
                     data_kept (k_heap k) kb (k_sys k) (k_sys k')
     else survive c (k_heap k) kb kb' (k_sys k) (k_sys k') /\ vb' = vb /\
          data_kept (v_heap k) vb (k_sys k) (k_sys k')).
Proof.
  intros Hk Hc. destruct (kernel_call_full k kb vb virtual c Hk Hc) as (r & k' & kb' & vb' & E & H1 & H2 & _).
  by exists r, k', kb', vb'.
Qed.
