(* ===== verification/Allocator.v ===== *)
(** * Theorems about the allocator

    What the heaps promise their callers, on any environment that satisfies
    the laws ([HeapEnv.v] shows this kernel's does), and on the two heaps of
    the kernel together. *)

From S2P Require Import Prelude.
From S2P Require Import Mem.
From S2P Require Import Machine.
From S2P Require Import Multiboot.
From S2P Require Import Pmm.
From S2P Require Import Fmt.
From S2P Require Import Paging.
From S2P Require Import PagingSpec.
From S2P Require Import PagingOps.
From S2P Require Import AddressSpace.
From S2P Require Import Heap.
From S2P Require Import HeapSpec.
From S2P Require Import HeapOps.
From S2P Require Import HeapCalls.
From S2P Require Import HeapEnv.
From S2P Require Import Kmalloc.

(** ** A state to run on: the demo address space and two empty heaps *)

Definition demo_kernel : kernel :=
  mkKernel demo (attach (0x100000, 0x110000) KERNEL_HEAP) VIRTUAL_HEAP NOTHING (0x100000, 0x110000).

Lemma demo_page (n : Z) : managed n -> page demo n = None.
Proof. intros Hn. cbn. by rewrite (demo_page_entry n Hn). Qed.

Lemma demo_spare f : 256 <= f < 272 -> spare demo f.
Proof.
  intros Hf. split; [lia|]. cbn [s_machine s_pmm demo]. split_and!.
  - rewrite demo_is_table. lia.
  - rewrite demo_free. set_solver by lia.
  - intros k e Hk _. by rewrite demo_page_entry.
Qed.

Lemma demo_pages h :
  geometry h -> h_brk h = h_base h ->
  (h_backing h = Contiguous -> h_phys_base h = 0x100000 /\ h_phys_end h = 0x110000) ->
  pages_ok h demo.
Proof.
  intros Hg Hb Hw. split; rewrite ?Hb.
  - intros n Hn. lia.
  - intros n Hn. apply demo_page. by apply (heap_managed h).
  - intros _ n Hn. lia.
  - intros Hc f Hf. destruct (Hw Hc) as [E1 E2]. rewrite E1, E2, Z.sub_diag in Hf.
    apply demo_spare. dlia.
Qed.

Lemma demo_kgeometry : geometry (k_heap demo_kernel).
Proof. split; cbn; try by_decide; try done; intros _; by_decide. Qed.

Lemma demo_vgeometry : geometry VIRTUAL_HEAP.
Proof. split; cbn; try by_decide; done. Qed.

Lemma demo_kheap : heap_ok (k_heap demo_kernel) demo [].
Proof.
  split; [exact demo_ok|exact demo_kgeometry| |split; reflexivity].
  apply demo_pages; [exact demo_kgeometry|reflexivity|intros _; split; reflexivity].
Qed.

Lemma demo_vheap : heap_ok VIRTUAL_HEAP demo [].
Proof.
  split; [exact demo_ok|exact demo_vgeometry| |split; reflexivity].
  apply demo_pages; [exact demo_vgeometry|reflexivity|discriminate].
Qed.

Lemma demo_heaps : heaps_ok demo_kernel [] [].
Proof.
  split; [exact demo_kheap|exact demo_vheap|split_and!; reflexivity|split_and!; reflexivity].
Qed.

Section Claims.
Context {E : Type} {EnvE : Env E} {V : View E} {Laws : EnvLaws E}.
Implicit Types (h : Heap) (e : E) (bs : list block).

(** C11: [alloc] on a well-formed heap always returns.  A pointer it returns
    is 8-aligned, its block holds at least the bytes asked for (less than 32
    more), lies below the break, and is new: the live blocks are the old ones
    and this one, and the words of every old live block are unchanged.  A
    null pointer leaves the live blocks as they were. *)
Theorem alloc_gives_block h e bs want :
  heap_ok h e bs -> is_u32 want ->
  exists r h' e' bs', alloc want (h, e) = Done r (h', e') /\ heap_ok h' e' bs' /\
    data_kept h bs e e' /\
    (r <> 0 -> exists sz, want <= sz < want + 32 /\ r mod 8 = 0 /\ h_base h < r /\
       r + sz <= h_brk h' /\ Permutation (live (h_base h) bs') ((r, sz) :: live (h_base h) bs)) /\
    (r = 0 -> live (h_base h) bs' = live (h_base h) bs).
Proof.
  intros Hh Hw. destruct (alloc_spec h e bs want Hh Hw) as (r & h' & e' & bs' & Ea & Ha).
  exists r, h', e', bs'. split; [exact Ea|]. split; [apply Ha|].
  split; [apply kept_but_data; [exact Hh|apply Ha]|]. split; apply Ha.
Qed.

(** C18: [alloc] fails only for a reason: the request is zero or larger than
    the heap can ever be, or the heap it leaves cannot grow by another page
    (its address range or its physical block is used up, or at most one frame
    of the machine is free) and no stretch of free bytes in it could hold the
    request with its header.  Free blocks that touch are joined before it
    gives up. *)
Theorem alloc_null_means_full h e bs want h' e' :
  heap_ok h e bs -> is_u32 want -> alloc want (h, e) = Done 0 (h', e') ->
  want = 0 \/ h_limit h - h_base h - HEADER < want \/
  (h_brk h' - h_brk h < 4096 * pages_for (round_up want) /\ exhausted h' e' /\
   exists bs', heap_ok h' e' bs' /\ no_room h bs' (round_up want)).
Proof.
  intros Hh Hw Ea. destruct (alloc_spec h e bs want Hh Hw) as (r & h1 & e1 & bs1 & E1 & Ha).
  rewrite Ea in E1. injection E1 as <- <- <-.
  destruct (Z.eq_dec want 0); [by left|].
  destruct (Z.lt_ge_cases (h_limit h - h_base h - HEADER) want); [by right; left|].
  right. right. destruct (al_grew _ _ _ _ _ _ _ _ Ha) as (k & _ & -> & Hfail).
  unfold is_u32 in Hw. destruct Hfail as (Hk & Hroom & Hx); [done|lia|].
  split; [cbn [with_brk h_brk]; lia|]. split; [exact Hx|]. exists bs1. split; [apply Ha|exact Hroom].
Qed.

(** C12: [free] of a live block removes exactly that block from the live
    blocks, keeps every other one with its contents, and reports nothing.
    The null pointer does nothing at all.  Any other pointer, one freed
    before included, changes no block and reports one recovered panic. *)
Theorem free_takes_back h e bs p :
  heap_ok h e bs ->
  exists e' bs', free p (h, e) = Done tt (h, e') /\ heap_ok h e' bs' /\
    ((exists sz, Permutation (live (h_base h) bs) ((p, sz) :: live (h_base h) bs') /\
        oopses e' = oopses e /\ survive (Free p) h bs bs' e e') \/
     ((forall sz, (p, sz) ∉ live (h_base h) bs) /\ bs' = bs /\
        if p =? 0 then e' = e else complained e e')).
Proof.
  intros Hh. destruct (Z.eqb_spec p 0) as [->|Hp].
  { exists e, bs. split; [reflexivity|]. split; [exact Hh|]. right. split; [|done]. intros sz Hin.
    apply live_range in Hin; [|exact (heap_ok_ext _ _ _ Hh)].
    destruct (g_range _ (ho_geometry _ _ _ Hh)) as [Hb _]. unfold HEADER in Hin. lia. }
  destruct (free_spec h e bs p Hh Hp) as (e' & Ef & H). exists e'.
  destruct H as [(pre & s & post & -> & -> & Hh' & W)|(Hno & K & Hh')].
  - exists (pre ++ (s, false) :: post). split; [exact Ef|]. split; [exact Hh'|]. left. exists s.
    split; [|split; [apply W|]].
    + rewrite !live_app. cbn [live app]. symmetry. apply Permutation_middle.
    + destruct (run_free_spec h e _ (h_base h + span pre + HEADER) Hh) as (e2 & bs2 & E2 & Hh2 & Hs & _).
      rewrite Ef in E2. injection E2 as <-. intros q sz Hin Hne. destruct (Hs q sz Hin Hne) as [_ Hx].
      split; [|exact Hx]. rewrite live_app, elem_of_app in Hin |- *. cbn [live app] in Hin |- *.
      rewrite elem_of_cons in Hin. destruct Hin as [|[Hin|]]; [by left| |by right]. simplify_eq.
  - exists bs. split; [exact Ef|]. split; [exact Hh'|]. right. done.
Qed.

(** Two live blocks never overlap, and every live block is 8-aligned and
    lies between the base and the break of its heap. *)
Lemma live_blocks_disjoint h e bs i j p s q t :
  heap_ok h e bs -> live (h_base h) bs !! i = Some (p, s) -> live (h_base h) bs !! j = Some (q, t) ->
  (i <> j -> p + s <= q \/ q + t <= p) /\
  p mod 8 = 0 /\ h_base h < p /\ 0 < s /\ p + s <= h_brk h.
Proof.
  intros Hh Hi Hj. pose proof (heap_ok_ext _ _ _ Hh) as Hok.
  pose proof (tiles_span _ _ _ _ (ho_tiles _ _ _ Hh)) as Hz.
  assert (h_base h mod 8 = 0) as Hb8.
  { destruct (g_align _ (ho_geometry _ _ _ Hh)) as (A & _). dlia. }
  split.
  - intros Hne. destruct (decide (i < j)%nat).
    + left. by apply (live_sorted (h_base h) bs i j p s q t).
    + right. apply (live_sorted (h_base h) bs j i q t p s); [done|lia|done|done].
  - apply list_elem_of_lookup_2 in Hi. pose proof (live_aligned _ _ _ _ Hok Hb8 Hi).
    apply live_range in Hi; [|done]. unfold HEADER in Hi. rewrite Hz. lia.
Qed.

(** C22: A block allocated and freed at once leaves the live blocks, and the
    contents of each, as they were. *)
Theorem alloc_free_roundtrip h e bs want r h1 e1 :
  heap_ok h e bs -> is_u32 want -> alloc want (h, e) = Done r (h1, e1) -> r <> 0 ->
  exists e2 bs2, free r (h1, e1) = Done tt (h1, e2) /\ heap_ok h1 e2 bs2 /\
    Permutation (live (h_base h) bs2) (live (h_base h) bs) /\ data_kept h bs e e2.
Proof.
  intros Hh Hw Ea Hr. destruct (alloc_spec h e bs want Hh Hw) as (r' & h' & e' & bs' & E1 & Ha).
  rewrite Ea in E1. injection E1 as <- <- <-.
  destruct (al_given _ _ _ _ _ _ _ _ Ha Hr) as (sz & _ & _ & _ & _ & Hperm).
  destruct (al_grew _ _ _ _ _ _ _ _ Ha) as (k & _ & Eh & _).
  assert (h_base h1 = h_base h) as Hb by (by subst h1).
  pose proof (al_heap _ _ _ _ _ _ _ _ Ha) as Hh1.
  destruct (free_spec h1 e1 bs' r Hh1 Hr) as (e2 & E2 & H). rewrite Hb in H.
  assert ((r, sz) ∈ live (h_base h) bs') as Hin by (rewrite Hperm; by left).
  destruct H as [(pre & s & post & -> & Er & Hh2 & W)|(Hno & _)]; [|by destruct (Hno sz)].
  exists e2, (pre ++ (s, false) :: post). split; [exact E2|]. split; [exact Hh2|].
  destruct (live_found pre s true post (h_base h) r sz) as [_ ->]; [by eapply heap_ok_ext|done|done|].
  split.
  - apply (Permutation_cons_inv (a := (r, s))). rewrite <- Hperm, !live_app. cbn [live app].
    rewrite Er. apply Permutation_middle.
  - intros p t x Hp Hx Hm. rewrite (wr_word _ _ _ W).
    + exact (kept_but_data h e bs e1 Hh (al_kept _ _ _ _ _ _ _ _ Ha) p t x Hp Hx Hm).
    + apply (al_kept _ _ _ _ _ _ _ _ Ha); [exact (live_mapped h e bs p t x Hh Hp Hx Hm)|].
      apply (live_not_free _ bs p t); [by eapply heap_ok_ext|done|done].
    + intros Hw'. apply (live_not_header (h_base h) pre s true post p t x).
      * by eapply heap_ok_ext.
      * rewrite Hperm. by right.
      * done.
      * unfold HEADER in *. lia.
Qed.


(** C19: [brk] returns the old break or null.  Null means the break did not
    move.  Growing moves it up, by what was asked for rounded up to pages
    unless the heap is exhausted (its address range, its physical block or the
    machine's frames are used up), and adds the room to a free block at the
    end; shrinking fails only when the end is in use or the free block there
    is too small to cut; shrinking by [n] bytes moves it down by [n] rounded up
    to pages, never below the base; live blocks and their contents are kept
    either way, so a heap never shrinks into a block in use. *)
Theorem brk_moves_break h e bs delta :
  heap_ok h e bs -> -2147483648 <= delta < 2147483648 ->
  exists r h' e' bs', brk delta (h, e) = Done r (h', e') /\ heap_ok h' e' bs' /\
    live (h_base h) bs' = live (h_base h) bs /\ data_kept h bs e e' /\
    (r = 0 \/ r = h_brk h) /\ (r = 0 -> h_brk h' = h_brk h) /\
    (r <> 0 -> 0 < delta -> h_brk h < h_brk h') /\
    (r <> 0 -> delta < 0 ->
       h_brk h' = h_brk h - Z.min ((- delta + 4095) / 4096 * 4096) (h_brk h - h_base h)) /\
    brk_blocks delta h e bs h' e' bs' r.
Proof.
  intros Hh Hd. destruct (brk_spec h e bs delta Hh Hd)
    as (r & h' & e' & bs' & Eb & Hh' & Hl & _ & Hk & _ & H).
  exists r, h', e', bs'. split; [exact Eb|]. split; [exact Hh'|]. split; [exact Hl|].
  split; [exact Hk|exact H].
Qed.

End Claims.

(** ** Witnesses on the demo heaps *)

(** What a call on a heap returned, and where it left the break. *)
Definition returned {A} (o : outcome (Heap * sys) A) : option (A * Z) :=
  match o with Done a (h, _) => Some (a, h_brk h) | _ => None end.

Lemma returned_Done {A} (o : outcome (Heap * sys) A) a b :
  returned o = Some (a, b) -> exists h s, o = Done a (h, s) /\ h_brk h = b.
Proof. destruct o as [x [h s]| | |]; cbn; intros H; simplify_eq. by exists h, s. Qed.

(** One page taken for sixteen bytes. *)
Lemma demo_alloc16 :
  exists h s, alloc 16 (VIRTUAL_HEAP, demo) = Done 0xE0000008 (h, s) /\ h_brk h = 0xE0001000.
Proof. apply returned_Done. vm_compute. reflexivity. Qed.

Lemma alloc_gives_block_witness :
  exists h s bs sz, alloc 16 (VIRTUAL_HEAP, demo) = Done 0xE0000008 (h, s) /\ heap_ok h s bs /\
    16 <= sz < 48 /\ live VMALLOC_BASE bs = [(0xE0000008, sz)].
Proof.
  destruct (alloc_gives_block VIRTUAL_HEAP demo [] 16 demo_vheap ltac:(by_decide))
    as (r & h & s & bs & Ea & Hh & _ & Hr & _).
  destruct demo_alloc16 as (h' & s' & E' & _). rewrite E' in Ea. injection Ea as <- <- <-.
  destruct Hr as (sz & Hsz & _ & _ & _ & Hp); [discriminate|].
  exists h', s', bs, sz. split; [exact E'|]. split; [exact Hh|]. split; [lia|].
  apply Permutation_length_1_inv. symmetry. exact Hp.
Defined.

(** More than the window of the kernel heap holds: every page of it is taken. *)
Lemma demo_alloc_fails :
  exists h s, alloc 1000000 (k_heap demo_kernel, demo) = Done 0 (h, s) /\ h_brk h = 0xD0010000.
Proof. apply returned_Done. vm_compute. reflexivity. Qed.

Lemma alloc_null_means_full_witness :
  exists h s bs, alloc 1000000 (k_heap demo_kernel, demo) = Done 0 (h, s) /\ heap_ok h s bs /\
    no_room (k_heap demo_kernel) bs 1000000 /\ exhausted h s.
Proof.
  destruct demo_alloc_fails as (h & s & Ea & _). exists h, s.
  destruct (alloc_null_means_full (k_heap demo_kernel) demo [] 1000000 h s demo_kheap
    ltac:(by_decide) Ea) as [H|[H|(_ & Hx & bs & Hh & Hn)]]; [discriminate|vm_compute in H; discriminate|].
  exists bs. split; [exact Ea|]. split; [exact Hh|]. split; [exact Hn|exact Hx].
Defined.

(** A pointer into an empty heap is refused. *)
Lemma free_takes_back_witness :
  exists s, free 0xE0000008 (VIRTUAL_HEAP, demo) = Done tt (VIRTUAL_HEAP, s) /\ complained demo s.
Proof.
  destruct (free_takes_back VIRTUAL_HEAP demo [] 0xE0000008 demo_vheap)
    as (s & bs & Ef & _ & [(sz & Hp & _)|(_ & _ & Hc)]); [|by exists s].
  symmetry in Hp. by apply Permutation_nil_r in Hp.
Defined.

Lemma alloc_free_roundtrip_witness :
  exists h1 s1 s2 bs2, alloc 16 (VIRTUAL_HEAP, demo) = Done 0xE0000008 (h1, s1) /\
    free 0xE0000008 (h1, s1) = Done tt (h1, s2) /\ heap_ok h1 s2 bs2 /\ live VMALLOC_BASE bs2 = [].
Proof.
  destruct demo_alloc16 as (h1 & s1 & Ea & _).
  destruct (alloc_free_roundtrip VIRTUAL_HEAP demo [] 16 0xE0000008 h1 s1 demo_vheap
    ltac:(by_decide) Ea ltac:(discriminate)) as (s2 & bs2 & Ef & Hh & Hp & _).
  exists h1, s1, s2, bs2. split; [exact Ea|]. split; [exact Ef|]. split; [exact Hh|].
  symmetry in Hp. by apply Permutation_nil in Hp.
Defined.


Lemma demo_brk :
  exists h s, brk 4097 (VIRTUAL_HEAP, demo) = Done 0xE0000000 (h, s) /\ h_brk h = 0xE0002000.
Proof. apply returned_Done. vm_compute. reflexivity. Qed.

Lemma brk_moves_break_witness :
  exists h s bs, brk 4097 (VIRTUAL_HEAP, demo) = Done 0xE0000000 (h, s) /\ heap_ok h s bs /\
    0xE0000000 < h_brk h.
Proof.
  destruct (brk_moves_break VIRTUAL_HEAP demo [] 4097 demo_vheap ltac:(by_decide))
    as (r & h & s & bs & Eb & Hh & _ & _ & _ & _ & Hup & _).
  destruct demo_brk as (h' & s' & E' & _). rewrite E' in Eb. injection Eb as <- <- <-.
  exists h', s', bs. split; [exact E'|]. split; [exact Hh|]. apply Hup; [discriminate|reflexivity].
Defined.

(** ** Histories of calls on the two heaps *)

Fixpoint run_calls (cs : list (bool * call)) : M kernel unit :=
  match cs with
  | [] => ret tt
  | (virtual, c) :: cs => kernel_call virtual c ;; run_calls cs
  end.

(** The live blocks of both heaps, and the words in them. *)
Definition blocks (kb vb : list block) : list (Z * Z) := live KHEAP_BASE kb ++ live VMALLOC_BASE vb.

Definition same_words (k k' : kernel) (p sz : Z) : Prop :=
  forall x, p <= x < p + sz -> x mod 4 = 0 -> word (k_sys k') x = word (k_sys k) x.

(** The history frees [p]. *)
Definition frees (cs : list (bool * call)) (p : Z) : Prop := exists v, (v, Free p) ∈ cs.

(** The live blocks of a range of addresses. *)
Lemma heap_live_range (h : Heap) (e : sys) bs p sz :
  heap_ok h e bs -> (p, sz) ∈ live (h_base h) bs -> h_base h < p /\ 0 < sz /\ p + sz <= h_limit h.
Proof.
  intros Hh Hin. pose proof (heap_ok_ext _ _ _ Hh) as Hok. apply live_range in Hin; [|done].
  rewrite <- (tiles_span _ _ _ _ (ho_tiles _ _ _ Hh)) in Hin.
  pose proof (g_brk _ (ho_geometry _ _ _ Hh)). unfold HEADER in Hin. lia.
Qed.

Lemma kernel_call_blocks k kb vb virtual c :
  heaps_ok k kb vb -> call_ok c ->
  exists r k' kb' vb', kernel_call virtual c k = Done r k' /\ heaps_ok k' kb' vb' /\
    h_phys_base (k_heap k') = h_phys_base (k_heap k) /\
    forall p sz, (p, sz) ∈ blocks kb vb -> c <> Free p ->
      (p, sz) ∈ blocks kb' vb' /\ same_words k k' p sz.
Proof.
  intros Hk Hc. destruct (kernel_call_full k kb vb virtual c Hk Hc)
    as (r & k' & kb' & vb' & Ec & Hk' & H & _ & _ & b & Eb).
  exists r, k', kb', vb'. split; [exact Ec|]. split; [exact Hk'|]. split; [by rewrite Eb|]. intros p sz Hin Hne.
  unfold blocks in *. rewrite elem_of_app in Hin |- *.
  destruct (hp_kshape _ _ _ Hk) as (K1 & _), (hp_vshape _ _ _ Hk) as (V1 & _).
  destruct virtual, H as (Hs & -> & Hd), Hin as [Hin|Hin].
  - split; [by left|]. rewrite <- K1 in Hin. intros x. by apply (Hd p sz x).
  - rewrite <- V1 in Hin. destruct (Hs p sz Hin Hne) as [Hl Hw]. rewrite V1 in Hl.
    split; [by right|exact Hw].
  - rewrite <- K1 in Hin. destruct (Hs p sz Hin Hne) as [Hl Hw]. rewrite K1 in Hl.
    split; [by left|exact Hw].
  - split; [by right|]. rewrite <- V1 in Hin. intros x. by apply (Hd p sz x).
Qed.

Lemma run_calls_spec cs : forall k kb vb,
  heaps_ok k kb vb -> Forall (fun vc => call_ok vc.2) cs ->
  exists k' kb' vb', run_calls cs k = Done tt k' /\ heaps_ok k' kb' vb' /\
    h_phys_base (k_heap k') = h_phys_base (k_heap k) /\
    forall p sz, (p, sz) ∈ blocks kb vb -> ~ frees cs p ->
      (p, sz) ∈ blocks kb' vb' /\ same_words k k' p sz.
Proof.
  induction cs as [|[v c] cs IH]; intros k kb vb Hk Hcs.
  { exists k, kb, vb. split; [done|]. split; [done|]. split; [done|]. intros p sz Hin _. by split. }
  apply Forall_cons_iff in Hcs as [Hc Hcs]. cbn [run_calls].
  destruct (kernel_call_blocks k kb vb v c Hk Hc) as (r & k1 & kb1 & vb1 & Ec & Hk1 & B1 & H1).
  destruct (IH k1 kb1 vb1 Hk1 Hcs) as (k2 & kb2 & vb2 & E2 & Hk2 & B2 & H2).
  exists k2, kb2, vb2. rewrite (bind_Done _ _ _ _ _ Ec). split; [exact E2|]. split; [exact Hk2|]. split; [congruence|].
  intros p sz Hin Hnf.
  destruct (H1 p sz Hin) as [Hin1 Hw1]; [intros ->; apply Hnf; exists v; by left|].
  destruct (H2 p sz Hin1) as [Hin2 Hw2]; [intros [u Hu]; apply Hnf; exists u; by right|].
  split; [exact Hin2|]. intros x Hx Hm. rewrite Hw2 by done. by apply Hw1.
Qed.

(** Blocks of both heaps at different places do not overlap. *)
Lemma blocks_disjoint k kb vb i j p s q t :
  heaps_ok k kb vb -> i <> j -> blocks kb vb !! i = Some (p, s) -> blocks kb vb !! j = Some (q, t) ->
  p + s <= q \/ q + t <= p.
Proof.
  intros [Hk Hv (K1 & K2 & _) (V1 & V2 & _)] Hne. unfold blocks. rewrite <- K1, <- V1.
  assert (forall p s q t, (p, s) ∈ live (h_base (k_heap k)) kb -> (q, t) ∈ live (h_base (v_heap k)) vb ->
            p + s <= q) as Hkv.
  { intros p0 s0 q0 t0 H1 H2. apply (heap_live_range _ _ _ _ _ Hk) in H1.
    apply (heap_live_range _ _ _ _ _ Hv) in H2. rewrite K2 in H1. rewrite V1 in H2.
    assert (KHEAP_LIMIT <= VMALLOC_BASE) by by_decide. lia. }
  rewrite !lookup_app_Some. intros [Hi|[Hi1 Hi]] [Hj|[Hj1 Hj]].
  - by eapply (live_blocks_disjoint _ _ _ i j p s q t Hk Hi Hj).
  - left. eapply Hkv; by eapply list_elem_of_lookup_2.
  - right. eapply Hkv; by eapply list_elem_of_lookup_2.
  - eapply (live_blocks_disjoint _ _ _ _ _ p s q t Hv Hi Hj). lia.
Qed.

(** C6: Whatever sequence of kmalloc, kfree, kbrk, vmalloc, vfree and vbrk
    the kernel makes, with any pointers and sizes: every call returns, both
    heaps stay well formed on the one machine they share, no two blocks in
    use overlap, whichever heap they are of, and every block that was in use
    and that no call freed is still in use with the words it held. *)
Theorem heap_history k kb vb cs :
  heaps_ok k kb vb -> Forall (fun vc => call_ok vc.2) cs ->
  exists k' kb' vb', run_calls cs k = Done tt k' /\ heaps_ok k' kb' vb' /\
    (forall i j p s q t, i <> j -> blocks kb' vb' !! i = Some (p, s) ->
       blocks kb' vb' !! j = Some (q, t) -> p + s <= q \/ q + t <= p) /\
    (forall p sz, (p, sz) ∈ blocks kb vb -> ~ frees cs p ->
       (p, sz) ∈ blocks kb' vb' /\ same_words k k' p sz).
Proof.
  intros Hk Hcs. destruct (run_calls_spec cs k kb vb Hk Hcs) as (k' & kb' & vb' & E & Hk' & _ & H).
  exists k', kb', vb'. split; [exact E|]. split; [exact Hk'|]. split; [|exact H].
  intros i j p s q t Hne. by apply (blocks_disjoint k' kb' vb').
Qed.

Definition demo_calls : list (bool * call) :=
  [(false, Malloc 40); (true, Malloc 5000); (false, Free 0xD0000008); (true, Free 12);
   (false, Brk (-4096)); (true, Brk 2147483647)].

Lemma heap_history_witness :
  exists k' kb' vb', run_calls demo_calls demo_kernel = Done tt k' /\ heaps_ok k' kb' vb'.
Proof.
  destruct (heap_history demo_kernel [] [] demo_calls demo_heaps) as (k' & kb' & vb' & E & H & _).
  - unfold demo_calls. repeat (apply Forall_cons_iff; split; [cbn; try exact I; by_decide|]).
    apply Forall_nil.
  - exists k', kb', vb'. split; [exact E|exact H].
Defined.

(** A byte of a live block of the kernel heap is at the same distance from the
    start of the physical window as from the base. *)
Lemma kernel_block_phys k kb vb p sz x :
  heaps_ok k kb vb -> (p, sz) ∈ live KHEAP_BASE kb -> p <= x < p + sz ->
  is_u32 x /\ (fun e => entry_frame e + x mod 4096) <$> page_entry (s_machine (k_sys k)) (x / 4096)
    = Some (h_phys_base (k_heap k) + (x - KHEAP_BASE)) /\
  0 <= h_phys_base (k_heap k) + (x - KHEAP_BASE) /\ h_phys_base (k_heap k) + (x - KHEAP_BASE) < 4294963200.
Proof.
  intros [Hk _ (K1 & K2 & K3) _] Hin Hx. rewrite <- K1 in *.
  pose proof (heap_ok_ext _ _ _ Hk) as Hok. apply live_range in Hin; [|done].
  rewrite <- (tiles_span _ _ _ _ (ho_tiles _ _ _ Hk)) in Hin. unfold HEADER in Hin.
  destruct (ho_geometry _ _ _ Hk) as [_ (A1 & A2 & A3) (R1 & R2 & R3) B W].
  destruct (W K3) as (W1 & W2 & W3 & W4 & W5). split; [unfold is_u32; lia|]. split; [|lia].
  assert (h_base (k_heap k) / 4096 <= x / 4096 < h_brk (k_heap k) / 4096) as Hn by dlia.
  pose proof (po_run _ _ (ho_pages _ _ _ Hk) K3 _ Hn) as Hp. cbn in Hp.
  apply fmap_Some in Hp as (e & He & E). injection E as Ef _. rewrite He. cbn [fmap option_fmap option_map]. f_equal.
  destruct (page_entry_u32 _ _ _ He) as [Hu _]. pose proof (entry_frame_aligned e Hu) as Hal. dlia.
Qed.

(** C23: kmalloc memory is physically contiguous.  From two empty heaps (the
    break of each at its base, nothing mapped) any calls are made on both
    heaps, then [kmalloc]; if it gives a block, then after any further calls
    that do not free it, [translate] takes every byte of what was asked for
    to one physical address plus the distance from the start of the block:
    the start of the window carved for the heap, plus the place of the block
    in the heap.  So a block can be handed to a device by one physical
    address and a length. *)
Theorem kmalloc_contiguous k before want after :
  heaps_ok k [] [] -> Forall (fun vc => call_ok vc.2) before -> is_u32 want ->
  Forall (fun vc => call_ok vc.2) after ->
  exists k1 p k2, run_calls before k = Done tt k1 /\ kmalloc want k1 = Done p k2 /\
    (p <> 0 -> ~ frees after p ->
     exists k3, run_calls after k2 = Done tt k3 /\
       let pa := h_phys_base (k_heap k) + (p - KHEAP_BASE) in
       forall x, p <= x < p + want -> exists s', translate x (k_sys k3) = Done (Some (pa + (x - p))) s').
Proof.
  intros Hk Hbe Hw Haf.
  destruct (run_calls_spec before k [] [] Hk Hbe) as (k1 & kb1 & vb1 & E1 & Hk1 & B1 & _).
  destruct (kernel_call_full k1 kb1 vb1 false (Malloc want) Hk1 Hw)
    as (p & k2 & kb2 & vb2 & E2 & Hk2 & _ & [_ Hgot] & _ & b & B2).
  exists k1, p, k2. split; [exact E1|]. split; [exact E2|]. intros Hp Hnf.
  destruct (Hgot Hp) as (sz & Hsz & _ & _ & Hperm).
  destruct (hp_kshape _ _ _ Hk1) as (K1 & _). rewrite K1 in Hperm.
  destruct (run_calls_spec after k2 kb2 vb2 Hk2 Haf) as (k3 & kb3 & vb3 & E3 & Hk3 & B3 & H3).
  destruct (H3 p sz) as [Hin _]; [apply elem_of_app; left; rewrite Hperm; by left|exact Hnf|].
  exists k3. split; [exact E3|]. cbv zeta. intros x Hx.
  assert ((p, sz) ∈ live KHEAP_BASE kb3) as Hin3.
  { apply elem_of_app in Hin as [Hin|Hin]; [exact Hin|exfalso].
    destruct (hp_vshape _ _ _ Hk3) as (V1 & _). rewrite <- V1 in Hin.
    apply (heap_live_range _ _ _ _ _ (hp_v _ _ _ Hk3)) in Hin. rewrite V1 in Hin.
    assert ((p, sz) ∈ live (h_base (k_heap k2)) kb2) as Hin2.
    { destruct (hp_kshape _ _ _ Hk2) as (K2 & _). rewrite K2, Hperm. by left. }
    apply (heap_live_range _ _ _ _ _ (hp_k _ _ _ Hk2)) in Hin2.
    destruct (hp_kshape _ _ _ Hk2) as (_ & K3 & _). rewrite K3 in Hin2.
    assert (KHEAP_LIMIT <= VMALLOC_BASE) by by_decide. lia. }
  destruct (kernel_block_phys k3 kb3 vb3 p sz x Hk3 Hin3 ltac:(lia)) as (Hu & Ht & _).
  destruct (translate_spec (k_sys k3) x (ho_env _ _ _ (hp_k _ _ _ Hk3)) Hu) as (m' & Et & _).
  eexists. rewrite Et, Ht, B3, B2. cbn [with_brk h_phys_base]. rewrite B1. do 2 f_equal. lia.
Qed.

(** Calls before and after, and a block of two pages. *)
Definition demo_before : list (bool * call) := [(false, Malloc 40); (true, Malloc 24); (false, Brk 100)].
Definition demo_after : list (bool * call) := [(false, Malloc 8); (false, Free 0xD0000008); (true, Brk (-4096))].

Lemma demo_kmalloc_big :
  match run_calls demo_before demo_kernel with
  | Done _ k1 => match kmalloc 5000 k1 with Done p _ => Some p | _ => None end
  | _ => None
  end = Some 0xD0000038.
Proof. vm_compute. reflexivity. Qed.

Lemma kmalloc_contiguous_witness :
  exists k1 k2 k3 s', run_calls demo_before demo_kernel = Done tt k1 /\
    kmalloc 5000 k1 = Done 0xD0000038 k2 /\ run_calls demo_after k2 = Done tt k3 /\
    translate 0xD0001100 (k_sys k3) = Done (Some 0x101100) s'.
Proof.
  destruct (kmalloc_contiguous demo_kernel demo_before 5000 demo_after demo_heaps)
    as (k1 & p & k2 & E1 & E2 & H); [|by_decide| |].
  - unfold demo_before. repeat (apply Forall_cons_iff; split; [cbn; try exact I; by_decide|]). apply Forall_nil.
  - unfold demo_after. repeat (apply Forall_cons_iff; split; [cbn; try exact I; by_decide|]). apply Forall_nil.
  - pose proof demo_kmalloc_big as Eb. rewrite E1, E2 in Eb. injection Eb as ->.
    destruct H as (k3 & E3 & Hx); [discriminate| |].
    { intros (v & Hv). unfold demo_after in Hv. rewrite !elem_of_cons, elem_of_nil in Hv.
      destruct Hv as [Hv|[Hv|[Hv|[]]]]; discriminate. }
    destruct (Hx 0xD0001100 ltac:(lia)) as (s' & Et). exists k1, k2, k3, s'.
    split; [exact E1|]. split; [exact E2|]. split; [exact E3|]. exact Et.
Defined.
