(* ===== verification/Calm.v ===== *)
(** * Steps that leave the heaps alone

    What the shell does between two calls of the allocator: it looks, it
    prints, and it maps, writes and drops pages of user space.  None of it
    disturbs either heap, the windows on low memory, CR0 or the stack
    pointer. *)

From S2P Require Import Prelude.
From S2P Require Import Mem.
From S2P Require Import Machine.
From S2P Require Import Pmm.
From S2P Require Import Fmt.
From S2P Require Import Panic.
From S2P Require Import Heap.
From S2P Require Import HeapSpec.
From S2P Require Import HeapOps.
From S2P Require Import HeapCalls.
From S2P Require Import HeapEnv.
From S2P Require Import Kmalloc.
From S2P Require Import Paging.
From S2P Require Import PagingSpec.
From S2P Require Import PagingOps.
From S2P Require Import AddressSpace.
From S2P Require Import Inspect.

(** User space as a range of addresses; only its bounds matter. *)
Definition user_range : Heap := mkHeap "user space" USER_BASE USER_END USER_BASE Scattered 0 0 0.

Definition in_user (n : Z) : Prop := 1024 <= n < 786432.

Lemma in_user_managed n : in_user n -> managed n.
Proof. unfold in_user, managed. intros. dlia. Qed.

Record calm (s s' : sys) : Prop := {
  ca_ok : env_ok s';
  ca_stays : stays user_range s s';
  ca_untouched : forall F, untouched F s s';
}.

Lemma calm_keeps s s' : keeps s s' -> (forall F, untouched F s s') -> calm s s'.
Proof. intros Hk Hu. split; [apply Hk|by apply stays_keeps|exact Hu]. Qed.

Lemma calm_refl s : env_ok s -> calm s s.
Proof. intros Hok. apply calm_keeps; [by apply keeps_refl|intros F; apply untouched_refl]. Qed.

Lemma calm_trans s1 s2 s3 : calm s1 s2 -> calm s2 s3 -> calm s1 s3.
Proof.
  intros [A1 A2 A3] [B1 B2 B3].
  split; [exact B1|by eapply stays_trans|intros F; by eapply untouched_trans].
Qed.

(** Looking and printing. *)
Lemma calm_equiv s s' :
  s_machine s' ≡ s_machine s -> env_ok s' -> s_pmm s' = s_pmm s -> s_esp s' = s_esp s -> calm s s'.
Proof.
  intros Q Hok Hp He. destruct s' as [m' p' v o e]. cbn [s_machine s_pmm s_esp] in *. subst p' e.
  apply calm_keeps; [by apply keeps_equiv|intros F; by apply untouched_same].
Qed.

Lemma calm_showed ts s s' : showed ts s s' -> calm s s'.
Proof. intros [H1 H2 H3 H4 H5 H6]. by apply calm_equiv. Qed.

Lemma calm_koops text s : env_ok s -> exists s', koops text s = Done tt s' /\ calm s s'.
Proof.
  intros Hok. destruct (sys_koops s text Hok) as (s' & E & [K _] & U).
  exists s'. split; [exact E|by apply calm_keeps].
Qed.

Lemma calm_vga f s : env_ok s -> calm s (with_vga (f (s_vga s)) s).
Proof. intros Hok. by apply calm_equiv. Qed.

Lemma calm_cr2 va s : env_ok s -> calm s (with_machine (set_cr2 va (s_machine s)) s).
Proof.
  intros Hok. assert (vm_ok (set_cr2 va (s_machine s)) (s_pmm s)) as Hok'.
  { destruct Hok as [H1 [A1 A2 A3 A4] H3 H4 H5 H6].
    split; [exact H1|split; [exact A1|exact A2|exact A3|exact A4]|..]; assumption. }
  split; [exact Hok'| |intros F]; (split; intros; assumption || reflexivity).
Qed.

(** ** Pages of user space *)

(** The tables changed at page [n] only, and its frame is one that was free
    or was the page's before. *)
Lemma calm_evolves s m' p' v o n x :
  let m := s_machine s in
  vm_ok m (s_pmm s) -> vm_ok m' p' -> evolves m (s_pmm s) m' p' -> in_user n ->
  (forall k, 0 <= k < 1047552 -> page_entry m' k = if decide (k = n) then x else page_entry m k) ->
  (forall e, x = Some e -> entry_frame e / 4096 ∈ free_set (s_pmm s) \/
     exists e0, page_entry m n = Some e0 /\ entry_frame e / 4096 = entry_frame e0 / 4096) ->
  calm s (mkSys m' p' v o (s_esp s)).
Proof.
  intros m Hok Hok' Hev Hn Hpe Hx. pose proof (in_user_managed n Hn) as Hm.
  assert (h_base user_range / 4096 <= n < h_limit user_range / 4096) as Hr
    by (unfold in_user in Hn; change (h_base user_range / 4096) with 1024;
        change (h_limit user_range / 4096) with 786432; lia).
  split; [exact Hok'| |].
  2: { intros F. apply (untouched_page F s m' p' v o n x Hm Hev Hpe). intros e -> _ (_ & H2 & H3).
    destruct (Hx e eq_refl) as [Hfr|(e0 & He0 & Ef)]; [contradiction|].
    apply (H3 n e0 Hm); [destruct Hm; lia|exact He0|by symmetry]. }
  split.
  - intros k Hk Hout. pose proof (managed_range k Hk). cbn [page sys_view s_machine].
    rewrite Hpe by lia. case_decide; [by subst|reflexivity].
  - intros a Ha Hout. apply word_same; [exact Hok|exact Ha| |apply Hev].
    destruct Ha as (_ & _ & Hk & _). pose proof (managed_range _ Hk). cbn [s_machine].
    rewrite Hpe by lia. case_decide as E; [by rewrite E in Hout|reflexivity].
  - intros _ f [Hf Hown]. split; [exact Hf|]. apply (spare_evolves s); [exact Hev| |exact Hown].
    destruct Hown as (_ & H2 & H3). intros k Hk. rewrite Hpe by lia. case_decide as E; [|by left]. right.
    destruct x as [e|]; [|by exists 0; right]. exists e. left. split; [done|]. intros <-.
    destruct (Hx e eq_refl) as [Hfr|(e0 & He0 & Ef)]; [contradiction|].
    apply (H3 n e0 Hm); [destruct Hm; lia|exact He0|by symmetry].
Qed.

Lemma calm_load s a : env_ok s -> mapped s a -> exists s', load32 a s = Done (word s a) s' /\ calm s s'.
Proof.
  intros Hok Ha. destruct (sys_load s a Hok Ha) as (s' & E & [K _] & U).
  exists s'. split; [exact E|by apply calm_keeps].
Qed.

(** A load needs no right to write. *)
Lemma calm_load_page s a e :
  env_ok s -> is_u32 a -> a mod 4 = 0 -> page_entry (s_machine s) (a / 4096) = Some e ->
  exists v s', load32 a s = Done v s' /\ calm s s'.
Proof.
  intros Hok Hu Ha He. destruct (data_load32 s a (entry_frame e + a mod 4096) Hok Hu ltac:(dlia))
    as (m' & E & Q & Hok'); [unfold phys; by rewrite He|].
  eexists _, _. split; [exact E|]. by apply calm_equiv.
Qed.

Lemma calm_store s a v :
  env_ok s -> mapped s a -> is_u32 v -> in_user (a / 4096) ->
  exists s', store32 a v s = Done tt s' /\ calm s s' /\ word s' a = v /\
    (forall n, managed n -> page s' n = page s n).
Proof.
  intros Hok Ha Hv Hn. destruct (sys_store s a v Hok Ha Hv) as (s' & E & A1 & A2 & A3 & A4 & A5 & _ & U).
  exists s'. split; [exact E|]. split; [|split; [|exact A3]].
  - split; [exact A1| |exact U]. split; [intros n Hm _; by apply A3| |intros _; exact A5].
    intros b Hb Hout. rewrite A4 by exact Hb. rewrite decide_False; [done|].
    intros ->. apply Hout. unfold in_user in Hn. change (h_base user_range / 4096) with 1024.
    change (h_limit user_range / 4096) with 786432. lia.
  - rewrite A4 by exact Ha. by rewrite decide_True.
Qed.

(** [release], [map_new] and [protect] on a page of user space. *)
Lemma calm_release s addr :
  env_ok s -> is_u32 addr -> in_user (addr / 4096) ->
  exists s', release addr s = Done tt s' /\ calm s s' /\
    forall k, 0 <= k < 1047552 -> page_entry (s_machine s') k =
      if decide (k = addr / 4096) then None else page_entry (s_machine s) k.
Proof.
  intros Hok Hu Hn. pose proof (in_user_managed _ Hn) as Hm.
  destruct (release_spec s addr Hok Hu Hm) as (m2 & p2 & E2 & _ & Hpe & _). cbv zeta in Hpe.
  destruct (unmap_page_spec s addr Hok Hu Hm) as (m1 & E1 & Hok1 & Hev & Hpe1). cbv zeta in *.
  assert (calm s (with_machine m1 s)) as C1.
  { apply (calm_evolves s m1 (s_pmm s) (s_vga s) (s_oops s) (addr / 4096) None); try assumption. discriminate. }
  exists (with_pmm p2 (with_machine m2 s)). split; [exact E2|]. split; [|exact Hpe].
  unfold release in E2. rewrite (bind_Done _ _ _ _ _ E1) in E2.
  destruct (page_entry (s_machine s) (addr / 4096)) as [e|] eqn:He; cbn [fmap option_fmap option_map] in E2; cycle 1.
  { assert (with_pmm p2 (with_machine m2 s) = with_machine m1 s) as -> by (unfold ret in E2; congruence).
    exact C1. }
  assert (page s (addr / 4096) = Some (entry_frame e / 4096, entry_writable e)) as Hpg
    by (cbn; by rewrite He).
  destruct (page_entry_u32 _ _ _ He) as [Heu _]. pose proof (entry_frame_aligned e Heu) as Hal.
  destruct (sys_unmap s addr _ _ Hok Hu Hm Hpg) as (s1 & E1' & _ & _ & _ & _ & Hsp & _).
  cbn [Heap.unmap_page sys_env] in E1'. rewrite E1 in E1'. injection E1' as _ <-.
  destruct (sys_free (with_machine m1 s) _ Hok1 Hsp) as (s2 & E2' & A1 & A2 & A3 & A4 & A5 & _ & U2).
  replace (entry_frame e / 4096 * 4096) with (entry_frame e) in E2' by dlia.
  assert (s2 = with_pmm p2 (with_machine m2 s)) as ->.
  { cbn [Heap.free_frame sys_env] in E2'. rewrite E2' in E2. by injection E2. }
  split; [exact A1| |].
  2: { intros F. apply untouched_guards. eapply untouched_trans; [apply C1|]. apply U2. intros [_ Hown].
    apply (sys_page _ _ _ _ Hok Hm Hpg). split; [apply Hsp|exact Hown]. }
  pose proof (ca_stays _ _ C1) as [S1 S2 S3]. split.
  - intros n Hmn Hout. by rewrite A3, S1.
  - intros a Ha Hout. rewrite A4, S2; [done|exact Ha|exact Hout|]. by eapply stays_mapped; [apply C1| |].
  - intros Hb f Hf. apply A5; [by apply S3|]. intros ->. exact (sys_page _ _ _ _ Hok Hm Hpg Hf).
Qed.

Lemma calm_map_new s addr flags :
  env_ok s -> is_u32 addr -> in_user (addr / 4096) -> 0 <= flags < 4096 ->
  exists r s', map_new addr flags s = Done r s' /\ calm s s' /\
    match r with
    | Some frame => page_entry (s_machine s') (addr / 4096) = Some (leaf frame flags) /\ is_u32 frame
    | None => True
    end.
Proof.
  intros Hok Hu Hn Hfl. pose proof (in_user_managed _ Hn) as Hm.
  pose proof (map_new_spec s addr flags Hok Hu Hm Hfl) as H. cbv zeta in H.
  destruct (Pmm.alloc_frame (s_pmm s)) as [[frame|] p1] eqn:Ea; cycle 1.
  { exists None, s. split; [exact H|]. split; [by apply calm_refl|exact I]. }
  destruct (alloc_frame_ok _ _ frame p1 Hok Ea) as (f & -> & Hf & Hfree & _).
  assert (is_u32 (f * 4096)) as Hfu by (unfold is_u32; lia).
  destruct (map_allowed _ _ _ _).
  - destruct H as (m' & p' & E & Hok' & Hev & Hpe & _). eexists _, _. split; [exact E|]. split.
    + apply (calm_evolves s m' p' (s_vga s) (s_oops s) (addr / 4096) (Some (leaf (f * 4096) flags))); try assumption.
      intros e [= <-]. left. destruct (leaf_fields (f * 4096) flags Hfu Hfl) as (_ & -> & _).
      rewrite entry_frame_eq, Z.mod_mul, Z.sub_0_r, Z.div_mul by (done || lia). exact Hfree.
    + split; [|exact Hfu]. destruct (managed_range _ Hm) as [Hr _]. cbn [s_machine with_pmm with_machine].
      rewrite Hpe by lia. by rewrite decide_True.
  - destruct H as (m' & p' & v & E & Hok' & Q & Hfs). eexists None, _. split; [exact E|]. split; [|exact I].
    apply calm_keeps; [|intros F; apply untouched_equiv; [exact Q|intros g _ (_ & Hg & _); by rewrite Hfs]].
    split; cbn [env_ok page word spare sys_view s_machine s_pmm].
    + exact Hok'.
    + intros n _. by rewrite Q.
    + intros a _. rewrite (phys_proper _ _ Q a a eq_refl). by destruct Q as [-> _].
    + intros g [Hg Hown]. split; [exact Hg|]. apply (frame_ok_equiv _ _ _ _ _ Q) in Hown.
      destruct Hown as (H1 & H2 & H3). split; [exact H1|]. split; [by rewrite Hfs|exact H3].
    + cbn. by rewrite (wf_available _ (vm_pmm _ _ Hok')), (wf_available _ (vm_pmm _ _ Hok)), Hfs.
Qed.

Lemma calm_protect s addr flags :
  env_ok s -> is_u32 addr -> in_user (addr / 4096) -> 0 <= flags < 4096 ->
  exists r s', protect addr flags s = Done r s' /\ calm s s'.
Proof.
  intros Hok Hu Hn Hfl. pose proof (in_user_managed _ Hn) as Hm.
  destruct (protect_spec s addr flags Hok Hu Hm Hfl) as (m' & E & Hok' & Hev & Hpe). cbv zeta in *.
  eexists _, _. split; [exact E|]. eapply (calm_evolves s m' (s_pmm s) (s_vga s) (s_oops s) (addr / 4096));
    [exact Hok|exact Hok'|exact Hev|exact Hn|exact Hpe|].
  intros e He. apply fmap_Some in He as (e0 & He0 & ->). right. exists e0. split; [exact He0|].
  destruct (page_entry_u32 _ _ _ He0) as [Hu0 _]. by destruct (leaf_fields e0 flags Hu0 Hfl) as (_ & -> & _).
Qed.

(** ** The heaps *)

Lemma heaps_calm k kb vb s' :
  heaps_ok k kb vb -> calm (k_sys k) s' -> heaps_ok (with_sys s' k) kb vb.
Proof.
  intros [Hk Hv (K1 & K2 & K3) (V1 & V2 & V3)] [C1 C2 C3]. split; cbn [with_sys k_heap v_heap k_sys].
  - apply (heap_ok_other _ user_range (k_sys k)); try done. right. rewrite K1. by_decide.
  - apply (heap_ok_other _ user_range (k_sys k)); try done. right. rewrite V1. by_decide.
  - done.
  - done.
Qed.

(** ** Calm code *)

Definition calmly {A} (c : M sys A) (s : sys) (Q : A -> sys -> Prop) : Prop :=
  exists a s', c s = Done a s' /\ calm s s' /\ Q a s'.

Lemma calmly_bind {A B} (c : M sys A) (k : A -> M sys B) s (Q : B -> sys -> Prop) :
  calmly c s (fun a s1 => env_ok s1 -> calmly (k a) s1 Q) -> calmly (bind c k) s Q.
Proof.
  intros (a & s1 & E & C & Hk). destruct (Hk (ca_ok _ _ C)) as (b & s2 & E2 & C2 & HQ).
  exists b, s2. rewrite (bind_Done _ _ _ _ _ E). split; [exact E2|]. split; [by eapply calm_trans|exact HQ].
Qed.

Lemma calmly_ret {A} (a : A) s (Q : A -> sys -> Prop) : env_ok s -> Q a s -> calmly (ret a) s Q.
Proof. intros Hok HQ. exists a, s. split; [reflexivity|]. split; [by apply calm_refl|exact HQ]. Qed.

Lemma calmly_printk text s (Q : unit -> sys -> Prop) :
  env_ok s -> (forall s', s_machine s' = s_machine s -> Q tt s') -> calmly (printk text) s Q.
Proof.
  intros Hok HQ. eexists tt, _. split; [reflexivity|]. split; [by apply calm_vga|by apply HQ].
Qed.

Lemma calmly_shows {A} (c : M sys A) s P (Q : A -> sys -> Prop) :
  shows c s P -> (forall a s', s_machine s' ≡ s_machine s -> Q a s') -> calmly c s Q.
Proof.
  intros (a & ts & s' & E & Hs & _) HQ. exists a, s'. split; [exact E|].
  split; [by eapply calm_showed|by apply HQ, Hs].
Qed.

Lemma calmly_koops text s (Q : unit -> sys -> Prop) :
  env_ok s -> (forall s', Q tt s') -> calmly (koops text) s Q.
Proof.
  intros Hok HQ. destruct (calm_koops text s Hok) as (s' & E & C). exists tt, s'. by split.
Qed.

Lemma calmly_release s addr (Q : unit -> sys -> Prop) :
  env_ok s -> is_u32 addr -> in_user (addr / 4096) -> (forall s', Q tt s') -> calmly (release addr) s Q.
Proof.
  intros Hok Hu Hn HQ. destruct (calm_release s addr Hok Hu Hn) as (s' & E & C & _). exists tt, s'. by split.
Qed.

Lemma calmly_translate s addr (Q : option Z -> sys -> Prop) :
  env_ok s -> is_u32 addr -> (forall r s', s_machine s' ≡ s_machine s -> Q r s') -> calmly (translate addr) s Q.
Proof.
  intros Hok Hu HQ. destruct (translate_spec s addr Hok Hu) as (m' & E & Qm & Hok').
  eexists _, _. split; [exact E|]. split; [by apply calm_equiv|by apply HQ].
Qed.
