(* ===== verification/Payload.v ===== *)
(** * The bytes of a block that was handed out

    The shell fills what the allocator gave it byte by byte.  Such a store
    changes one byte, and neither heap notices. *)

From S2P Require Import Prelude.
From S2P Require Import Mem.
From S2P Require Import Machine.
From S2P Require Import Pmm.
From S2P Require Import Fmt.
From S2P Require Import Heap.
From S2P Require Import HeapSpec.
From S2P Require Import HeapOps.
From S2P Require Import HeapCalls.
From S2P Require Import HeapEnv.
From S2P Require Import Kmalloc.
From S2P Require Import Paging.
From S2P Require Import PagingSpec.
From S2P Require Import PagingOps.
From S2P Require Import Calm.

(** ** One byte *)

Definition byte (s : sys) (a : Z) : Z :=
  match phys (s_machine s) a with
  | Some pa => pread8 (m_ram (s_machine s)) pa
  | None => 0
  end.

(** The aligned word around a byte. *)
Definition word_of (a : Z) : Z := a - a mod 4.

(** A byte of a mapped page, its entry and physical address. *)
Lemma mapped_byte s a :
  mapped s (word_of a) ->
  is_u32 a /\ managed (a / 4096) /\
  exists e, page_entry (s_machine s) (a / 4096) = Some e /\ entry_writable e = true /\
    phys (s_machine s) a = Some (entry_frame e + a mod 4096).
Proof.
  intros Hm. destruct (mapped_entry s _ Hm) as (Hu & Ha & Hn & e & He & Hw & _).
  unfold word_of in *. replace ((a - a mod 4) / 4096) with (a / 4096) in * by dlia.
  split; [unfold is_u32 in *; dlia|]. split; [exact Hn|]. exists e. split; [exact He|].
  split; [exact Hw|]. unfold phys. by rewrite He.
Qed.

Lemma load8_spec s a :
  env_ok s -> mapped s (word_of a) ->
  exists s', on_machine (vload8 a) s = Done (byte s a) s' /\ calm s s' /\ s_machine s' ≡ s_machine s.
Proof.
  intros Hok Hm. destruct (mapped_byte s a Hm) as (Hu & _ & e & He & _ & Hp).
  exists (with_machine (touch a (s_machine s)) s).
  assert (vm_ok (touch a (s_machine s)) (s_pmm s)) as Hok'.
  { eapply vm_ok_equiv; [apply touch_equiv|apply touch_tlb_ok; [done|apply Hok]|exact Hok]. }
  split; [|split; [apply calm_equiv; [apply touch_equiv|exact Hok'|done..]|apply touch_equiv]].
  apply on_machine_Done. unfold vload8, byte. rewrite Hp.
  assert (walk (s_machine s) a = Some (trans_of e)) as Hw
    by (rewrite walk_page_entry by (done || apply Hok); by rewrite He).
  rewrite (bind_Done _ _ _ _ _ (access_ok a false _ _ (tlb_ok_at _ _ (vm_tlb _ _ Hok)) Hw (or_introl eq_refl))).
  unfold gets. by rewrite touch_ram.
Qed.

Lemma data_store8 s va v e :
  let m := s_machine s in let pa := entry_frame e + va mod 4096 in
  vm_ok m (s_pmm s) -> is_u32 va -> managed (va / 4096) ->
  page_entry m (va / 4096) = Some e -> entry_writable e = true ->
  exists m', on_machine (vstore8 va v) s = Done tt (with_machine m' s) /\
    vm_ok m' (s_pmm s) /\ same_tables m m' /\
    m_ram m' = pwrite8 pa v (m_ram m) /\ m_cr0 m' = m_cr0 m.
Proof.
  intros m pa Hok Hu Hn He Hw. set (m' := set_ram (pwrite8 pa v) (touch va m)).
  destruct (touch_equiv va m) as (Er & E0 & E2 & E3).
  assert (m_ram m' = pwrite8 pa v (m_ram m)) as Hram by (subst m'; cbn; by rewrite Er).
  assert (same_tables m m') as Hst.
  { split; [done|]. intros a Ha. rewrite Hram, pread8_write8.
    destruct (vm_leaf _ _ Hok _ e Hn He) as [Hx _].
    destruct (page_entry_u32 _ _ _ He) as [Heu _]. pose proof (entry_frame_aligned e Heu).
    assert (a / 4096 <> entry_frame e / 4096) by (intros E; by rewrite E in Ha).
    case_decide; subst pa; try done; dlia. }
  assert (walk m va = Some (trans_of e)) as Hwk
    by (rewrite walk_page_entry by (done || apply Hok); by rewrite He).
  exists m'. split; [|split; [|by split_and!]].
  - apply on_machine_Done. unfold vstore8.
    by rewrite (bind_Done _ _ _ _ _ (access_ok va true _ _ (tlb_ok_at _ _ (vm_tlb _ _ Hok)) Hwk (or_intror Hw))).
  - apply (vm_ok_same_tables (touch va m)); [|split; [done|]|done].
    + eapply vm_ok_equiv; [apply touch_equiv|apply touch_tlb_ok; [done|apply Hok]|done].
    + intros a. rewrite (touch_equiv va m). by apply Hst.
Qed.

(** Two bytes of mapped pages have two physical addresses. *)
Lemma bytes_apart s a b ea eb :
  vm_ok (s_machine s) (s_pmm s) -> managed (a / 4096) -> managed (b / 4096) ->
  page_entry (s_machine s) (a / 4096) = Some ea -> page_entry (s_machine s) (b / 4096) = Some eb ->
  entry_frame ea + a mod 4096 = entry_frame eb + b mod 4096 -> a = b.
Proof.
  intros Hok Ha Hb Hea Heb E.
  destruct (page_entry_u32 _ _ _ Hea) as [Hua _], (page_entry_u32 _ _ _ Heb) as [Hub _].
  pose proof (entry_frame_aligned ea Hua). pose proof (entry_frame_aligned eb Hub).
  assert (entry_frame ea = entry_frame eb) as Ef by dlia.
  pose proof (vm_leaf_own _ _ Hok _ _ ea eb Ha Hb Hea Heb Ef). dlia.
Qed.

Lemma store8_spec s a v :
  env_ok s -> mapped s (word_of a) ->
  exists s', on_machine (vstore8 a v) s = Done tt s' /\ (forall F, untouched F s s') /\
    writes (fun x => x = word_of a) s s' /\
    (forall b, mapped s (word_of b) -> byte s' b = if decide (b = a) then wrap8 v else byte s b).
Proof.
  intros Hok Hm. destruct (mapped_byte s a Hm) as (Hu & Hn & e & He & Hw & Hp).
  destruct (data_store8 s a v e Hok Hu Hn He Hw) as (m' & E & Hok' & Hst & Hram & H0). cbv zeta in *.
  pose proof (vm_tables _ _ Hok) as Ht.
  assert (forall n, managed n -> page_entry m' n = page_entry (s_machine s) n) as Hpe.
  { intros n Hmn. pose proof (managed_range n Hmn). apply (same_tables_page_entry _ _ Ht Hst). lia. }
  exists (with_machine m' s). split; [exact E|]. split.
  { intros F. apply untouched_tables; [done..|]. intros b Hb. specialize (Hb _ _ Hn He).
    destruct (page_entry_u32 _ _ _ He) as [Heu _]. pose proof (entry_frame_aligned e Heu).
    rewrite Hram, pread8_write8, decide_False; [done|dlia]. }
  split; [split|].
  - exact Hok'.
  - intros n Hmn. cbn. by rewrite Hpe.
  - intros x Hx Hne. destruct (mapped_entry s x Hx) as (_ & Hmx & Hnx & ex & Hex & _ & _ & ->).
    unfold word. cbn [s_machine with_machine sys_view]. unfold phys. rewrite Hpe, Hex by done.
    cbn [fmap option_fmap option_map]. rewrite Hram. unfold pread32. rewrite !pread8_write8.
    assert (forall k, 0 <= k < 4 -> entry_frame e + a mod 4096 <> entry_frame ex + x mod 4096 + k) as Hk.
    { intros k Hk Eq. apply Hne. unfold word_of.
      assert (a = x + k) as ->; [|dlia]. replace (x / 4096) with ((x + k) / 4096) in Hnx, Hex by dlia.
      apply (bytes_apart s a (x + k) e ex); [done..|]. dlia. }
    pose proof (Hk 0 ltac:(lia)) as Hk0. rewrite Z.add_0_r in Hk0.
    by rewrite !decide_False by (exact Hk0 || (apply Hk; lia)).
  - intros f [Hf (H1 & H2 & H3)]. split; [exact Hf|]. cbn [s_machine s_pmm with_machine].
    split_and!; [by rewrite (same_tables_is_table _ _ Ht Hst)|assumption|].
    intros k e' Hk Hk0. rewrite Hpe by done. by apply H3.
  - reflexivity.
  - reflexivity.
  - intros b Hb. destruct (mapped_byte s b Hb) as (_ & Hnb & eb & Heb & _ & Hpb).
    unfold byte. cbn [s_machine with_machine]. rewrite Hpb. unfold phys. rewrite Hpe, Heb by done.
    cbn [fmap option_fmap option_map]. rewrite Hram, pread8_write8.
    destruct (decide (b = a)) as [->|Hne].
    + rewrite He in Heb. injection Heb as <-. by rewrite decide_True.
    + rewrite decide_False; [done|]. intros Eq. apply Hne. symmetry. by apply (bytes_apart s a b e eb).
Qed.

(** ** A block that is in use *)

(** Words outside the payload of a live block hold the headers. *)
Lemma tiles_payload w w' bs : forall a z p sz,
  tiles w a bs z -> (p, sz) ∈ live a bs -> a mod 4 = 0 ->
  (forall x, x mod 4 = 0 -> a <= x < z -> ~ (p <= x < p + sz) -> w' x = w x) -> tiles w' a bs z.
Proof.
  induction bs as [|[s u] bs IH]; intros a z p sz; cbn [tiles live]; [by inversion 2|].
  intros (Hb & H1 & H2 & H3) Hin Ha Hw. pose proof Hb as [Hb1 Hb2]. cbn in Hb1, Hb2.
  pose proof (tiles_span _ _ _ _ H3) as Hz. pose proof (tiles_ok _ _ _ _ H3) as Hok.
  destruct (span_nonneg bs Hok) as [Hs Hs8]. unfold HEADER in *. rewrite elem_of_app in Hin.
  assert (p = a + 8 /\ sz = s \/ (p, sz) ∈ live (a + 8 + s) bs) as Hp.
  { destruct Hin as [Hin|Hin]; [|by right]. destruct u; [|by inversion Hin].
    apply list_elem_of_singleton in Hin. left. by injection Hin. }
  assert (a + 8 <= p) as Hle by (destruct Hp as [[-> _]|Hp]; [lia|apply live_range in Hp; [unfold HEADER in Hp; lia|done]]).
  split; [exact Hb|]. split; [rewrite Hw by dlia; exact H1|]. split; [rewrite Hw by dlia; exact H2|].
  destruct Hp as [[-> ->]|Hp].
  - revert H3. apply tiles_ext. intros x Hx Hm. split; apply Hw; dlia.
  - apply (IH _ _ p sz H3 Hp); [dlia|]. intros x Hx1 Hx2. apply Hw; [done|lia].
Qed.

Lemma heap_ok_payload P h (s s' : sys) bs p sz :
  heap_ok h s bs -> (p, sz) ∈ live (h_base h) bs -> writes P s s' ->
  (forall x, P x -> p <= x < p + sz) -> heap_ok h s' bs.
Proof.
  intros Hh Hin W HP. apply (heap_ok_writes P h s s' bs); [exact Hh|exact W|].
  pose proof (g_align _ (ho_geometry _ _ _ Hh)) as (A1 & _).
  apply (tiles_payload (word s) _ _ _ _ p sz (ho_tiles _ _ _ Hh) Hin); [dlia|].
  intros x Hx1 Hx2 Hout. apply (wr_word _ _ _ W).
  - by apply (heap_mapped h); [apply Hh|apply Hh|..].
  - intros Hp. by apply Hout, HP.
Qed.

(** The block is live in one of the two heaps. *)
Definition given (virtual : bool) (kb vb : list block) (p sz : Z) : Prop :=
  if virtual then (p, sz) ∈ live VMALLOC_BASE vb else (p, sz) ∈ live KHEAP_BASE kb.

Lemma given_mapped k kb vb virtual p sz a :
  heaps_ok k kb vb -> given virtual kb vb p sz -> p mod 4 = 0 -> p <= a < p + sz ->
  mapped (k_sys k) (word_of a) /\ p <= word_of a < p + sz /\ a < 4294967296.
Proof.
  intros [Hk Hv (K1 & _) (V1 & _)] Hg Hp Ha. assert (p <= word_of a <= a) as Hw by (unfold word_of; dlia).
  assert (word_of a mod 4 = 0) as H4 by (unfold word_of; dlia).
  destruct virtual; cbn [given] in Hg; [rewrite <- V1 in Hg|rewrite <- K1 in Hg].
  - pose proof (live_mapped _ _ _ _ _ (word_of a) Hv Hg ltac:(lia) H4) as Hm. split; [exact Hm|]. split; [lia|].
    apply mapped_byte in Hm as (Hu & _). apply Hu.
  - pose proof (live_mapped _ _ _ _ _ (word_of a) Hk Hg ltac:(lia) H4) as Hm. split; [exact Hm|]. split; [lia|].
    apply mapped_byte in Hm as (Hu & _). apply Hu.
Qed.

(** A step that writes inside a block of one heap disturbs neither. *)
Lemma heaps_payload P k kb vb virtual p sz s' :
  heaps_ok k kb vb -> given virtual kb vb p sz -> writes P (k_sys k) s' ->
  (forall x, P x -> p <= x < p + sz) -> heaps_ok (with_sys s' k) kb vb.
Proof.
  intros [Hk Hv (K1 & K2 & K3) (V1 & V2 & V3)] Hg W HP.
  assert (forall h bs, heap_ok h (k_sys k) bs -> (p, sz) ∈ live (h_base h) bs -> stays h (k_sys k) s') as Hst.
  { intros h bs Hh Hin. apply (stays_writes P _ _ _ W). intros x Hx. apply HP in Hx.
    apply live_range in Hin; [|by eapply heap_ok_ext]. unfold HEADER in Hin.
    rewrite <- (tiles_span _ _ _ _ (ho_tiles _ _ _ Hh)) in Hin.
    pose proof (g_align _ (ho_geometry _ _ _ Hh)). pose proof (g_brk _ (ho_geometry _ _ _ Hh)). dlia. }
  destruct virtual; cbn [given] in Hg; split; cbn [with_sys k_heap v_heap k_sys]; try done.
  - rewrite <- V1 in Hg. apply (heap_ok_other _ (v_heap k) (k_sys k)); [exact Hk|by eapply Hst|apply W|..].
    + left. rewrite K2, V1. by_decide.
    + rewrite V1. by_decide.
    + rewrite V2. by_decide.
    + done.
  - rewrite <- V1 in Hg. by apply (heap_ok_payload P _ (k_sys k) _ _ p sz).
  - rewrite <- K1 in Hg. by apply (heap_ok_payload P _ (k_sys k) _ _ p sz).
  - rewrite <- K1 in Hg. apply (heap_ok_other _ (k_heap k) (k_sys k)); [exact Hv|by eapply Hst|apply W|..].
    + right. rewrite K2, V1. by_decide.
    + rewrite K1. by_decide.
    + rewrite K2. by_decide.
    + congruence.
Qed.

(** ** The test pattern *)

Section Pattern.
Context (kb vb : list block) (virtual : bool) (p sz : Z).
Hypothesis (Hgiven : given virtual kb vb p sz) (Hp : p mod 4 = 0) (Hp0 : 0 <= p).

Lemma fill_spec n : forall j k,
  heaps_ok k kb vb -> 0 <= j -> j + Z.of_nat n <= sz ->
  exists s', for_each (seqZ j (Z.of_nat n)) (fun i => on_machine (vstore8 (p +u i) (Z.land i 255))) (k_sys k)
      = Done tt s' /\
    heaps_ok (with_sys s' k) kb vb /\ (forall F, untouched F (k_sys k) s') /\
    (forall i, 0 <= i < sz -> byte s' (p + i) =
       if decide (j <= i < j + Z.of_nat n) then Z.land i 255 else byte (k_sys k) (p + i)).
Proof.
  induction n as [|n IH]; intros j k Hh Hj Hn.
  { exists (k_sys k). split; [reflexivity|]. split; [by destruct k|]. split; [intros F; apply untouched_refl|].
    intros i Hi. rewrite decide_False by lia. done. }
  rewrite Nat2Z.inj_succ, seqZ_cons, Z.pred_succ by lia. cbn [for_each].
  destruct (given_mapped k kb vb virtual p sz (p + j) Hh Hgiven Hp ltac:(lia)) as (Hm & Hw & Hu).
  rewrite wrap32_small by (unfold is_u32; lia).
  destruct (store8_spec (k_sys k) (p + j) (Z.land j 255) (ho_env _ _ _ (hp_k _ _ _ Hh)) Hm)
    as (s1 & E1 & U1 & W1 & B1). rewrite (bind_Done _ _ _ _ _ E1).
  assert (heaps_ok (with_sys s1 k) kb vb) as Hh1
    by (apply (heaps_payload _ k kb vb virtual p sz s1 Hh Hgiven W1); intros x ->; exact Hw).
  destruct (IH (j + 1) (with_sys s1 k) Hh1) as (s2 & E2 & Hh2 & U2 & B2); [lia|lia|].
  exists s2. split; [exact E2|]. split; [exact Hh2|]. split; [intros F; by eapply untouched_trans|].
  intros i Hi. rewrite B2 by done. cbn [with_sys k_sys].
  destruct (given_mapped k kb vb virtual p sz (p + i) Hh Hgiven Hp ltac:(lia)) as (Hmi & _).
  rewrite B1 by exact Hmi. repeat case_decide; try lia; try done.
  replace i with j by lia. change 255 with (Z.ones 8). rewrite Z.land_ones by lia.
  unfold wrap8. change (2 ^ 8) with 256. by rewrite Z.mod_mod.
Qed.

End Pattern.
