(* ===== verification/BootMem.v ===== *)
(** * Memory under the page tables of boot.asm

    Until [paging::init] runs, the kernel runs on the two tables boot.asm
    built: the first 4 mb of memory appear at 0 and at 0xC0000000, and the
    directory is mapped into itself.  [boot_ok] says that the tables still
    are what boot.asm wrote; loads and stores of the early code keep it. *)

From S2P Require Import Prelude.
From S2P Require Import Mem.
From S2P Require Import Machine.
From S2P Require Import Fmt.
From S2P Require Import Paging.
From S2P Require Import PagingSpec.
From S2P Require Import PagingOps.

(** ** What the linker guarantees *)

(** A page-aligned page of the .bss section. *)
Definition bss_page `{Linker} (a : Z) : Prop :=
  a mod 4096 = 0 /\ kernel_readonly_end <= a /\ a + 4096 <= kernel_end.

(** The layout of linker.ld, of the alignments the sources ask for, and of
    an image small enough for its window. *)
Class LinkerOk `{Linker} : Prop := {
  lk_load : boot_start = 0x100000;
  lk_start : 0xC0100000 <= kernel_start /\ kernel_start mod 4096 = 0;
  lk_code : kernel_start < kernel_code_end <= kernel_readonly_end;
  lk_readonly : kernel_readonly_end mod 4096 = 0 /\ kernel_readonly_end <= kernel_end;
  lk_end : kernel_end mod 4096 = 0 /\ kernel_end <= 0xC0400000;
  lk_pages : bss_page boot_directory /\ bss_page boot_low_table /\ bss_page kernel_table;
  lk_distinct : NoDup [boot_directory; boot_low_table; kernel_table];
  lk_idt : idt_table mod 4 = 0 /\ kernel_readonly_end <= idt_table /\ idt_table + 2048 <= kernel_end /\
    forall p, p ∈ [boot_directory; boot_low_table; kernel_table] ->
      p + 4096 <= idt_table \/ idt_table + 2048 <= p;
  lk_stack : kernel_readonly_end <= stack_bottom /\ stack_bottom <= stack_top /\ stack_top <= kernel_end;
  lk_stubs : forall v, 0 <= v < 32 -> is_u32 (isr_addr v);
  lk_table : isr_table mod 4 = 0 /\ kernel_code_end <= isr_table /\ isr_table + 128 <= kernel_readonly_end;
}.

(** Physical address of a symbol of the image. *)
Definition at_phys (a : Z) : Z := a - 3221225472.

(** An address of one of the two windows, and what it stands for. *)
Definition windowed (va : Z) : Prop :=
  0 <= va < 4194304 \/ 3221225472 <= va < 3225419776.
Definition boot_phys (va : Z) : Z := if va <? 4194304 then va else at_phys va.

(** ** The tables of boot.asm *)

Section BootMem.
Context `{LK : LinkerOk}.

Definition boot_dir : Z := at_phys boot_directory.
Definition boot_low : Z := at_phys boot_low_table.

Record boot_ok (m : machine) : Prop := {
  bt_dir : dir_base m = boot_dir;
  bt_pde : forall d, 0 <= d < 1024 -> pde m d =
    if decide (d = 0 \/ d = 768) then boot_low + 3 else if decide (d = 1023) then boot_dir + 3 else 0;
  bt_low : forall i, 0 <= i < 1024 -> pread32 (m_ram m) (boot_low + 4 * i) = i * 4096 + 3;
  bt_tlb : tlb_ok m;
}.

Lemma boot_frames :
  boot_dir mod 4096 = 0 /\ boot_low mod 4096 = 0 /\ boot_dir <> boot_low /\
  1048576 <= boot_dir < 4194304 /\ 1048576 <= boot_low < 4194304.
Proof.
  destruct lk_pages as ((A1 & A2 & A3) & (B1 & B2 & B3) & _).
  pose proof lk_start. pose proof lk_code. destruct lk_end as [_ E]. pose proof lk_distinct as Hd.
  inversion_clear Hd as [|? ? Hn _]. unfold boot_dir, boot_low, at_phys.
  assert (boot_directory <> boot_low_table) by (intros Ex; apply Hn; rewrite Ex; by left).
  split_and!; dlia.
Qed.

(** An entry whose low bits are 3: present and writable. *)
Lemma entry3 f : 0 <= f < 4294963200 -> f mod 4096 = 0 ->
  entry_present (f + 3) = true /\ entry_writable (f + 3) = true /\ entry_frame (f + 3) = f.
Proof.
  intros Hf Hm. unfold entry_present, entry_writable. split_and!.
  - rewrite Z.testbit_odd, Z.shiftr_0_r, Zodd_mod. apply Z.eqb_eq. dlia.
  - rewrite Z.testbit_odd, Z.shiftr_div_pow2, Zodd_mod by lia. apply Z.eqb_eq.
    change (2 ^ 1) with 2. dlia.
  - rewrite entry_frame_eq by (unfold is_u32; lia). dlia.
Qed.

Lemma boot_walk m va :
  boot_ok m -> windowed va -> walk m va = Some (mkTrans (boot_phys va - va mod 4096) true).
Proof.
  intros Hm Hv. destruct boot_frames as (A1 & A2 & A3 & A4 & A5).
  assert (va / 4194304 = 0 \/ va / 4194304 = 768) as Hd by (unfold windowed in Hv; dlia).
  unfold walk. rewrite (bt_pde _ Hm), decide_True by (done || lia).
  destruct (entry3 boot_low) as (E1 & E2 & E3); [lia|done|].
  unfold pte. rewrite (bt_pde _ Hm), decide_True by (done || lia). rewrite E1, E2, E3.
  rewrite (bt_low _ Hm) by dlia.
  destruct (entry3 ((va / 4096) mod 1024 * 4096)) as (F1 & F2 & F3); [dlia|dlia|].
  rewrite F1, F2, F3. do 2 f_equal. unfold boot_phys, at_phys, windowed in *.
  destruct (Z.ltb_spec va 4194304); dlia.
Qed.

(** The directory seen through itself. *)
Lemma boot_walk_dir m d :
  boot_ok m -> 0 <= d < 1024 -> walk m (win 1023 d) = Some (mkTrans boot_dir true).
Proof.
  intros Hm Hd. destruct boot_frames as (A1 & A2 & A3 & A4 & A5).
  destruct (win_arith 1023 d) as (Hu & Hn & _); [lia|done|].
  unfold walk. rewrite Hn. replace (win 1023 d / 4194304) with 1023 by (unfold win; dlia).
  replace ((1047552 + 1023) mod 1024) with 1023 by done.
  destruct (entry3 boot_dir) as (E1 & E2 & E3); [lia|done|].
  assert (pde m 1023 = boot_dir + 3) as Hp.
  { rewrite (bt_pde _ Hm), decide_False, decide_True by lia. done. }
  assert (pte m 1023 1023 = boot_dir + 3) as Hq.
  { unfold pte. rewrite Hp, E3, <- Hp. unfold pde. by rewrite (bt_dir _ Hm). }
  by rewrite Hp, Hq, E1, E2, E3.
Qed.

Lemma boot_ok_equiv m m' : m' ≡ m -> tlb_ok m' -> boot_ok m -> boot_ok m'.
Proof.
  intros Q Ht [H1 H2 H3 _]. split; [by rewrite Q| | |done].
  - intros d Hd. by rewrite Q, H2.
  - destruct Q as [-> _]. done.
Qed.

Lemma boot_touch m va : is_u32 va -> boot_ok m -> boot_ok (touch va m).
Proof.
  intros Hu Hm. apply (boot_ok_equiv m); [apply touch_equiv|apply touch_tlb_ok; [done|apply Hm]|done].
Qed.

(** Bytes outside the two tables. *)
Definition off_tables (a : Z) : Prop := a / 4096 <> boot_dir / 4096 /\ a / 4096 <> boot_low / 4096.

(** Another memory with the same tables. *)
Lemma boot_ok_bytes m m' :
  boot_ok m -> m_tlb m' = m_tlb m -> m_cr3 m' = m_cr3 m ->
  (forall a, ~ off_tables a -> pread8 (m_ram m') a = pread8 (m_ram m) a) -> boot_ok m'.
Proof.
  intros Hm Ht H3 Hb. destruct boot_frames as (A1 & A2 & A3 & A4 & A5). unfold off_tables in Hb.
  assert (forall d, 0 <= d < 1024 -> pread32 (m_ram m') (boot_dir + 4 * d) =
            pread32 (m_ram m) (boot_dir + 4 * d)) as Hdir.
  { intros d Hd. unfold pread32. rewrite !Hb by (intros [Hx Hy]; dlia). done. }
  assert (forall i, 0 <= i < 1024 -> pread32 (m_ram m') (boot_low + 4 * i) =
            pread32 (m_ram m) (boot_low + 4 * i)) as Hlow.
  { intros d Hd. unfold pread32. rewrite !Hb by (intros [Hx Hy]; dlia). done. }
  assert (dir_base m' = dir_base m) as Hdb by (unfold dir_base; by rewrite H3).
  assert (forall d, 0 <= d < 1024 -> pde m' d = pde m d) as Hpde.
  { intros d Hd. unfold pde. rewrite Hdb, (bt_dir _ Hm). by apply Hdir. }
  assert (forall n, 0 <= n < 1048576 -> walk m' (n * 4096) = walk m (n * 4096)) as Hw.
  { intros n Hn. unfold walk, pte. rewrite Z.div_mul by lia. rewrite Hpde by dlia.
    rewrite (bt_pde _ Hm) by dlia. destruct (decide _).
    - destruct (entry3 boot_low) as (_ & _ & ->); [lia|done|]. by rewrite Hlow by dlia.
    - destruct (decide _); [|done].
      destruct (entry3 boot_dir) as (_ & _ & ->); [lia|done|]. by rewrite Hdir by dlia. }
  split.
  - by rewrite Hdb, (bt_dir _ Hm).
  - intros d Hd. by rewrite Hpde, (bt_pde _ Hm).
  - intros i Hi. by rewrite Hlow, (bt_low _ Hm).
  - intros n t. rewrite Ht. intros Hn. destruct (bt_tlb _ Hm n t Hn) as [Hr E]. by rewrite Hw.
Qed.

(** ** Loads and stores *)

Lemma windowed_u32 va : windowed va -> is_u32 va.
Proof. unfold windowed, is_u32. lia. Qed.

Lemma boot_load32 m va :
  boot_ok m -> windowed va -> va mod 4096 <= 4092 ->
  vload32 va m = Done (pread32 (m_ram m) (boot_phys va)) (touch va m).
Proof.
  intros Hm Hv Ha. rewrite (vload32_ok va m _ (tlb_ok_at _ _ (bt_tlb _ Hm)) (boot_walk m va Hm Hv) Ha).
  cbn [t_frame]. do 2 f_equal. lia.
Qed.

Lemma boot_load8 m va :
  boot_ok m -> windowed va -> vload8 va m = Done (pread8 (m_ram m) (boot_phys va)) (touch va m).
Proof.
  intros Hm Hv. unfold vload8.
  rewrite (bind_Done _ _ _ _ _ (access_ok va false m _ (tlb_ok_at _ _ (bt_tlb _ Hm))
    (boot_walk m va Hm Hv) (or_introl eq_refl))).
  unfold gets. rewrite touch_ram. cbn [t_frame]. do 2 f_equal. lia.
Qed.

(** What early code may do to the machine: the tables stay, and only bytes of
    [P] change. *)
Record early (P : Z -> Prop) (m m' : machine) : Prop := {
  ea_ok : boot_ok m';
  ea_bytes : forall a, ~ P a -> pread8 (m_ram m') a = pread8 (m_ram m) a;
  ea_regs : m_cr0 m' = m_cr0 m /\ m_cr2 m' = m_cr2 m /\ m_cr3 m' = m_cr3 m;
}.

Lemma early_refl P m : boot_ok m -> early P m m.
Proof. by split. Qed.

Lemma early_trans P m1 m2 m3 : early P m1 m2 -> early P m2 m3 -> early P m1 m3.
Proof.
  intros [_ B1 (R1 & R2 & R3)] [O2 B2 (S1 & S2 & S3)]. split; [done| |].
  - intros a Ha. by rewrite B2, B1.
  - split_and!; congruence.
Qed.

Lemma early_weaken (P Q : Z -> Prop) m m' :
  (forall a, P a -> Q a) -> early P m m' -> early Q m m'.
Proof. intros HPQ [O B R]. split; [done| |done]. intros a Ha. apply B. auto. Qed.

Lemma early_touch P m va : boot_ok m -> is_u32 va -> early P m (touch va m).
Proof.
  intros Hm Hu. destruct (touch_equiv va m) as (E1 & E2 & E3 & E4).
  split; [by apply boot_touch|by rewrite E1|done].
Qed.

Lemma early_word P m m' a :
  early P m m' -> (forall x, a <= x < a + 4 -> ~ P x) -> pread32 (m_ram m') a = pread32 (m_ram m) a.
Proof. intros He Ha. unfold pread32. rewrite !(ea_bytes _ _ _ He) by (apply Ha; lia). done. Qed.

Lemma boot_store32 m va v :
  boot_ok m -> windowed va -> va mod 4 = 0 -> off_tables (boot_phys va) ->
  exists m', vstore32 va v m = Done tt m' /\ m_ram m' = pwrite32 (boot_phys va) v (m_ram m) /\
    early (fun a => boot_phys va <= a < boot_phys va + 4) m m'.
Proof.
  intros Hm Hv Ha Hoff. pose proof (windowed_u32 va Hv) as Hu.
  exists (set_ram (pwrite32 (boot_phys va) v) (touch va m)).
  destruct (touch_equiv va m) as (E1 & E2 & E3 & E4).
  assert (forall a, ~ boot_phys va <= a < boot_phys va + 4 ->
    pread8 (pwrite32 (boot_phys va) v (m_ram m)) a = pread8 (m_ram m) a) as Hb.
  { intros a Hx. unfold pwrite32. rewrite !pread8_write8. repeat case_decide; (done || lia). }
  split; [|split; [cbn; by rewrite E1|]].
  - erewrite vstore32_ok by (apply tlb_ok_at, (bt_tlb _ Hm) || apply (boot_walk m va Hm Hv) || done || dlia).
    cbn [t_frame]. do 3 f_equal. lia.
  - split; [|cbn; by rewrite E1|done].
    apply (boot_ok_bytes (touch va m)); [by apply boot_touch|done|done|].
    intros a Hx. cbn. rewrite E1. apply Hb. intros Hr. apply Hx. unfold off_tables in *.
    replace (a / 4096) with (boot_phys va / 4096); [done|].
    unfold boot_phys, at_phys in *. destruct (Z.ltb_spec va 4194304); dlia.
Qed.

(** The same for a [u64]. *)
Lemma boot_phys_add va k : windowed va -> windowed (va + k) -> 0 <= k < 4096 -> boot_phys (va + k) = boot_phys va + k.
Proof.
  unfold windowed, boot_phys, at_phys. intros Ha Hb Hk.
  destruct (Z.ltb_spec va 4194304), (Z.ltb_spec (va + k) 4194304); lia.
Qed.

Lemma boot_store64 m va v :
  boot_ok m -> windowed va -> windowed (va + 4) -> va mod 4 = 0 ->
  off_tables (boot_phys va) -> off_tables (boot_phys va + 4) -> 0 <= v < 18446744073709551616 ->
  exists m', vstore64 va v m = Done tt m' /\ pread64 (m_ram m') (boot_phys va) = v /\
    early (fun a => boot_phys va <= a < boot_phys va + 8) m m'.
Proof.
  intros Hm H1 H2 Ha O1 O2 Hv. pose proof (boot_phys_add va 4 H1 H2 ltac:(lia)) as Hp.
  assert (va +u 4 = va + 4) as Ew by (apply wrap32_small, windowed_u32, H2).
  unfold vstore64. rewrite Ew.
  destruct (boot_store32 m va (wrap32 v) Hm H1 Ha O1) as (m1 & E1 & R1 & S1).
  destruct (boot_store32 m1 (va + 4) (wrap32 (v / 4294967296)) (ea_ok _ _ _ S1) H2) as (m2 & E2 & R2 & S2);
    [dlia|by rewrite Hp|].
  exists m2. rewrite (bind_Done _ _ _ _ _ E1). split; [exact E2|]. split.
  - unfold pread64. rewrite R2, Hp, pread32_write32 by (apply wrap32_range).
    rewrite pread32_write32_ne, R1, pread32_write32 by (apply wrap32_range || lia).
    unfold wrap32. dlia.
  - eapply early_trans; [eapply early_weaken; [|exact S1]|eapply early_weaken; [|exact S2]];
      cbn; intros a; lia.
Qed.

Lemma boot_load64 m va :
  boot_ok m -> windowed va -> windowed (va + 4) -> va mod 4 = 0 ->
  exists m', vload64 va m = Done (pread64 (m_ram m) (boot_phys va)) m' /\ early (fun _ => False) m m'.
Proof.
  intros Hm H1 H2 Ha. pose proof (boot_phys_add va 4 H1 H2 ltac:(lia)) as Hp.
  assert (va +u 4 = va + 4) as Ew by (apply wrap32_small, windowed_u32, H2).
  pose proof (early_touch (fun _ => False) m va Hm (windowed_u32 _ H1)) as S1.
  eexists. unfold vload64. rewrite Ew, (bind_Done _ _ _ _ _ (boot_load32 m va Hm H1 ltac:(dlia))).
  rewrite (bind_Done _ _ _ _ _ (boot_load32 _ (va + 4) (ea_ok _ _ _ S1) H2 ltac:(dlia))).
  rewrite touch_ram, Hp. split; [reflexivity|].
  eapply early_trans; [exact S1|]. apply early_touch; [apply S1|by apply windowed_u32].
Qed.

(** Loads at any address, page boundaries included. *)
Lemma boot_load8_any m va :
  boot_ok m -> windowed va ->
  exists m', vload8 va m = Done (pread8 (m_ram m) (boot_phys va)) m' /\ early (fun _ => False) m m'.
Proof.
  intros Hm Hw. eexists. split; [by apply boot_load8|]. apply early_touch; [done|by apply windowed_u32].
Qed.

Lemma early_pread8 m m' a : early (fun _ => False) m m' -> pread8 (m_ram m') a = pread8 (m_ram m) a.
Proof. intros He. apply (ea_bytes _ _ _ He). tauto. Qed.

Lemma windowed_between va k : windowed va -> windowed (va + 3) -> 0 <= k <= 3 -> windowed (va + k).
Proof. unfold windowed. lia. Qed.

Lemma boot_load32_any m va :
  boot_ok m -> windowed va -> windowed (va + 3) ->
  exists m', vload32 va m = Done (pread32 (m_ram m) (boot_phys va)) m' /\ early (fun _ => False) m m'.
Proof.
  intros Hm H0 H3. destruct (Z.le_gt_cases (va mod 4096) 4092) as [Hle|Hgt].
  { eexists. split; [by apply boot_load32|]. apply early_touch; [done|by apply windowed_u32]. }
  pose proof (windowed_between va 1 H0 H3 ltac:(lia)) as H1.
  pose proof (windowed_between va 2 H0 H3 ltac:(lia)) as H2.
  assert (forall k, 0 <= k <= 3 -> va +u k = va + k /\ boot_phys (va + k) = boot_phys va + k) as Hk.
  { intros k Hk. pose proof (windowed_between va k H0 H3 Hk) as Hw. split; [by apply wrap32_small, windowed_u32|].
    apply boot_phys_add; [done|done|lia]. }
  unfold vload32. rewrite (proj2 (Z.leb_gt _ _)) by lia.
  destruct (Hk 1 ltac:(lia)) as [W1 P1], (Hk 2 ltac:(lia)) as [W2 P2], (Hk 3 ltac:(lia)) as [W3 P3].
  rewrite W1, W2, W3.
  destruct (boot_load8_any m va Hm H0) as (m0 & E0 & S0).
  destruct (boot_load8_any m0 (va + 1) (ea_ok _ _ _ S0) H1) as (m1 & E1 & S1).
  destruct (boot_load8_any m1 (va + 2) (ea_ok _ _ _ S1) H2) as (m2 & E2 & S2).
  destruct (boot_load8_any m2 (va + 3) (ea_ok _ _ _ S2) H3) as (m3 & E3 & S3).
  pose proof (early_trans _ _ _ _ S0 S1) as S01. pose proof (early_trans _ _ _ _ S01 S2) as S02.
  exists m3. rewrite (bind_Done _ _ _ _ _ E0), (bind_Done _ _ _ _ _ E1), (bind_Done _ _ _ _ _ E2),
    (bind_Done _ _ _ _ _ E3).
  split; [|by eapply early_trans]. unfold ret. f_equal.
  by rewrite P1, P2, P3, (early_pread8 _ _ _ S02), (early_pread8 _ _ _ S01), (early_pread8 _ _ _ S0).
Qed.

Lemma early_pread32 m m' a : early (fun _ => False) m m' -> pread32 (m_ram m') a = pread32 (m_ram m) a.
Proof. intros He. apply (early_word _ _ _ _ He). tauto. Qed.

Lemma boot_load64_any m va :
  boot_ok m -> windowed va -> windowed (va + 7) ->
  exists m', vload64 va m = Done (pread64 (m_ram m) (boot_phys va)) m' /\ early (fun _ => False) m m'.
Proof.
  intros Hm H0 H7. assert (windowed (va + 3) /\ windowed (va + 4) /\ windowed (va + 4 + 3)) as (H3 & H4 & H5)
    by (unfold windowed in *; lia).
  destruct (boot_load32_any m va Hm H0 H3) as (m1 & E1 & S1).
  destruct (boot_load32_any m1 (va + 4) (ea_ok _ _ _ S1) H4 H5) as (m2 & E2 & S2).
  exists m2. unfold vload64. rewrite (bind_Done _ _ _ _ _ E1).
  assert (va +u 4 = va + 4) as -> by (by apply wrap32_small, windowed_u32).
  rewrite (bind_Done _ _ _ _ _ E2), (boot_phys_add va 4 H0 H4) by lia.
  rewrite (early_pread32 _ _ _ S1). split; [done|by eapply early_trans].
Qed.

(** An array of [u64] written element by element. *)
Lemma boot_store_list vs : forall m va i,
  boot_ok m -> 0 <= i -> va mod 4 = 0 -> Forall (fun v => 0 <= v < 18446744073709551616) vs ->
  (forall k, 0 <= k < 8 * (i + Z.of_nat (length vs)) -> windowed (va + k) /\ boot_phys (va + k) = boot_phys va + k /\
     off_tables (boot_phys va + k)) ->
  exists m', store_list va i vs m = Done tt m' /\
    (forall j v, vs !! j = Some v -> pread64 (m_ram m') (boot_phys va + 8 * (i + Z.of_nat j)) = v) /\
    early (fun a => boot_phys va + 8 * i <= a < boot_phys va + 8 * (i + Z.of_nat (length vs))) m m'.
Proof.
  induction vs as [|v vs IH]; intros m va i Hm Hi Ha Hvs Hr.
  { exists m. split; [done|]. split; [done|by apply early_refl]. }
  apply Forall_cons_iff in Hvs as [Hv Hvs]. cbn [length store_list] in *.
  destruct (Hr (8 * i)) as (W1 & P1 & O1); [lia|]. destruct (Hr (8 * i + 4)) as (W2 & P2 & O2); [lia|].
  assert (va +u 8 * i = va + 8 * i) as Ew by (by apply wrap32_small, windowed_u32).
  replace (va + (8 * i + 4)) with (va + 8 * i + 4) in * by lia.
  destruct (boot_store64 m (va + 8 * i) v Hm W1 W2) as (m1 & E1 & R1 & S1);
    [dlia|by rewrite P1|rewrite P1; by replace (boot_phys va + 8 * i + 4) with (boot_phys va + (8 * i + 4)) by lia|done|].
  rewrite P1 in R1, S1.
  destruct (IH m1 va (i + 1) (ea_ok _ _ _ S1) ltac:(lia) Ha Hvs) as (m2 & E2 & R2 & S2).
  { intros k Hk. apply Hr. lia. }
  exists m2. rewrite Ew, (bind_Done _ _ _ _ _ E1). split; [exact E2|]. split.
  - intros [|j] w Hw; cbn in Hw.
    + injection Hw as <-. rewrite Z.add_0_r, <- R1. unfold pread64.
      by rewrite !(early_word _ _ _ _ S2) by (intros; cbn; lia).
    + rewrite <- (R2 j w Hw). do 2 f_equal. lia.
  - eapply early_trans; eapply early_weaken; [|exact S1| |exact S2]; cbn; intros a; lia.
Qed.

(** ** boot.asm *)

(** The loop that fills the low table, and the three directory entries. *)
(** boot.asm 38-58: _start *)
Definition start_tables (ram : gmap Z Z) : gmap Z Z :=
  let ram := foldl (fun ram i => pwrite32 (boot_low + 4 * i) (i * 4096 + 3) ram) ram (seqZ 0 1024) in
  let ram := pwrite32 boot_dir (boot_low + 3) ram in
  let ram := pwrite32 (boot_dir + 768 * 4) (boot_low + 3) ram in
  pwrite32 (boot_dir + 1023 * 4) (boot_dir + 3) ram.

(** [mov cr3, edx] and paging switched on: the machine [kmain] starts on. *)
(** boot.asm 38-66: _start *)
Definition start (ram : gmap Z Z) (cr0 : Z) : machine :=
  mkMachine (start_tables ram) ∅ (Z.lor cr0 PAGING_ON) 0 boot_dir.

(** The words of the loop, one after the other. *)
Lemma fill_words base (g : Z -> Z) ram n j :
  0 <= n <= 1024 -> (forall i, 0 <= i < n -> is_u32 (g i)) ->
  let ram' := foldl (fun ram i => pwrite32 (base + 4 * i) (g i) ram) ram (seqZ 0 n) in
  (0 <= j < n -> pread32 ram' (base + 4 * j) = g j) /\
  (forall a, a + 4 <= base \/ base + 4096 <= a -> pread32 ram' a = pread32 ram a).
Proof.
  intros Hn Hg.
  pose proof (foldl_seqZ_ind (fun i ram' => (0 <= j < i -> pread32 ram' (base + 4 * j) = g j) /\
    (forall a, a + 4 <= base \/ base + 4096 <= a -> pread32 ram' a = pread32 ram a))
    (fun ram i => pwrite32 (base + 4 * i) (g i) ram) 0 n ram) as H0.
  rewrite Z.sub_0_r in H0. apply H0; [split; [lia|done]| |lia].
  intros i ram' Hi [H1 H2]. split.
  - intros Hj. destruct (Z.eq_dec i j) as [->|Hne]; [by apply pread32_write32, Hg|].
    rewrite pread32_write32_ne by lia. apply H1. lia.
  - intros a Ha. rewrite pread32_write32_ne by lia. by apply H2.
Qed.

(** The tables boot.asm leaves, when the loader cleared the .bss section. *)
Lemma start_boot_ok ram cr0 :
  (forall a, boot_dir <= a < boot_dir + 4096 -> pread8 ram a = 0) -> boot_ok (start ram cr0).
Proof.
  intros Hz. destruct boot_frames as (A1 & A2 & A3 & A4 & A5).
  assert (dir_base (start ram cr0) = boot_dir) as Hd.
  { unfold dir_base. cbn [m_cr3 start]. rewrite entry_frame_eq by (unfold is_u32; lia). dlia. }
  pose proof (fun j => fill_words boot_low (fun i => i * 4096 + 3) ram 1024 j ltac:(lia)
    ltac:(unfold is_u32; lia)) as Hf. cbv zeta in Hf.
  split; [exact Hd| | |].
  - intros d Hr. unfold pde. rewrite Hd. cbn [m_ram start]. unfold start_tables. cbv zeta.
    destruct (Z.eq_dec d 1023) as [->|N1].
    { rewrite decide_False, decide_True by lia.
      replace (boot_dir + 4 * 1023) with (boot_dir + 1023 * 4) by lia.
      apply pread32_write32. unfold is_u32. lia. }
    rewrite pread32_write32_ne by lia. destruct (Z.eq_dec d 768) as [->|N2].
    { rewrite decide_True by lia. replace (boot_dir + 4 * 768) with (boot_dir + 768 * 4) by lia.
      apply pread32_write32. unfold is_u32. lia. }
    rewrite pread32_write32_ne by lia. destruct (Z.eq_dec d 0) as [->|N3].
    { rewrite decide_True by lia. rewrite Z.add_0_r. apply pread32_write32. unfold is_u32. lia. }
    rewrite pread32_write32_ne, !decide_False by lia.
    destruct (Hf 0) as [_ Hout]. rewrite Hout by dlia. unfold pread32. rewrite !Hz by lia. done.
  - intros i Hi. cbn [m_ram start]. unfold start_tables. cbv zeta.
    rewrite !pread32_write32_ne by dlia. by apply (Hf i).
  - intros n t. cbn. by rewrite lookup_empty.
Qed.

End BootMem.

(** ** A layout to run on *)

Definition demo_linker : Linker := {|
  boot_start := 0x100000;
  kernel_start := 0xC0101000;
  kernel_code_end := 0xC0108000;
  kernel_readonly_end := 0xC010A000;
  kernel_end := 0xC0120000;
  boot_directory := 0xC010C000;
  boot_low_table := 0xC010D000;
  stack_bottom := 0xC010E000;
  stack_top := 0xC0112000;
  kernel_table := 0xC0113000;
  idt_table := 0xC0114000;
  isr_table := 0xC0109000;
  isr_addr := fun i => 0xC0101000 + 16 * i;
|}.

Lemma demo_linker_ok : @LinkerOk demo_linker.
Proof.
  split; try by_decide.
  - split; [by_decide|]. split; [by_decide|]. split; [by_decide|].
    intros p. rewrite !elem_of_cons, elem_of_nil.
    cbn [demo_linker boot_directory boot_low_table kernel_table idt_table]. lia.
  - intros v Hv. cbn [demo_linker isr_addr]. unfold is_u32. lia.
Qed.

(** Words written one after the other. *)
Definition write_words (ws : list (Z * Z)) (ram : gmap Z Z) : gmap Z Z :=
  foldr (fun w ram => pwrite32 w.1 w.2 ram) ram ws.

Lemma write_words_apart ws ram a :
  Forall (fun w => a < w.1 \/ w.1 + 4 <= a) ws -> pread8 (write_words ws ram) a = pread8 ram a.
Proof.
  induction 1 as [|w ws Hw _ IH]; [done|]. cbn [write_words foldr]. rewrite <- IH.
  unfold pwrite32. rewrite !pread8_write8. repeat case_decide; (done || lia).
Qed.

(** The image as the loader placed it: of its bytes, the table of stubs. *)
Definition demo_image : gmap Z Z :=
  write_words (map (fun v => (0x109000 + 4 * v, 0xC0101000 + 16 * v)) (seqZ 0 32)) ∅.

Lemma demo_image_bss a : 0x10A000 <= a -> pread8 demo_image a = 0.
Proof.
  intros Ha. unfold demo_image. rewrite write_words_apart; [unfold pread8; by rewrite lookup_empty|].
  eapply (Forall_impl (P := fun w : Z * Z => w.1 + 4 <= 0x10A000)); [intros w Hw; lia|by_decide].
Qed.

(** The machine boot.asm hands over, on memory the loader cleared. *)
Definition demo_boot : machine := @start demo_linker demo_image 0x11.

Lemma demo_boot_ok : @boot_ok demo_linker demo_boot.
Proof.
  apply (@start_boot_ok demo_linker demo_linker_ok). intros a Ha. apply demo_image_bss. revert Ha.
  unfold boot_dir, at_phys. cbn [boot_directory demo_linker]. lia.
Qed.
