(* ===== verification/Start.v ===== *)
(** * The entry code (boot/boot.asm)

    [_start] instruction by instruction, on a processor that the loader left
    in protected mode with paging off.  An instruction is fetched from the
    physical address its linear address stands for, so the code must stay
    reachable when it switches paging on and when it jumps to the higher
    half.  The theorem: it calls [kmain] with the loader's two values, on the
    machine of BootMem.v. *)

From S2P Require Import Prelude.
From S2P Require Import Mem.
From S2P Require Import Machine.
From S2P Require Import Fmt.
From S2P Require Import Paging.
From S2P Require Import PagingSpec.
From S2P Require Import PagingOps.
From S2P Require Import BootMem.

(** ** Instructions *)

Inductive reg : Type := EAX | ECX | EDX | EBX | ESP | EBP | ESI | EDI.

#[global] Instance reg_eq_dec : EqDecision reg.
Proof. solve_decision. Defined.

(** The instructions boot.asm uses. *)
Inductive instr : Type :=
| Mov (dst src : reg)
| MovImm (dst : reg) (value : Z)
| Store (base : reg) (disp : Z) (src : reg)     (* mov [base + disp], src *)
| AddImm (dst : reg) (value : Z)
| OrImm (dst : reg) (value : Z)
| Loop (target : Z)
| MovToCr3 (src : reg)
| MovFromCr0 (dst : reg)
| MovToCr0 (src : reg)
| JmpReg (target : reg)
| Jmp (target : Z)
| Push (src : reg)
| Call (target : Z)
| Cli
| Hlt.

(** ** The processor *)

Record core : Type := mkCore {
  x_regs : reg -> Z;
  x_eip : Z;
  x_machine : machine;
}.

Definition set_reg (r : reg) (v : Z) (f : reg -> Z) : reg -> Z :=
  fun r' => if decide (r' = r) then v else f r'.

Definition with_reg (r : reg) (v : Z) (x : core) : core :=
  mkCore (set_reg r v (x_regs x)) (x_eip x) (x_machine x).
Definition with_eip (a : Z) (x : core) : core := mkCore (x_regs x) a (x_machine x).
Definition with_xmachine (m : machine) (x : core) : core := mkCore (x_regs x) (x_eip x) m.

Definition on_x {A} (c : M machine A) : M core A := zoom x_machine with_xmachine c.

(** Bit 31 of CR0. *)
Definition paging_on (m : machine) : bool := Z.testbit (m_cr0 m) 31.

(** The physical address of a linear one. *)
Definition linear (va : Z) : M machine Z := fun m =>
  if paging_on m then access va false m else Done va m.

Definition xload32 (va : Z) : M machine Z := fun m =>
  if paging_on m then vload32 va m else Done (pread32 (m_ram m) va) m.
Definition xstore32 (va v : Z) : M machine unit := fun m =>
  if paging_on m then vstore32 va v m else Done tt (set_ram (pwrite32 va v) m).

(** A write to CR3 drops the whole TLB. *)
Definition write_cr3 (v : Z) (m : machine) : machine :=
  mkMachine (m_ram m) ∅ (m_cr0 m) (m_cr2 m) v.

(** ** The code *)

(** Where the assembler and the linker put it: the first instruction of
    [_start] (section .boot, loaded at its address), of [higher_half]
    (section .text, loaded 0xC0000000 below it), and how long each
    instruction is. *)
Class Assembled : Type := {
  start_at : Z;
  start_sizes : list Z;
  half_at : Z;
  half_sizes : list Z;
  kmain_at : Z;
}.

(** The address after the first [n] instructions. *)
Fixpoint past (a : Z) (sizes : list Z) (n : nat) {struct n} : Z :=
  match n, sizes with
  | S n, k :: sizes => past (a + k) sizes n
  | _, _ => a
  end.

Section Code.
Context {L : Linker} {AS : Assembled}.

(** boot.asm 7-13: KERNEL_SPACE, KERNEL_DIR, PAGE_PRESENT, PAGE_WRITE, PAGE_ENABLE, ENTRIES, PAGE_SIZE *)
Definition KERNEL_DIR : Z := Z.shiftr KERNEL_SPACE 22.
Definition PAGE_PRESENT : Z := Z.shiftl 1 0.
Definition PAGE_WRITE : Z := Z.shiftl 1 1.
Definition PAGE_ENABLE : Z := Z.shiftl 1 31.

(** The header the loader looks for. *)
(** boot.asm 1-19: MAGIC, FLAGS, CHECKSUM *)
Definition multiboot_header : list Z :=
  let magic := 0x1BADB002 in
  let flags := Z.lor (Z.shiftl 1 0) (Z.shiftl 1 1) in
  [magic; flags; wrap32 (- (magic + flags))].

(** The labels [.identity] and [.hang]. *)
Definition identity_at : Z := past start_at start_sizes 5.
Definition hang_at : Z := past half_at half_sizes 5.

(** boot.asm 38-66: _start *)
Definition start_code : list instr := [
  Mov ESI EAX;
  Mov EDI EBX;
  MovImm EDX (boot_low_table -u KERNEL_SPACE);
  MovImm EAX (Z.lor PAGE_PRESENT PAGE_WRITE);
  MovImm ECX ENTRIES;
  Store EDX 0 EAX;
  AddImm EAX PAGE_SIZE;
  AddImm EDX 4;
  Loop identity_at;
  MovImm EDX (boot_directory -u KERNEL_SPACE);
  MovImm EAX ((boot_low_table -u KERNEL_SPACE) +u PAGE_PRESENT +u PAGE_WRITE);
  Store EDX 0 EAX;
  Store EDX (KERNEL_DIR * 4) EAX;
  MovImm EAX ((boot_directory -u KERNEL_SPACE) +u PAGE_PRESENT +u PAGE_WRITE);
  Store EDX ((ENTRIES - 1) * 4) EAX;
  MovToCr3 EDX;
  MovFromCr0 EAX;
  OrImm EAX PAGE_ENABLE;
  MovToCr0 EAX;
  MovImm EAX half_at;
  JmpReg EAX ].

(** boot.asm 70-79: higher_half *)
Definition half_code : list instr := [
  MovImm ESP stack_top;
  Mov EBP ESP;
  Push EDI;
  Push ESI;
  Call kmain_at;
  Cli;
  Hlt;
  Jmp hang_at ].

(** The instruction at a physical address, with its length. *)
Fixpoint placed (a : Z) (sizes : list Z) (code : list instr) (p : Z) : option (Z * instr) :=
  match sizes, code with
  | n :: sizes, i :: code => if p =? a then Some (n, i) else placed (a + n) sizes code p
  | _, _ => None
  end.

Definition code_at (p : Z) : option (Z * instr) :=
  match placed start_at start_sizes start_code p with
  | Some i => Some i
  | None => placed (at_phys half_at) half_sizes half_code p
  end.

(** An instruction is fetched whole: its last byte must lie behind its first. *)
Definition fetch : M core (option (Z * instr)) := fun x =>
  (p <- on_x (linear (x_eip x)) ;;
   match code_at p with
   | None => ret None
   | Some (n, i) =>
       q <- on_x (linear (x_eip x +u (n - 1))) ;;
       ret (if q =? p + (n - 1) then Some (n, i) else None)
   end) x.

(** What an instruction does besides changing the state: it hands over to a
    function, or it is not code of boot.asm. *)
Inductive signal : Type := Next | Calls (target : Z) | Lost.

Definition push32 (v : Z) : M core unit := fun x =>
  let esp := x_regs x ESP -u 4 in
  (on_x (xstore32 esp v) ;; modify (with_reg ESP esp)) x.

(** One instruction; [next] is the address of the one after it. *)
Definition exec (i : instr) (next : Z) : M core signal := fun x =>
  let r := x_regs x in
  let go c := (c ;; modify (with_eip next) ;; ret Next) x in
  match i with
  | Mov dst src => go (modify (with_reg dst (r src)))
  | MovImm dst v => go (modify (with_reg dst v))
  | Store base disp src => go (on_x (xstore32 (r base +u disp) (r src)))
  | AddImm dst v => go (modify (with_reg dst (r dst +u v)))
  | OrImm dst v => go (modify (with_reg dst (Z.lor (r dst) v)))
  | Loop target =>
      let ecx := r ECX -u 1 in
      Done Next (with_eip (if ecx =? 0 then next else target) (with_reg ECX ecx x))
  | MovToCr3 src => go (on_x (modify (write_cr3 (r src))))
  | MovFromCr0 dst => go (modify (with_reg dst (m_cr0 (x_machine x))))
  | MovToCr0 src => go (on_x (modify (set_cr0 (r src))))
  | JmpReg target => Done Next (with_eip (r target) x)
  | Jmp target => Done Next (with_eip target x)
  | Push src => go (push32 (r src))
  | Call target => (push32 next ;; modify (with_eip target) ;; ret (Calls target)) x
  | Cli => go (ret tt)
  | Hlt => Halted x
  end.

Definition step : M core signal :=
  got <- fetch ;;
  match got with
  | None => ret Lost
  | Some (n, i) => eip <- gets x_eip ;; exec i (eip +u n)
  end.

(** Until a function is called. *)
Fixpoint run_code (fuel : nat) : M core signal :=
  match fuel with
  | O => starve
  | S fuel =>
      s <- step ;;
      match s with
      | Next => run_code fuel
      | s => ret s
      end
  end.

End Code.

(** ** Where the code lies *)

(** An instruction is not longer than 15 bytes. *)
Definition sized (sizes : list Z) : Prop := Forall (fun n => 1 <= n <= 15) sizes.

(** What nasm and linker.ld guarantee: [_start] ends before the image,
    [higher_half] is code of it, and the stack of 16 kb is apart from the two
    tables. *)
Class AssembledOk `{Linker} `{Assembled} : Prop := {
  as_lengths : length start_sizes = 21%nat /\ length half_sizes = 8%nat;
  as_sizes : sized start_sizes /\ sized half_sizes;
  as_start : boot_start <= start_at /\ past start_at start_sizes 21 <= at_phys kernel_start;
  as_half : kernel_start <= half_at /\ past half_at half_sizes 8 <= kernel_code_end;
  as_stack : stack_bottom + 16384 = stack_top /\ stack_top mod 16 = 0 /\
    forall p, p = boot_directory \/ p = boot_low_table -> p + 4096 <= stack_bottom \/ stack_top <= p;
}.

Lemma past_S a sizes i n : sizes !! i = Some n -> past a sizes (S i) = past a sizes i + n.
Proof.
  revert a i. induction sizes as [|k sizes IH]; intros a [|i] Hi; [done..| |].
  - injection Hi as ->. by destruct sizes.
  - exact (IH (a + k) i Hi).
Qed.

Lemma past_ge a sizes i : sized sizes -> a <= past a sizes i.
Proof.
  intros Hs. revert a i. induction Hs as [|k sizes Hk _ IH]; intros a [|i]; cbn [past]; [lia..|].
  specialize (IH (a + k) i). lia.
Qed.

Lemma past_le a sizes i : sized sizes -> past a sizes i <= past a sizes (length sizes).
Proof.
  intros Hs. revert a i. induction Hs as [|k sizes Hk Hs IH]; intros a [|i]; cbn [past length]; [lia..| |apply IH].
  pose proof (past_ge (a + k) sizes (length sizes) Hs). lia.
Qed.

Lemma placed_out a sizes code p :
  sized sizes -> p < a \/ past a sizes (length sizes) <= p -> placed a sizes code p = None.
Proof.
  intros Hs. revert a code. induction Hs as [|n sizes Hn Hs IH]; intros a code Hp; [done|].
  destruct code as [|i code]; [done|]. cbn [placed]. cbn [length past] in Hp.
  pose proof (past_ge (a + n) sizes (length sizes) Hs). destruct (Z.eqb_spec p a); [lia|]. apply IH. lia.
Qed.

Lemma placed_at a sizes code i n ins :
  sized sizes -> sizes !! i = Some n -> code !! i = Some ins -> placed a sizes code (past a sizes i) = Some (n, ins).
Proof.
  intros Hs. revert a code i. induction Hs as [|k sizes Hk Hs IH]; intros a code i Hn Hc; [done|].
  destruct code as [|j code]; [done|]. destruct i as [|i]; cbn [past placed].
  - injection Hn as ->. injection Hc as ->. by rewrite Z.eqb_refl.
  - pose proof (past_ge (a + k) sizes i Hs). destruct (Z.eqb_spec (past (a + k) sizes i) a); [lia|].
    exact (IH (a + k) code i Hn Hc).
Qed.

(** ** One step *)

Section Steps.
Context `{LK : LinkerOk} `{AS : Assembled} {AK : AssembledOk}.

Lemma start_range i : 1048576 <= past start_at start_sizes i <= at_phys kernel_start.
Proof.
  destruct as_sizes as [Hs _], as_lengths as [Hl _], as_start as [H1 H2]. rewrite <- Hl in H2.
  pose proof (past_ge start_at start_sizes i Hs). pose proof (past_le start_at start_sizes i Hs).
  rewrite lk_load in H1. lia.
Qed.

Lemma half_range i : kernel_start <= past half_at half_sizes i <= kernel_code_end.
Proof.
  destruct as_sizes as [_ Hs], as_lengths as [_ Hl], as_half as [H1 H2]. rewrite <- Hl in H2.
  pose proof (past_ge half_at half_sizes i Hs). pose proof (past_le half_at half_sizes i Hs). lia.
Qed.

(** Above the code there are at least the pages of the tables. *)
Lemma image_range : 3222274048 <= kernel_start /\ kernel_start < kernel_code_end /\ kernel_code_end + 4096 <= 3225419776.
Proof. destruct lk_start, lk_code, lk_end, lk_pages as ((_ & ? & ?) & _). lia. Qed.

Lemma past_shift a k sizes i : past (a - k) sizes i = past a sizes i - k.
Proof.
  revert a i. induction sizes as [|n sizes IH]; intros a [|i]; try done. cbn [past]. rewrite <- IH. f_equal. lia.
Qed.

Lemma code_at_start i n ins :
  start_sizes !! i = Some n -> start_code !! i = Some ins -> code_at (past start_at start_sizes i) = Some (n, ins).
Proof. intros Hn Hi. unfold code_at. by rewrite (placed_at _ _ _ i n ins (proj1 as_sizes) Hn Hi). Qed.

Lemma code_at_half i n ins :
  half_sizes !! i = Some n -> half_code !! i = Some ins ->
  code_at (at_phys (past half_at half_sizes i)) = Some (n, ins).
Proof.
  intros Hn Hi. unfold code_at. rewrite placed_out.
  - unfold at_phys. rewrite <- past_shift. by apply placed_at; [apply as_sizes| |].
  - apply as_sizes.
  - right. rewrite (proj1 as_lengths). destruct as_start as [_ H2]. pose proof (half_range i). unfold at_phys in *. lia.
Qed.

(** With paging off, in [_start]. *)
Lemma step_off i ins x :
  start_code !! i = Some ins -> x_eip x = past start_at start_sizes i -> paging_on (x_machine x) = false ->
  step x = exec ins (past start_at start_sizes (S i)) x.
Proof.
  intros Hi He Hp. assert (is_Some (start_sizes !! i)) as [n Hn].
  { apply lookup_lt_is_Some. rewrite (proj1 as_lengths). by apply lookup_lt_Some in Hi. }
  pose proof (past_S start_at _ _ _ Hn) as Hnext. pose proof (start_range i) as R1. pose proof (start_range (S i)) as R2.
  pose proof (proj1 (Forall_lookup _ _) (proj1 as_sizes) i n Hn) as Hsz. pose proof image_range as Hi2.
  assert (forall a, on_x (linear a) x = Done a x) as Hl.
  { intros a. unfold on_x, zoom, linear. rewrite Hp. by destruct x. }
  unfold step, fetch, bind. rewrite Hl, He, (code_at_start i n ins Hn Hi), Hl.
  unfold at_phys in *.
  rewrite (wrap32_small (past start_at start_sizes i + (n - 1))) by (unfold is_u32; lia).
  rewrite Z.eqb_refl. unfold ret, gets. rewrite He, Hnext. by rewrite wrap32_small by (unfold is_u32; lia).
Qed.

(** With paging on, through the tables of boot.asm. *)
Lemma linear_on va x :
  boot_ok (x_machine x) -> paging_on (x_machine x) = true -> windowed va ->
  on_x (linear va) x = Done (boot_phys va) (with_xmachine (touch va (x_machine x)) x).
Proof.
  intros Hm Hp Hw. unfold on_x, zoom, linear. rewrite Hp.
  rewrite (access_ok va false _ _ (tlb_ok_at _ _ (bt_tlb _ Hm)) (boot_walk _ va Hm Hw) (or_introl eq_refl)).
  cbn [t_frame]. do 2 f_equal. lia.
Qed.

Lemma step_on va n ins x :
  boot_ok (x_machine x) -> paging_on (x_machine x) = true -> x_eip x = va -> 1 <= n <= 15 ->
  windowed va -> windowed (va + n) -> code_at (boot_phys va) = Some (n, ins) ->
  exists m, step x = exec ins (va + n) (with_xmachine m x) /\ early (fun _ => False) (x_machine x) m /\ paging_on m = true.
Proof.
  intros Hm Hp He Hn W1 W2 Hc. assert (windowed (va + (n - 1))) as W3 by (unfold windowed in *; lia).
  unfold step, fetch, bind. rewrite He, (linear_on va x Hm Hp W1), Hc.
  rewrite wrap32_small by (by apply windowed_u32).
  set (x1 := with_xmachine (touch va (x_machine x)) x).
  pose proof (early_touch (fun _ => False) (x_machine x) va Hm (windowed_u32 _ W1)) as S1.
  assert (paging_on (x_machine x1) = true) as Hp1.
  { unfold paging_on in *. cbn. destruct (ea_regs _ _ _ S1) as (-> & _). exact Hp. }
  rewrite (linear_on (va + (n - 1)) x1 (ea_ok _ _ _ S1) Hp1 W3), (boot_phys_add va (n - 1) W1 W3) by lia.
  rewrite Z.eqb_refl. pose proof (early_touch (fun _ => False) _ _ (ea_ok _ _ _ S1) (windowed_u32 _ W3)) as S2.
  eexists. split; [|split; [exact (early_trans _ _ _ _ S1 S2)|]].
  - unfold ret, gets. cbn [x_eip with_xmachine x1]. subst x1. cbn [x_eip with_xmachine]. rewrite He.
    rewrite wrap32_small by (by apply windowed_u32). reflexivity.
  - unfold paging_on in *. destruct (ea_regs _ _ _ S2) as (-> & _). exact Hp1.
Qed.

Lemma step_low i ins x :
  start_code !! i = Some ins -> x_eip x = past start_at start_sizes i ->
  boot_ok (x_machine x) -> paging_on (x_machine x) = true ->
  exists m, step x = exec ins (past start_at start_sizes (S i)) (with_xmachine m x) /\
    early (fun _ => False) (x_machine x) m /\ paging_on m = true.
Proof.
  intros Hi He Hm Hp. assert (is_Some (start_sizes !! i)) as [n Hn].
  { apply lookup_lt_is_Some. rewrite (proj1 as_lengths). by apply lookup_lt_Some in Hi. }
  pose proof (past_S start_at _ _ _ Hn) as Hnext. rewrite Hnext.
  pose proof (start_range i) as R1. pose proof (start_range (S i)) as R2. pose proof image_range as R3.
  unfold at_phys in *.
  apply step_on; [done..|exact (proj1 (Forall_lookup _ _) (proj1 as_sizes) i n Hn)|unfold windowed; lia|unfold windowed; lia|].
  unfold boot_phys. destruct (Z.ltb_spec (past start_at start_sizes i) 4194304); [|lia]. by apply code_at_start.
Qed.

Lemma step_half i ins x :
  half_code !! i = Some ins -> x_eip x = past half_at half_sizes i ->
  boot_ok (x_machine x) -> paging_on (x_machine x) = true ->
  exists m, step x = exec ins (past half_at half_sizes (S i)) (with_xmachine m x) /\
    early (fun _ => False) (x_machine x) m /\ paging_on m = true.
Proof.
  intros Hi He Hm Hp. assert (is_Some (half_sizes !! i)) as [n Hn].
  { apply lookup_lt_is_Some. rewrite (proj2 as_lengths). by apply lookup_lt_Some in Hi. }
  pose proof (past_S half_at _ _ _ Hn) as Hnext. rewrite Hnext.
  pose proof (half_range i) as R1. pose proof (half_range (S i)) as R2. pose proof image_range as R3.
  apply step_on; [done..|exact (proj1 (Forall_lookup _ _) (proj2 as_sizes) i n Hn)|unfold windowed; lia|unfold windowed; lia|].
  unfold boot_phys. destruct (Z.ltb_spec (past half_at half_sizes i) 4194304); [lia|]. by apply code_at_half.
Qed.

(** ** Many steps *)

Definition goes (n : nat) (x x' : core) : Prop := forall k, run_code (n + k) x = run_code k x'.

Lemma goes_trans n n' x x' x'' : goes n x x' -> goes n' x' x'' -> goes (n + n') x x''.
Proof. intros H1 H2 k. rewrite <- Nat.add_assoc, H1. apply H2. Qed.

Lemma goes_step x x' : step x = Done Next x' -> goes 1 x x'.
Proof. intros E k. cbn [Nat.add run_code]. by rewrite (bind_Done _ _ _ _ _ E). Qed.

Lemma goes_cons n x x' x'' : step x = Done Next x' -> goes n x' x'' -> goes (S n) x x''.
Proof. intros E Hg. exact (goes_trans 1 n _ _ _ (goes_step _ _ E) Hg). Qed.

Lemma goes_off i ins n x x' x'' :
  start_code !! i = Some ins -> x_eip x = past start_at start_sizes i -> paging_on (x_machine x) = false ->
  exec ins (past start_at start_sizes (S i)) x = Done Next x' -> goes n x' x'' -> goes (S n) x x''.
Proof. intros Hi He Hp E. apply goes_cons. by rewrite (step_off i ins x Hi He Hp). Qed.

Lemma exec_store base disp src next x :
  paging_on (x_machine x) = false ->
  exec (Store base disp src) next x =
    Done Next (mkCore (x_regs x) next (set_ram (pwrite32 (x_regs x base +u disp) (x_regs x src)) (x_machine x))).
Proof. intros Hp. cbn [exec]. unfold bind, on_x, zoom, xstore32. by rewrite Hp. Qed.

(** The values the loader left, where the entry code keeps them. *)
Definition kept (magic info : Z) (f : reg -> Z) : Prop := f ESI = magic /\ f EDI = info.

Ltac off i := eapply (goes_off i);
  [reflexivity|reflexivity|assumption|first [reflexivity|by apply exec_store]|unfold with_eip, with_reg, with_xmachine; cbn [x_regs x_machine x_eip]].

Lemma goes_0 x : goes 0 x x.
Proof. intros k. reflexivity. Qed.

(** [boot_directory - KERNEL_SPACE] and [boot_low_table - KERNEL_SPACE]. *)
Lemma table_addresses : boot_directory -u KERNEL_SPACE = boot_dir /\ boot_low_table -u KERNEL_SPACE = boot_low.
Proof.
  destruct boot_frames as (_ & _ & _ & B1 & B2). unfold boot_dir, boot_low, at_phys, KERNEL_SPACE in *.
  by rewrite !wrap32_small by (unfold is_u32; lia).
Qed.

Lemma enter_loop f m magic info :
  paging_on m = false -> f EAX = magic -> f EBX = info ->
  exists f', goes 5 (mkCore f start_at m) (mkCore f' identity_at m) /\ kept magic info f' /\
    f' EAX = 3 /\ f' EDX = boot_low /\ f' ECX = 1024.
Proof.
  intros Hp Ha Hb. eexists. split.
  - off 0%nat. off 1%nat. off 2%nat. off 3%nat. off 4%nat. apply goes_0.
  - split; [split; [exact Ha|exact Hb]|]. split; [reflexivity|]. split; [|reflexivity].
    exact (proj2 table_addresses).
Qed.

(** The loop that fills the low table. *)
Definition fill_from (j n : Z) (ram : gmap Z Z) : gmap Z Z :=
  foldl (fun ram i => pwrite32 (boot_low + 4 * i) (i * 4096 + 3) ram) ram (seqZ j n).

Lemma identity_turn f m (k : Z) :
  paging_on m = false -> 0 < k <= 1024 ->
  f EAX = (1024 - k) * 4096 + 3 -> f EDX = boot_low + 4 * (1024 - k) -> f ECX = k ->
  exists f', goes 4 (mkCore f identity_at m) (mkCore f' (if k =? 1 then past start_at start_sizes 9 else identity_at)
      (set_ram (pwrite32 (boot_low + 4 * (1024 - k)) ((1024 - k) * 4096 + 3)) m)) /\
    f' EAX = (1024 - (k - 1)) * 4096 + 3 /\ f' EDX = boot_low + 4 * (1024 - (k - 1)) /\ f' ECX = k - 1 /\
    f' ESI = f ESI /\ f' EDI = f EDI.
Proof.
  intros Hp Hk Ha Hd Hc. destruct boot_frames as (_ & _ & _ & _ & B).
  assert (f EDX +u 0 = boot_low + 4 * (1024 - k)) as E1 by (rewrite Hd, Z.add_0_r; apply wrap32_small; unfold is_u32; lia).
  assert (f ECX -u 1 = k - 1) as E2 by (rewrite Hc; apply wrap32_small; unfold is_u32; lia).
  eexists. split.
  - off 5%nat. rewrite E1, Ha. off 6%nat. off 7%nat.
    eapply (goes_off 8); [reflexivity|reflexivity|exact Hp|reflexivity|].
    unfold with_eip, with_reg, with_xmachine; cbn [x_regs x_machine x_eip].
    match goal with |- goes 0 (mkCore _ (if ?b then _ else _) _) _ => replace b with (k =? 1) end; [apply goes_0|].
    change ((k =? 1) = (f ECX -u 1 =? 0)). rewrite E2. destruct (Z.eqb_spec k 1), (Z.eqb_spec (k - 1) 0); lia.
  - change ((f EAX +u PAGE_SIZE = (1024 - (k - 1)) * 4096 + 3) /\ (f EDX +u 4 = boot_low + 4 * (1024 - (k - 1))) /\
      (f ECX -u 1 = k - 1) /\ f ESI = f ESI /\ f EDI = f EDI). rewrite E2, Ha, Hd. unfold PAGE_SIZE.
    rewrite !wrap32_small by (unfold is_u32; lia). split_and!; lia.
Qed.

Lemma identity_loop n : forall f m,
  paging_on m = false -> (n < 1024)%nat ->
  f EAX = (1024 - Z.of_nat (S n)) * 4096 + 3 -> f EDX = boot_low + 4 * (1024 - Z.of_nat (S n)) ->
  f ECX = Z.of_nat (S n) ->
  exists f', goes (4 * S n) (mkCore f identity_at m)
      (mkCore f' (past start_at start_sizes 9) (set_ram (fill_from (1024 - Z.of_nat (S n)) (Z.of_nat (S n))) m)) /\
    f' ESI = f ESI /\ f' EDI = f EDI.
Proof.
  induction n as [|n IH]; intros f m Hp Hn Ha Hd Hc.
  - destruct (identity_turn f m 1 Hp ltac:(lia) Ha Hd Hc) as (f1 & G1 & A1 & D1 & C1 & S1 & T1).
    exists f1. split; [exact G1|by split].
  - destruct (identity_turn f m (Z.of_nat (S (S n))) Hp ltac:(lia) Ha Hd Hc) as (f1 & G1 & A1 & D1 & C1 & S1 & T1).
    destruct (Z.eqb_spec (Z.of_nat (S (S n))) 1) as [|_]; [lia|].
    replace (Z.of_nat (S (S n)) - 1) with (Z.of_nat (S n)) in * by lia.
    destruct (IH f1 (set_ram (pwrite32 (boot_low + 4 * (1024 - Z.of_nat (S (S n)))) ((1024 - Z.of_nat (S (S n))) * 4096 + 3)) m))
      as (f2 & G2 & S2 & T2); [exact Hp|lia|exact A1|exact D1|exact C1|].
    exists f2. split; [|split; congruence].
    replace (4 * S (S n))%nat with (4 + 4 * S n)%nat by lia. eapply goes_trans; [exact G1|].
    unfold fill_from in *. rewrite (seqZ_cons (1024 - Z.of_nat (S (S n)))) by lia.
    replace (Z.succ (1024 - Z.of_nat (S (S n)))) with (1024 - Z.of_nat (S n)) by lia.
    replace (Z.pred (Z.of_nat (S (S n)))) with (Z.of_nat (S n)) by lia. exact G2.
Qed.

(** The directory, CR3 and CR0. *)
Lemma switch_on f m :
  paging_on m = false ->
  exists f' m', goes 10 (mkCore f (past start_at start_sizes 9) m) (mkCore f' (past start_at start_sizes 19) m') /\
    m' = mkMachine (pwrite32 (boot_dir + 1023 * 4) (boot_dir + 3) (pwrite32 (boot_dir + 768 * 4) (boot_low + 3)
           (pwrite32 boot_dir (boot_low + 3) (m_ram m)))) ∅ (Z.lor (m_cr0 m) PAGING_ON) (m_cr2 m) boot_dir /\
    f' ESI = f ESI /\ f' EDI = f EDI.
Proof.
  intros Hp. destruct boot_frames as (_ & _ & _ & B1 & B2), table_addresses as [D1 D2].
  eexists _, _. split.
  - off 9%nat. off 10%nat. off 11%nat. off 12%nat. off 13%nat. off 14%nat. off 15%nat. off 16%nat. off 17%nat. off 18%nat.
    apply goes_0.
  - split; [|split; reflexivity].
    set (D := boot_directory -u KERNEL_SPACE) in *. set (T := boot_low_table -u KERNEL_SPACE) in *.
    transitivity (mkMachine (pwrite32 (D +u 1023 * 4) (D +u 1 +u 2) (pwrite32 (D +u 768 * 4) (T +u 1 +u 2)
      (pwrite32 (D +u 0) (T +u 1 +u 2) (m_ram m)))) ∅ (Z.lor (m_cr0 m) PAGING_ON) (m_cr2 m) D); [reflexivity|].
    rewrite D1, D2, Z.add_0_r, !wrap32_small by (unfold is_u32; rewrite ?wrap32_small by (unfold is_u32; lia); lia).
    by rewrite <- !Z.add_assoc.
Qed.

(** From the first instruction to the last one before the jump. *)
Lemma start_runs f m magic info :
  paging_on m = false -> f EAX = magic -> f EBX = info ->
  exists f', goes 4111 (mkCore f start_at m) (mkCore f' (past start_at start_sizes 19)
      (mkMachine (start_tables (m_ram m)) ∅ (Z.lor (m_cr0 m) PAGING_ON) (m_cr2 m) boot_dir)) /\ kept magic info f'.
Proof.
  intros Hp Ha Hb. destruct (enter_loop f m magic info Hp Ha Hb) as (f1 & G1 & [S1 T1] & A1 & D1 & C1).
  destruct (identity_loop 1023 f1 m Hp) as (f2 & G2 & S2 & T2); [lia|rewrite A1; lia|rewrite D1; lia|rewrite C1; lia|].
  destruct (switch_on f2 (set_ram (fill_from 0 1024) m)) as (f3 & m3 & G3 & -> & S3 & T3); [exact Hp|].
  exists f3. split; [|split; congruence].
  change 4111%nat with (5 + (4 * 1024 + 10))%nat.
  exact (goes_trans _ _ _ _ _ G1 (goes_trans _ _ _ _ _ G2 G3)).
Qed.

(** ** The higher half *)

(** The bytes the entry code pushes: two arguments and a return address. *)
Definition pushed (a : Z) : Prop := at_phys stack_top - 12 <= a < at_phys stack_top.

Lemma stack_slot k :
  0 < k <= 12 -> k mod 4 = 0 ->
  stack_top -u k = stack_top - k /\ windowed (stack_top - k) /\ (stack_top - k) mod 4 = 0 /\
  boot_phys (stack_top - k) = at_phys stack_top - k /\ off_tables (boot_phys (stack_top - k)).
Proof.
  intros Hk Hm. destruct as_stack as (S1 & S2 & S3), lk_stack as (L1 & _ & L3), lk_end as [_ L4], lk_code, image_range.
  pose proof lk_pages as ((A1 & _ & _) & (B1 & _ & _) & _).
  assert (3222274048 <= stack_bottom) as Hlo by lia.
  split; [apply wrap32_small; unfold is_u32; lia|]. split; [right; lia|]. split; [dlia|].
  assert (boot_phys (stack_top - k) = at_phys stack_top - k) as ->.
  { unfold boot_phys, at_phys. destruct (Z.ltb_spec (stack_top - k) 4194304); lia. }
  split; [done|]. pose proof (S3 _ (or_introl eq_refl)). pose proof (S3 _ (or_intror eq_refl)).
  unfold off_tables, boot_dir, boot_low, at_phys. dlia.
Qed.

(** A push at [stack_top - k]. *)
Lemma push_spec v k x :
  boot_ok (x_machine x) -> paging_on (x_machine x) = true -> 0 < k <= 12 -> k mod 4 = 0 ->
  x_regs x ESP = stack_top - (k - 4) ->
  exists m, push32 v x = Done tt (mkCore (set_reg ESP (stack_top - k) (x_regs x)) (x_eip x) m) /\
    m_ram m = pwrite32 (at_phys stack_top - k) v (m_ram (x_machine x)) /\
    early (fun a => at_phys stack_top - k <= a < at_phys stack_top - k + 4) (x_machine x) m /\ paging_on m = true.
Proof.
  intros Hm Hp Hk Ha He. destruct (stack_slot k Hk Ha) as (W & W1 & W2 & W3 & W4).
  destruct (boot_store32 (x_machine x) (stack_top - k) v Hm W1 W2 W4) as (m & E & R & S). rewrite W3 in R, S.
  exists m. split; [|split; [exact R|split; [exact S|]]].
  - unfold push32, bind, on_x, zoom, xstore32. rewrite Hp, He.
    replace (stack_top - (k - 4) - 4) with (stack_top - k) by lia. by rewrite W, E.
  - unfold paging_on in *. destruct (ea_regs _ _ _ S) as (-> & _). exact Hp.
Qed.

(** What is on the stack, and nothing else has changed. *)
Record called (magic info : Z) (m m' : machine) : Prop := {
  cl_early : early pushed m m';
  cl_magic : pread32 (m_ram m') (at_phys stack_top - 8) = magic;
  cl_info : pread32 (m_ram m') (at_phys stack_top - 4) = info;
  cl_return : pread32 (m_ram m') (at_phys stack_top - 12) = hang_at;
  cl_paging : paging_on m' = true;
}.

(** The jump: the next instruction is read at its linked address. *)
Lemma jumps f m :
  boot_ok m -> paging_on m = true ->
  exists f' m', goes 4 (mkCore f (past start_at start_sizes 19) m) (mkCore f' (past half_at half_sizes 2) m') /\
    early (fun _ => False) m m' /\ paging_on m' = true /\
    f' ESP = stack_top /\ f' EBP = stack_top /\ f' ESI = f ESI /\ f' EDI = f EDI.
Proof.
  intros Hm Hp.
  destruct (step_low 19 _ (mkCore f (past start_at start_sizes 19) m) eq_refl eq_refl Hm Hp) as (m1 & E1 & S1 & P1).
  destruct (step_low 20 _ (mkCore (set_reg EAX half_at f) (past start_at start_sizes 20) m1) eq_refl eq_refl (ea_ok _ _ _ S1) P1)
    as (m2 & E2 & S2 & P2). pose proof (early_trans _ _ _ _ S1 S2) as S12.
  destruct (step_half 0 _ (mkCore (set_reg EAX half_at f) half_at m2) eq_refl eq_refl (ea_ok _ _ _ S2) P2) as (m3 & E3 & S3 & P3).
  pose proof (early_trans _ _ _ _ S12 S3) as S13.
  destruct (step_half 1 _ (mkCore (set_reg ESP stack_top (set_reg EAX half_at f)) (past half_at half_sizes 1) m3)
    eq_refl eq_refl (ea_ok _ _ _ S3) P3) as (m4 & E4 & S4 & P4).
  eexists _, m4. split.
  - eapply goes_cons; [exact E1|]. eapply goes_cons; [exact E2|]. eapply goes_cons; [exact E3|].
    eapply goes_cons; [exact E4|]. apply goes_0.
  - split; [exact (early_trans _ _ _ _ S13 S4)|]. split; [exact P4|]. split_and!; reflexivity.
Qed.

Lemma exec_push src next x x' : push32 (x_regs x src) x = Done tt x' -> exec (Push src) next x = Done Next (with_eip next x').
Proof. intros E. cbn [exec]. unfold bind. by rewrite E. Qed.

Lemma exec_call target next x x' : push32 next x = Done tt x' -> exec (Call target) next x = Done (Calls target) (with_eip target x').
Proof. intros E. cbn [exec]. unfold bind. by rewrite E. Qed.

(** Two pushes and the call. *)
Lemma calls f m magic info :
  boot_ok m -> paging_on m = true -> f ESP = stack_top -> kept magic info f -> is_u32 magic -> is_u32 info ->
  exists f' m', (forall k, run_code (3 + k) (mkCore f (past half_at half_sizes 2) m) =
      Done (Calls kmain_at) (mkCore f' kmain_at m')) /\ called magic info m m' /\ f' ESP = stack_top - 12.
Proof.
  intros Hm Hp He [Hs Hd] Hu1 Hu2.
  destruct (step_half 2 _ (mkCore f (past half_at half_sizes 2) m) eq_refl eq_refl Hm Hp) as (m1 & E1 & S1 & P1).
  destruct (push_spec info 4 (mkCore f (past half_at half_sizes 2) m1) (ea_ok _ _ _ S1) P1) as (m2 & E2 & R2 & S2 & P2);
    [lia|done|cbn; lia|].
  set (f2 := set_reg ESP (stack_top - 4) f).
  destruct (step_half 3 _ (mkCore f2 (past half_at half_sizes 3) m2) eq_refl eq_refl (ea_ok _ _ _ S2) P2) as (m3 & E3 & S3 & P3).
  destruct (push_spec magic 8 (mkCore f2 (past half_at half_sizes 3) m3) (ea_ok _ _ _ S3) P3) as (m4 & E4 & R4 & S4 & P4);
    [lia|done|done|].
  set (f4 := set_reg ESP (stack_top - 8) f2).
  destruct (step_half 4 _ (mkCore f4 (past half_at half_sizes 4) m4) eq_refl eq_refl (ea_ok _ _ _ S4) P4) as (m5 & E5 & S5 & P5).
  destruct (push_spec hang_at 12 (mkCore f4 (past half_at half_sizes 4) m5) (ea_ok _ _ _ S5) P5) as (m6 & E6 & R6 & S6 & P6);
    [lia|done|done|].
  exists (set_reg ESP (stack_top - 12) f4), m6. split; [|split; [|reflexivity]].
  - intros k. change (3 + k)%nat with (2 + S k)%nat.
    rewrite (goes_cons 1 (mkCore f (past half_at half_sizes 2) m) (mkCore f2 (past half_at half_sizes 3) m2)
      (mkCore f4 (past half_at half_sizes 4) m4)); cycle 1.
    + rewrite E1. rewrite <- Hd in E2. exact (exec_push EDI _ _ _ E2).
    + apply goes_step. rewrite E3. rewrite <- Hs in E4. exact (exec_push ESI _ _ _ E4).
    + cbn [run_code]. unfold bind. rewrite E5. by rewrite (exec_call _ _ _ _ E6).
  - assert (hang_at = past half_at half_sizes 5) as Hh by reflexivity.
    assert (is_u32 hang_at) as Hu3 by (rewrite Hh; pose proof (half_range 5); pose proof image_range; unfold is_u32; lia).
    assert (forall a, pread32 (m_ram m5) a = pread32 (m_ram m4) a) as R5 by (intros a; by apply early_pread32).
    assert (forall a, pread32 (m_ram m3) a = pread32 (m_ram m2) a) as R3 by (intros a; by apply early_pread32).
    cbn [x_machine] in *. split; [|..|exact P6].
    + assert (forall P m m', early P m m' -> (forall a, P a -> pushed a) -> early pushed m m') as Hw
        by (intros P ma mb Hx Ha; exact (early_weaken P pushed ma mb Ha Hx)).
      apply Hw in S1, S2, S3, S4, S5, S6; [|unfold pushed; intros a; lia..].
      eauto 10 using early_trans.
    + rewrite R6, pread32_write32_ne, R5, R4 by lia. by apply pread32_write32.
    + rewrite R6, pread32_write32_ne, R5, R4, pread32_write32_ne, R3, R2 by lia. by apply pread32_write32.
    + rewrite R6. by apply pread32_write32.
Qed.

(** The tables are written inside their pages. *)
Lemma pread8_write32_ne ram a b v : b < a \/ a + 4 <= b -> pread8 (pwrite32 a v ram) b = pread8 ram b.
Proof. intros Hb. unfold pwrite32. rewrite !pread8_write8. repeat case_decide; (done || lia). Qed.

Lemma start_tables_bytes ram a : off_tables a -> pread8 (start_tables ram) a = pread8 ram a.
Proof.
  intros [O1 O2]. destruct boot_frames as (A1 & A2 & _ & A4 & A5). unfold start_tables. cbv zeta.
  rewrite !pread8_write32_ne by dlia.
  pose proof (foldl_seqZ_ind (fun _ ram' => pread8 ram' a = pread8 ram a)
    (fun ram i => pwrite32 (boot_low + 4 * i) (i * 4096 + 3) ram) 0 1024 ram) as Hf.
  rewrite Z.sub_0_r in Hf. apply Hf; [done| |lia]. intros i ram' Hi Hr. by rewrite pread8_write32_ne by dlia.
Qed.

(** What the loader leaves: paging off, the .bss section cleared. *)
Record loader_left (magic info : Z) (x : core) : Prop := {
  ll_eip : x_eip x = start_at;
  ll_magic : x_regs x EAX = magic /\ is_u32 magic;
  ll_info : x_regs x EBX = info /\ is_u32 info;
  ll_off : paging_on (x_machine x) = false;
  ll_bss : forall a, boot_dir <= a < boot_dir + 4096 -> pread8 (m_ram (x_machine x)) a = 0;
}.

(** The state in which [kmain] is entered. *)
Record entered (magic info : Z) (x x' : core) : Prop := {
  en_eip : x_eip x' = kmain_at;
  en_esp : x_regs x' ESP = stack_top - 12;
  en_boot : boot_ok (x_machine x');
  en_cr0 : m_cr0 (x_machine x') = Z.lor (m_cr0 (x_machine x)) PAGING_ON;
  en_bytes : forall a, off_tables a -> ~ pushed a -> pread8 (m_ram (x_machine x')) a = pread8 (m_ram (x_machine x)) a;
  en_magic : pread32 (m_ram (x_machine x')) (at_phys stack_top - 8) = magic;
  en_info : pread32 (m_ram (x_machine x')) (at_phys stack_top - 4) = info;
  en_return : pread32 (m_ram (x_machine x')) (at_phys stack_top - 12) = hang_at;
}.

Lemma start_spec magic info x :
  loader_left magic info x ->
  exists x', run_code 4118 x = Done (Calls kmain_at) x' /\ entered magic info x x'.
Proof.
  intros [He [Ha U1] [Hb U2] Hp Hz]. destruct x as [f e m]. cbn [x_eip x_regs x_machine] in *. subst e.
  destruct (start_runs f m magic info Hp Ha Hb) as (f1 & G1 & K1 & K2).
  set (m1 := mkMachine (start_tables (m_ram m)) ∅ (Z.lor (m_cr0 m) PAGING_ON) (m_cr2 m) boot_dir) in *.
  assert (boot_ok m1) as B1 by (by apply (boot_ok_bytes (start (m_ram m) (m_cr0 m))); [apply start_boot_ok|..]).
  assert (paging_on m1 = true) as P1 by (unfold paging_on; cbn [m_cr0 m1]; by rewrite Z.lor_spec, orb_true_r).
  destruct (jumps f1 m1 B1 P1) as (f2 & m2 & G2 & S2 & P2 & F1 & _ & F3 & F4).
  destruct (calls f2 m2 magic info (ea_ok _ _ _ S2) P2 F1) as (f3 & m3 & E3 & [S3 C1 C2 C3 _] & F5);
    [split; congruence|done|done|].
  exists (mkCore f3 kmain_at m3). split.
  - change 4118%nat with (4111 + (4 + (3 + 0)))%nat. by rewrite G1, G2, E3.
  - split; cbn [x_eip x_regs x_machine]; [done|exact F5|apply S3| | |exact C1|exact C2|exact C3].
    + destruct (ea_regs _ _ _ S2) as (R2 & _), (ea_regs _ _ _ S3) as (R3 & _). by rewrite R3, R2.
    + intros a Ho Hn. rewrite (ea_bytes _ _ _ S3 a Hn), (early_pread8 _ _ _ S2). by apply start_tables_bytes.
Qed.

(** C8: The entry code reaches [kmain].  From the processor state the loader
    leaves (protected mode, paging off, the multiboot magic in eax and the
    address of its structure in ebx, the .bss section cleared), each of the
    4118 instructions is fetched from where boot.asm was loaded, also after
    paging is switched on and after the jump to the higher half, and the last
    of them calls [kmain] with the stack 12 bytes below [stack_top]: there lie
    the return address, the magic and the address, in this order.  The machine
    runs on the two tables of boot.asm, and no other byte of memory has
    changed. *)
Theorem start_reaches_kmain magic info x :
  loader_left magic info x ->
  exists x', run_code 4118 x = Done (Calls kmain_at) x' /\ entered magic info x x'.
Proof. exact (start_spec magic info x). Qed.

End Steps.

(** The header is one a multiboot loader accepts. *)
Lemma multiboot_header_sum : wrap32 (foldr Z.add 0 multiboot_header) = 0 /\ multiboot_header !! 0%nat = Some 0x1BADB002.
Proof. split; reflexivity. Qed.

(** ** Code to run *)

(** The lengths of the instructions as nasm encodes them. *)
Definition demo_assembled : Assembled := {|
  start_at := 0x100010;
  start_sizes := [2; 2; 5; 5; 5; 2; 5; 3; 2; 5; 5; 2; 6; 5; 6; 3; 3; 5; 3; 5; 2];
  half_at := 0xC0101400;
  half_sizes := [5; 2; 1; 1; 5; 1; 1; 2];
  kmain_at := 0xC0102000;
|}.

Lemma demo_assembled_ok : @AssembledOk demo_linker demo_assembled.
Proof.
  split; try by_decide. split; [by_decide|]. split; [by_decide|].
  intros p [E|E]; subst p; left; by_decide.
Qed.

Definition demo_core (ram : gmap Z Z) : core :=
  mkCore (set_reg EAX 0x2BADB002 (set_reg EBX 0x9000 (fun _ => 0))) 0x100010 (mkMachine ram ∅ 0x11 0 0).

Lemma demo_loader_left ram :
  (forall a, 0x10A000 <= a -> pread8 ram a = 0) ->
  @loader_left demo_linker demo_assembled 0x2BADB002 0x9000 (demo_core ram).
Proof.
  intros Hz. split; [done|split; [done|by_decide]|split; [done|by_decide]|done|].
  intros a Ha. apply Hz. revert Ha. unfold boot_dir, at_phys. cbn [boot_directory demo_linker]. lia.
Qed.

Lemma start_reaches_kmain_witness :
  exists x, @run_code demo_linker demo_assembled 4118 (demo_core demo_image) = Done (Calls 0xC0102000) x /\
    x_eip x = 0xC0102000 /\ x_regs x ESP = 0xC0111FF4 /\ pread32 (m_ram (x_machine x)) 0x111FF8 = 0x2BADB002.
Proof.
  destruct (@start_reaches_kmain demo_linker demo_linker_ok demo_assembled demo_assembled_ok 0x2BADB002 0x9000
    (demo_core demo_image) (demo_loader_left demo_image demo_image_bss)) as (x & E & [H1 H2 _ _ _ H3 _ _]).
  exists x. split; [exact E|]. split; [exact H1|]. split; [exact H2|exact H3].
Defined.
