(* ===== verification/Gdt.v ===== *)
(** * Segments (kernel/src/gdt.rs)

    The descriptor table at 0x800, and the processor registers that point to
    it.  A segment register holds its selector and the descriptor the
    processor read from the table when the selector was loaded. *)

From S2P Require Import Prelude.
From S2P Require Import Mem.
From S2P Require Import Klib.
From S2P Require Import Machine.
From S2P Require Import Fmt.
From S2P Require Import PagingSpec.

(** ** Registers *)

Record segreg : Type := mkSegreg {
  sr_selector : Z;
  sr_descriptor : Z;
}.

(** The operand of [lgdt] and [lidt]. *)
(** gdt.rs 33-37: Gdtr *)
Record Gdtr : Type := mkGdtr {
  dt_limit : Z;
  dt_base : Z;
}.

Record cpu : Type := mkCpu {
  c_gdtr : Gdtr;
  c_idtr : Gdtr;
  c_cs : segreg;
  c_ds : segreg;
  c_es : segreg;
  c_fs : segreg;
  c_gs : segreg;
  c_ss : segreg;
}.

Definition set_gdtr (g : Gdtr) (c : cpu) : cpu :=
  mkCpu g (c_idtr c) (c_cs c) (c_ds c) (c_es c) (c_fs c) (c_gs c) (c_ss c).
Definition set_idtr (g : Gdtr) (c : cpu) : cpu :=
  mkCpu (c_gdtr c) g (c_cs c) (c_ds c) (c_es c) (c_fs c) (c_gs c) (c_ss c).
Definition set_cs (r : segreg) (c : cpu) : cpu :=
  mkCpu (c_gdtr c) (c_idtr c) r (c_ds c) (c_es c) (c_fs c) (c_gs c) (c_ss c).
Definition set_ds (r : segreg) (c : cpu) : cpu :=
  mkCpu (c_gdtr c) (c_idtr c) (c_cs c) r (c_es c) (c_fs c) (c_gs c) (c_ss c).
Definition set_es (r : segreg) (c : cpu) : cpu :=
  mkCpu (c_gdtr c) (c_idtr c) (c_cs c) (c_ds c) r (c_fs c) (c_gs c) (c_ss c).
Definition set_fs (r : segreg) (c : cpu) : cpu :=
  mkCpu (c_gdtr c) (c_idtr c) (c_cs c) (c_ds c) (c_es c) r (c_gs c) (c_ss c).
Definition set_gs (r : segreg) (c : cpu) : cpu :=
  mkCpu (c_gdtr c) (c_idtr c) (c_cs c) (c_ds c) (c_es c) (c_fs c) r (c_ss c).
Definition set_ss (r : segreg) (c : cpu) : cpu :=
  mkCpu (c_gdtr c) (c_idtr c) (c_cs c) (c_ds c) (c_es c) (c_fs c) (c_gs c) r.

(** Code that leaves the registers alone, and code that only sets them. *)
Definition on_rest {A} (c : M sys A) : M (cpu * sys) A := zoom snd (fun s cs => (cs.1, s)) c.
Definition on_cpu (f : cpu -> cpu) : M (cpu * sys) unit := modify (fun cs => (f cs.1, cs.2)).

(** Loading a selector: the processor reads the descriptor its index names. *)
Definition load_selector (sel : Z) : M (cpu * sys) segreg :=
  base <- gets (fun cs => dt_base (c_gdtr cs.1)) ;;
  d <- on_rest (on_machine (vload64 (base +u sel / 8 * 8))) ;;
  ret (mkSegreg sel d).

(** ** The table *)

(** gdt.rs 4-4: BASE *)
Definition BASE : Z := 0x00000800.

(** gdt.rs 6-6: KERNEL_CODE *)
Definition KERNEL_CODE : Z := 0x08.
(** gdt.rs 7-7: KERNEL_DATA *)
Definition KERNEL_DATA : Z := 0x10.
(** gdt.rs 8-8: KERNEL_STACK *)
Definition KERNEL_STACK : Z := 0x18.

(** gdt.rs 10-14: Segment *)
Record Segment : Type := mkSegment {
  seg_name : string;
  seg_selector : Z;
  seg_descriptor : Z;
}.

(** gdt.rs 16-16: KERNEL_EXEC *)
Definition KERNEL_EXEC : Z := 0x9a.
(** gdt.rs 17-17: KERNEL_RW *)
Definition KERNEL_RW : Z := 0x92.
(** gdt.rs 18-18: USER_EXEC *)
Definition USER_EXEC : Z := 0xfa.
(** gdt.rs 19-19: USER_RW *)
Definition USER_RW : Z := 0xf2.

(** gdt.rs 39-41: flat *)
Definition flat (access : Z) : Z :=
  Z.lor (Z.lor 0xffff (wrap64 (Z.shiftl access 40))) (wrap64 (Z.shiftl 0xcf 48)).

(** gdt.rs 21-29: SEGMENTS *)
Definition SEGMENTS : list Segment := [
  mkSegment "null" 0x00 0;
  mkSegment "kernel code" KERNEL_CODE (flat KERNEL_EXEC);
  mkSegment "kernel data" KERNEL_DATA (flat KERNEL_RW);
  mkSegment "kernel stack" KERNEL_STACK (flat KERNEL_RW);
  mkSegment "user code" (Z.lor 0x20 3) (flat USER_EXEC);
  mkSegment "user data" (Z.lor 0x28 3) (flat USER_RW);
  mkSegment "user stack" (Z.lor 0x30 3) (flat USER_RW)
].

(** gdt.rs 31-31: LIMIT *)
Definition LIMIT : Z := wrap16 (Z.of_nat (length SEGMENTS) * 8 - 1).

(** [for (i, segment) in SEGMENTS.iter().enumerate()]: write each one. *)
(** gdt.rs 44-46: install *)
Definition write_segments : M sys unit :=
  on_machine (store_list BASE 0 (map seg_descriptor SEGMENTS)).

(** [retf] to the next instruction loads [cs]. *)
(** gdt.rs 43-68: install *)
Definition install : M (cpu * sys) unit :=
  on_rest write_segments ;;
  on_cpu (set_gdtr (mkGdtr LIMIT BASE)) ;;
  r <- load_selector KERNEL_DATA ;; on_cpu (set_ds r) ;;
  r <- load_selector KERNEL_DATA ;; on_cpu (set_es r) ;;
  r <- load_selector KERNEL_DATA ;; on_cpu (set_fs r) ;;
  r <- load_selector KERNEL_DATA ;; on_cpu (set_gs r) ;;
  r <- load_selector KERNEL_STACK ;; on_cpu (set_ss r) ;;
  r <- load_selector KERNEL_CODE ;; on_cpu (set_cs r).

(** gdt.rs 70-79: Gdtr32, current *)
Definition current : M (cpu * sys) Gdtr := gets (fun cs => c_gdtr cs.1).

(** gdt.rs 81-89: selectors *)
Definition selectors : M (cpu * sys) (Z * Z * Z) :=
  gets (fun cs => (sr_selector (c_cs cs.1), sr_selector (c_ss cs.1), sr_selector (c_ds cs.1))).
