(* ===== verification/Segments.v ===== *)
(** * Theorems about gdt.rs, and the descriptor decoder of shell.rs *)

From S2P Require Import Prelude.
From S2P Require Import Mem.
From S2P Require Import Klib.
From S2P Require Import Machine.
From S2P Require Import Fmt.
From S2P Require Import PagingSpec.
From S2P Require Import PagingOps.
From S2P Require Pmm.
From S2P Require Vga.
From S2P Require Import BootMem.
From S2P Require Import Gdt.

(** ** The decoder *)

(** The mask [1 << k] of a [u64]. *)
Definition has_bit (descriptor k : Z) : bool := negb (Z.land descriptor (Z.shiftl 1 k) =? 0).

(** shell.rs 426-439: seg_range *)
Definition seg_range (descriptor : Z) : option (Z * Z) :=
  if descriptor =? 0 then None
  else
    let base := wrap32 (Z.lor (Z.land (Z.shiftr descriptor 16) 0xffffff)
                          (wrap64 (Z.shiftl (Z.land (Z.shiftr descriptor 56) 0xff) 24))) in
    let raw := wrap32 (Z.lor (Z.land descriptor 0xffff)
                          (wrap64 (Z.shiftl (Z.land (Z.shiftr descriptor 48) 0xf) 16))) in
    let limit := if has_bit descriptor 55 then Z.lor (wrap32 (Z.shiftl raw 12)) 0xfff else raw in
    let code := has_bit descriptor 43 in
    if negb code && has_bit descriptor 42 then
      if limit + 1 >? U32_MAX then None
      else Some (base +u (limit + 1), U32_MAX)
    else Some (base, base +u limit).

(** shell.rs 441-452: seg_type *)
Definition seg_type (descriptor : Z) : string :=
  let rw := has_bit descriptor 41 in
  let dc := has_bit descriptor 42 in
  match has_bit descriptor 43, rw, dc with
  | true, true, false => "code rx"
  | true, true, true => "code rx c"
  | true, false, _ => "code x"
  | false, true, false => "data rw"
  | false, true, true => "data rw dn"
  | false, false, _ => "data r"
  end.

(** The privilege level [cmd_gdt] prints. *)
(** shell.rs 414-414: cmd_gdt *)
Definition seg_ring (descriptor : Z) : Z := wrap8 (Z.land (Z.shiftr descriptor 45) 3).

(** ** The layout of a descriptor, from the processor manual *)

(** Base, 20-bit limit, access byte and the four flag bits. *)
Definition descriptor (base raw access flags : Z) : Z :=
  raw mod 65536 + base mod 16777216 * 2 ^ 16 + access * 2 ^ 40 + raw / 65536 * 2 ^ 48
  + flags * 2 ^ 52 + base / 16777216 * 2 ^ 56.

(** Bytes the segment spans less one: the limit counts pages when flag 3 is
    set. *)
Definition reach (raw flags : Z) : Z := if Z.testbit flags 3 then raw * 4096 + 4095 else raw.

Lemma has_bit_testbit d k : 0 <= k -> has_bit d k = Z.testbit d k.
Proof. intros Hk. unfold has_bit. by rewrite land_bit_zero, negb_involutive. Qed.

Lemma testbit_div d k : 0 <= k -> Z.testbit d k = Z.odd (d / 2 ^ k).
Proof. intros Hk. by rewrite Z.testbit_odd, Z.shiftr_div_pow2. Qed.

Section Layout.
Context (base raw access flags : Z).
Hypothesis (Hb : is_u32 base) (Hr : 0 <= raw < 1048576) (Ha : is_u8 access) (Hf : 0 <= flags < 16).
Let d := descriptor base raw access flags.

Lemma descriptor_range : 0 <= d < 18446744073709551616.
Proof. subst d. unfold descriptor, is_u32, is_u8 in *. dlia. Qed.

Lemma descriptor_base :
  wrap32 (Z.lor (Z.land (Z.shiftr d 16) 0xffffff)
    (wrap64 (Z.shiftl (Z.land (Z.shiftr d 56) 0xff) 24))) = base.
Proof.
  change 16777215 with (Z.ones 24). change 255 with (Z.ones 8).
  rewrite !Z.land_ones, !Z.shiftr_div_pow2, Z.shiftl_mul_pow2 by lia.
  assert (d / 2 ^ 56 = base / 16777216) as -> by (subst d; unfold descriptor, is_u32, is_u8 in *; dlia).
  assert ((d / 2 ^ 16) mod 2 ^ 24 = base mod 16777216) as ->
    by (subst d; unfold descriptor, is_u32, is_u8 in *; dlia).
  unfold wrap64. rewrite (Z.mod_small (_ * _)) by (unfold is_u32 in *; dlia).
  rewrite lor_add by dlia. unfold is_u32, wrap32 in *. dlia.
Qed.

Lemma descriptor_raw :
  wrap32 (Z.lor (Z.land d 0xffff) (wrap64 (Z.shiftl (Z.land (Z.shiftr d 48) 0xf) 16))) = raw.
Proof.
  change 65535 with (Z.ones 16). change 15 with (Z.ones 4).
  rewrite !Z.land_ones, !Z.shiftr_div_pow2, Z.shiftl_mul_pow2 by lia.
  assert ((d / 2 ^ 48) mod 2 ^ 4 = raw / 65536) as -> by (subst d; unfold descriptor, is_u32, is_u8 in *; dlia).
  assert (d mod 2 ^ 16 = raw mod 65536) as ->
    by (subst d; unfold descriptor, is_u32, is_u8 in *; dlia).
  unfold wrap64. rewrite (Z.mod_small (_ * _)) by dlia.
  rewrite lor_add by dlia. unfold wrap32. dlia.
Qed.

Lemma descriptor_bit k : 0 <= k < 8 -> Z.testbit d (40 + k) = Z.testbit access k.
Proof.
  intros Hk. rewrite !testbit_div by lia. rewrite Z.pow_add_r, <- Z.div_div by lia.
  assert (d / 2 ^ 40 = access + (raw / 65536 + flags * 16 + base / 16777216 * 256) * 2 ^ 8) as ->
    by (subst d; unfold descriptor, is_u32, is_u8 in *; dlia).
  rewrite <- !Z.shiftr_div_pow2, <- !Z.testbit_odd by lia.
  rewrite <- lor_add by (unfold is_u8 in *; lia).
  rewrite Z.lor_spec, Z.mul_pow2_bits, (Z.testbit_neg_r _ (k - 8)) by lia. apply orb_false_r.
Qed.

Lemma descriptor_granularity : Z.testbit d 55 = Z.testbit flags 3.
Proof.
  rewrite !testbit_div by lia.
  assert (d / 2 ^ 55 = flags / 2 ^ 3 + base / 16777216 * 2) as ->
    by (subst d; unfold descriptor, is_u32, is_u8 in *; dlia).
  by rewrite Z.odd_add, Z.odd_mul, andb_false_r, xorb_false_r.
Qed.

Lemma descriptor_ring : seg_ring d = (access / 32) mod 4.
Proof.
  unfold seg_ring, wrap8. change 3 with (Z.ones 2). rewrite Z.land_ones, Z.shiftr_div_pow2 by lia.
  subst d. unfold descriptor, is_u32, is_u8 in *. dlia.
Qed.

Lemma descriptor_limit :
  (if has_bit d 55 then Z.lor (wrap32 (Z.shiftl raw 12)) 0xfff else raw) = reach raw flags.
Proof.
  rewrite has_bit_testbit, descriptor_granularity by lia. unfold reach.
  destruct (Z.testbit flags 3); [|done].
  rewrite Z.shiftl_mul_pow2, wrap32_small by (unfold is_u32; lia).
  rewrite Z.lor_comm, lor_add by lia. lia.
Qed.

End Layout.

Definition expand_down (access : Z) : bool := negb (Z.testbit access 3) && Z.testbit access 2.

(** The limit check of the processor manual: an offset into a segment that
    expands down is above the limit, and below 64 kb unless the segment is a
    32-bit one (flag 2); into any other it is at most the limit. *)
Definition within (raw access flags offset : Z) : bool :=
  if expand_down access then
    (reach raw flags <? offset) && (offset <=? if Z.testbit flags 2 then U32_MAX else 0xffff)
  else offset <=? reach raw flags.

(** The linear addresses a code or data segment reaches. *)
Definition in_segment (base raw access flags va : Z) : Prop :=
  exists offset, is_u32 offset /\ within raw access flags offset = true /\ va = base +u offset.

Lemma reach_range raw flags : 0 <= raw < 1048576 -> 0 <= reach raw flags <= U32_MAX.
Proof. intros Hr. unfold reach, U32_MAX. destruct (Z.testbit flags 3); lia. Qed.

(** What the code computes. *)
Lemma seg_range_spec base raw access flags :
  is_u32 base -> 0 <= raw < 1048576 -> is_u8 access -> 0 <= flags < 16 ->
  descriptor base raw access flags <> 0 ->
  seg_range (descriptor base raw access flags) =
    (if expand_down access then
       if reach raw flags =? U32_MAX then None
       else Some (base +u (reach raw flags + 1), U32_MAX)
     else Some (base, base +u reach raw flags)).
Proof.
  intros Hb Hr Ha Hf Hne.
  unfold seg_range. rewrite (proj2 (Z.eqb_neq _ _) Hne).
  rewrite descriptor_base, descriptor_raw, descriptor_limit by done.
  rewrite (has_bit_testbit _ 43), (has_bit_testbit _ 42) by lia.
  pose proof (descriptor_bit base raw access flags Hb Hr Ha Hf 3 ltac:(lia)) as E3.
  pose proof (descriptor_bit base raw access flags Hb Hr Ha Hf 2 ltac:(lia)) as E2.
  change (40 + 3) with 43 in E3. change (40 + 2) with 42 in E2. rewrite E2, E3. fold (expand_down access).
  destruct (expand_down access); [|done].
  pose proof (reach_range raw flags Hr).
  rewrite Z.gtb_ltb. destruct (Z.ltb_spec U32_MAX (reach raw flags + 1)), (Z.eqb_spec (reach raw flags) U32_MAX);
    (done || lia).
Qed.

(** C38: The decoder behind the [gdt] command shows the addresses that the
    processor lets a segment reach: for a code or data segment that does not
    expand down and does not wrap past 4 gb, and for one that expands down,
    starts at 0 and is a 32-bit one, an address lies in the range shown
    exactly when some offset that passes the processor's limit check leads to
    it (the limit counts pages when the granularity flag is set); nothing is
    shown exactly when there is no such address.  The ring shown is bits 5
    and 6 of the access byte. *)
Theorem seg_range_decodes base raw access flags :
  is_u32 base -> 0 <= raw < 1048576 -> is_u8 access -> 0 <= flags < 16 ->
  Z.testbit access 4 = true ->
  (if expand_down access then base = 0 /\ Z.testbit flags 2 = true else base + reach raw flags <= U32_MAX) ->
  match seg_range (descriptor base raw access flags) with
  | Some (lo, hi) => lo <= hi /\ forall va, is_u32 va -> in_segment base raw access flags va <-> lo <= va <= hi
  | None => forall va, ~ in_segment base raw access flags va
  end /\
  seg_ring (descriptor base raw access flags) = (access / 32) mod 4.
Proof.
  intros Hb Hr Ha Hf Hs Hx. split; [|by apply descriptor_ring].
  pose proof (reach_range raw flags Hr) as Hl. unfold is_u32 in *. unfold U32_MAX in *.
  rewrite seg_range_spec; try assumption; cycle 1.
  { intros Hz. assert (access = 0) as ->; [|by rewrite Z.bits_0 in Hs].
    unfold descriptor, is_u8 in *. dlia. }
  unfold in_segment, within, is_u32, U32_MAX in *. destruct (expand_down access).
  - destruct Hx as [-> ->]. destruct (Z.eqb_spec (reach raw flags) 4294967295) as [E|E].
    { rewrite E. intros va (o & Ho & Hw & _). apply andb_true_iff in Hw as [Hw _]. apply Z.ltb_lt in Hw. lia. }
    rewrite wrap32_small by (unfold is_u32; lia). split; [lia|]. intros va Hva. split.
    + intros (o & Ho & Hw & ->). apply andb_true_iff in Hw as [Hw _]. apply Z.ltb_lt in Hw.
      rewrite wrap32_small by (unfold is_u32; lia). lia.
    + intros Hin. exists va. rewrite wrap32_small by (unfold is_u32; lia). split; [lia|]. split; [|lia].
      apply andb_true_iff. split; [apply Z.ltb_lt|apply Z.leb_le]; lia.
  - rewrite (wrap32_small (base + reach raw flags)) by (unfold is_u32; lia). split; [lia|]. intros va Hva. split.
    + intros (o & Ho & Hw & ->). apply Z.leb_le in Hw. rewrite wrap32_small by (unfold is_u32; lia). lia.
    + intros Hin. exists (va - base). rewrite wrap32_small by (unfold is_u32; lia).
      split; [lia|]. split; [apply Z.leb_le; lia|lia].
Qed.

(** A segment that expands up, and one that expands down. *)
Lemma seg_range_decodes_witness :
  seg_range (descriptor 0x1000 0xff 0x92 0) = Some (0x1000, 0x10ff) /\
  (in_segment 0x1000 0xff 0x92 0 0x1080 <-> 0x1000 <= 0x1080 <= 0x10ff) /\
  seg_range (descriptor 0 0xff 0x96 4) = Some (0x100, U32_MAX) /\
  (in_segment 0 0xff 0x96 4 0x80 <-> 0x100 <= 0x80 <= U32_MAX).
Proof.
  pose proof (seg_range_decodes 0x1000 0xff 0x92 0 ltac:(by_decide) ltac:(by_decide) ltac:(by_decide)
    ltac:(by_decide) eq_refl ltac:(cbn; by_decide)) as [H1 _].
  pose proof (seg_range_decodes 0 0xff 0x96 4 ltac:(by_decide) ltac:(by_decide) ltac:(by_decide)
    ltac:(by_decide) eq_refl ltac:(split; reflexivity)) as [H2 _].
  split; [reflexivity|]. split; [exact (proj2 H1 0x1080 ltac:(by_decide))|].
  split; [reflexivity|]. exact (proj2 H2 0x80 ltac:(by_decide)).
Defined.

(** A 16-bit segment that expands down ends at 64 kb; the decoder shows it
    up to the last address. *)
Lemma seg_range_expand_down_end :
  seg_range (descriptor 0 0xff 0x96 0) = Some (0x100, U32_MAX) /\ ~ in_segment 0 0xff 0x96 0 0x10000.
Proof.
  split; [reflexivity|]. intros (o & Ho & Hw & E). rewrite wrap32_small in E by (unfold is_u32 in *; lia).
  unfold within in Hw. change (expand_down 0x96) with true in Hw. change (Z.testbit 0 2) with false in Hw.
  apply andb_true_iff in Hw as [_ Hw]. apply Z.leb_le in Hw. lia.
Qed.

(** [flat] is the descriptor of the whole address space. *)
Lemma flat_descriptor access : is_u8 access -> flat access = descriptor 0 0xfffff access 0xc.
Proof.
  intros Ha. unfold flat, descriptor, is_u8 in *.
  rewrite !Z.shiftl_mul_pow2 by lia. unfold wrap64. rewrite (Z.mod_small (access * _)) by lia.
  change ((207 * 2 ^ 48) mod 18446744073709551616) with (207 * 2 ^ 48).
  rewrite (lor_add 65535 access 40), (lor_add _ 207 48); dlia.
Qed.

(** ** Installing the table *)

Section Install.
Context `{LK : LinkerOk}.

(** The table in memory. *)
Definition gdt_in (m : machine) : Prop :=
  forall i seg, SEGMENTS !! i = Some seg ->
    pread64 (m_ram m) (BASE + 8 * Z.of_nat i) = seg_descriptor seg.

Lemma low_off_tables a : 0 <= a < 1048576 -> off_tables a.
Proof. intros Ha. destruct boot_frames as (_ & _ & _ & D & T). unfold off_tables. dlia. Qed.

Lemma write_segments_spec s :
  boot_ok (s_machine s) ->
  exists m', write_segments s = Done tt (with_machine m' s) /\ gdt_in m' /\
    early (fun a => BASE <= a < BASE + 56) (s_machine s) m'.
Proof.
  intros Hm. destruct (boot_store_list (map seg_descriptor SEGMENTS) (s_machine s) BASE 0)
    as (m' & E & Hg & He); [done|done|done| | |].
  - repeat (apply Forall_cons_iff; split; [by_decide|]). apply Forall_nil.
  - intros k Hk. change (Z.of_nat (length (map seg_descriptor SEGMENTS))) with 7 in Hk.
    assert (boot_phys BASE = 2048) as -> by done. unfold BASE, windowed, boot_phys.
    split_and!; [lia|destruct (Z.ltb_spec (2048 + k) 4194304); lia|apply low_off_tables; lia].
  - exists m'. split; [by apply on_machine_Done|]. split.
    + intros i seg Hi. rewrite <- (Hg i (seg_descriptor seg)); [done|].
      rewrite list_lookup_fmap. by rewrite Hi.
    + exact He.
Qed.

Lemma on_rest_Done {A} (k : M sys A) c s a s' :
  k s = Done a s' -> on_rest k (c, s) = Done a (c, s').
Proof. intros E. unfold on_rest, zoom. cbn [snd]. by rewrite E. Qed.

(** Loading one of the kernel selectors once the table is there. *)
Lemma load_selector_spec c s i seg :
  boot_ok (s_machine s) -> gdt_in (s_machine s) -> dt_base (c_gdtr c) = BASE ->
  SEGMENTS !! i = Some seg -> seg_selector seg / 8 = Z.of_nat i ->
  exists m', load_selector (seg_selector seg) (c, s) =
      Done (mkSegreg (seg_selector seg) (seg_descriptor seg)) (c, with_machine m' s) /\
    gdt_in m' /\ early (fun _ => False) (s_machine s) m'.
Proof.
  intros Hm Hg Hb Hi Hs. assert (i < 7)%nat by (by apply lookup_lt_Some in Hi).
  assert (BASE +u seg_selector seg / 8 * 8 = BASE + 8 * Z.of_nat i) as Ea.
  { rewrite Hs, wrap32_small; unfold BASE, is_u32; lia. }
  destruct (boot_load64 (s_machine s) (BASE + 8 * Z.of_nat i)) as (m' & E & He);
    [done|unfold windowed, BASE; lia|unfold windowed, BASE; lia|unfold BASE; dlia|].
  exists m'. unfold load_selector. cbn [fst gets bind]. unfold bind, gets. cbn [fst]. rewrite Hb, Ea.
  unfold on_rest, zoom, on_machine. cbn [snd]. rewrite E.
  assert (boot_phys (BASE + 8 * Z.of_nat i) = BASE + 8 * Z.of_nat i) as ->.
  { unfold boot_phys, BASE. destruct (Z.ltb_spec (2048 + 8 * Z.of_nat i) 4194304); lia. }
  rewrite (Hg i seg Hi). split; [reflexivity|]. split; [|done].
  intros j sg Hj. rewrite <- (Hg j sg Hj). unfold pread64.
  by rewrite !(early_word _ _ _ _ He) by (intros; tauto).
Qed.

(** A machine on which only the table was written since [s]. *)
Definition gdt_ready (s : sys) (m : machine) : Prop :=
  gdt_in m /\ early (fun a => BASE <= a < BASE + 56) (s_machine s) m.

(** The table has [d] where the selector [sel] points. *)
Definition names (sel d : Z) : Prop :=
  exists i name, SEGMENTS !! i = Some (mkSegment name sel d) /\ sel / 8 = Z.of_nat i.

Lemma names_data : names KERNEL_DATA (flat KERNEL_RW).
Proof. by exists 2%nat, "kernel data". Qed.
Lemma names_stack : names KERNEL_STACK (flat KERNEL_RW).
Proof. by exists 3%nat, "kernel stack". Qed.
Lemma names_code : names KERNEL_CODE (flat KERNEL_EXEC).
Proof. by exists 1%nat, "kernel code". Qed.

(** One selector loaded into one register. *)
Lemma load_step s c m sel d (set : segreg -> cpu -> cpu) :
  gdt_ready s m -> dt_base (c_gdtr c) = BASE -> names sel d ->
  exists m', gdt_ready s m' /\ forall k : unit -> M (cpu * sys) unit,
    (r <- load_selector sel ;; u <- on_cpu (set r) ;; k u) (c, with_machine m s) =
      k tt (set (mkSegreg sel d) c, with_machine m' s).
Proof.
  intros [Hg He] Hb (i & name & Hi & Hs).
  destruct (load_selector_spec c (with_machine m s) i _ (ea_ok _ _ _ He) Hg Hb Hi Hs)
    as (m' & E & Hg' & He').
  exists m'. split; [split; [done|]|].
  - eapply early_trans; [exact He|]. eapply early_weaken; [|exact He']. done.
  - intros k. by rewrite (bind_Done _ _ _ _ _ E).
Qed.

Ltac load_one set names :=
  lazymatch goal with
  | H : gdt_ready ?s ?m |- context [bind (load_selector ?sel) _ (?c, with_machine ?m ?s)] =>
      let m' := fresh "m" in let H' := fresh "H" in
      destruct (load_step s c m sel _ set H eq_refl names) as (m' & H' & ->); clear H
  end.

Lemma gdt_install_spec c s :
  boot_ok (s_machine s) ->
  exists c' m', install (c, s) = Done tt (c', with_machine m' s) /\
    gdt_in m' /\ c_gdtr c' = mkGdtr 55 BASE /\ c_idtr c' = c_idtr c /\
    c_cs c' = mkSegreg KERNEL_CODE (flat KERNEL_EXEC) /\
    c_ss c' = mkSegreg KERNEL_STACK (flat KERNEL_RW) /\
    Forall (fun r => r = mkSegreg KERNEL_DATA (flat KERNEL_RW)) [c_ds c'; c_es c'; c_fs c'; c_gs c'] /\
    early (fun a => BASE <= a < BASE + 56) (s_machine s) m'.
Proof.
  intros Hm. destruct (write_segments_spec s Hm) as (m0 & E0 & G0 & S0).
  unfold install. rewrite (bind_Done _ _ _ _ _ (on_rest_Done write_segments c s _ _ E0)).
  rewrite (bind_Done (on_cpu (set_gdtr (mkGdtr LIMIT BASE))) _ _ tt
    (set_gdtr (mkGdtr LIMIT BASE) c, with_machine m0 s)) by done.
  assert (gdt_ready s m0) as H0 by done.
  load_one set_ds names_data. load_one set_es names_data. load_one set_fs names_data.
  load_one set_gs names_data. load_one set_ss names_stack.
  match goal with |- context [bind ?a ?b (?x, with_machine ?m s)] =>
    destruct (load_step s x m KERNEL_CODE (flat KERNEL_EXEC) set_cs) as (m' & [Hg He] & E');
      [assumption|reflexivity|exact names_code|]; eexists _, m'; split; [exact (E' ret)|] end.
  split_and!; try reflexivity; try assumption. repeat (apply Forall_cons_iff; split; [reflexivity|]).
  apply Forall_nil.
Qed.

(** C27: [gdt::install] returns with the seven declared descriptors at 0x800,
    the table register pointing at exactly them, and every segment register
    loaded: ds, es, fs, gs with the kernel data segment, ss with the kernel
    stack segment, cs with the kernel code segment.  It writes no other byte
    of memory. *)
Theorem gdt_install_loads c s :
  boot_ok (s_machine s) ->
  exists c' m', install (c, s) = Done tt (c', with_machine m' s) /\
    gdt_in m' /\ c_gdtr c' = mkGdtr 55 BASE /\ c_idtr c' = c_idtr c /\
    c_cs c' = mkSegreg KERNEL_CODE (flat KERNEL_EXEC) /\
    c_ss c' = mkSegreg KERNEL_STACK (flat KERNEL_RW) /\
    Forall (fun r => r = mkSegreg KERNEL_DATA (flat KERNEL_RW)) [c_ds c'; c_es c'; c_fs c'; c_gs c'] /\
    early (fun a => BASE <= a < BASE + 56) (s_machine s) m'.
Proof. exact (gdt_install_spec c s). Qed.

End Install.

Definition demo_cpu : cpu :=
  let r := mkSegreg 0 0 in mkCpu (mkGdtr 0 0) (mkGdtr 0 0) r r r r r r.
Definition demo_boot_sys : sys := mkSys demo_boot Pmm.pmm_zero Vga.vga_boot 0 0xC0111000.

Lemma gdt_install_loads_witness :
  exists c m, install (demo_cpu, demo_boot_sys) = Done tt (c, with_machine m demo_boot_sys) /\
    sr_selector (c_cs c) = 8 /\ pread64 (m_ram m) 0x808 = flat KERNEL_EXEC.
Proof.
  destruct (@gdt_install_loads demo_linker demo_linker_ok demo_cpu demo_boot_sys demo_boot_ok)
    as (c & m & E & Hg & _ & _ & Hcs & _).
  exists c, m. split; [exact E|]. split; [rewrite Hcs; reflexivity|].
  exact (Hg 1%nat _ eq_refl).
Defined.
