(* ===== verification/Idt.v ===== *)
(** * Exceptions (kernel/src/idt.rs, and fatal_fault of kernel/src/panic.rs)

    The gates, the assembler stubs that build the frame on the stack, and
    the handler.  [instruction] is one instruction of kernel code on a
    processor whose page faults go through the handler: when the access
    faults, the handler runs and, if it returns, the instruction is tried
    again. *)

From S2P Require Import Prelude.
From S2P Require Import Mem.
From S2P Require Import Klib.
From S2P Require Import Vga.
From S2P Require Import Machine.
From S2P Require Import Fmt.
From S2P Require Import Panic.
From S2P Require Import Paging.
From S2P Require Import Gdt.

(** idt.rs 9-9: VECTORS *)
Definition VECTORS : Z := 32.
(** idt.rs 10-10: SLOTS *)
Definition SLOTS : Z := 256.
(** idt.rs 11-11: PAGE_FAULT *)
Definition PAGE_FAULT : Z := 14.
(** idt.rs 13-13: INTERRUPT_GATE *)
Definition INTERRUPT_GATE : Z := 0x8e.

(** idt.rs 15-30: Frame *)
Record Frame : Type := mkFrame {
  f_edi : Z;
  f_esi : Z;
  f_ebp : Z;
  f_esp : Z;
  f_ebx : Z;
  f_edx : Z;
  f_ecx : Z;
  f_eax : Z;
  f_vector : Z;
  f_error : Z;
  f_eip : Z;
  f_cs : Z;
  f_eflags : Z;
}.

(** idt.rs 32-65: NAMES *)
Definition NAMES : list string := [
  "divide by zero"; "debug"; "non maskable interrupt"; "breakpoint"; "overflow";
  "bound range exceeded"; "invalid opcode"; "device not available"; "double fault";
  "coprocessor segment overrun"; "invalid task state segment"; "segment not present";
  "stack segment fault"; "general protection fault"; "page fault"; "reserved";
  "floating point error"; "alignment check"; "machine check"; "simd floating point error";
  "virtualisation error"; "control protection fault"; "reserved"; "reserved"; "reserved";
  "reserved"; "reserved"; "reserved"; "hypervisor injection"; "vmm communication";
  "security fault"; "reserved"
].

(** idt.rs 67-72: name *)
Definition name (vector : Z) : string :=
  match NAMES !! Z.to_nat vector with
  | Some name => name
  | None => "interrupt"
  end.

(** idt.rs 87-92: gate *)
Definition gate (handler : Z) : Z :=
  Z.lor (Z.lor (Z.lor (Z.land handler 0xffff) (wrap64 (Z.shiftl KERNEL_CODE 16)))
           (wrap64 (Z.shiftl INTERRUPT_GATE 40)))
        (wrap64 (Z.shiftl (Z.shiftr handler 16) 48)).

Section Idt.
Context {L : Linker}.

(** idt.rs 106-108: base *)
Definition base : Z := idt_table.

(** idt.rs 123-130: report *)
Definition report : M sys unit :=
  printk (bytes "faults: " ++ dec SLOTS ++ bytes " vectors at " ++ hex_alt 10 base ++ bytes ", " ++
    dec VECTORS ++ bytes " exceptions wired, interrupts off" ++ newline).

(** The words of the table of stubs, which the loader places at [isr_table]. *)
(** idt.rs 191-226: isr_table *)
Definition isr_stubs : list Z := [
  isr_addr 0; isr_addr 1; isr_addr 2; isr_addr 3; isr_addr 4; isr_addr 5; isr_addr 6; isr_addr 7;
  isr_addr 8; isr_addr 9; isr_addr 10; isr_addr 11; isr_addr 12; isr_addr 13; isr_addr 14; isr_addr 15;
  isr_addr 16; isr_addr 17; isr_addr 18; isr_addr 19; isr_addr 20; isr_addr 21; isr_addr 22; isr_addr 23;
  isr_addr 24; isr_addr 25; isr_addr 26; isr_addr 27; isr_addr 28; isr_addr 29; isr_addr 30; isr_addr 31
].

(** One turn of the loop of [install]. *)
(** idt.rs 97-100: install *)
Definition install_gate (vector : Z) : M machine unit :=
  handler <- vload32 (isr_table +u 4 * vector) ;;
  vstore64 (idt_table +u 8 * vector) (gate handler).

(** idt.rs 94-104: install *)
Definition install : M (cpu * sys) unit :=
  on_rest (on_machine (for_each (seqZ 0 VECTORS) install_gate)) ;;
  on_cpu (set_idtr (mkGdtr (wrap16 (SLOTS * 8 - 1)) idt_table)) ;;
  on_rest report.

(** panic.rs 43-79: fatal_fault *)
Definition fatal_fault {A} (frame : Frame) : M sys A :=
  on_vga (set_color BrightRed Black) ;;
  printk (newline ++ bytes "KERNEL PANIC: " ++ bytes (name (f_vector frame)) ++ bytes " (vector " ++
    dec (f_vector frame) ++ bytes ")" ++ newline) ;;
  (if f_vector frame =? PAGE_FAULT then
     let error := f_error frame in
     cr2 <- Paging.cr2 ;;
     printk (bytes "  cr2 " ++ hex_alt 10 cr2 ++ bytes ", a " ++
       bytes (if negb (Z.land error 4 =? 0) then "user" else "kernel") ++ bytes " " ++
       bytes (if negb (Z.land error 2 =? 0) then "write" else "read") ++ bytes ", the page was " ++
       bytes (if negb (Z.land error 1 =? 0) then "present: the rights said no" else "not present") ++
       newline)
   else ret tt) ;;
  printk (bytes "  error " ++ hex_alt 10 (f_error frame) ++ bytes " eip " ++ hex_alt 10 (f_eip frame) ++
    bytes " cs " ++ hex_alt 6 (f_cs frame) ++ bytes " eflags " ++ hex_alt 10 (f_eflags frame) ++ newline) ;;
  printk (bytes "  eax " ++ hex_alt 10 (f_eax frame) ++ bytes " ecx " ++ hex_alt 10 (f_ecx frame) ++
    bytes " edx " ++ hex_alt 10 (f_edx frame) ++ bytes " ebx " ++ hex_alt 10 (f_ebx frame) ++ newline) ;;
  printk (bytes "  esi " ++ hex_alt 10 (f_esi frame) ++ bytes " edi " ++ hex_alt 10 (f_edi frame) ++
    bytes " ebp " ++ hex_alt 10 (f_ebp frame) ++ bytes " esp " ++ hex_alt 10 (f_esp frame) ++ newline) ;;
  report_machine ;;
  stop.

(** idt.rs 110-121: fault_entry *)
Definition fault_entry (frame : Frame) : M sys unit :=
  if f_vector frame =? PAGE_FAULT then
    addr <- cr2 ;;
    handled <- handle_fault addr (f_error frame) ;;
    if handled : bool then
      koops (bytes "page fault at " ++ hex_alt 10 addr ++ bytes ", demand paged, eip " ++
        hex_alt 10 (f_eip frame))
    else fatal_fault frame
  else fatal_fault frame.

(** ** The stubs *)

(** The registers of the interrupted code. *)
Record regs : Type := mkRegs {
  r_eax : Z; r_ecx : Z; r_edx : Z; r_ebx : Z;
  r_esp : Z; r_ebp : Z; r_esi : Z; r_edi : Z;
  r_eip : Z; r_cs : Z; r_eflags : Z;
}.

(** Vectors for which the processor pushes an error code (Intel and AMD
    manuals, "exception and interrupt reference"). *)
Definition pushes_error (vector : Z) : bool :=
  bool_decide (vector ∈ [8; 10; 11; 12; 13; 14; 17; 21; 29; 30]).

(** What the processor pushes; the head of the list is the top of the stack. *)
Definition cpu_push (vector error : Z) (r : regs) (stack : list Z) : list Z :=
  (if pushes_error vector then [error] else []) ++ r_eip r :: r_cs r :: r_eflags r :: stack.

(** The vectors whose stub is [isr_error]; the others are [isr_plain]. *)
(** idt.rs 149-180: isr0 .. isr31 *)
Definition stub_error : list bool :=
  [false; false; false; false; false; false; false; false; true; false; true; true; true; true;
   true; false; false; true; false; false; false; true; false; false; false; false; false; false;
   false; false; true; false].

(** The stub of a vector: the missing error code, then the vector. *)
(** idt.rs 134-147: isr_plain, isr_error *)
Definition isr (vector : Z) (stack : list Z) : list Z :=
  if nth (Z.to_nat vector) stub_error false then vector :: stack else vector :: 0 :: stack.

(** [pusha]: the [esp] it stores is the one before it; [words] is how far
    the stack has grown since the interrupted code. *)
(** idt.rs 182-184: isr_common *)
Definition pusha (r : regs) (words : Z) (stack : list Z) : list Z :=
  [r_edi r; r_esi r; r_ebp r; r_esp r -u 4 * words; r_ebx r; r_edx r; r_ecx r; r_eax r] ++ stack.

(** The stack when [fault_entry] is called, its argument left aside. *)
(** idt.rs 133-184: isr_common *)
Definition isr_enter (vector error : Z) (r : regs) (stack : list Z) : list Z :=
  let entered := isr vector (cpu_push vector error r stack) in
  pusha r (Z.of_nat (length entered - length stack)) entered.

(** The frame the handler reads at the top of the stack. *)
(** idt.rs 15-30: Frame *)
Definition frame_at (stack : list Z) : option Frame :=
  match stack with
  | edi :: esi :: ebp :: esp :: ebx :: edx :: ecx :: eax :: vector :: error :: eip :: cs :: eflags :: _ =>
      Some (mkFrame edi esi ebp esp ebx edx ecx eax vector error eip cs eflags)
  | _ => None
  end.

(** [popa] (which skips [esp]), [addl $8, %esp] and [iret]: the registers and
    the stack the interrupted code goes on with.  [iret] without a change of
    ring leaves [esp] just above what it popped. *)
(** idt.rs 186-189: isr_common *)
Definition isr_leave (esp : Z) (stack : list Z) : option (regs * list Z) :=
  match stack with
  | edi :: esi :: ebp :: _ :: ebx :: edx :: ecx :: eax :: _ :: _ :: eip :: cs :: eflags :: stack =>
      Some (mkRegs eax ecx edx ebx (esp +u 4 * 13) ebp esi edi eip cs eflags, stack)
  | _ => None
  end.

(** ** Instructions that may fault *)

(** The frame of a page fault. *)
Definition fault_frame (error : Z) (r : regs) : Frame :=
  mkFrame (r_edi r) (r_esi r) (r_ebp r) (r_esp r -u 20) (r_ebx r) (r_edx r) (r_ecx r) (r_eax r)
    PAGE_FAULT error (r_eip r) (r_cs r) (r_eflags r).

(** One instruction of kernel code; [fuel] bounds how often it may fault. *)
Fixpoint instruction {A} (fuel : nat) (r : regs) (c : M sys A) : M sys A := fun s =>
  match c s with
  | Fault addr error s' =>
      match fuel with
      | O => OutOfFuel
      | S fuel => (fault_entry (fault_frame error r) ;; instruction fuel r c) s'
      end
  | o => o
  end.

End Idt.
