(* ===== verification/Exceptions.v ===== *)
(** * Theorems about exceptions: the stubs, demand paging, fatal faults *)

From S2P Require Import Prelude.
From S2P Require Import Mem.
From S2P Require Import Klib.
From S2P Require Vga.
From S2P Require Import Machine.
From S2P Require Import Pmm.
From S2P Require Import Fmt.
From S2P Require Stack.
From S2P Require Import Panic.
From S2P Require Import Paging.
From S2P Require Import PagingSpec.
From S2P Require Import PagingOps.
From S2P Require Import AddressSpace.
From S2P Require Import BootMem.
From S2P Require Import Gdt.
From S2P Require Import Segments.
From S2P Require Import Idt.

(** ** The stack dump returns *)

Section Dump.
Context {L : Linker}.

(** The state up to the TLB and the screen. *)
Definition looked (s s' : sys) : Prop :=
  s_machine s' ≡ s_machine s /\ tlb_ok (s_machine s') /\ s_pmm s' = s_pmm s /\
  s_oops s' = s_oops s /\ s_esp s' = s_esp s.

Lemma looked_refl s : tlb_ok (s_machine s) -> looked s s.
Proof. done. Qed.

Lemma looked_trans s1 s2 s3 : looked s1 s2 -> looked s2 s3 -> looked s1 s3.
Proof.
  intros (A1 & A2 & A3 & A4 & A5) (B1 & B2 & B3 & B4 & B5).
  split_and!; [by etrans|done|congruence..].
Qed.

Lemma looked_printk s text : tlb_ok (s_machine s) ->
  exists s', printk text s = Done tt s' /\ looked s s'.
Proof. intros Ht. eexists. split; [reflexivity|done]. Qed.

(** Addresses that can be read. *)
Definition readable (m : machine) (from to : Z) : Prop :=
  forall va, from <= va < to -> is_u32 va /\ is_Some (walk m va).

Lemma readable_equiv m m' from to : m' ≡ m -> readable m from to -> readable m' from to.
Proof. intros Q Hr va Hva. rewrite Q. by apply Hr. Qed.

Lemma read_bytes_spec n : forall from s,
  tlb_ok (s_machine s) -> readable (s_machine s) from (from + Z.of_nat n) ->
  exists l s', Stack.read_bytes n from s = Done l s' /\ length l = n /\ looked s s'.
Proof.
  induction n as [|n IH]; intros from s Ht Hr; cbn [Stack.read_bytes].
  { exists [], s. by split. }
  destruct (Hr from) as [Hu [t Hw]]; [lia|].
  assert (on_machine (vload8 from) s =
    Done (pread8 (m_ram (s_machine s)) (t_frame t + from mod 4096))
      (with_machine (touch from (s_machine s)) s)) as E.
  { apply on_machine_Done. unfold vload8.
    rewrite (bind_Done _ _ _ _ _ (access_ok from false _ t (tlb_ok_at _ _ Ht) Hw (or_introl eq_refl))).
    unfold gets. by rewrite touch_ram. }
  rewrite (bind_Done _ _ _ _ _ E).
  destruct (IH (from +u 1) (with_machine (touch from (s_machine s)) s)) as (l & s' & E' & Hl & Hs).
  - by apply touch_tlb_ok.
  - apply (readable_equiv (s_machine s)); [apply touch_equiv|]. intros va Hva. apply Hr.
    unfold is_u32, wrap32 in *. destruct n; [lia|].
    assert (is_u32 (from + 1)) as [_ Hx] by (apply (Hr (from + 1)); lia).
    rewrite Z.mod_small in Hva by lia. lia.
  - rewrite (bind_Done _ _ _ _ _ E'). eexists _, s'. split; [reflexivity|]. cbn. split; [by rewrite Hl|].
    eapply looked_trans; [|exact Hs]. split_and!; try done; [apply touch_equiv|by apply touch_tlb_ok].
Qed.

Lemma render_spec fuel : forall base row data s,
  tlb_ok (s_machine s) -> (length data < fuel)%nat ->
  exists s', Stack.render fuel base row data s = Done tt s' /\ looked s s'.
Proof.
  induction fuel as [|fuel IH]; intros base row data s Ht Hf; [lia|]. cbn [Stack.render].
  destruct data as [|b data]; [by exists s|].
  destruct (looked_printk s (Stack.render_row (base +u (row * Stack.PER_ROW))
    (take (Z.to_nat Stack.PER_ROW) (b :: data))) Ht) as (s1 & E1 & H1).
  rewrite (bind_Done _ _ _ _ _ E1).
  destruct (IH base (row + 1) (drop (Z.to_nat Stack.PER_ROW) (b :: data)) s1) as (s2 & E2 & H2).
  - apply H1.
  - rewrite length_drop. change (Z.to_nat Stack.PER_ROW) with 16%nat. cbn in Hf |- *. lia.
  - exists s2. split; [exact E2|]. by eapply looked_trans.
Qed.

Lemma print_loop_spec fuel : forall at_ left_ s,
  tlb_ok (s_machine s) -> 0 <= left_ -> (Z.to_nat left_ < fuel)%nat ->
  readable (s_machine s) at_ (at_ + left_) -> at_ + left_ <= stack_top -> stack_top < 4294967296 -> 0 <= at_ ->
  exists s', Stack.print_loop fuel at_ left_ s = Done tt s' /\ looked s s'.
Proof.
  induction fuel as [|fuel IH]; intros at_ left_ s Ht Hl Hf Hr Htop Hu Hat; [lia|].
  cbn [Stack.print_loop]. rewrite Z.gtb_ltb. destruct (Z.ltb_spec 0 left_); [|by exists s].
  unfold Stack.snapshot, Stack.WINDOW, Stack.top.
  replace (Z.min (saturating_sub32 stack_top at_) (Z.min left_ 256)) with (Z.min left_ 256)
    by (unfold saturating_sub32; lia).
  destruct (read_bytes_spec (Z.to_nat (Z.min left_ 256)) at_ s Ht) as (l & s1 & E1 & Hlen & H1).
  { intros va Hva. apply Hr. lia. }
  rewrite (bind_Done _ _ _ _ _ E1). destruct l as [|b l]; [cbn in Hlen; lia|].
  destruct (render_spec (S (length (b :: l))) at_ 0 (b :: l) s1) as (s2 & E2 & H2); [apply H1|lia|].
  rewrite (bind_Done _ _ _ _ _ E2). rewrite Hlen, Z2Nat.id by lia.
  assert (at_ +u Z.min left_ 256 = at_ + Z.min left_ 256) as -> by (apply wrap32_small; unfold is_u32; lia).
  destruct (IH (at_ + Z.min left_ 256) (left_ - Z.min left_ 256) s2) as (s3 & E3 & H3);
    [apply H2|lia|lia| |lia|lia|lia|].
  - apply (readable_equiv (s_machine s)); [by etrans; [apply H2|apply H1]|].
    intros va Hva. apply Hr. lia.
  - exists s3. split; [exact E3|]. eapply looked_trans; [exact H1|]. by eapply looked_trans.
Qed.

Lemma stack_print_spec esp count s :
  tlb_ok (s_machine s) -> is_u32 esp -> 0 <= count -> stack_top < 4294967296 ->
  readable (s_machine s) esp stack_top ->
  exists s', Stack.print esp count s = Done tt s' /\ looked s s'.
Proof.
  intros Ht He Hc Htop Hr. unfold Stack.print, Stack.top. unfold is_u32 in He.
  edestruct (looked_printk s) as (s1 & E1 & H1); [done|]. rewrite (bind_Done _ _ _ _ _ E1).
  assert (0 <= saturating_sub32 stack_top esp) by (unfold saturating_sub32; lia).
  destruct (Z.le_gt_cases stack_top esp) as [Hle|Hgt].
  { exists s1. split; [|done]. unfold saturating_sub32.
    replace (Z.min count (Z.max 0 (stack_top - esp))) with 0 by lia. reflexivity. }
  destruct (print_loop_spec (S (Z.to_nat (Z.min count (saturating_sub32 stack_top esp)))) esp
    (Z.min count (saturating_sub32 stack_top esp)) s1) as (s2 & E2 & H2);
    [apply H1|unfold saturating_sub32; lia|lia| |unfold saturating_sub32; lia|done|lia|].
  - apply (readable_equiv (s_machine s)); [apply H1|]. intros va Hva. apply Hr.
    unfold saturating_sub32 in Hva. lia.
  - exists s2. split; [exact E2|]. by eapply looked_trans.
Qed.

(** C37: On a machine whose TLB is not stale, from an [esp] such that every
    byte from it to the top of the stack is mapped (none, when [esp] is at or
    above the top), the stack dump returns whatever [count] is: it prints
    only, and reads no byte at or above the top of the stack. *)
Theorem stack_dump_returns esp count s :
  tlb_ok (s_machine s) -> is_u32 esp -> 0 <= count -> stack_top < 4294967296 ->
  readable (s_machine s) esp stack_top ->
  exists s', Stack.print esp count s = Done tt s' /\ looked s s'.
Proof. exact (stack_print_spec esp count s). Qed.

End Dump.

(** ** The stubs *)

(** Vectors the stubs handle as the processor does: all but 29. *)
Lemma stubs_agree vector :
  0 <= vector < 32 -> vector <> 29 ->
  nth (Z.to_nat vector) stub_error false = pushes_error vector.
Proof.
  intros Hv Hne. assert (Forall (fun v => v = 29 \/ nth (Z.to_nat v) stub_error false = pushes_error v)
    (seqZ 0 32)) as H.
  { apply (bool_decide_unpack _). vm_compute. exact I. }
  rewrite Forall_elem_of in H. destruct (H vector); [by rewrite elem_of_seqZ|done|done].
Qed.

(** C25: For every exception vector but 29, the assembler stub builds the
    [Frame] the handler expects: the registers of the interrupted code, the
    vector, and the error code the processor pushed, or 0 where it pushes
    none.  When the handler returns, the stub restores every register and
    the stack exactly, so the interrupted code goes on at its own [eip]. *)
Theorem isr_frame_faithful vector error r stack :
  0 <= vector < 32 -> vector <> 29 -> is_u32 (r_esp r) ->
  frame_at (isr_enter vector error r stack) = Some
    (mkFrame (r_edi r) (r_esi r) (r_ebp r) (r_esp r -u 20) (r_ebx r) (r_edx r) (r_ecx r) (r_eax r)
       vector (if pushes_error vector then error else 0) (r_eip r) (r_cs r) (r_eflags r)) /\
  isr_leave (r_esp r -u 4 * Z.of_nat (length (isr_enter vector error r stack) - length stack))
    (isr_enter vector error r stack) = Some (r, stack).
Proof.
  intros Hv Hne Hu. unfold isr_enter, isr, cpu_push. rewrite stubs_agree by done.
  assert (forall n : nat, S (S (S (S (S n)))) - n = 5)%nat as E5 by lia.
  assert (forall n : nat, S (S (S (S (S (S (S (S (S (S (S (S (S n)))))))))))) - n = 13)%nat as E13 by lia.
  destruct (pushes_error vector); cbn [app pusha length]; rewrite E5, E13; cbn [frame_at isr_leave].
  all: split; [done|]; destruct r; cbn in *; do 3 f_equal; unfold is_u32, wrap32 in *; dlia.
Qed.

Definition demo_regs : regs := mkRegs 1 2 3 4 0xC0111000 6 7 8 0xC0101234 8 0x46.

Lemma isr_frame_faithful_witness :
  isr_leave (0xC0111000 - 52) (isr_enter 14 2 demo_regs [99]) = Some (demo_regs, [99]).
Proof.
  exact (proj2 (isr_frame_faithful 14 2 demo_regs [99] ltac:(by_decide) ltac:(by_decide) ltac:(by_decide))).
Defined.

(** The stub of vector 29 is [isr_plain], but the processor pushes an error
    code for it (#VC): the frame is off by one word, and the handler prints
    the error code as [eip]. *)
Lemma vector_29_shifted error r stack :
  f_eip <$> frame_at (isr_enter 29 error r stack) = Some error.
Proof. reflexivity. Qed.

(** ** Page faults *)

(** The fault of an access to a page that is not there. *)
Lemma vm_ok_cr2 m p v : vm_ok m p -> vm_ok (set_cr2 v m) p.
Proof. intros [H1 [A1 A2 A3 A4] H3 H4 H5 H6]. split; [exact H1|split; [exact A1|exact A2|exact A3|exact A4]|..]; assumption. Qed.

Lemma access_absent m p va write :
  vm_ok m p -> is_u32 va -> page_entry m (va / 4096) = None ->
  access va write m = Fault va (if write then 2 else 0) (set_cr2 va m).
Proof.
  intros Hok Hu He.
  assert (walk m va = None) as Hw by (rewrite walk_page_entry by (done || apply Hok); by rewrite He).
  unfold access. destruct (m_tlb m !! (va / 4096)) as [t|] eqn:Et; [|by rewrite Hw].
  apply (tlb_ok_at m va (vm_tlb _ _ Hok)) in Et. congruence.
Qed.

Lemma load_absent s va :
  vm_ok (s_machine s) (s_pmm s) -> is_u32 va -> va mod 4096 <= 4092 ->
  page_entry (s_machine s) (va / 4096) = None ->
  load32 va s = Fault va 0 (with_machine (set_cr2 va (s_machine s)) s).
Proof.
  intros Hok Hu Ha He. unfold load32, on_machine, vload32. rewrite (proj2 (Z.leb_le _ _)) by done.
  unfold bind. by rewrite (access_absent _ _ va false Hok Hu He).
Qed.

Lemma store_absent s va v :
  vm_ok (s_machine s) (s_pmm s) -> is_u32 va -> va mod 4096 <= 4092 ->
  page_entry (s_machine s) (va / 4096) = None ->
  store32 va v s = Fault va 2 (with_machine (set_cr2 va (s_machine s)) s).
Proof.
  intros Hok Hu Ha He. unfold store32, on_machine, vstore32. rewrite (proj2 (Z.leb_le _ _)) by done.
  unfold bind. by rewrite (access_absent _ _ va true Hok Hu He).
Qed.

Section Faults.
Context {L : Linker}.

(** The address space after the handler mapped the page of [va]; [cr2] holds
    the address that faulted. *)
Definition paged_in (s s' : sys) (va : Z) : Prop :=
  exists frame, fst (Pmm.alloc_frame (s_pmm s)) = Some frame /\
    mapped_new (set_cr2 va (s_machine s)) (s_pmm s) (va / 4096) frame USER_PAGE (s_machine s') (s_pmm s') /\
    s_oops s' = s_oops s +u 1 /\ s_esp s' = s_esp s.

Lemma fault_entry_pages_in s va error r :
  vm_ok (s_machine s) (s_pmm s) -> resolvable (s_machine s) (s_pmm s) va error = true ->
  exists s', fault_entry (fault_frame error r) (with_machine (set_cr2 va (s_machine s)) s) = Done tt s' /\
    paged_in s s' va.
Proof.
  intros Hok Hres. set (s1 := with_machine (set_cr2 va (s_machine s)) s).
  pose proof (handle_fault_spec s1 va error (vm_ok_cr2 _ _ va Hok)) as H. cbv zeta in H.
  change (resolvable (s_machine s1) (s_pmm s1) va error)
    with (resolvable (s_machine s) (s_pmm s) va error) in H. rewrite Hres in H.
  destruct H as (frame & m' & p' & E & Ef & Hnew).
  unfold fault_entry. cbn [f_vector fault_frame f_error f_eip]. rewrite Z.eqb_refl.
  rewrite (bind_Done cr2 _ s1 va s1) by done. rewrite (bind_Done _ _ _ _ _ E).
  destruct (koops_spec (bytes "page fault at " ++ hex_alt 10 va ++ bytes ", demand paged, eip " ++
    hex_alt 10 (r_eip r)) (with_pmm p' (with_machine m' s1))) as (v & Ek).
  eexists. split; [exact Ek|]. exists frame. split; [exact Ef|]. split; [exact Hnew|].
  split; reflexivity.
Qed.

(** The page is there, writable, and zero. *)
Lemma paged_in_page s s' va :
  vm_ok (s_machine s) (s_pmm s) -> is_demand va = true -> paged_in s s' va ->
  vm_ok (s_machine s') (s_pmm s') /\ exists e, page_entry (s_machine s') (va / 4096) = Some e /\
    entry_writable e = true /\ is_u32 e /\ forall a, a / 4096 = entry_frame e / 4096 -> pread8 (m_ram (s_machine s')) a = 0.
Proof.
  intros Hok Hd (frame & Ef & (N1 & _ & N3 & _ & N5) & _). split; [exact N1|].
  destruct (demand_managed va Hd) as (_ & _ & _ & Hn & _). pose proof (managed_range _ Hn) as [Hr _].
  pose proof (alloc_frame_full _ (vm_pmm _ _ Hok)) as Ha.
  destruct (Pmm.alloc_frame (s_pmm s)) as [[a|] p1]; cbn in Ef; [|discriminate]. injection Ef as ->.
  destruct Ha as (f & Hf & _ & -> & _).
  apply elem_of_free_set in Hf as [Hf _]. rewrite MAX_FRAMES_val in Hf.
  assert (is_u32 (f * 4096)) as Hu by (unfold is_u32; lia).
  exists (leaf (f * 4096) USER_PAGE). destruct (leaf_fields (f * 4096) USER_PAGE Hu) as (L1 & L2 & L3 & L4 & _);
    [by_decide|]. rewrite N3, decide_True by lia. split; [done|]. split; [exact L4|]. split; [exact L1|].
  rewrite L2, entry_frame_eq, Z.mod_mul, Z.sub_0_r by (done || lia). exact N5.
Qed.

(** C10: An access to an unmapped page of the demand region, while frames are
    left, faults once and then succeeds: the handler maps a cleared frame and
    the instruction is tried again.  A load returns 0; a store is read back by
    the next load.  One recovered panic is counted. *)
Theorem demand_access_succeeds s va v r :
  vm_ok (s_machine s) (s_pmm s) -> va mod 4 = 0 -> is_u32 v ->
  resolvable (s_machine s) (s_pmm s) va 0 = true ->
  (exists s', instruction 1 r (load32 va) s = Done 0 s' /\
     vm_ok (s_machine s') (s_pmm s') /\ s_oops s' = s_oops s +u 1) /\
  (exists s' s'', instruction 1 r (store32 va v) s = Done tt s' /\
     vm_ok (s_machine s') (s_pmm s') /\ s_oops s' = s_oops s +u 1 /\ load32 va s' = Done v s'').
Proof.
  intros Hok Ha Hv Hres. pose proof Hres as Hres2.
  unfold resolvable in Hres. rewrite !andb_true_iff in Hres.
  destruct Hres as ((((_ & Hd) & _) & _) & Hpe). apply bool_decide_eq_true in Hpe.
  destruct (demand_managed va Hd) as (Hu & _ & _ & Hn & _). split.
  - destruct (fault_entry_pages_in s va 0 r Hok Hres2) as (s1 & E1 & Hin).
    destruct (paged_in_page s s1 va Hok Hd Hin) as (Hok1 & e & He & _ & Heu & Hz).
    destruct (data_load32 s1 va (entry_frame e + va mod 4096) Hok1 Hu ltac:(dlia)) as (m2 & E2 & _ & Hok2);
      [unfold phys; by rewrite He|].
    exists (with_machine m2 s1). cbn [instruction].
    rewrite (load_absent s va Hok Hu ltac:(dlia) Hpe), (bind_Done _ _ _ _ _ E1), E2.
    split; [|split; [exact Hok2|by destruct Hin as (? & _ & _ & ? & _)]].
    f_equal. pose proof (entry_frame_aligned e Heu). unfold pread32. rewrite !Hz by dlia. done.
  - assert (resolvable (s_machine s) (s_pmm s) va 2 = true) as Hres3 by exact Hres2.
    destruct (fault_entry_pages_in s va 2 r Hok Hres3) as (s1 & E1 & Hin).
    destruct (paged_in_page s s1 va Hok Hd Hin) as (Hok1 & e & He & Hw & Heu & _).
    destruct (data_store32 s1 va v e Hok1 Hu Hn ltac:(dlia) He Hw) as (m2 & E2 & Hok2 & Hst & Hram & _).
    assert (page_entry m2 (va / 4096) = Some e) as He2.
    { rewrite <- He. apply same_tables_page_entry; [apply Hok1|exact Hst|]. unfold is_u32 in Hu. dlia. }
    destruct (data_load32 (with_machine m2 s1) va (entry_frame e + va mod 4096) Hok2 Hu ltac:(dlia))
      as (m3 & E3 & _); [unfold phys; cbn [s_machine with_machine]; by rewrite He2|].
    exists (with_machine m2 s1). eexists. cbn [instruction].
    rewrite (store_absent s va v Hok Hu ltac:(dlia) Hpe), (bind_Done _ _ _ _ _ E1), E2, E3.
    split; [done|]. split; [exact Hok2|]. split; [by destruct Hin as (? & _ & _ & ? & _)|].
    f_equal. cbn [s_machine with_machine]. rewrite Hram. by apply pread32_write32.
Qed.

(** ** Fatal faults *)

(** The dump of the stack works where the stack is. *)
Definition stack_ok (s : sys) : Prop :=
  stack_top < 4294967296 /\ 0 <= stack_bottom /\
  (stack_bottom <= s_esp s -> readable (s_machine s) (s_esp s) stack_top).

Lemma stack_ok_looked s s' : looked s s' -> stack_ok s -> stack_ok s'.
Proof.
  intros (Q & _ & _ & _ & He) (H1 & H2 & H3). split; [done|]. split; [done|]. rewrite He. intros H4.
  apply (readable_equiv (s_machine s)); [exact Q|by apply H3].
Qed.

(** Code that returns and only looks and prints, and code that stops the
    processor after looking and printing. *)
Definition looks {A} (c : M sys A) : Prop := forall s,
  tlb_ok (s_machine s) -> stack_ok s -> exists a s', c s = Done a s' /\ looked s s'.
Definition halts {A} (c : M sys A) : Prop := forall s,
  tlb_ok (s_machine s) -> stack_ok s -> exists s', c s = Halted s' /\ looked s s'.

Lemma looks_ret {A} (a : A) : looks (ret a).
Proof. intros s Ht _. exists a, s. split; [done|by apply looked_refl]. Qed.
Lemma looks_gets {A} (f : sys -> A) : looks (gets f).
Proof. intros s Ht _. exists (f s), s. split; [done|by apply looked_refl]. Qed.
Lemma looks_vga f : looks (on_vga f).
Proof. intros s Ht _. eexists tt, _. split; [reflexivity|done]. Qed.
Lemma looks_printk text : looks (printk text).
Proof. apply looks_vga. Qed.
Lemma looks_bind {A B} (c : M sys A) (k : A -> M sys B) :
  looks c -> (forall a, looks (k a)) -> looks (bind c k).
Proof.
  intros Hc Hk s Ht Hs. destruct (Hc s Ht Hs) as (a & s1 & E1 & H1).
  destruct (Hk a s1 (proj1 (proj2 H1)) (stack_ok_looked _ _ H1 Hs)) as (b & s2 & E2 & H2).
  exists b, s2. rewrite (bind_Done _ _ _ _ _ E1). split; [done|]. by eapply looked_trans.
Qed.
Lemma looks_if {A} (b : bool) (c c' : M sys A) : looks c -> looks c' -> looks (if b then c else c').
Proof. by destruct b. Qed.
Lemma halts_bind {A B} (c : M sys A) (k : A -> M sys B) :
  looks c -> (forall a, halts (k a)) -> halts (bind c k).
Proof.
  intros Hc Hk s Ht Hs. destruct (Hc s Ht Hs) as (a & s1 & E1 & H1).
  destruct (Hk a s1 (proj1 (proj2 H1)) (stack_ok_looked _ _ H1 Hs)) as (s2 & E2 & H2).
  exists s2. rewrite (bind_Done _ _ _ _ _ E1). split; [done|]. by eapply looked_trans.
Qed.
Lemma halts_stop {A} : halts (@stop A).
Proof. intros s Ht _. exists s. split; [done|by apply looked_refl]. Qed.

#[local] Hint Resolve looks_ret looks_gets looks_vga looks_printk looks_bind looks_if halts_bind halts_stop : kfs.

Lemma looks_report : looks report_machine.
Proof.
  unfold report_machine, oops_count, Stack.esp. intros s Ht Hs.
  pose proof Hs as (Htop & Hb & Hr). rewrite (bind_Done (gets s_machine) _ s (s_machine s) s) by done.
  rewrite (bind_Done (gets s_oops) _ s (s_oops s) s) by done.
  edestruct (looks_printk (bytes "  cr0 " ++ hex_alt 10 (m_cr0 (s_machine s)) ++ bytes " cr2 " ++
    hex_alt 10 (m_cr2 (s_machine s)) ++ bytes " cr3 " ++ hex_alt 10 (m_cr3 (s_machine s)) ++ bytes ", " ++
    dec (s_oops s) ++ bytes " recovered before this one" ++ newline) s Ht Hs) as ([] & s1 & E1 & H1).
  rewrite (bind_Done _ _ _ _ _ E1), (bind_Done (gets s_esp) _ s1 (s_esp s1) s1) by done.
  assert (s_esp s1 = s_esp s) as -> by apply H1. unfold Stack.bottom, Stack.top.
  assert (exists u s2, (if (s_esp s >=? stack_bottom) && (s_esp s <? stack_top)
    then Stack.print (s_esp s) 64 else ret tt) s1 = Done u s2 /\ looked s1 s2) as ([] & s2 & E2 & H2).
  { destruct (_ && _) eqn:Eb; [|exists tt, s1; split; [done|apply looked_refl, H1]]. breflect.
    exists tt. apply stack_print_spec; [apply H1|unfold is_u32; lia|lia|done|].
    apply (readable_equiv (s_machine s)); [apply H1|]. apply Hr. lia. }
  rewrite (bind_Done _ _ _ _ _ E2).
  edestruct (looks_printk (bytes "the kernel is stopped" ++ newline) s2) as (u & s3 & E3 & H3);
    [apply H2|eapply stack_ok_looked; [|exact Hs]; by eapply looked_trans|].
  exists u, s3. split; [exact E3|]. eapply looked_trans; [exact H1|]. by eapply looked_trans.
Qed.

Lemma halts_fatal_fault {A} frame : halts (@fatal_fault L A frame).
Proof.
  unfold fatal_fault, cr2. repeat (apply halts_bind; [eauto using looks_report with kfs|intros _]).
  apply halts_stop.
Qed.

(** [kpanic!] ends the same way. *)
Lemma halts_kpanic {A} args : halts (@kpanic L A args).
Proof.
  unfold kpanic, fatal. repeat (apply halts_bind; [eauto using looks_report with kfs|intros _]).
  apply halts_stop.
Qed.

Lemma unresolved_fault_spec {A} (c : M sys A) r s addr error s1 n :
  vm_ok (s_machine s1) (s_pmm s1) -> stack_ok s1 -> c s = Fault addr error s1 ->
  m_cr2 (s_machine s1) = addr -> resolvable (s_machine s1) (s_pmm s1) addr error = false ->
  exists s', instruction (S n) r c s = Halted s' /\
    s_machine s' ≡ s_machine s1 /\ free_set (s_pmm s') = free_set (s_pmm s1).
Proof.
  intros Hok Hst Ec Hcr Hres. cbn [instruction]. rewrite Ec.
  pose proof (handle_fault_spec s1 addr error Hok) as H. cbv zeta in H. rewrite Hres in H.
  destruct H as (m' & p' & v & o & E & Hok' & Q & Hfree).
  set (s2 := mkSys m' p' v o (s_esp s1)) in *.
  destruct (halts_fatal_fault (A := unit) (fault_frame error r) s2) as (s3 & E3 & H3).
  - apply Hok'.
  - destruct Hst as (S1 & S2 & S3). split; [done|]. split; [done|]. intros Hb.
    apply (readable_equiv (s_machine s1)); [exact Q|by apply S3].
  - exists s3. assert (fault_entry (fault_frame error r) s1 = Halted s3) as Ef.
    { unfold fault_entry. cbn [f_vector fault_frame f_error f_eip]. rewrite Z.eqb_refl.
      rewrite (bind_Done cr2 _ s1 addr s1) by (unfold cr2, gets; by rewrite Hcr).
      rewrite (bind_Done _ _ _ _ _ E). exact E3. }
    unfold bind. rewrite Ef. split; [done|]. destruct H3 as (Q3 & _ & Hp & _).
    split; [by etrans|]. by rewrite Hp.
Qed.

(** C17: A page fault the handler cannot resolve (outside the demand region,
    on a present page, or with no frame left) stops the processor: the
    instruction never returns to a state in which it did not happen, and
    neither the memory nor the set of free frames changes on the way. *)
Theorem unresolved_fault_stops {A} (c : M sys A) r s addr error s1 n :
  vm_ok (s_machine s1) (s_pmm s1) -> stack_ok s1 -> c s = Fault addr error s1 ->
  m_cr2 (s_machine s1) = addr -> resolvable (s_machine s1) (s_pmm s1) addr error = false ->
  exists s', instruction (S n) r c s = Halted s' /\
    s_machine s' ≡ s_machine s1 /\ free_set (s_pmm s') = free_set (s_pmm s1).
Proof. exact (unresolved_fault_spec c r s addr error s1 n). Qed.

End Faults.

(** ** The gates *)

(** The fields of a gate, from the processor manual: where it jumps, through
    which code segment, and its type byte. *)
Definition gate_fields (d : Z) : Z * Z * Z :=
  (d mod 65536 + d / 2 ^ 48 mod 65536 * 65536, (d / 2 ^ 16) mod 65536, (d / 2 ^ 40) mod 256).

Lemma gate_sum handler :
  is_u32 handler ->
  gate handler = handler mod 65536 + 8 * 2 ^ 16 + 142 * 2 ^ 40 + handler / 65536 * 2 ^ 48.
Proof.
  intros Hu. unfold gate, is_u32 in *. change 65535 with (Z.ones 16).
  rewrite Z.land_ones, Z.shiftr_div_pow2, !Z.shiftl_mul_pow2 by lia.
  unfold wrap64, KERNEL_CODE, INTERRUPT_GATE. change (2 ^ 16) with 65536.
  change ((8 * 65536) mod 18446744073709551616) with (8 * 2 ^ 16).
  change ((142 * 2 ^ 40) mod 18446744073709551616) with (142 * 2 ^ 40).
  rewrite (Z.mod_small (handler / 65536 * _)) by dlia.
  rewrite (lor_add _ 8 16) by dlia. rewrite (lor_add _ 142 40) by dlia.
  rewrite lor_add by dlia. done.
Qed.

Lemma gate_range handler : is_u32 handler -> 0 <= gate handler < 18446744073709551616.
Proof. intros Hu. rewrite gate_sum by done. unfold is_u32 in *. dlia. Qed.

Lemma gate_decodes handler : is_u32 handler -> gate_fields (gate handler) = (handler, 8, 0x8e).
Proof.
  intros Hu. unfold gate_fields. rewrite gate_sum by done. unfold is_u32 in *.
  repeat f_equal; dlia.
Qed.

Section Install.
Context `{LK : LinkerOk}.

(** A page of the image that the early code may write. *)
Lemma image_off_tables a :
  (forall p, p ∈ [boot_directory; boot_low_table] -> p + 4096 <= a \/ a < p) -> off_tables (at_phys a).
Proof.
  intros Hp. destruct lk_pages as ((A1 & A2 & A3) & (B1 & B2 & B3) & _).
  pose proof (Hp boot_directory ltac:(by left)) as H1.
  pose proof (Hp boot_low_table ltac:(right; by left)) as H2.
  unfold off_tables, boot_dir, boot_low, at_phys. dlia.
Qed.

Lemma idt_window k :
  0 <= k < 2048 -> windowed (idt_table + k) /\ boot_phys (idt_table + k) = boot_phys idt_table + k /\
  off_tables (boot_phys idt_table + k).
Proof.
  intros Hk. destruct lk_idt as (I1 & I2 & I3 & I4). pose proof lk_start. pose proof lk_code.
  destruct lk_end as [_ E].
  assert (forall j, 0 <= j < 2048 -> boot_phys (idt_table + j) = at_phys (idt_table + j)) as Hb.
  { intros j Hj. unfold boot_phys. destruct (Z.ltb_spec (idt_table + j) 4194304); [lia|done]. }
  pose proof (Hb 0 ltac:(lia)) as Hz. rewrite Z.add_0_r in Hz. rewrite Hz, Hb by done.
  split; [right; lia|]. split; [unfold at_phys; lia|].
  replace (at_phys idt_table + k) with (at_phys (idt_table + k)) by (unfold at_phys; lia).
  apply image_off_tables. intros p Hp.
  assert (p ∈ [boot_directory; boot_low_table; kernel_table]) as Hp3 by (clear -Hp; set_solver).
  destruct (I4 p Hp3); lia.
Qed.

(** The gates in memory. *)
Definition gates_in (m : machine) : Prop :=
  forall v stub, isr_stubs !! v = Some stub ->
    pread64 (m_ram m) (at_phys idt_table + 8 * Z.of_nat v) = gate stub.

(** The table of stubs, as the loader placed it. *)
Definition stubs_in (m : machine) : Prop :=
  forall v stub, isr_stubs !! v = Some stub ->
    pread32 (m_ram m) (at_phys isr_table + 4 * Z.of_nat v) = stub.

Lemma isr_stubs_at v : (v < 32)%nat -> isr_stubs !! v = Some (isr_addr (Z.of_nat v)).
Proof. intros Hv. do 32 (destruct v as [|v]; [reflexivity|]). lia. Qed.

Lemma stub_window v :
  0 <= v < 32 -> isr_table +u 4 * v = isr_table + 4 * v /\ windowed (isr_table + 4 * v) /\
  (isr_table + 4 * v) mod 4096 <= 4092 /\ boot_phys (isr_table + 4 * v) = at_phys isr_table + 4 * v.
Proof.
  intros Hv. destruct lk_table as (T1 & T2 & T3), lk_start, lk_code, lk_readonly, lk_end.
  assert (3222274048 <= isr_table + 4 * v < 3225419776) as Hr by lia.
  split; [apply wrap32_small; unfold is_u32; lia|]. split; [right; lia|]. split; [dlia|].
  unfold boot_phys, at_phys. destruct (Z.ltb_spec (isr_table + 4 * v) 4194304); lia.
Qed.

(** The stubs lie below what [install] writes. *)
Lemma stubs_early m m' :
  stubs_in m -> early (fun a => boot_phys idt_table <= a) m m' -> stubs_in m'.
Proof.
  intros Hs He v stub Hv. rewrite <- (Hs v stub Hv).
  assert (v < 32)%nat as Hlt by (by apply lookup_lt_Some in Hv).
  apply (early_word _ _ _ _ He). intros x Hx. destruct lk_table as (_ & _ & T3), lk_idt as (_ & I2 & _), lk_start, lk_code.
  unfold boot_phys, at_phys in *. destruct (Z.ltb_spec idt_table 4194304); lia.
Qed.

Lemma install_gate_spec v m :
  boot_ok m -> stubs_in m -> 0 <= v < 32 ->
  exists m', install_gate v m = Done tt m' /\
    pread64 (m_ram m') (boot_phys idt_table + 8 * v) = gate (isr_addr v) /\
    early (fun a => boot_phys idt_table + 8 * v <= a < boot_phys idt_table + 8 * (v + 1)) m m'.
Proof.
  intros Hm Hs Hv. destruct (stub_window v Hv) as (W1 & W2 & W3 & W4), lk_idt as (I1 & _).
  destruct (idt_window (8 * v) ltac:(lia)) as (V1 & V2 & V3), (idt_window (8 * v + 4) ltac:(lia)) as (V4 & V5 & V6).
  pose proof (early_touch (fun _ => False) m _ Hm (windowed_u32 _ W2)) as S1.
  assert (pread32 (m_ram m) (boot_phys (isr_table + 4 * v)) = isr_addr v) as Hg.
  { rewrite W4. pose proof (Hs (Z.to_nat v) _ (isr_stubs_at (Z.to_nat v) ltac:(lia))) as Hx.
    by rewrite Z2Nat.id in Hx by lia. }
  replace (idt_table + (8 * v + 4)) with (idt_table + 8 * v + 4) in V4 by lia.
  destruct (boot_store64 _ (idt_table + 8 * v) (gate (isr_addr v)) (ea_ok _ _ _ S1) V1 V4) as (m2 & E2 & R2 & S2);
    [dlia|by rewrite V2|rewrite V2; by replace (boot_phys idt_table + 8 * v + 4) with (boot_phys idt_table + (8 * v + 4)) by lia
    |apply gate_range; by apply lk_stubs|].
  rewrite V2 in R2, S2. exists m2. split; [|split; [exact R2|]].
  - unfold install_gate. rewrite W1, (bind_Done _ _ _ _ _ (boot_load32 m _ Hm W2 W3)), Hg.
    by rewrite wrap32_small by (by apply windowed_u32).
  - eapply early_trans; eapply early_weaken; [|exact S1| |exact S2]; cbn beta; [tauto|intros a; lia].
Qed.

Lemma install_gates_spec n : forall v m,
  boot_ok m -> stubs_in m -> 0 <= v -> v + Z.of_nat n <= 32 ->
  exists m', for_each (seqZ v (Z.of_nat n)) install_gate m = Done tt m' /\
    (forall j, v <= j < v + Z.of_nat n -> pread64 (m_ram m') (boot_phys idt_table + 8 * j) = gate (isr_addr j)) /\
    early (fun a => boot_phys idt_table + 8 * v <= a < boot_phys idt_table + 8 * (v + Z.of_nat n)) m m'.
Proof.
  induction n as [|n IH]; intros v m Hm Hs Hv Hn.
  { exists m. split; [done|]. split; [lia|by apply early_refl]. }
  rewrite Nat2Z.inj_succ, seqZ_cons, Z.pred_succ by lia. cbn [for_each].
  destruct (install_gate_spec v m Hm Hs ltac:(lia)) as (m1 & E1 & R1 & S1).
  assert (stubs_in m1) as Hs1 by (eapply stubs_early; [exact Hs|]; eapply early_weaken; [|exact S1]; cbn beta; intros a; lia).
  destruct (IH (v + 1) m1 (ea_ok _ _ _ S1) Hs1 ltac:(lia) ltac:(lia)) as (m2 & E2 & R2 & S2).
  exists m2. rewrite (bind_Done _ _ _ _ _ E1). split; [exact E2|]. split.
  - intros j Hj. destruct (Z.eq_dec j v) as [->|Hne]; [|apply R2; lia]. rewrite <- R1. unfold pread64.
    by rewrite !(early_word _ _ _ _ S2) by (intros; cbn beta; lia).
  - eapply early_trans; eapply early_weaken; [|exact S1| |exact S2]; cbn beta; intros a; lia.
Qed.

Lemma idt_install_spec c s :
  boot_ok (s_machine s) -> stubs_in (s_machine s) ->
  exists c' s', install (c, s) = Done tt (c', s') /\ c' = set_idtr (mkGdtr 2047 idt_table) c /\
    s_pmm s' = s_pmm s /\ s_esp s' = s_esp s /\
    early (fun a => boot_phys idt_table <= a < boot_phys idt_table + 256) (s_machine s) (s_machine s') /\
    (forall vector, 0 <= vector < 32 -> exists d m,
      vload64 (dt_base (c_idtr c') + 8 * vector) (s_machine s') = Done d m /\
      gate_fields d = (isr_addr vector, KERNEL_CODE, INTERRUPT_GATE)) /\
    gates_in (s_machine s').
Proof.
  intros Hm Hs. destruct (install_gates_spec 32 0 (s_machine s) Hm Hs) as (m1 & E1 & Hg & He); [lia|lia|].
  set (s1 := with_machine m1 s). eexists (set_idtr (mkGdtr 2047 idt_table) c), (with_vga _ s1).
  split; [|split; [done|split; [done|split; [done|split; [|split]]]]].
  - unfold install. rewrite (bind_Done _ _ _ _ _ (on_rest_Done _ c s tt s1 (on_machine_Done _ _ _ _ E1))). reflexivity.
  - cbn [s_machine with_vga]. subst s1. cbn [s_machine with_machine].
    eapply early_weaken; [|exact He]. cbn. intros a. lia.
  - intros vector Hv. destruct (idt_window (8 * vector) ltac:(lia)) as (V1 & V2 & _), (idt_window (8 * vector + 4) ltac:(lia)) as (V4 & _).
    replace (idt_table + (8 * vector + 4)) with (idt_table + 8 * vector + 4) in V4 by lia.
    destruct (boot_load64 m1 (idt_table + 8 * vector) (ea_ok _ _ _ He) V1 V4) as (m2 & E2 & _);
      [destruct lk_idt; dlia|].
    eexists _, m2. split; [exact E2|]. rewrite V2, (Hg vector) by lia. apply gate_decodes. by apply lk_stubs.
  - intros v stub Hst. assert (v < 32)%nat as Hv by (by apply lookup_lt_Some in Hst).
    rewrite isr_stubs_at in Hst by done. injection Hst as <-. rewrite <- (Hg (Z.of_nat v)) by lia.
    unfold boot_phys. pose proof lk_start as [? _]. pose proof lk_code as [? ?]. pose proof lk_idt as (? & ? & _).
    destruct (Z.ltb_spec idt_table 4194304); [lia|]. reflexivity.
Qed.

(** C26: [idt::install] reads the table of stubs that the loader placed in
    the read-only data and returns with the table register on [TABLE]; for
    each of the 32 exception vectors the gate the processor reads there is
    the interrupt gate to that vector's stub through the kernel code segment.
    It writes no byte outside these 32 gates. *)
Theorem idt_install_routes c s :
  boot_ok (s_machine s) -> stubs_in (s_machine s) ->
  exists c' s', install (c, s) = Done tt (c', s') /\ c' = set_idtr (mkGdtr 2047 idt_table) c /\
    s_pmm s' = s_pmm s /\ s_esp s' = s_esp s /\
    early (fun a => boot_phys idt_table <= a < boot_phys idt_table + 256) (s_machine s) (s_machine s') /\
    forall vector, 0 <= vector < 32 -> exists d m,
      vload64 (dt_base (c_idtr c') + 8 * vector) (s_machine s') = Done d m /\
      gate_fields d = (isr_addr vector, KERNEL_CODE, INTERRUPT_GATE).
Proof.
  intros Hm Hs. destruct (idt_install_spec c s Hm Hs) as (c' & s' & E & H1 & H2 & H3 & H4 & H5 & _). by exists c', s'.
Qed.

End Install.

(** ** Witnesses *)

(** The early machine can read its stack. *)
Lemma boot_readable `{LinkerOk} m from to :
  boot_ok m -> 3221225472 <= from -> to <= 3225419776 -> readable m from to.
Proof.
  intros Hm Hf Ht va Hva. assert (windowed va) as Hw by (right; lia).
  split; [by apply windowed_u32|]. rewrite (boot_walk m va Hm Hw). eauto.
Qed.

Lemma stack_dump_returns_witness :
  exists s, @Stack.print demo_linker 0xC0111000 256 demo_boot_sys = Done tt s /\ looked demo_boot_sys s.
Proof.
  apply (@stack_dump_returns demo_linker); [apply demo_boot_ok|by_decide|by_decide|by_decide|].
  apply (@boot_readable demo_linker demo_linker_ok); [exact demo_boot_ok|by_decide|by_decide].
Defined.

Lemma demo_resolvable : resolvable demo_machine demo_pmm 0x800000 0 = true.
Proof.
  apply resolvable_true; [done|done|exact demo_some|right; rewrite demo_alloc; exact demo_more|].
  apply demo_page_entry. unfold managed. by_decide.
Qed.

Lemma demand_access_succeeds_witness :
  (exists s', @instruction demo_linker Z 1 demo_regs (load32 0x800000) demo = Done 0 s') /\
  (exists s' s'', @instruction demo_linker unit 1 demo_regs (store32 0x800000 42) demo = Done tt s' /\
     load32 0x800000 s' = Done 42 s'').
Proof.
  destruct (@demand_access_succeeds demo_linker demo 0x800000 42 demo_regs demo_ok ltac:(by_decide)
    ltac:(by_decide) demo_resolvable) as [(s' & E & _) (s1 & s2 & E1 & _ & _ & E2)].
  split; [by exists s'|]. exists s1, s2. split; [exact E1|exact E2].
Defined.

Lemma unresolved_fault_stops_witness :
  exists s', @instruction demo_linker unit 1 demo_regs (store32 0xD1800000 0) demo = Halted s' /\
    free_set (s_pmm s') = free_set demo_pmm.
Proof.
  destruct (@unresolved_fault_stops demo_linker unit (store32 0xD1800000 0) demo_regs demo 0xD1800000 2
    (with_machine (set_cr2 0xD1800000 demo_machine) demo) 0) as (s' & E & _ & F).
  - exact (vm_ok_cr2 _ _ _ demo_ok).
  - split; [by_decide|]. split; [by_decide|]. intros Hx. exfalso. revert Hx. by_decide.
  - apply store_absent; [exact demo_ok|by_decide|by_decide|]. apply demo_page_entry. unfold managed. by_decide.
  - reflexivity.
  - reflexivity.
  - exists s'. split; [exact E|exact F].
Defined.

Lemma demo_stubs_in m :
  Forall (fun v => pread32 (m_ram m) (0x109000 + 4 * Z.of_nat v) = 0xC0101000 + 16 * Z.of_nat v) (seq 0 32) ->
  @stubs_in demo_linker m.
Proof.
  intros Hall v stub Hv. assert (v < 32)%nat as Hlt by (by apply lookup_lt_Some in Hv).
  rewrite (@isr_stubs_at demo_linker) in Hv by done. injection Hv as <-. rewrite Forall_seq in Hall. apply Hall. lia.
Qed.

Lemma demo_boot_stubs : @stubs_in demo_linker demo_boot.
Proof. apply demo_stubs_in. by_decide. Qed.

Lemma idt_install_routes_witness :
  exists c s d m, @install demo_linker (demo_cpu, demo_boot_sys) = Done tt (c, s) /\
    vload64 (dt_base (c_idtr c) + 8 * 14) (s_machine s) = Done d m /\
    gate_fields d = (0xC0101000 + 16 * 14, 8, 0x8e).
Proof.
  destruct (@idt_install_routes demo_linker demo_linker_ok demo_cpu demo_boot_sys demo_boot_ok demo_boot_stubs)
    as (c & s & E & _ & _ & _ & _ & Hv). destruct (Hv 14 ltac:(lia)) as (d & m & E1 & E2).
  exists c, s, d, m. split; [exact E|]. split; [exact E1|]. rewrite E2. reflexivity.
Defined.
