(* ===== verification/Probe.v ===== *)
(** * Reading the loader's memory map (probe of kernel/src/multiboot.rs) *)

From S2P Require Import Prelude.
From S2P Require Import Klib.
From S2P Require Import Machine.
From S2P Require Import Multiboot.
From S2P Require Import Fmt.
From S2P Require Import Paging.

(** [read_unaligned] of a [u64] field. *)
Definition load64 (a : Z) : M sys Z := on_machine (vload64 a).

(** The loop over the entries.  Nothing bounds it but the map itself: the
    fuel is an argument, and the theorems say how much is enough. *)
(** multiboot.rs 101-114: probe *)
Fixpoint probe_loop (fuel : nat) (at_ stop : Z) (ram : Ram) : M sys Ram :=
  match fuel with
  | O => starve
  | S fuel =>
      if at_ +u 8 <=? stop then
        size <- load32 (at_ +u entry_size) ;;
        kind <- load32 (at_ +u entry_kind) ;;
        base <- load64 (at_ +u entry_base) ;;
        len <- load64 (at_ +u entry_length) ;;
        let ram := if kind =? MMAP_AVAILABLE then push ram base len else ram in
        if size =? 0 then ret ram
        else probe_loop fuel (at_ +u (size +u 4)) stop ram
      else ret ram
  end.

(** multiboot.rs 94-116: probe *)
Definition probe_map (fuel : nat) (header flags : Z) (ram : Ram) : M sys Ram :=
  if negb (Z.land flags FLAG_MMAP =? 0) then
    length <- load32 (header +u info_mmap_length) ;;
    start <- load32 (header +u info_mmap_addr) ;;
    if negb (start =? 0) && (start <? REACHABLE) then
      let ram := with_source "multiboot memory map" ram in
      probe_loop fuel start (saturating_add32 start length) ram
    else ret ram
  else ret ram.

(** multiboot.rs 117-123: probe *)
Definition probe_sizes (header flags : Z) (ram : Ram) : M sys Ram :=
  if (ram_count ram =? 0) && negb (Z.land flags FLAG_MEMORY =? 0) then
    let ram := with_source "multiboot mem_lower and mem_upper" ram in
    lower <- load32 (header +u info_mem_lower) ;;
    upper <- load32 (header +u info_mem_upper) ;;
    let ram := push ram 0 (lower * 1024) in
    ret (push ram 0x00100000 (upper * 1024))
  else ret ram.

(** multiboot.rs 84-128: probe *)
Definition probe (fuel : nat) (magic info : Z) : M sys (Ram + list Z) :=
  if negb (magic =? BOOT_MAGIC) then
    ret (inr (bytes "no multiboot magic in eax, this kernel needs a multiboot loader"))
  else if (info =? 0) || (info >=? REACHABLE) then
    ret (inr (bytes "the multiboot information is out of the low window"))
  else
    flags <- load32 (info +u info_flags) ;;
    ram <- probe_map fuel info flags NOTHING ;;
    ram <- probe_sizes info flags ram ;;
    if ram_count ram =? 0 then ret (inr (bytes "the loader described no usable memory"))
    else ret (inl ram).
