(* ===== verification/ProbeSpec.v ===== *)
(** * Theorems about reading the memory map *)

From S2P Require Import Prelude.
From S2P Require Import Klib.
From S2P Require Import Machine.
From S2P Require Import Multiboot.
From S2P Require Import Fmt.
From S2P Require Pmm.
From S2P Require Vga.
From S2P Require Import Paging.
From S2P Require Import PagingSpec.
From S2P Require Import PagingOps.
From S2P Require Import BootMem.
From S2P Require Import Probe.

(** ** The loader's map, as the multiboot specification lays it out *)

Record entry : Type := mkEntry { en_size : Z; en_base : Z; en_length : Z; en_kind : Z }.

(** Entries one after the other from [a] to [stop]; [size] does not count
    itself and is at least the 20 bytes of the fields. *)
Fixpoint entries_at (ram : gmap Z Z) (a : Z) (es : list entry) (stop : Z) : Prop :=
  match es with
  | [] => a = stop
  | e :: es =>
      pread32 ram a = en_size e /\ pread64 ram (a + 4) = en_base e /\
      pread64 ram (a + 12) = en_length e /\ pread32 ram (a + 20) = en_kind e /\
      20 <= en_size e < 4194304 /\ entries_at ram (a + 4 + en_size e) es stop
  end.

(** What the map describes: the available entries, pushed in order. *)
Definition described (es : list entry) (ram : Ram) : Ram :=
  foldl (fun ram e => if en_kind e =? MMAP_AVAILABLE then push ram (en_base e) (en_length e) else ram) ram es.

Lemma entries_at_le ram a es stop : entries_at ram a es stop -> a <= stop.
Proof.
  revert a. induction es as [|e es IH]; intros a; cbn; [lia|].
  intros (_ & _ & _ & _ & Hs & H). apply IH in H. lia.
Qed.

Lemma entries_at_ext ram ram' a es stop :
  (forall x, pread8 ram' x = pread8 ram x) -> entries_at ram a es stop -> entries_at ram' a es stop.
Proof.
  intros Hx. revert a. induction es as [|e es IH]; intros a; cbn [entries_at]; [done|].
  intros (H1 & H2 & H3 & H4 & H5 & H6). unfold pread64, pread32 in *. rewrite !Hx.
  split_and!; try done; try lia. by apply IH.
Qed.

Section Probe.
Context `{LK : LinkerOk}.

Lemma low_word a : 0 <= a < 4194304 -> windowed a /\ boot_phys a = a.
Proof. intros Ha. unfold windowed, boot_phys. destruct (Z.ltb_spec a 4194304); lia. Qed.

(** Loads from the low window, on the kernel state. *)
Lemma low_load32 s a :
  boot_ok (s_machine s) -> 0 <= a -> a + 4 <= 4194304 ->
  exists m', load32 a s = Done (pread32 (m_ram (s_machine s)) a) (with_machine m' s) /\
    early (fun _ => False) (s_machine s) m'.
Proof.
  intros Hm H0 H4. destruct (low_word a) as [W P]; [lia|]. destruct (low_word (a + 3)) as [W3 _]; [lia|].
  destruct (boot_load32_any _ a Hm W W3) as (m' & E & S). rewrite P in E.
  exists m'. split; [by apply on_machine_Done|done].
Qed.

Lemma low_load64 s a :
  boot_ok (s_machine s) -> 0 <= a -> a + 8 <= 4194304 ->
  exists m', load64 a s = Done (pread64 (m_ram (s_machine s)) a) (with_machine m' s) /\
    early (fun _ => False) (s_machine s) m'.
Proof.
  intros Hm H0 H4. destruct (low_word a) as [W P]; [lia|]. destruct (low_word (a + 7)) as [W3 _]; [lia|].
  destruct (boot_load64_any _ a Hm W W3) as (m' & E & S). rewrite P in E.
  exists m'. split; [by apply on_machine_Done|done].
Qed.

(** The four reads of one entry. *)
Lemma read_entry s a :
  boot_ok (s_machine s) -> 0 <= a -> a + 24 <= 4194304 ->
  let ram := m_ram (s_machine s) in
  exists m', early (fun _ => False) (s_machine s) m' /\ forall k : Z -> Z -> Z -> Z -> M sys Ram,
    (size <- load32 (a +u entry_size) ;; kind <- load32 (a +u entry_kind) ;;
     base <- load64 (a +u entry_base) ;; len <- load64 (a +u entry_length) ;; k size kind base len) s =
    k (pread32 ram a) (pread32 ram (a + 20)) (pread64 ram (a + 4)) (pread64 ram (a + 12)) (with_machine m' s).
Proof.
  intros Hm H0 H24 ram.
  assert (a +u entry_size = a /\ a +u entry_kind = a + 20 /\ a +u entry_base = a + 4 /\
    a +u entry_length = a + 12) as (-> & -> & -> & ->).
  { unfold entry_size, entry_kind, entry_base, entry_length. rewrite Z.add_0_r, !wrap32_small;
      unfold is_u32; lia. }
  destruct (low_load32 s a Hm) as (m1 & E1 & S1); [lia|lia|].
  destruct (low_load32 (with_machine m1 s) (a + 20) (ea_ok _ _ _ S1)) as (m2 & E2 & S2); [lia|lia|].
  destruct (low_load64 (with_machine m2 s) (a + 4) (ea_ok _ _ _ S2)) as (m3 & E3 & S3); [lia|lia|].
  destruct (low_load64 (with_machine m3 s) (a + 12) (ea_ok _ _ _ S3)) as (m4 & E4 & S4); [lia|lia|].
  pose proof (early_trans _ _ _ _ S1 S2) as S12. pose proof (early_trans _ _ _ _ S12 S3) as S13.
  exists m4. cbn [s_machine with_machine] in *. unfold pread64 in E3, E4.
  rewrite (early_pread32 _ _ _ S1) in E2. rewrite !(early_pread32 _ _ _ S12) in E3.
  rewrite !(early_pread32 _ _ _ S13) in E4.
  split; [by eapply early_trans|]. intros k.
  by rewrite (bind_Done _ _ _ _ _ E1), (bind_Done _ _ _ _ _ E2), (bind_Done _ _ _ _ _ E3),
    (bind_Done _ _ _ _ _ E4).
Qed.

Lemma probe_loop_spec es : forall fuel a stop ram s,
  boot_ok (s_machine s) -> 0 <= a -> stop <= 4194304 ->
  entries_at (m_ram (s_machine s)) a es stop -> (length es < fuel)%nat ->
  exists m', probe_loop fuel a stop ram s = Done (described es ram) (with_machine m' s) /\
    early (fun _ => False) (s_machine s) m'.
Proof.
  induction es as [|e es IH]; intros fuel a stop ram s Hm Ha Hstop Hes Hf; (destruct fuel as [|fuel]; [cbn in Hf; lia|]).
  - cbn in Hes. subst a. exists (s_machine s). cbn [probe_loop].
    rewrite wrap32_small by (unfold is_u32; lia). rewrite (proj2 (Z.leb_gt _ _)) by lia.
    rewrite with_machine_id. split; [done|by apply early_refl].
  - cbn [entries_at] in Hes. destruct Hes as (H1 & H2 & H3 & H4 & H5 & H6).
    pose proof (entries_at_le _ _ _ _ H6) as Hle. cbn [probe_loop].
    rewrite wrap32_small by (unfold is_u32; lia). rewrite (proj2 (Z.leb_le _ _)) by lia.
    destruct (read_entry s a Hm) as (m1 & S1 & E1); [lia|lia|]. rewrite E1, H1, H2, H3, H4.
    rewrite (proj2 (Z.eqb_neq _ _)) by lia.
    assert (a +u (en_size e +u 4) = a + 4 + en_size e) as ->.
    { rewrite (wrap32_small (en_size e + 4)) by (unfold is_u32; lia).
      rewrite wrap32_small by (unfold is_u32; lia). lia. }
    destruct (IH fuel (a + 4 + en_size e) stop
      (if en_kind e =? MMAP_AVAILABLE then push ram (en_base e) (en_length e) else ram)
      (with_machine m1 s) (ea_ok _ _ _ S1)) as (m2 & E2 & S2); [lia|done| |cbn in Hf; lia|].
    { eapply entries_at_ext; [|exact H6]. intros x. exact (early_pread8 _ _ x S1). }
    exists m2. split; [exact E2|by eapply early_trans].
Qed.

(** The information structure points at a map of [es]. *)
Record loaded (ram : gmap Z Z) (info : Z) (es : list entry) : Prop := {
  ld_info : 0 < info /\ info + 52 <= 4194304;
  ld_flag : Z.testbit (pread32 ram info) 6 = true;
  ld_start : 0 < pread32 ram (info + 48) < 4194304;
  ld_stop : pread32 ram (info + 48) + pread32 ram (info + 44) <= 4194304;
  ld_entries : entries_at ram (pread32 ram (info + 48)) es
    (pread32 ram (info + 48) + pread32 ram (info + 44));
}.

Lemma probe_map_spec fuel info es s ram :
  boot_ok (s_machine s) -> loaded (m_ram (s_machine s)) info es -> (length es < fuel)%nat ->
  exists m', probe_map fuel info (pread32 (m_ram (s_machine s)) info) ram s =
      Done (described es (with_source "multiboot memory map" ram)) (with_machine m' s) /\
    early (fun _ => False) (s_machine s) m'.
Proof.
  intros Hm [[I1 I2] Hflag Hst Hstop Hes] Hf. unfold probe_map, FLAG_MMAP.
  rewrite land_bit_zero, Hflag by lia. cbn [negb].
  assert (info +u info_mmap_length = info + 44 /\ info +u info_mmap_addr = info + 48) as (-> & ->).
  { unfold info_mmap_length, info_mmap_addr. rewrite !wrap32_small; unfold is_u32; lia. }
  destruct (low_load32 s (info + 44) Hm) as (m1 & E1 & S1); [lia|lia|].
  destruct (low_load32 (with_machine m1 s) (info + 48) (ea_ok _ _ _ S1)) as (m2 & E2 & S2); [lia|lia|].
  cbn [s_machine with_machine] in E2. rewrite (early_pread32 _ _ _ S1) in E2.
  rewrite (bind_Done _ _ _ _ _ E1), (bind_Done _ _ _ _ _ E2).
  rewrite (proj2 (Z.eqb_neq _ 0)), (proj2 (Z.ltb_lt _ REACHABLE)) by (unfold REACHABLE; lia).
  cbn [negb andb]. pose proof (pread32_range (m_ram (s_machine s)) (info + 44)) as Hr. unfold is_u32 in Hr.
  replace (saturating_add32 (pread32 (m_ram (s_machine s)) (info + 48)) (pread32 (m_ram (s_machine s)) (info + 44)))
    with (pread32 (m_ram (s_machine s)) (info + 48) + pread32 (m_ram (s_machine s)) (info + 44))
    by (unfold saturating_add32, U32_MAX; lia).
  pose proof (early_trans _ _ _ _ S1 S2) as S12.
  destruct (probe_loop_spec es fuel (pread32 (m_ram (s_machine s)) (info + 48))
    (pread32 (m_ram (s_machine s)) (info + 48) + pread32 (m_ram (s_machine s)) (info + 44))
    (with_source "multiboot memory map" ram) (with_machine m2 s) (ea_ok _ _ _ S12)) as (m3 & E3 & S3);
    [lia|done| |done|].
  { eapply entries_at_ext; [|exact Hes]. intros x. exact (early_pread8 _ _ x S12). }
  exists m3. split; [exact E3|by eapply early_trans].
Qed.

(** The regions [probe] gives for a map. *)
Definition map_ram (es : list entry) : Ram := described es (with_source "multiboot memory map" NOTHING).

(** What [probe] falls back on when the map describes no memory: conventional
    memory and the memory above 1 mb, of sizes given in kb. *)
Definition sizes_ram (mem : gmap Z Z) (info : Z) (es : list entry) : Ram :=
  push (push (with_source "multiboot mem_lower and mem_upper" (map_ram es))
    0 (pread32 mem (info + 4) * 1024)) 0x00100000 (pread32 mem (info + 8) * 1024).

Definition NO_MEMORY : list Z := bytes "the loader described no usable memory".

(** What [probe] returns. *)
Definition probed (mem : gmap Z Z) (info : Z) (es : list entry) : Ram + list Z :=
  if decide (ram_count (map_ram es) <> 0) then inl (map_ram es)
  else if Z.testbit (pread32 mem info) 0 then
    if decide (ram_count (sizes_ram mem info es) = 0) then inr NO_MEMORY else inl (sizes_ram mem info es)
  else inr NO_MEMORY.

Lemma probe_sizes_spec info es s :
  boot_ok (s_machine s) -> 0 < info -> info + 52 <= 4194304 ->
  exists m', (ram <- probe_sizes info (pread32 (m_ram (s_machine s)) info) (map_ram es) ;;
      if ram_count ram =? 0 then ret (inr NO_MEMORY) else ret (inl ram)) s =
      Done (probed (m_ram (s_machine s)) info es) (with_machine m' s) /\
    early (fun _ => False) (s_machine s) m'.
Proof.
  intros Hm I1 I2. unfold probe_sizes, probed, FLAG_MEMORY. rewrite land_bit_zero by lia.
  destruct (Z.eqb_spec (ram_count (map_ram es)) 0) as [Hz|Hz]; [rewrite decide_False by lia|rewrite decide_True by done];
    cbn [andb].
  2: { exists (s_machine s). rewrite (bind_Done (ret (map_ram es)) _ _ _ _ eq_refl), (proj2 (Z.eqb_neq _ _) Hz).
       rewrite with_machine_id. split; [done|by apply early_refl]. }
  rewrite negb_involutive. destruct (Z.testbit (pread32 (m_ram (s_machine s)) info) 0); cycle 1.
  { exists (s_machine s). rewrite (bind_Done (ret (map_ram es)) _ _ _ _ eq_refl), (proj2 (Z.eqb_eq _ _) Hz).
    rewrite with_machine_id. split; [done|by apply early_refl]. }
  assert (info +u info_mem_lower = info + 4 /\ info +u info_mem_upper = info + 8) as (-> & ->).
  { unfold info_mem_lower, info_mem_upper. rewrite !wrap32_small; unfold is_u32; lia. }
  destruct (low_load32 s (info + 4) Hm) as (m1 & E1 & S1); [lia|lia|].
  destruct (low_load32 (with_machine m1 s) (info + 8) (ea_ok _ _ _ S1)) as (m2 & E2 & S2); [lia|lia|].
  cbn [s_machine with_machine] in E2. rewrite (early_pread32 _ _ _ S1) in E2.
  exists m2. split; [|by eapply early_trans].
  erewrite bind_Done; cycle 1.
  { cbv zeta. rewrite (bind_Done _ _ _ _ _ E1), (bind_Done _ _ _ _ _ E2). reflexivity. }
  fold (sizes_ram (m_ram (s_machine s)) info es).
  case_decide as Hd; [rewrite (proj2 (Z.eqb_eq _ _) Hd)|rewrite (proj2 (Z.eqb_neq _ _) Hd)]; reflexivity.
Qed.

Lemma probe_full fuel info es s :
  boot_ok (s_machine s) -> loaded (m_ram (s_machine s)) info es -> (length es < fuel)%nat ->
  exists m', probe fuel BOOT_MAGIC info s = Done (probed (m_ram (s_machine s)) info es) (with_machine m' s) /\
    early (fun _ => False) (s_machine s) m'.
Proof.
  intros Hm Hld Hf. pose proof (ld_info _ _ _ Hld) as [I1 I2]. unfold probe. cbn [negb].
  rewrite Z.eqb_refl. cbn [negb]. rewrite Z.geb_leb.
  rewrite (proj2 (Z.eqb_neq _ 0)), (proj2 (Z.leb_gt REACHABLE _)) by (unfold REACHABLE; lia). cbn [orb].
  assert (info +u info_flags = info) as -> by (unfold info_flags; rewrite Z.add_0_r, wrap32_small; unfold is_u32; lia).
  destruct (low_load32 s info Hm) as (m1 & E1 & S1); [lia|lia|]. rewrite (bind_Done _ _ _ _ _ E1).
  assert (loaded (m_ram m1) info es) as Hld1.
  { destruct Hld as [L1 L2 L3 L4 L5]. split; rewrite ?(early_pread32 _ _ _ S1); try done.
    eapply entries_at_ext; [|exact L5]. intros x. exact (early_pread8 _ _ x S1). }
  destruct (probe_map_spec fuel info es (with_machine m1 s) NOTHING (ea_ok _ _ _ S1) Hld1 Hf) as (m2 & E2 & S2).
  cbn [s_machine with_machine] in E2. rewrite (early_pread32 _ _ _ S1) in E2.
  rewrite (bind_Done _ _ _ _ _ E2). fold (map_ram es). pose proof (early_trans _ _ _ _ S1 S2) as S12.
  destruct (probe_sizes_spec info es (with_machine m2 s) (ea_ok _ _ _ S12) I1 I2) as (m3 & E3 & S3).
  cbn [s_machine with_machine] in E3. exists m3. split; [|by eapply early_trans].
  assert (probed (m_ram m2) info es = probed (m_ram (s_machine s)) info es) as <-.
  { unfold probed, sizes_ram. by rewrite !(early_pread32 _ _ _ S12). }
  rewrite (early_pread32 _ _ _ S12) in E3. exact E3.
Qed.

Lemma probe_spec fuel info es s :
  boot_ok (s_machine s) -> loaded (m_ram (s_machine s)) info es -> (length es < fuel)%nat ->
  ram_count (map_ram es) <> 0 ->
  exists m', probe fuel BOOT_MAGIC info s = Done (inl (map_ram es)) (with_machine m' s) /\
    early (fun _ => False) (s_machine s) m'.
Proof.
  intros Hm Hld Hf Hc. destruct (probe_full fuel info es s Hm Hld Hf) as (m' & E & S).
  exists m'. split; [|exact S]. rewrite E. unfold probed. by rewrite decide_True.
Qed.

(** C24: On a map laid out as the multiboot specification says, inside the low
    window, [probe] returns the regions of the available entries in order, as
    [Ram::push] takes them; when there is none, it returns the two regions of
    [mem_lower] and [mem_upper] if the loader gave these sizes and they
    describe memory, and an error otherwise.  It
    changes no byte of memory.  One turn of the loop per entry is enough. *)
Theorem probe_reads_map fuel info es s :
  boot_ok (s_machine s) -> loaded (m_ram (s_machine s)) info es -> (length es < fuel)%nat ->
  let mem := m_ram (s_machine s) in
  exists r m', probe fuel BOOT_MAGIC info s = Done r (with_machine m' s) /\
    early (fun _ => False) (s_machine s) m' /\
    (ram_count (map_ram es) <> 0 -> r = inl (map_ram es)) /\
    (ram_count (map_ram es) = 0 -> Z.testbit (pread32 mem info) 0 = true ->
       r = if decide (ram_count (sizes_ram mem info es) = 0) then inr NO_MEMORY else inl (sizes_ram mem info es)) /\
    (ram_count (map_ram es) = 0 -> Z.testbit (pread32 mem info) 0 = false -> r = inr NO_MEMORY).
Proof.
  intros Hm Hld Hf mem. destruct (probe_full fuel info es s Hm Hld Hf) as (m' & E & S).
  eexists _, m'. split; [exact E|]. split; [exact S|]. fold mem. unfold probed.
  split; [|split].
  - intros Hc. by rewrite decide_True.
  - intros Hc Hb. by rewrite decide_False, Hb by lia.
  - intros Hc Hb. by rewrite decide_False, Hb by lia.
Qed.

(** An entry whose [size] is 0xfffffffc: [at += size + 4] adds nothing, and
    the loop never ends, whatever the fuel. *)
Lemma probe_loop_stuck fuel : forall a stop ram s,
  boot_ok (s_machine s) -> 0 <= a -> a + 24 <= 4194304 -> a + 8 <= stop ->
  pread32 (m_ram (s_machine s)) a = 0xfffffffc -> probe_loop fuel a stop ram s = OutOfFuel.
Proof.
  induction fuel as [|fuel IH]; intros a stop ram s Hm Ha H24 Hs Hsz; [done|]. cbn [probe_loop].
  rewrite wrap32_small by (unfold is_u32; lia). rewrite (proj2 (Z.leb_le _ _)) by lia.
  destruct (read_entry s a Hm) as (m1 & S1 & E1); [lia|lia|]. rewrite E1, Hsz.
  change (4294967292 =? 0) with false. cbn iota.
  assert (a +u (4294967292 +u 4) = a) as ->.
  { change (4294967292 +u 4) with 0. rewrite Z.add_0_r. apply wrap32_small. unfold is_u32. lia. }
  apply IH; [apply S1|done|done|done|]. cbn [s_machine with_machine]. by rewrite (early_pread32 _ _ _ S1).
Qed.

End Probe.

(** ** A loader to run on *)

(** The two available regions of the QEMU machine of docs/MEMORY.md, and a
    reserved one between them. *)
Definition demo_entries : list entry :=
  [mkEntry 20 0 0x9fc00 1; mkEntry 20 0xf0000 0x10000 2; mkEntry 20 0x100000 0x3ee0000 1].

(** The structure at 0x9000, the map at 0x9100. *)
Definition demo_words : list (Z * Z) :=
  [(0x9000, 64); (0x902c, 72); (0x9030, 0x9100);
   (0x9100, 20); (0x9104, 0); (0x9108, 0); (0x910c, 0x9fc00); (0x9110, 0); (0x9114, 1);
   (0x9118, 20); (0x911c, 0xf0000); (0x9120, 0); (0x9124, 0x10000); (0x9128, 0); (0x912c, 2);
   (0x9130, 20); (0x9134, 0x100000); (0x9138, 0); (0x913c, 0x3ee0000); (0x9140, 0); (0x9144, 1)].

Definition demo_ram : gmap Z Z := write_words demo_words demo_image.

Lemma demo_ram_bss a : 0x10A000 <= a -> pread8 demo_ram a = 0.
Proof.
  intros Ha. unfold demo_ram. rewrite write_words_apart; [by apply demo_image_bss|].
  eapply (Forall_impl (P := fun w : Z * Z => w.1 + 4 <= 0x10A000)); [intros w Hw; lia|by_decide].
Qed.

Definition demo_loaded : machine := @start demo_linker demo_ram 0x11.
Definition demo_loaded_sys : sys := mkSys demo_loaded Pmm.pmm_zero Vga.vga_boot 0 0xC0111000.

Lemma demo_loaded_boot : @boot_ok demo_linker demo_loaded.
Proof.
  apply (@start_boot_ok demo_linker demo_linker_ok). intros a Ha.
  assert (0x10A000 <= a) as Hb by (revert Ha; unfold boot_dir, at_phys; cbn [boot_directory demo_linker]; lia).
  by apply demo_ram_bss.
Qed.

Lemma demo_is_loaded : loaded (m_ram demo_loaded) 0x9000 demo_entries.
Proof. split; vm_compute; repeat split; discriminate. Qed.

Lemma probe_reads_map_witness :
  exists m, probe 4 BOOT_MAGIC 0x9000 demo_loaded_sys =
    Done (inl (map_ram demo_entries)) (with_machine m demo_loaded_sys).
Proof.
  destruct (@probe_reads_map demo_linker demo_linker_ok 4 0x9000 demo_entries demo_loaded_sys
    demo_loaded_boot demo_is_loaded ltac:(by_decide)) as (r & m & E & _ & Hr & _).
  exists m. rewrite Hr in E by by_decide. exact E.
Defined.
