(* ===== verification/Boot.v ===== *)
(** * Bringing memory up (the rest of kernel/src/mem.rs) *)

From S2P Require Import Prelude.
From S2P Require Import Mem.
From S2P Require Import Klib.
From S2P Require Import Machine.
From S2P Require Import Multiboot.
From S2P Require Import Pmm.
From S2P Require Import Fmt.
From S2P Require Import Panic.
From S2P Require Import Paging.
From S2P Require Import Heap.
From S2P Require Import Kmalloc.
From S2P Require Import Probe.

Section Boot.
Context {L : Linker}.

(** mem.rs 132-134: load_phys *)
Definition load_phys : Z := boot_start.

(** mem.rs 144-151: image *)
Definition image : Image := mkImage kernel_start kernel_code_end kernel_readonly_end kernel_end.

(** mem.rs 182-184: ram *)
Definition get_ram : M kernel Ram := gets k_ram.

(** mem.rs 186-188: heap_window *)
Definition heap_window : M kernel (Z * Z) := gets k_window.

Definition set_kram (r : Ram) (k : kernel) : kernel :=
  mkKernel (k_sys k) (k_heap k) (v_heap k) r (k_window k).
Definition set_window (w : Z * Z) (k : kernel) : kernel :=
  mkKernel (k_sys k) (k_heap k) (v_heap k) (k_ram k) w.

(** [pmm::carve] on the kernel state; its loop is bounded by [Pmm.carve]. *)
Definition carve_window (size : Z) : M sys (option (Z * Z)) := fun s =>
  match Pmm.carve size (s_pmm s) with
  | Some (w, p) => Done w (with_pmm p s)
  | None => OutOfFuel
  end.

(** The two lines printed at the end. *)
(** mem.rs 215-227: init *)
Definition announce (ram : Ram) (window : Z * Z) : M sys unit :=
  p <- gets s_pmm ;;
  printk (bytes "memory: " ++ dec (ram_usable ram / 1024) ++ bytes " kb usable in " ++
    dec (ram_count ram) ++ bytes " regions, " ++ dec (total_frames p) ++ bytes " frames of " ++
    dec (PAGE_SIZE / 1024) ++ bytes " kb" ++ newline) ;;
  dir <- directory_phys ;;
  printk (bytes "paging: directory at " ++ hex_alt 10 dir ++ bytes ", " ++
    dec ((window.2 -u window.1) / 1024) ++ bytes " kb carved at " ++ hex_alt 10 window.1 ++
    bytes " for kmalloc" ++ newline).

(** mem.rs 190-228: init *)
Definition init (fuel : nat) (magic info : Z) : M kernel unit :=
  found <- on_sys (probe fuel magic info) ;;
  match found with
  | inr why => on_sys (kpanic why)
  | inl ram =>
      modify (set_kram ram) ;;
      if im_end image >? KERNEL_WINDOW_END then
        on_sys (kpanic (bytes "the kernel image ends at " ++ hex_alt 10 (im_end image) ++
          bytes ", past its 4 mb window"))
      else
        on_sys (on_pmm (fun p => (tt, Pmm.init ram p))) ;;
        on_sys (on_pmm (fun p => (tt, Pmm.reserve 0 BIOS_END p))) ;;
        on_sys (on_pmm (fun p => (tt, Pmm.reserve load_phys (kernel_phys (im_end image)) p))) ;;
        on_sys (Paging.init image) ;;
        let want := wrap32 (Z.min (KHEAP_LIMIT - KHEAP_BASE) (ram_usable ram / 4)) in
        got <- on_sys (carve_window (page_of want)) ;;
        match got with
        | None => on_sys (kpanic (bytes "no contiguous physical block left for the kernel heap"))
        | Some window =>
            modify (set_window window) ;;
            Kmalloc.init window ;;
            on_sys (announce ram window)
        end
  end.

End Boot.
