(* ===== verification/BootSpec.v ===== *)
(** * Theorems about bringing memory up

    [paging::init] takes the machine from the tables of boot.asm to the
    address space of [PagingSpec.v]; [mem::init] as a whole leaves the two
    heaps well formed, or stops the processor. *)

From S2P Require Import Prelude.
From S2P Require Import Mem.
From S2P Require Import Klib.
From S2P Require Import Machine.
From S2P Require Import Multiboot.
From S2P Require Import Pmm.
From S2P Require Import Fmt.
From S2P Require Import Panic.
From S2P Require Import Heap.
From S2P Require Import HeapSpec.
From S2P Require Import HeapOps.
From S2P Require Import HeapEnv.
From S2P Require Import Kmalloc.
From S2P Require Import Paging.
From S2P Require Import PagingSpec.
From S2P Require Import PagingOps.
From S2P Require Import BootMem.
From S2P Require Import Exceptions.
From S2P Require Import ProbeSpec.
From S2P Require Import Probe.
From S2P Require Import Boot.

Section PagingInit.
Context `{LK : LinkerOk}.

Definition kernel_tab : Z := at_phys kernel_table.

Lemma kernel_tab_frame :
  kernel_tab mod 4096 = 0 /\ kernel_tab <> boot_dir /\ kernel_tab <> boot_low /\
  1048576 <= kernel_tab < 4194304.
Proof.
  destruct lk_pages as (_ & _ & (A1 & A2 & A3)). pose proof lk_start. pose proof lk_code.
  destruct lk_end as [_ E]. pose proof lk_distinct as Hd.
  inversion_clear Hd as [|? ? N1 Hd']. inversion_clear Hd' as [|? ? N2 _].
  unfold kernel_tab, boot_dir, boot_low, at_phys.
  assert (kernel_table <> boot_directory) by (intros Ex; apply N1; rewrite Ex; right; by left).
  assert (kernel_table <> boot_low_table) by (intros Ex; apply N2; rewrite Ex; by left).
  split_and!; dlia.
Qed.

(** A page of words written through its window address. *)
Lemma boot_fill va (g : Z -> Z) l : forall m,
  boot_ok m -> va mod 4096 = 0 -> windowed va -> off_tables (boot_phys va) ->
  Forall (fun i => 0 <= i < 1024) l ->
  exists m', for_each l (fun i => vstore32 (word_ptr va i) (g i)) m = Done tt m' /\
    m_ram m' = foldl (fun ram i => pwrite32 (boot_phys va + 4 * i) (g i) ram) (m_ram m) l /\
    early (fun a => boot_phys va <= a < boot_phys va + 4096) m m'.
Proof.
  induction l as [|i l IH]; intros m Hm Ha Hw Hoff Hl.
  { exists m. split; [done|]. split; [done|by apply early_refl]. }
  apply Forall_cons_iff in Hl as [Hi Hl].
  assert (windowed (va + 4 * i)) as Hwi by (unfold windowed in *; dlia).
  assert (word_ptr va i = va + 4 * i) as Ew by (by apply wrap32_small, windowed_u32).
  pose proof (boot_phys_add va (4 * i) Hw Hwi ltac:(lia)) as Hp.
  assert (boot_phys va mod 4096 = 0) as Hpa.
  { unfold boot_phys, at_phys. destruct (Z.ltb_spec va 4194304); dlia. }
  cbn [for_each]. rewrite Ew.
  destruct (boot_store32 m (va + 4 * i) (g i) Hm Hwi) as (m1 & E1 & R1 & S1); [dlia| |].
  { rewrite Hp. unfold off_tables in *. dlia. }
  rewrite Hp in R1, S1.
  destruct (IH m1 (ea_ok _ _ _ S1) Ha Hw Hoff Hl) as (m2 & E2 & R2 & S2).
  exists m2. rewrite (bind_Done _ _ _ _ _ E1). split; [exact E2|]. split; [by rewrite R2, R1|].
  eapply early_trans; [|exact S2]. eapply early_weaken; [|exact S1]. cbn. intros a. lia.
Qed.

(** The entry of page [i] of the kernel window. *)
Definition readonly (i : Z) : bool :=
  (kernel_start <=? 3221225472 + i * 4096) && (3221225472 + i * 4096 <? kernel_readonly_end).

Lemma kernel_entry_fields i :
  0 <= i < 1024 ->
  let e := kernel_entry image i in
  is_u32 e /\ entry_present e = true /\ entry_writable e = negb (readonly i) /\ entry_frame e = i * 4096.
Proof.
  intros Hi. unfold kernel_entry, readonly. layout_consts. cbn [im_start im_readonly_end image].
  rewrite (wrap32_small (i * 4096)), (wrap32_small (3221225472 + i * 4096)) by (unfold is_u32; lia).
  rewrite Z.geb_leb. destruct (_ && _); cbn [negb].
  - destruct (entry_make i KERNEL_READONLY) as (H1 & H2 & H3); [lia|by_decide|].
    split_and!; [apply H1..| | |exact H2]; [unfold entry_present|unfold entry_writable]; by rewrite H3 by lia.
  - destruct (entry_make i KERNEL_PAGE) as (H1 & H2 & H3); [lia|by_decide|].
    split_and!; [apply H1..| | |exact H2]; [unfold entry_present|unfold entry_writable]; by rewrite H3 by lia.
Qed.

(** The address space [paging::init] leaves. *)
Record kernel_vm (m : machine) : Prop := {
  kv_dir : dir_base m = boot_dir;
  kv_pde : forall d, 0 <= d < 1024 -> pde m d =
    if decide (d = 0) then boot_low + 3 else if decide (d = 768) then kernel_tab + 3
    else if decide (d = 1023) then boot_dir + 3 else 0;
  kv_low : forall i, 0 <= i < 1024 -> pread32 (m_ram m) (boot_low + 4 * i) = i * 4096 + 3;
  kv_high : forall i, 0 <= i < 1024 -> pread32 (m_ram m) (kernel_tab + 4 * i) = kernel_entry image i;
  kv_tlb : m_tlb m = ∅;
  kv_wp : write_protect m = true;
}.

Lemma kernel_vm_intro m1 m2 :
  early (fun a => kernel_tab <= a < kernel_tab + 4096) m1 m2 -> boot_ok m1 ->
  (forall i, 0 <= i < 1024 -> pread32 (m_ram m2) (kernel_tab + 4 * i) = kernel_entry image i) ->
  kernel_vm (set_cr0 (Z.lor (m_cr0 m2) WRITE_PROTECT) (set_tlb (fun _ => ∅)
    (set_ram (pwrite32 (boot_dir + 4 * 768) (kernel_tab + 3)) m2))).
Proof.
  intros He Hm1 Hk. pose proof (ea_ok _ _ _ He) as Hm.
  destruct boot_frames as (A1 & A2 & A3 & A4 & A5). destruct kernel_tab_frame as (K1 & K2 & K3 & K4).
  split.
  - exact (bt_dir _ Hm).
  - intros d Hd. unfold pde. change (dir_base _) with (dir_base m2) at 1. rewrite (bt_dir _ Hm).
    cbn [m_ram set_cr0 set_tlb set_ram]. destruct (Z.eq_dec d 768) as [->|Hne].
    + rewrite decide_False, decide_True by lia. apply pread32_write32. unfold is_u32. lia.
    + rewrite pread32_write32_ne by lia.
      assert (pread32 (m_ram m2) (boot_dir + 4 * d) = pde m2 d) as -> by (unfold pde; by rewrite (bt_dir _ Hm)).
      rewrite (bt_pde _ Hm) by done. repeat case_decide; (done || lia).
  - intros i Hi. cbn [m_ram set_cr0 set_tlb set_ram]. rewrite pread32_write32_ne by dlia.
    by apply (bt_low _ Hm).
  - intros i Hi. cbn [m_ram set_cr0 set_tlb set_ram]. rewrite pread32_write32_ne by dlia. by apply Hk.
  - done.
  - unfold write_protect. cbn [m_cr0 set_cr0]. rewrite Z.lor_spec. apply orb_true_r.
Qed.

Lemma paging_init_spec s :
  boot_ok (s_machine s) ->
  exists m', Paging.init image s = Done tt (with_machine m' s) /\ kernel_vm m' /\
    (forall a, a / 4096 <> kernel_tab / 4096 -> a / 4096 <> boot_dir / 4096 ->
       pread8 (m_ram m') a = pread8 (m_ram (s_machine s)) a).
Proof.
  intros Hm. destruct boot_frames as (A1 & A2 & A3 & A4 & A5).
  destruct kernel_tab_frame as (K1 & K2 & K3 & K4).
  destruct lk_pages as (_ & _ & (B1 & B2 & B3)). pose proof lk_start. pose proof lk_code.
  destruct lk_end as [_ Eend].
  assert (windowed kernel_table) as Hw by (right; lia).
  assert (boot_phys kernel_table = kernel_tab) as Hp.
  { unfold boot_phys. destruct (Z.ltb_spec kernel_table 4194304); [lia|done]. }
  destruct (boot_fill kernel_table (kernel_entry image) (seqZ 0 1024) (s_machine s) Hm B1 Hw)
    as (m1 & E1 & R1 & S1).
  { rewrite Hp. unfold off_tables. dlia. }
  { apply Forall_elem_of. intros i. rewrite elem_of_seqZ. lia. }
  rewrite Hp in R1, S1. pose proof (ea_ok _ _ _ S1) as Hm1.
  destruct (win_arith 1023 768) as (Wu & Wn & Wm); [lia|lia|].
  assert (vstore32 (win 1023 768) (kernel_tab + 3) m1 =
    Done tt (set_ram (pwrite32 (boot_dir + 4 * 768) (kernel_tab + 3)) (touch (win 1023 768) m1))) as E2.
  { rewrite (vstore32_ok _ _ _ _ (tlb_ok_at _ _ (bt_tlb _ Hm1)) (boot_walk_dir m1 768 Hm1 ltac:(lia)));
      [by rewrite Wm|done|lia]. }
  set (m2 := set_ram (pwrite32 (boot_dir + 4 * 768) (kernel_tab + 3)) (touch (win 1023 768) m1)) in *.
  exists (set_cr0 (Z.lor (m_cr0 m1) WRITE_PROTECT) (set_tlb (fun _ => ∅)
    (set_ram (pwrite32 (boot_dir + 4 * 768) (kernel_tab + 3)) m1))).
  destruct (touch_equiv (win 1023 768) m1) as (T1 & T2 & T3 & T4).
  split; [|split].
  - unfold Paging.init.
    assert (for_each (seqZ 0 ENTRIES) (fun i => store32 (word_ptr kernel_table i) (kernel_entry image i)) s
      = Done tt (with_machine m1 s)) as ->%(bind_Done _ _ _ _ _).
    { unfold store32. rewrite for_each_on_machine. by apply on_machine_Done. }
    assert (Z.lor (kernel_phys kernel_table) KERNEL_PAGE = kernel_tab + 3) as ->.
    { unfold kernel_phys. rewrite wrap32_small by (unfold is_u32; layout_consts; lia).
      change (kernel_table - KERNEL_SPACE) with kernel_tab.
      rewrite Z.lor_comm. change KERNEL_PAGE with 3.
      replace kernel_tab with (kernel_tab / 4096 * 2 ^ 12) by dlia. rewrite lor_add by lia. lia. }
    rewrite word_ptr_directory by by_decide. change (dir_index KERNEL_SPACE) with 768.
    rewrite (bind_Done _ _ _ _ _ (on_machine_Done _ (with_machine m1 s) _ _ E2)).
    unfold m2, set_ram, set_tlb, set_cr0, with_machine, bind, flush, cr0, gets, on_machine, reload_cr3, modify.
    cbn [s_machine m_ram m_tlb m_cr0 m_cr2 m_cr3 s_pmm s_vga s_oops s_esp].
    unfold set_tlb, set_cr0. cbn [s_machine m_ram m_tlb m_cr0 m_cr2 m_cr3 s_pmm s_vga s_oops s_esp].
    by rewrite T1, T2, T3, T4.
  - apply (kernel_vm_intro (s_machine s)); [exact S1|exact Hm|].
    intros i Hi. rewrite R1.
    apply (fill_words kernel_tab (kernel_entry image) (m_ram (s_machine s)) 1024 i); [lia| |lia].
    intros j Hj. by apply kernel_entry_fields.
  - intros a Ha Hb. cbn [m_ram set_cr0 set_tlb set_ram].
    rewrite pread8_write32_out by (clear - A1 Hb; dlia).
    apply (ea_bytes _ _ _ S1). clear - K1 Ha. dlia.
Qed.

(** ** The address space is well formed *)

(** The three frames that hold tables. *)
Definition table_frames : list Z := [boot_dir / 4096; boot_low / 4096; kernel_tab / 4096].

Section KernelVm.
Context (m : machine) (Hm : kernel_vm m).

Lemma kernel_pde d :
  0 <= d < 1024 -> entry_present (pde m d) = true ->
  entry_writable (pde m d) = true /\
  ((d = 0 /\ table_frame m d = boot_low) \/ (d = 768 /\ table_frame m d = kernel_tab) \/
   (d = 1023 /\ table_frame m d = boot_dir)).
Proof.
  intros Hd. destruct boot_frames as (A1 & A2 & A3 & A4 & A5).
  destruct kernel_tab_frame as (K1 & K2 & K3 & K4). unfold table_frame.
  rewrite (kv_pde _ Hm) by done.
  destruct (decide (d = 0)); [|destruct (decide (d = 768)); [|destruct (decide (d = 1023))]]; [..|done]; intros _.
  - destruct (entry3 boot_low) as (E1 & E2 & E3); [lia|done|]. auto.
  - destruct (entry3 kernel_tab) as (E1 & E2 & E3); [lia|done|]. auto.
  - destruct (entry3 boot_dir) as (E1 & E2 & E3); [lia|done|]. auto.
Qed.

Lemma kernel_tables : tables_ok m.
Proof.
  destruct boot_frames as (A1 & A2 & A3 & A4 & A5). destruct kernel_tab_frame as (K1 & K2 & K3 & K4).
  assert (pde m 1023 = boot_dir + 3) as Hp by by rewrite (kv_pde _ Hm) by lia.
  destruct (entry3 boot_dir) as (E1 & E2 & E3); [lia|done|].
  split.
  - by rewrite Hp.
  - unfold table_frame. by rewrite Hp, E3, (kv_dir _ Hm).
  - intros d Hd Hx. by apply kernel_pde.
  - intros d d' Hd Hd' H1 H2 Heq. destruct (kernel_pde d Hd H1) as [_ Hc], (kernel_pde d' Hd' H2) as [_ Hc'].
    lia.
Qed.

Lemma kernel_is_table f : is_table m f -> f ∈ table_frames.
Proof.
  intros (d & Hd & Hp & Hf). destruct (kernel_pde d Hd Hp) as [_ Hc].
  unfold table_frames. rewrite !elem_of_cons, elem_of_nil.
  destruct Hc as [[_ Hc]|[[_ Hc]|[_ Hc]]]; rewrite Hc in Hf; rewrite Hf, Z.div_mul by lia; auto.
Qed.

Lemma kernel_no_page n : managed n -> page_entry m n = None.
Proof.
  intros Hn. unfold page_entry. unfold managed in Hn. rewrite (kv_pde _ Hm) by dlia.
  rewrite !decide_False by dlia. done.
Qed.

Lemma kernel_vm_ok p :
  pmm_wf p -> (forall f, f ∈ table_frames -> f ∉ free_set p) -> vm_ok m p.
Proof.
  intros Hp Hf. split.
  - exact Hp.
  - exact kernel_tables.
  - intros f Ht. by apply Hf, kernel_is_table.
  - intros n e Hn. by rewrite kernel_no_page.
  - intros n n' e e' Hn _. by rewrite kernel_no_page.
  - intros n t. by rewrite (kv_tlb _ Hm), lookup_empty.
Qed.

(** No entry of the directory lets user mode in. *)
Lemma kernel_vm_sealed : kernel_sealed m.
Proof.
  destruct boot_frames as (A1 & A2 & A3 & A4 & A5). destruct kernel_tab_frame as (K1 & K2 & K3 & K4).
  assert (forall f, f mod 4096 = 0 -> Z.testbit (f + 3) 2 = false) as Hb.
  { intros f Hf. rewrite Z.testbit_odd, Z.shiftr_div_pow2, Zodd_mod by lia. apply Z.eqb_neq.
    change (2 ^ 2) with 4. dlia. }
  intros d Hd _ [_ Hu]. revert Hu. rewrite (kv_pde _ Hm) by lia.
  repeat case_decide; [by rewrite Hb..|discriminate].
Qed.

(** The two windows. *)
Lemma kernel_walk_low va :
  0 <= va < 4194304 -> walk m va = Some (mkTrans (va - va mod 4096) true).
Proof.
  intros Hv. destruct boot_frames as (A1 & A2 & A3 & A4 & A5).
  destruct (entry3 boot_low) as (E1 & E2 & E3); [lia|done|].
  unfold walk, pte. replace (va / 4194304) with 0 by dlia.
  rewrite (kv_pde _ Hm), decide_True by lia. rewrite E1, E2, E3, (kv_low _ Hm) by dlia.
  destruct (entry3 ((va / 4096) mod 1024 * 4096)) as (F1 & F2 & F3); [dlia|dlia|].
  rewrite F1, F2, F3. do 2 f_equal. dlia.
Qed.

Lemma kernel_walk_high va :
  3221225472 <= va < 3225419776 ->
  walk m va = Some (mkTrans (at_phys va - va mod 4096) (negb ((kernel_start <=? va) && (va <? kernel_readonly_end)))).
Proof.
  intros Hv. destruct kernel_tab_frame as (K1 & K2 & K3 & K4).
  destruct (entry3 kernel_tab) as (E1 & E2 & E3); [lia|done|].
  unfold walk, pte. replace (va / 4194304) with 768 by dlia.
  rewrite (kv_pde _ Hm), decide_False, decide_True by lia. rewrite E1, E2, E3, (kv_high _ Hm) by dlia.
  destruct (kernel_entry_fields ((va / 4096) mod 1024)) as (_ & F1 & F2 & F3); [dlia|].
  rewrite F1, F2, F3. cbn [andb]. do 2 f_equal; [unfold at_phys; dlia|]. f_equal. unfold readonly.
  pose proof lk_start as [_ S1]. pose proof lk_readonly as [S2 _].
  f_equal; [destruct (Z.leb_spec kernel_start va), (Z.leb_spec kernel_start (3221225472 + (va / 4096) mod 1024 * 4096))
           |destruct (Z.ltb_spec va kernel_readonly_end), (Z.ltb_spec (3221225472 + (va / 4096) mod 1024 * 4096) kernel_readonly_end)];
    (done || dlia).
Qed.

(** What the MMU does with an access to the kernel window: every byte can be
    read; a write to the code or the read-only data is refused. *)
Lemma kernel_access va (write : bool) :
  3221225472 <= va < 3225419776 ->
  access va write m =
    if write && ((kernel_start <=? va) && (va <? kernel_readonly_end))
    then Fault va 3 (set_cr2 va (touch va m)) else Done (at_phys va) (touch va m).
Proof.
  intros Hv. pose proof (kernel_walk_high va Hv) as Hw.
  assert (m_tlb m !! (va / 4096) = None) as Ht by (rewrite (kv_tlb _ Hm); apply lookup_empty).
  unfold access, touch. rewrite Ht, Hw. unfold use_trans. cbn [t_writable t_frame].
  rewrite negb_involutive. change (write_protect (set_tlb _ m)) with (write_protect m).
  rewrite (kv_wp _ Hm), andb_true_r. destruct (write && _); [done|]. f_equal. lia.
Qed.

End KernelVm.

(** C13: On the tables of boot.asm, [paging::init] returns and leaves an
    address space in which every operation of paging.rs is safe, for any
    allocator that keeps the three table frames: [vm_ok] holds and no page
    outside the windows is mapped.  Every byte of the kernel window can be
    read at its physical address; a write to the kernel's code or read-only
    data is a page fault with error code 3, any other write goes through.
    No page of kernel space is open to user mode.
    Memory outside the new table and the directory is as before. *)
Theorem paging_init_protects s :
  boot_ok (s_machine s) ->
  exists m', Paging.init image s = Done tt (with_machine m' s) /\
    (forall p, pmm_wf p -> (forall f, f ∈ table_frames -> f ∉ free_set p) -> vm_ok m' p) /\
    (forall n, managed n -> page_entry m' n = None) /\ kernel_sealed m' /\
    (forall va write, KERNEL_SPACE <= va < KERNEL_WINDOW_END ->
       access va write m' =
         if write && ((kernel_start <=? va) && (va <? kernel_readonly_end))
         then Fault va 3 (set_cr2 va (touch va m')) else Done (va - KERNEL_SPACE) (touch va m')) /\
    (forall a, a / 4096 <> kernel_tab / 4096 -> a / 4096 <> boot_dir / 4096 ->
       pread8 (m_ram m') a = pread8 (m_ram (s_machine s)) a).
Proof.
  intros Hb. destruct (paging_init_spec s Hb) as (m' & E & Hm & Hbytes). exists m'.
  split; [exact E|]. split; [exact (kernel_vm_ok m' Hm)|]. split; [exact (kernel_no_page m' Hm)|].
  split; [exact (kernel_vm_sealed m' Hm)|]. split; [|exact Hbytes]. intros va write Hv. exact (kernel_access m' Hm va write Hv).
Qed.

End PagingInit.

(** ** The frame allocator at boot *)

Section MemInit.
Context `{LK : LinkerOk}.

(** The allocator after [pmm::init] and the two [pmm::reserve]. *)
Definition boot_pmm (ram : Ram) : pmm :=
  Pmm.reserve load_phys (kernel_phys (im_end image)) (Pmm.reserve 0 BIOS_END (Pmm.init ram pmm_zero)).

(** Whole RAM regions below the last pages of the address space. *)
Definition usable_ram (ram : Ram) : Prop :=
  Forall (fun r => region_ok r /\ rg_end r <= 0xffffe000) (firstn (Z.to_nat (ram_count ram)) (ram_regions ram)).

Lemma kernel_end_frames :
  kernel_phys kernel_end = at_phys kernel_end /\ at_phys kernel_end mod 4096 = 0 /\
  1048576 <= at_phys kernel_end <= 4194304 /\
  forall f, f ∈ table_frames -> 256 <= f < at_phys kernel_end / 4096.
Proof.
  destruct boot_frames as (A1 & A2 & A3 & A4 & A5). destruct kernel_tab_frame as (K1 & K2 & K3 & K4).
  pose proof lk_start. pose proof lk_code. destruct lk_readonly as [_ Hro]. destruct lk_end as [E1 E2].
  destruct lk_pages as ((_ & _ & B1) & (_ & _ & B2) & (_ & _ & B3)).
  split; [unfold kernel_phys; apply wrap32_small; unfold is_u32, at_phys, KERNEL_SPACE; lia|].
  unfold at_phys. split; [dlia|]. split; [lia|]. intros f.
  unfold table_frames. rewrite !elem_of_cons, elem_of_nil.
  unfold boot_dir, boot_low, kernel_tab, at_phys in *. intros [->|[->|[->|[]]]]; dlia.
Qed.

(** The free frames after start-up: the whole frames of RAM above the image. *)
Lemma boot_pmm_free ram :
  usable_ram ram ->
  pmm_wf (boot_pmm ram) /\
  forall f, f ∈ free_set (boot_pmm ram) <-> at_phys kernel_end / 4096 <= f /\
    exists r, r ∈ firstn (Z.to_nat (ram_count ram)) (ram_regions ram) /\ covers r f.
Proof.
  intros Hram. unfold boot_pmm, usable_ram in *.
  assert (Forall region_ok (firstn (Z.to_nat (ram_count ram)) (ram_regions ram))) as Hok
    by (eapply Forall_impl; [|exact Hram]; by intros r [? _]).
  destruct (init_regions_spec _ pmm_zero Hok pmm_zero_wf eq_refl) as (Hw & _ & Hs).
  fold (Pmm.init ram pmm_zero) in Hw, Hs.
  destruct (reserve_spec 0 BIOS_END (Pmm.init ram pmm_zero)) as [Hw1 Hs1]; [by_decide|exact Hw|].
  destruct kernel_end_frames as (E1 & E2 & E3 & _).
  destruct (reserve_spec load_phys (kernel_phys (im_end image)) (Pmm.reserve 0 BIOS_END (Pmm.init ram pmm_zero)))
    as [Hw2 Hs2]; [unfold load_phys; rewrite lk_load; by_decide|exact Hw1|].
  split; [exact Hw2|]. intros f. rewrite Hs2, Hs1. unfold load_phys. change (im_end image) with kernel_end.
  rewrite lk_load, E1, !elem_of_difference, !elem_of_run_set, Hs, pmm_zero_free_set, elem_of_empty.
  rewrite (wrap32_small (at_phys kernel_end + 4096)), (wrap32_small (at_phys kernel_end + 4096 - 1))
    by (unfold is_u32; lia).
  change (0 / 4096) with 0. change ((BIOS_END +u 4096 -u 1) / 4096) with 256. change (1048576 / 4096) with 256.
  replace ((at_phys kernel_end + 4096 - 1) / 4096) with (at_phys kernel_end / 4096) by dlia.
  split.
  - intros [[[[]|(r & Hr & Hc)] H1] H2]. split; [|by exists r].
    rewrite Forall_elem_of in Hok. destruct (Hok r Hr) as (R1 & _). destruct Hc as [Hc _]. dlia.
  - intros [H1 Hr]. split; [split; [by right|]|]; dlia.
Qed.

Lemma boot_pmm_spec ram :
  usable_ram ram ->
  pmm_wf (boot_pmm ram) /\ (forall f, 0 <= f < at_phys kernel_end / 4096 -> f ∉ free_set (boot_pmm ram)) /\
  forall f, f ∈ free_set (boot_pmm ram) -> 0 <= f /\ (f + 1) * 4096 <= 0xffffe000.
Proof.
  intros Hram. destruct (boot_pmm_free ram Hram) as [Hw Hs]. split; [exact Hw|].
  destruct kernel_end_frames as (_ & _ & E3 & _). split; intros f.
  - rewrite Hs. lia.
  - rewrite Hs. intros (Hf & r & Hr & _ & Hc). unfold usable_ram in Hram. rewrite Forall_elem_of in Hram.
    destruct (Hram r Hr) as [_ R4]. split; [dlia|lia].
Qed.

Lemma carve_window_spec s size :
  is_u32 size -> pmm_wf (s_pmm s) ->
  (forall f, f ∈ free_set (s_pmm s) -> 0 <= f /\ (f + 1) * 4096 <= 0xffffe000) ->
  exists w p', carve_window size s = Done w (with_pmm p' s) /\
    match w with
    | Some (base, end_) => exists b c, 16 <= c /\ 0 <= b /\ base = b * 4096 /\ end_ = (b + c) * 4096 /\
        c * 4096 <= size /\ end_ <= 0xffffe000 /\ pmm_wf p' /\ free_set p' = free_set (s_pmm s) ∖ run_set b c /\
        (forall f, b <= f < b + c -> f ∈ free_set (s_pmm s))
    | None => p' = s_pmm s /\
        forall k, 0 <= k -> 16 <= size / 4096 / 2 ^ k -> largest_run (s_pmm s) < size / 4096 / 2 ^ k
    end.
Proof.
  intros Hs Hwf Hlow. unfold is_u32 in Hs.
  destruct (carve_loop_spec 32 (size / 4096) (s_pmm s)) as (w & p' & E & Hc);
    [lia|rewrite MAX_FRAMES_val; dlia|cbn; dlia|exact Hwf|].
  exists w, p'. unfold carve_window, Pmm.carve, PAGE_SIZE. rewrite E. split; [reflexivity|].
  destruct w as [[base end_]|]; [|exact Hc].
  destruct Hc as (k & b & Hk & H16 & _ & -> & -> & ((Hb & Hmax & Hrun) & Hwf' & _ & Hset)).
  exists b, (size / 4096 / 2 ^ k).
  assert (forall f, b <= f < b + size / 4096 / 2 ^ k -> f ∈ free_set (s_pmm s)) as Hin.
  { intros f Hf. apply elem_of_free_set. split; [lia|]. apply Hrun. lia. }
  destruct (Hlow (b + size / 4096 / 2 ^ k - 1)) as [_ Htop]; [apply Hin; lia|].
  split; [exact H16|]. split; [exact Hb|]. split; [reflexivity|].
  split; [apply wrap32_small; unfold is_u32; lia|].
  split.
  { pose proof (Z.pow_pos_nonneg 2 k ltac:(lia) Hk) as Hpow.
    assert (0 <= size / 4096) as H0 by dlia.
    assert (size / 4096 / 2 ^ k <= size / 4096) by (apply Z.div_le_upper_bound; nia). dlia. }
  split; [rewrite wrap32_small by (unfold is_u32; lia); lia|]. split; [exact Hwf'|]. split; [exact Hset|exact Hin].
Qed.

(** ** The heaps at boot *)

(** The kernel state when [mem::init] is called. *)
Record fresh (k : kernel) : Prop := {
  fr_boot : boot_ok (s_machine (k_sys k));
  fr_pmm : s_pmm (k_sys k) = pmm_zero;
  fr_heaps : k_heap k = KERNEL_HEAP /\ v_heap k = VIRTUAL_HEAP;
}.

(** A spare frame: in RAM, and neither free, a table nor mapped. *)
Lemma kernel_spare (s : sys) p0 f b c :
  kernel_vm (s_machine s) -> (forall f, f ∈ table_frames -> f ∉ free_set p0) ->
  free_set (s_pmm s) = free_set p0 ∖ run_set b c ->
  (forall f, b <= f < b + c -> f ∈ free_set p0) -> b <= f < b + c -> spare s f.
Proof.
  intros Hm Ht Hs Hin Hf. pose proof (Hin f Hf) as Hfree.
  split; [apply elem_of_free_set in Hfree; rewrite MAX_FRAMES_val in Hfree; lia|].
  split; [|split].
  - intros Hx. apply (kernel_is_table _ Hm) in Hx. exact (Ht f Hx Hfree).
  - rewrite Hs. intros Hx. apply elem_of_difference in Hx as [_ Hx]. apply Hx, elem_of_run_set, Hf.
  - intros k e Hk _. by rewrite (kernel_no_page _ Hm).
Qed.

Lemma virtual_geometry : geometry VIRTUAL_HEAP.
Proof. split; cbn; try by_decide; done. Qed.

Lemma kernel_geometry b c :
  0 <= b -> 16 <= c -> (b + c) * 4096 <= 0xffffe000 ->
  geometry (attach (b * 4096, (b + c) * 4096) KERNEL_HEAP).
Proof.
  intros Hb Hc Hl. split.
  - reflexivity.
  - split_and!; reflexivity.
  - split_and!; by_decide.
  - split; by_decide.
  - intros _. cbn [attach h_phys_base h_phys_end h_brk h_base fst snd KERNEL_HEAP new].
    rewrite Z.sub_diag. clear - Hb Hc Hl. split_and!; dlia.
Qed.

(** No page of a heap is mapped yet. *)
Lemma empty_pages h (s : sys) :
  kernel_vm (s_machine s) -> geometry h -> h_brk h = h_base h ->
  (h_backing h = Contiguous -> forall f, h_phys_base h / 4096 <= f < h_phys_end h / 4096 -> spare s f) ->
  pages_ok h s.
Proof.
  intros Hm Hg Hb Hw. split; rewrite ?Hb.
  - intros n Hn. lia.
  - intros n Hn. cbn. by rewrite (kernel_no_page _ Hm n (heap_managed h n Hg Hn)).
  - intros _ n Hn. lia.
  - intros Hc f Hf. rewrite Z.sub_diag in Hf. apply Hw; [exact Hc|]. dlia.
Qed.

Lemma boot_heaps (k : kernel) p0 b c :
  kernel_vm (s_machine (k_sys k)) -> pmm_wf (s_pmm (k_sys k)) ->
  (forall f, f ∈ table_frames -> f ∉ free_set p0) ->
  free_set (s_pmm (k_sys k)) = free_set p0 ∖ run_set b c ->
  (forall f, b <= f < b + c -> f ∈ free_set p0) -> 0 <= b -> 16 <= c -> (b + c) * 4096 <= 0xffffe000 ->
  k_heap k = attach (b * 4096, (b + c) * 4096) KERNEL_HEAP -> v_heap k = VIRTUAL_HEAP ->
  heaps_ok k [] [].
Proof.
  intros Hm Hwf Ht Hs Hin Hb Hc Hl Ek Ev.
  assert (vm_ok (s_machine (k_sys k)) (s_pmm (k_sys k))) as Hok.
  { apply kernel_vm_ok; [exact Hm|exact Hwf|]. intros f Hf. rewrite Hs. intros Hx.
    apply elem_of_difference in Hx as [Hx _]. exact (Ht f Hf Hx). }
  pose proof (kernel_geometry b c Hb Hc Hl) as Hg.
  split; rewrite ?Ek, ?Ev; [| |split_and!; reflexivity|split_and!; reflexivity].
  - split; [exact Hok|exact Hg| |split; reflexivity].
    apply empty_pages; [exact Hm|exact Hg|reflexivity|]. intros _ f Hf. cbn in Hf.
    rewrite !Z.div_mul in Hf by lia. exact (kernel_spare (k_sys k) p0 f b c Hm Ht Hs Hin Hf).
  - split; [exact Hok|exact virtual_geometry| |split; reflexivity].
    apply empty_pages; [exact Hm|exact virtual_geometry|reflexivity|discriminate].
Qed.

(** ** mem::init *)

Lemma on_sys_Done {A} (c : M sys A) k a s' :
  c (k_sys k) = Done a s' -> on_sys c k = Done a (with_sys s' k).
Proof. intros E. unfold on_sys. by rewrite E. Qed.

Lemma on_sys_Halted {A} (c : M sys A) k s' :
  c (k_sys k) = Halted s' -> on_sys c k = Halted (with_sys s' k).
Proof. intros E. unfold on_sys. by rewrite E. Qed.

Lemma pmm_step {A} (g : pmm -> pmm) k (c : unit -> M kernel A) :
  (u <- on_sys (on_pmm (fun p => (tt, g p))) ;; c u) k =
  c tt (with_sys (with_pmm (g (s_pmm (k_sys k))) (k_sys k)) k).
Proof. reflexivity. Qed.

Lemma announce_spec ram window s : exists v, announce ram window s = Done tt (with_vga v s).
Proof. eexists. reflexivity. Qed.

(** The stack is in the window, whatever maps it. *)
Lemma kernel_stack_ok (s : sys) :
  kernel_vm (s_machine s) -> stack_ok s.
Proof.
  intros Hm. destruct lk_stack as (S1 & S2 & S3). pose proof lk_start. pose proof lk_code.
  destruct lk_end as [_ E2].
  split; [lia|]. split; [lia|]. intros Hb va Hva. split; [unfold is_u32; lia|].
  rewrite (kernel_walk_high _ Hm va) by lia. eauto.
Qed.

(** The size [mem::init] asks the allocator for. *)
Definition want (ram : Ram) : Z := page_of (wrap32 (Z.min (KHEAP_LIMIT - KHEAP_BASE) (ram_usable ram / 4))).

Lemma want_u32 ram : is_u32 (want ram).
Proof.
  unfold want, page_of. apply (land_range _ _ 32); [lia|apply wrap32_range|].
  apply not32_range. by_decide.
Qed.

(** The part of [mem::init] after the memory map is known. *)
Lemma init_rest_spec ram (k : kernel) :
  fresh k -> usable_ram ram ->
  let s1 := with_pmm (boot_pmm ram) (k_sys k) in
  exists m2, Paging.init image s1 = Done tt (with_machine m2 s1) /\ kernel_vm m2 /\
  (forall a, (a / 4096 ∉ table_frames) -> pread8 (m_ram m2) a = pread8 (m_ram (s_machine (k_sys k))) a) /\
  exists w p', carve_window (want ram) (with_machine m2 s1) = Done w (with_pmm p' (with_machine m2 s1)) /\
    match w with
    | Some window => window.2 - window.1 <= want ram /\
        (forall f, 0 <= f < at_phys kernel_end / 4096 ->
           (f ∉ free_set p') /\ ~ (window.1 / 4096 <= f < window.2 / 4096)) /\
        forall k', s_machine (k_sys k') = m2 -> s_pmm (k_sys k') = p' ->
        k_heap k' = attach window KERNEL_HEAP -> v_heap k' = VIRTUAL_HEAP -> heaps_ok k' [] []
    | None => p' = boot_pmm ram /\ forall j, 0 <= j -> 16 <= want ram / 4096 / 2 ^ j ->
        largest_run (boot_pmm ram) < want ram / 4096 / 2 ^ j
    end.
Proof.
  intros [Hboot Hp0 _] Hram s1. destruct (boot_pmm_spec ram Hram) as (Hwf & Hres & Hlow).
  destruct (paging_init_spec s1 Hboot) as (m2 & E2 & Hm2 & Hb2).
  assert (forall f, f ∈ table_frames -> f ∉ free_set (boot_pmm ram)) as Htab.
  { destruct kernel_end_frames as (_ & _ & _ & E4). intros f Hf. apply Hres. specialize (E4 f Hf). lia. }
  exists m2. split; [exact E2|]. split; [exact Hm2|]. split.
  { intros a Ha. apply Hb2; intros E; apply Ha; rewrite E; unfold table_frames; rewrite !elem_of_cons; auto. }
  destruct (carve_window_spec (with_machine m2 s1) (want ram) (want_u32 ram) Hwf Hlow) as (w & p' & E3 & Hw).
  exists w, p'. split; [exact E3|]. destruct w as [[base end_]|]; [|exact Hw].
  destruct Hw as (b & c & Hc & Hb & -> & -> & Hsz & Hend & Hwf' & Hset & Hin).
  split; [cbn [fst snd]; lia|]. split.
  { intros f Hf. cbn [fst snd]. rewrite !Z.div_mul by lia. split.
    - rewrite Hset. intros [Hx _]%elem_of_difference. by apply (Hres f).
    - intros Hx. by apply (Hres f Hf), Hin. }
  intros k' Em Ep Ek Ev. apply (boot_heaps k' (boot_pmm ram) b c); rewrite ?Em, ?Ep; assumption.
Qed.

(** Start-up leaves memory alone outside the page tables, and the frames of
    conventional memory and of the image are nobody's afterwards. *)
Definition spared (k k' : kernel) : Prop :=
  (forall a, (a / 4096 ∉ table_frames) ->
     pread8 (m_ram (s_machine (k_sys k'))) a = pread8 (m_ram (s_machine (k_sys k))) a) /\
  (forall f, 0 <= f < at_phys kernel_end / 4096 ->
     (f ∉ free_set (s_pmm (k_sys k'))) /\ outside (k_heap k') f).

Lemma mem_init_spec fuel info es k :
  fresh k -> loaded (m_ram (s_machine (k_sys k))) info es -> (length es < fuel)%nat ->
  ram_count (map_ram es) <> 0 -> usable_ram (map_ram es) ->
  (exists k', Boot.init fuel BOOT_MAGIC info k = Done tt k' /\ heaps_ok k' [] [] /\
     kernel_vm (s_machine (k_sys k')) /\ k_ram k' = map_ram es /\
     k_heap k' = attach (k_window k') KERNEL_HEAP /\
     (k_window k').2 - (k_window k').1 <= want (map_ram es) /\ s_esp (k_sys k') = s_esp (k_sys k) /\
     spared k k') \/
  (exists k', Boot.init fuel BOOT_MAGIC info k = Halted k' /\
     forall j, 0 <= j -> 16 <= want (map_ram es) / 4096 / 2 ^ j ->
       largest_run (boot_pmm (map_ram es)) < want (map_ram es) / 4096 / 2 ^ j).
Proof.
  intros Hk Hld Hf Hc Hram. destruct Hk as [Hboot Hp0 [Hkh Hvh]].
  destruct (probe_spec fuel info es (k_sys k) Hboot Hld Hf Hc) as (m1 & E1 & S1).
  set (k1 := set_kram (map_ram es) (with_sys (with_machine m1 (k_sys k)) k)).
  assert (fresh k1) as Hk1 by (split; [apply S1|exact Hp0|split; assumption]).
  destruct (init_rest_spec (map_ram es) k1 Hk1 Hram) as (m2 & E2 & Hm2 & Hb2 & w & p' & E3 & Hw).
  set (s1 := with_pmm (boot_pmm (map_ram es)) (k_sys k1)) in *.
  unfold Boot.init. rewrite (bind_Done _ _ _ _ _ (on_sys_Done _ k _ _ E1)).
  rewrite (bind_Done (modify (set_kram (map_ram es))) _ _ tt k1) by reflexivity.
  rewrite Z.gtb_ltb, (proj2 (Z.ltb_ge _ _)) by (destruct lk_end as [_ Hx]; exact Hx).
  rewrite !pmm_step.
  match goal with |- context [bind (on_sys (Paging.init _)) _ ?st] =>
    assert (st = with_sys s1 k1) as -> end.
  { unfold s1, boot_pmm. replace pmm_zero with (s_pmm (k_sys k1)) by exact Hp0. reflexivity. }
  rewrite (bind_Done _ _ _ _ _ (on_sys_Done (Paging.init image) (with_sys s1 k1) _ _ E2)).
  rewrite (bind_Done _ _ _ _ _ (on_sys_Done (carve_window (want (map_ram es)))
    (with_sys (with_machine m2 s1) (with_sys s1 k1)) _ _ E3)).
  destruct w as [window|].
  - left. set (k2 := with_sys (with_pmm p' (with_machine m2 s1)) (with_sys (with_machine m2 s1) (with_sys s1 k1))).
    rewrite (bind_Done (modify (set_window window)) _ k2 tt (set_window window k2)) by reflexivity.
    set (k3 := mkKernel (k_sys k2) (attach window (k_heap k2)) (v_heap k2) (k_ram k2) window).
    rewrite (bind_Done (Kmalloc.init window) _ _ tt k3) by reflexivity.
    destruct (announce_spec (map_ram es) window (k_sys k3)) as (v & E5).
    exists (with_sys (with_vga v (k_sys k3)) k3). split; [exact (on_sys_Done _ _ _ _ E5)|].
    assert (attach window (k_heap k) = attach window KERNEL_HEAP) as Ek by (by rewrite Hkh).
    destruct Hw as (Hsize & Hres & Hw).
    split; [|split; [exact Hm2|split; [reflexivity|split; [exact Ek|split; [exact Hsize|split; [reflexivity|]]]]]].
    2: { split; [intros a Ha; transitivity (pread8 (m_ram m1) a); [exact (Hb2 a Ha)|apply (ea_bytes _ _ _ S1); tauto]|].
      intros f Hff. destruct (Hres f Hff) as [R1 R2]. split; [exact R1|]. intros _. exact R2. }
    apply Hw; [reflexivity|reflexivity|exact Ek|exact Hvh].
  - right.
    destruct (halts_kpanic (A := unit) (bytes "no contiguous physical block left for the kernel heap")
      (with_pmm p' (with_machine m2 s1))) as (s3 & E4 & _).
    + intros n t. cbn [s_machine with_pmm with_machine]. by rewrite (kv_tlb _ Hm2), lookup_empty.
    + by apply kernel_stack_ok.
    + eexists. split; [apply on_sys_Halted; exact E4|]. apply Hw.
Qed.


End MemInit.

(** ** Witnesses *)

Lemma paging_init_protects_witness :
  exists m, @Paging.init demo_linker (@image demo_linker) demo_loaded_sys = Done tt (with_machine m demo_loaded_sys) /\
    access 0xC0101000 true m = Fault 0xC0101000 3 (set_cr2 0xC0101000 (touch 0xC0101000 m)) /\
    access 0xC0111000 true m = Done 0x111000 (touch 0xC0111000 m).
Proof.
  destruct (@paging_init_protects demo_linker demo_linker_ok demo_loaded_sys demo_loaded_boot)
    as (m & E & _ & _ & _ & Ha & _).
  exists m. split; [exact E|].
  split; [exact (Ha 0xC0101000 true ltac:(by_decide))|exact (Ha 0xC0111000 true ltac:(by_decide))].
Defined.

Definition demo_fresh : kernel := mkKernel demo_loaded_sys KERNEL_HEAP VIRTUAL_HEAP NOTHING (0, 0).

Lemma demo_is_fresh : @fresh demo_linker demo_fresh.
Proof. split; [exact demo_loaded_boot|reflexivity|split; reflexivity]. Qed.

Lemma demo_usable : usable_ram (map_ram demo_entries).
Proof. unfold usable_ram. apply (bool_decide_unpack _). vm_compute. exact I. Qed.

(** The demo machine has RAM for the kernel heap. *)
Lemma demo_has_room : 32 <= largest_run (@boot_pmm demo_linker (map_ram demo_entries)).
Proof.
  destruct (@boot_pmm_free demo_linker demo_linker_ok _ demo_usable) as [_ Hs]. revert Hs.
  generalize (@boot_pmm demo_linker (map_ram demo_entries)) as p. intros p Hs.
  destruct (largest_run_spec p) as (_ & _ & Hmax). apply (Hmax 1024).
  split; [lia|]. split; [rewrite MAX_FRAMES_val; lia|]. intros i Hi. apply elem_of_free_set, Hs.
  split; [transitivity 1024; [by_decide|lia]|]. exists (mkRegion 0x100000 0x3fe0000).
  split; [by_decide|unfold covers; cbn [rg_base rg_end]; lia].
Qed.
