(* ===== verification/Fixtures.v ===== *)
(** * What no command of the shell may change

    The window of the kernel on the first 4 mb, mapped as [paging::init] left
    it, with the code and the read-only data closed to writes; the write
    protection of CR0; and the bytes of the descriptor tables, of the code and
    of the read-only data, whose frames no page of a heap or of user space
    ever gets.  The text buffer, at 0xC00B8000, is in the window too. *)

From S2P Require Import Prelude.
From S2P Require Import Mem.
From S2P Require Import Machine.
From S2P Require Import Pmm.
From S2P Require Import Fmt.
From S2P Require Vga.
From S2P Require Import Heap.
From S2P Require Import HeapSpec.
From S2P Require Import HeapOps.
From S2P Require Import HeapEnv.
From S2P Require Import Kmalloc.
From S2P Require Import Paging.
From S2P Require Import PagingSpec.
From S2P Require Import PagingOps.
From S2P Require Import BootMem.
From S2P Require Import Gdt.
From S2P Require Import Exceptions.
From S2P Require Import BootSpec.

Section Fixtures.
Context `{LK : LinkerOk}.

(** ** The guarded bytes *)

(** Physical addresses of the segment descriptors, of the code and read-only
    data, and of the gates. *)
Definition guarded (a : Z) : Prop :=
  BASE <= a < BASE + 56 \/
  at_phys kernel_start <= a < at_phys kernel_readonly_end \/
  at_phys idt_table <= a < at_phys idt_table + 2048.

Lemma guarded_frame a :
  guarded a -> 0 <= a / 4096 < at_phys kernel_end / 4096 /\ (a / 4096 ∉ table_frames).
Proof.
  destruct lk_start as [S1 S2], lk_code as [C1 C2], lk_readonly as [R1 R2], lk_end as [E1 E2].
  destruct lk_pages as ((A1 & A2 & A3) & (B1 & B2 & B3) & (D1 & D2 & D3)), lk_idt as (I1 & I2 & I3 & I4).
  assert (forall p, p ∈ [boot_directory; boot_low_table; kernel_table] -> p mod 4096 = 0 ->
    kernel_readonly_end <= p -> guarded a -> a / 4096 <> at_phys p / 4096) as Hp.
  { intros p Hin Hm Hp Hg. specialize (I4 p Hin). unfold guarded, BASE, at_phys in *. dlia. }
  intros Hg. split; [unfold guarded, BASE, at_phys in *; dlia|].
  unfold table_frames. rewrite !elem_of_cons, elem_of_nil. intros [E|[E|[E|[]]]].
  - apply (Hp boot_directory); [by left|done|lia|done|exact E].
  - apply (Hp boot_low_table); [by right; left|done|lia|done|exact E].
  - apply (Hp kernel_table); [by right; right; left|done|lia|done|exact E].
Qed.

(** ** The invariant *)

(** An address of the window is in none of the regions. *)
Lemma window_page va :
  3221225472 <= va < 3225419776 -> is_u32 va /\ 0 <= va / 4096 < 1047552 /\ ~ managed (va / 4096).
Proof.
  unfold is_u32, managed. intros Hv. split; [lia|]. split; [dlia|]. intros [_ Hx]. apply Hx. dlia.
Qed.

(** What the guarded bytes hold. *)
Context (held : Z -> Z).

Definition readonly (va : Z) : bool := (kernel_start <=? va) && (va <? kernel_readonly_end).

Record fixtures (s : sys) : Prop := {
  fx_window : forall va, 3221225472 <= va < 3225419776 ->
    trans_of <$> page_entry (s_machine s) (va / 4096) =
      Some (mkTrans (at_phys va - va mod 4096) (negb (readonly va)));
  fx_esp : stack_bottom <= s_esp s < 4294967296;
  fx_wp : write_protect (s_machine s) = true;
  fx_frames : forall a, guarded a -> frame_ok (s_machine s) (s_pmm s) 0 (a / 4096);
  fx_bytes : forall a, guarded a -> pread8 (m_ram (s_machine s)) a = held a;
}.

Lemma fixtures_untouched (F : Z -> Prop) s s' :
  (forall a, guarded a -> F (a / 4096)) -> untouched F s s' -> fixtures s -> fixtures s'.
Proof.
  intros HF [U1 U2 U3 U4 U5] [F1 F2 F3 F4 F5]. split.
  - intros va Hva. destruct (window_page va Hva) as (_ & H2 & H3). rewrite U1 by done. by apply F1.
  - by rewrite U3.
  - unfold write_protect in *. by rewrite U2.
  - intros a Ha. apply U4; [by apply HF|by apply F4].
  - intros a Ha. rewrite U5; [by apply F5|by apply HF|by apply F4].
Qed.

(** The stack can be dumped. *)
Lemma fixtures_stack s : env_ok s -> fixtures s -> stack_ok s /\ readable (s_machine s) (s_esp s) stack_top.
Proof.
  intros Hok Hf. destruct lk_stack as (S1 & S2 & S3), lk_end as [_ E1], lk_code as [C1 C2], lk_start as [B1 _].
  pose proof (fx_esp s Hf) as He.
  assert (readable (s_machine s) (s_esp s) stack_top) as Hr.
  { intros va Hva. assert (3221225472 <= va < 3225419776) as Hw by lia.
    destruct (window_page va Hw) as (Hu & _). split; [exact Hu|].
    rewrite walk_page_entry by (exact Hu || apply Hok). rewrite (fx_window s Hf va Hw). by eexists. }
  split; [|exact Hr]. split; [lia|]. split; [lia|]. intros _. exact Hr.
Qed.

(** The first page of the code is closed to writes. *)
Lemma fixtures_code s :
  fixtures s -> exists e, page_entry (s_machine s) (kernel_start / 4096) = Some e /\ entry_writable e = false.
Proof.
  intros Hf. destruct lk_start as [B1 _], lk_code as [C1 C2], lk_readonly as [_ R2], lk_end as [_ E1].
  assert (3221225472 <= kernel_start < 3225419776) as Hs by lia.
  pose proof (fx_window s Hf _ Hs) as Hw. apply fmap_Some in Hw as (e & He & Ht).
  exists e. split; [exact He|]. injection Ht as _ Ht. rewrite <- Ht. unfold readonly.
  rewrite Z.leb_refl. destruct (Z.ltb_spec kernel_start kernel_readonly_end); [done|lia].
Qed.

(** Every cell of the text buffer is mapped to the device, and writable. *)
Lemma fixtures_screen s i :
  env_ok s -> fixtures s -> 0 <= i < Vga.CELLS ->
  exists t, walk (s_machine s) (Vga.BUFFER + 2 * i) = Some t /\ t_writable t = true /\
    t_frame t + (Vga.BUFFER + 2 * i) mod 4096 = 0xb8000 + 2 * i.
Proof.
  intros Hok Hf Hi. destruct lk_start as [B1 _]. rewrite Vga.CELLS_val in Hi. unfold Vga.BUFFER in *.
  assert (3221225472 <= 3221979136 + 2 * i < 3225419776) as Hw by lia.
  destruct (window_page _ Hw) as (Hu & _). rewrite walk_page_entry by (exact Hu || apply Hok).
  rewrite (fx_window s Hf _ Hw). eexists. split; [reflexivity|]. cbn [t_writable t_frame].
  unfold readonly, at_phys. destruct (Z.leb_spec kernel_start (3221979136 + 2 * i)); [lia|].
  split; [reflexivity|dlia].
Qed.

(** As [mem::init] leaves it. *)
Lemma kernel_fixtures s :
  env_ok s -> kernel_vm (s_machine s) -> stack_bottom <= s_esp s < 4294967296 ->
  (forall f, 0 <= f < at_phys kernel_end / 4096 -> f ∉ free_set (s_pmm s)) ->
  (forall a, guarded a -> pread8 (m_ram (s_machine s)) a = held a) -> fixtures s.
Proof.
  intros Hok Hm He Hfree Hb. split; [|exact He|exact (kv_wp _ Hm)| |exact Hb].
  - intros va Hva. destruct (window_page va Hva) as (Hu & _). unfold readonly.
    rewrite <- (kernel_walk_high _ Hm va Hva). symmetry. apply walk_page_entry; [apply Hok|exact Hu].
  - intros a Ha. destruct (guarded_frame a Ha) as [H1 H2]. split; [|split; [by apply Hfree|]].
    + intros Ht. by apply H2, (kernel_is_table _ Hm).
    + intros k e Hk _. by rewrite (kernel_no_page _ Hm).
Qed.

End Fixtures.
