(* ===== verification/Os.v ===== *)
(** * The whole machine state, and the I/O ports (kernel/src/port.rs)

    The kernel state of [Kmalloc.v], the segment and table registers of
    [Gdt.v], the shift key of keyboard.rs and the devices behind the ports.
    What [inb] will return is a list fixed beforehand, so a theorem about
    any list is one about any device; when it is used up the code is still
    waiting.  What was read and written is kept in order, latest first. *)

From S2P Require Import Prelude.
From S2P Require Import Fmt.
From S2P Require Import Gdt.
From S2P Require Import Kmalloc.

Inductive io : Type := In (port value : Z) | Out (port value : Z).

Record os : Type := mkOs {
  o_kernel : kernel;
  o_cpu : cpu;
  o_shift : bool;
  o_input : list Z;
  o_trace : list io;
}.

Definition with_kernel (k : kernel) (o : os) : os :=
  mkOs k (o_cpu o) (o_shift o) (o_input o) (o_trace o).
Definition with_shift (b : bool) (o : os) : os :=
  mkOs (o_kernel o) (o_cpu o) b (o_input o) (o_trace o).

Definition o_sys (o : os) : sys := k_sys (o_kernel o).
Definition with_osys (s : sys) (o : os) : os := with_kernel (with_sys s (o_kernel o)) o.

(** Code of one part. *)
Definition in_kernel {A} (c : M kernel A) : M os A := zoom o_kernel with_kernel c.
Definition in_sys {A} (c : M sys A) : M os A := zoom o_sys with_osys c.
Definition in_cpu {A} (c : M (cpu * sys) A) : M os A :=
  zoom (fun o => (o_cpu o, o_sys o))
    (fun cs o => mkOs (with_sys cs.2 (o_kernel o)) cs.1 (o_shift o) (o_input o) (o_trace o)) c.

(** port.rs 3-10: inb *)
Definition inb (port : Z) : M os Z := fun o =>
  match o_input o with
  | [] => OutOfFuel
  | b :: rest => Done b (mkOs (o_kernel o) (o_cpu o) (o_shift o) rest (In port b :: o_trace o))
  end.

(** port.rs 12-17: outb *)
Definition outb (port value : Z) : M os unit := modify (fun o =>
  mkOs (o_kernel o) (o_cpu o) (o_shift o) (o_input o) (Out port value :: o_trace o)).

(** Printing, from here on. *)
Definition print (text : list Z) : M os unit := in_sys (printk text).
