(* ===== verification/Keyboard.v ===== *)
(** * The keyboard (kernel/src/keyboard.rs) *)

From S2P Require Import Prelude.
From S2P Require Import Klib.
From S2P Require Import Os.

(** keyboard.rs 3-3: STATUS_PORT *)
Definition STATUS_PORT : Z := 0x64.
(** keyboard.rs 4-4: DATA_PORT *)
Definition DATA_PORT : Z := 0x60.

(** keyboard.rs 6-10: Key *)
Inductive Key : Type := Char (b : Z) | Backspace | Screen (n : Z).

#[global] Instance Key_eq_dec : EqDecision Key.
Proof. solve_decision. Defined.

(** keyboard.rs 14-14: LOWER *)
Definition LOWER : list Z :=
  [0; 0] ++ bytes "1234567890-=" ++ [0; 0] ++ bytes "qwertyuiop[]" ++ [10; 0] ++
  bytes "asdfghjkl;'`" ++ [0; 92] ++ bytes "zxcvbnm,./" ++ [0; 42; 0; 32].

(** keyboard.rs 15-15: UPPER *)
Definition UPPER : list Z :=
  [0; 0] ++ bytes "!@#$%^&*()_+" ++ [0; 0] ++ bytes "QWERTYUIOP{}" ++ [10; 0] ++
  bytes "ASDFGHJKL:" ++ [34; 126; 0; 124] ++ bytes "ZXCVBNM<>?" ++ [0; 42; 0; 32].

(** What one scancode means, with the shift state before and after. *)
(** keyboard.rs 22-41: poll *)
Definition decode (shift : bool) (scancode : Z) : option Key * bool :=
  if (scancode =? 0x2A) || (scancode =? 0x36) then (None, true)
  else if (scancode =? 0xAA) || (scancode =? 0xB6) then (None, false)
  else if scancode =? 0x0E then (Some Backspace, shift)
  else if (0x3B <=? scancode) && (scancode <=? 0x3D) then (Some (Screen (scancode - 0x3B)), shift)
  else if negb (Z.land scancode 0x80 =? 0) then (None, shift)
  else
    let table := if shift then UPPER else LOWER in
    match table !! Z.to_nat scancode with
    | Some b => if negb (b =? 0) then (Some (Char b), shift) else (None, shift)
    | None => (None, shift)
    end.

(** keyboard.rs 17-42: poll *)
Definition poll : M os (option Key) :=
  status <- inb STATUS_PORT ;;
  if Z.land status 1 =? 0 then ret None
  else
    scancode <- inb DATA_PORT ;;
    shift <- gets o_shift ;;
    let '(key, shift) := decode shift scancode in
    modify (with_shift shift) ;;
    ret key.
