(* ===== verification/Shell.v ===== *)
(** * The shell (kernel/src/shell.rs) *)

From S2P Require Import Prelude.
From S2P Require Import Mem.
From S2P Require Import Klib.
From S2P Require Import Machine.
From S2P Require Import Multiboot.
From S2P Require Import Pmm.
From S2P Require Import Vga.
From S2P Require Import Fmt.
From S2P Require Stack.
From S2P Require Import Panic.
From S2P Require Import Paging.
From S2P Require Import AddressSpace.
From S2P Require Import Heap.
From S2P Require Import Kmalloc.
From S2P Require Import Gdt.
From S2P Require Import Segments.
From S2P Require Import Idt.
From S2P Require Import Boot.
From S2P Require Import Os.
From S2P Require Import Keyboard.

(** shell.rs 32-32: LINE_MAX *)
Definition LINE_MAX : Z := 74.
(** shell.rs 34-34: PROMPT *)
Definition PROMPT : list Z := bytes "kfs> ".

(** Names and help lines of the table, in its order. *)
(** shell.rs 15-30: CMDS *)
Definition CMD_TEXT : list (string * string) := [
  ("mem", "physical memory, frames and both heaps");
  ("space", "the kernel and user address space layout");
  ("pages", "every mapping in the page directory");
  ("virt", "translate an address: virt [addr]");
  ("alloc", "exercise kmalloc, vmalloc, kbrk and vbrk");
  ("user", "map, use and drop a user space page");
  ("fault", "make a page fault: fault [demand|ro|kernel]");
  ("panic", "panic on purpose: panic [oops|fatal]");
  ("stack", "hex dump of the live kernel stack");
  ("gdt", "the descriptor table, read back from the CPU");
  ("clear", "blank the screen");
  ("reboot", "restart the machine through the 8042");
  ("halt", "stop this processor for good");
  ("help", "this list")
]%string.

(** ** The line editor *)

(** One key of [read_line]: the new buffer and length, or the line is done. *)
(** shell.rs 51-69: read_line *)
Definition key_step (key : option Key) (buf : list Z) (n : Z) : M os (option (list Z * Z)) :=
  match key with
  | Some (Char b) =>
      if b =? 10 then in_sys (on_vga (put_char 10)) ;; ret None
      else if n <? LINE_MAX then
        in_sys (on_vga (put_char b)) ;; ret (Some (<[Z.to_nat n := b]> buf, n + 1))
      else ret (Some (buf, n))
  | Some Backspace =>
      if n >? 0 then in_sys (on_vga backspace) ;; ret (Some (buf, n - 1))
      else ret (Some (buf, n))
  | Some (Screen s) => in_sys (on_vga (switch_screen s)) ;; ret (Some (buf, n))
  | None => ret (Some (buf, n))
  end.

(** shell.rs 50-70: read_line *)
Fixpoint read_loop (fuel : nat) (buf : list Z) (n : Z) : M os (list Z * Z) :=
  match fuel with
  | O => starve
  | S fuel =>
      key <- poll ;;
      next <- key_step key buf n ;;
      match next with
      | None => ret (buf, n)
      | Some (buf, n) => read_loop fuel buf n
      end
  end.

(** The buffer is the caller's; the line is its first [n] bytes.  Each turn
    of the loop reads at least one byte from a port. *)
(** shell.rs 48-72: read_line *)
Definition read_line (buf : list Z) : M os (list Z * list Z) :=
  o <- get ;;
  r <- read_loop (S (length (o_input o))) buf 0 ;;
  let '(buf, n) := r in
  ret (buf, firstn (Z.to_nat n) buf).

(** ** Commands that only print *)

(** shell.rs 89-93: cmd_help *)
Definition cmd_help (_ : list Z) : M os unit :=
  for_each CMD_TEXT (fun c => print (bytes "  " ++ str_w 6 (bytes c.1) ++ bytes "  " ++ bytes c.2 ++ newline)).

(** shell.rs 95-97: cmd_clear *)
Definition cmd_clear (_ : list Z) : M os unit := in_sys (on_vga Vga.clear).

(** shell.rs 137-157: report *)
Definition report (stats : Stats) : M os unit :=
  print (bytes (st_name stats) ++ bytes ": " ++ hex_alt 10 (st_base stats) ++ bytes ".." ++
    hex_alt 10 (st_brk stats) ++ bytes ", ceiling " ++ hex_alt 10 (st_limit stats) ++ bytes ", " ++
    dec ((st_brk stats -u st_base stats) / 1024) ++ bytes " kb mapped" ++ newline) ;;
  print (bytes "  " ++ dec (st_used stats) ++ bytes " bytes used, " ++ dec (st_free stats) ++
    bytes " free, " ++ dec (st_live stats) ++ bytes " of " ++ dec (st_blocks stats) ++
    bytes " blocks live, " ++
    bytes (if st_contiguous stats then "physically contiguous" else "physically scattered") ++ newline) ;;
  if st_contiguous stats then
    print (bytes "  physical " ++ hex_alt 10 (st_phys_base stats) ++ bytes ".." ++
      hex_alt 10 (st_phys_end stats) ++ newline)
  else ret tt.

(** shell.rs 159-171: cmd_space *)
Definition cmd_space (_ : list Z) : M os unit :=
  print (bytes " range                  owner   region        contents" ++ newline) ;;
  for_each LAYOUT (fun region =>
    print (bytes " " ++ hex_alt 10 (nm_base region) ++ bytes ".." ++ hex_alt 10 (nm_last region) ++
      bytes " " ++ str_w 7 (bytes (space_name (nm_space region))) ++ bytes " " ++
      str_w 13 (bytes (nm_name region)) ++ bytes " " ++ bytes (nm_holds region) ++ newline)).

(** shell.rs 173-175: cmd_pages *)
Definition cmd_pages (_ : list Z) : M os unit := in_sys Paging.dump.

(** The marks of one row: which registers hold the selector. *)
(** shell.rs 417-421: cmd_gdt *)
Definition print_marks (selector : Z) (held : list (string * Z)) : M os unit :=
  for_each held (fun h =>
    if Z.land h.2 (65535 - 3) =? Z.land selector (65535 - 3) then print (bytes " " ++ bytes h.1)
    else ret tt).

(** One row of the table. *)
(** shell.rs 405-423: cmd_gdt *)
Definition gdt_row (cs ss ds : Z) (segment : Segment) : M os unit :=
  let d := seg_descriptor segment in
  print (bytes " " ++ hex_alt 4 (seg_selector segment) ++ bytes " " ++
    str_w 13 (bytes (seg_name segment)) ++ bytes " ") ;;
  match seg_range d with
  | None => print (str_w 23 (bytes "-"))
  | Some (lo, hi) => print (hex_alt 10 lo ++ bytes ".." ++ hex_alt 10 hi ++ bytes " ")
  end ;;
  (if d =? 0 then print (bytes "-    -       ")
   else print (dec (seg_ring d) ++ bytes "    " ++ str_w 8 (bytes (seg_type d)))) ;;
  print_marks (seg_selector segment) [("cs", cs); ("ss", ss); ("ds", ds)]%string ;;
  print newline.

(** shell.rs 388-424: cmd_gdt *)
Definition cmd_gdt (_ : list Z) : M os unit :=
  gdtr <- in_cpu Gdt.current ;;
  let verdict := if (dt_base gdtr =? BASE) && (dt_limit gdtr =? LIMIT) then "as declared"%string
                 else "DOES NOT MATCH THE SOURCE"%string in
  print (bytes "gdtr: base " ++ hex_alt 10 (dt_base gdtr) ++ bytes " limit " ++
    hex_alt 6 (dt_limit gdtr) ++ bytes " " ++ dec ((dt_limit gdtr + 1) / 8) ++ bytes " entries, " ++
    bytes verdict ++ newline) ;;
  sel <- in_cpu selectors ;;
  let '(cs, ss, ds) := sel in
  print (bytes " sel  segment       range                   ring type     in use" ++ newline) ;;
  for_each SEGMENTS (gdt_row cs ss ds).

(** shell.rs 475-481: cmd_halt *)
Definition cmd_halt (_ : list Z) : M os unit :=
  print (bytes "halted" ++ newline) ;;
  in_sys stop.

(** ** Commands that use the allocator *)

(** shell.rs 310-312: failed *)
Definition failed (why : string) : M os unit :=
  print (bytes "alloc: FAILED, " ++ bytes why ++ newline).

(** A byte of memory. *)
Definition load8 (a : Z) : M os Z := in_sys (on_machine (vload8 a)).
Definition store8 (a v : Z) : M os unit := in_sys (on_machine (vstore8 a v)).

(** shell.rs 318-322: pattern *)
Fixpoint check_pattern (at_ : Z) (indices : list Z) : M os bool :=
  match indices with
  | [] => ret true
  | i :: indices =>
      b <- load8 (at_ +u i) ;;
      if negb (b =? Z.land i 0xff) then ret false else check_pattern at_ indices
  end.

(** shell.rs 314-324: pattern *)
Definition pattern (at_ size : Z) : M os bool :=
  for_each (seqZ 0 size) (fun i => store8 (at_ +u i) (Z.land i 0xff)) ;;
  check_pattern at_ (seqZ 0 size).

(** [paging::translate(a).unwrap_or(0)]. *)
Definition translate_or_0 (a : Z) : M os Z :=
  got <- in_sys (translate a) ;; ret (default 0 got).

(** The frames of the three pages; the flag says whether they are scattered. *)
(** shell.rs 262-271: cmd_alloc *)
Fixpoint frames_loop (base : Z) (pages : list Z) (scattered : bool) (previous : Z) : M os bool :=
  match pages with
  | [] => ret scattered
  | page :: pages =>
      at_ <- translate_or_0 (page_of base +u page *u 4096) ;;
      print (bytes " " ++ hex_alt 10 at_) ;;
      frames_loop base pages
        (scattered || ((page >? 0) && negb (at_ =? previous +u 4096))) at_
  end.

(** [kbrk] and [vbrk]: the two break checks of [cmd_alloc]. *)
(** shell.rs 295-307: cmd_alloc *)
Definition alloc_vbrk (checks : Z) : M os unit :=
  was <- in_kernel (vbrk 8192) ;;
  if was =? 0 then failed "vbrk could not grow the vmalloc area"
  else
    now <- in_kernel (vbrk 0) ;;
    print (bytes "vbrk(+8192)   -> break was " ++ hex_alt 10 was ++ bytes ", now " ++
      hex_alt 10 now ++ newline) ;;
    back <- in_kernel (vbrk (-8192)) ;;
    if back =? 0 then failed "vbrk could not give the pages back"
    else
      now <- in_kernel (vbrk 0) ;;
      print (bytes "vbrk(-8192)   -> break " ++ hex_alt 10 now ++ newline) ;;
      print (bytes "alloc: " ++ dec (checks + 2) ++ bytes " checks passed" ++ newline).

(** shell.rs 283-293: cmd_alloc *)
Definition alloc_kbrk (checks : Z) : M os unit :=
  was <- in_kernel (kbrk 4096) ;;
  if was =? 0 then failed "kbrk could not grow the heap"
  else
    now <- in_kernel (kbrk 0) ;;
    print (bytes "kbrk(+4096)   -> break was " ++ hex_alt 10 was ++ bytes ", now " ++
      hex_alt 10 now ++ newline) ;;
    back <- in_kernel (kbrk (-4096)) ;;
    if back =? 0 then failed "kbrk could not give the page back"
    else
      now <- in_kernel (kbrk 0) ;;
      print (bytes "kbrk(-4096)   -> break " ++ hex_alt 10 now ++ newline) ;;
      alloc_vbrk (checks + 2).

(** shell.rs 255-281: cmd_alloc *)
Definition alloc_vmalloc (checks : Z) : M os unit :=
  pages <- in_kernel (vmalloc (3 * 4096)) ;;
  if pages =? 0 then failed "vmalloc(12288) returned nothing"
  else
    size <- in_kernel (vsize pages) ;;
    print (bytes "vmalloc(12288)-> " ++ hex_alt 10 pages ++ bytes ", vsize " ++ dec size ++ newline) ;;
    print (bytes "  frames") ;;
    scattered <- frames_loop pages (seqZ 0 3) false 0 ;;
    print (bytes ", physically " ++
      bytes (if scattered : bool then "scattered" else "in a row this time") ++ newline) ;;
    ok <- pattern pages (3 * 4096) ;;
    if negb ok then failed "the vmalloc range does not hold bytes"
    else
      in_kernel (vfree pages) ;;
      alloc_kbrk (checks + 3).

(** shell.rs 245-253: cmd_alloc *)
Definition alloc_kfree (small big checks : Z) : M os unit :=
  st <- in_kernel kernel_stats ;;
  let before := st_used st in
  in_kernel (kfree small) ;;
  in_kernel (kfree big) ;;
  st <- in_kernel kernel_stats ;;
  let after := st_used st in
  print (bytes "kfree both    -> used bytes " ++ dec before ++ bytes " then " ++ dec after ++ newline) ;;
  if after >=? before then failed "kfree did not give the bytes back"
  else alloc_vmalloc (checks + 1).

(** shell.rs 223-243: cmd_alloc *)
Definition alloc_big (small checks : Z) : M os unit :=
  big <- in_kernel (kmalloc 5000) ;;
  if big =? 0 then failed "kmalloc(5000) returned nothing"
  else
    first <- translate_or_0 big ;;
    second <- translate_or_0 (big +u 4096) ;;
    print (bytes "kmalloc(5000) -> " ++ hex_alt 10 big ++ bytes ", physical " ++ hex_alt 10 first ++
      bytes " then " ++ hex_alt 10 second ++ newline) ;;
    if negb (second =? first +u 4096) then failed "the kmalloc block is not physically contiguous"
    else
      ok <- pattern big 5000 ;;
      if negb ok then failed "the big block does not hold bytes"
      else alloc_kfree small big (checks + 3).

(** shell.rs 201-308: cmd_alloc *)
Definition cmd_alloc (_ : list Z) : M os unit :=
  let checks := 0 in
  small <- in_kernel (kmalloc 64) ;;
  if small =? 0 then failed "kmalloc(64) returned nothing"
  else
    size <- in_kernel (ksize small) ;;
    at_ <- translate_or_0 small ;;
    print (bytes "kmalloc(64)   -> " ++ hex_alt 10 small ++ bytes ", ksize " ++ dec size ++
      bytes ", physical " ++ hex_alt 10 at_ ++ newline) ;;
    size <- in_kernel (ksize small) ;;
    if size <? 64 then failed "ksize is smaller than the request"
    else
      ok <- pattern small 64 ;;
      if negb ok then failed "what kmalloc gave back does not hold bytes"
      else alloc_big small (checks + 3).

Section Shell.
Context {L : Linker}.

(** The registers at an instruction that faults: only printed. *)
Context (r : regs).

(** shell.rs 99-101: cmd_stack *)
Definition cmd_stack (_ : list Z) : M os unit :=
  in_sys (esp <- Stack.esp ;; Stack.print esp Stack.WINDOW).

(** shell.rs 103-135: cmd_mem *)
Definition cmd_mem (_ : list Z) : M os unit :=
  ram <- in_kernel get_ram ;;
  window <- in_kernel heap_window ;;
  print (bytes "ram: " ++ dec (ram_usable ram / 1024) ++ bytes " kb usable in " ++
    dec (ram_count ram) ++ bytes " regions, from the " ++ bytes (ram_source ram) ++ newline) ;;
  for_each (firstn (Z.to_nat (ram_count ram)) (ram_regions ram)) (fun region =>
    print (bytes "  " ++ hex_alt 10 (rg_base region) ++ bytes ".." ++ hex_alt 10 (rg_end region) ++
      bytes "  " ++ dec ((rg_end region -u rg_base region) / 1024) ++ bytes " kb" ++ newline)) ;;
  p <- in_sys (gets s_pmm) ;;
  print (bytes "frames: " ++ dec (free_frames p) ++ bytes " of " ++ dec (total_frames p) ++
    bytes " free, " ++ dec (used_frames p) ++ bytes " used, largest free run " ++ dec (largest_run p) ++
    bytes " frames of " ++ dec (PAGE_SIZE / 1024) ++ bytes " kb" ++ newline) ;;
  print (bytes "kernel: " ++ hex_alt 10 (im_start image) ++ bytes ".." ++ hex_alt 10 (im_end image) ++
    bytes ", code to " ++ hex_alt 10 (im_code_end image) ++ bytes ", read only to " ++
    hex_alt 10 (im_readonly_end image) ++ newline) ;;
  print (bytes "        physical " ++ hex_alt 10 (kernel_phys (im_start image)) ++ bytes ".." ++
    hex_alt 10 (kernel_phys (im_end image)) ++ bytes ", " ++
    dec ((im_end image -u im_start image) / 1024) ++ bytes " kb" ++ newline) ;;
  print (bytes "carved: " ++ hex_alt 10 window.1 ++ bytes ".." ++ hex_alt 10 window.2 ++
    bytes " physical, kept for kmalloc" ++ newline) ;;
  st <- in_kernel kernel_stats ;;
  report st ;;
  st <- in_kernel virtual_stats ;;
  report st.

(** shell.rs 177-199: cmd_virt *)
Definition cmd_virt (args : list Z) : M os unit :=
  match args with
  | [] =>
      print (bytes " address     dir  table offset physical    rights" ++ newline) ;;
      for_each [BASE; 0x000b8000; im_start image; im_end image; KHEAP_BASE; VMALLOC_BASE; TABLE_WINDOW]
        (fun addr => in_sys (Paging.summary addr)) ;;
      print (bytes "name one address for the full walk, as in `virt 0xc0101000`" ++ newline)
  | _ =>
      match parse_u32 args with
      | Some addr => in_sys (Paging.describe addr)
      | None => print (args ++ bytes ": not an address, try `virt 0xc0101000`" ++ newline)
      end
  end.

(** shell.rs 326-326: USER_DEMO *)
Definition USER_DEMO : Z := 0x00c00000.

(** The two lines about the entry, after it was made read only. *)
(** shell.rs 342-347: cmd_user *)
Definition user_protect : M sys unit :=
  protect USER_DEMO USER_READONLY ;;
  entry <- entry_of USER_DEMO ;;
  again <- entry_of USER_DEMO ;;
  printk (bytes "now read only: table entry " ++ hex_alt 10 (default 0 entry) ++ bytes ", " ++
    bytes (rights (default 0 again)) ++ newline).

(** shell.rs 328-357: cmd_user *)
Definition cmd_user (_ : list Z) : M os unit := in_sys (
  release USER_DEMO ;;
  got <- map_new USER_DEMO USER_PAGE ;;
  match got with
  | None => printk (bytes "user: no free frame" ++ newline)
  | Some frame =>
      printk (bytes "mapped " ++ hex_alt 10 USER_DEMO ++ bytes " -> frame " ++ hex_alt 10 frame ++
        bytes " in user space" ++ newline) ;;
      describe USER_DEMO ;;
      store32 USER_DEMO 0x42424242 ;;
      value <- load32 USER_DEMO ;;
      printk (bytes "wrote " ++ hex_alt 10 0x42424242 ++ bytes ", read back " ++ hex_alt 10 value ++
        newline) ;;
      user_protect ;;
      printk (bytes "a user page in kernel space is refused:" ++ newline) ;;
      map_page (KHEAP_BASE + 0x01000000) frame USER_PAGE ;;
      release USER_DEMO ;;
      got <- translate USER_DEMO ;;
      printk (bytes "unmapped " ++ hex_alt 10 USER_DEMO ++ bytes ", translate says " ++
        bytes (match got with Some _ => "still mapped" | None => "nothing there" end) ++ newline)
  end).

(** The three accesses may fault: each is one instruction of [Idt.v]. *)
(** shell.rs 359-378: cmd_fault *)
Definition cmd_fault (args : list Z) : M os unit :=
  if bool_decide (args = []) || bool_decide (args = bytes "demand") then
    print (bytes "reading " ++ hex_alt 10 DEMAND_BASE ++ bytes ", which is not mapped yet" ++ newline) ;;
    value <- in_sys (instruction 2 r (load32 DEMAND_BASE)) ;;
    print (bytes "the handler mapped it, the read returned " ++ hex_alt 10 value ++ newline)
  else if bool_decide (args = bytes "ro") then
    let at_ := im_start image in
    print (bytes "writing to " ++ hex_alt 10 at_ ++ bytes ", the kernel's own read only code" ++ newline) ;;
    in_sys (instruction 2 r (store32 at_ 0))
  else if bool_decide (args = bytes "kernel") then
    let at_ := KHEAP_BASE + 0x01800000 in
    print (bytes "writing to " ++ hex_alt 10 at_ ++ bytes ", kernel space with no page" ++ newline) ;;
    in_sys (instruction 2 r (store32 at_ 0))
  else print (bytes "fault: say demand, ro or kernel" ++ newline).

(** shell.rs 380-386: cmd_panic *)
Definition cmd_panic (args : list Z) : M os unit :=
  if bool_decide (args = []) || bool_decide (args = bytes "oops") then
    in_sys (koops (bytes "the shell asked for a panic it can walk away from"))
  else if bool_decide (args = bytes "fatal") then
    in_sys (kpanic (bytes "the shell asked for a panic with no way back"))
  else print (bytes "panic: say oops or fatal" ++ newline).

(** The wait for the input buffer of the 8042. *)
(** shell.rs 458-458: cmd_reboot *)
Fixpoint wait_8042 (fuel : nat) : M os unit :=
  match fuel with
  | O => starve
  | S fuel => v <- inb 0x64 ;; if negb (Z.land v 0x02 =? 0) then wait_8042 fuel else ret tt
  end.

(** A breakpoint: the gate must lie within the limit of the table register,
    or the processor shuts down. *)
Definition int3 : M os unit :=
  c <- gets o_cpu ;;
  if 3 * 8 + 7 <=? dt_limit (c_idtr c) then
    in_sys (fault_entry (mkFrame (r_edi r) (r_esi r) (r_ebp r) (r_esp r -u 20) (r_ebx r) (r_edx r)
      (r_ecx r) (r_eax r) 3 0 (r_eip r) (r_cs r) (r_eflags r)))
  else in_sys stop.

(** shell.rs 454-473: cmd_reboot *)
Definition cmd_reboot (_ : list Z) : M os unit :=
  print (bytes "rebooting" ++ newline) ;;
  for_each (seqZ 0 10) (fun _ =>
    o <- get ;;
    wait_8042 (S (length (o_input o))) ;;
    outb 0x64 0xfe) ;;
  in_cpu (on_cpu (set_idtr (mkGdtr 0 0))) ;;
  int3 ;;
  cmd_halt [].

(** ** Dispatch *)

(** shell.rs 15-30: CMDS *)
Definition CMD_RUN : list (list Z -> M os unit) :=
  [cmd_mem; cmd_space; cmd_pages; cmd_virt; cmd_alloc; cmd_user; cmd_fault; cmd_panic; cmd_stack;
   cmd_gdt; cmd_clear; cmd_reboot; cmd_halt; cmd_help].

(** [str::find] of a byte, and the two slices around it. *)
Fixpoint split_at (b : Z) (s : list Z) : option (list Z * list Z) :=
  match s with
  | [] => None
  | c :: s =>
      if c =? b then Some ([], s)
      else match split_at b s with
           | Some (before, after) => Some (c :: before, after)
           | None => None
           end
  end.

(** Name and arguments of a line. *)
(** shell.rs 75-79: dispatch *)
Definition parse_line (line : list Z) : list Z * list Z :=
  let line := trim line in
  match split_at 32 line with
  | Some (name, args) => (name, trim args)
  | None => (line, [])
  end.

(** The command of a name: the first one in the table. *)
(** shell.rs 83-83: dispatch *)
Definition find_command (name : list Z) : option (list Z -> M os unit) :=
  snd <$> head (List.filter (fun c => bool_decide (bytes c.1.1 = name)) (combine CMD_TEXT CMD_RUN)).

(** shell.rs 74-87: dispatch *)
Definition dispatch (line : list Z) : M os unit :=
  let '(name, args) := parse_line line in
  match name with
  | [] => ret tt
  | _ =>
      match find_command name with
      | Some run => run args
      | None => print (name ++ bytes ": no such command, try `help`" ++ newline)
      end
  end.

(** One turn of the loop of [run]. *)
(** shell.rs 40-44: run *)
Definition turn (buf : list Z) : M os (list Z) :=
  in_sys (on_vga (set_color BrightCyan Black)) ;;
  in_sys (on_vga (Vga.print PROMPT)) ;;
  in_sys (on_vga (set_color White Black)) ;;
  got <- read_line buf ;;
  dispatch got.2 ;;
  ret got.1.

(** shell.rs 39-45: run *)
Fixpoint run_loop (fuel : nat) (buf : list Z) : M os unit :=
  match fuel with
  | O => starve
  | S fuel => buf <- turn buf ;; run_loop fuel buf
  end.

(** shell.rs 36-46: run *)
Definition run (fuel : nat) : M os unit :=
  print (bytes "type `help` for the command list" ++ newline) ;;
  run_loop fuel (replicate (Z.to_nat LINE_MAX) 0).

End Shell.
