(* ===== verification/Console.v ===== *)
(** * Theorems about the keyboard and the line editor

    An abstract editor works on keys and a line; [read_line] works on port
    reads and a buffer.  The one refines the other. *)

From S2P Require Import Prelude.
From S2P Require Import Klib.
From S2P Require Import Vga.
From S2P Require Import Fmt.
From S2P Require Import Kmalloc.
From S2P Require Allocator.
From S2P Require Segments.
From S2P Require Import BootMem.
From S2P Require Import Exceptions.
From S2P Require Import Os.
From S2P Require Import Keyboard.
From S2P Require Import Shell.

(** ** The abstract editor *)

(** One look at the keyboard controller: the status byte, and the scancode
    that is read when the status says there is one. *)
Definition poll_bytes (p : Z * Z) : list Z := if Z.land p.1 1 =? 0 then [p.1] else [p.1; p.2].

Definition poll_key (shift : bool) (p : Z * Z) : option Key * bool :=
  if Z.land p.1 1 =? 0 then (None, shift) else decode shift p.2.

(** What a key does to the line, Enter apart. *)
Definition edit (line : list Z) (key : option Key) : list Z :=
  match key with
  | Some (Char b) => if Z.of_nat (length line) <? LINE_MAX then line ++ [b] else line
  | Some Backspace => removelast line
  | _ => line
  end.

(** The line at the first Enter, and the polls after it. *)
Fixpoint edit_all (shift : bool) (line : list Z) (polls : list (Z * Z)) : option (list Z * list (Z * Z)) :=
  match polls with
  | [] => None
  | p :: polls =>
      let '(key, shift) := poll_key shift p in
      if bool_decide (key = Some (Char 10)) then Some (line, polls)
      else edit_all shift (edit line key) polls
  end.

(** ** The keyboard *)

Lemma poll_spec o p rest :
  o_input o = poll_bytes p ++ rest ->
  exists o', poll o = Done (fst (poll_key (o_shift o) p)) o' /\ o_input o' = rest /\
    o_shift o' = snd (poll_key (o_shift o) p) /\ o_kernel o' = o_kernel o /\ o_cpu o' = o_cpu o.
Proof.
  intros Hin. unfold poll, poll_bytes, poll_key in *. destruct p as [st sc]; cbn [fst snd] in *.
  destruct (Z.land st 1 =? 0) eqn:E; cbn [app] in Hin.
  - unfold bind at 1, inb. rewrite Hin, E. eexists. split; [reflexivity|]. done.
  - unfold bind at 1, inb at 1. rewrite Hin, E. unfold bind at 1, inb. cbn [o_input].
    unfold bind, gets. cbn [o_shift]. destruct (decode (o_shift o) sc) as [key shift].
    eexists. split; [reflexivity|]. done.
Qed.

Lemma poll_empty o : o_input o = [] -> poll o = OutOfFuel.
Proof. intros E. unfold poll, bind, inb. by rewrite E. Qed.

(** ** The buffer holds the line *)

Definition holds (buf : list Z) (n : Z) (line : list Z) : Prop :=
  length buf = Z.to_nat LINE_MAX /\ n = Z.of_nat (length line) /\ firstn (length line) buf = line.

Lemma holds_length buf n line : holds buf n line -> n <= LINE_MAX.
Proof.
  intros (H1 & -> & H3). apply (f_equal length) in H3. rewrite length_firstn, H1 in H3.
  change (Z.to_nat LINE_MAX) with 74%nat in H3. unfold LINE_MAX. lia.
Qed.

Lemma holds_push buf n line b :
  holds buf n line -> n < LINE_MAX -> holds (<[Z.to_nat n := b]> buf) (n + 1) (line ++ [b]).
Proof.
  intros (H1 & H2 & H3) Hn. change (Z.to_nat LINE_MAX) with 74%nat in *. unfold LINE_MAX in *. split; [by rewrite length_insert|].
  rewrite length_app. cbn [length]. split; [lia|].
  subst n. rewrite Nat2Z.id, Nat.add_1_r.
  rewrite (take_S_r _ _ b) by (apply list_lookup_insert_eq; lia).
  by rewrite take_insert_ge, H3 by lia.
Qed.

Lemma holds_pop buf n line : holds buf n line -> 0 < n -> holds buf (n - 1) (removelast line).
Proof.
  intros (H1 & H2 & H3) Hn. split; [done|].
  assert (line <> []) as Hne by (intros ->; cbn in H2; lia).
  pose proof (app_removelast_last 0 Hne) as E.
  assert (length line = length (removelast line) + 1)%nat as El
    by (rewrite E at 1; by rewrite length_app).
  split; [lia|]. rewrite E in H3 at 2. rewrite El in H3.
  apply (f_equal (firstn (length (removelast line)))) in H3.
  rewrite firstn_firstn, Nat.min_l in H3 by lia. rewrite H3, firstn_app, firstn_all, Nat.sub_diag.
  cbn [firstn]. apply app_nil_r.
Qed.

(** Everything but the screen, the shift key and the ports. *)
Definition same_os (o o' : os) : Prop :=
  o_cpu o' = o_cpu o /\ k_heap (o_kernel o') = k_heap (o_kernel o) /\ v_heap (o_kernel o') = v_heap (o_kernel o) /\
  s_machine (o_sys o') = s_machine (o_sys o) /\ s_pmm (o_sys o') = s_pmm (o_sys o) /\
  s_oops (o_sys o') = s_oops (o_sys o).

Lemma same_os_trans o1 o2 o3 : same_os o1 o2 -> same_os o2 o3 -> same_os o1 o3.
Proof. intros (A1 & A2 & A3 & A4 & A5 & A6) (B1 & B2 & B3 & B4 & B5 & B6). split_and!; congruence. Qed.

Lemma key_step_spec key buf n line o :
  holds buf n line ->
  exists next o', key_step key buf n o = Done next o' /\ o_input o' = o_input o /\
    o_shift o' = o_shift o /\ same_os o o' /\
    if bool_decide (key = Some (Char 10)) then next = None
    else exists buf' n', next = Some (buf', n') /\ holds buf' n' (edit line key).
Proof.
  intros Hh. pose proof (holds_length _ _ _ Hh) as Hle. pose proof Hh as (_ & En & _).
  destruct key as [[b| |sc]|]; cbn [key_step edit].
  - destruct (Z.eqb_spec b 10) as [->|Hb].
    + eexists None, _. split; [reflexivity|]. by rewrite bool_decide_true.
    + rewrite bool_decide_false by congruence. rewrite <- En.
      destruct (Z.ltb_spec n LINE_MAX).
      * eexists (Some (_, _)), _. split; [reflexivity|]. split_and!; try done.
        eexists _, _. split; [reflexivity|]. by apply holds_push.
      * eexists (Some (_, _)), _. split; [reflexivity|]. split_and!; try done.
        by eexists _, _.
  - rewrite bool_decide_false by done. rewrite Z.gtb_ltb. destruct (Z.ltb_spec 0 n).
    + eexists (Some (_, _)), _. split; [reflexivity|]. split_and!; try done.
      eexists _, _. split; [reflexivity|]. by apply holds_pop.
    + eexists (Some (_, _)), _. split; [reflexivity|]. split_and!; try done.
      eexists _, _. split; [reflexivity|]. destruct line; [done|]. cbn in En. lia.
  - rewrite bool_decide_false by done. eexists (Some (_, _)), _. split; [reflexivity|]. split_and!; try done.
    by eexists _, _.
  - rewrite bool_decide_false by done. eexists (Some (_, _)), _. split; [reflexivity|]. split_and!; try done.
    by eexists _, _.
Qed.

Lemma read_loop_spec polls : forall fuel buf n line o,
  o_input o = concat (map poll_bytes polls) -> holds buf n line -> (length polls < fuel)%nat ->
  match edit_all (o_shift o) line polls with
  | Some (line', rest) => exists buf' n' o', read_loop fuel buf n o = Done (buf', n') o' /\
      holds buf' n' line' /\ o_input o' = concat (map poll_bytes rest) /\ same_os o o'
  | None => read_loop fuel buf n o = OutOfFuel
  end.
Proof.
  induction polls as [|p polls IH]; intros fuel buf n line o Hin Hh Hf;
    (destruct fuel as [|fuel]; [cbn in Hf; lia|]); cbn [edit_all read_loop].
  { unfold bind. by rewrite poll_empty. }
  cbn [map concat] in Hin. destruct (poll_spec o p _ Hin) as (o1 & E1 & Hin1 & Hsh1 & Hk1 & Hc1).
  rewrite (bind_Done _ _ _ _ _ E1). destruct (poll_key (o_shift o) p) as [key shift]; cbn [fst snd] in *.
  destruct (key_step_spec key buf n line o1 Hh) as (next & o2 & E2 & Hin2 & Hsh2 & Hs2 & Hnext).
  rewrite (bind_Done _ _ _ _ _ E2).
  assert (same_os o o2) as Hs.
  { eapply same_os_trans; [|exact Hs2]. unfold same_os, o_sys. by rewrite Hk1, Hc1. }
  destruct (bool_decide (key = Some (Char 10))).
  - subst next. exists buf, n, o2. split; [done|]. split; [done|]. by rewrite Hin2, Hin1.
  - destruct Hnext as (buf' & n' & -> & Hh').
    specialize (IH fuel buf' n' (edit line key) o2). rewrite Hin2, Hin1, Hsh2, Hsh1 in IH.
    specialize (IH eq_refl Hh' ltac:(cbn in Hf; lia)).
    destruct (edit_all shift (edit line key) polls) as [[line' rest]|]; [|exact IH].
    destruct IH as (b & m & o3 & E3 & H3 & Hi3 & Hs3). exists b, m, o3.
    split; [exact E3|]. split; [exact H3|]. split; [exact Hi3|]. by eapply same_os_trans.
Qed.

Lemma polls_fuel polls : (length polls <= length (concat (map poll_bytes polls)))%nat.
Proof.
  induction polls as [|p polls IH]; cbn; [lia|]. rewrite length_app.
  unfold poll_bytes at 1. destruct (_ =? _); cbn; lia.
Qed.

Lemma edit_length line key :
  Z.of_nat (length line) <= LINE_MAX -> Z.of_nat (length (edit line key)) <= LINE_MAX.
Proof.
  intros Hl. destruct key as [[b| |]|]; cbn [edit]; try done.
  - destruct (Z.ltb_spec (Z.of_nat (length line)) LINE_MAX); [|done]. rewrite length_app. cbn. lia.
  - rewrite removelast_firstn_len, length_firstn. lia.
Qed.

Lemma edit_all_length polls : forall shift line line' rest,
  Z.of_nat (length line) <= LINE_MAX -> edit_all shift line polls = Some (line', rest) ->
  Z.of_nat (length line') <= LINE_MAX.
Proof.
  induction polls as [|p polls IH]; intros shift line line' rest Hl; cbn [edit_all]; [done|].
  destruct (poll_key shift p) as [key shift']. destruct (bool_decide _); [by intros [= <- _]|].
  apply IH. by apply edit_length.
Qed.

(** C14: Whatever the keyboard controller answers, [read_line] is the abstract
    line editor: it returns at the first Enter with exactly the line the keys
    before it make (characters appended up to 74, Backspace removing the last
    one, shift choosing the table, screen keys and releases ignored), having
    read no port byte beyond the Enter, and having touched nothing but the
    screen.  The line fits its buffer.  Without an Enter it is still waiting. *)
Theorem read_line_edits polls buf o :
  o_input o = concat (map poll_bytes polls) -> length buf = Z.to_nat LINE_MAX ->
  match edit_all (o_shift o) [] polls with
  | Some (line, rest) => exists buf' o', read_line buf o = Done (buf', line) o' /\
      length buf' = Z.to_nat LINE_MAX /\ Z.of_nat (length line) <= LINE_MAX /\
      o_input o' = concat (map poll_bytes rest) /\ same_os o o'
  | None => read_line buf o = OutOfFuel
  end.
Proof.
  intros Hin Hb. pose proof (polls_fuel polls) as Hf. rewrite <- Hin in Hf.
  assert (holds buf 0 []) as Hh by (by split_and!).
  pose proof (read_loop_spec polls (S (length (o_input o))) buf 0 [] o Hin Hh ltac:(lia)) as H.
  unfold read_line. rewrite (bind_Done get _ o o o) by done.
  destruct (edit_all (o_shift o) [] polls) as [[line rest]|] eqn:E.
  - destruct H as (buf' & n' & o' & Er & (H1 & -> & H3) & Hi & Hs).
    exists buf', o'. rewrite (bind_Done _ _ _ _ _ Er). rewrite Nat2Z.id, H3.
    split; [done|]. split; [exact H1|]. split; [|by split].
    eapply edit_all_length; [|exact E]. by_decide.
  - unfold bind. by rewrite H.
Qed.

(** l, e, nothing, shift held, A, Backspace, Enter. *)
Definition demo_polls : list (Z * Z) :=
  [(1, 0x26); (1, 0x12); (0, 0); (1, 0x2a); (1, 0x1e); (1, 0x0e); (1, 0x1c)].
Definition demo_os : os :=
  mkOs Allocator.demo_kernel Segments.demo_cpu false (concat (map poll_bytes demo_polls)) [].

Lemma read_line_edits_witness :
  exists buf o, read_line (replicate 74 0) demo_os = Done (buf, bytes "le") o /\ o_input o = [].
Proof.
  pose proof (read_line_edits demo_polls (replicate 74 0) demo_os eq_refl eq_refl) as H.
  assert (edit_all (o_shift demo_os) [] demo_polls = Some (bytes "le", [])) as E by reflexivity.
  rewrite E in H. destruct H as (buf & o & Er & _ & _ & Hi & _).
  exists buf, o. split; [exact Er|exact Hi].
Defined.

(** ** Dispatch *)

Definition trim_end (s : list Z) : list Z := rev (trim_start (rev s)).

Lemma trim_start_app s c t :
  is_whitespace c = false -> trim_start (s ++ c :: t) = trim_start s ++ c :: t.
Proof.
  intros Hc. induction s as [|b s IH]; cbn [trim_start app]; [by rewrite Hc|].
  destruct (is_whitespace b); [exact IH|done].
Qed.

Lemma trim_start_white s t : Forall (fun b => is_whitespace b = true) s -> trim_start (s ++ t) = trim_start t.
Proof. induction 1 as [|b s Hb _ IH]; cbn [trim_start app]; [done|]. by rewrite Hb. Qed.

Lemma trim_end_cons b s :
  trim_end (b :: s) = match trim_end s with
                      | [] => if is_whitespace b then [] else [b]
                      | t => b :: t
                      end.
Proof.
  unfold trim_end. cbn [rev]. destruct (trim_start (rev s)) as [|c t] eqn:E.
  - cbn [rev]. destruct (is_whitespace b) eqn:Hb.
    + assert (trim_start (rev s ++ [b]) = []) as ->; [|done].
      clear -E Hb. induction (rev s) as [|c l IH]; cbn in *; [by rewrite Hb|].
      destruct (is_whitespace c); [by apply IH|done].
    + by rewrite trim_start_app, E.
  - assert (trim_start (rev s ++ [b]) = (c :: t) ++ [b]) as ->.
    { clear -E. induction (rev s) as [|d l IH]; cbn in *; [done|].
      destruct (is_whitespace d); [by apply IH|]. injection E as <- <-. done. }
    rewrite rev_app_distr. cbn [rev app]. destruct (rev t ++ [c]) eqn:Ex; [by destruct (rev t)|done].
Qed.

Lemma trim_end_word w s :
  w <> [] -> Forall (fun b => is_whitespace b = false) w -> trim_end (w ++ s) = w ++ trim_end s.
Proof.
  intros Hne Hw. induction Hw as [|b w Hb Hw IH]; [done|]. cbn [app]. rewrite trim_end_cons.
  destruct w as [|c w].
  - cbn [app]. rewrite Hb. by destruct (trim_end s).
  - by rewrite IH.
Qed.

Lemma trim_start_end s : trim_start (trim_end s) = trim_end (trim_start s).
Proof.
  induction s as [|b s IH]; [done|]. rewrite trim_end_cons. cbn [trim_start].
  destruct (is_whitespace b) eqn:Hb.
  - destruct (trim_end s) as [|c t] eqn:E; [by rewrite <- IH|]. cbn [trim_start]. by rewrite Hb, <- IH.
  - rewrite trim_end_cons, Hb. destruct (trim_end s); cbn [trim_start]; by rewrite Hb.
Qed.

Lemma trim_end_idem s : trim_end (trim_end s) = trim_end s.
Proof.
  induction s as [|b s IH]; [done|]. rewrite trim_end_cons. destruct (trim_end s) as [|c t] eqn:E.
  - destruct (is_whitespace b) eqn:Hb; [done|]. rewrite trim_end_cons, Hb. done.
  - rewrite trim_end_cons, IH. done.
Qed.

Lemma trim_trim_end s : trim (trim_end s) = trim s.
Proof. unfold trim. fold (trim_end (trim_start (trim_end s))). by rewrite trim_start_end, trim_end_idem. Qed.

Lemma split_at_word w s :
  Forall (fun b => is_whitespace b = false) w ->
  split_at 32 (w ++ s) = match split_at 32 s with
                         | Some (before, after) => Some (w ++ before, after)
                         | None => None
                         end.
Proof.
  induction 1 as [|b w Hb _ IH]; cbn [split_at app]; [by destruct (split_at 32 s) as [[]|]|].
  assert (b <> 32) as Hne by (intros ->; done). rewrite (proj2 (Z.eqb_neq _ _) Hne), IH.
  by destruct (split_at 32 s) as [[]|].
Qed.

(** A name, spaces before it, and nothing or a space and more after it. *)
Lemma parse_line_spec pre name rest :
  Forall (fun b => is_whitespace b = true) pre -> name <> [] ->
  Forall (fun b => is_whitespace b = false) name -> rest = [] \/ (exists args, rest = 32 :: args) ->
  parse_line (pre ++ name ++ rest) = (name, trim rest).
Proof.
  intros Hpre Hne Hname Hrest. unfold parse_line.
  assert (trim (pre ++ name ++ rest) = name ++ trim_end rest) as ->.
  { unfold trim. rewrite trim_start_white by done. fold (trim_end (trim_start (name ++ rest))).
    rewrite <- trim_end_word by done. f_equal. destruct Hname; [done|]. cbn. by rewrite H. }
  rewrite split_at_word by done. destruct Hrest as [->|[args ->]].
  { cbn. by rewrite app_nil_r. }
  rewrite trim_end_cons. change (is_whitespace 32) with true. cbn iota.
  change (trim (32 :: args)) with (trim args). rewrite <- (trim_trim_end args).
  destruct (trim_end args) as [|c t].
  - cbn [split_at]. by rewrite app_nil_r.
  - cbn [split_at]. rewrite Z.eqb_refl. by rewrite app_nil_r.
Qed.

(** In a table whose names are all different, a name leads to its entry. *)
Lemma find_unique {A} (l : list (string * string)) : forall (l' : list A) i text run,
  NoDup (map (fun t => bytes t.1) l) -> l !! i = Some text -> l' !! i = Some run ->
  snd <$> head (List.filter (fun c => bool_decide (bytes c.1.1 = bytes text.1)) (combine l l')) = Some run.
Proof.
  induction l as [|t l IH]; intros l' i text run Hd Ht Hr; [done|].
  destruct l' as [|c l']; [done|]. cbn [map] in Hd. inversion_clear Hd as [|? ? Hnot Hd'].
  destruct i as [|i]; cbn in Ht, Hr.
  - injection Ht as ->. injection Hr as ->. cbn [combine List.filter fst]. by rewrite bool_decide_true.
  - cbn [combine List.filter fst]. rewrite bool_decide_false; [by apply (IH l' i); [exact Hd'|..]|].
    intros E. apply Hnot. rewrite E. apply list_elem_of_fmap. exists text. split; [done|].
    by eapply list_elem_of_lookup_2.
Qed.

Lemma names_distinct : NoDup (map (fun t => bytes t.1) CMD_TEXT).
Proof. by_decide. Qed.

Lemma find_command_at {L : Linker} r i text run :
  CMD_TEXT !! i = Some text -> CMD_RUN r !! i = Some run -> find_command r (bytes text.1) = Some run.
Proof. exact (find_unique CMD_TEXT (CMD_RUN r) i text run names_distinct). Qed.

Lemma find_command_none {L : Linker} r name :
  (forall text, text ∈ CMD_TEXT -> bytes text.1 <> name) -> find_command r name = None.
Proof.
  intros Hno. unfold find_command.
  assert (forall l l', (forall text, text ∈ l -> bytes text.1 <> name) ->
    List.filter (fun c : string * string * (list Z -> M os unit) => bool_decide (bytes c.1.1 = name)) (combine l l') = []) as ->;
    [|done|exact Hno].
  intros l. induction l as [|t l IH]; intros l' Hl; [done|]. destruct l' as [|c l']; [done|].
  cbn [combine List.filter fst]. rewrite bool_decide_false by (apply Hl; by left).
  apply IH. intros t' Ht'. apply Hl. by right.
Qed.

(** C36: A line runs the command it names: for each of the fourteen commands,
    with any white space before it and after it either nothing or a space and
    anything else, [dispatch] runs that command on the rest of the line,
    trimmed.  A name that is none of them only prints a message. *)
Theorem dispatch_runs {L : Linker} r pre name rest o :
  Forall (fun b => is_whitespace b = true) pre -> name <> [] ->
  Forall (fun b => is_whitespace b = false) name -> rest = [] \/ (exists args, rest = 32 :: args) ->
  (forall i text run, CMD_TEXT !! i = Some text -> CMD_RUN r !! i = Some run -> bytes text.1 = name ->
     dispatch r (pre ++ name ++ rest) o = run (trim rest) o) /\
  ((forall text, text ∈ CMD_TEXT -> bytes text.1 <> name) ->
     dispatch r (pre ++ name ++ rest) o = print (name ++ bytes ": no such command, try `help`" ++ newline) o).
Proof.
  intros Hpre Hne Hname Hrest. unfold dispatch. rewrite parse_line_spec by done.
  destruct name as [|b name]; [done|]. split.
  - intros i text run Ht Hr Hn. by rewrite <- Hn, (find_command_at r i text run Ht Hr).
  - intros Hno. by rewrite find_command_none.
Qed.

Lemma dispatch_runs_witness :
  @dispatch demo_linker demo_regs (bytes "  virt  0x10 ") demo_os =
    @cmd_virt demo_linker (bytes "0x10") demo_os.
Proof.
  destruct (@dispatch_runs demo_linker demo_regs (bytes "  ") (bytes "virt") (bytes "  0x10 ") demo_os)
    as [H _]; [by_decide|by_decide|by_decide|right; exists (bytes " 0x10 "); reflexivity|].
  exact (H 3%nat _ _ eq_refl eq_refl eq_refl).
Defined.
