(* ===== verification/Kmain.v ===== *)
(** * The entry point (kernel/src/lib.rs) *)

From S2P Require Import Prelude.
From S2P Require Import Klib.
From S2P Require Import Vga.
From S2P Require Import Fmt.
From S2P Require Import Panic.
From S2P Require Gdt.
From S2P Require Import Idt.
From S2P Require Boot.
From S2P Require Import Os.
From S2P Require Import Shell.

Section Kmain.
Context {L : Linker} (r : regs).

(** The handler of Rust panics: [info] is their message. *)
(** lib.rs 38-41: on_panic *)
Definition on_panic {A} (info : list Z) : M sys A := fatal info.

(** Everything before the shell; [fuel] bounds the loop over the memory map. *)
(** lib.rs 25-34: kmain *)
Definition bring_up (fuel : nat) (magic info : Z) : M os unit :=
  in_cpu Gdt.install ;;
  in_sys (on_vga Vga.clear) ;;
  match utoa 42 (replicate 10 0) with
  | Some text => in_sys (on_vga (Vga.print text))
  | None => in_sys (on_panic (bytes "index out of bounds"))
  end ;;
  in_sys (on_vga (Vga.print newline)) ;;
  in_sys (on_vga (set_color BrightGreen Black)) ;;
  print (bytes "kfs-" ++ dec 3 ++ newline) ;;
  in_sys (on_vga (set_color White Black)) ;;
  in_cpu Idt.install ;;
  in_kernel (Boot.init fuel magic info).

(** [turns] bounds the lines the shell reads. *)
(** lib.rs 23-36: kmain *)
Definition kmain (fuel turns : nat) (magic info : Z) : M os unit :=
  bring_up fuel magic info ;;
  Shell.run r turns.

End Kmain.
