(* ===== verification/Ready.v ===== *)
(** * The kernel between two commands

    The invariant of the shell, with the blocks of both heaps, and what the
    calls a command makes do to it: each comes back, with a known result. *)

From S2P Require Import Prelude.
From S2P Require Import Mem.
From S2P Require Import Klib.
From S2P Require Import Machine.
From S2P Require Import Pmm.
From S2P Require Import Fmt.
From S2P Require Stack.
From S2P Require Import Panic.
From S2P Require Import Heap.
From S2P Require Import HeapSpec.
From S2P Require Import HeapOps.
From S2P Require Import HeapCalls.
From S2P Require Import HeapEnv.
From S2P Require Import Kmalloc.
From S2P Require Import Paging.
From S2P Require Import PagingSpec.
From S2P Require Import PagingOps.
From S2P Require Import AddressSpace.
From S2P Require Import Calm.
From S2P Require Import Payload.
From S2P Require Import BootMem.
From S2P Require Import Gdt.
From S2P Require Import Segments.
From S2P Require Import Idt.
From S2P Require Import Exceptions.
From S2P Require Import ProbeSpec.
From S2P Require Import Boot.
From S2P Require Import BootSpec.
From S2P Require Import Fixtures.
From S2P Require Import Os.
From S2P Require Import Shell.

Section Ready.
Context `{LK : LinkerOk}.

(** ** The invariant *)

(** The physical window of the kernel heap ends below the address that
    [fault kernel] writes to: 24 mb, on a machine of at most 96 mb.  It holds
    no frame of a guarded byte. *)
Definition window_ok (k : kernel) : Prop :=
  h_phys_end (k_heap k) - h_phys_base (k_heap k) <= 0x01800000 /\
  forall a, guarded a -> outside (k_heap k) (a / 4096).

(** What the guarded bytes hold. *)
Context {held : Z -> Z}.

(** The invariant, with the blocks of both heaps. *)
Definition ready (o : os) (kb vb : list block) : Prop :=
  heaps_ok (o_kernel o) kb vb /\ fixtures held (o_sys o) /\ window_ok (o_kernel o).
Definition prompt (o : os) : Prop := exists kb vb, ready o kb vb.

Lemma ready_ok o kb vb : ready o kb vb -> env_ok (o_sys o).
Proof. intros [Hh _]. exact (ho_env _ _ _ (hp_k _ _ _ Hh)). Qed.

Lemma ready_calm o kb vb s' : ready o kb vb -> calm (o_sys o) s' -> ready (with_osys s' o) kb vb.
Proof.
  intros (H1 & H2 & H3) Hc. split; [exact (heaps_calm _ _ _ _ H1 Hc)|].
  split; [|exact H3]. exact (fixtures_untouched held _ _ _ (fun _ _ => I) (ca_untouched _ _ Hc (fun _ => True)) H2).
Qed.


Lemma prompt_ready o kb vb : ready o kb vb -> prompt o.
Proof. intros Ho. by exists kb, vb. Qed.

Lemma with_osys_id o : with_osys (o_sys o) o = o.
Proof. by destruct o as [[] ? ? ? ?]. Qed.

(** ** Code that comes back *)

Definition surely {A} (c : M os A) (o : os) (Q : A -> os -> Prop) : Prop :=
  exists a o', c o = Done a o' /\ Q a o'.

Lemma surely_bind {A B} (c : M os A) (k : A -> M os B) o Q :
  surely c o (fun a o' => surely (k a) o' Q) -> surely (bind c k) o Q.
Proof. intros (a & o1 & E & H1). unfold surely. by rewrite (bind_Done _ _ _ _ _ E). Qed.

Lemma surely_Done {A} (c : M os A) o a o' (Q : A -> os -> Prop) : c o = Done a o' -> Q a o' -> surely c o Q.
Proof. intros E HQ. by exists a, o'. Qed.

Lemma surely_weaken {A} (c : M os A) o (P Q : A -> os -> Prop) :
  surely c o P -> (forall a o', P a o' -> Q a o') -> surely c o Q.
Proof. intros (a & o' & E & HP) HPQ. exists a, o'. split; [exact E|by apply HPQ]. Qed.

(** ** The calls a command makes *)

(** What a call on one of the heaps does. *)
Definition called (virtual : bool) (c : call) (o : os) (kb vb : list block) (o' : os) (kb' vb' : list block) (r : Z) : Prop :=
  if virtual
  then effect c (v_heap (o_kernel o)) (o_sys o) vb (v_heap (o_kernel o')) (o_sys o') vb' r /\ kb' = kb
  else effect c (k_heap (o_kernel o)) (o_sys o) kb (k_heap (o_kernel o')) (o_sys o') kb' r /\ vb' = vb.

(** Printing changes the screen only. *)
Lemma print_same text o o' :
  print text o = Done tt o' ->
  s_pmm (o_sys o') = s_pmm (o_sys o) /\ k_heap (o_kernel o') = k_heap (o_kernel o) /\ v_heap (o_kernel o') = v_heap (o_kernel o).
Proof. intros [= <-]. split; [reflexivity|split; reflexivity]. Qed.

Section Calls.
Context {o : os} {kb vb : list block} (Ho : ready o kb vb).

Lemma surely_calmly {A} (c : M sys A) P (Q : A -> os -> Prop) :
  calmly c (o_sys o) P -> (forall a s', P a s' -> ready (with_osys s' o) kb vb -> Q a (with_osys s' o)) ->
  surely (in_sys c) o Q.
Proof.
  intros (a & s' & E & C & HP) HQ. exists a, (with_osys s' o). split; [unfold in_sys, zoom; by rewrite E|].
  by apply HQ, ready_calm.
Qed.

Lemma surely_print text (Q : unit -> os -> Prop) :
  (forall s', print text o = Done tt (with_osys s' o) -> ready (with_osys s' o) kb vb -> Q tt (with_osys s' o)) ->
  surely (print text) o Q.
Proof.
  intros HQ. exists tt. eexists. split; [reflexivity|]. apply HQ; [reflexivity|].
  apply ready_calm; [exact Ho|]. apply calm_vga. by eapply ready_ok.
Qed.

Lemma surely_translate a (Q : Z -> os -> Prop) :
  is_u32 a ->
  (forall s', ready (with_osys s' o) kb vb ->
     Q (default 0 ((fun e => entry_frame e + a mod 4096) <$> page_entry (s_machine (o_sys o)) (a / 4096)))
       (with_osys s' o)) ->
  surely (translate_or_0 a) o Q.
Proof.
  intros Hu HQ. pose proof (ready_ok _ _ _ Ho) as Hok.
  destruct (translate_spec (o_sys o) a Hok Hu) as (m' & E & Q' & Hok').
  assert (in_sys (translate a) o = Done ((fun e => entry_frame e + a mod 4096) <$>
    page_entry (s_machine (o_sys o)) (a / 4096)) (with_osys (with_machine m' (o_sys o)) o)) as E'
    by (unfold in_sys, zoom; by rewrite E).
  unfold translate_or_0, surely. rewrite (bind_Done _ _ _ _ _ E'). eexists _, _. split; [reflexivity|].
  apply HQ, ready_calm; [exact Ho|by apply calm_equiv].
Qed.

(** A call on one of the heaps. *)
Lemma surely_call (virtual : bool) c (Q : Z -> os -> Prop) :
  call_ok c ->
  (forall r o' kb' vb', ready o' kb' vb' ->
     called virtual c o kb vb o' kb' vb' r -> Q r o') ->
  surely (in_kernel (kernel_call virtual c)) o Q.
Proof.
  intros Hc HQ. pose proof Ho as (H1 & H2 & H3).
  destruct (kernel_call_full _ kb vb virtual c H1 Hc) as (r & k' & kb' & vb' & E & Hh & Hs & Hr & Hu & b & Hb).
  exists r, (with_kernel k' o). split; [unfold in_kernel, zoom; by rewrite E|]. apply (HQ r _ kb' vb').
  - split; [exact Hh|]. split; [exact (fixtures_untouched held _ _ _ (proj2 H3) Hu H2)|].
    unfold window_ok in *. cbn [o_kernel with_kernel]. by rewrite Hb.
  - destruct virtual; destruct Hs as (_ & -> & _); by split.
Qed.

(** Reading a heap: the call comes back to a state that is quiet for the
    view that also knows what is untouched. *)
Lemma ready_quiet h s' :
  (forall a, guarded a -> outside h (a / 4096)) -> quiet (o_sys o) s' ->
  @quiet sys (view_from (outside h) (o_sys o)) (o_sys o) s' -> ready (with_osys s' o) kb vb.
Proof.
  intros Hh [K _] [[[_ U] _ _ _] _]. destruct Ho as ([Hk Hv Hs1 Hs2] & H2 & H3).
  split; [|split; [exact (fixtures_untouched held _ _ _ Hh (untouched_guards _ _ _ U) H2)|exact H3]].
  split; [exact (heap_ok_keeps _ _ _ _ Hk K)|exact (heap_ok_keeps _ _ _ _ Hv K)|exact Hs1|exact Hs2].
Qed.

(** No guarded byte is in the physical window of either heap. *)
Lemma ready_outside (virtual : bool) a :
  guarded a -> outside (if virtual then v_heap (o_kernel o) else k_heap (o_kernel o)) (a / 4096).
Proof.
  intros Ha. destruct Ho as ([_ _ _ (_ & _ & V3)] & _ & _ & H3). destruct virtual; [|by apply H3].
  intros Hb. congruence.
Qed.

Lemma surely_stats (virtual : bool) (Q : Stats -> os -> Prop) :
  (forall st s', st_used st = bytes_of true (if virtual : bool then vb else kb) ->
     ready (with_osys s' o) kb vb -> Q st (with_osys s' o)) ->
  surely (in_kernel (if virtual : bool then virtual_stats else kernel_stats)) o Q.
Proof.
  intros HQ. pose proof Ho as ([Hk Hv _ _] & _). pose proof (ready_outside virtual) as Hout.
  set (s := o_sys o) in *. change (k_sys (o_kernel o)) with s in Hk, Hv.
  unfold surely, in_kernel, zoom. destruct virtual.
  - destruct (stats_spec _ s vb Hv) as (s' & E & Hq).
    destruct (@stats_spec sys sys_env _ (laws_from _ s) _ s vb (heap_from _ _ _ Hv)) as (s2 & E2 & Hq2).
    rewrite E in E2. injection E2 as <-.
    unfold virtual_stats, virtual_heap. change (k_sys (o_kernel o)) with s. rewrite E. eexists _, _.
    split; [reflexivity|]. apply HQ; [reflexivity|]. by eapply ready_quiet.
  - destruct (stats_spec _ s kb Hk) as (s' & E & Hq).
    destruct (@stats_spec sys sys_env _ (laws_from _ s) _ s kb (heap_from _ _ _ Hk)) as (s2 & E2 & Hq2).
    rewrite E in E2. injection E2 as <-.
    unfold kernel_stats, kernel_heap. change (k_sys (o_kernel o)) with s. rewrite E. eexists _, _.
    split; [reflexivity|]. apply HQ; [reflexivity|]. by eapply ready_quiet.
Qed.

(** [ksize] and [vsize] of a live block give its size. *)
Lemma surely_size virtual p sz (Q : Z -> os -> Prop) :
  given virtual kb vb p sz -> p <> 0 ->
  (forall s', ready (with_osys s' o) kb vb -> Q sz (with_osys s' o)) ->
  surely (in_kernel (if virtual : bool then vsize p else ksize p)) o Q.
Proof.
  intros Hg Hp HQ. pose proof Ho as ([Hk Hv (K1 & _) (V1 & _)] & _). pose proof (ready_outside virtual) as Hout.
  set (s := o_sys o) in *. change (k_sys (o_kernel o)) with s in Hk, Hv.
  unfold surely, in_kernel, zoom. destruct virtual; cbn [given] in Hg.
  - rewrite <- V1 in Hg. destruct (size_spec _ s vb p Hv Hp) as (r & s' & E & _ & Hl). destruct (Hl sz Hg) as [-> Hq].
    destruct (@size_spec sys sys_env _ (laws_from _ s) _ s vb p (heap_from _ _ _ Hv) Hp) as (r2 & s2 & E2 & _ & Hl2).
    destruct (Hl2 sz Hg) as [-> Hq2]. rewrite E in E2. injection E2 as <-.
    unfold vsize, virtual_heap. change (k_sys (o_kernel o)) with s. rewrite E. eexists _, _.
    split; [reflexivity|]. apply HQ. by eapply ready_quiet.
  - rewrite <- K1 in Hg. destruct (size_spec _ s kb p Hk Hp) as (r & s' & E & _ & Hl). destruct (Hl sz Hg) as [-> Hq].
    destruct (@size_spec sys sys_env _ (laws_from _ s) _ s kb p (heap_from _ _ _ Hk) Hp) as (r2 & s2 & E2 & _ & Hl2).
    destruct (Hl2 sz Hg) as [-> Hq2]. rewrite E in E2. injection E2 as <-.
    unfold ksize, kernel_heap. change (k_sys (o_kernel o)) with s. rewrite E. eexists _, _.
    split; [reflexivity|]. apply HQ. by eapply ready_quiet.
Qed.

End Calls.

(** ** What the allocator gave holds bytes *)

Lemma for_each_in_sys {I} (l : list I) (c : I -> M sys unit) o :
  for_each l (fun i => in_sys (c i)) o = in_sys (for_each l c) o.
Proof.
  revert o. induction l as [|i l IH]; intros o; cbn [for_each].
  - unfold in_sys, zoom, ret, o_sys, with_osys, with_kernel, with_sys. by destruct o as [[] ? ? ? ?].
  - unfold bind. destruct (c i (o_sys o)) as [[] s'| | |] eqn:E; unfold in_sys at 1, zoom at 1; rewrite E.
    2-4: unfold in_sys, zoom; by rewrite E.
    rewrite IH. unfold in_sys, zoom. rewrite E. change (o_sys (with_osys s' o)) with s'.
    by destruct (for_each l c s').
Qed.

Lemma byte_equiv s s' a : s_machine s' ≡ s_machine s -> byte s' a = byte s a.
Proof. intros Q. unfold byte. rewrite (phys_proper _ _ Q a a eq_refl). by destruct Q as [-> _]. Qed.

Section Holds.
Context (kb vb : list block) (virtual : bool) (p sz : Z).
Hypothesis (Hgiven : given virtual kb vb p sz) (Hp : p mod 4 = 0) (Hp0 : 0 <= p).

Lemma check_pattern_spec n : forall j o,
  ready o kb vb -> 0 <= j -> j + Z.of_nat n <= sz ->
  (forall i, j <= i < j + Z.of_nat n -> byte (o_sys o) (p + i) = Z.land i 255) ->
  exists s', check_pattern p (seqZ j (Z.of_nat n)) o = Done true (with_osys s' o) /\ ready (with_osys s' o) kb vb.
Proof.
  induction n as [|n IH]; intros j o Ho Hj Hn Hb; [exists (o_sys o); by rewrite with_osys_id|].
  rewrite Nat2Z.inj_succ, seqZ_cons, Z.pred_succ by lia. cbn [check_pattern].
  destruct (given_mapped (o_kernel o) kb vb virtual p sz (p + j) (proj1 Ho) Hgiven Hp ltac:(lia)) as (Hm & _ & Hu).
  rewrite wrap32_small by (unfold is_u32; lia).
  destruct (load8_spec (o_sys o) (p + j) (ready_ok _ _ _ Ho) Hm) as (s1 & E1 & C1 & Q1).
  assert (load8 (p + j) o = Done (byte (o_sys o) (p + j)) (with_osys s1 o)) as E.
  { unfold load8, in_sys, zoom. by rewrite E1. }
  rewrite (bind_Done _ _ _ _ _ E). rewrite Hb, Z.eqb_refl by lia. cbn [negb].
  destruct (IH (j + 1) (with_osys s1 o)) as (s' & H'); [by apply ready_calm|lia|lia| |by exists s'].
  intros i Hi. change (o_sys (with_osys s1 o)) with s1. rewrite (byte_equiv _ _ _ Q1). apply Hb. lia.
Qed.

Lemma pattern_spec o size :
  ready o kb vb -> 0 <= size <= sz ->
  exists s', pattern p size o = Done true (with_osys s' o) /\ ready (with_osys s' o) kb vb.
Proof.
  intros Ho Hs. unfold pattern, store8. rewrite <- (Z2Nat.id size) by lia.
  destruct (fill_spec kb vb virtual p sz Hgiven Hp Hp0 (Z.to_nat size) 0 (o_kernel o) (proj1 Ho))
    as (s1 & E1 & H1 & U1 & B1); [lia|lia|].
  assert (ready (with_osys s1 o) kb vb) as Ho1.
  { destruct Ho as (_ & H2 & H3). split; [exact H1|]. split; [exact (fixtures_untouched held _ _ _ (proj2 H3) (U1 _) H2)|exact H3]. }
  rewrite (bind_Done _ _ o tt (with_osys s1 o)).
  - destruct (check_pattern_spec (Z.to_nat size) 0 (with_osys s1 o) Ho1) as (s' & H'); [lia|lia| |by exists s'].
    intros i Hi. change (o_sys (with_osys s1 o)) with s1. rewrite B1 by lia. by rewrite decide_True.
  - rewrite (for_each_in_sys _ (fun i => on_machine (vstore8 (p +u i) (Z.land i 255)))).
    unfold in_sys, zoom. change (o_sys o) with (k_sys (o_kernel o)). by rewrite E1.
Qed.

Lemma surely_pattern o size (Q : bool -> os -> Prop) :
  ready o kb vb -> 0 <= size <= sz ->
  (forall s', ready (with_osys s' o) kb vb -> Q true (with_osys s' o)) -> surely (pattern p size) o Q.
Proof.
  intros Ho Hs HQ. destruct (pattern_spec o size Ho Hs) as (s' & E & Ho').
  eapply surely_Done; [exact E|by apply HQ].
Qed.

Lemma surely_frames l : forall sc prev o (Q : bool -> os -> Prop),
  ready o kb vb -> (forall b s', ready (with_osys s' o) kb vb -> Q b (with_osys s' o)) ->
  surely (frames_loop p l sc prev) o Q.
Proof.
  induction l as [|page l IH]; intros sc prev o Q Ho HQ; cbn [frames_loop].
  { eapply surely_Done; [reflexivity|]. specialize (HQ sc (o_sys o)). rewrite with_osys_id in HQ. by apply HQ. }
  apply surely_bind, (surely_translate Ho); [apply wrap32_range|]. intros s1 Ho1.
  apply surely_bind, (surely_print Ho1). intros s2 _ Ho2. by apply IH.
Qed.

End Holds.

End Ready.

Arguments ready {_} held o kb vb.
Arguments prompt {_} held o.

(** ** A state to run on *)

(** The demo machine after [paging::init], with sixteen frames carved for the
    kernel heap and none left. *)
Definition demo_vm : machine :=
  match @Paging.init demo_linker (@image demo_linker) demo_loaded_sys with
  | Done _ s => s_machine s
  | _ => demo_loaded
  end.

Definition demo_carved : pmm := foldr set_free pmm_zero (seqZ 512 16).

Definition demo_os_on (m : machine) : os :=
  mkOs (mkKernel (mkSys m pmm_zero Vga.vga_boot 0 0xC0111000)
          (attach (512 * 4096, 528 * 4096) KERNEL_HEAP) VIRTUAL_HEAP Multiboot.NOTHING (0, 0))
    demo_cpu false [] [].

Definition demo_prompt_os : os := demo_os_on demo_vm.

Lemma demo_vm_ok : @kernel_vm demo_linker demo_vm.
Proof.
  destruct (@paging_init_spec demo_linker demo_linker_ok demo_loaded_sys demo_loaded_boot) as (m & E & Hm & _).
  unfold demo_vm. rewrite E. exact Hm.
Qed.

Lemma demo_carved_free : free_set demo_carved = list_to_set (seqZ 512 16).
Proof.
  unfold demo_carved. assert (Forall (fun f => 0 <= f < MAX_FRAMES) (seqZ 512 16)) as Hf by (rewrite MAX_FRAMES_val; by_decide).
  induction Hf as [|f l Hf _ IH]; cbn [foldr list_to_set]; [exact pmm_zero_free_set|]. by rewrite set_free_set, IH.
Qed.

Lemma demo_tables f : f ∈ @table_frames demo_linker -> f ∉ free_set demo_carved.
Proof.
  rewrite demo_carved_free, elem_of_list_to_set, elem_of_seqZ. unfold table_frames.
  rewrite !elem_of_cons, elem_of_nil. intros [->|[->|[->|[]]]]; by_decide.
Qed.

Lemma demo_on_heaps m : @kernel_vm demo_linker m -> heaps_ok (o_kernel (demo_os_on m)) [] [].
Proof.
  intros Hm. refine (@boot_heaps demo_linker demo_linker_ok (o_kernel (demo_os_on m)) demo_carved 512 16
    Hm pmm_zero_wf demo_tables _ _ _ _ _ eq_refl eq_refl); [|..|lia|lia|lia].
  - change (s_pmm (k_sys (o_kernel (demo_os_on m)))) with pmm_zero. rewrite pmm_zero_free_set, demo_carved_free.
    symmetry. apply set_eq. intros f.
    rewrite elem_of_difference, elem_of_list_to_set, elem_of_seqZ, elem_of_run_set, elem_of_empty. lia.
  - intros f Hf. rewrite demo_carved_free, elem_of_list_to_set, elem_of_seqZ. lia.
Qed.

Definition demo_held (m : machine) (a : Z) : Z := pread8 (m_ram m) a.

Lemma demo_guarded a : @guarded demo_linker a -> 0 <= a / 4096 < 288.
Proof. intros Ha. exact (proj1 (@guarded_frame demo_linker demo_linker_ok a Ha)). Qed.

Lemma demo_on_ready m : @kernel_vm demo_linker m -> @prompt demo_linker (demo_held m) (demo_os_on m).
Proof.
  intros Hm. pose proof (demo_on_heaps m Hm) as Hh. exists [], []. split; [exact Hh|]. split.
  - apply (@kernel_fixtures demo_linker demo_linker_ok (demo_held m) (o_sys (demo_os_on m)));
      [exact (ho_env _ _ _ (hp_k _ _ _ Hh))|exact Hm| |intros f _|reflexivity].
    + change (s_esp (o_sys (demo_os_on m))) with 0xC0111000. by_decide.
    + change (s_pmm (o_sys (demo_os_on m))) with pmm_zero. rewrite pmm_zero_free_set. apply not_elem_of_empty.
  - split; [by_decide|]. intros a Ha _. apply demo_guarded in Ha.
    change (h_phys_base (k_heap (o_kernel (demo_os_on m))) / 4096) with 512. lia.
Qed.

Lemma demo_at_prompt : @prompt demo_linker (demo_held demo_vm) demo_prompt_os.
Proof. exact (demo_on_ready demo_vm demo_vm_ok). Qed.

