(* ===== verification/SelfTest.v ===== *)
(** * The allocator's self-test

    The command [alloc] (shell.rs) makes fourteen checks of both heaps.  Run
    on a kernel that satisfies the invariant, it comes back to one, and its
    last line says that all passed or names a shortage of memory that is real,
    one heap being unable to grow: no check of what was handed out can fail. *)

From S2P Require Import Prelude.
From S2P Require Import Mem.
From S2P Require Import Klib.
From S2P Require Import Machine.
From S2P Require Import Fmt.
From S2P Require Import Heap.
From S2P Require Import HeapSpec.
From S2P Require Import HeapOps.
From S2P Require Import HeapCalls.
From S2P Require Import HeapEnv.
From S2P Require Import Kmalloc.
From S2P Require Import Allocator.
From S2P Require Import PagingSpec.
From S2P Require Import PagingOps.
From S2P Require Import Payload.
From S2P Require Import BootMem.
From S2P Require Import BootSpec.
From S2P Require Import Fixtures.
From S2P Require Import Os.
From S2P Require Import Shell.
From S2P Require Import Ready.

(** ** Bytes in use *)

Definition sizes (l : list (Z * Z)) : Z := foldr (fun b n => b.2 + n) 0 l.

Lemma sizes_perm l l' : Permutation l l' -> sizes l = sizes l'.
Proof. induction 1; cbn [sizes foldr] in *; unfold sizes in *; lia. Qed.

Lemma bytes_live a bs : bytes_of true bs = sizes (live a bs).
Proof.
  revert a. induction bs as [|[sz u] bs IH]; intros a; [done|]. cbn [bytes_of live].
  rewrite (IH (a + HEADER + sz)). by destruct u.
Qed.

(** A free never adds to them, and a free of a live block takes its size. *)
Lemma freed_sizes h (s : sys) bs h' s' bs' p r :
  Forall block_ok bs -> effect (Free p) h s bs h' s' bs' r -> bytes_of true bs' <= bytes_of true bs /\
  forall sz, (p, sz) ∈ live (h_base h) bs -> bytes_of true bs' < bytes_of true bs.
Proof.
  intros Hok [_ He]. rewrite !(bytes_live (h_base h)). destruct He as [(sz & Hp)|[Hn ->]].
  - assert ((p, sz) ∈ live (h_base h) bs) as Hin by (rewrite Hp; by left).
    apply live_range in Hin as (_ & _ & Hsz); [|done]. apply sizes_perm in Hp.
    change (sizes ((p, sz) :: live (h_base h) bs')) with (sz + sizes (live (h_base h) bs')) in Hp.
    split; [lia|]. intros. lia.
  - split; [lia|]. intros sz Hin. contradiction (Hn sz Hin).
Qed.

(** What [brk] added it can take back. *)
Lemma brk_gives_back (h h1 h2 : Heap) (s s1 s1' s2 : sys) bs bs1 bs2 n r r' :
  heap_ok h s bs -> h_base h1 = h_base h -> 0 < n -> n mod 4096 = 0 ->
  brk_blocks n h s bs h1 s1 bs1 r -> r <> 0 -> h_brk h1 = h_brk h + n ->
  brk_blocks (- n) h1 s1' bs1 h2 s2 bs2 r' -> r' <> 0.
Proof.
  intros Hh Hb Hn Hm B1 Hr Hbrk B2 Hr'. destruct (bb_grown _ _ _ _ _ _ _ _ B1 Hn Hr) as [-> _].
  apply (bb_stuck _ _ _ _ _ _ _ _ B2); [lia|exact Hr'|].
  pose proof (g_brk _ (ho_geometry _ _ _ Hh)). rewrite Hb, Hbrk, Z.opp_involutive.
  replace (h_brk h + n - Z.min ((n + 4095) / 4096 * 4096) (h_brk h + n - h_base h)) with (h_base h + span bs).
  - apply extend_trimmable. by eapply heap_ok_ext.
  - rewrite <- (tiles_span _ _ _ _ (ho_tiles _ _ _ Hh)). dlia.
Qed.

Section SelfTest.
Context `{LK : LinkerOk} (held : Z -> Z).
#[local] Notation ready := (ready held).

(** ** What the command may say last *)

Definition PASSED : list Z := bytes "alloc: " ++ dec 14 ++ bytes " checks passed" ++ newline.

Definition FAILED (why : string) : list Z := bytes "alloc: FAILED, " ++ bytes why ++ newline.

Definition SHORTAGES : list string :=
  ["kmalloc(64) returned nothing"; "kmalloc(5000) returned nothing"; "vmalloc(12288) returned nothing";
   "kbrk could not grow the heap"; "vbrk could not grow the vmalloc area"; "vbrk could not give the pages back"].

(** The last thing printed is [text]. *)
Definition said (text : list Z) (o : os) : Prop := exists o1, print text o1 = Done tt o.

(** One of the heaps cannot grow by a page. *)
Definition short (o : os) : Prop :=
  exhausted (k_heap (o_kernel o)) (o_sys o) \/ exhausted (v_heap (o_kernel o)) (o_sys o).

Definition verdict (_ : unit) (o : os) : Prop :=
  prompt held o /\ (said PASSED o \/ exists why, why ∈ SHORTAGES /\ said (FAILED why) o /\ short o).

Lemma exhausted_same (h : Heap) (s s' : sys) : exhausted h s -> s_pmm s' = s_pmm s -> exhausted h s'.
Proof. intros Hx E. apply (exhausted_left _ s); [exact Hx|]. cbn. by rewrite E. Qed.

Lemma short_print text o o' : short o -> print text o = Done tt o' -> short o'.
Proof.
  intros Hs E. destruct (print_same _ _ _ E) as (E1 & E2 & E3). unfold short. rewrite E2, E3.
  destruct Hs as [Hs|Hs]; [left|right]; by eapply exhausted_same.
Qed.

Lemma surely_passed o kb vb : ready o kb vb -> surely (print PASSED) o verdict.
Proof.
  intros Ho. apply (surely_print Ho). intros s' E Ho'. split; [by eapply prompt_ready|]. left. by exists o.
Qed.

Lemma surely_failed why o kb vb : ready o kb vb -> why ∈ SHORTAGES -> short o -> surely (failed why) o verdict.
Proof.
  intros Ho Hw Hs. apply (surely_print Ho). intros s' E Ho'. split; [by eapply prompt_ready|]. right.
  exists why. split; [exact Hw|]. split; [by exists o|by eapply short_print].
Qed.

(** ** The checks, last first *)

(** [vbrk] gives back what it added, when that was all it was asked for. *)
Lemma vbrk_verdict o kb vb : ready o kb vb -> surely (alloc_vbrk 12) o verdict.
Proof.
  intros Ho. unfold alloc_vbrk. apply surely_bind, (surely_call Ho true (Brk 8192)); [by_decide|].
  intros was o1 kb1 vb1 Ho1 [[_ B1] _].
  destruct (Z.eqb_spec was 0) as [Hw|Hw].
  { eapply surely_failed; [exact Ho1|by_decide|]. right. apply (bb_short _ _ _ _ _ _ _ _ B1); [lia|by left]. }
  apply surely_bind, (surely_call Ho1 true (Brk 0)); [by_decide|]. intros now o2 kb2 vb2 Ho2 [[_ B2] _].
  destruct (bb_same _ _ _ _ _ _ _ _ B2 eq_refl) as (_ & Hh2 & ->).
  destruct (bb_still _ _ _ _ _ _ _ _ B2 (or_introl eq_refl)) as [_ L2].
  apply surely_bind, (surely_print Ho2). intros s3 E3 Ho3.
  apply surely_bind, (surely_call Ho3 true (Brk (-8192))); [by_decide|]. intros back o4 kb4 vb4 Ho4 [[_ B4] _].
  change (v_heap (o_kernel (with_osys s3 o2))) with (v_heap (o_kernel o2)) in B4. rewrite Hh2 in B4.
  destruct (Z.eqb_spec back 0) as [Hz|_].
  { eapply surely_failed; [exact Ho4|by_decide|]. right.
    destruct (bb_still _ _ _ _ _ _ _ _ B4 (or_intror (conj eq_refl Hz))) as [-> L4].
    assert (exhausted (v_heap (o_kernel o1)) (o_sys o1)) as Hx.
    { apply (bb_short _ _ _ _ _ _ _ _ B1); [lia|]. right.
      destruct Ho as ([_ Hv _ (V1 & _)] & _), Ho1 as ([_ Hv1 _ (W1 & _)] & _).
      destruct (bb_grown _ _ _ _ _ _ _ _ B1 ltac:(lia) Hw) as [_ Hb].
      change ((8192 + 4095) / 4096 * 4096) with 8192 in *.
      destruct (Z.eq_dec (h_brk (v_heap (o_kernel o1))) (h_brk (v_heap (o_kernel o)) + 8192)) as [He|]; [exfalso|lia].
      refine (brk_gives_back _ _ _ _ _ _ _ _ _ _ 8192 was back Hv _ _ _ B1 Hw He B4 Hz); [congruence|lia|done]. }
    apply (exhausted_left _ _ _ Hx). etransitivity; [exact L4|]. etransitivity; [|exact L2].
    destruct (print_same _ _ _ E3) as (E & _).
    change (Pmm.AVAILABLE (s_pmm (o_sys (with_osys s3 o2))) <= Pmm.AVAILABLE (s_pmm (o_sys o2))). rewrite E. lia. }
  apply surely_bind, (surely_call Ho4 true (Brk 0)); [by_decide|]. intros last o5 kb5 vb5 Ho5 _.
  apply surely_bind, (surely_print Ho5). intros s6 _ Ho6. eapply surely_passed; exact Ho6.
Qed.

(** A break moved by one page moves back. *)
Lemma kbrk_verdict o kb vb : ready o kb vb -> surely (alloc_kbrk 10) o verdict.
Proof.
  intros Ho. unfold alloc_kbrk. apply surely_bind, (surely_call Ho false (Brk 4096)); [by_decide|].
  intros was o1 kb1 vb1 Ho1 [[_ B1] _].
  destruct (Z.eqb_spec was 0) as [Hw|Hw].
  { eapply surely_failed; [exact Ho1|by_decide|]. left. apply (bb_short _ _ _ _ _ _ _ _ B1); [lia|by left]. }
  apply surely_bind, (surely_call Ho1 false (Brk 0)); [by_decide|]. intros now o2 kb2 vb2 Ho2 [[_ B2] _].
  destruct (bb_same _ _ _ _ _ _ _ _ B2 eq_refl) as (_ & Hh2 & ->).
  apply surely_bind, (surely_print Ho2). intros s3 _ Ho3.
  apply surely_bind, (surely_call Ho3 false (Brk (-4096))); [by_decide|]. intros back o4 kb4 vb4 Ho4 [[_ B4] _].
  change (k_heap (o_kernel (with_osys s3 o2))) with (k_heap (o_kernel o2)) in B4. rewrite Hh2 in B4.
  destruct (Z.eqb_spec back 0) as [Hz|_].
  { exfalso. destruct Ho as ([Hk _ (K1 & _) _] & _), Ho1 as ([Hk1 _ (L1 & _) _] & _).
    refine (brk_gives_back _ _ _ _ _ _ _ _ _ _ 4096 was back Hk _ _ _ B1 Hw _ B4 Hz); [congruence|lia|done|].
    destruct (bb_grown _ _ _ _ _ _ _ _ B1 ltac:(lia) Hw) as [_ Hb].
    pose proof (g_align _ (ho_geometry _ _ _ Hk)). pose proof (g_align _ (ho_geometry _ _ _ Hk1)). dlia. }
  apply surely_bind, (surely_call Ho4 false (Brk 0)); [by_decide|]. intros last o5 kb5 vb5 Ho5 _.
  apply surely_bind, (surely_print Ho5). intros s6 _ Ho6. by apply (vbrk_verdict _ _ _ Ho6).
Qed.

(** What a call to [malloc] that succeeds gives. *)
Lemma malloc_given (virtual : bool) want o o' kb vb kb' vb' r :
  ready o kb vb -> r <> 0 ->
  called virtual (Malloc want) o kb vb o' kb' vb' r ->
  exists sz, want <= sz /\ r mod 8 = 0 /\ 0 < r /\ given virtual kb' vb' r sz /\
    forall p n, given virtual kb vb p n -> given virtual kb' vb' p n.
Proof.
  intros ([_ _ (K1 & _) (V1 & _)] & _) Hr He.
  destruct virtual; destruct He as [[_ He] _]; destruct (He Hr) as (sz & A1 & A2 & A3 & A4); exists sz;
    cbn [given]; [rewrite V1 in A4|rewrite K1 in A4]; (split; [exact A1|]); (split; [exact A2|]); (split; [exact A3|]).
  all: rewrite A4; split; [by left|]. all: intros p n Hin; rewrite A4; by right.
Qed.

(** One that fails leaves an exhausted heap. *)
Lemma malloc_short (virtual : bool) want o o' kb vb kb' vb' r :
  ready o kb vb -> r = 0 -> 0 < want <= 0x01000000 ->
  called virtual (Malloc want) o kb vb o' kb' vb' r -> short o'.
Proof.
  intros ([_ _ (K1 & K2 & _) (V1 & V2 & _)] & _) Hr Hw He. unfold short.
  destruct virtual; destruct He as [[He _] _]; destruct (He Hr) as [_ Hx]; [right|left]; apply Hx.
  - rewrite V1, V2. unfold VMALLOC_LIMIT, VMALLOC_BASE, HEADER. lia.
  - rewrite K1, K2. unfold KHEAP_LIMIT, KHEAP_BASE, HEADER. lia.
Qed.

(** [kfree] and [vfree]. *)
Lemma surely_free o kb vb (virtual : bool) p (Q : unit -> os -> Prop) :
  ready o kb vb ->
  (forall o' kb' vb', ready o' kb' vb' ->
     called virtual (Free p) o kb vb o' kb' vb' 0 -> Q tt o') ->
  surely (in_kernel (if virtual then vfree p else kfree p)) o Q.
Proof.
  intros Ho HQ. destruct (surely_call Ho virtual (Free p) (fun r o' => r = 0 -> Q tt o') I) as (r & o' & E & H').
  { intros r o' kb' vb' Ho' He ->. by apply (HQ o' kb' vb'). }
  revert E. unfold surely, in_kernel, zoom. destruct virtual; cbn [kernel_call]; unfold bind, ret;
    [destruct (vfree p (o_kernel o)) as [[] k| | |]|destruct (kfree p (o_kernel o)) as [[] k| | |]]; try discriminate;
    intros [= <- <-]; eexists _, _; (split; [reflexivity|]); by apply H'.
Qed.

Lemma vmalloc_verdict o kb vb : ready o kb vb -> surely (alloc_vmalloc 7) o verdict.
Proof.
  intros Ho. unfold alloc_vmalloc. apply surely_bind, (surely_call Ho true (Malloc (3 * 4096))); [by_decide|].
  intros r o1 kb1 vb1 Ho1 He. destruct (Z.eqb_spec r 0) as [Hr0|Hr0].
  { eapply surely_failed; [exact Ho1|by_decide|]. refine (malloc_short true _ _ _ _ _ _ _ _ Ho Hr0 _ He); by_decide. }
  destruct (malloc_given true _ o o1 kb vb kb1 vb1 r Ho Hr0 He) as (sz & Hsz & H8 & Hpos & Hg & _).
  apply surely_bind, (surely_size Ho1 true r sz); [exact Hg|lia|]. intros s2 Ho2.
  apply surely_bind, (surely_print Ho2). intros s3 _ Ho3. apply surely_bind, (surely_print Ho3). intros s4 _ Ho4.
  apply surely_bind, (surely_frames (held := held) kb1 vb1 r); [exact Ho4|]. intros sc s5 Ho5.
  apply surely_bind, (surely_print Ho5). intros s6 _ Ho6.
  apply surely_bind, (surely_pattern (held := held) kb1 vb1 true r sz Hg); [dlia|lia|exact Ho6|lia|]. intros s7 Ho7. cbn [negb].
  apply surely_bind, (surely_free _ _ _ true r _ Ho7). intros o8 kb8 vb8 Ho8 _. by apply (kbrk_verdict _ _ _ Ho8).
Qed.

(** Freeing [small] takes its bytes, and freeing [big] adds none. *)
Lemma kfree_verdict o kb vb small sz big :
  ready o kb vb -> given false kb vb small sz -> surely (alloc_kfree small big 6) o verdict.
Proof.
  intros Ho Hg. unfold alloc_kfree. apply surely_bind, (surely_stats Ho false). intros st s1 Hst Ho1.
  apply surely_bind, (surely_free _ _ _ false small _ Ho1). intros o2 kb2 vb2 Ho2 [E2 _].
  apply surely_bind, (surely_free _ _ _ false big _ Ho2). intros o3 kb3 vb3 Ho3 [E3 _].
  apply surely_bind, (surely_stats Ho3 false). intros st' s4 Hst' Ho4.
  apply surely_bind, (surely_print Ho4). intros s5 _ Ho5.
  destruct (Z.geb_spec (st_used st') (st_used st)) as [Hge|_]; [exfalso|by apply (vmalloc_verdict _ _ _ Ho5)].
  assert (forall o kb vb, ready o kb vb -> Forall block_ok kb) as Hok.
  { intros o' kb' vb' ([Hk _ _ _] & _). exact (heap_ok_ext _ _ _ Hk). }
  destruct (freed_sizes _ _ _ _ _ _ _ _ (Hok _ _ _ Ho1) E2) as [_ H2].
  destruct (freed_sizes _ _ _ _ _ _ _ _ (Hok _ _ _ Ho2) E3) as [H3 _].
  cbn [given] in Hg. destruct Ho1 as ([_ _ (K1 & _) _] & _). rewrite <- K1 in Hg. specialize (H2 sz Hg). lia.
Qed.

(** The two pages of [big] are side by side. *)
Lemma big_verdict o kb vb small sz :
  ready o kb vb -> given false kb vb small sz -> surely (alloc_big small 3) o verdict.
Proof.
  intros Ho Hs. unfold alloc_big. apply surely_bind, (surely_call Ho false (Malloc 5000)); [by_decide|].
  intros r o1 kb1 vb1 Ho1 He. destruct (Z.eqb_spec r 0) as [Hr0|Hr0].
  { eapply surely_failed; [exact Ho1|by_decide|]. refine (malloc_short false _ _ _ _ _ _ _ _ Ho Hr0 _ He); by_decide. }
  destruct (malloc_given false _ o o1 kb vb kb1 vb1 r Ho Hr0 He) as (n & Hn & H8 & Hpos & Hg & Hold).
  destruct (kernel_block_phys _ _ _ r n r (proj1 Ho1) Hg) as (U1 & P1 & L1); [lia|].
  apply surely_bind, (surely_translate Ho1); [exact U1|]. intros s2 Ho2.
  destruct (kernel_block_phys _ _ _ r n (r + 4096) (proj1 Ho2) Hg) as (U2 & P2 & L2); [lia|].
  change (k_heap (o_kernel (with_osys s2 o1))) with (k_heap (o_kernel o1)) in P2, L2.
  rewrite (wrap32_small _ U2). apply surely_bind, (surely_translate Ho2); [exact U2|]. intros s3 Ho3.
  change (o_sys o1) with (k_sys (o_kernel o1)). change (o_sys (with_osys s2 o1)) with (k_sys (o_kernel (with_osys s2 o1))).
  rewrite P1, P2. cbn [from_option id]. apply surely_bind, (surely_print Ho3). intros s4 _ Ho4.
  rewrite (wrap32_small (h_phys_base (k_heap (o_kernel o1)) + (r - KHEAP_BASE) + 4096)) by (unfold is_u32; lia).
  replace (h_phys_base (k_heap (o_kernel o1)) + (r + 4096 - KHEAP_BASE))
    with (h_phys_base (k_heap (o_kernel o1)) + (r - KHEAP_BASE) + 4096) by lia.
  rewrite Z.eqb_refl. cbn [negb].
  apply surely_bind, (surely_pattern (held := held) kb1 vb1 false r n Hg); [dlia|lia|exact Ho4|lia|]. intros s5 Ho5.
  cbn [negb]. exact (kfree_verdict _ _ _ small sz r Ho5 (Hold _ _ Hs)).
Qed.

Lemma alloc_verdict o args : prompt held o -> surely (cmd_alloc args) o verdict.
Proof.
  intros (kb & vb & Ho). unfold cmd_alloc. cbv zeta. apply surely_bind, (surely_call Ho false (Malloc 64)); [by_decide|].
  intros r o1 kb1 vb1 Ho1 He. destruct (Z.eqb_spec r 0) as [Hr0|Hr0].
  { eapply surely_failed; [exact Ho1|by_decide|]. refine (malloc_short false _ _ _ _ _ _ _ _ Ho Hr0 _ He); by_decide. }
  destruct (malloc_given false _ o o1 kb vb kb1 vb1 r Ho Hr0 He) as (n & Hn & H8 & Hpos & Hg & _).
  destruct (kernel_block_phys _ _ _ r n r (proj1 Ho1) Hg) as (U1 & _ & _); [lia|].
  apply surely_bind, (surely_size Ho1 false r n); [exact Hg|lia|]. intros s2 Ho2.
  apply surely_bind, (surely_translate Ho2); [exact U1|]. intros s3 Ho3.
  apply surely_bind, (surely_print Ho3). intros s4 _ Ho4.
  apply surely_bind, (surely_size Ho4 false r n); [exact Hg|lia|]. intros s5 Ho5.
  destruct (Z.ltb_spec n 64) as [|_]; [lia|].
  apply surely_bind, (surely_pattern (held := held) kb1 vb1 false r n Hg); [dlia|lia|exact Ho5|lia|]. intros s6 Ho6.
  cbn [negb]. exact (big_verdict _ _ _ r n Ho6 Hg).
Qed.

(** C4: The allocator's self-test never finds the allocator wrong.  At the
    prompt the command [alloc] comes back, to a kernel that still satisfies
    the invariant, and the last line it printed says that its 14 checks
    passed, or names one of the three allocations, of the two growing breaks
    or the pages [vbrk] could not take back: then memory is indeed short, one
    of the heaps being unable to grow by a page (its address range or its
    physical block is used up, or at most one frame of the machine is free).
    It never reports a block smaller than asked for, bytes a block does not
    hold, a [kmalloc] block that is not physically contiguous, bytes that
    [kfree] kept or a page that [kbrk] could not give back. *)
Theorem alloc_blames_memory_only o args :
  prompt held o ->
  exists o', cmd_alloc args o = Done tt o' /\ prompt held o' /\
    (said PASSED o' \/ exists why, why ∈ SHORTAGES /\ said (FAILED why) o' /\ short o').
Proof. intros Ho. destruct (alloc_verdict o args Ho) as ([] & o' & E & H1 & H2). by exists o'. Qed.

End SelfTest.

Lemma alloc_blames_memory_only_witness :
  exists o, cmd_alloc [] demo_prompt_os = Done tt o /\ @prompt demo_linker (demo_held demo_vm) o /\
    (said PASSED o \/ exists why, why ∈ SHORTAGES /\ said (FAILED why) o /\ short o).
Proof.
  exact (@alloc_blames_memory_only demo_linker (demo_held demo_vm) demo_prompt_os [] demo_at_prompt).
Defined.
