(* ===== verification/Prompt.v ===== *)
(** * The kernel at the prompt

    A part of the shell is orderly when, started on the invariant of Ready.v,
    it never takes a fault the kernel does not handle, and comes back with the
    invariant or stops the processor.  Every command is, and so is the loop
    that reads and runs lines. *)

From S2P Require Import Prelude.
From S2P Require Import Mem.
From S2P Require Import Klib.
From S2P Require Import Machine.
From S2P Require Import Pmm.
From S2P Require Import Fmt.
From S2P Require Stack.
From S2P Require Import Panic.
From S2P Require Import Heap.
From S2P Require Import HeapSpec.
From S2P Require Import HeapOps.
From S2P Require Import HeapCalls.
From S2P Require Import HeapEnv.
From S2P Require Import Kmalloc.
From S2P Require Import Paging.
From S2P Require Import PagingSpec.
From S2P Require Import PagingOps.
From S2P Require Import AddressSpace.
From S2P Require Import Inspect.
From S2P Require Import Calm.
From S2P Require Import Payload.
From S2P Require Import BootMem.
From S2P Require Import Gdt.
From S2P Require Import Segments.
From S2P Require Import Idt.
From S2P Require Import Exceptions.
From S2P Require Import ProbeSpec.
From S2P Require Import Boot.
From S2P Require Import BootSpec.
From S2P Require Import Fixtures.
From S2P Require Import Os.
From S2P Require Import Keyboard.
From S2P Require Import Shell.
From S2P Require Import Ready.
From S2P Require Import SelfTest.

Section Prompt.
Context `{LK : LinkerOk}.

(** What the guarded bytes hold. *)
Context (held : Z -> Z).
#[local] Notation ready := (ready held).
#[local] Notation prompt := (prompt held).

(** ** Orderly code *)

(** How code may fail to come back: still waiting for a device, or with the
    processor stopped. *)
Record leave : Type := mkLeave { may_wait : bool; may_stop : bool }.

(** No unhandled fault, and [w] is respected. *)
Definition safely {A} (w : leave) (c : M os A) (o : os) (Q : A -> os -> Prop) : Prop :=
  match c o with
  | Done a o' => Q a o'
  | Halted _ => may_stop w = true
  | Fault _ _ _ => False
  | OutOfFuel => may_wait w = true
  end.

Definition orderly {A} (w : leave) (c : M os A) : Prop :=
  forall o, prompt o -> safely w c o (fun _ => prompt).

Section Rules.
Context {A B : Type} (w : leave).

Lemma safely_bind (c : M os A) (k : A -> M os B) o Q :
  safely w c o (fun a o' => safely w (k a) o' Q) -> safely w (bind c k) o Q.
Proof. unfold safely, bind. by destruct (c o). Qed.

Lemma safely_weaken (c : M os A) o (P Q : A -> os -> Prop) :
  safely w c o P -> (forall a o', P a o' -> Q a o') -> safely w c o Q.
Proof. unfold safely. destruct (c o); auto. Qed.

Lemma safely_Done (c : M os A) o a o' (Q : A -> os -> Prop) : c o = Done a o' -> Q a o' -> safely w c o Q.
Proof. unfold safely. by intros ->. Qed.

Lemma orderly_bind (c : M os A) (k : A -> M os B) :
  orderly w c -> (forall a, orderly w (k a)) -> orderly w (bind c k).
Proof.
  intros Hc Hk o Ho. apply safely_bind. eapply safely_weaken; [by apply Hc|]. intros a o' Ho'. by apply Hk.
Qed.

Lemma orderly_ret (a : A) : orderly w (ret a).
Proof. intros o Ho. exact Ho. Qed.

Lemma orderly_gets (f : os -> A) : orderly w (gets f).
Proof. intros o Ho. exact Ho. Qed.

Lemma orderly_if (b : bool) (c c' : M os A) :
  orderly w c -> orderly w c' -> orderly w (if b then c else c').
Proof. by destruct b. Qed.

End Rules.

Lemma orderly_for_each {I} w (l : list I) (body : I -> M os unit) :
  (forall i, orderly w (body i)) -> orderly w (for_each l body).
Proof.
  intros Hb. induction l as [|i l IH]; cbn [for_each]; [apply orderly_ret|by apply orderly_bind].
Qed.

(** A part that works on the machine and leaves the heaps alone. *)
Lemma orderly_stops {A} w (c : M sys A) :
  may_stop w = true ->
  (forall s, env_ok s -> fixtures held s ->
     (exists a s', c s = Done a s' /\ calm s s') \/ (exists s', c s = Halted s')) ->
  orderly w (in_sys c).
Proof.
  intros Hw Hc o (kb & vb & Ho). unfold safely, in_sys, zoom.
  destruct (Hc (o_sys o) (ready_ok _ _ _ Ho) (proj1 (proj2 Ho))) as [(a & s' & -> & C)|(s' & ->)]; [|exact Hw].
  exists kb, vb. by apply ready_calm.
Qed.

Lemma orderly_sys {A} w (c : M sys A) :
  (forall s, env_ok s -> fixtures held s -> exists a s', c s = Done a s' /\ calm s s') ->
  orderly w (in_sys c).
Proof.
  intros Hc o (kb & vb & Ho). unfold safely, in_sys, zoom.
  destruct (Hc (o_sys o) (ready_ok _ _ _ Ho) (proj1 (proj2 Ho))) as (a & s' & -> & C).
  exists kb, vb. by apply ready_calm.
Qed.

Lemma safely_halted {A} w (c : M sys A) o (Q : A -> os -> Prop) :
  may_stop w = true -> (exists s', c (o_sys o) = Halted s') -> safely w (in_sys c) o Q.
Proof. intros Hw (s' & E). unfold safely, in_sys, zoom. by rewrite E. Qed.

Lemma orderly_vga w f : orderly w (in_sys (on_vga f)).
Proof.
  apply orderly_sys. intros s Hok _. eexists tt, _. split; [reflexivity|by apply calm_vga].
Qed.

Lemma orderly_print w text : orderly w (print text).
Proof. apply orderly_vga. Qed.

Lemma orderly_shows {A} w (c : M sys A) :
  (forall s, env_ok s -> exists P, shows c s P) -> orderly w (in_sys c).
Proof.
  intros Hc. apply orderly_sys. intros s Hok _. destruct (Hc s Hok) as (P & a & ts & s' & E & Hs & _).
  exists a, s'. split; [exact E|]. by eapply calm_showed.
Qed.

Lemma calm_looked s s' : env_ok s -> looked s s' -> calm s s'.
Proof.
  intros Hok (Q & Ht & Hp & _ & He). apply calm_equiv; [exact Q| |exact Hp|exact He].
  cbn. rewrite Hp. by apply (vm_ok_equiv (s_machine s)).
Qed.

Lemma orderly_looks {A} w (c : M sys A) : looks c -> orderly w (in_sys c).
Proof.
  intros Hc. apply orderly_sys. intros s Hok Hf.
  destruct (Hc s (vm_tlb _ _ Hok) (proj1 (fixtures_stack held s Hok Hf))) as (a & s' & E & Hs).
  exists a, s'. split; [exact E|by apply calm_looked].
Qed.

Lemma orderly_halts {A} w (c : M sys A) : may_stop w = true -> halts c -> orderly w (in_sys c).
Proof.
  intros Hw Hc. apply orderly_stops; [exact Hw|]. intros s Hok Hf. right.
  destruct (Hc s (vm_tlb _ _ Hok) (proj1 (fixtures_stack held s Hok Hf))) as (s' & E & _). by exists s'.
Qed.

#[local] Hint Resolve orderly_ret orderly_gets orderly_print orderly_vga orderly_bind orderly_if orderly_for_each : kfs.

(** ** Commands that print *)

Lemma orderly_help w args : orderly w (cmd_help args).
Proof. unfold cmd_help. auto with kfs. Qed.

Lemma orderly_clear w args : orderly w (cmd_clear args).
Proof. unfold cmd_clear. auto with kfs. Qed.

Lemma orderly_space w args : orderly w (cmd_space args).
Proof. unfold cmd_space. auto with kfs. Qed.

Lemma orderly_report w st : orderly w (report st).
Proof. unfold report. auto 10 with kfs. Qed.

Lemma orderly_cpu {A} w (f : cpu * sys -> A) : orderly w (in_cpu (gets f)).
Proof.
  intros o (kb & vb & Ho). unfold safely, in_cpu, zoom, gets. exists kb, vb. by destruct o as [[] ? ? ? ?].
Qed.

Lemma orderly_gdt w args : orderly w (cmd_gdt args).
Proof.
  unfold cmd_gdt, Gdt.current, selectors. apply orderly_bind; [apply orderly_cpu|intros g].
  apply orderly_bind; [apply orderly_print|intros _]. apply orderly_bind; [apply orderly_cpu|intros [[cs ss] ds]].
  apply orderly_bind; [apply orderly_print|intros _]. apply orderly_for_each. intros seg.
  unfold gdt_row, print_marks. destruct (Segments.seg_range _) as [[lo hi]|]; auto 10 with kfs.
Qed.

Lemma orderly_halt w args : may_stop w = true -> orderly w (cmd_halt args).
Proof.
  intros Hw. unfold cmd_halt. apply orderly_bind; [apply orderly_print|intros _].
  apply orderly_halts; [exact Hw|apply halts_stop].
Qed.

Lemma orderly_pages w args : orderly w (cmd_pages args).
Proof.
  apply orderly_shows. intros s Hok. destruct (dump_spec s Hok) as (h1 & h2 & rs & s' & E & Hs & _).
  exists (fun _ _ => True), tt. by eauto.
Qed.

Lemma orderly_for_each_in {I} w (l : list I) (body : I -> M os unit) :
  (forall i, i ∈ l -> orderly w (body i)) -> orderly w (for_each l body).
Proof.
  induction l as [|i l IH]; intros Hb; cbn [for_each]; [apply orderly_ret|].
  apply orderly_bind; [apply Hb; by left|intros _; apply IH; intros j Hj; apply Hb; by right].
Qed.

Lemma parse_u32_range text v : parse_u32 text = Some v -> is_u32 v.
Proof.
  rewrite parse_u32_accepts_iff. intros (radix & digits & ds & Hsyn & _ & Hds & -> & Hle).
  unfold U32_MAX in Hle. assert (0 <= radix) as Hr by (destruct Hsyn as [[-> _]|[-> _]]; lia).
  assert (forall v0, 0 <= v0 -> 0 <= foldl (fun v d => v * radix + d) v0 ds) as Hpos.
  { clear Hle Hsyn. induction Hds as [|b d bs ds Hd _ IH]; intros v0 Hv0; [exact Hv0|]. cbn [foldl]. apply IH.
    destruct Hd as [Hd _]. pose proof (Z.mul_nonneg_nonneg v0 radix Hv0 Hr). lia. }
  split; [apply (Hpos 0)|]; lia.
Qed.

Lemma orderly_virt w args : orderly w (cmd_virt args).
Proof.
  unfold cmd_virt. destruct args as [|b args].
  - apply orderly_bind; [apply orderly_print|intros _].
    apply orderly_bind; [|intros _; apply orderly_print].
    destruct lk_start as [C1 _], lk_end as [_ E1].
    destruct lk_code as [K1 K2], lk_readonly as [_ K3].
    apply orderly_for_each_in. intros addr Hin. apply orderly_shows. intros s Hok. eexists. apply summary_shows; [exact Hok|].
    unfold is_u32. unfold image in Hin. cbn [im_start im_end] in Hin.
    rewrite !elem_of_cons, elem_of_nil in Hin.
    unfold Gdt.BASE, KHEAP_BASE, VMALLOC_BASE, TABLE_WINDOW in Hin. lia.
  - destruct (parse_u32 (b :: args)) as [addr|] eqn:Ea; [|apply orderly_print].
    apply orderly_shows. intros s Hok. eexists. apply describe_shows; [exact Hok|by eapply parse_u32_range].
Qed.

Lemma orderly_panic w args : may_stop w = true -> orderly w (cmd_panic args).
Proof.
  intros Hw. unfold cmd_panic. apply orderly_if; [|apply orderly_if].
  - apply orderly_sys. intros s Hok _. destruct (calm_koops (bytes "the shell asked for a panic it can walk away from") s Hok)
      as (s' & E & C). by exists tt, s'.
  - apply orderly_halts; [exact Hw|apply halts_kpanic].
  - apply orderly_print.
Qed.

Lemma orderly_stack w args : orderly w (cmd_stack args).
Proof.
  apply orderly_sys. intros s Hok Hf. destruct (fixtures_stack held s Hok Hf) as ((S1 & S2 & _) & Hr).
  pose proof (fx_esp held s Hf) as He. unfold Stack.esp. rewrite (bind_Done (gets s_esp) _ s (s_esp s) s) by done.
  destruct (stack_print_spec (s_esp s) Stack.WINDOW s (vm_tlb _ _ Hok)) as (s' & E & Hs);
    [unfold is_u32; lia|by_decide|exact S1|exact Hr|].
  exists tt, s'. split; [exact E|by apply calm_looked].
Qed.

(** ** The user page *)

Lemma user_demo_page : is_u32 USER_DEMO /\ in_user (USER_DEMO / 4096).
Proof. unfold in_user. by_decide. Qed.

Lemma orderly_calmly {A} w (c : M sys A) :
  (forall s, env_ok s -> calmly c s (fun _ _ => True)) -> orderly w (in_sys c).
Proof.
  intros Hc. apply orderly_sys. intros s Hok _. destruct (Hc s Hok) as (a & s' & E & C & _). by exists a, s'.
Qed.

Lemma user_protect_calmly s : env_ok s -> calmly user_protect s (fun _ _ => True).
Proof.
  intros Hok. destruct user_demo_page as [Hu Hn]. unfold user_protect. apply calmly_bind.
  destruct (calm_protect s USER_DEMO USER_READONLY Hok Hu Hn ltac:(by_decide)) as (r & s1 & E & C).
  exists r, s1. split; [exact E|]. split; [exact C|]. intros Hok1.
  do 2 (apply calmly_bind; eapply calmly_shows; [apply (shows_entry_of _ _ (fun _ _ => True)); done|]; intros ? ? _ ?).
  by apply calmly_printk.
Qed.

(** A user page in kernel space is refused. *)
Lemma map_page_refused s frame (Q : bool -> sys -> Prop) :
  env_ok s -> (forall s', Q false s') -> calmly (map_page (KHEAP_BASE + 0x01000000) frame USER_PAGE) s Q.
Proof.
  intros Hok HQ. unfold map_page. change (negb (Z.land USER_PAGE USER =? 0) && is_kernel (KHEAP_BASE + 0x01000000)) with true.
  apply calmly_bind, calmly_koops; [exact Hok|]. intros s1 Hok1. by apply calmly_ret.
Qed.

(** The page just mapped can be written. *)
Lemma user_demo_mapped s frame :
  is_u32 frame -> page_entry (s_machine s) (USER_DEMO / 4096) = Some (leaf frame USER_PAGE) -> mapped s USER_DEMO.
Proof.
  intros Hf He. destruct user_demo_page as [Hu Hn]. split; [exact Hu|]. split; [by_decide|].
  split; [by apply in_user_managed|]. cbn [page sys_view]. rewrite He. cbn [fmap option_fmap option_map].
  destruct (leaf_fields frame USER_PAGE Hf ltac:(by_decide)) as (_ & _ & _ & -> & _). by eexists.
Qed.

Lemma orderly_user w args : orderly w (cmd_user args).
Proof.
  unfold cmd_user. apply orderly_calmly. intros s Hok. destruct user_demo_page as [Hu Hn].
  apply calmly_bind, calmly_release; [done..|]. intros s1 Hok1. apply calmly_bind.
  destruct (calm_map_new s1 USER_DEMO USER_PAGE Hok1 Hu Hn ltac:(by_decide)) as ([frame|] & s2 & E2 & C2 & H2);
    eexists _, s2; (split; [exact E2|]; split; [exact C2|]); intros Hok2; [|by apply calmly_printk].
  destruct H2 as [He Hf]. apply calmly_bind, calmly_printk; [exact Hok2|]. intros s3 Q3 Hok3.
  apply calmly_bind. eapply calmly_shows; [by apply describe_shows|]. intros _ s4 Q4 Hok4.
  assert (mapped s4 USER_DEMO) as Hm4 by (apply (user_demo_mapped s4 frame Hf); by rewrite Q4, Q3).
  apply calmly_bind. destruct (calm_store s4 USER_DEMO 0x42424242 Hok4 Hm4 ltac:(by_decide) Hn) as (s5 & E5 & C5 & _ & P5).
  exists tt, s5. split; [exact E5|]. split; [exact C5|]. intros Hok5.
  apply calmly_bind. destruct (calm_load s5 USER_DEMO Hok5) as (s6 & E6 & C6).
  { by apply (mapped_pages s4). }
  eexists _, s6. split; [exact E6|]. split; [exact C6|]. intros Hok6.
  apply calmly_bind, calmly_printk; [exact Hok6|]. intros s7 _ Hok7.
  apply calmly_bind. destruct (user_protect_calmly s7 Hok7) as (u & s8 & E8 & C8 & _).
  exists u, s8. split; [exact E8|]. split; [exact C8|]. intros Hok8.
  apply calmly_bind, calmly_printk; [exact Hok8|]. intros s9 _ Hok9.
  apply calmly_bind, map_page_refused; [exact Hok9|]. intros s10 Hok10.
  apply calmly_bind, calmly_release; [done..|]. intros s11 Hok11.
  apply calmly_bind, calmly_translate; [done..|]. intros r s12 _ Hok12. by apply calmly_printk.
Qed.


(** ** Faults on purpose *)

Section Fault.
Context (r : regs).

(** A fault that is not resolved stops the processor. *)
Lemma instruction_stops {A} (c : M sys A) s addr error m1 :
  env_ok s -> fixtures held s -> c s = Fault addr error (with_machine (set_cr2 addr m1) s) ->
  m1 ≡ s_machine s -> tlb_ok m1 -> resolvable m1 (s_pmm s) addr error = false ->
  exists s', instruction 2 r c s = Halted s'.
Proof.
  intros Hok Hf Ec Q Ht Hres. assert (calm s (with_machine m1 s)) as C.
  { apply calm_equiv; [exact Q|by apply (vm_ok_equiv (s_machine s))|done..]. }
  pose proof (calm_cr2 addr (with_machine m1 s) (ca_ok _ _ C)) as C2.
  change (with_machine (set_cr2 addr (s_machine (with_machine m1 s))) (with_machine m1 s))
    with (with_machine (set_cr2 addr m1) s) in C2.
  pose proof (fixtures_untouched held _ _ _ (fun _ _ => I) (ca_untouched _ _ (calm_trans _ _ _ C C2) (fun _ => True)) Hf) as Hf2.
  destruct (unresolved_fault_spec c r s addr error (with_machine (set_cr2 addr m1) s) 1) as (s' & E & _);
    [apply C2|apply (fixtures_stack held); [apply C2|exact Hf2]|exact Ec|reflexivity|exact Hres|].
  by exists s'.
Qed.

Lemma fault_demand s : env_ok s -> fixtures held s ->
  (exists a s', instruction 2 r (load32 DEMAND_BASE) s = Done a s' /\ calm s s') \/
  (exists s', instruction 2 r (load32 DEMAND_BASE) s = Halted s').
Proof.
  intros Hok Hf. assert (is_u32 DEMAND_BASE /\ in_user (DEMAND_BASE / 4096)) as [Hu Hn] by (unfold in_user; by_decide).
  destruct (page_entry (s_machine s) (DEMAND_BASE / 4096)) as [e|] eqn:He.
  { destruct (calm_load_page s DEMAND_BASE e Hok Hu ltac:(by_decide) He) as (v & s' & E & C).
    left. exists v, s'. split; [|exact C]. cbn [instruction]. by rewrite E. }
  pose proof (load_absent s DEMAND_BASE Hok Hu ltac:(by_decide) He) as El.
  destruct (resolvable (s_machine s) (s_pmm s) DEMAND_BASE 0) eqn:Hres; cycle 1.
  { right. apply (instruction_stops _ s DEMAND_BASE 0 (s_machine s)); [done|done|exact El|done|apply Hok|exact Hres]. }
  left. destruct (fault_entry_pages_in s DEMAND_BASE 0 r Hok Hres) as (s1 & E1 & Hin).
  destruct (paged_in_page s s1 DEMAND_BASE Hok eq_refl Hin) as (Hok1 & e & He1 & _).
  assert (calm s s1) as C1.
  { eapply calm_trans; [by apply (calm_cr2 DEMAND_BASE)|].
    destruct Hin as (frame & Ef & (N1 & N2 & N3 & _) & _ & Hesp).
    pose proof (alloc_frame_full _ (vm_pmm _ _ Hok)) as Ha.
    destruct (Pmm.alloc_frame (s_pmm s)) as [[a|] p1]; cbn in Ef; [|discriminate]. injection Ef as ->.
    destruct Ha as (f & Hfree & _ & -> & _). pose proof Hfree as Hfr.
    apply elem_of_free_set in Hfr as [Hfr _]. rewrite MAX_FRAMES_val in Hfr.
    assert (is_u32 (f * 4096)) as Hfu by (unfold is_u32; lia).
    destruct s1 as [m1 p2 v1 o1 e1]. cbn [s_machine s_pmm s_esp] in *. subst e1.
    apply (calm_evolves (with_machine (set_cr2 DEMAND_BASE (s_machine s)) s) m1 p2 v1 o1
      (DEMAND_BASE / 4096) (Some (leaf (f * 4096) USER_PAGE))); [by apply vm_ok_cr2|exact N1|exact N2|exact Hn|exact N3|].
    intros e' [= <-]. left. destruct (leaf_fields (f * 4096) USER_PAGE Hfu ltac:(by_decide)) as (_ & -> & _).
    rewrite entry_frame_eq, Z.mod_mul, Z.sub_0_r, Z.div_mul by (done || lia). exact Hfree. }
  destruct (calm_load_page s1 DEMAND_BASE e Hok1 Hu ltac:(by_decide) He1) as (v & s2 & E2 & C2).
  exists v, s2. split; [|by eapply calm_trans]. cbn [instruction]. rewrite El, (bind_Done _ _ _ _ _ E1).
  by rewrite E2.
Qed.

Lemma fault_ro s : env_ok s -> fixtures held s -> exists s', instruction 2 r (store32 kernel_start 0) s = Halted s'.
Proof.
  intros Hok Hf. destruct (fixtures_code held s Hf) as (e & He & Hw), lk_start as [Hlo Hal].
  assert (is_u32 kernel_start) as Hu
    by (destruct lk_code, lk_readonly as [_ ?], lk_end as [_ ?]; unfold is_u32; lia).
  assert (walk (s_machine s) kernel_start = Some (trans_of e)) as Hwk
    by (rewrite walk_page_entry by (exact Hu || apply Hok); by rewrite He).
  apply (instruction_stops _ s kernel_start 3 (touch kernel_start (s_machine s)));
    [done|done| |apply touch_equiv|apply touch_tlb_ok; [exact Hu|apply Hok]|reflexivity].
  unfold store32, on_machine, vstore32. rewrite Hal. cbn [Z.leb Z.compare]. unfold bind.
  assert (access kernel_start true (s_machine s) =
    Fault kernel_start 3 (set_cr2 kernel_start (touch kernel_start (s_machine s)))) as ->; [|done].
  pose proof (fx_wp held s Hf) as Hwp.
  assert (forall m, m_cr0 m = m_cr0 (s_machine s) -> use_trans (trans_of e) kernel_start true m =
    Fault kernel_start 3 (set_cr2 kernel_start m)) as Huse.
  { intros m Hm. unfold use_trans, write_protect in *. cbn [trans_of t_writable]. by rewrite Hw, Hm, Hwp. }
  unfold access, touch. destruct (m_tlb (s_machine s) !! (kernel_start / 4096)) as [t|] eqn:Et.
  - pose proof (tlb_ok_at _ kernel_start (vm_tlb _ _ Hok) t Et) as Et'. rewrite Hwk in Et'. injection Et' as <-.
    by apply Huse.
  - rewrite Hwk. by apply Huse.
Qed.

Lemma fault_kernel o kb vb : ready o kb vb ->
  exists s', instruction 2 r (store32 (KHEAP_BASE + 0x01800000) 0) (o_sys o) = Halted s'.
Proof.
  intros Ho. pose proof (ready_ok _ _ _ Ho) as Hok. destruct Ho as ([Hk _ (K1 & K2 & K3) _] & Hf & Hs).
  set (addr := KHEAP_BASE + 0x01800000).
  assert (page (o_sys o) (addr / 4096) = None) as Hp.
  { destruct (g_window _ (ho_geometry _ _ _ Hk) K3) as (_ & _ & _ & W & _). destruct Hs as [Hs _].
    pose proof (g_align _ (ho_geometry _ _ _ Hk)). apply (po_out _ _ (ho_pages _ _ _ Hk)).
    rewrite K1 in W. rewrite K2. unfold addr, KHEAP_LIMIT, KHEAP_BASE in *. dlia. }
  cbn in Hp. apply fmap_None in Hp.
  apply (instruction_stops _ (o_sys o) addr 2 (s_machine (o_sys o)));
    [done|done| |done|apply Hok|reflexivity].
  by apply store_absent; [|by_decide|by_decide|].
Qed.

Lemma orderly_fault w args : may_stop w = true -> orderly w (cmd_fault r args).
Proof.
  intros Hw. unfold cmd_fault. cbv zeta. apply orderly_if; [|apply orderly_if; [|apply orderly_if; [|apply orderly_print]]].
  - apply orderly_bind; [apply orderly_print|intros _]. apply orderly_bind; [|intros v; apply orderly_print].
    apply orderly_stops; [exact Hw|exact fault_demand].
  - apply orderly_bind; [apply orderly_print|intros _]. apply orderly_stops; [exact Hw|]. intros s Hok Hf. right. by apply fault_ro.
  - apply orderly_bind; [apply orderly_print|intros _]. intros o (kb & vb & Ho).
    exact (safely_halted w _ o _ Hw (fault_kernel o kb vb Ho)).
Qed.

End Fault.


(** ** Devices *)

(** A step that changes nothing of the kernel's own state. *)
Lemma prompt_kernel o o' : o_kernel o' = o_kernel o -> prompt o -> prompt o'.
Proof. intros E (kb & vb & H1 & H2 & H3). exists kb, vb. unfold ready, o_sys. by rewrite E. Qed.

Lemma orderly_inb w port : may_wait w = true -> orderly w (inb port).
Proof. intros Hw o Ho. unfold safely, inb. destruct (o_input o); [exact Hw|by apply (prompt_kernel o)]. Qed.

Lemma orderly_outb w port v : orderly w (outb port v).
Proof. intros o Ho. by apply (prompt_kernel o). Qed.

Lemma orderly_wait w fuel : may_wait w = true -> orderly w (wait_8042 fuel).
Proof.
  intros Hw. induction fuel as [|fuel IH]; [intros o _; exact Hw|]. cbn [wait_8042].
  apply orderly_bind; [by apply orderly_inb|intros v]. apply orderly_if; [exact IH|apply orderly_ret].
Qed.

Lemma orderly_int3 w r : may_stop w = true -> orderly w (int3 r).
Proof.
  intros Hw. unfold int3. apply orderly_bind; [apply orderly_gets|intros c].
  apply orderly_if; (apply orderly_halts; [exact Hw|]).
  - unfold fault_entry. cbn [f_vector]. change (3 =? PAGE_FAULT) with false. apply halts_fatal_fault.
  - apply halts_stop.
Qed.

(** The end of [cmd_reboot], once the controller took its ten commands. *)
Lemma orderly_reset w r args :
  may_stop w = true -> orderly w (in_cpu (on_cpu (set_idtr (mkGdtr 0 0))) ;; int3 r ;; cmd_halt args).
Proof.
  intros Hw. apply orderly_bind; [|intros _; apply orderly_bind; [by apply orderly_int3|intros _; by apply orderly_halt]].
  intros o Ho. apply (prompt_kernel o); [|exact Ho]. by destruct o as [[] ? ? ? ?].
Qed.

Lemma orderly_pulse w : may_wait w = true ->
  orderly w (for_each (seqZ 0 10) (fun _ => o <- get ;; wait_8042 (S (length (o_input o))) ;; outb 0x64 0xfe)).
Proof.
  intros Hw. apply orderly_for_each. intros _. apply orderly_bind; [intros o Ho; exact Ho|intros o].
  apply orderly_bind; [by apply orderly_wait|intros _; apply orderly_outb].
Qed.

Lemma orderly_reboot w r args : may_wait w = true -> may_stop w = true -> orderly w (cmd_reboot r args).
Proof.
  intros Hw Hs. unfold cmd_reboot. apply orderly_bind; [apply orderly_print|intros _].
  apply orderly_bind; [by apply orderly_pulse|intros _; by apply orderly_reset].
Qed.

(** *** What [reboot] waits for *)

(** The answers of the controller that say it takes a command. *)
Definition idle (input : list Z) : nat := length (filter (fun v => Z.land v 2 = 0) input).

Lemma wait_8042_idle fuel : forall o, (length (o_input o) < fuel)%nat ->
  match wait_8042 fuel o with
  | Done _ o' => idle (o_input o) = S (idle (o_input o'))
  | OutOfFuel => idle (o_input o) = 0%nat
  | _ => False
  end.
Proof.
  induction fuel as [|fuel IH]; intros o Hf; [lia|]. cbn [wait_8042]. unfold bind, inb, idle.
  destruct (o_input o) as [|v rest]; [done|]. cbn [length] in Hf. rewrite filter_cons.
  destruct (Z.eqb_spec (Z.land v 2) 0) as [Hz|Hz]; cbn [negb].
  - by rewrite decide_True.
  - rewrite decide_False by done. exact (IH (mkOs (o_kernel o) (o_cpu o) (o_shift o) rest (In 100 v :: o_trace o)) ltac:(cbn; lia)).
Qed.

Lemma pulse_idle l : forall o,
  for_each l (fun _ : Z => o <- get ;; wait_8042 (S (length (o_input o))) ;; outb 0x64 0xfe) o = OutOfFuel ->
  (idle (o_input o) < length l)%nat.
Proof.
  induction l as [|i l IH]; intros o; cbn [for_each length]; [done|]. unfold bind, get, gets.
  pose proof (wait_8042_idle (S (length (o_input o))) o ltac:(lia)) as Hw.
  destruct (wait_8042 _ o) as [[] o'| | |]; [|done|done|].
  - intros Hl. apply IH in Hl. change (idle (o_input o') < length l)%nat in Hl. rewrite Hw. lia.
  - intros _. rewrite Hw. lia.
Qed.

Lemma reboot_waits r args o :
  prompt o -> cmd_reboot r args o = OutOfFuel -> (idle (o_input o) < 10)%nat.
Proof.
  intros Ho. unfold cmd_reboot.
  pose proof (orderly_print (mkLeave false true) (bytes "rebooting" ++ newline) o Ho) as Hp.
  assert (exists o1, print (bytes "rebooting" ++ newline) o = Done tt o1 /\ o_input o1 = o_input o)
    as (o1 & E1 & Hin).
  { unfold print, in_sys, zoom, printk. eexists. split; reflexivity. }
  unfold safely in Hp. rewrite E1 in Hp. rewrite (bind_Done _ _ _ _ _ E1). rewrite <- Hin.
  pose proof (orderly_pulse (mkLeave true true) eq_refl o1 Hp) as Hl.
  pose proof (pulse_idle (seqZ 0 10) o1) as Hi. change (length (seqZ 0 10)) with 10%nat in Hi.
  unfold bind at 1. unfold safely in Hl. destruct (for_each _ _ o1) as [[] o2| | |];
    [|discriminate|discriminate|auto].
  intros E. pose proof (orderly_reset (mkLeave false true) r [] eq_refl o2 Hl) as Hr.
  unfold safely in Hr. unfold cmd_halt in E, Hr. cbn [may_wait] in Hr. by rewrite E in Hr.
Qed.


(** ** The allocator, called from the shell *)

(** Code that comes back to the invariant is orderly. *)
Lemma orderly_surely {A} w (c : M os A) (Q : A -> os -> Prop) :
  (forall o, prompt o -> surely c o Q) -> (forall a o, Q a o -> prompt o) -> orderly w c.
Proof.
  intros Hc HQ o Ho. destruct (Hc o Ho) as (a & o' & E & H'). eapply safely_Done; [exact E|by eapply HQ].
Qed.

Lemma orderly_alloc w args : orderly w (cmd_alloc args).
Proof. apply (orderly_surely w _ (verdict held)); [intros o Ho; by apply alloc_verdict|by intros a o []]. Qed.

Lemma orderly_stats w (virtual : bool) :
  orderly w (in_kernel (if virtual then virtual_stats else kernel_stats)).
Proof.
  apply (orderly_surely w _ (fun _ => prompt)); [|done]. intros o (kb & vb & Ho). apply (surely_stats Ho).
  intros st s' _ Ho'. by eapply prompt_ready.
Qed.

Lemma orderly_kernel {A} w (f : kernel -> A) : orderly w (in_kernel (gets f)).
Proof. intros o Ho. by apply (prompt_kernel o). Qed.

Lemma orderly_sys_gets {A} w (f : sys -> A) : orderly w (in_sys (gets f)).
Proof. apply orderly_looks, looks_gets. Qed.

Lemma orderly_mem w args : orderly w (cmd_mem args).
Proof.
  unfold cmd_mem, get_ram, heap_window. apply orderly_bind; [apply orderly_kernel|intros ram].
  apply orderly_bind; [apply orderly_kernel|intros window]. apply orderly_bind; [apply orderly_print|intros _].
  apply orderly_bind; [auto with kfs|intros _]. apply orderly_bind; [apply orderly_sys_gets|intros p].
  do 4 (apply orderly_bind; [apply orderly_print|intros _]).
  apply orderly_bind; [exact (orderly_stats w false)|intros st]. apply orderly_bind; [apply orderly_report|intros _].
  apply orderly_bind; [exact (orderly_stats w true)|intros st']. apply orderly_report.
Qed.

(** ** The shell *)

Section Shell.
Context (r : regs).

(** The commands that may stop the processor; only [reboot] waits. *)
Definition STOPPING : list (list Z) := map bytes ["fault"; "panic"; "reboot"; "halt"]%string.

Definition leave_of (name : list Z) : leave :=
  mkLeave (bool_decide (name = bytes "reboot")) (bool_decide (name ∈ STOPPING)).

Lemma orderly_table :
  Forall (fun c => forall args, orderly (leave_of (bytes c.1.1)) (c.2 args)) (combine CMD_TEXT (CMD_RUN r)).
Proof.
  unfold CMD_TEXT, CMD_RUN. cbn [combine].
  repeat (apply Forall_cons_iff; split; [cbn [fst snd]; intros args|]); [..|constructor].
  - apply orderly_mem.
  - apply orderly_space.
  - apply orderly_pages.
  - apply orderly_virt.
  - apply orderly_alloc.
  - apply orderly_user.
  - apply orderly_fault. reflexivity.
  - apply orderly_panic. reflexivity.
  - apply orderly_stack.
  - apply orderly_gdt.
  - apply orderly_clear.
  - apply orderly_reboot; reflexivity.
  - apply orderly_halt. reflexivity.
  - apply orderly_help.
Qed.

Lemma find_command_in name run :
  find_command r name = Some run -> exists c, c ∈ combine CMD_TEXT (CMD_RUN r) /\ bytes c.1.1 = name /\ c.2 = run.
Proof.
  unfold find_command. intros E. apply fmap_Some in E as (c & Hc & ->).
  destruct (List.filter _ _) as [|c' l] eqn:Ef; [discriminate|]. injection Hc as ->.
  assert (List.In c (c :: l)) as Hin by (by left). rewrite <- Ef in Hin. apply filter_In in Hin as [Hin Hb].
  exists c. split; [by apply list_elem_of_In|]. split; [by apply bool_decide_eq_true in Hb|done].
Qed.

Lemma orderly_dispatch line : orderly (leave_of (fst (parse_line line))) (dispatch r line).
Proof.
  unfold dispatch. destruct (parse_line line) as [name args]. cbn [fst].
  destruct name as [|b name]; [apply orderly_ret|].
  destruct (find_command r (b :: name)) as [run|] eqn:Ef; [|apply orderly_print].
  apply find_command_in in Ef as (c & Hin & <- & <-). pose proof orderly_table as Ht.
  rewrite Forall_elem_of in Ht. exact (Ht c Hin args).
Qed.

Lemma dispatch_waits line o :
  prompt o -> dispatch r line o = OutOfFuel ->
  fst (parse_line line) = bytes "reboot" /\ (idle (o_input o) < 10)%nat.
Proof.
  intros Ho E. pose proof (orderly_dispatch line o Ho) as Hd. unfold safely in Hd. rewrite E in Hd.
  cbn [leave_of may_wait] in Hd. apply bool_decide_eq_true in Hd. split; [exact Hd|].
  revert E. unfold dispatch. destruct (parse_line line) as [name args]. cbn [fst] in Hd. subst name.
  assert (find_command r (bytes "reboot") = Some (cmd_reboot r)) as -> by reflexivity.
  exact (reboot_waits r args o Ho).
Qed.

(** *** Reading a line *)

(** It touches the screen, the ports and the shift key. *)
Lemma orderly_poll w : may_wait w = true -> orderly w poll.
Proof.
  intros Hw. unfold poll. apply orderly_bind; [by apply orderly_inb|intros st]. apply orderly_if; [apply orderly_ret|].
  apply orderly_bind; [by apply orderly_inb|intros sc]. apply orderly_bind; [apply orderly_gets|intros shift].
  destruct (decode shift sc) as [key shift']. apply orderly_bind; [|intros _; apply orderly_ret].
  intros o Ho. by apply (prompt_kernel o).
Qed.

Lemma orderly_key w key buf n : orderly w (key_step key buf n).
Proof. unfold key_step. destruct key as [[b| |sc]|]; auto 10 with kfs. Qed.

Lemma orderly_read w fuel : may_wait w = true -> forall buf n, orderly w (read_loop fuel buf n).
Proof.
  intros Hw. induction fuel as [|fuel IH]; intros buf n; [intros o _; exact Hw|]. cbn [read_loop].
  apply orderly_bind; [by apply orderly_poll|intros key]. apply orderly_bind; [apply orderly_key|intros [[buf' n']|]];
    [apply IH|apply orderly_ret].
Qed.

(** The prompt, and the line typed at it. *)
Definition ask (buf : list Z) : M os (list Z * list Z) :=
  in_sys (on_vga (Vga.set_color Vga.BrightCyan Vga.Black)) ;;
  in_sys (on_vga (Vga.print PROMPT)) ;;
  in_sys (on_vga (Vga.set_color Vga.White Vga.Black)) ;;
  read_line buf.

Lemma orderly_ask buf : orderly (mkLeave true false) (ask buf).
Proof.
  unfold ask, read_line. do 3 (apply orderly_bind; [apply orderly_vga|intros _]).
  apply orderly_bind; [intros o Ho; exact Ho|intros o]. apply orderly_bind; [by apply orderly_read|].
  intros [buf' n]. apply orderly_ret.
Qed.

Lemma turn_ask buf o : turn r buf o = (got <- ask buf ;; dispatch r got.2 ;; ret got.1) o.
Proof. reflexivity. Qed.

(** The bytes of the ports say that Enter was pressed: after a status with bit
    0 set, the scancode 0x1c. *)
Fixpoint pressed_enter (input : list Z) : bool :=
  match input with
  | [] => false
  | status :: rest =>
      if Z.land status 1 =? 0 then pressed_enter rest
      else match rest with
           | [] => false
           | scancode :: rest => (scancode =? 0x1c) || pressed_enter rest
           end
  end.

Lemma key_step_done key buf n o :
  exists next o', key_step key buf n o = Done next o' /\ o_input o' = o_input o /\
    (key = Some (Char 10) -> next = None).
Proof.
  unfold key_step. destruct key as [[b| |sc]|].
  - destruct (Z.eqb_spec b 10); [by eexists None, _|]. destruct (n <? LINE_MAX);
      (eexists _, _; split; [reflexivity|split; [reflexivity|congruence]]).
  - destruct (n >? 0); (eexists _, _; split; [reflexivity|split; [reflexivity|congruence]]).
  - eexists _, _; split; [reflexivity|split; [reflexivity|congruence]].
  - eexists _, _; split; [reflexivity|split; [reflexivity|congruence]].
Qed.

Lemma poll_done o key o' :
  poll o = Done key o' -> (length (o_input o') < length (o_input o))%nat /\
    (key <> Some (Char 10) -> pressed_enter (o_input o') = false -> pressed_enter (o_input o) = false).
Proof.
  unfold poll, bind, inb. destruct (o_input o) as [|st rest]; [done|]. cbn [o_input pressed_enter].
  destruct (Z.land st 1 =? 0); [intros [= <- <-]; cbn; by auto with lia|]. cbn [o_input].
  destruct rest as [|sc rest]; [done|]. unfold gets. cbn [o_shift].
  destruct (decode (o_shift o) sc) as [k shift] eqn:Ed. intros [= <- <-]. cbn [o_input with_shift length].
  split; [lia|]. intros Hk Hr. rewrite Hr, orb_false_r. apply Z.eqb_neq. intros ->. apply Hk.
  change (decode (o_shift o) 28) with (decode (o_shift o) 0x1c) in Ed.
  destruct (o_shift o); vm_compute in Ed; congruence.
Qed.

Lemma poll_waits o : poll o = OutOfFuel -> pressed_enter (o_input o) = false.
Proof.
  unfold poll, bind, inb. destruct (o_input o) as [|st rest]; [done|]. cbn [o_input pressed_enter].
  destruct (Z.land st 1 =? 0); [done|]. cbn [o_input]. destruct rest as [|sc rest]; [done|].
  unfold gets. by destruct (decode _ sc).
Qed.

Lemma read_waits fuel : forall buf n o, (length (o_input o) < fuel)%nat ->
  read_loop fuel buf n o = OutOfFuel -> pressed_enter (o_input o) = false.
Proof.
  induction fuel as [|fuel IH]; intros buf n o Hf; [lia|]. cbn [read_loop]. unfold bind at 1.
  destruct (poll o) as [key o1|? ? ?|?|] eqn:Ep; [|done|done|intros _; by apply poll_waits].
  destruct (poll_done _ _ _ Ep) as [Hl Hn].
  destruct (key_step_done key buf n o1) as (next & o2 & Ek & Hin & Hkey). rewrite (bind_Done _ _ _ _ _ Ek).
  destruct next as [[buf' n']|]; [|done]. intros E. apply Hn; [intros Hk; by specialize (Hkey Hk)|].
  rewrite <- Hin. apply (IH buf' n'); [rewrite Hin; lia|exact E].
Qed.

Lemma ask_waits buf o : ask buf o = OutOfFuel -> pressed_enter (o_input o) = false.
Proof.
  unfold ask. set (o1 := with_osys (with_vga (Vga.set_color Vga.BrightCyan Vga.Black (s_vga (o_sys o))) (o_sys o)) o).
  set (o2 := with_osys (with_vga (Vga.print PROMPT (s_vga (o_sys o1))) (o_sys o1)) o1).
  set (o3 := with_osys (with_vga (Vga.set_color Vga.White Vga.Black (s_vga (o_sys o2))) (o_sys o2)) o2).
  rewrite (bind_Done _ _ o tt o1) by reflexivity. rewrite (bind_Done _ _ o1 tt o2) by reflexivity.
  rewrite (bind_Done _ _ o2 tt o3) by reflexivity.
  change (o_input o) with (o_input o3).
  unfold read_line. rewrite (bind_Done get _ o3 o3 o3) by reflexivity. clearbody o3. clear o1 o2. unfold bind at 1.
  destruct (read_loop _ buf 0 o3) as [[? ?] ?| | |] eqn:E; try done. intros _.
  eapply read_waits; [|exact E]. lia.
Qed.

(** *** Turns *)

Lemma orderly_turn buf : orderly (mkLeave true true) (turn r buf).
Proof.
  intros o Ho. pose proof (orderly_ask buf o Ho) as Ha. unfold safely in *. rewrite turn_ask. unfold bind at 1.
  destruct (ask buf o) as [got o1|? ? ?|?|]; [|done|done|done].
  pose proof (orderly_dispatch got.2 o1 Ha) as Hd. unfold safely in Hd. unfold bind.
  by destruct (dispatch r got.2 o1) as [[] o2|? ? ?|?|].
Qed.

Lemma dispatch_cases line o :
  prompt o ->
  (exists o', dispatch r line o = Done tt o' /\ prompt o') \/
  (exists o', dispatch r line o = Halted o' /\ fst (parse_line line) ∈ STOPPING) \/
  (dispatch r line o = OutOfFuel /\ fst (parse_line line) = bytes "reboot" /\ (idle (o_input o) < 10)%nat).
Proof.
  intros Ho. pose proof (orderly_dispatch line o Ho) as Hd. pose proof (dispatch_waits line o Ho) as Hw.
  unfold safely in Hd. destruct (dispatch r line o) as [[] o'| |o'|].
  - left. by exists o'.
  - contradiction.
  - right. left. exists o'. split; [done|]. by apply bool_decide_eq_true in Hd.
  - right. right. split; [done|by apply Hw].
Qed.

(** C3: Whatever line is typed at the prompt, the kernel survives it: the
    command returns with the invariant (both heaps well formed, the kernel's
    window mapped as at start-up with the code closed to writes, and the
    bytes of code, read-only data, segments and gates as they were), or it
    stops the processor, and is one of the four made to do so ([fault],
    [panic], [reboot], [halt]), or it is [reboot] and fewer than ten of the
    answers the keyboard controller still has to give are ready.  No command
    takes a fault the kernel does not handle, and
    every loop of every command ends.  The physical window of the kernel heap
    is at most 24 mb here; above that [fault kernel] may write into it. *)
Theorem dispatch_keeps_prompt line o :
  prompt o ->
  (exists o', dispatch r line o = Done tt o' /\ prompt o') \/
  (exists o', dispatch r line o = Halted o' /\ fst (parse_line line) ∈ STOPPING) \/
  (dispatch r line o = OutOfFuel /\ fst (parse_line line) = bytes "reboot" /\ (idle (o_input o) < 10)%nat).
Proof. exact (dispatch_cases line o). Qed.

(** The state in which [run], started in [o0], is about to read the line that
    follows [n] others. *)
Inductive after_lines (o0 : os) : nat -> list Z -> os -> Prop :=
| first_line o :
    print (bytes "type `help` for the command list" ++ newline) o0 = Done tt o ->
    after_lines o0 0 (replicate (Z.to_nat LINE_MAX) 0) o
| next_line n buf o buf' o' :
    after_lines o0 n buf o -> turn r buf o = Done buf' o' -> after_lines o0 (S n) buf' o'.

Definition at_line (o0 : os) (buf : list Z) (o : os) : Prop := exists n, after_lines o0 n buf o.

Lemma after_lines_prompt o0 n buf o : prompt o0 -> after_lines o0 n buf o -> prompt o.
Proof.
  intros Ho. induction 1 as [o E|n buf o buf' o' _ IH E].
  - pose proof (orderly_print (mkLeave false false) (bytes "type `help` for the command list" ++ newline) o0 Ho) as Hp.
    unfold safely in Hp. by rewrite E in Hp.
  - pose proof (orderly_turn buf o IH) as Ht. unfold safely in Ht. by rewrite E in Ht.
Qed.

Lemma at_line_prompt o0 buf o : prompt o0 -> at_line o0 buf o -> prompt o.
Proof. intros Ho [n Hl]. by eapply after_lines_prompt. Qed.

(** How [run], started in [o0] and given [turns] lines, stands: about to read
    the next line; reading one whose Enter is not among the answers of the
    keyboard controller; running [reboot] while the controller is busy; or
    stopped by a command made to stop.  It has neither returned nor taken a
    fault that is not handled. *)
Inductive stands (o0 : os) (turns : nat) : outcome os unit -> Prop :=
| stands_at_line buf o : after_lines o0 turns buf o -> stands o0 turns OutOfFuel
| stands_reading n buf o :
    (n < turns)%nat -> after_lines o0 n buf o -> ask buf o = OutOfFuel -> pressed_enter (o_input o) = false ->
    stands o0 turns OutOfFuel
| stands_rebooting n buf o got o' :
    (n < turns)%nat -> after_lines o0 n buf o -> ask buf o = Done got o' -> dispatch r got.2 o' = OutOfFuel ->
    fst (parse_line got.2) = bytes "reboot" -> (idle (o_input o') < 10)%nat ->
    stands o0 turns OutOfFuel
| stands_stopped n buf o got o' o'' :
    (n < turns)%nat -> after_lines o0 n buf o -> ask buf o = Done got o' -> dispatch r got.2 o' = Halted o'' ->
    fst (parse_line got.2) ∈ STOPPING ->
    stands o0 turns (Halted o'').

Lemma run_loop_stands o0 fuel : forall n buf o,
  prompt o0 -> after_lines o0 n buf o -> stands o0 (n + fuel) (run_loop r fuel buf o).
Proof.
  induction fuel as [|fuel IH]; intros n buf o Ho Hl; cbn [run_loop].
  { eapply stands_at_line. rewrite Nat.add_0_r. exact Hl. }
  pose proof (after_lines_prompt _ _ _ _ Ho Hl) as Hp. pose proof (orderly_ask buf o Hp) as Ha.
  unfold bind at 1. pose proof (turn_ask buf o) as Et. unfold bind in Et. unfold safely in Ha.
  destruct (ask buf o) as [got o1|? ? ?|?|] eqn:Ea; [|done|done|].
  2: { rewrite Et. eapply (stands_reading _ _ n); [lia|exact Hl|exact Ea|by eapply ask_waits]. }
  destruct (dispatch_cases got.2 o1 Ha) as [(o2 & Ed & _)|[(o2 & Ed & Hs)|(Ed & Hn & Hi)]]; rewrite Ed in Et; rewrite Et.
  - replace (n + S fuel)%nat with (S n + fuel)%nat by lia. apply IH; [exact Ho|]. eapply next_line; [exact Hl|exact Et].
  - eapply (stands_stopped _ _ n); [lia|exact Hl|exact Ea|exact Ed|exact Hs].
  - eapply (stands_rebooting _ _ n); [lia|exact Hl|exact Ea|exact Ed|exact Hn|exact Hi].
Qed.

Lemma run_stands fuel o : prompt o -> stands o fuel (run r fuel o).
Proof.
  intros Ho. unfold run.
  assert (exists o1, print (bytes "type `help` for the command list" ++ newline) o = Done tt o1) as (o1 & E)
    by (eexists; reflexivity).
  rewrite (bind_Done _ _ _ _ _ E). apply (run_loop_stands o fuel 0); [exact Ho|by apply first_line].
Qed.

End Shell.

End Prompt.

Lemma dispatch_keeps_prompt_witness :
  exists o, @dispatch demo_linker demo_regs (bytes "alloc") demo_prompt_os = Done tt o /\
    @prompt demo_linker (demo_held demo_vm) o.
Proof.
  destruct (@dispatch_keeps_prompt demo_linker demo_linker_ok (demo_held demo_vm) demo_regs (bytes "alloc")
    demo_prompt_os demo_at_prompt) as [H1|[(o & _ & H2)|(_ & H3 & _)]]; [exact H1| |]; exfalso.
  - revert H2. apply (bool_decide_unpack (_ ∉ _)). vm_compute. exact I.
  - vm_compute in H3. discriminate.
Defined.
