(* ===== verification/Startup.v ===== *)
(** * The kernel from boot.asm to the shell

    [kmain] up to [shell::run], composed of the theorems about each step. *)

From S2P Require Import Prelude.
From S2P Require Import Mem.
From S2P Require Import Klib.
From S2P Require Import Machine.
From S2P Require Import Multiboot.
From S2P Require Import Pmm.
From S2P Require Import Vga.
From S2P Require Import Fmt.
From S2P Require Import Heap.
From S2P Require Import HeapOps.
From S2P Require Import Kmalloc.
From S2P Require Import PagingSpec.
From S2P Require Import PagingOps.
From S2P Require Import BootMem.
From S2P Require Import Gdt.
From S2P Require Import Segments.
From S2P Require Import Idt.
From S2P Require Import Exceptions.
From S2P Require Import ProbeSpec.
From S2P Require Import BootSpec.
From S2P Require Import Fixtures.
From S2P Require Import Os.
From S2P Require Import Kmain.
From S2P Require Import Shell.
From S2P Require Import Ready.
From S2P Require Import Prompt.

(** ** The loader's data survives the first steps *)

Lemma pread32_same ram ram' a lo hi :
  (forall x, lo <= x < hi -> pread8 ram' x = pread8 ram x) -> lo <= a -> a + 4 <= hi ->
  pread32 ram' a = pread32 ram a.
Proof. intros Hx H1 H2. unfold pread32. rewrite !Hx by lia. done. Qed.

Lemma pread64_same ram ram' a lo hi :
  (forall x, lo <= x < hi -> pread8 ram' x = pread8 ram x) -> lo <= a -> a + 8 <= hi ->
  pread64 ram' a = pread64 ram a.
Proof. intros Hx H1 H2. unfold pread64. rewrite !(pread32_same ram ram' _ lo hi) by (done || lia). done. Qed.

Lemma entries_at_same ram ram' lo hi es : forall a stop,
  (forall x, lo <= x < hi -> pread8 ram' x = pread8 ram x) -> lo <= a -> stop <= hi ->
  entries_at ram a es stop -> entries_at ram' a es stop.
Proof.
  induction es as [|e es IH]; intros a stop Hx Ha Hs; cbn [entries_at]; [done|].
  intros (H1 & H2 & H3 & H4 & H5 & H6). pose proof (entries_at_le _ _ _ _ H6) as Hle.
  rewrite !(pread32_same ram ram' _ lo hi), !(pread64_same ram ram' _ lo hi) by (done || lia).
  split_and!; try done; try lia. apply IH; [done|lia|done|done].
Qed.

(** The structure and the map lie between the first page and the first mb. *)
Definition loaded_low (ram : gmap Z Z) (info : Z) (es : list entry) : Prop :=
  loaded ram info es /\ 4096 <= info /\ info + 52 <= 1048576 /\
  4096 <= pread32 ram (info + 48) /\ pread32 ram (info + 48) + pread32 ram (info + 44) <= 1048576.

Lemma loaded_low_same ram ram' info es :
  (forall x, 4096 <= x < 1048576 -> pread8 ram' x = pread8 ram x) ->
  loaded_low ram info es -> loaded_low ram' info es.
Proof.
  intros Hx ([L1 L2 L3 L4 L5] & H1 & H2 & H3 & H4).
  assert (forall k, 0 <= k <= 48 -> pread32 ram' (info + k) = pread32 ram (info + k)) as Hk.
  { intros k Hk. apply (pread32_same ram ram' _ 4096 1048576); [done|lia|lia]. }
  pose proof (Hk 0 ltac:(lia)) as Hk0. rewrite Z.add_0_r in Hk0.
  unfold loaded_low. rewrite !Hk by lia. split; [|done].
  split; rewrite ?Hk, ?Hk0 by lia; try done.
  apply (entries_at_same ram ram' 4096 1048576); done.
Qed.

Section Startup.
Context `{LK : LinkerOk}.

(** What boot.asm and the loader hand over to [kmain]. *)
Record handover (o : os) (info : Z) (es : list entry) : Prop := {
  ho_fresh : fresh (o_kernel o);
  ho_loaded : loaded_low (m_ram (s_machine (o_sys o))) info es;
  ho_stubs : stubs_in (s_machine (o_sys o));
}.

(** Lifting a result of one part. *)
Lemma in_cpu_Done {A} (c : M (cpu * sys) A) o a cs :
  c (o_cpu o, o_sys o) = Done a cs ->
  in_cpu c o = Done a (mkOs (with_sys cs.2 (o_kernel o)) cs.1 (o_shift o) (o_input o) (o_trace o)).
Proof. intros E. unfold in_cpu, zoom. by rewrite E. Qed.

Lemma in_sys_Done {A} (c : M sys A) o a s :
  c (o_sys o) = Done a s -> in_sys c o = Done a (with_osys s o).
Proof. intros E. unfold in_sys, zoom. by rewrite E. Qed.

Lemma in_kernel_Done {A} (c : M kernel A) o a k :
  c (o_kernel o) = Done a k -> in_kernel c o = Done a (with_kernel k o).
Proof. intros E. unfold in_kernel, zoom. by rewrite E. Qed.

Lemma in_kernel_Halted {A} (c : M kernel A) o k :
  c (o_kernel o) = Halted k -> in_kernel c o = Halted (with_kernel k o).
Proof. intros E. unfold in_kernel, zoom. by rewrite E. Qed.

(** An early step of the machine keeps what was handed over. *)
Lemma handover_step o o' info es (P : Z -> Prop) :
  handover o info es -> early P (s_machine (o_sys o)) (s_machine (o_sys o')) ->
  (forall a, P a -> a < 4096 \/ at_phys kernel_readonly_end <= a) ->
  s_pmm (o_sys o') = s_pmm (o_sys o) -> k_heap (o_kernel o') = k_heap (o_kernel o) ->
  v_heap (o_kernel o') = v_heap (o_kernel o) -> handover o' info es.
Proof.
  intros [[F1 F2 [F3 F4]] Hl Hs] He HP E1 E2 E3.
  destruct lk_start as [L1 _], lk_code as [L2 L3], lk_table as (_ & T2 & T3). split.
  - split; [apply He|by rewrite <- F2|by rewrite E2, E3].
  - eapply loaded_low_same; [|exact Hl]. intros x Hx. apply (ea_bytes _ _ _ He).
    intros Hp. apply HP in Hp. unfold at_phys in Hp. lia.
  - intros v stub Hv. rewrite <- (Hs v stub Hv). assert (v < 32)%nat by (by apply lookup_lt_Some in Hv).
    apply (early_word _ _ _ _ He). intros x Hx Hp. apply HP in Hp. unfold at_phys in *. lia.
Qed.

(** A step that only writes the screen. *)
Lemma vga_keeps f o info es :
  handover o info es ->
  exists o', handover o' info es /\ o_cpu o' = o_cpu o /\ o_input o' = o_input o /\
    s_esp (o_sys o') = s_esp (o_sys o) /\ s_machine (o_sys o') = s_machine (o_sys o) /\ forall A (k : unit -> M os A), (u <- in_sys (on_vga f) ;; k u) o = k tt o'.
Proof.
  intros Ho. exists (with_osys (with_vga (f (s_vga (o_sys o))) (o_sys o)) o).
  split; [|split; [|split; [|split; [|split]]]]; try reflexivity.
  apply (handover_step o _ info es (fun _ => False) Ho); try reflexivity; [|intros a []].
  exact (early_refl _ _ (fr_boot _ (ho_fresh _ _ _ Ho))).
Qed.

Lemma utoa_42 : utoa 42 (replicate 10 0) = Some (bytes "42").
Proof. reflexivity. Qed.

(** The two table registers and the code segment, as the two installs leave
    them. *)
Definition cpu_ready (c : cpu) : Prop :=
  c_gdtr c = mkGdtr 55 BASE /\ c_idtr c = mkGdtr 2047 idt_table /\
  c_cs c = mkSegreg KERNEL_CODE (flat KERNEL_EXEC) /\ c_ss c = mkSegreg KERNEL_STACK (flat KERNEL_RW).

(** Bytes of the code and of the read-only data. *)
Definition same_code (m m' : machine) : Prop :=
  forall a, at_phys kernel_start <= a < at_phys kernel_readonly_end -> pread8 (m_ram m') a = pread8 (m_ram m) a.

(** The descriptor tables and the code, carried over to another memory. *)
Lemma tables_same m m' :
  (forall a, guarded a -> pread8 (m_ram m') a = pread8 (m_ram m) a) ->
  (gdt_in m -> gdt_in m') /\ (gates_in m -> gates_in m') /\ same_code m m'.
Proof.
  intros Hg. split; [|split].
  - intros Hin i seg Hi. rewrite <- (Hin i seg Hi). assert (i < 7)%nat by (by apply lookup_lt_Some in Hi).
    apply (pread64_same _ _ _ BASE (BASE + 56)); [|lia|lia]. intros x Hx. apply Hg. by left.
  - intros Hin v stub Hv. rewrite <- (Hin v stub Hv).
    assert (v < 32)%nat by (by apply lookup_lt_Some in Hv).
    apply (pread64_same _ _ _ (at_phys idt_table) (at_phys idt_table + 2048)); [|lia|lia].
    intros x Hx. apply Hg. by right; right.
  - intros a Ha. apply Hg. by right; left.
Qed.

(** The steps before [mem::init]. *)
Lemma early_steps {A} o info es (k : unit -> M os A) :
  handover o info es ->
  exists o', handover o' info es /\ cpu_ready (o_cpu o') /\ o_input o' = o_input o /\
    s_esp (o_sys o') = s_esp (o_sys o) /\ gdt_in (s_machine (o_sys o')) /\ gates_in (s_machine (o_sys o')) /\
    same_code (s_machine (o_sys o)) (s_machine (o_sys o')) /\
    (in_cpu Gdt.install ;; in_sys (on_vga Vga.clear) ;;
     match utoa 42 (replicate 10 0) with
     | Some text => in_sys (on_vga (Vga.print text))
     | None => in_sys (on_panic (bytes "index out of bounds"))
     end ;;
     in_sys (on_vga (Vga.print newline)) ;; in_sys (on_vga (set_color BrightGreen Black)) ;;
     print (bytes "kfs-" ++ dec 3 ++ newline) ;; in_sys (on_vga (set_color White Black)) ;;
     u <- in_cpu Idt.install ;; k u) o = k tt o'.
Proof.
  intros Ho. destruct (gdt_install_spec (o_cpu o) (o_sys o)) as
    (c1 & m1 & E1 & G0 & G1 & _ & G2 & G3 & _ & S1); [apply Ho|].
  rewrite (bind_Done _ _ _ _ _ (in_cpu_Done _ o _ _ E1)). cbn [fst snd].
  set (o1 := mkOs (with_sys (with_machine m1 (o_sys o)) (o_kernel o)) c1 (o_shift o) (o_input o) (o_trace o)).
  assert (handover o1 info es) as Ho1.
  { apply (handover_step o o1 info es (fun a => BASE <= a < BASE + 56)); [exact Ho|exact S1| |done..].
    unfold BASE. lia. }
  assert (o_cpu o1 = c1) as C1 by reflexivity. assert (o_input o1 = o_input o) as I1 by reflexivity.
  assert (s_esp (o_sys o1) = s_esp (o_sys o)) as P1 by reflexivity.
  assert (s_machine (o_sys o1) = m1) as M1 by reflexivity.
  clearbody o1. rewrite utoa_42. unfold print, printk, write_str.
  destruct (vga_keeps Vga.clear o1 info es Ho1) as (o2 & Ho2 & C2 & I2 & P2 & M2 & ->).
  destruct (vga_keeps (Vga.print (bytes "42")) o2 info es Ho2) as (o3 & Ho3 & C3 & I3 & P3 & M3 & ->).
  destruct (vga_keeps (Vga.print newline) o3 info es Ho3) as (o4 & Ho4 & C4 & I4 & P4 & M4 & ->).
  destruct (vga_keeps (set_color BrightGreen Black) o4 info es Ho4) as (o5 & Ho5 & C5 & I5 & P5 & M5 & ->).
  match goal with |- context [on_vga (Vga.print ?x)] =>
    destruct (vga_keeps (Vga.print x) o5 info es Ho5) as (o6 & Ho6 & C6 & I6 & P6 & M6 & ->) end.
  destruct (vga_keeps (set_color White Black) o6 info es Ho6) as (o7 & Ho7 & C7 & I7 & P7 & M7 & ->).
  assert (o_cpu o7 = c1) as Ec by congruence. assert (o_input o7 = o_input o) as Ei by congruence.
  assert (s_esp (o_sys o7) = s_esp (o_sys o)) as Ep by congruence.
  assert (s_machine (o_sys o7) = m1) as Em by congruence. clear M1 M2 M3 M4 M5 M6 M7.
  destruct (idt_install_spec (o_cpu o7) (o_sys o7)) as (c3 & s3 & E3 & Hc3 & Hp3 & He3 & S3 & _ & Hg3); [apply Ho7|apply Ho7|].
  rewrite (bind_Done _ _ _ _ _ (in_cpu_Done _ o7 _ _ E3)). cbn [fst snd].
  assert (forall a, boot_phys idt_table <= a < boot_phys idt_table + 256 -> at_phys kernel_readonly_end <= a) as Hidt.
  { intros a Ha. destruct lk_start as [L1 _], lk_code as [L2 L3], lk_idt as (_ & J2 & _).
    unfold boot_phys, at_phys in *. destruct (Z.ltb_spec idt_table 4194304); lia. }
  assert (at_phys kernel_readonly_end >= 1048576 /\ at_phys kernel_start >= 1048576) as [Hlow1 Hlow2].
  { destruct lk_start as [L1 _], lk_code as [L2 L3]. unfold at_phys. lia. }
  assert (forall a, a < at_phys kernel_readonly_end -> pread8 (m_ram (s_machine s3)) a = pread8 (m_ram m1) a) as Hb3.
  { intros a Ha. rewrite (ea_bytes _ _ _ S3), Em; [reflexivity|]. intros Hx. apply Hidt in Hx. lia. }
  eexists (mkOs (with_sys s3 (o_kernel o7)) c3 _ _ _).
  split; [|split; [|split; [|split; [|split; [|split; [exact Hg3|split; [|reflexivity]]]]]]].
  - refine (handover_step o7 (mkOs (with_sys s3 (o_kernel o7)) c3 _ _ _) info es _ Ho7 S3 _ Hp3 eq_refl eq_refl).
    intros a Ha. right. by apply Hidt.
  - rewrite Hc3, Ec. split; [exact G1|]. split; [reflexivity|]. split; [exact G2|exact G3].
  - exact Ei.
  - exact (eq_trans He3 Ep).
  - intros i seg Hi. rewrite <- (G0 i seg Hi). assert (i < 7)%nat by (by apply lookup_lt_Some in Hi).
    apply (pread64_same _ _ _ BASE (BASE + 56)); [|lia|lia]. intros x Hx. apply Hb3. unfold BASE in Hx. lia.
  - intros a Ha. transitivity (pread8 (m_ram m1) a); [apply Hb3; lia|]. apply (ea_bytes _ _ _ S1).
    unfold BASE. lia.
Qed.

(** What start-up leaves for the shell. *)
Record brought_up (es : list entry) (o o' : os) : Prop := {
  br_heaps : heaps_ok (o_kernel o') [] [];
  br_vm : kernel_vm (s_machine (o_sys o'));
  br_cpu : cpu_ready (o_cpu o');
  br_ram : k_ram (o_kernel o') = map_ram es;
  br_input : o_input o' = o_input o;
  br_heap : k_heap (o_kernel o') = attach (k_window (o_kernel o')) KERNEL_HEAP;
  br_window : (k_window (o_kernel o')).2 - (k_window (o_kernel o')).1 <= want (map_ram es);
  br_esp : s_esp (o_sys o') = s_esp (o_sys o);
  br_spared : forall f, 0 <= f < at_phys kernel_end / 4096 ->
    (f ∉ free_set (s_pmm (o_sys o'))) /\ outside (k_heap (o_kernel o')) f;
  br_gdt : gdt_in (s_machine (o_sys o'));
  br_gates : gates_in (s_machine (o_sys o'));
  br_code : same_code (s_machine (o_sys o)) (s_machine (o_sys o'));
}.

Lemma bring_up_spec fuel info es o :
  handover o info es -> (length es < fuel)%nat ->
  ram_count (map_ram es) <> 0 -> usable_ram (map_ram es) ->
  (exists o', bring_up fuel BOOT_MAGIC info o = Done tt o' /\ brought_up es o o') \/
  (exists o', bring_up fuel BOOT_MAGIC info o = Halted o' /\
     forall j, 0 <= j -> 16 <= want (map_ram es) / 4096 / 2 ^ j ->
       largest_run (boot_pmm (map_ram es)) < want (map_ram es) / 4096 / 2 ^ j).
Proof.
  intros Ho Hf Hc Hu. unfold bring_up.
  destruct (early_steps o info es (fun _ => in_kernel (Boot.init fuel BOOT_MAGIC info)) Ho)
    as (o1 & [Hfr [Hl _] _] & Hcpu & Hin & Hesp & Hgdt & Hgates & Hcode & ->).
  destruct (mem_init_spec fuel info es (o_kernel o1) Hfr Hl Hf Hc Hu)
    as [(k & E & H1 & H2 & H3 & H4 & H5 & H6 & H7 & H8)|(k & E & H1)].
  - left. eexists. split; [exact (in_kernel_Done _ _ _ _ E)|].
    destruct (tables_same (s_machine (o_sys o1)) (s_machine (k_sys k))) as (T1 & T2 & T3).
    { intros a Ha. apply H7. exact (proj2 (guarded_frame a Ha)). }
    split; [exact H1|exact H2|exact Hcpu|exact H3|exact Hin|exact H4|exact H5|exact (eq_trans H6 Hesp)|exact H8
      |exact (T1 Hgdt)|exact (T2 Hgates)|].
    intros a Ha. exact (eq_trans (T3 a Ha) (Hcode a Ha)).
  - right. eexists. split; [exact (in_kernel_Halted _ _ _ E)|exact H1].
Qed.

(** C7: The kernel comes up: from the machine boot.asm hands over and a
    loader's map in conventional memory, with some available memory and
    regions that end at least two pages below 4 gb, [kmain] reaches the shell with its
    segment descriptors and gates in memory and in the registers, its page
    tables in place and both heaps empty and well formed, the kernel heap on
    the window that was carved for it outside conventional memory and the
    image, its code as it was loaded, having read nothing from the ports; or
    no run of free frames is long enough for the kernel heap and the processor
    stops. *)
Theorem kmain_brings_up fuel info es o :
  handover o info es -> (length es < fuel)%nat ->
  ram_count (map_ram es) <> 0 -> usable_ram (map_ram es) ->
  (exists o', bring_up fuel BOOT_MAGIC info o = Done tt o' /\ brought_up es o o') \/
  (exists o', bring_up fuel BOOT_MAGIC info o = Halted o' /\
     forall j, 0 <= j -> 16 <= want (map_ram es) / 4096 / 2 ^ j ->
       largest_run (boot_pmm (map_ram es)) < want (map_ram es) / 4096 / 2 ^ j).
Proof. exact (bring_up_spec fuel info es o). Qed.

(** ** The kernel's whole life *)

Lemma want_small ram : ram_usable ram <= 0x06000000 -> 0 <= ram_usable ram -> want ram <= 0x01800000.
Proof.
  intros H1 H2. unfold want, KHEAP_LIMIT, KHEAP_BASE. rewrite wrap32_small by (unfold is_u32; dlia).
  rewrite page_of_eq by (unfold is_u32; dlia). dlia.
Qed.

(** The shell's first state satisfies its invariant. *)
Lemma brought_up_prompt es o o1 :
  brought_up es o o1 -> stack_bottom <= s_esp (o_sys o) < 4294967296 -> 0 <= ram_usable (map_ram es) <= 0x06000000 ->
  prompt (pread8 (m_ram (s_machine (o_sys o1)))) o1.
Proof.
  intros Hb Hesp Hram. pose proof (br_heaps _ _ _ Hb) as Hh. pose proof (br_spared _ _ _ Hb) as Hs.
  exists [], []. split; [exact Hh|]. split; [|split].
  - apply kernel_fixtures; [exact (ho_env _ _ _ (hp_k _ _ _ Hh))|apply Hb|by rewrite (br_esp _ _ _ Hb)| |reflexivity].
    intros f Hf. by apply Hs.
  - rewrite (br_heap _ _ _ Hb). cbn [attach h_phys_end h_phys_base]. pose proof (br_window _ _ _ Hb).
    pose proof (want_small (map_ram es) (proj2 Hram) (proj1 Hram)). lia.
  - intros a Ha. apply Hs. exact (proj1 (guarded_frame a Ha)).
Qed.

(** No run of free frames is long enough for the smallest kernel heap. *)
Definition no_window (es : list entry) : Prop :=
  forall j, 0 <= j -> 16 <= want (map_ram es) / 4096 / 2 ^ j ->
    largest_run (boot_pmm (map_ram es)) < want (map_ram es) / 4096 / 2 ^ j.

(** From the machine boot.asm hands over, on at most 96 mb of RAM, and
    whatever the ports answer, [kmain] either stops the processor because
    there is no memory for the kernel heap, or reaches the prompt, and the
    shell stands as [stands] says. *)
Lemma kmain_stands r fuel info es o :
  handover o info es -> stack_bottom <= s_esp (o_sys o) < 4294967296 -> (length es < fuel)%nat ->
  ram_count (map_ram es) <> 0 -> usable_ram (map_ram es) -> 0 <= ram_usable (map_ram es) <= 0x06000000 ->
  ((exists o', forall turns, kmain r fuel turns BOOT_MAGIC info o = Halted o') /\ no_window es) \/
  (exists o1, bring_up fuel BOOT_MAGIC info o = Done tt o1 /\
     forall turns, stands r o1 turns (kmain r fuel turns BOOT_MAGIC info o)).
Proof.
  intros Ho Hesp Hf Hc Hu Hram. unfold kmain.
  destruct (bring_up_spec fuel info es o Ho Hf Hc Hu) as [(o1 & E & Hb)|(o1 & E & Hn)]; cycle 1.
  { left. split; [|exact Hn]. exists o1. intros turns. unfold bind. by rewrite E. }
  pose proof (brought_up_prompt es o o1 Hb Hesp Hram) as Hp.
  right. exists o1. split; [exact E|]. intros turns.
  rewrite (bind_Done _ _ _ _ _ E). exact (run_stands _ r turns o1 Hp).
Qed.

(** C2: Nothing that is typed can alter the kernel.  In every state in which
    the shell is about to read a line, from the machine boot.asm hands over
    with a loader's map in conventional memory that describes some RAM, at
    most 96 mb, the code and
    the read-only data are the bytes that were loaded, the segment descriptors
    and the 32 gates are those that were installed, the kernel's window maps
    the first 4 mb with the code and the read-only data closed to writes and
    the text buffer open to them, the write protection is on, and no page of a heap or of user space is backed
    by a frame of these bytes. *)
Theorem kernel_stays_intact r fuel info es o o1 buf o' :
  handover o info es -> stack_bottom <= s_esp (o_sys o) < 4294967296 -> (length es < fuel)%nat ->
  ram_count (map_ram es) <> 0 -> usable_ram (map_ram es) -> 0 <= ram_usable (map_ram es) <= 0x06000000 ->
  bring_up fuel BOOT_MAGIC info o = Done tt o1 -> at_line r o1 buf o' ->
  let m := s_machine (o_sys o') in
  same_code (s_machine (o_sys o)) m /\ gdt_in m /\ gates_in m /\ write_protect m = true /\
  (forall va, 3221225472 <= va < 3225419776 ->
     walk m va = Some (mkTrans (at_phys va - va mod 4096) (negb (readonly va)))) /\
  (forall i, 0 <= i < CELLS -> exists t, walk m (BUFFER + 2 * i) = Some t /\ t_writable t = true /\
     t_frame t + (BUFFER + 2 * i) mod 4096 = 0xb8000 + 2 * i) /\
  (forall n e a, managed n -> page_entry m n = Some e -> guarded a -> entry_frame e / 4096 <> a / 4096).
Proof.
  intros Ho Hesp Hf Hc Hu Hram E Hl m.
  destruct (bring_up_spec fuel info es o Ho Hf Hc Hu) as [(o2 & E2 & Hb)|(o2 & E2 & _)]; [|congruence].
  rewrite E in E2. injection E2 as <-. pose proof (brought_up_prompt es o o1 Hb Hesp Hram) as Hp.
  destruct (at_line_prompt _ r o1 buf o' Hp Hl) as (kb & vb & Hr). pose proof (ready_ok _ _ _ Hr) as Hok.
  destruct Hr as (_ & Hfx & _). pose proof Hfx as [F1 _ F3 F4 F5]. destruct (tables_same (s_machine (o_sys o1)) m F5) as (T1 & T2 & T3).
  split; [intros a Ha; exact (eq_trans (T3 a Ha) (br_code _ _ _ Hb a Ha))|].
  split; [exact (T1 (br_gdt _ _ _ Hb))|]. split; [exact (T2 (br_gates _ _ _ Hb))|]. split; [exact F3|]. split.
  - intros va Hva. destruct (window_page va Hva) as (Hu' & _). rewrite walk_page_entry by (exact Hu' || apply Hok).
    by apply F1.
  - split; [intros i Hi; by apply (fixtures_screen _ _ _ Hok Hfx)|]. intros n e a Hn He Ha. destruct (F4 a Ha) as (_ & _ & H3). apply (H3 n e Hn); [destruct Hn; lia|exact He].
Qed.

End Startup.

(** ** A witness *)

Definition demo_start : os := mkOs demo_fresh demo_cpu false [] [].

Lemma demo_loaded_stubs : @stubs_in demo_linker demo_loaded.
Proof. apply demo_stubs_in. by_decide. Qed.

Lemma demo_handover : @handover demo_linker demo_start 0x9000 demo_entries.
Proof.
  split; [exact demo_is_fresh| |exact demo_loaded_stubs].
  split; [exact demo_is_loaded|]. vm_compute. repeat split; discriminate.
Qed.

(** It has room for the kernel heap. *)
Lemma demo_room (P : Prop) :
  (forall j, 0 <= j -> 16 <= want (map_ram demo_entries) / 4096 / 2 ^ j ->
     largest_run (@boot_pmm demo_linker (map_ram demo_entries)) < want (map_ram demo_entries) / 4096 / 2 ^ j) -> P.
Proof.
  intros Hn. exfalso. pose proof demo_has_room as Hr. specialize (Hn 7 ltac:(lia) ltac:(by_decide)).
  assert (want (map_ram demo_entries) / 4096 / 2 ^ 7 <= 32) as Hw by by_decide. lia.
Qed.

Lemma kmain_brings_up_witness :
  exists o, @bring_up demo_linker 4 BOOT_MAGIC 0x9000 demo_start = Done tt o /\
    @brought_up demo_linker demo_entries demo_start o.
Proof.
  destruct (@kmain_brings_up demo_linker demo_linker_ok 4 0x9000 demo_entries demo_start demo_handover
    ltac:(by_decide) ltac:(by_decide) demo_usable) as [H|(o & _ & H)]; [exact H|exact (demo_room _ H)].
Defined.

Lemma demo_up :
  exists o, @bring_up demo_linker 4 BOOT_MAGIC 0x9000 demo_start = Done tt o /\
    @brought_up demo_linker demo_entries demo_start o.
Proof.
  destruct (@bring_up_spec demo_linker demo_linker_ok 4 0x9000 demo_entries demo_start demo_handover
    ltac:(by_decide) ltac:(by_decide) demo_usable) as [H|(o & _ & H)]; [exact H|exact (demo_room _ H)].
Qed.

Lemma kernel_stays_intact_witness :
  exists o1 buf o, @bring_up demo_linker 4 BOOT_MAGIC 0x9000 demo_start = Done tt o1 /\
    @at_line demo_linker demo_regs o1 buf o /\ gdt_in (s_machine (o_sys o)) /\
    @gates_in demo_linker (s_machine (o_sys o)).
Proof.
  destruct demo_up as (o1 & E & _). eexists o1, _, _. split; [exact E|].
  assert (@at_line demo_linker demo_regs o1 (replicate (Z.to_nat LINE_MAX) 0)
    (with_osys (with_vga (Vga.print (bytes "type `help` for the command list" ++ newline) (s_vga (o_sys o1))) (o_sys o1)) o1))
    as Hl by (exists 0%nat; apply first_line; reflexivity).
  split; [exact Hl|].
  destruct (@kernel_stays_intact demo_linker demo_linker_ok demo_regs 4 0x9000 demo_entries demo_start o1 _ _
    demo_handover ltac:(by_decide) ltac:(by_decide) ltac:(by_decide) demo_usable ltac:(by_decide) E Hl)
    as (_ & H1 & H2 & _). split; [exact H1|exact H2].
Defined.
