(* ===== verification/Power.v ===== *)
(** * The system from the loader on

    [_start] of boot.asm and [kmain] of lib.rs put together: the processor
    runs the entry code until it calls [kmain], which takes its two arguments
    from the stack. *)

From S2P Require Import Prelude.
From S2P Require Import Mem.
From S2P Require Import Machine.
From S2P Require Import Multiboot.
From S2P Require Import Pmm.
From S2P Require Import Fmt.
From S2P Require Import Heap.
From S2P Require Import Kmalloc.
From S2P Require Import PagingSpec.
From S2P Require Import PagingOps.
From S2P Require Import BootMem.
From S2P Require Import Start.
From S2P Require Import Gdt.
From S2P Require Import Idt.
From S2P Require Import Exceptions.
From S2P Require Import ProbeSpec.
From S2P Require Import BootSpec.
From S2P Require Import Os.
From S2P Require Import Kmain.
From S2P Require Import Prompt.
From S2P Require Import Startup.

(** The rest of the system, on the machine and the stack of the processor. *)
Definition enter (x : core) (o : os) : os :=
  with_osys (mkSys (x_machine x) (s_pmm (o_sys o)) (s_vga (o_sys o)) (s_oops (o_sys o)) (x_regs x ESP)) o.

(** The arguments of a C function: above the return address. *)
Definition arguments : M core (Z * Z) :=
  esp <- gets (fun x => x_regs x ESP) ;;
  first <- on_x (xload32 (esp +u 4)) ;;
  second <- on_x (xload32 (esp +u 8)) ;;
  ret (first, second).

Section Power.
Context {L : Linker} {AS : Assembled} (r : regs).

(** [steps] bounds the entry code.  [Done] is a [kmain] that returned, to the
    loop [.hang] of boot.asm.  Code that is not boot.asm's has no meaning
    here: it counts as a fault. *)
(** boot.asm 38-79: _start, higher_half *)
Definition power_on (steps fuel turns : nat) (x : core) : M os unit := fun o =>
  match run_code steps x with
  | Done (Calls target) x =>
      if target =? kmain_at then
        match arguments x with
        | Done (magic, info) x => kmain r fuel turns magic info (enter x o)
        | Fault addr error x => Fault addr error (enter x o)
        | Halted x => Halted (enter x o)
        | OutOfFuel => OutOfFuel
        end
      else Fault target 0 (enter x o)
  | Done _ x => Fault (x_eip x) 0 (enter x o)
  | Fault addr error x => Fault addr error (enter x o)
  | Halted x => Halted (enter x o)
  | OutOfFuel => OutOfFuel
  end.

End Power.

Section PowerOn.
Context `{LK : LinkerOk} `{AS : Assembled} {AK : AssembledOk}.

(** The statics of the image, as compiled. *)
Record statics (o : os) : Prop := {
  st_pmm : s_pmm (o_sys o) = pmm_zero;
  st_heaps : k_heap (o_kernel o) = KERNEL_HEAP /\ v_heap (o_kernel o) = VIRTUAL_HEAP;
}.

(** What the loader leaves in memory: its structure and map below 1 mb, and
    the image. *)
Record loaded_image (info : Z) (es : list entry) (x : core) : Prop := {
  li_left : loader_left BOOT_MAGIC info x;
  li_map : loaded_low (m_ram (x_machine x)) info es;
  li_stubs : stubs_in (x_machine x);
}.

(** Bytes the entry code leaves alone. *)
Lemma spared_bytes magic info x x' a :
  entered magic info x x' -> a < at_phys kernel_readonly_end ->
  pread8 (m_ram (x_machine x')) a = pread8 (m_ram (x_machine x)) a.
Proof.
  intros He Ha. destruct lk_pages as ((A1 & A2 & _) & (B1 & B2 & _) & _), lk_readonly as [R1 _], lk_stack as (L1 & _ & _).
  destruct as_stack as (S1 & _). apply (en_bytes _ _ _ _ He).
  - unfold off_tables, boot_dir, boot_low, at_phys in *. dlia.
  - unfold pushed, at_phys in *. lia.
Qed.

Lemma arguments_spec magic info x x' :
  entered magic info x x' ->
  exists m, arguments x' = Done (magic, info) (with_xmachine m x') /\ early (fun _ => False) (x_machine x') m.
Proof.
  intros He. pose proof (en_boot _ _ _ _ He) as Hm.
  assert (paging_on (x_machine x') = true) as Hp.
  { unfold paging_on. by rewrite (en_cr0 _ _ _ _ He), Z.lor_spec, orb_true_r. }
  destruct (stack_slot 8) as (_ & W1 & A1 & P1 & _); [lia|done|].
  destruct (stack_slot 4) as (_ & W2 & A2 & P2 & _); [lia|done|].
  pose proof (early_touch (fun _ => False) _ _ Hm (windowed_u32 _ W1)) as S1.
  pose proof (early_touch (fun _ => False) _ _ (ea_ok _ _ _ S1) (windowed_u32 _ W2)) as S2.
  assert (paging_on (touch (stack_top - 8) (x_machine x')) = true) as Hp1.
  { unfold paging_on in *. by destruct (ea_regs _ _ _ S1) as (-> & _). }
  eexists. split; [|exact (early_trans _ _ _ _ S1 S2)].
  unfold arguments, bind, gets, on_x, zoom, xload32. rewrite Hp, (en_esp _ _ _ _ He).
  replace (stack_top - 12 + 4) with (stack_top - 8) by lia. replace (stack_top - 12 + 8) with (stack_top - 4) by lia.
  rewrite !wrap32_small by (by apply windowed_u32).
  rewrite (boot_load32 _ _ Hm W1) by dlia. cbn [x_machine with_xmachine].
  rewrite Hp1, (boot_load32 _ _ (ea_ok _ _ _ S1) W2) by dlia.
  rewrite P1, P2, touch_ram, (en_magic _ _ _ _ He), (en_info _ _ _ _ He). reflexivity.
Qed.

Lemma entered_handover info es x x' m o :
  loaded_image info es x -> statics o -> entered BOOT_MAGIC info x x' -> early (fun _ => False) (x_machine x') m ->
  handover (enter (with_xmachine m x') o) info es.
Proof.
  intros [_ Hl Hs] [So1 So2] He Hm. destruct lk_start as [L1 _], lk_code as [L2 L3], lk_table as (_ & T2 & T3).
  assert (forall a, a < at_phys kernel_readonly_end -> pread8 (m_ram m) a = pread8 (m_ram (x_machine x)) a) as Hb.
  { intros a Ha. rewrite (early_pread8 _ _ _ Hm). by apply (spared_bytes _ _ _ _ _ He). }
  split.
  - split; [apply Hm|exact So1|exact So2].
  - eapply loaded_low_same; [|exact Hl]. intros a Ha. apply Hb. unfold at_phys. lia.
  - intros v stub Hv. rewrite <- (Hs v stub Hv). assert (v < 32)%nat by (by apply lookup_lt_Some in Hv).
    apply (pread32_same _ _ _ (at_phys isr_table) (at_phys kernel_readonly_end)); [|lia|unfold at_phys in *; lia].
    intros y Hy. apply Hb. lia.
Qed.

(** C1: The system never takes a fault it does not handle.  A multiboot loader
    left the image, its structure and a map below 1 mb that describes some
    RAM, at most 96 mb, in regions ending two pages or more below 4 gb.  From
    the first instruction of boot.asm, whatever the ports answer, the entry code
    calls [kmain] with the two values the loader left.  [kmain] stops the
    processor when no run of free frames holds the smallest kernel heap; else
    it reaches the prompt, and given any number of lines to run it is about to
    read the next one, or reading one while the keyboard controller's answers
    hold no Enter, or running [reboot] while fewer than ten of these answers
    are ready, or it was stopped by one of [fault], [panic], [reboot] and
    [halt].  It never returns to boot.asm. *)
Theorem power_on_never_faults r fuel info es x o :
  loaded_image info es x -> statics o -> (length es < fuel)%nat ->
  ram_count (map_ram es) <> 0 -> usable_ram (map_ram es) -> 0 <= ram_usable (map_ram es) <= 0x06000000 ->
  exists x1 x2, run_code 4118 x = Done (Calls kmain_at) x1 /\ arguments x1 = Done (BOOT_MAGIC, info) x2 /\
  (((exists o', forall turns, power_on r 4118 fuel turns x o = Halted o') /\ no_window es) \/
   (exists o1, bring_up fuel BOOT_MAGIC info (enter x2 o) = Done tt o1 /\
      forall turns, stands r o1 turns (power_on r 4118 fuel turns x o))).
Proof.
  intros Hi Hs Hf Hc Hu Hram. destruct (start_spec _ _ _ (li_left _ _ _ Hi)) as (x1 & E1 & He).
  destruct (arguments_spec _ _ _ _ He) as (m & E2 & Hm).
  exists x1, (with_xmachine m x1). split; [exact E1|]. split; [exact E2|].
  pose proof (entered_handover info es x x1 m o Hi Hs He Hm) as Ho.
  assert (forall turns, power_on r 4118 fuel turns x o =
    kmain r fuel turns BOOT_MAGIC info (enter (with_xmachine m x1) o)) as Hp.
  { intros turns. unfold power_on. by rewrite E1, Z.eqb_refl, E2. }
  destruct (kmain_stands r fuel info es (enter (with_xmachine m x1) o) Ho) as [((o' & Hk) & Hn)|(o1 & Hb & Hk)]; try done.
  - change (s_esp (o_sys (enter (with_xmachine m x1) o))) with (x_regs x1 ESP). rewrite (en_esp _ _ _ _ He).
    destruct as_stack as (S1 & _), lk_stack as (_ & _ & S3), lk_end. lia.
  - left. split; [|exact Hn]. exists o'. intros turns. rewrite Hp. exact (Hk turns).
  - right. exists o1. split; [exact Hb|]. intros turns. rewrite Hp. exact (Hk turns).
Qed.

End PowerOn.

(** ** A witness *)

Lemma demo_loaded_image : @loaded_image demo_linker demo_assembled 0x9000 demo_entries (demo_core demo_ram).
Proof.
  split; [exact (demo_loader_left demo_ram demo_ram_bss)| |].
  - split; [split; vm_compute; repeat split; discriminate|]. vm_compute. repeat split; discriminate.
  - apply demo_stubs_in. by_decide.
Qed.

(** This machine has room for the heap. *)
Lemma power_on_never_faults_witness :
  exists x o1, @run_code demo_linker demo_assembled 4118 (demo_core demo_ram) = Done (Calls 0xC0102000) x /\
    @stands demo_linker demo_regs o1 7
      (@power_on demo_linker demo_assembled demo_regs 4118 4 7 (demo_core demo_ram) demo_start).
Proof.
  destruct (@power_on_never_faults demo_linker demo_linker_ok demo_assembled demo_assembled_ok demo_regs 4 0x9000
    demo_entries (demo_core demo_ram) demo_start demo_loaded_image) as (x1 & x2 & E1 & _ & [[_ Hn]|(o1 & _ & Hk)]).
  - split; [reflexivity|split; reflexivity].
  - by_decide.
  - by_decide.
  - exact demo_usable.
  - by_decide.
  - exact (demo_room _ Hn).
  - exists x1, o1. split; [exact E1|]. exact (Hk 7%nat).
Defined.
